(* ===== verification/_CoqProject ===== *)
-Q . S2P
Prelude.v
PyStr.v
PyUrl.v
PyText.v
PyRe.v
PyVal.v
PyJson.v
PyScan.v
Anvil.v
Chain.v
Divergence.v
Reconciliation.v
Confirmer.v
Safety.v
Reorg.v
PyTime.v
Transport.v
AnvilProcess.v
PyArgs.v
PySha256.v
PyDecimal.v
TokenQuirks.v
QuoteOption.v
SecurityChecks.v
Payloads.v
Load.v
Rails.v
RailsLive.v
SvmChain.v
Report.v
Receipt.v
Backends.v
RunRecord.v
Cli.v
CliRun.v
Capture.v
Mcp.v
Sut.v
Tasks.v
ReferenceSut.v
Concurrent.v
Contract.v
Script.v
SupportMatrix.v
PublicRepo.v
FunctionDocs.v
