(* ===== verification/Prelude.v ===== *)
(** * PSV: verified model of a payment-settlement verifier

    The package [psv] proves from chain data whether a payment settled, compares that
    truth with what a payment system believes, and names the divergence.  This library
    models the package in Rocq, file by file, and proves what its parts promise each
    other.  Every definition that models code keeps the name it has in the source; the
    file names below are under [src/src/psv/] unless they say otherwise.

    ** The parts and how they interact

    A caller names a settlement on a reviewed rail ([cli.py]).  The rail
    ([rails.py]) pins a token contract; [reconcile_live] reads one snapshot of the chain
    through the JSON-RPC client ([anvil.py], [chain.py]), proves the settlement, and
    hands the [SettlementTruth] with the system's belief to the detector
    ([divergence.py]).  The verdict and its evidence become a report ([report.py]), an
    exit code and an audit record ([run_record.py]).  The package also ships a reference
    payment system ([reference_sut/]) that is driven through an HTTP adapter
    ([sut.py]), submits under a safety policy ([safety.py]), credits by watching events
    ([confirmer.py]) and heals its ledger by reconciliation ([reconciliation.py]).

    ** The files

    Libraries of the language:
    - [Prelude]: exceptions and their classes, the error monad [res] ([raise],
      [try_except]), the state-and-error monad [prog] (an exception keeps the writes made
      before it), the bounds [throws], [throws_in] and [preserves] with the hint database
      [py], ordered dicts and the tactics [inv_res], [bool_facts], [solve_throws].
    - [PyStr], [PyText], [PyRe], [PyVal], [PyJson], [PyScan], [PyTime], [PyUrl], [PyArgs],
      [PySha256], [PyDecimal]: strings, searching and replacing, regular expressions,
      dynamically typed values, JSON text and the end of its scanner, [datetime],
      [urlsplit], [argparse], SHA-256 and [decimal.Decimal], as far as the package uses
      them.

    Components:
    - [Anvil] ([anvil.py]): the strict JSON-RPC client over the class [Transport].
    - [Transport], [AnvilProcess] ([anvil.py]): the HTTP transport, an instance of that
      class over the opener of [urllib], and the manager of a local chain.
    - [Chain] ([chain.py]): ABI encoders, token reads, calldata, [SettlementTruth].
    - [Divergence] ([divergence.py], [differential.py]): the detectors.
    - [Reconciliation] ([reconciliation.py]): settlement identities against a ledger.
    - [Confirmer] ([reference_sut/confirmer.py]): crediting by events.
    - [Safety] ([safety.py]): the policy of every submission, over the class [SafetyRpc].
    - [Reorg] ([reorg.py]): confirmation depth and finality.
    - [TokenQuirks] ([token_quirks.py]), [QuoteOption] ([quote_option.py]),
      [SecurityChecks] ([security_checks.py]): amounts, locked prices, identity checks.
    - [Payloads] ([payloads.py]): typed-data payloads and their signatures over the class
      [Wallet], which states what [eth_account] documents.
    - [Load] ([load.py]): load profiles, their statistics, pools and stages.
    - [Rails], [RailsLive] ([rails.py]): the rail table, drift, live reconciliation.
    - [SvmChain] ([svm_chain.py]): settlement truth from Solana metadata.
    - [Report] ([report.py]), [RunRecord] ([run_record.py]): reports and audit records.
    - [Receipt] ([pqc/]): hybrid signed receipts over verification backends; [Backends]
      ([pqc/provider/]): the two shipped ones over the classes [Pyca] and [Liboqs].
    - [Cli], [CliRun] ([cli.py]): the arguments, and the two commands as programs on the
      node, the report files, the log directory, the console and the clock.
    - [Capture] ([src/tools/capture_rail_attestation.py]): reading a token's identity and
      solving its EIP-712 domain.
    - [Mcp] ([mcp_server.py]): the tools an agent can call.
    - [Sut] ([sut.py]): the wire contract of a system under test and its HTTP adapter.
    - [ReferenceSut] ([reference_sut/server.py]): the reference system as a state machine;
      [Contract] proves that it keeps the adapter contract, stated as a class.
    - [Tasks], [Concurrent] ([reference_sut/server.py]): methods cut into atomic steps
      and the rely-guarantee rule for pools of them; the payments of the reference system
      in flight at the same time.
    - [SupportMatrix], [PublicRepo], [FunctionDocs] ([src/tools/]), over [Script]: the
      checks of the repository that run in continuous integration.

    ** What the theorems show

    - Truth: a confirmation, a live reconciliation and a Solana truth are backed by the
      evidence they name (safety), and reconciling a ledger returns exactly the live
      credits it does not know (refinement of a set specification).
    - State machine: every reachable ledger of the reference system is well formed,
      exceptions included; a paid order is final; a retry only reads; nothing is broadcast
      off the allow list.
    - Concurrency: what of this survives when payments are interleaved, and an example of
      what does not.
    - Verdicts: when the detectors are healthy, when a settlement is final, when a receipt
      is verified, each as an equivalence with a specification.
    - Round trips: calldata, quotes, atomic amounts, reports, signed payloads, command
      lines.
    - Errors and bounds: which exceptions each boundary can raise, that polling ends, and
      that an exit code other than two is a verdict that was printed, written and recorded.
    - The wire: a call over HTTP accepts exactly the bounded strict responses to its own
      request and every honest one; an error text shows no key of the endpoint; a child
      process never outlives its manager.
    - The repository's checks: a support matrix passes exactly when it is well formed, a
      search finds exactly the lines with forbidden text, and no function without a
      docstring is overlooked.

    ** Conventions and bounds

    A handler is one definition over the state it touches; the order of effects is the
    order of the code.  What a node, an HTTP library, a file system, a console, a clock or
    a signing library answers is a parameter or a list of outcomes in the state, so a
    theorem holds for every answer.  Integers are [Z], unbounded as in Python, with the
    checks of the code against [UINT256_MAX] and the like written out; floats are
    [spec_float] data of binary64.

    Recursion that is not structural carries fuel, and each has its reason: polling runs
    [tries] rounds as the loop does; the JSON scanner and the text scanners run on the
    length of their input, which every step shortens ([PyScan] proves that the JSON
    scanner never uses its fuel up); the readiness poll of [AnvilProcess] ends when the
    clock reaches its deadline; [write_all] runs on the length of
    the payload, of which every write takes at least one byte; a record name is tried
    10 000 times as in the code; the integer roots of SHA-256's constants run on their
    number of bits.

    ** Not modelled

    - [str] beyond Latin-1: characters of the package's own prose are written by the bytes
      of their UTF-8 encoding; [json.loads] of an escape beyond U+00FF is outside the model.
    - The [repr] of a value inside an exception message, and the tracebacks.
    - The interpreter's nesting limit, except where a finding is about it.
    - Sockets and the opener of [urllib], child processes and signals, FastAPI, uvicorn and
      the loop of the [mcp] package, [eth_account], keccak, the packages [cryptography]
      and [oqs]: input/output or code outside the repository.  They are parameters or
      classes where a modelled part calls them.
    - Threads finer than [Concurrent]'s cuts: its payments are interleaved where they call
      the node and where they assign, not between two reads of one guard.  Backup, restore
      and reconciliation, which no HTTP handler calls, are not interleaved with payments.
      Each iteration of a load profile is one atomic step, their order a parameter.
    - Git, file globs and Python's own parser with its reading of docstrings, which the
      scripts of [src/tools/] call: they are parameters there. *)

From Stdlib Require Export ZArith Lia.
From stdpp Require Export base tactics option list gmap strings sorting.

Declare Scope py_scope.
Delimit Scope py_scope with py.

(** * Exceptions *)

(** The exception classes the package raises or catches.  [isinstance] below is
    the subclass relation between them. *)
Inductive exn_class :=
  | RuntimeError | RpcError | ChainEvidenceError | SettlementSafetyError
  | ValueError | ReconciliationError | SvmEvidenceError | SutAdapterError
  | JSONDecodeError | UnicodeDecodeError | CliUsageError | CaptureError | RecursionError
  | TypeError | KeyError | AttributeError | AssertionError | OSError | FileExistsError
  | ArgumentTypeError | ConfigurationError | ProviderUnavailableError | OverflowError
  | ImportError | InvalidSignature
  | SystemExit | OtherError.

#[export] Instance exn_class_eq_dec : EqDecision exn_class.
Proof. solve_decision. Defined.

(** The immediate base class of each class, [None] for those directly below
    [Exception]. *)
Definition base_class (c : exn_class) : option exn_class :=
  match c with
  | RpcError | SettlementSafetyError | ProviderUnavailableError | CaptureError
  | RecursionError => Some RuntimeError
  | ChainEvidenceError => Some RpcError
  | ReconciliationError | SvmEvidenceError | SutAdapterError | JSONDecodeError
  | UnicodeDecodeError | CliUsageError => Some ValueError
  | FileExistsError => Some OSError
  | _ => None
  end.

(** [isinstance(e, d)] for an exception of class [c]: the class chains have at
    most three links. *)
Definition subclass (c d : exn_class) : bool :=
  bool_decide (c = d)
  || match base_class c with
     | Some b => bool_decide (b = d)
                 || match base_class b with
                    | Some a => bool_decide (a = d)
                    | None => false
                    end
     | None => false
     end.

Record exn := Exn { exn_cls : exn_class; exn_msg : string }.

#[export] Instance exn_eq_dec : EqDecision exn.
Proof. solve_decision. Defined.

(** * The error monad *)

Inductive res (A : Type) :=
  | Ok (a : A)
  | Raise (e : exn).
Arguments Ok {A} _.
Arguments Raise {A} _.

#[export] Instance res_eq_dec `{EqDecision A} : EqDecision (res A).
Proof. solve_decision. Defined.

#[export] Instance res_ret : MRet res := λ A a, Ok a.
#[export] Instance res_bind : MBind res := λ A B f m,
  match m with
  | Ok a => f a
  | Raise e => Raise e
  end.
#[export] Instance res_fmap : FMap res := λ A B f m,
  match m with
  | Ok a => Ok (f a)
  | Raise e => Raise e
  end.

Definition raise {A} (c : exn_class) (msg : string) : res A := Raise (Exn c msg).

(** [if b: raise c(msg)] *)
Definition raise_if (b : bool) (c : exn_class) (msg : string) : res unit :=
  if b then raise c msg else Ok tt.

(** [x if x is not None else raise c(msg)] *)
Definition or_raise {A} (o : option A) (c : exn_class) (msg : string) : res A :=
  match o with
  | Some a => Ok a
  | None => raise c msg
  end.

(** [try: m  except <cs>: h] *)
Definition try_except {A} (m : res A) (cs : list exn_class) (h : exn → res A) : res A :=
  match m with
  | Ok a => Ok a
  | Raise e => if existsb (subclass (exn_cls e)) cs then h e else Raise e
  end.

Definition is_ok {A} (m : res A) : bool :=
  match m with Ok _ => true | Raise _ => false end.

Section loops.
Context {A B : Type}.

(** [for x in l: f(x)] for its exceptions only *)
Fixpoint for_each (f : A → res unit) (l : list A) : res unit :=
  match l with
  | [] => Ok tt
  | x :: l => f x ;; for_each f l
  end.

(** [[f(x) for x in l]] *)
Fixpoint map_res (f : A → res B) (l : list A) : res (list B) :=
  match l with
  | [] => Ok []
  | x :: l => y ← f x; ys ← map_res f l; Ok (y :: ys)
  end.
End loops.

Section res_lemmas.
Context {A B : Type}.

Lemma res_bind_ok (m : res A) (f : A → res B) b :
  m ≫= f = Ok b ↔ ∃ a, m = Ok a ∧ f a = Ok b.
Proof. destruct m; simpl; naive_solver. Qed.

Lemma res_bind_raise (m : res A) (f : A → res B) e :
  m ≫= f = Raise e ↔ m = Raise e ∨ ∃ a, m = Ok a ∧ f a = Raise e.
Proof. destruct m; simpl; naive_solver. Qed.

Lemma res_fmap_ok (m : res A) (f : A → B) b :
  f <$> m = Ok b ↔ ∃ a, m = Ok a ∧ f a = b.
Proof. destruct m; simpl; naive_solver. Qed.

Lemma raise_if_ok b c msg u : raise_if b c msg = Ok u ↔ b = false.
Proof. destruct b, u; simpl; naive_solver. Qed.

Lemma raise_if_raise b c msg e :
  raise_if b c msg = Raise e ↔ b = true ∧ e = Exn c msg.
Proof. unfold raise_if, raise. destruct b; naive_solver. Qed.

Lemma or_raise_ok (o : option A) c msg a : or_raise o c msg = Ok a ↔ o = Some a.
Proof. destruct o; simpl; unfold raise; naive_solver. Qed.

Lemma raise_ok c msg (a : A) : raise c msg = Ok a ↔ False.
Proof. unfold raise. naive_solver. Qed.

Lemma try_except_ok (m : res A) cs h a :
  try_except m cs h = Ok a ↔
    m = Ok a ∨ ∃ e, m = Raise e ∧ existsb (subclass (exn_cls e)) cs = true ∧ h e = Ok a.
Proof.
  destruct m as [x|e]; simpl.
  { split; [by left|]. by intros [?|(? & [=] & _)]. }
  destruct (existsb _ cs) eqn:E; split.
  - intros. right. by exists e.
  - by intros [[=]|(? & [= <-] & _ & ?)].
  - done.
  - intros [[=]|(? & [= <-] & E' & _)]. congruence.
Qed.
End res_lemmas.

Lemma for_each_ok {A} (f : A → res unit) l u :
  for_each f l = Ok u ↔ Forall (λ x, f x = Ok tt) l.
Proof.
  induction l as [|x l IH]; simpl; [by destruct u; split|].
  rewrite Forall_cons, res_bind_ok, <- IH. split.
  - by intros ([] & ? & ?).
  - intros [Hx Hl]. by exists tt.
Qed.

Lemma map_res_ok {A B} (f : A → res B) l ys :
  map_res f l = Ok ys ↔ Forall2 (λ x y, f x = Ok y) l ys.
Proof.
  revert ys. induction l as [|x l IH]; intros ys; simpl.
  { split; [intros [= <-]; constructor|by intros ->%Forall2_nil_inv_l]. }
  rewrite res_bind_ok. split.
  - intros (y & Hy & (ys' & Hys & [= <-])%res_bind_ok). constructor; [done|]. by apply IH.
  - intros (y & ys' & Hy & Hys%IH & ->)%Forall2_cons_inv_l.
    exists y. split; [done|]. by rewrite Hys.
Qed.

(** * Exception bounds *)

(** [throws cs m]: every exception [m] raises is an instance of a class of
    [cs], so that [except cs] around [m] catches whatever [m] raises. *)
Definition throws {A} (cs : list exn_class) (m : res A) : Prop :=
  ∀ e, m = Raise e → existsb (subclass (exn_cls e)) cs = true.

Section throws_lemmas.
Context {A B : Type} (cs : list exn_class).

Lemma throws_ok (a : A) : throws cs (Ok a).
Proof. by intros e ?. Qed.
Lemma throws_bind (m : res A) (f : A → res B) :
  throws cs m → (∀ a, m = Ok a → throws cs (f a)) → throws cs (m ≫= f).
Proof.
  intros Hm Hf e [He|(a & Ha & He)]%res_bind_raise; [by apply Hm|by eapply Hf].
Qed.
Lemma throws_fmap (m : res A) (f : A → B) : throws cs m → throws cs (f <$> m).
Proof. intros Hm e. destruct m; simpl; [done|]. intros [= <-]. by apply Hm. Qed.
Lemma throws_raise c msg :
  existsb (subclass c) cs = true → throws cs (raise (A:=A) c msg).
Proof. by intros Hc e [= <-]. Qed.
Lemma throws_raise_if b c msg :
  existsb (subclass c) cs = true → throws cs (raise_if b c msg).
Proof. intros Hc e [_ ->]%raise_if_raise. done. Qed.
Lemma throws_or_raise (o : option A) c msg :
  existsb (subclass c) cs = true → throws cs (or_raise o c msg).
Proof. intros Hc. destruct o; [apply throws_ok|by apply throws_raise]. Qed.
Lemma throws_for_each (f : A → res unit) l :
  (∀ x, throws cs (f x)) → throws cs (for_each f l).
Proof.
  intros Hf. induction l as [|x l IH]; simpl; [by intros e|].
  intros e [He|(u & _ & He)]%res_bind_raise; [by eapply Hf|by apply IH].
Qed.
Lemma throws_map_res (f : A → res B) l :
  (∀ x, throws cs (f x)) → throws cs (map_res f l).
Proof.
  intros Hf. induction l as [|x l IH]; simpl; [by intros e|].
  intros e [He|(y & _ & [He|(ys & _ & [=])]%res_bind_raise)]%res_bind_raise;
    [by eapply Hf|by apply IH].
Qed.
End throws_lemmas.

Lemma throws_for_each_in {A} cs (f : A → res unit) l :
  Forall (λ x, throws cs (f x)) l → throws cs (for_each f l).
Proof. induction 1 as [|x l Hx _ IH]; simpl; [apply throws_ok|by apply throws_bind]. Qed.

Lemma throws_map_res_in {A B} cs (f : A → res B) l :
  Forall (λ x, throws cs (f x)) l → throws cs (map_res f l).
Proof.
  induction 1 as [|x l Hx _ IH]; simpl; [apply throws_ok|].
  apply throws_bind; [done|intros y _]. apply throws_bind; [done|intros; apply throws_ok].
Qed.

(** [except ds] around a program that raises only [ds] leaves what the handler
    raises. *)
Lemma throws_try_except {A} cs ds (m : res A) h :
  throws ds m → (∀ e, throws cs (h e)) → throws cs (try_except m ds h).
Proof.
  intros Hm Hh e. destruct m as [a|e']; simpl; [done|]. rewrite (Hm e' eq_refl). apply Hh.
Qed.

Lemma throws_except {A} cs ds (m : res A) h :
  throws (ds ++ cs) m → (∀ e, throws cs (h e)) → throws cs (try_except m ds h).
Proof.
  intros Hm Hh e. destruct m as [a|e']; simpl; [done|]. specialize (Hm e' eq_refl).
  rewrite existsb_app in Hm. destruct (existsb _ ds); [apply Hh|]. by intros [= <-].
Qed.

Lemma throws_weaken {A} (cs cs' : list exn_class) (m : res A) :
  (∀ c, existsb (subclass c) cs = true → existsb (subclass c) cs' = true) →
  throws cs m → throws cs' m.
Proof. intros Hcs Hm e He. auto. Qed.
Lemma throws_subset {A} cs cs' (m : res A) : cs ⊆ cs' → throws cs m → throws cs' m.
Proof.
  intros Hsub. apply throws_weaken. intros c (d & Hd%list_elem_of_In & He)%existsb_exists.
  apply existsb_exists. exists d. split; [|done]. by apply list_elem_of_In, Hsub.
Qed.

(** * The state-and-error monad *)

(** A Python method that reads and writes the state [S] of its object.  An
    exception keeps the writes made before it, as Python does. *)
Definition prog (S A : Type) : Type := S → res A * S.

#[export] Instance prog_ret {S} : MRet (prog S) := λ A a s, (Ok a, s).
#[export] Instance prog_bind {S} : MBind (prog S) := λ A B f m s,
  match m s with
  | (Ok a, s') => f a s'
  | (Raise e, s') => (Raise e, s')
  end.

Definition lift {S A} (m : res A) : prog S A := λ s, (m, s).
Definition get_state {S} : prog S S := λ s, (Ok s, s).
Definition modify {S} (f : S → S) : prog S unit := λ s, (Ok tt, f s).

(** [try: m  except <cs>: h] *)
Definition catch {S A} (m : prog S A) (cs : list exn_class) (h : exn → prog S A) : prog S A :=
  λ s, match m s with
       | (Ok a, s') => (Ok a, s')
       | (Raise e, s') =>
           if existsb (subclass (exn_cls e)) cs then h e s' else (Raise e, s')
       end.

(** [zoom get set m]: run a method of a component object held in a field. *)
Definition zoom {S T A} (get : S → T) (set : T → S → S) (m : prog T A) : prog S A :=
  λ s, let (r, t) := m (get s) in (r, set t s).

Section prog_lemmas.
Context {S A B : Type}.

Lemma prog_bind_ok (m : prog S A) (f : A → prog S B) s b s' :
  (m ≫= f) s = (Ok b, s') ↔ ∃ a s1, m s = (Ok a, s1) ∧ f a s1 = (Ok b, s').
Proof.
  unfold mbind, prog_bind. destruct (m s) as [[a|e] s1]; naive_solver.
Qed.

Lemma prog_bind_raise (m : prog S A) (f : A → prog S B) s e s' :
  (m ≫= f) s = (Raise e, s') ↔
    m s = (Raise e, s') ∨ ∃ a s1, m s = (Ok a, s1) ∧ f a s1 = (Raise e, s').
Proof.
  unfold mbind, prog_bind. destruct (m s) as [[a|e'] s1]; naive_solver.
Qed.

Lemma prog_bind_run (m : prog S A) (f : A → prog S B) s r s' :
  (m ≫= f) s = (r, s') →
  (∃ e, r = Raise e ∧ m s = (Raise e, s')) ∨ ∃ a s1, m s = (Ok a, s1) ∧ f a s1 = (r, s').
Proof.
  unfold mbind, prog_bind. destruct (m s) as [[a|e] s1]; [eauto|]. intros [= <- <-]. eauto.
Qed.

Lemma lift_ok (m : res A) (s : S) a s' : lift m s = (Ok a, s') ↔ m = Ok a ∧ s' = s.
Proof. unfold lift. naive_solver. Qed.

Lemma lift_run (m : res A) (s : S) r s' : lift m s = (r, s') ↔ m = r ∧ s' = s.
Proof. unfold lift. naive_solver. Qed.

Lemma mret_ok (a b : A) (s s' : S) : (mret a : prog S A) s = (Ok b, s') ↔ b = a ∧ s' = s.
Proof. unfold mret, prog_ret. naive_solver. Qed.

Lemma get_state_ok (s a s' : S) : get_state s = (Ok a, s') ↔ a = s ∧ s' = s.
Proof. unfold get_state. naive_solver. Qed.

Lemma modify_ok (f : S → S) s u s' : modify f s = (Ok u, s') ↔ s' = f s.
Proof. unfold modify. destruct u. naive_solver. Qed.
End prog_lemmas.

(** ** Invariants and exception bounds of stateful programs *)

(** [preserves I m]: a run of [m] from a state in [I] ends in [I], whether it
    returns or raises. *)
Definition preserves {S A} (I : S → Prop) (m : prog S A) : Prop := ∀ s, I s → I (m s).2.

(** [throws_in cs m]: every exception a run of [m] ends with is caught by
    [except cs]. *)
Definition throws_in {S A} (cs : list exn_class) (m : prog S A) : Prop :=
  ∀ s, throws cs (m s).1.

Section preserves_lemmas.
Context {S : Type} (I : S → Prop).

Lemma preserves_ret {A} (a : A) : preserves I (mret a).
Proof. by intros s. Qed.
Lemma preserves_lift {A} (m : res A) : preserves I (lift m).
Proof. by intros s. Qed.
Lemma preserves_get : preserves I get_state.
Proof. by intros s. Qed.
Lemma preserves_modify f : (∀ s, I s → I (f s)) → preserves I (modify f).
Proof. intros Hf s. apply Hf. Qed.
Lemma preserves_bind {A B} (m : prog S A) (f : A → prog S B) :
  preserves I m → (∀ a, preserves I (f a)) → preserves I (m ≫= f).
Proof.
  intros Hm Hf s Hs. specialize (Hm s Hs). unfold mbind, prog_bind.
  destruct (m s) as [[a|e] s1]; simpl in *; [by apply Hf|done].
Qed.
Lemma preserves_catch {A} (m : prog S A) cs h :
  preserves I m → (∀ e, preserves I (h e)) → preserves I (catch m cs h).
Proof.
  intros Hm Hh s Hs. specialize (Hm s Hs). unfold catch.
  destruct (m s) as [[a|e] s1]; simpl in *; [done|].
  destruct (existsb _ cs); [by apply Hh|done].
Qed.
Lemma preserves_run {A} (m : prog S A) s r s' :
  preserves I m → I s → m s = (r, s') → I s'.
Proof. intros Hm Hs E. specialize (Hm s Hs). by rewrite E in Hm. Qed.
End preserves_lemmas.

Section throws_in_lemmas.
Context {S : Type} (cs : list exn_class).

Lemma throws_in_ret {A} (a : A) : throws_in (S:=S) cs (mret a).
Proof. by intros s e. Qed.
Lemma throws_in_lift {A} (m : res A) : throws cs m → throws_in (S:=S) cs (lift m).
Proof. by intros Hm s. Qed.
Lemma throws_in_get : throws_in (S:=S) cs get_state.
Proof. by intros s e. Qed.
Lemma throws_in_modify f : throws_in (S:=S) cs (modify f).
Proof. by intros s e. Qed.
Lemma throws_in_bind {A B} (m : prog S A) (f : A → prog S B) :
  throws_in cs m → (∀ a, throws_in cs (f a)) → throws_in cs (m ≫= f).
Proof.
  intros Hm Hf s e. specialize (Hm s). unfold mbind, prog_bind.
  destruct (m s) as [[a|e'] s1]; simpl in *; [apply Hf|].
  intros [= <-]. by apply Hm.
Qed.
End throws_in_lemmas.

Lemma throws_in_weaken {S A} (cs cs' : list exn_class) (m : prog S A) :
  (∀ c, existsb (subclass c) cs = true → existsb (subclass c) cs' = true) →
  throws_in cs m → throws_in cs' m.
Proof. intros Hcs Hm s. by eapply throws_weaken. Qed.
Lemma throws_in_subset {S A} cs cs' (m : prog S A) : cs ⊆ cs' → throws_in cs m → throws_in cs' m.
Proof. intros Hcs Hm s. by eapply throws_subset. Qed.

Create HintDb py.
#[export] Hint Resolve preserves_ret preserves_lift preserves_get preserves_bind
  preserves_catch : py.
#[export] Hint Resolve throws_ok throws_fmap throws_raise throws_raise_if
  throws_or_raise throws_for_each throws_map_res : py.
#[export] Hint Resolve throws_in_ret throws_in_lift throws_in_get throws_in_modify
  throws_in_bind : py.

(** * Automation *)

(** Take a successful run apart: binds, guards and returns become the
    intermediate values and the facts the guards established. *)
Ltac inv_step :=
  match goal with
  | H : (_ ≫= _) = Ok _ |- _ => apply res_bind_ok in H as (? & ? & H)
  | H : (_ ≫= _) _ = (Ok _, _) |- _ => apply prog_bind_ok in H as (? & ? & ? & H)
  | H : (_ <$> _) = Ok _ |- _ => apply res_fmap_ok in H as (? & ? & H)
  | H : raise_if _ _ _ = Ok _ |- _ => apply raise_if_ok in H
  | H : or_raise _ _ _ = Ok _ |- _ => apply or_raise_ok in H
  | H : raise _ _ = Ok _ |- _ => by apply raise_ok in H
  | H : lift _ _ = (Ok _, _) |- _ => apply lift_ok in H as [H ?]
  | H : mret _ _ = (Ok _, _) |- _ => apply mret_ok in H as [??]
  | H : get_state _ = (Ok _, _) |- _ => apply get_state_ok in H as [??]
  | H : modify _ _ = (Ok _, _) |- _ => apply modify_ok in H
  | H : Ok _ = Ok _ |- _ => injection H as H
  | H : Raise _ = Ok _ |- _ => discriminate H
  | H : Ok _ = Raise _ |- _ => discriminate H
  | H : False |- _ => destruct H
  end.
Ltac inv_res := repeat (inv_step; simplify_eq/=).

(** Drive a program forward to its result: the converse of [inv_res].  A side
    goal the hypotheses do not close is left. *)
Ltac run_step :=
  lazymatch goal with
  | |- (_ ≫= _) = Ok _ => apply res_bind_ok; eexists; split
  | |- raise_if _ _ _ = Ok _ => apply (proj2 (raise_if_ok _ _ _ tt))
  | |- or_raise _ _ _ = Ok _ => apply or_raise_ok
  end; try first [eassumption | reflexivity].

(** Split the boolean guards a run established into propositions. *)
Ltac bool_facts :=
  repeat match goal with
  | H : _ && _ = true |- _ => apply andb_true_iff in H as [??]
  | H : _ || _ = false |- _ => apply orb_false_iff in H as [??]
  | H : negb _ = true |- _ => apply negb_true_iff in H
  | H : negb _ = false |- _ => apply negb_false_iff in H
  | H : (_ <=? _)%Z = true |- _ => apply Z.leb_le in H
  | H : (_ <=? _)%Z = false |- _ => apply Z.leb_gt in H
  | H : (_ <? _)%Z = true |- _ => apply Z.ltb_lt in H
  | H : (_ <? _)%Z = false |- _ => apply Z.ltb_ge in H
  | H : (_ =? _)%Z = true |- _ => apply Z.eqb_eq in H
  | H : (_ =? _)%Z = false |- _ => apply Z.eqb_neq in H
  | H : (_ =? _)%string = true |- _ => apply String.eqb_eq in H
  | H : (_ =? _)%string = false |- _ => apply String.eqb_neq in H
  | H : (_ =? _)%nat = true |- _ => apply Nat.eqb_eq in H
  | H : (_ =? _)%nat = false |- _ => apply Nat.eqb_neq in H
  | H : bool_decide _ = true |- _ => apply bool_decide_eq_true in H
  | H : bool_decide _ = false |- _ => apply bool_decide_eq_false in H
  end.

(** Bound the exceptions of a straight-line program by its syntax. *)
Ltac throws_step :=
  match goal with
  | |- throws_in _ (_ ≫= _) => apply throws_in_bind; [|intros ?]
  | |- throws_in _ (lift _) => apply throws_in_lift
  | |- throws_in _ (match ?x with _ => _ end) => destruct x
  | |- throws _ (_ ≫= _) => apply throws_bind; [|intros ? ?]
  | |- throws _ (match ?x with _ => _ end) => destruct x
  | |- throws _ (raise _ _) => by apply throws_raise
  | |- throws _ (raise_if _ _ _) => by apply throws_raise_if
  | |- throws _ (or_raise _ _ _) => by apply throws_or_raise
  | |- throws _ (for_each _ _) => apply throws_for_each; intros ?
  | |- throws _ (map_res _ _) => apply throws_map_res; intros ?
  | |- throws _ (Ok _) => apply throws_ok
  | |- throws _ (mret _) => apply throws_ok
  | |- throws_in _ (mret _) => apply throws_in_ret
  | |- _ => solve [eauto with py]
  end.
Ltac solve_throws := repeat throws_step.

(** * Machine-width bounds *)

(** [_UINT256_MAX = 2**256 - 1] *)
Definition UINT256_MAX : Z := 2 ^ 256 - 1.

(** [0 <= value <= _UINT256_MAX] *)
Definition is_uint256 (v : Z) : bool := (0 <=? v)%Z && (v <=? UINT256_MAX)%Z.

Lemma is_uint256_spec v : is_uint256 v = true ↔ (0 ≤ v < 2 ^ 256)%Z.
Proof. unfold is_uint256, UINT256_MAX. rewrite andb_true_iff, !Z.leb_le. lia. Qed.

(** * Sorting *)

(** [sorted(l)] for the order [leb] of the sort key: a stable sort. *)
Section sorted_by.
Context {A : Type} (leb : A → A → bool).

Fixpoint insert_by (x : A) (l : list A) : list A :=
  match l with
  | [] => [x]
  | y :: l' => if leb x y then x :: l else y :: insert_by x l'
  end.

Fixpoint sorted_by (l : list A) : list A :=
  match l with
  | [] => []
  | x :: l => insert_by x (sorted_by l)
  end.

Lemma insert_by_perm x l : insert_by x l ≡ₚ x :: l.
Proof.
  induction l as [|y l IH]; simpl; [done|]. destruct (leb x y); [done|].
  by rewrite IH, Permutation_swap.
Qed.

Lemma sorted_by_perm l : sorted_by l ≡ₚ l.
Proof. induction l as [|x l IH]; simpl; [done|]. by rewrite insert_by_perm, IH. Qed.

Lemma elem_of_sorted_by x l : x ∈ sorted_by l ↔ x ∈ l.
Proof. by rewrite sorted_by_perm. Qed.

Hypothesis leb_total : ∀ x y, leb x y = true ∨ leb y x = true.
Hypothesis leb_trans : ∀ x y z, leb x y = true → leb y z = true → leb x z = true.

Lemma insert_by_sorted x l :
  StronglySorted (λ a b, leb a b = true) l → StronglySorted (λ a b, leb a b = true) (insert_by x l).
Proof.
  induction 1 as [|y l Hl IH Hy]; simpl; [by repeat constructor|].
  destruct (leb x y) eqn:E.
  - constructor; [by constructor|]. constructor; [done|].
    eapply Forall_impl; [exact Hy|]. intros z Hz. by eapply leb_trans.
  - constructor; [done|]. rewrite Forall_forall in *. intros z.
    rewrite insert_by_perm, elem_of_cons. intros [->|Hz]; [|by apply Hy].
    destruct (leb_total x y); congruence.
Qed.

Lemma sorted_by_sorted l : StronglySorted (λ a b, leb a b = true) (sorted_by l).
Proof. induction l; simpl; [constructor|by apply insert_by_sorted]. Qed.
End sorted_by.

(** * Insertion-ordered dictionaries *)

(** A Python [dict] with typed keys and values: an update keeps the place of the
    key, a new key goes last. *)
Section odict.
Context {K V : Type} `{EqDecision K}.

Fixpoint od_get (k : K) (d : list (K * V)) : option V :=
  match d with
  | [] => None
  | (k', v) :: d => if decide (k = k') then Some v else od_get k d
  end.

Fixpoint od_set (k : K) (v : V) (d : list (K * V)) : list (K * V) :=
  match d with
  | [] => [(k, v)]
  | (k', v') :: d' => if decide (k = k') then (k', v) :: d' else (k', v') :: od_set k v d'
  end.

Lemma od_get_elem k v d : od_get k d = Some v → (k, v) ∈ d.
Proof.
  induction d as [|[k' v'] d IH]; simpl; [done|].
  case_decide; [intros [= ->]; subst; left|intros; right; auto].
Qed.

Lemma od_get_none k d : od_get k d = None ↔ k ∉ d.*1.
Proof.
  induction d as [|[k' v'] d IH]; simpl; [by split; [intros _ ?%elem_of_nil|]|].
  rewrite elem_of_cons. case_decide as E; subst;
    [|rewrite IH; split; [by intros ? [?|?]|by intros H1 H2; apply H1; right]].
  split; [done|]. intros []. by left.
Qed.

Lemma od_set_keys k v d : (od_set k v d).*1 = if od_get k d then d.*1 else d.*1 ++ [k].
Proof.
  induction d as [|[k' v'] d IH]; csimpl; [done|]. case_decide; csimpl; [done|].
  rewrite IH. by destruct (od_get k d).
Qed.

Lemma od_set_nodup k v d : NoDup d.*1 → NoDup (od_set k v d).*1.
Proof.
  intros Hd. rewrite od_set_keys. destruct (od_get k d) eqn:E; [done|].
  apply NoDup_app. split; [done|]. split; [|apply NoDup_singleton].
  intros x Hx ->%list_elem_of_singleton. by apply od_get_none in E.
Qed.

Lemma od_get_in k v d : NoDup d.*1 → (k, v) ∈ d → od_get k d = Some v.
Proof.
  induction d as [|[k' v'] d IH]; simpl; [by rewrite elem_of_nil|].
  intros [Hk Hd]%NoDup_cons [E|Hin]%elem_of_cons.
  { injection E as -> ->. by rewrite decide_True. }
  case_decide; [|by apply IH]. subst. destruct Hk.
  apply list_elem_of_fmap. by exists (k', v).
Qed.

Lemma elem_of_od_set k v d k' v' :
  NoDup d.*1 →
  (k', v') ∈ od_set k v d ↔ (k' = k ∧ v' = v) ∨ (k' ≠ k ∧ (k', v') ∈ d).
Proof.
  induction d as [|[k1 v1] d IH]; simpl.
  { intros _. rewrite list_elem_of_singleton, elem_of_nil. naive_solver. }
  intros [Hk Hd]%NoDup_cons. assert (∀ w, (k1, w) ∉ d) as Hfresh.
  { intros w Hw. apply Hk. apply list_elem_of_fmap. by exists (k1, w). }
  case_decide; subst; rewrite !elem_of_cons; [|rewrite IH by done]; split.
  - intros [[= -> ->]|Hin]; [by left|]. right. split; [|by right].
    intros ->. by destruct (Hfresh v').
  - intros [[-> ->]|[Hne [[= -> ->]|Hin]]]; [by left|done|by right].
  - intros [[= -> ->]|[[-> ->]|[Hne Hin]]]; [right; split; [congruence|by left]|by left|].
    right. split; [done|by right].
  - intros [[-> ->]|[Hne [[= -> ->]|Hin]]]; [by right; left|by left|]. right. right. done.
Qed.
End odict.
