(* ===== verification/PyStr.v ===== *)
(** * Python strings and their conversions to integers and bytes

    A Python [str] is a [string] whose characters stand for the code points
    U+0000 to U+00FF: the Latin-1 range, where every method below has the
    CPython behaviour.  The file models the [str] methods, the [int] and
    [bytes.fromhex] parsers, the integer formats and the regular expressions
    that the package uses, with the lemmas its components share: exact lengths,
    digit round trips, and what a fullmatch says about a string. *)

From Stdlib Require Export Ascii.
From S2P Require Import Prelude.
Local Open Scope Z_scope.

(** ** Characters *)

(** [ord(c)] *)
Definition code (c : ascii) : Z := Z.of_N (N_of_ascii c).

Definition between (lo hi : Z) (c : ascii) : bool := (lo <=? code c) && (code c <=? hi).

(** [[0-9]] *)
Definition is_dec_digit (c : ascii) : bool := between 48 57 c.
(** [[0-9a-fA-F]] *)
Definition is_hex_digit (c : ascii) : bool :=
  is_dec_digit c || between 97 102 c || between 65 70 c.
(** [[0-9a-f]] *)
Definition is_lower_hex_digit (c : ascii) : bool := is_dec_digit c || between 97 102 c.

(** The value of a hexadecimal digit. *)
Definition digit_val (c : ascii) : Z :=
  if is_dec_digit c then code c - 48
  else if between 97 102 c then code c - 87
  else code c - 55.

(** The lower-case digit of a value below 16. *)
Definition digit_char (d : Z) : ascii :=
  if d <? 10 then ascii_of_N (Z.to_N (48 + d)) else ascii_of_N (Z.to_N (87 + d)).

(** [c.lower()]: A-Z and the capital letters of Latin-1, U+00C0 to U+00DE
    without the multiplication sign. *)
Definition lower_char (c : ascii) : ascii :=
  if between 65 90 c || (between 192 222 c && negb (code c =? 215))
  then ascii_of_N (N_of_ascii c + 32) else c.

(** White space to [int()]: the C isspace characters, U+0085 and U+00A0. *)
Definition int_space (c : ascii) : bool :=
  between 9 13 c || (code c =? 32) || (code c =? 133) || (code c =? 160).
(** White space to [bytes.fromhex]. *)
Definition byte_space (c : ascii) : bool := between 9 13 c || (code c =? 32).
(** White space to [str.strip()]. *)
Definition str_space (c : ascii) : bool :=
  between 9 13 c || between 28 32 c || (code c =? 133) || (code c =? 160).

(** ** String methods *)

Fixpoint str_all (p : ascii → bool) (s : string) : bool :=
  match s with
  | EmptyString => true
  | String c s => p c && str_all p s
  end.

Fixpoint str_any (p : ascii → bool) (s : string) : bool :=
  match s with
  | EmptyString => false
  | String c s => p c || str_any p s
  end.

(** [s[n:]] *)
Fixpoint str_drop (n : nat) (s : string) : string :=
  match n, s with
  | O, _ => s
  | S n, String _ s => str_drop n s
  | S _, EmptyString => EmptyString
  end.

(** [s[:n]] *)
Fixpoint str_take (n : nat) (s : string) : string :=
  match n, s with
  | O, _ => EmptyString
  | S n, String c s => String c (str_take n s)
  | S _, EmptyString => EmptyString
  end.

(** [s[i:j]] *)
Definition str_slice (i j : nat) (s : string) : string := str_take (j - i) (str_drop i s).

(** [s[-n:]] *)
Definition str_last (n : nat) (s : string) : string := str_drop (String.length s - n) s.

Definition str_len (s : string) : Z := Z.of_nat (String.length s).

Fixpoint lower (s : string) : string :=
  match s with
  | EmptyString => EmptyString
  | String c s => String (lower_char c) (lower s)
  end.

Definition startswith (p s : string) : bool := String.prefix p s.
Definition removeprefix (p s : string) : string :=
  if startswith p s then str_drop (String.length p) s else s.

(** [c * n] *)
Fixpoint str_repeat (c : ascii) (n : nat) : string :=
  match n with
  | O => EmptyString
  | S n => String c (str_repeat c n)
  end.

Definition rjust (n : nat) (c : ascii) (s : string) : string :=
  str_repeat c (n - String.length s) +:+ s.
Definition ljust (n : nat) (c : ascii) (s : string) : string :=
  s +:+ str_repeat c (n - String.length s).

Fixpoint lstrip_by (p : ascii → bool) (s : string) : string :=
  match s with
  | EmptyString => EmptyString
  | String c s' => if p c then lstrip_by p s' else s
  end.
Fixpoint rstrip_by (p : ascii → bool) (s : string) : string :=
  match s with
  | EmptyString => EmptyString
  | String c s =>
      let r := rstrip_by p s in
      if (r =? "")%string && p c then EmptyString else String c r
  end.
Definition strip_by (p : ascii → bool) (s : string) : string := rstrip_by p (lstrip_by p s).
Definition strip (s : string) : string := strip_by str_space s.

(** [s.isdigit()]: the decimal digits and the superscripts two, three and one. *)
Definition isdigit (s : string) : bool :=
  negb (s =? "")%string
  && str_all (λ c, is_dec_digit c || (code c =? 178) || (code c =? 179) || (code c =? 185)) s.
Definition isdecimal (s : string) : bool :=
  negb (s =? "")%string && str_all is_dec_digit s.
Definition isascii (s : string) : bool := str_all (λ c, code c <=? 127) s.

(** ** Numbers *)

(** Digits with single underscores between them, as [int()] reads them. *)
Fixpoint digits_go (is_d : ascii → bool) (b : Z) (after_us : bool) (acc : Z) (s : string)
    : option Z :=
  match s with
  | EmptyString => if after_us then None else Some acc
  | String c s =>
      if code c =? 95 then
        if after_us then None else digits_go is_d b true acc s
      else if is_d c then digits_go is_d b false (acc * b + digit_val c) s
      else None
  end.
Definition digits (is_d : ascii → bool) (b : Z) (s : string) : option Z :=
  match s with
  | EmptyString => None
  | String c _ => if code c =? 95 then None else digits_go is_d b false 0 s
  end.

Definition split_sign (s : string) : bool * string :=
  match s with
  | String c r =>
      if code c =? 45 then (true, r) else if code c =? 43 then (false, r) else (false, s)
  | EmptyString => (false, s)
  end.

(** The optional [0x] prefix of base 16, with the one underscore allowed after it. *)
Definition drop_0x (s : string) : string :=
  match s with
  | String z (String x r) =>
      if (code z =? 48) && ((code x =? 120) || (code x =? 88)) then
        match r with
        | String u r' => if code u =? 95 then r' else r
        | EmptyString => r
        end
      else s
  | _ => s
  end.

Definition signed (neg : bool) (v : Z) : Z := if neg then - v else v.

(** [int(s, 16)], [None] for its [ValueError] *)
Definition py_int16 (s : string) : option Z :=
  let '(neg, s) := split_sign (strip_by int_space s) in
  signed neg <$> digits is_hex_digit 16 (drop_0x s).

Fixpoint count_digits (s : string) : Z :=
  match s with
  | EmptyString => 0
  | String c s => (if is_dec_digit c then 1 else 0) + count_digits s
  end.

(** CPython refuses decimal strings with more digits than this. *)
Definition INT_MAX_STR_DIGITS : Z := 4300.

(** [int(s)] and [int(s, 10)], [None] for its [ValueError] *)
Definition py_int10 (s : string) : option Z :=
  let '(neg, s) := split_sign (strip_by int_space s) in
  if INT_MAX_STR_DIGITS <? count_digits s then None
  else signed neg <$> digits is_dec_digit 10 s.

(** [bytes.fromhex(s)], [None] for its [ValueError]; white space between two
    bytes is skipped. *)
Fixpoint fromhex (s : string) : option (list Z) :=
  match s with
  | EmptyString => Some []
  | String c s =>
      if byte_space c then fromhex s
      else match s with
           | String d s =>
               if is_hex_digit c && is_hex_digit d
               then cons (16 * digit_val c + digit_val d) <$> fromhex s
               else None
           | EmptyString => None
           end
  end.

(** The [n] lowest base-[b] digits of [v], the highest first. *)
Fixpoint numw (b : Z) (n : nat) (v : Z) : string :=
  match n with
  | O => EmptyString
  | S n => String (digit_char (v / b ^ Z.of_nat n mod b)) (numw b n v)
  end.

(** The number of base-[b] digits of [v]; [fuel] divisions are enough. *)
Fixpoint ndigits_go (fuel : nat) (b v : Z) : nat :=
  match fuel with
  | O => 1
  | S fuel => if v <? b then 1 else S (ndigits_go fuel b (v / b))
  end.
Definition ndigits (b v : Z) : nat := ndigits_go (Z.to_nat (Z.log2 v)) b v.

(** [f"{v:x}"] and [str(v)] of a non-negative integer *)
Definition to_hex (v : Z) : string := numw 16 (ndigits 16 v) v.
Definition to_dec (v : Z) : string := numw 10 (ndigits 10 v) v.

(** [str(v)] *)
Definition str_of_Z (v : Z) : string := if v <? 0 then "-" +:+ to_dec (- v) else to_dec v.
(** [hex(v)] of a non-negative integer *)
Definition py_hex (v : Z) : string := "0x" +:+ to_hex v.
(** [f"{v:064x}"] of a non-negative integer *)
Definition fmt_064x (v : Z) : string := rjust 64 "0" (to_hex v).

(** ** UTF-8 *)

(** The character of a code point below 256. *)
Definition chr (n : Z) : ascii := ascii_of_N (Z.to_N n).

(** The UTF-8 bytes of a character, and [s.encode("utf-8")]. *)
Definition utf8 (c : ascii) : list Z :=
  if code c <? 128 then [code c] else [192 + code c / 64; 128 + code c mod 64].
Fixpoint encode_utf8 (s : string) : list Z :=
  match s with
  | EmptyString => []
  | String c s => utf8 c ++ encode_utf8 s
  end.

(** [bs.decode("utf-8")]; a sequence that encodes a character beyond Latin-1, or
    may do so, is outside the model. *)
Fixpoint decode_utf8 (bs : list Z) : res string :=
  match bs with
  | [] => Ok ""
  | b :: bs =>
      if b <? 128 then String (chr b) <$> decode_utf8 bs
      else if (b <? 194) || (244 <? b) then raise UnicodeDecodeError "invalid start byte"
      else if 195 <? b then raise OtherError "character outside Latin-1"
      else match bs with
           | c :: bs =>
               if (128 <=? c) && (c <? 192)
               then String (chr ((b - 192) * 64 + (c - 128))) <$> decode_utf8 bs
               else raise UnicodeDecodeError "invalid continuation byte"
           | [] => raise UnicodeDecodeError "unexpected end of data"
           end
  end.

(** ** Regular expressions *)

(** [re.fullmatch(r"0x[0-9a-fA-F]{n}", s)] *)
Definition re_0xhex (n : nat) (s : string) : bool :=
  startswith "0x" s && (String.length s =? 2 + n)%nat && str_all is_hex_digit (str_drop 2 s).

(** [re.fullmatch(r"0x(?:0|[1-9a-fA-F][0-9a-fA-F]*)", s)] *)
Definition re_quantity (s : string) : bool :=
  startswith "0x" s
  && match str_drop 2 s with
     | EmptyString => false
     | String c r =>
         is_hex_digit c && str_all is_hex_digit r && (negb (code c =? 48) || (r =? "")%string)
     end.

(** [re.fullmatch(r"0x(?:[0-9a-fA-F]{2})*", s)] *)
Definition re_data (s : string) : bool :=
  startswith "0x" s && Nat.even (String.length s) && str_all is_hex_digit (str_drop 2 s).

(** [re.fullmatch(r"[0-9a-f]{64}", s)] *)
Definition re_sha256 (s : string) : bool :=
  (String.length s =? 64)%nat && str_all is_lower_hex_digit s.

(** * Lemmas *)

(** Settle a fact about one character by its 256 cases. *)
Ltac all_chars c := destruct c as [[] [] [] [] [] [] [] []]; vm_compute; try done.

Section char_lemmas.
Implicit Types c : ascii.

Lemma lower_char_idemp c : lower_char (lower_char c) = lower_char c.
Proof. all_chars c. Qed.
Lemma lower_char_hex c : is_hex_digit c = true → is_lower_hex_digit (lower_char c) = true.
Proof. all_chars c. Qed.
Lemma lower_hex_hex c : is_lower_hex_digit c = true → is_hex_digit c = true.
Proof. all_chars c. Qed.
Lemma lower_char_lower_hex c : is_lower_hex_digit c = true → lower_char c = c.
Proof. all_chars c. Qed.
Lemma dec_digit_hex c : is_dec_digit c = true → is_hex_digit c = true.
Proof. all_chars c. Qed.
Lemma digit_val_lower c : is_hex_digit c = true → digit_val (lower_char c) = digit_val c.
Proof. all_chars c. Qed.
Lemma byte_space_lower c : byte_space (lower_char c) = byte_space c.
Proof. all_chars c. Qed.
Lemma is_hex_digit_lower c : is_hex_digit (lower_char c) = is_hex_digit c.
Proof. all_chars c. Qed.
Lemma digit_val_hex_range c : is_hex_digit c = true → 0 ≤ digit_val c < 16.
Proof. all_chars c; lia. Qed.
Lemma hex_not_underscore c : is_hex_digit c = true → (code c =? 95) = false.
Proof. all_chars c. Qed.
Lemma hex_not_sign c :
  is_hex_digit c = true → (code c =? 45) = false ∧ (code c =? 43) = false.
Proof. all_chars c. Qed.
Lemma hex_not_x c :
  is_hex_digit c = true → (code c =? 120) = false ∧ (code c =? 88) = false.
Proof. all_chars c. Qed.
Lemma hex_not_space c : is_hex_digit c = true → int_space c = false ∧ byte_space c = false.
Proof. all_chars c. Qed.

(** Digits below 16, by value. *)
Lemma digit_char_spec d :
  0 ≤ d < 16 →
  digit_val (digit_char d) = d ∧ is_lower_hex_digit (digit_char d) = true
  ∧ (d < 10 → is_dec_digit (digit_char d) = true).
Proof.
  intros Hd. assert (∃ n, (n < 16)%nat ∧ d = Z.of_nat n) as (n & Hn & ->).
  { exists (Z.to_nat d). lia. }
  do 16 (destruct n as [|n]; [by vm_compute|]). lia.
Qed.
Lemma digit_char_inj d1 d2 :
  0 ≤ d1 < 16 → 0 ≤ d2 < 16 → digit_char d1 = digit_char d2 → d1 = d2.
Proof.
  intros [E1 _]%digit_char_spec [E2 _]%digit_char_spec E. by rewrite <- E1, <- E2, E.
Qed.
End char_lemmas.

Section string_lemmas.
Implicit Types (s t : string) (p q : ascii → bool).

Lemma str_length_app s t : String.length (s +:+ t) = (String.length s + String.length t)%nat.
Proof. induction s; simpl; [done|]. unfold String.app in *. simpl. by f_equal. Qed.
Lemma str_app_nil_r s : s +:+ "" = s.
Proof. induction s as [|c s IH]; [done|]. unfold String.app in *. simpl. by rewrite IH. Qed.
Lemma str_app_assoc s t u : s +:+ (t +:+ u) = (s +:+ t) +:+ u.
Proof. induction s as [|c s IH]; [done|]. unfold String.app in *. simpl. by rewrite IH. Qed.
Lemma str_app_cons c s t : String c s +:+ t = String c (s +:+ t).
Proof. done. Qed.

Lemma str_all_app p s t : str_all p (s +:+ t) = str_all p s && str_all p t.
Proof.
  induction s as [|c s IH]; [done|]. rewrite str_app_cons. simpl. by rewrite IH, andb_assoc.
Qed.
Lemma str_all_impl p q s :
  (∀ c, p c = true → q c = true) → str_all p s = true → str_all q s = true.
Proof.
  intros Hpq. induction s as [|c s IH]; simpl; [done|].
  intros [Hc Hs]%andb_true_iff. by rewrite (Hpq _ Hc), IH.
Qed.
Lemma str_all_repeat p c n : p c = true → str_all p (str_repeat c n) = true.
Proof. intros Hc. induction n; simpl; [done|]. by rewrite Hc. Qed.
Lemma str_length_repeat c n : String.length (str_repeat c n) = n.
Proof. induction n; simpl; by f_equal. Qed.

Lemma str_drop_app s t : str_drop (String.length s) (s +:+ t) = t.
Proof. induction s; [by destruct t|done]. Qed.
Lemma str_drop_exact n s t : String.length s = n → str_drop n (s +:+ t) = t.
Proof. intros <-. apply str_drop_app. Qed.
Lemma str_take_app s t : str_take (String.length s) (s +:+ t) = s.
Proof. induction s as [|c s IH]; [by destruct t|]. rewrite str_app_cons. simpl. by rewrite IH. Qed.
Lemma str_take_exact n s t : String.length s = n → str_take n (s +:+ t) = s.
Proof. intros <-. apply str_take_app. Qed.
Lemma str_take_drop n s : str_take n s +:+ str_drop n s = s.
Proof.
  revert s; induction n as [|n IH]; intros [|c s]; simpl; try done.
  by rewrite str_app_cons, IH.
Qed.
Lemma str_length_drop n s : String.length (str_drop n s) = (String.length s - n)%nat.
Proof. revert s; induction n as [|n IH]; intros [|c s]; simpl; try done. Qed.
Lemma str_length_take n s : String.length (str_take n s) = (n `min` String.length s)%nat.
Proof.
  revert s; induction n as [|n IH]; intros [|c s]; simpl; try done.
  by rewrite IH.
Qed.
Lemma str_all_drop p n s : str_all p s = true → str_all p (str_drop n s) = true.
Proof.
  revert s; induction n as [|n IH]; intros [|c s]; simpl; try done.
  intros [_ ?]%andb_true_iff. by apply IH.
Qed.
Lemma str_all_take p n s : str_all p s = true → str_all p (str_take n s) = true.
Proof.
  revert s; induction n as [|n IH]; intros [|c s]; simpl; try done.
  intros [-> ?]%andb_true_iff. by apply IH.
Qed.
Lemma str_slice_app s t u :
  str_slice (String.length s) (String.length s + String.length t) (s +:+ (t +:+ u)) = t.
Proof.
  unfold str_slice. rewrite str_drop_app.
  replace (_ + _ - _)%nat with (String.length t) by lia. apply str_take_app.
Qed.

Lemma startswith_app t s : startswith t (t +:+ s) = true.
Proof.
  unfold startswith. induction t as [|c t IH]; [by destruct s|].
  rewrite str_app_cons. simpl. by destruct (ascii_dec c c).
Qed.
Lemma startswith_spec t s : startswith t s = true ↔ ∃ r, s = t +:+ r.
Proof.
  split; [|intros [r ->]; apply startswith_app].
  unfold startswith. revert s. induction t as [|c t IH]; intros s; [by exists s|].
  destruct s as [|d s]; simpl; [done|]. destruct (ascii_dec c d) as [->|]; [|done].
  intros [r ->]%IH. by exists r.
Qed.

Lemma length_lower s : String.length (lower s) = String.length s.
Proof. induction s; simpl; by f_equal. Qed.
Lemma lower_idemp s : lower (lower s) = lower s.
Proof. induction s as [|c s IH]; simpl; [done|]. by rewrite lower_char_idemp, IH. Qed.
Lemma lower_app s t : lower (s +:+ t) = lower s +:+ lower t.
Proof. induction s as [|c s IH]; [done|]. rewrite str_app_cons. simpl. by rewrite IH, str_app_cons. Qed.
Lemma lower_drop n s : lower (str_drop n s) = str_drop n (lower s).
Proof. revert s; induction n as [|n IH]; intros [|c s]; simpl; try done. Qed.
Lemma lower_take n s : lower (str_take n s) = str_take n (lower s).
Proof. revert s; induction n as [|n IH]; intros [|c s]; simpl; try done. by rewrite IH. Qed.
Lemma lower_all_hex s :
  str_all is_hex_digit s = true → str_all is_lower_hex_digit (lower s) = true.
Proof.
  induction s as [|c s IH]; simpl; [done|].
  intros [Hc Hs]%andb_true_iff. by rewrite lower_char_hex, IH.
Qed.
Lemma lower_lower_hex s : str_all is_lower_hex_digit s = true → lower s = s.
Proof.
  induction s as [|c s IH]; simpl; [done|].
  intros [Hc Hs]%andb_true_iff. by rewrite lower_char_lower_hex, IH.
Qed.

Lemma rjust_exact n c s : (n <= String.length s)%nat → rjust n c s = s.
Proof. intros. unfold rjust. by replace (n - _)%nat with O by lia. Qed.
Lemma length_rjust n c s : String.length (rjust n c s) = (n `max` String.length s)%nat.
Proof. unfold rjust. rewrite str_length_app, str_length_repeat. lia. Qed.
Lemma length_ljust n c s : String.length (ljust n c s) = (n `max` String.length s)%nat.
Proof. unfold ljust. rewrite str_length_app, str_length_repeat. lia. Qed.

Lemma lstrip_by_id p s : str_all (λ c, negb (p c)) s = true → lstrip_by p s = s.
Proof.
  destruct s as [|c s]; simpl; [done|]. intros [Hc _]%andb_true_iff. by destruct (p c).
Qed.
Lemma rstrip_by_id p s : str_all (λ c, negb (p c)) s = true → rstrip_by p s = s.
Proof.
  induction s as [|c s IH]; simpl; [done|]. intros [Hc Hs]%andb_true_iff.
  rewrite IH by done. destruct (p c); [done|]. by rewrite andb_false_r.
Qed.
Lemma strip_by_id p s : str_all (λ c, negb (p c)) s = true → strip_by p s = s.
Proof. intros Hs. unfold strip_by. by rewrite lstrip_by_id, rstrip_by_id. Qed.
End string_lemmas.
#[export] Hint Rewrite str_length_app str_app_nil_r str_all_app str_length_repeat str_length_drop
  str_length_take length_lower lower_idemp lower_app length_rjust length_ljust : py_str.

(** ** Digit strings *)

(** The value of a string of digits. *)
Fixpoint num_value (b acc : Z) (s : string) : Z :=
  match s with
  | EmptyString => acc
  | String c s => num_value b (acc * b + digit_val c) s
  end.
Definition hex_value : string → Z := num_value 16 0.

Section digit_lemmas.
Implicit Types (s t : string) (b v acc : Z).

Lemma num_value_app b acc s t : num_value b acc (s +:+ t) = num_value b (num_value b acc s) t.
Proof. revert acc. induction s as [|c s IH]; intros acc; [done|]. rewrite str_app_cons. apply IH. Qed.

Lemma num_value_acc b acc s :
  num_value b acc s = acc * b ^ Z.of_nat (String.length s) + num_value b 0 s.
Proof.
  revert acc. induction s as [|c s IH]; intros acc; simpl; [lia|].
  rewrite IH, (IH (0 * b + _)).
  rewrite Nat2Z.inj_succ, Z.pow_succ_r by lia. lia.
Qed.

Lemma hex_value_range s :
  str_all is_hex_digit s = true → 0 ≤ hex_value s < 16 ^ Z.of_nat (String.length s).
Proof.
  unfold hex_value. induction s as [|c s IH]; [done|].
  cbn [str_all num_value String.length]. intros [Hc Hs]%andb_true_iff.
  rewrite num_value_acc, Nat2Z.inj_succ, Z.pow_succ_r by lia.
  specialize (IH Hs). pose proof (digit_val_hex_range c Hc). nia.
Qed.

Lemma hex_value_lower s :
  str_all is_hex_digit s = true → hex_value (lower s) = hex_value s.
Proof.
  unfold hex_value. generalize 0. induction s as [|c s IH]; intros acc; [done|].
  cbn [str_all lower num_value]. intros [Hc Hs]%andb_true_iff.
  rewrite digit_val_lower by done. by apply IH.
Qed.

Lemma digits_go_value is_d b acc s :
  str_all is_d s = true → (∀ c, is_d c = true → is_hex_digit c = true) →
  digits_go is_d b false acc s = Some (num_value b acc s).
Proof.
  intros Hs Hd. revert acc Hs. induction s as [|c s IH]; intros acc; [done|].
  cbn [str_all digits_go num_value]. intros [Hc Hs]%andb_true_iff.
  rewrite hex_not_underscore, Hc by auto. by apply IH.
Qed.

Lemma digits_value is_d b s :
  s ≠ "" → str_all is_d s = true → (∀ c, is_d c = true → is_hex_digit c = true) →
  digits is_d b s = Some (num_value b 0 s).
Proof.
  intros Hne Hs Hd. destruct s as [|c s]; [done|]. unfold digits.
  rewrite hex_not_underscore; [by apply digits_go_value|].
  apply Hd. by apply andb_true_iff in Hs as [? _].
Qed.

Lemma hex_no_space s :
  str_all is_hex_digit s = true → str_all (λ c, negb (int_space c)) s = true.
Proof. apply str_all_impl. by intros c [-> _]%hex_not_space. Qed.

(** ["0x"] followed by hex digits parses to their value. *)
Lemma py_int16_0x s :
  s ≠ "" → str_all is_hex_digit s = true → py_int16 ("0x" +:+ s) = Some (hex_value s).
Proof.
  intros Hne Hs. unfold py_int16. rewrite strip_by_id.
  2:{ rewrite str_all_app, (hex_no_space s) by done. reflexivity. }
  change (split_sign ("0x" +:+ s)) with (false, "0x" +:+ s). cbn beta iota.
  change (drop_0x ("0x" +:+ s)) with
    (match s with String u r' => if code u =? 95 then r' else s | EmptyString => s end).
  destruct s as [|c r] eqn:E; [done|]. simpl in Hs. apply andb_true_iff in Hs as [Hc Hr].
  rewrite hex_not_underscore by done.
  rewrite digits_value; [done|done| |done]. cbn. by rewrite Hc.
Qed.

Lemma py_int16_hex s :
  s ≠ "" → str_all is_hex_digit s = true → py_int16 s = Some (hex_value s).
Proof.
  intros Hne Hs. unfold py_int16. rewrite strip_by_id by (by apply hex_no_space).
  destruct s as [|c r]; [done|]. pose proof Hs as Hall.
  simpl in Hs. apply andb_true_iff in Hs as [Hc Hr].
  unfold split_sign. destruct (hex_not_sign c Hc) as [-> ->].
  replace (drop_0x (String c r)) with (String c r).
  2:{ unfold drop_0x. destruct r as [|x r]; [done|].
      simpl in Hr. apply andb_true_iff in Hr as [Hx _].
      destruct (hex_not_x x Hx) as [-> ->]. by rewrite andb_false_r. }
  rewrite digits_value; done.
Qed.

Lemma length_numw b n v : String.length (numw b n v) = n.
Proof. induction n; simpl; by f_equal. Qed.

Lemma numw_char_range b n v : 2 ≤ b ≤ 16 → 0 ≤ v / b ^ Z.of_nat n mod b < 16.
Proof. intros. pose proof (Z.mod_pos_bound (v / b ^ Z.of_nat n) b). lia. Qed.

Lemma numw_lower_hex b n v : 2 ≤ b ≤ 16 → str_all is_lower_hex_digit (numw b n v) = true.
Proof.
  intros Hb. induction n as [|n IH]; [done|]. cbn [numw str_all]. rewrite IH, andb_true_r.
  by apply digit_char_spec, numw_char_range.
Qed.
Lemma numw_hex b n v : 2 ≤ b ≤ 16 → str_all is_hex_digit (numw b n v) = true.
Proof. intros. eapply str_all_impl, numw_lower_hex; [apply lower_hex_hex|done]. Qed.
Lemma numw_dec n v : str_all is_dec_digit (numw 10 n v) = true.
Proof.
  induction n as [|n IH]; [done|]. cbn [numw str_all]. rewrite IH, andb_true_r.
  apply digit_char_spec; [by apply numw_char_range|]. by apply Z.mod_pos_bound.
Qed.

(** The digits of [v] have the value [v]. *)
Lemma num_value_numw b n acc v :
  2 ≤ b ≤ 16 → num_value b acc (numw b n v) = acc * b ^ Z.of_nat n + v mod b ^ Z.of_nat n.
Proof.
  intros Hb. revert acc. induction n as [|n IH]; intros acc.
  { simpl. rewrite Z.mod_1_r. lia. }
  cbn [numw num_value]. rewrite IH.
  destruct (digit_char_spec (v / b ^ Z.of_nat n mod b)) as [-> _]; [by apply numw_char_range|].
  rewrite Nat2Z.inj_succ, Z.pow_succ_r by lia.
  rewrite (Z.mul_comm b), Z.rem_mul_r by lia. lia.
Qed.

Lemma numw_inj b n v w :
  2 ≤ b ≤ 16 → 0 ≤ v < b ^ Z.of_nat n → 0 ≤ w < b ^ Z.of_nat n →
  numw b n v = numw b n w → v = w.
Proof.
  intros Hb Hv Hw E%(f_equal (num_value b 0)).
  rewrite !num_value_numw, !Z.mod_small in E by done. lia.
Qed.

Lemma numw_value n s :
  String.length s = n → str_all is_lower_hex_digit s = true → numw 16 n (hex_value s) = s.
Proof.
  intros <-. unfold hex_value. induction s as [|c s IH]; [done|].
  cbn [str_all String.length num_value numw]. intros [Hc Hs]%andb_true_iff.
  pose proof (hex_value_range s (str_all_impl _ _ _ lower_hex_hex Hs)) as Hr.
  unfold hex_value in Hr. set (N := 16 ^ Z.of_nat (String.length s)) in *.
  pose proof (digit_val_hex_range c (lower_hex_hex _ Hc)).
  rewrite num_value_acc. fold N. rewrite Z.mul_0_l, Z.add_0_l.
  f_equal.
  - rewrite Z.div_add_l, Z.div_small, Z.add_0_r, Z.mod_small by lia. clear -Hc. all_chars c.
  - assert (∀ n v w, (n <= String.length s)%nat →
      numw 16 n (w * N + v) = numw 16 n v) as Hlow.
    { intros n. induction n as [|n IHn]; intros v w Hn; [done|]. cbn [numw].
      rewrite IHn by lia. f_equal. f_equal.
      assert (N = 16 ^ (Z.of_nat (String.length s) - Z.of_nat n - 1) * 16 * 16 ^ Z.of_nat n)
        as ->.
      { unfold N. rewrite <- Z.mul_assoc, <- Z.pow_succ_r, <- Z.pow_add_r by lia.
        f_equal. lia. }
      rewrite !Z.mul_assoc, Z.div_add_l by lia.
      rewrite <- (Z.add_comm (v / _)), Z.mod_add by lia. done. }
    rewrite Hlow by done. by apply IH.
Qed.
End digit_lemmas.

(** ** Formats *)

Section format_lemmas.
Implicit Types (b v : Z) (s : string).

Lemma ndigits_go_spec fuel b v :
  2 ≤ b → 0 ≤ v < 2 ^ (Z.of_nat fuel + 1) →
  v < b ^ Z.of_nat (ndigits_go fuel b v)
  ∧ ((1 < ndigits_go fuel b v)%nat → b ^ (Z.of_nat (ndigits_go fuel b v) - 1) ≤ v).
Proof.
  intros Hb. revert v. induction fuel as [|fuel IH]; intros v Hv; cbn [ndigits_go].
  { rewrite Z.pow_1_r in *. change (2 ^ (Z.of_nat 0 + 1)) with 2 in Hv. lia. }
  destruct (Z.ltb_spec v b) as [Hlt|Hge]; [rewrite Z.pow_1_r; lia|].
  assert (0 ≤ v / b < 2 ^ (Z.of_nat fuel + 1)) as Hq.
  { split; [apply Z.div_pos; lia|]. apply Z.div_lt_upper_bound; [lia|].
    rewrite Nat2Z.inj_succ, <- Z.add_1_r, (Z.pow_add_r 2 (_ + 1)) in Hv by lia. nia. }
  destruct (IH _ Hq) as [IH1 IH2]. set (n := ndigits_go fuel b (v / b)) in *.
  pose proof (Z.div_mod v b ltac:(lia)). pose proof (Z.mod_pos_bound v b ltac:(lia)).
  rewrite Nat2Z.inj_succ, Z.pow_succ_r by lia. split; [nia|]. intros _.
  replace (Z.succ (Z.of_nat n) - 1) with (Z.of_nat n) by lia.
  destruct (decide (n = 0)%nat) as [->|]; [change (b ^ Z.of_nat 0) with 1; lia|].
  replace (Z.of_nat n) with (Z.succ (Z.of_nat n - 1)) by lia.
  rewrite Z.pow_succ_r by lia.
  destruct (decide (n = 1)%nat) as [->|].
  - change (b ^ (Z.of_nat 1 - 1)) with 1. lia.
  - specialize (IH2 ltac:(lia)). nia.
Qed.

Lemma ndigits_spec b v :
  2 ≤ b → 0 ≤ v →
  v < b ^ Z.of_nat (ndigits b v)
  ∧ ((1 < ndigits b v)%nat → b ^ (Z.of_nat (ndigits b v) - 1) ≤ v).
Proof.
  intros Hb Hv. apply ndigits_go_spec; [done|]. pose proof (Z.log2_nonneg v).
  rewrite Z2Nat.id by done. destruct (decide (v = 0)) as [->|]; [by vm_compute|].
  pose proof (Z.log2_spec v ltac:(lia)). unfold Z.succ in *. lia.
Qed.

Lemma ndigits_pos b v : (1 <= ndigits b v)%nat.
Proof. unfold ndigits. destruct (Z.to_nat _); simpl; [lia|]. destruct (v <? b); lia. Qed.

Lemma ndigits_le b v (n : nat) :
  2 ≤ b → 0 ≤ v < b ^ Z.of_nat n → (1 <= n)%nat → (ndigits b v <= n)%nat.
Proof.
  intros Hb [Hv Hlt] Hn. destruct (ndigits_spec b v Hb Hv) as [_ Hlo].
  destruct (decide (1 < ndigits b v)%nat) as [Hgt|]; [|lia].
  specialize (Hlo Hgt). destruct (decide (ndigits b v <= n)%nat); [done|].
  assert (b ^ Z.of_nat n ≤ b ^ (Z.of_nat (ndigits b v) - 1)) by (apply Z.pow_le_mono_r; lia).
  lia.
Qed.

(** Padding with zeros adds high digits of value zero. *)
(** The decimal text of a positive number has no leading zero. *)
Lemma to_dec_head v :
  0 < v → ∃ c r, to_dec v = String c r ∧ between 49 57 c = true ∧ str_all is_dec_digit r = true.
Proof.
  intros Hv. unfold to_dec. pose proof (numw_dec (ndigits 10 v) v) as Hd.
  destruct (ndigits_spec 10 v ltac:(lia) ltac:(lia)) as [Hhi Hlo]. pose proof (ndigits_pos 10 v).
  destruct (ndigits 10 v) as [|n]; [lia|].
  change (numw 10 (S n) v) with (String (digit_char (v / 10 ^ Z.of_nat n mod 10)) (numw 10 n v)) in *.
  cbn [str_all] in Hd. apply andb_true_iff in Hd as [_ Hd].
  eexists _, _. split; [reflexivity|]. split; [|done].
  assert (1 ≤ v / 10 ^ Z.of_nat n < 10) as Hq.
  { rewrite Nat2Z.inj_succ, Z.pow_succ_r in Hhi by lia.
    split; [|apply Z.div_lt_upper_bound; lia]. apply Z.div_le_lower_bound; [lia|].
    destruct n as [|n]; [simpl; lia|]. specialize (Hlo ltac:(lia)).
    replace (Z.of_nat (S (S n)) - 1) with (Z.of_nat (S n)) in Hlo by lia. lia. }
  rewrite Z.mod_small by lia. set (d := v / _) in *. clearbody d.
  assert (d = 1 ∨ d = 2 ∨ d = 3 ∨ d = 4 ∨ d = 5 ∨ d = 6 ∨ d = 7 ∨ d = 8 ∨ d = 9) as Hc by lia.
  by repeat destruct Hc as [->|Hc]; subst.
Qed.

Lemma rjust_numw b (n m : nat) v :
  2 ≤ b ≤ 16 → (n <= m)%nat → 0 ≤ v < b ^ Z.of_nat n →
  rjust m "0" (numw b n v) = numw b m v.
Proof.
  intros Hb Hle Hv. unfold rjust. rewrite length_numw.
  replace m with ((m - n) + n)%nat at 2 by lia.
  generalize (m - n)%nat. intros k. clear Hle. induction k as [|k IH]; [done|].
  cbn [str_repeat Nat.add numw]. rewrite str_app_cons, IH. f_equal.
  rewrite Z.div_small; [by rewrite Z.mod_0_l by lia|].
  split; [lia|]. eapply Z.lt_le_trans; [apply Hv|]. apply Z.pow_le_mono_r; lia.
Qed.

Lemma fmt_064x_numw v : 0 ≤ v < 2 ^ 256 → fmt_064x v = numw 16 64 v.
Proof.
  intros Hv. change (2 ^ 256) with (16 ^ Z.of_nat 64) in Hv.
  unfold fmt_064x, to_hex. apply rjust_numw; [lia|by apply ndigits_le; lia|].
  split; [lia|]. apply ndigits_spec; lia.
Qed.

Lemma numw_nonempty b n v : (1 <= n)%nat → numw b n v ≠ "".
Proof. by destruct n; [lia|]. Qed.

(** [int(hex(v), 16) == v] *)
Lemma py_int16_py_hex v : 0 ≤ v → py_int16 (py_hex v) = Some v.
Proof.
  intros Hv. unfold py_hex, to_hex.
  rewrite py_int16_0x; [|by apply numw_nonempty, ndigits_pos|by apply numw_hex].
  unfold hex_value. rewrite num_value_numw by done.
  destruct (ndigits_spec 16 v) as [? _]; [lia..|]. rewrite Z.mod_small by lia. done.
Qed.

Lemma hex_value_fmt v : 0 ≤ v < 2 ^ 256 → hex_value (fmt_064x v) = v.
Proof.
  intros Hv. rewrite fmt_064x_numw by done. unfold hex_value.
  rewrite num_value_numw by done. change (16 ^ Z.of_nat 64) with (2 ^ 256).
  rewrite Z.mod_small; lia.
Qed.
Lemma fmt_064x_length v : 0 ≤ v < 2 ^ 256 → String.length (fmt_064x v) = 64%nat.
Proof. intros. rewrite fmt_064x_numw by done. apply length_numw. Qed.
Lemma fmt_064x_hex v : 0 ≤ v < 2 ^ 256 → str_all is_lower_hex_digit (fmt_064x v) = true.
Proof. intros. rewrite fmt_064x_numw by done. by apply numw_lower_hex. Qed.

(** [hex(v)] is a canonical JSON-RPC quantity. *)
Lemma re_quantity_py_hex v : 0 ≤ v → re_quantity (py_hex v) = true.
Proof.
  intros Hv. unfold re_quantity, py_hex. rewrite startswith_app.
  change (str_drop 2 ("0x" +:+ to_hex v)) with (to_hex v).
  unfold to_hex. pose proof (numw_hex 16 (ndigits 16 v) v ltac:(lia)) as Hhex.
  destruct (ndigits_spec 16 v ltac:(lia) Hv) as [Hhi Hlo]. pose proof (ndigits_pos 16 v).
  destruct (ndigits 16 v) as [|n]; [lia|]. cbn [numw str_all] in *.
  apply andb_true_iff in Hhex as [-> ->]. cbn [andb].
  destruct n as [|n]; [by rewrite orb_true_r|]. specialize (Hlo ltac:(lia)).
  replace (Z.of_nat (S (S n)) - 1) with (Z.of_nat (S n)) in Hlo by lia.
  rewrite Nat2Z.inj_succ in Hhi at 1. rewrite Z.pow_succ_r in Hhi by lia.
  assert (1 ≤ v / 16 ^ Z.of_nat (S n) < 16).
  { split; [apply Z.div_le_lower_bound; lia|apply Z.div_lt_upper_bound; lia]. }
  rewrite Z.mod_small by lia. set (d := v / _) in *.
  destruct (digit_char_spec d ltac:(lia)) as [E _].
  destruct (Z.eqb_spec (code (digit_char d)) 48) as [E'|]; [|done].
  exfalso. revert E. unfold digit_val, is_dec_digit, between. rewrite E'. simpl. lia.
Qed.
End format_lemmas.

(** ** What a fullmatch says *)

Section regex_lemmas.
Implicit Types s : string.

Lemma re_0xhex_spec n s :
  re_0xhex n s = true ↔
    ∃ d, s = "0x" +:+ d ∧ String.length d = n ∧ str_all is_hex_digit d = true.
Proof.
  unfold re_0xhex. rewrite !andb_true_iff, Nat.eqb_eq, startswith_spec. split.
  - intros [[[d ->] Hlen] Hhex]. exists d. by injection Hlen.
  - intros (d & -> & <- & Hhex). repeat split; [by exists d|done].
Qed.

Lemma re_0xhex_drop n s :
  re_0xhex n s = true →
  s = "0x" +:+ str_drop 2 s ∧ String.length (str_drop 2 s) = n
  ∧ str_all is_hex_digit (str_drop 2 s) = true.
Proof. intros (d & -> & ? & ?)%re_0xhex_spec. done. Qed.

Lemma re_0xhex_lower n s : re_0xhex n s = true → re_0xhex n (lower s) = true.
Proof.
  intros (d & -> & <- & Hd)%re_0xhex_spec. apply re_0xhex_spec. exists (lower d).
  rewrite lower_app, length_lower. repeat split.
  eapply str_all_impl, lower_all_hex, Hd. apply lower_hex_hex.
Qed.

Lemma lower_0xhex n s : re_0xhex n s = true → "0x" +:+ lower (str_drop 2 s) = lower s.
Proof. intros (d & -> & _ & _)%re_0xhex_spec. by rewrite lower_app. Qed.

(** [int(s, 16)] cannot fail after the fullmatch of a non-empty hex string. *)
Lemma re_0xhex_int n s :
  (1 <= n)%nat → re_0xhex n s = true →
  py_int16 s = Some (hex_value (str_drop 2 s))
  ∧ 0 ≤ hex_value (str_drop 2 s) < 16 ^ Z.of_nat n.
Proof.
  intros Hn (d & -> & <- & Hd)%re_0xhex_spec. change (str_drop 2 ("0x" +:+ d)) with d.
  split; [|by apply hex_value_range]. apply py_int16_0x; [|done]. by intros ->; simpl in Hn; lia.
Qed.

Lemma re_quantity_int s :
  re_quantity s = true → ∃ v, py_int16 s = Some v ∧ 0 ≤ v.
Proof.
  unfold re_quantity. intros [[r ->]%startswith_spec Hr]%andb_true_iff.
  change (str_drop 2 ("0x" +:+ r)) with r in Hr. destruct r as [|c r]; [done|].
  apply andb_true_iff in Hr as [Hhex _]. exists (hex_value (String c r)).
  split; [by apply py_int16_0x|]. by apply hex_value_range.
Qed.

Lemma re_data_spec s :
  re_data s = true ↔
    ∃ d, s = "0x" +:+ d ∧ Nat.even (String.length d) = true ∧ str_all is_hex_digit d = true.
Proof.
  unfold re_data. rewrite !andb_true_iff, startswith_spec. split.
  - intros [[[d ->] Heven] Hhex]. by exists d.
  - intros (d & -> & ? & ?). repeat split; [by exists d|done..].
Qed.

Lemma re_0xhex_data n s : re_0xhex (2 * n) s = true → re_data s = true.
Proof.
  intros (d & -> & Hlen & Hd)%re_0xhex_spec. apply re_data_spec. exists d.
  rewrite Hlen. repeat split; [|done]. by rewrite Nat.even_mul.
Qed.

(** [bytes.fromhex] succeeds on an even number of hex digits. *)
Lemma fromhex_hex d :
  Nat.even (String.length d) = true → str_all is_hex_digit d = true →
  ∃ bs, fromhex d = Some bs ∧ (2 * length bs)%nat = String.length d.
Proof.
  remember (String.length d) as n eqn:Hn. revert d Hn.
  induction (lt_wf n) as [n _ IH]; intros [|c [|e d]] -> Heven Hhex; [by exists []|done|].
  simpl in Hhex. apply andb_true_iff in Hhex as [Hc [He Hd]%andb_true_iff].
  destruct (IH (String.length d) ltac:(simpl; lia) d eq_refl Heven Hd) as (bs & E & Hlen).
  cbn [fromhex]. destruct (hex_not_space c Hc) as [_ ->]. rewrite Hc, He, E. simpl.
  eexists. split; [done|]. simpl. lia.
Qed.

Lemma fromhex_cons2 c e d :
  fromhex (String c (String e d)) =
    if byte_space c then fromhex (String e d)
    else if is_hex_digit c && is_hex_digit e
         then cons (16 * digit_val c + digit_val e) <$> fromhex d
         else None.
Proof. reflexivity. Qed.

Lemma fromhex_lower s : fromhex (lower s) = fromhex s.
Proof.
  remember (String.length s) as n eqn:Hn. revert s Hn.
  induction (lt_wf n) as [n _ IH]; intros [|c [|e d]] ->; [done|..].
  { cbn [lower fromhex]. by rewrite byte_space_lower. }
  change (lower (String c (String e d))) with
    (String (lower_char c) (String (lower_char e) (lower d))).
  rewrite !fromhex_cons2, byte_space_lower, !is_hex_digit_lower.
  change (String (lower_char e) (lower d)) with (lower (String e d)).
  rewrite (IH (String.length (String e d)) ltac:(simpl; lia) (String e d) eq_refl).
  rewrite (IH (String.length d) ltac:(simpl; lia) d eq_refl).
  destruct (is_hex_digit c) eqn:Hc, (is_hex_digit e) eqn:He; try done.
  by rewrite !digit_val_lower.
Qed.

Lemma py_int16_to_hex v : 0 ≤ v → py_int16 (to_hex v) = Some v.
Proof.
  intros Hv. pose proof (py_int16_py_hex v Hv) as E. revert E. unfold py_hex, to_hex.
  rewrite py_int16_0x, py_int16_hex; try done;
    try (by apply numw_nonempty, ndigits_pos); by apply numw_hex.
Qed.

(** The decimal digits of a number: what they are and what they are worth. *)
Lemma to_dec_digits v :
  0 ≤ v → str_all is_dec_digit (to_dec v) = true ∧ to_dec v ≠ ""
          ∧ count_digits (to_dec v) = Z.of_nat (ndigits 10 v) ∧ digits is_dec_digit 10 (to_dec v) = Some v.
Proof.
  intros Hv. unfold to_dec. set (d := numw 10 (ndigits 10 v) v).
  assert (str_all is_dec_digit d = true) as Hd by apply numw_dec.
  assert (d ≠ "") as Hne by (apply numw_nonempty, ndigits_pos).
  assert (count_digits d = Z.of_nat (String.length d)) as Hcount.
  { clear -Hd. induction d as [|c d IH]; [done|]. cbn [str_all] in Hd.
    apply andb_true_iff in Hd as [Hc Hd]. cbn [count_digits String.length].
    rewrite Hc, IH by done. lia. }
  split_and!; [done|done| |].
  - rewrite Hcount. unfold d. by rewrite length_numw.
  - rewrite digits_value by (done || apply dec_digit_hex). unfold d.
    rewrite num_value_numw by done.
    destruct (ndigits_spec 10 v) as [? _]; [lia..|]. by rewrite Z.mod_small.
Qed.

Lemma dec_no_sign d : str_all is_dec_digit d = true → d ≠ "" → split_sign d = (false, d).
Proof.
  intros Hd Hne. destruct d as [|c d']; [done|]. apply andb_true_iff in Hd as [Hc _].
  apply dec_digit_hex in Hc. unfold split_sign. by destruct (hex_not_sign c Hc) as [-> ->].
Qed.
Lemma dec_no_space d : str_all is_dec_digit d = true → str_all (λ c, negb (int_space c)) d = true.
Proof. intros Hd. apply hex_no_space. eapply str_all_impl, Hd. apply dec_digit_hex. Qed.

Lemma py_int10_to_dec v :
  0 ≤ v → Z.of_nat (ndigits 10 v) ≤ INT_MAX_STR_DIGITS → py_int10 (to_dec v) = Some v.
Proof.
  intros Hv Hlen. destruct (to_dec_digits v Hv) as (Hd & Hne & Hc & Hdig). unfold py_int10.
  rewrite strip_by_id by by apply dec_no_space. rewrite dec_no_sign, Hc by done.
  rewrite (proj2 (Z.ltb_ge _ _)) by done. by rewrite Hdig.
Qed.

(** [int(str(v))] *)
Lemma py_int10_str_of_Z v :
  Z.of_nat (ndigits 10 (Z.abs v)) ≤ INT_MAX_STR_DIGITS → py_int10 (str_of_Z v) = Some v.
Proof.
  intros Hlen. unfold str_of_Z. destruct (Z.ltb_spec v 0); [|by apply py_int10_to_dec; [|rewrite Z.abs_eq in Hlen]].
  rewrite Z.abs_neq in Hlen by lia.
  destruct (to_dec_digits (- v) ltac:(lia)) as (Hd & Hne & Hc & Hdig). unfold py_int10.
  rewrite strip_by_id by (change (str_all (λ c, negb (int_space c)) ("-" +:+ to_dec (- v)))
    with (true && str_all (λ c, negb (int_space c)) (to_dec (- v))); by apply dec_no_space).
  change (split_sign ("-" +:+ to_dec (- v))) with (true, to_dec (- v)). cbv iota beta.
  rewrite Hc, (proj2 (Z.ltb_ge _ _)) by done. rewrite Hdig. unfold signed. simpl. f_equal. lia.
Qed.
End regex_lemmas.

(** ** Concatenated words of 64 digits *)

Fixpoint str_cat (ws : list string) : string :=
  match ws with
  | [] => EmptyString
  | w :: ws => w +:+ str_cat ws
  end.

Section words.
Lemma str_drop_add n m s : str_drop (n + m) s = str_drop m (str_drop n s).
Proof. revert s. induction n as [|n IH]; intros [|c s]; simpl; try done. by destruct m. Qed.

Lemma str_slice_drop n i j s :
  (i <= j)%nat → str_slice (n + i) (n + j) s = str_slice i j (str_drop n s).
Proof.
  intros Hij. unfold str_slice. rewrite str_drop_add. f_equal. lia.
Qed.

Lemma str_cat_app ws vs : str_cat (ws ++ vs) = str_cat ws +:+ str_cat vs.
Proof. induction ws as [|w ws IH]; [done|]. simpl. by rewrite IH, str_app_assoc. Qed.

Lemma word_at ws (i : nat) w rest :
  Forall (λ w, String.length w = 64%nat) ws → ws !! i = Some w →
  str_slice (64 * i) (64 * i + 64) (str_cat ws +:+ rest) = w.
Proof.
  intros Hws. revert i. induction Hws as [|v ws Hv Hws IH]; intros i; [done|].
  cbn [str_cat]. rewrite <- str_app_assoc. destruct i as [|i]; intros Hi.
  - injection Hi as ->. rewrite Nat.mul_0_r. by apply str_take_exact.
  - replace (64 * S i)%nat with (64 + 64 * i)%nat by lia.
    replace (64 + 64 * i + 64)%nat with (64 + (64 * i + 64))%nat by lia.
    rewrite str_slice_drop, (str_drop_exact 64) by (done || lia). by apply IH.
Qed.

Lemma str_length_cat ws :
  Forall (λ w, String.length w = 64%nat) ws → String.length (str_cat ws) = (64 * length ws)%nat.
Proof. induction 1; simpl; [done|]. rewrite str_length_app. lia. Qed.
End words.

(** The clients of this file reason by the lemmas above, not by unfolding. *)
#[global] Arguments code : simpl never.
#[global] Arguments str_drop : simpl never.
#[global] Arguments str_take : simpl never.
#[global] Arguments str_slice : simpl never.
#[global] Arguments str_repeat : simpl never.
#[global] Arguments lower : simpl never.
#[global] Arguments rjust : simpl never.
#[global] Arguments ljust : simpl never.
#[global] Arguments strip : simpl never.
#[global] Arguments py_int16 : simpl never.
#[global] Arguments py_int10 : simpl never.
#[global] Arguments numw : simpl never.
#[global] Arguments num_value : simpl never.
#[global] Arguments fmt_064x : simpl never.
#[global] Arguments re_0xhex : simpl never.
#[global] Arguments re_quantity : simpl never.
#[global] Arguments re_data : simpl never.

(** ** UTF-8 *)

Lemma decode_utf8_char c bs : decode_utf8 (utf8 c ++ bs) = String c <$> decode_utf8 bs.
Proof. destruct c as [[] [] [] [] [] [] [] []]; reflexivity. Qed.

Lemma decode_encode_utf8 s : decode_utf8 (encode_utf8 s) = Ok s.
Proof.
  induction s as [|c s IH]; [done|]. cbn [encode_utf8]. by rewrite decode_utf8_char, IH.
Qed.

Lemma encode_utf8_app s t : encode_utf8 (s +:+ t) = encode_utf8 s ++ encode_utf8 t.
Proof.
  induction s as [|c s IH]; [done|]. rewrite str_app_cons. cbn [encode_utf8]. by rewrite IH, app_assoc.
Qed.

Lemma encode_utf8_inj s t : encode_utf8 s = encode_utf8 t → s = t.
Proof. intros E%(f_equal decode_utf8). rewrite !decode_encode_utf8 in E. by injection E. Qed.
