(* ===== verification/PyUrl.v ===== *)
(** * [urllib.parse.urlsplit]

    The parts of a URL and the properties of its network location, as the package
    uses them to redact endpoints and to check the one it is given.  A Latin-1
    character changes nothing under the compatibility normalisation that
    [_checknetloc] applies, so that check never fails here. *)

From S2P Require Import Prelude PyStr.
Local Open Scope Z_scope.

(** ** Cutting strings *)

(** Up to the first character in [p], and the rest from it. *)
Fixpoint cut (p : ascii → bool) (s : string) : string * string :=
  match s with
  | EmptyString => ("", "")
  | String c r => if p c then ("", s) else let '(a, b) := cut p r in (String c a, b)
  end.
Definition is_char (c d : ascii) : bool := code c =? code d.

(** [s.partition(c)]: whether [c] occurs, and what is on its two sides. *)
Definition partition (c : ascii) (s : string) : string * bool * string :=
  match cut (is_char c) s with
  | (a, EmptyString) => (a, false, "")
  | (a, String _ b) => (a, true, b)
  end.

(** [s.rpartition(c)] *)
Fixpoint rpartition (c : ascii) (s : string) : string * bool * string :=
  match s with
  | EmptyString => ("", false, "")
  | String d r =>
      match rpartition c r with
      | (a, true, b) => (String d a, true, b)
      | (_, false, _) => if is_char c d then ("", true, r) else ("", false, s)
      end
  end.

(** [s.split(c)] *)
Fixpoint split_on (c : ascii) (s : string) : list string :=
  match s with
  | EmptyString => [""]
  | String d r =>
      if is_char c d then "" :: split_on c r
      else match split_on c r with x :: l => String d x :: l | [] => [String d ""] end
  end.

Definition str_has (c : ascii) (s : string) : bool := str_any (is_char c) s.

(** [s] without the characters in [p] *)
Fixpoint remove_chars (p : ascii → bool) (s : string) : string :=
  match s with
  | EmptyString => ""
  | String c s => if p c then remove_chars p s else String c (remove_chars p s)
  end.

(** ** Addresses in brackets *)

Definition octet_ok (s : string) : bool :=
  isdecimal s && (str_len s <=? 3) && (negb (startswith "0" s) || (s =? "0")%string)
  && (num_value 10 0 s <=? 255).
Definition ipv4_ok (s : string) : bool :=
  let octets := split_on "." s in (length octets =? 4)%nat && forallb octet_ok octets.

Definition hextet_ok (s : string) : bool :=
  negb (s =? "")%string && (str_len s <=? 4) && str_all is_hex_digit s.

Definition empty (s : string) : bool := (s =? "")%string.

(** The places, after the first and before the last, of the empty groups. *)
Definition inner_gaps (parts : list string) : list nat :=
  filter (λ i, empty (nth i parts "") = true) (seq 1 (length parts - 2)).

(** [ipaddress.IPv6Address(s)] is no error. *)
Definition ipv6_ok (s : string) : bool :=
  let '(addr, scoped, scope) := partition "%" s in
  let parts := split_on ":" addr in
  let v4 := str_has "." (List.last parts "") in
  let parts' := if v4 then removelast parts ++ ["0"; "0"] else parts in
  let n := length parts' in
  let first_empty := empty (List.hd "" parts') in
  let last_empty := empty (List.last parts' "") in
  negb (str_has "/" s)
  && (negb scoped || (negb (empty scope) && negb (str_has "%" scope)))
  && (3 <=? length parts)%nat
  && (negb v4 || ipv4_ok (List.last parts ""))
  && (n <=? 9)%nat
  && match inner_gaps parts' with
     | [] => (n =? 8)%nat && negb first_empty && negb last_empty && forallb hextet_ok parts'
     | [gap] =>
         let high := if first_empty then (gap - 1)%nat else gap in
         let low := if last_empty then (n - gap - 2)%nat else (n - gap - 1)%nat in
         (negb first_empty || (high =? 0)%nat) && (negb last_empty || (low =? 0)%nat)
         && (high + low <? 8)%nat
         && forallb hextet_ok (take high parts')
         && forallb hextet_ok (if last_empty then [] else drop (gap + 1) parts')
     | _ => false
     end.

(** [re.match(r"\Av[a-fA-F0-9]+\..+\Z", s)] *)
Definition ip_future_ok (s : string) : bool :=
  let '(hex, dot, rest) := partition "." (str_drop 1 s) in
  startswith "v" s && dot && negb (empty hex) && str_all is_hex_digit hex && negb (empty rest).

Definition bracketed_host_ok (host : string) : bool :=
  if startswith "v" host then ip_future_ok host else ipv6_ok host.

(** ** Splitting *)

Record SplitResult := {
  scheme : string; netloc : string; path : string; query : string; fragment : string
}.

(** The host and the port text, empty when there is none, of a location. *)
Definition _hostinfo (netloc : string) : string * string :=
  let '(_, _, hostinfo) := rpartition "@" netloc in
  let '(_, open_bracket, bracketed) := partition "[" hostinfo in
  if open_bracket then
    let '(host, _, after) := partition "]" bracketed in
    let '(_, _, port) := partition ":" after in
    (host, port)
  else
    let '(host, _, port) := partition ":" hostinfo in
    (host, port).

Definition bracketed_netloc_ok (netloc : string) : bool :=
  let '(_, _, hostinfo) := rpartition "@" netloc in
  let '(before, open_bracket, bracketed) := partition "[" hostinfo in
  if open_bracket then
    let '(host, _, after) := partition "]" bracketed in
    empty before && (empty after || startswith ":" after) && bracketed_host_ok host
  else bracketed_host_ok (partition ":" hostinfo).1.1.

Definition is_scheme_char (c : ascii) : bool :=
  between 65 90 c || between 97 122 c || is_dec_digit c
  || (code c =? 43) || (code c =? 45) || (code c =? 46).
Definition is_alpha (c : ascii) : bool := between 65 90 c || between 97 122 c.

(** [scheme:rest], or no scheme. *)
Definition split_scheme (url : string) : string * string :=
  let '(s, colon, rest) := partition ":" url in
  match s with
  | String c _ =>
      if colon && is_alpha c && str_all is_scheme_char s then (lower s, rest) else ("", url)
  | EmptyString => ("", url)
  end.

(** [//netloc] of what follows the scheme: it ends before a slash, a question
    mark or a hash sign. *)
Definition ends_netloc (c : ascii) : bool := is_char "/" c || is_char "?" c || is_char "#" c.
Definition split_netloc (url : string) : string * string :=
  if startswith "//" url then cut ends_netloc (str_drop 2 url) else ("", url).

Definition url_clean (url : string) : string :=
  remove_chars (λ c, (code c =? 9) || (code c =? 10) || (code c =? 13))
    (lstrip_by (λ c, code c <=? 32) url).

Definition urlsplit (url : string) : res SplitResult :=
  let '(scheme, rest) := split_scheme (url_clean url) in
  let '(netloc, rest) := split_netloc rest in
  let opened := str_has "[" netloc in
  let closed := str_has "]" netloc in
  raise_if (xorb opened closed) ValueError "Invalid IPv6 URL" ;;
  raise_if (opened && closed && negb (bracketed_netloc_ok netloc)) ValueError "Invalid IPv6 URL" ;;
  let '(rest, _, fragment) := partition "#" rest in
  let '(path, _, query) := partition "?" rest in
  Ok {| scheme := scheme; netloc := netloc; path := path; query := query; fragment := fragment |}.

(** The properties of the result. *)
Definition hostname (u : SplitResult) : option string :=
  let '(host, _) := _hostinfo (netloc u) in
  if empty host then None
  else let '(name, percent, zone) := partition "%" host in
       Some (lower name +:+ (if percent : bool then "%" else "") +:+ zone).

Definition port (u : SplitResult) : res (option Z) :=
  let '(_, p) := _hostinfo (netloc u) in
  if empty p then Ok None
  else
    raise_if (negb (isdigit p && isascii p)) ValueError "Port could not be cast to integer value" ;;
    n ← or_raise (py_int10 p) ValueError "Exceeds the limit for integer string conversion";
    raise_if (negb ((0 <=? n) && (n <=? 65535))) ValueError "Port out of range 0-65535" ;;
    Ok (Some n).

Definition username (u : SplitResult) : option string :=
  let '(userinfo, at_sign, _) := rpartition "@" (netloc u) in
  if at_sign : bool then Some (partition ":" userinfo).1.1 else None.
Definition password (u : SplitResult) : option string :=
  let '(userinfo, at_sign, _) := rpartition "@" (netloc u) in
  let '(_, colon, secret) := partition ":" userinfo in
  if at_sign && colon then Some secret else None.

(** * Lemmas *)

Section cut_lemmas.
Implicit Types (s t : string).

Lemma cut_app p s t : str_all (λ c, negb (p c)) s = true → cut p (s +:+ t) = (s +:+ (cut p t).1, (cut p t).2).
Proof.
  induction s as [|c s IH]; simpl; [intros _; change (cut p t = ((cut p t).1, (cut p t).2)); by destruct (cut p t)|].
  intros [Hc%negb_true_iff Hs]%andb_true_iff. rewrite Hc, IH by done. done.
Qed.

Lemma cut_none p s : str_all (λ c, negb (p c)) s = true → cut p s = (s, "").
Proof. intros H. rewrite <- (str_app_nil_r s) at 1. rewrite cut_app by done. simpl. by rewrite str_app_nil_r. Qed.

Lemma is_char_refl c : is_char c c = true.
Proof. apply Z.eqb_refl. Qed.

Lemma partition_app c s t :
  str_all (λ d, negb (is_char c d)) s = true → partition c (s +:+ String c t) = (s, true, t).
Proof.
  intros Hs. unfold partition. rewrite cut_app by done. simpl. rewrite is_char_refl. simpl.
  by rewrite str_app_nil_r.
Qed.

Lemma partition_none c s : str_all (λ d, negb (is_char c d)) s = true → partition c s = (s, false, "").
Proof. intros Hs. unfold partition. by rewrite cut_none. Qed.

Lemma rpartition_none c s : str_all (λ d, negb (is_char c d)) s = true → rpartition c s = ("", false, s).
Proof.
  induction s as [|d s IH]; simpl; [done|]. intros [Hd%negb_true_iff Hs]%andb_true_iff.
  by rewrite IH, Hd.
Qed.

Lemma rpartition_app c s t :
  str_all (λ d, negb (is_char c d)) t = true → rpartition c (s +:+ String c t) = (s, true, t).
Proof.
  intros Ht. induction s as [|d s IH].
  - change (rpartition c (String c t) = ("", true, t)). simpl. by rewrite rpartition_none, is_char_refl.
  - rewrite str_app_cons. simpl. by rewrite IH.
Qed.

Lemma remove_chars_none p s : str_all (λ c, negb (p c)) s = true → remove_chars p s = s.
Proof.
  induction s as [|c s IH]; simpl; [done|]. intros [Hc%negb_true_iff Hs]%andb_true_iff.
  by rewrite Hc, IH.
Qed.

Lemma str_has_app c s t : str_has c (s +:+ t) = str_has c s || str_has c t.
Proof.
  unfold str_has. induction s as [|d s IH]; [done|]. rewrite str_app_cons. simpl.
  by rewrite IH, orb_assoc.
Qed.

Lemma str_has_none c s : str_all (λ d, negb (is_char c d)) s = true → str_has c s = false.
Proof.
  unfold str_has. induction s as [|d s IH]; simpl; [done|].
  intros [Hd%negb_true_iff Hs]%andb_true_iff. by rewrite Hd, IH.
Qed.
End cut_lemmas.
