(* ===== verification/PyText.v ===== *)
(** * Searching and rewriting text

    [sub in s], [s.replace(old, new)] and the substitution of every run of some
    characters by one space, with the lemmas that say what they leave behind: a
    replaced text does not occur in the result, and a text that holds none of the
    inserted characters occurs after a rewriting only if it did before. *)

From S2P Require Import Prelude PyStr PyUrl.
Local Open Scope Z_scope.

(** [sub in s] *)
Fixpoint occurs (sub s : string) : bool :=
  startswith sub s || match s with EmptyString => false | String _ r => occurs sub r end.

(** What follows the first [sub] of [s]. *)
Fixpoint after (sub s : string) : option string :=
  if startswith sub s then Some (str_drop (String.length sub) s)
  else match s with EmptyString => None | String _ r => after sub r end.

Section replace.
Variables old new : string.

(** [skip] characters of the last match are still to be dropped. *)
Fixpoint replace_from (skip : nat) (s : string) : string :=
  match s with
  | EmptyString => ""
  | String c r =>
      match skip with
      | S skip => replace_from skip r
      | O => if startswith old s then new +:+ replace_from (String.length old - 1) r
             else String c (replace_from O r)
      end
  end.
End replace.

(** [s.replace(old, new)] for an [old] that is not empty *)
Definition str_replace (old new s : string) : string := replace_from old new O s.

(** Every run of characters in [p] becomes one space: [re.sub("[p]+", " ", s)]. *)
Fixpoint runs_to_space (p : ascii → bool) (in_run : bool) (s : string) : string :=
  match s with
  | EmptyString => ""
  | String c r =>
      if p c then
        (if in_run then runs_to_space p true r else String " " (runs_to_space p true r))
      else String c (runs_to_space p false r)
  end.

(** ** [repr] *)

Definition BACKSLASH : ascii := "092".
Definition SINGLE : ascii := "039".
Definition DOUBLE : ascii := "034".

Definition repr_char (quote c : ascii) : string :=
  if (code c =? 92) || is_char quote c then String BACKSLASH (String c "")
  else if code c =? 9 then String BACKSLASH "t"
  else if code c =? 10 then String BACKSLASH "n"
  else if code c =? 13 then String BACKSLASH "r"
  else if between 32 126 c || between 161 172 c || between 174 255 c then String c ""
  else String BACKSLASH ("x" +:+ numw 16 2 (code c)).
Fixpoint repr_chars (quote : ascii) (s : string) : string :=
  match s with
  | EmptyString => ""
  | String c s => repr_char quote c +:+ repr_chars quote s
  end.

(** [repr(s)]: double quotes only around a text that has single ones and no double. *)
Definition str_repr (s : string) : string :=
  let quote := if str_has SINGLE s && negb (str_has DOUBLE s) then DOUBLE else SINGLE in
  String quote (repr_chars quote s +:+ String quote "").

(** [str(exc)]: a [KeyError] shows the [repr] of the key it carries. *)
Definition exn_str (e : exn) : string :=
  if bool_decide (exn_cls e = KeyError) then str_repr (exn_msg e) else exn_msg e.

(** * Lemmas *)

#[export] Instance code_inj : Inj (=) (=) code.
Proof.
  intros c d H. unfold code in H. apply N2Z.inj in H.
  by rewrite <- (ascii_N_embedding c), <- (ascii_N_embedding d), H.
Qed.

Section occurs_lemmas.
Implicit Types (s t u : string).

Lemma startswith_cons c s d t : startswith (String c s) (String d t) = true ↔ c = d ∧ startswith s t = true.
Proof.
  rewrite !startswith_spec. split.
  - intros [r E]. rewrite str_app_cons in E. injection E as -> ->. eauto.
  - intros [-> [r ->]]. exists r. by rewrite str_app_cons.
Qed.

Lemma startswith_nil s : startswith "" s = true.
Proof. apply startswith_spec. by exists s. Qed.

Lemma startswith_longer s t u : startswith s t = true → startswith s (t +:+ u) = true.
Proof. rewrite !startswith_spec. intros [r ->]. exists (r +:+ u). by rewrite str_app_assoc. Qed.

Lemma occurs_spec s t : occurs s t = true ↔ ∃ a b, t = a +:+ (s +:+ b).
Proof.
  split.
  - induction t as [|c t IH]; cbn [occurs]; rewrite orb_true_iff.
    + intros [[b E]%startswith_spec|]; [by exists "", b|done].
    + intros [[b E]%startswith_spec|(a & b & ->)%IH]; [by exists "", b|].
      exists (String c a), b. done.
  - intros (a & b & ->). induction a as [|c a IH].
    + change ("" +:+ (s +:+ b)) with (s +:+ b).
      destruct (s +:+ b) as [|c r] eqn:E; cbn [occurs]; rewrite <- E, startswith_app; done.
    + rewrite str_app_cons. cbn [occurs]. by rewrite IH, orb_true_r.
Qed.

Lemma occurs_prefix s t : startswith s t = true → occurs s t = true.
Proof. intros H. destruct t; cbn [occurs]; by rewrite H. Qed.

Lemma occurs_cons s c t : occurs s t = true → occurs s (String c t) = true.
Proof. intros H. cbn [occurs]. by rewrite H, orb_true_r. Qed.

Lemma occurs_app_l s t u : occurs s t = true → occurs s (t +:+ u) = true.
Proof.
  rewrite !occurs_spec. intros (a & b & ->). exists a, (b +:+ u). by rewrite <- !str_app_assoc.
Qed.

Lemma occurs_app_r s t u : occurs s u = true → occurs s (t +:+ u) = true.
Proof.
  rewrite !occurs_spec. intros (a & b & ->). exists (t +:+ a), b. by rewrite <- !str_app_assoc.
Qed.

(** The characters of a part are characters of the whole. *)
Lemma occurs_chars p s t : occurs s t = true → str_any p s = true → str_any p t = true.
Proof.
  intros (a & b & ->)%occurs_spec Hs.
  assert (∀ u v, str_any p (u +:+ v) = str_any p u || str_any p v) as Happ.
  { intros u v. induction u as [|c u IH]; [done|]. rewrite str_app_cons. simpl. by rewrite IH, orb_assoc. }
  by rewrite !Happ, Hs, !orb_true_r.
Qed.

(** A text without the separator lies on one side of it. *)
Lemma startswith_sep sep s t u :
  str_has sep s = false → startswith s (t +:+ String sep u) = true → startswith s t = true.
Proof.
  revert s. induction t as [|c t IH]; intros s Hs.
  - change ("" +:+ String sep u) with (String sep u). destruct s as [|d s]; [done|].
    intros [-> _]%startswith_cons. unfold str_has in Hs. simpl in Hs. by rewrite is_char_refl in Hs.
  - rewrite str_app_cons. destruct s as [|d s]; [by intros; apply startswith_nil|].
    rewrite !startswith_cons. intros [-> H]. split; [done|]. apply IH; [|done].
    unfold str_has in *. simpl in Hs. by apply orb_false_iff in Hs as [_ ?].
Qed.

Lemma occurs_sep sep s t u :
  s ≠ "" → str_has sep s = false → occurs s (t +:+ String sep u) = true →
  occurs s t = true ∨ occurs s u = true.
Proof.
  intros Hne Hs. induction t as [|c t IH].
  - change ("" +:+ String sep u) with (String sep u). cbn [occurs]. intros [H|H]%orb_true_iff; [|by right].
    apply (startswith_sep sep s "") in H; [|done]. left. by rewrite H.
  - rewrite str_app_cons. cbn [occurs]. intros [H|H]%orb_true_iff.
    + left. rewrite <- str_app_cons in H. apply startswith_sep in H; [|done]. by rewrite H.
    + destruct (IH H) as [->|?]; [left; by rewrite orb_true_r|by right].
Qed.

(** ** Parts of a text *)

Lemma lstrip_part p s : ∃ a, s = a +:+ lstrip_by p s.
Proof.
  induction s as [|c s [a E]]; [by exists ""|]. simpl. destruct (p c); [|by exists ""].
  exists (String c a). change (String c a +:+ lstrip_by p s) with (String c (a +:+ lstrip_by p s)). by rewrite <- E.
Qed.

Lemma rstrip_part p s : ∃ b, s = rstrip_by p s +:+ b.
Proof.
  induction s as [|c s [b E]]; [by exists ""|]. simpl.
  destruct (rstrip_by p s) as [|d r] eqn:Er.
  - destruct (p c); [by exists (String c s)|]. exists s. done.
  - exists b. exact (f_equal (String c) E).
Qed.

Lemma occurs_strip p s t : occurs s (strip_by p t) = true → occurs s t = true.
Proof.
  unfold strip_by. intros H. destruct (lstrip_part p t) as [a E]. rewrite E.
  destruct (rstrip_part p (lstrip_by p t)) as [b E']. rewrite E'.
  by apply occurs_app_r, occurs_app_l.
Qed.

Lemma occurs_take n s t : occurs s (str_take n t) = true → occurs s t = true.
Proof. intros H. rewrite <- (str_take_drop n t). by apply occurs_app_l. Qed.
End occurs_lemmas.

(** ** Rewriting *)

(** A text that lies in none of the inserted ones. *)
Definition foreign (s new : string) : Prop :=
  ∃ w sep, new = w +:+ String sep "" ∧ str_has sep s = false ∧ occurs s w = false.

Section replace_lemmas.
Variables old new : string.
Implicit Types (s t : string).

Lemma occurs_foreign s t :
  s ≠ "" → foreign s new → occurs s (new +:+ t) = true → occurs s t = true.
Proof.
  intros Hne (w & sep & -> & Hsep & Hw). rewrite <- str_app_assoc, str_app_cons.
  intros [H|H]%occurs_sep; [congruence|done..].
Qed.

(** The first inserted character is not in [s]: a prefix of the result was one
    of the text. *)
Lemma replace_prefix c0 s t :
  startswith (String c0 "") new = true → str_has c0 s = false →
  startswith s (replace_from old new O t) = true → startswith s t = true.
Proof.
  intros Hnew. revert s. induction t as [|c t IH]; intros s Hs; [done|]. cbn [replace_from].
  destruct s as [|d s]; [by intros; apply startswith_nil|].
  destruct (startswith old (String c t)).
  - apply startswith_spec in Hnew as [r ->]. change (String c0 "" +:+ r) with (String c0 r).
    rewrite str_app_cons, startswith_cons. intros [-> _].
    unfold str_has in Hs. simpl in Hs. by rewrite is_char_refl in Hs.
  - rewrite !startswith_cons. intros [-> H]. split; [done|]. apply IH; [|done].
    unfold str_has in *. simpl in Hs. by apply orb_false_iff in Hs as [_ ?].
Qed.

(** Replacing makes no foreign text occur. *)
Lemma replace_occurs c0 s t n :
  s ≠ "" → startswith (String c0 "") new = true → str_has c0 s = false → foreign s new →
  occurs s (replace_from old new n t) = true → occurs s t = true.
Proof.
  intros Hne Hc0 Hs Hf. revert n. induction t as [|c t IH]; intros n; [done|]. cbn [replace_from].
  destruct n as [|n]; [|by intros ?%IH; apply occurs_cons].
  destruct (startswith old (String c t)).
  - intros ?%occurs_foreign%IH; [by apply occurs_cons|done..].
  - cbn [occurs]. intros [H|H%IH]%orb_true_iff; [|by rewrite H, orb_true_r].
    destruct s as [|d s]; [done|]. apply startswith_cons in H as [-> H].
    apply (replace_prefix c0) in H; [|done|].
    + apply orb_true_iff. left. by apply startswith_cons.
    + unfold str_has in *. simpl in Hs. by apply orb_false_iff in Hs as [_ ?].
Qed.

(** What was replaced is gone. *)
Lemma replace_removes c0 t n :
  old ≠ "" → startswith (String c0 "") new = true → str_has c0 old = false → foreign old new →
  occurs old (replace_from old new n t) = false.
Proof.
  intros Hne Hc0 Hs Hf. revert n. induction t as [|c t IH]; intros n.
  - cbn [replace_from occurs]. destruct old; [done|]. by destruct n.
  - cbn [replace_from]. destruct n as [|n]; [|apply IH].
    destruct (startswith old (String c t)) eqn:E.
    + apply not_true_is_false. intros H%occurs_foreign; [|done..]. by rewrite IH in H.
    + cbn [occurs]. rewrite IH, orb_false_r. apply not_true_is_false. intros H.
      destruct old as [|d s] eqn:Eo; [done|]. rewrite <- Eo in *.
      rewrite Eo in H at 1. apply startswith_cons in H as [-> H]. apply not_true_iff_false in E. apply E.
      rewrite Eo at 1. apply startswith_cons. split; [done|].
      apply (replace_prefix c0) in H; [done|done|].
      rewrite Eo in Hs. unfold str_has in *. simpl in Hs. by apply orb_false_iff in Hs as [_ ?].
Qed.
End replace_lemmas.

Section runs_lemmas.
Variable p : ascii → bool.
Implicit Types (s t : string).

Lemma runs_prefix s t :
  str_has " " s = false → startswith s (runs_to_space p false t) = true → startswith s t = true.
Proof.
  revert s. induction t as [|c t IH]; intros s Hs; [done|]. cbn [runs_to_space].
  destruct s as [|d s]; [by intros; apply startswith_nil|].
  unfold str_has in Hs. simpl in Hs. apply orb_false_iff in Hs as [Hd Hs].
  destruct (p c); rewrite !startswith_cons; intros [-> H]; [by rewrite is_char_refl in Hd|].
  split; [done|]. by apply IH.
Qed.

(** Making spaces makes no text without a space occur. *)
Lemma runs_occurs s t b :
  s ≠ "" → str_has " " s = false → occurs s (runs_to_space p b t) = true → occurs s t = true.
Proof.
  intros Hne Hs. revert b. induction t as [|c t IH]; intros b; [done|]. cbn [runs_to_space].
  assert (∀ d b, startswith s (String d (runs_to_space p b t)) || occurs s (runs_to_space p b t) = true →
                 d = " "%char ∨ (d = c ∧ b = false) → occurs s (String c t) = true) as Hstep.
  { intros d b' [H|H%IH]%orb_true_iff Hd; [|by apply occurs_cons].
    destruct s as [|e s]; [done|]. apply startswith_cons in H as [-> H].
    unfold str_has in Hs. simpl in Hs. apply orb_false_iff in Hs as [He Hs].
    destruct Hd as [-> | [-> ->]]; [by rewrite is_char_refl in He|].
    apply occurs_prefix, startswith_cons. split; [done|]. by apply runs_prefix. }
  destruct (p c), b; [by intros ?%IH; apply occurs_cons|cbn [occurs]; eauto..].
Qed.

(** No character of a run is left but the space. *)
Lemma runs_chars t b : p " "%char = false → str_all (λ c, negb (p c)) (runs_to_space p b t) = true.
Proof.
  intros Hp. revert b. induction t as [|c t IH]; intros b; [done|]. cbn [runs_to_space].
  destruct (p c) eqn:Hc, b; simpl; rewrite ?Hp, ?Hc; apply IH.
Qed.
End runs_lemmas.

Lemma str_all_strip p q s : str_all p s = true → str_all p (strip_by q s) = true.
Proof.
  unfold strip_by. intros H. destruct (lstrip_part q s) as [a E]. rewrite E in H.
  rewrite str_all_app in H. apply andb_true_iff in H as [_ H].
  destruct (rstrip_part q (lstrip_by q s)) as [b E']. rewrite E' in H.
  rewrite str_all_app in H. by apply andb_true_iff in H as [H _].
Qed.
