(* ===== verification/PyRe.v ===== *)
(** * Regular expressions ([re])

    The patterns of the repository checks: characters, classes, sequences,
    alternatives, repetition of a class and word boundaries, over Latin-1 text.
    [ends] is a backtracking matcher: it lists where a match that starts here
    can end.  [search] is [re.search] as a truth value, and [search_spec] relates
    it to a declarative [matches]. *)

From S2P Require Import Prelude PyStr.
Local Open Scope Z_scope.

(** [\w] *)
Definition word_char (c : ascii) : bool :=
  between 48 57 c || between 65 90 c || between 97 122 c || (code c =? 95)
  || bool_decide (code c ∈ [170; 178; 179; 181; 185; 186; 188; 189; 190])
  || (between 192 255 c && negb (code c =? 215) && negb (code c =? 247)).

Inductive re :=
  | Empty
  | Class (p : ascii → bool)
  | Plus (p : ascii → bool)
  | Seq (r1 r2 : re)
  | Alt (r1 r2 : re)
  | Boundary.

(** A literal; a literal under [re.IGNORECASE]. *)
Definition Char (c : ascii) : re := Class (Ascii.eqb c).
Definition CharI (c : ascii) : re := Class (λ d, Ascii.eqb (lower_char c) (lower_char d)).
Fixpoint literal (of_char : ascii → re) (s : string) : re :=
  match s with
  | EmptyString => Empty
  | String c s => Seq (of_char c) (literal of_char s)
  end.
Definition text : string → re := literal Char.
Definition text_i : string → re := literal CharI.
Definition opt (r : re) : re := Alt r Empty.

(** A place in a line: the character before it and the text from it on. *)
Definition place : Type := option ascii * string.

Definition is_word (c : option ascii) : bool :=
  match c with Some c => word_char c | None => false end.
Definition next_char (s : string) : option ascii :=
  match s with String c _ => Some c | EmptyString => None end.
Definition at_boundary (p : place) : bool := xorb (is_word p.1) (is_word (next_char p.2)).

Fixpoint plus_ends (p : ascii → bool) (s : string) : list place :=
  match s with
  | String c t => if p c then (Some c, t) :: plus_ends p t else []
  | EmptyString => []
  end.

Fixpoint ends (r : re) (from : place) : list place :=
  match r with
  | Empty => [from]
  | Class p => match from.2 with
               | String c t => if p c then [(Some c, t)] else []
               | EmptyString => []
               end
  | Plus p => plus_ends p from.2
  | Seq r1 r2 => mid ← ends r1 from; ends r2 mid
  | Alt r1 r2 => ends r1 from ++ ends r2 from
  | Boundary => if at_boundary from then [from] else []
  end.

Fixpoint search_from (r : re) (before : option ascii) (s : string) : bool :=
  negb (bool_decide (ends r (before, s) = []))
  || match s with String c t => search_from r (Some c) t | EmptyString => false end.
Definition search (r : re) (s : string) : bool := search_from r None s.

(** ** Specification *)

Inductive matches : re → place → place → Prop :=
  | m_empty a : matches Empty a a
  | m_class p b c t : p c = true → matches (Class p) (b, String c t) (Some c, t)
  | m_once p b c t : p c = true → matches (Plus p) (b, String c t) (Some c, t)
  | m_more p b c t z : p c = true → matches (Plus p) (Some c, t) z → matches (Plus p) (b, String c t) z
  | m_seq r1 r2 a m z : matches r1 a m → matches r2 m z → matches (Seq r1 r2) a z
  | m_left r1 r2 a z : matches r1 a z → matches (Alt r1 r2) a z
  | m_right r1 r2 a z : matches r2 a z → matches (Alt r1 r2) a z
  | m_boundary a : at_boundary a = true → matches Boundary a a.

(** The place after the first characters [pre] of a line. *)
Fixpoint last_char (before : option ascii) (pre : string) : option ascii :=
  match pre with EmptyString => before | String c pre => last_char (Some c) pre end.

Lemma plus_ends_spec p b s z : z ∈ plus_ends p s ↔ matches (Plus p) (b, s) z.
Proof.
  revert b. induction s as [|c t IH]; intros b; simpl.
  { split; [by intros ?%elem_of_nil|by inversion 1]. }
  destruct (p c) eqn:Hp.
  - rewrite elem_of_cons, (IH (Some c)). split.
    + intros [->|Hz]; [by constructor|by apply m_more].
    + inversion 1; subst; [by left|by right].
  - split; [by intros ?%elem_of_nil|inversion 1; congruence].
Qed.

Lemma ends_spec r a z : z ∈ ends r a ↔ matches r a z.
Proof.
  revert a z. induction r as [|p|p|r1 IH1 r2 IH2|r1 IH1 r2 IH2|]; intros [b s] z; simpl.
  - rewrite list_elem_of_singleton. split; [by intros ->; constructor|by inversion 1].
  - destruct s as [|c t]; [split; [by intros ?%elem_of_nil|by inversion 1]|].
    destruct (p c) eqn:Hp.
    + rewrite list_elem_of_singleton. split; [by intros ->; constructor|by inversion 1].
    + split; [by intros ?%elem_of_nil|inversion 1; congruence].
  - apply plus_ends_spec.
  - rewrite list_elem_of_bind. split.
    + intros (m & Hz & Hm). apply (m_seq _ _ _ m); [by apply IH1|by apply IH2].
    + inversion 1; subst. eexists. split; [by apply IH2|by apply IH1].
  - rewrite elem_of_app, IH1, IH2. split; [intros []; by constructor|inversion 1; auto].
  - destruct (at_boundary (b, s)) eqn:Hb.
    + rewrite list_elem_of_singleton. split; [by intros ->; constructor|by inversion 1].
    + split; [by intros ?%elem_of_nil|inversion 1; congruence].
Qed.

(** A search succeeds exactly when the pattern matches somewhere in the line. *)
Lemma search_from_spec r b s :
  search_from r b s = true ↔
    ∃ pre rest z, s = pre +:+ rest ∧ matches r (last_char b pre, rest) z.
Proof.
  revert b. induction s as [|c t IH]; intros b; cbn [search_from];
    rewrite orb_true_iff, negb_true_iff, bool_decide_eq_false.
  - split.
    + intros [Hne|]; [|done]. destruct (ends r (b, "")) as [|z l] eqn:E; [done|].
      exists "", "", z. split; [done|]. apply ends_spec. cbn [last_char]. rewrite E. by left.
    + intros ([|] & rest & z & E & Hm); [|done]. change ("" = rest) in E. subst rest.
      left. apply ends_spec in Hm. intros E. cbn [last_char] in Hm. rewrite E in Hm. by apply elem_of_nil in Hm.
  - rewrite IH. split.
    + intros [Hne|(pre & rest & z & -> & Hm)]; [|by exists (String c pre), rest, z].
      destruct (ends r (b, String c t)) as [|z l] eqn:E; [done|].
      exists "", (String c t), z. split; [done|]. apply ends_spec. cbn [last_char]. rewrite E. by left.
    + intros ([|d pre] & rest & z & E & Hm).
      * change (String c t = rest) in E. subst rest. left. apply ends_spec in Hm. intros E. cbn [last_char] in Hm. rewrite E in Hm.
        by apply elem_of_nil in Hm.
      * rewrite str_app_cons in E. injection E as -> ->. right. by exists pre, rest, z.
Qed.

Lemma search_spec r s :
  search r s = true ↔ ∃ pre rest z, s = pre +:+ rest ∧ matches r (last_char None pre, rest) z.
Proof. apply search_from_spec. Qed.
