(* ===== verification/PyVal.v ===== *)
(** * Python values of the JSON wire format

    The dynamically typed values that cross the package's trust boundaries: RPC
    results, logs, receipts, HTTP bodies and receipts to verify.  A [dict] is an
    association list in insertion order, with a non-string key marked as such;
    a value outside the JSON types is [VOther] with the name of its type.  A
    float is an IEEE 754 datum of the standard library's [spec_float]. *)

From Stdlib Require Export SpecFloat.
From S2P Require Import Prelude PyStr.
Local Open Scope Z_scope.

Inductive pykey :=
  | KStr (s : string)
  | KOther (tag : string).

#[export] Instance pykey_eq_dec : EqDecision pykey.
Proof. solve_decision. Defined.

Unset Elimination Schemes.
Inductive pyval :=
  | VNone
  | VBool (b : bool)
  | VInt (z : Z)
  | VFloat (f : spec_float)
  | VStr (s : string)
  | VList (l : list pyval)
  | VDict (d : list (pykey * pyval))
  | VOther (type_name : string).
Set Elimination Schemes.

(** A [dict] as the functions that already know they hold one see it. *)
Notation pydict := (list (pykey * pyval)).

(** Induction with the hypothesis for every member of a list or dict. *)
Definition pyval_ind (P : pyval → Prop)
    (Hnone : P VNone) (Hbool : ∀ b, P (VBool b)) (Hint : ∀ z, P (VInt z))
    (Hfloat : ∀ f, P (VFloat f)) (Hstr : ∀ s, P (VStr s))
    (Hlist : ∀ l, Forall P l → P (VList l))
    (Hdict : ∀ d, Forall (λ kv, P kv.2) d → P (VDict d))
    (Hother : ∀ t, P (VOther t)) : ∀ v, P v :=
  fix go v : P v :=
    match v with
    | VNone => Hnone
    | VBool b => Hbool b
    | VInt z => Hint z
    | VFloat f => Hfloat f
    | VStr s => Hstr s
    | VList l =>
        Hlist l ((fix go_list l : Forall P l :=
          match l with
          | [] => Forall_nil_2 P
          | x :: l => Forall_cons_2 P x l (go x) (go_list l)
          end) l)
    | VDict d =>
        Hdict d ((fix go_dict d : Forall (λ kv, P kv.2) d :=
          match d with
          | [] => Forall_nil_2 _
          | kv :: d => Forall_cons_2 _ kv d (go kv.2) (go_dict d)
          end) d)
    | VOther t => Hother t
    end.

#[export] Instance spec_float_eq_dec : EqDecision spec_float.
Proof. solve_decision. Defined.

#[export] Instance pyval_eq_dec : EqDecision pyval.
Proof.
  refine (fix go (v w : pyval) : Decision (v = w) :=
    match v, w with
    | VNone, VNone => left eq_refl
    | VBool a, VBool b => cast_if (decide (a = b))
    | VInt a, VInt b => cast_if (decide (a = b))
    | VFloat a, VFloat b => cast_if (decide (a = b))
    | VStr a, VStr b => cast_if (decide (a = b))
    | VOther a, VOther b => cast_if (decide (a = b))
    | VList a, VList b => cast_if (@list_eq_dec _ go a b)
    | VDict a, VDict b => cast_if (@list_eq_dec _ (@prod_eq_dec _ _ _ go) a b)
    | _, _ => right _
    end); clear go; abstract congruence.
Defined.

(** ** Dictionaries *)

(** [d[k]], [None] for its [KeyError] *)
Fixpoint dict_lookup (k : string) (d : pydict) : option pyval :=
  match d with
  | [] => None
  | (KStr k', v) :: d => if (k =? k')%string then Some v else dict_lookup k d
  | (KOther _, _) :: d => dict_lookup k d
  end.

(** [d.get(k)] *)
Definition dict_get (k : string) (d : pydict) : pyval := default VNone (dict_lookup k d).

(** [k in d] *)
Definition dict_has (k : string) (d : pydict) : bool :=
  match dict_lookup k d with Some _ => true | None => false end.

(** [d[k]] *)
Definition dict_item (k : string) (d : pydict) : res pyval :=
  or_raise (dict_lookup k d) KeyError k.

(** [d[k] = v]: in place, or at the end for a new key *)
Fixpoint dict_set (k : string) (v : pyval) (d : pydict) : pydict :=
  match d with
  | [] => [(KStr k, v)]
  | (KStr k', w) :: d =>
      if (k =? k')%string then (KStr k', v) :: d else (KStr k', w) :: dict_set k v d
  | kv :: d => kv :: dict_set k v d
  end.

(** [set(d) == {k1, ..., kn}] for distinct string keys *)
Definition dict_keys_are (ks : list string) (d : pydict) : bool :=
  (length d =? length ks)%nat && forallb (λ k, dict_has k d) ks.

(** A dict literal. *)
Definition dict_of (kvs : list (string * pyval)) : pydict :=
  (λ kv, (KStr kv.1, kv.2)) <$> kvs.

(** Member names occur once, as in every Python [dict]. *)
Definition dict_wf (d : pydict) : Prop := NoDup d.*1.

(** ** Type tests *)

Definition as_str (v : pyval) : option string :=
  match v with VStr s => Some s | _ => None end.
Definition as_list (v : pyval) : option (list pyval) :=
  match v with VList l => Some l | _ => None end.
Definition as_dict (v : pyval) : option pydict :=
  match v with VDict d => Some d | _ => None end.
Definition as_bool (v : pyval) : option bool :=
  match v with VBool b => Some b | _ => None end.
(** [type(v) is int] *)
Definition as_exact_int (v : pyval) : option Z :=
  match v with VInt z => Some z | _ => None end.

(** ** Equality *)

(** A number as [m * 2^e]; [None] for NaN, the infinities and other types. *)
Definition num_of (v : pyval) : option (Z * Z) :=
  match v with
  | VBool b => Some (if b then 1 else 0, 0)
  | VInt z => Some (z, 0)
  | VFloat (S754_zero _) => Some (0, 0)
  | VFloat (S754_finite s m e) => Some (if s then Z.neg m else Z.pos m, e)
  | _ => None
  end.

Definition num_eqb (a b : Z * Z) : bool :=
  let e := Z.min a.2 b.2 in
  a.1 * 2 ^ (a.2 - e) =? b.1 * 2 ^ (b.2 - e).

Definition inf_of (v : pyval) : option bool :=
  match v with VFloat (S754_infinity s) => Some s | _ => None end.

Definition scalar_eq (a b : pyval) : bool :=
  match num_of a, num_of b with
  | Some x, Some y => num_eqb x y
  | _, _ => match inf_of a, inf_of b with
            | Some s, Some t => Bool.eqb s t
            | _, _ => false
            end
  end.

Fixpoint find_key (k : pykey) (d : pydict) : option pyval :=
  match d with
  | [] => None
  | (k', v) :: d => if bool_decide (k = k') then Some v else find_key k d
  end.

(** [a == b]: numbers by value across [bool], [int] and [float], containers
    member by member; distinct objects of other types are unequal. *)
Fixpoint py_eq (a b : pyval) {struct a} : bool :=
  match a, b with
  | VNone, VNone => true
  | VStr s, VStr t => (s =? t)%string
  | VList l, VList m =>
      (fix go (l m : list pyval) : bool :=
         match l, m with
         | [], [] => true
         | x :: l, y :: m => py_eq x y && go l m
         | _, _ => false
         end) l m
  | VDict d, VDict e =>
      (length d =? length e)%nat
      && (fix go (d : pydict) : bool :=
            match d with
            | [] => true
            | (k, v) :: d =>
                match find_key k e with
                | Some w => py_eq v w && go d
                | None => false
                end
            end) d
  | _, _ => scalar_eq a b
  end.

(** ** Integers and their texts *)

(** [str(n)] of an [int]: CPython refuses more than 4300 digits. *)
Definition str_int (n : Z) : res string :=
  raise_if (INT_MAX_STR_DIGITS <? Z.of_nat (ndigits 10 (Z.abs n))) ValueError
    "Exceeds the limit for integer string conversion" ;;
  Ok (str_of_Z n).

(** [int(v)]: a float is truncated. *)
Definition py_int (v : pyval) : res Z :=
  match v with
  | VInt z => Ok z
  | VBool b => Ok (if b then 1 else 0)
  | VStr s => or_raise (py_int10 s) ValueError "invalid literal for int() with base 10"
  | VFloat (S754_zero _) => Ok 0
  | VFloat (S754_finite s m e) =>
      let n := if 0 <=? e then Zpos m * 2 ^ e else Zpos m / 2 ^ (- e) in
      Ok (if s then - n else n)
  | VFloat S754_nan => raise ValueError "cannot convert float NaN to integer"
  | VFloat (S754_infinity _) => raise OtherError "cannot convert float infinity to integer"
  | _ => raise TypeError "int() argument must be a string or a real number"
  end.

(** * Lemmas *)

Section dict_lemmas.
Implicit Types (d : pydict) (k : string) (v : pyval).

Lemma dict_lookup_set_eq k v d : dict_lookup k (dict_set k v d) = Some v.
Proof.
  induction d as [|[[k'|t] w] d IH]; simpl; [by rewrite String.eqb_refl| |done].
  destruct (k =? k')%string eqn:E; simpl; by rewrite E.
Qed.

Lemma dict_lookup_set_ne k k' v d :
  k ≠ k' → dict_lookup k (dict_set k' v d) = dict_lookup k d.
Proof.
  intros Hne. induction d as [|[[k''|t] w] d IH]; simpl.
  - by apply String.eqb_neq in Hne as ->.
  - destruct (k' =? k'')%string eqn:E; simpl; [|by rewrite IH].
    apply String.eqb_eq in E as <-. by apply String.eqb_neq in Hne as ->.
  - done.
Qed.

Lemma dict_set_keys k v d :
  (dict_set k v d).*1 = if decide (KStr k ∈ d.*1) then d.*1 else d.*1 ++ [KStr k].
Proof.
  induction d as [|[[k'|t] w] d IH]; cbn [dict_set]; csimpl; [done|..].
  - destruct (String.eqb_spec k k') as [->|Hne]; csimpl.
    + by rewrite decide_True by by left.
    + rewrite IH. destruct (decide (KStr k ∈ d.*1)) as [Hin|Hin].
      * by rewrite decide_True by by right.
      * rewrite decide_False; [done|]. intros [[= ?]|?]%elem_of_cons; done.
  - rewrite IH. destruct (decide (KStr k ∈ d.*1)) as [Hin|Hin].
    + by rewrite decide_True by by right.
    + rewrite decide_False; [done|]. intros [[= ?]|?]%elem_of_cons; done.
Qed.

Lemma dict_set_wf k v d : dict_wf d → dict_wf (dict_set k v d).
Proof.
  unfold dict_wf. rewrite dict_set_keys. destruct (decide _) as [|Hk]; [done|]. intros Hd.
  apply NoDup_app. split; [done|]. split; [|apply NoDup_singleton].
  by intros x Hx ->%list_elem_of_singleton.
Qed.

Lemma dict_has_lookup k d : dict_has k d = true ↔ ∃ v, dict_lookup k d = Some v.
Proof. unfold dict_has. destruct (dict_lookup k d); naive_solver. Qed.

Lemma dict_item_ok k d v : dict_item k d = Ok v ↔ dict_lookup k d = Some v.
Proof. apply or_raise_ok. Qed.

Lemma dict_get_lookup k d v : v ≠ VNone → dict_get k d = v → dict_lookup k d = Some v.
Proof. unfold dict_get. destruct (dict_lookup k d); naive_solver. Qed.

Lemma dict_lookup_elem k v d : dict_lookup k d = Some v → (KStr k, v) ∈ d.
Proof.
  induction d as [|[[k'|t] w] d IH]; simpl; [done| |intros; right; auto].
  destruct (k =? k')%string eqn:E; intros H.
  - apply String.eqb_eq in E as <-. injection H as ->. left.
  - right. auto.
Qed.
End dict_lemmas.

Section type_lemmas.
Implicit Types v : pyval.
Lemma as_str_Some v s : as_str v = Some s ↔ v = VStr s.
Proof. destruct v; naive_solver. Qed.
Lemma as_list_Some v l : as_list v = Some l ↔ v = VList l.
Proof. destruct v; naive_solver. Qed.
Lemma as_dict_Some v d : as_dict v = Some d ↔ v = VDict d.
Proof. destruct v; naive_solver. Qed.
Lemma as_bool_Some v b : as_bool v = Some b ↔ v = VBool b.
Proof. destruct v; naive_solver. Qed.
Lemma as_exact_int_Some v z : as_exact_int v = Some z ↔ v = VInt z.
Proof. destruct v; naive_solver. Qed.
End type_lemmas.

(** [v == "s"] holds of that string alone, and a list of strings equals only itself. *)
Lemma py_eq_str v s : py_eq v (VStr s) = true ↔ v = VStr s.
Proof.
  destruct v as [| | |[]| | | |]; simpl; try (split; [discriminate|intros [=]]).
  rewrite String.eqb_eq. naive_solver.
Qed.

Lemma py_eq_str_list v ss : py_eq v (VList (VStr <$> ss)) = true ↔ v = VList (VStr <$> ss).
Proof.
  destruct v as [| | |[]| |l|d|]; simpl; try (split; [discriminate|intros [=]]).
  revert ss. induction l as [|x l IH]; intros [|s ss]; simpl; try (split; [done|intros [=]]); [done|].
  rewrite andb_true_iff, py_eq_str, IH. naive_solver.
Qed.

Ltac val_facts :=
  repeat match goal with
  | H : as_str _ = Some _ |- _ => apply as_str_Some in H
  | H : as_list _ = Some _ |- _ => apply as_list_Some in H
  | H : as_dict _ = Some _ |- _ => apply as_dict_Some in H
  | H : as_bool _ = Some _ |- _ => apply as_bool_Some in H
  | H : as_exact_int _ = Some _ |- _ => apply as_exact_int_Some in H
  | H : dict_item _ _ = Ok _ |- _ => apply dict_item_ok in H
  end.
