(* ===== verification/PyJson.v ===== *)
(** * JSON text

    [json.dumps] and [json.loads] as the package uses them: the document tree,
    the printer with its separators, indentation, key order and escapes, the
    scanner, and [repr] and [float()] of a binary64 number.  The lemmas: what was
    printed scans back to the same tree, and the canonical text of two values is
    the same only if they are the same up to the order of members.

    A string holds Latin-1 characters, so an escape beyond [\u00ff] is outside
    the model; the scanner reports it as [OtherError].  The nesting limit of the
    interpreter is not modelled. *)

From S2P Require Import Prelude PyStr PyVal.
Local Open Scope Z_scope.

(** ** Documents *)

(** A document as the tokenizer delivers it: the members of an object are the
    list of its pairs. *)
#[local] Unset Elimination Schemes.
Inductive json :=
  | JNull
  | JBool (b : bool)
  | JInt (n : Z)
  | JFloat (f : spec_float)
  | JStr (s : string)
  | JArr (items : list json)
  | JObj (pairs : list (string * json)).
#[local] Set Elimination Schemes.

Definition json_ind (P : json → Prop)
    (Hnull : P JNull) (Hbool : ∀ b, P (JBool b)) (Hint : ∀ n, P (JInt n))
    (Hfloat : ∀ f, P (JFloat f)) (Hstr : ∀ s, P (JStr s))
    (Harr : ∀ l, Forall P l → P (JArr l)) (Hobj : ∀ ps, Forall (λ p, P p.2) ps → P (JObj ps)) :
  ∀ j, P j :=
  fix go j :=
    match j with
    | JNull => Hnull
    | JBool b => Hbool b
    | JInt n => Hint n
    | JFloat f => Hfloat f
    | JStr s => Hstr s
    | JArr l => Harr l ((fix gol l : Forall P l :=
        match l with [] => Forall_nil_2 P | x :: l => Forall_cons_2 P x l (go x) (gol l) end) l)
    | JObj ps => Hobj ps ((fix gop ps : Forall (λ p, P p.2) ps :=
        match ps with
        | [] => Forall_nil_2 _
        | p :: ps => Forall_cons_2 _ p ps (go p.2) (gop ps)
        end) ps)
    end.

(** ** Binary64 *)

(** The decimal [n * 10^q] lies where [float()] rounds to [m * 2^e]: between the
    midpoints to the neighbours, which belong to it when [m] is even. *)
Definition rounds_to (m e n q : Z) : bool :=
  let scale := 2 ^ Z.max 0 (2 - e) * 10 ^ Z.max 0 (- q) in
  let at4 k := k * 2 ^ Z.max 0 (e - 2) * 10 ^ Z.max 0 (- q) in
  let v := n * 10 ^ Z.max 0 q * 2 ^ Z.max 0 (2 - e) in
  let lo := at4 (if (m =? 2 ^ 52) && (-1074 <? e) then 4 * m - 1 else 4 * m - 2) in
  let hi := at4 (4 * m + 2) in
  if Z.even m then (lo <=? v) && (v <=? hi) else (lo <? v) && (v <? hi).

(** [floor (m * 2^e / 10^q)], and twice the distance of the quotient from it
    compared with one. *)
Definition scaled (m e q : Z) : Z * comparison :=
  let num := m * 2 ^ Z.max 0 e * 10 ^ Z.max 0 (- q) in
  let den := 2 ^ Z.max 0 (- e) * 10 ^ Z.max 0 q in
  (num / den, 2 * (num mod den) ?= den).

(** The shortest decimal that rounds to [m * 2^e], the nearest of them: [p] digits
    are tried, one more at a time; seventeen are enough. *)
Fixpoint shortest (fuel : nat) (p m e k : Z) : Z * Z :=
  let q := k - p in
  let '(n, side) := scaled m e q in
  let low := rounds_to m e n q in
  let high := rounds_to m e (n + 1) q in
  let up := match side with Lt => false | Gt => true | Eq => Z.odd n end in
  match fuel with
  | O => (n, q)
  | S fuel =>
      if low && high then (if up then n + 1 else n, q)
      else if low then (n, q)
      else if high then (n + 1, q)
      else shortest fuel (p + 1) m e k
  end.

Fixpoint strip_zeros (fuel : nat) (n q : Z) : Z * Z :=
  match fuel with
  | O => (n, q)
  | S fuel => if n mod 10 =? 0 then strip_zeros fuel (n / 10) (q + 1) else (n, q)
  end.

(** The digits of a positive number and the place of its decimal point. *)
Definition decimal_of (m e : Z) : string * Z :=
  let k := Z.of_nat (ndigits 10 (scaled m e (-400)).1) - 400 in
  let '(n, q) := shortest 17 1 m e k in
  let '(n, q) := strip_zeros 17 n q in
  let ds := to_dec n in
  (ds, q + str_len ds).

Definition zeros (n : Z) : string := str_repeat "0" (Z.to_nat n).

(** [repr(x)] of a positive number *)
Definition repr_positive (m e : Z) : string :=
  let '(ds, point) := decimal_of m e in
  if (-4 <? point) && (point <=? 16) then
    if point <=? 0 then "0." +:+ zeros (- point) +:+ ds
    else if str_len ds <=? point then ds +:+ zeros (point - str_len ds) +:+ ".0"
    else str_take (Z.to_nat point) ds +:+ "." +:+ str_drop (Z.to_nat point) ds
  else
    let x := point - 1 in
    let exponent := (if x <? 0 then "-" else "+") +:+ rjust 2 "0" (to_dec (Z.abs x)) in
    str_take 1 ds
    +:+ (if str_len ds =? 1 then "" else "." +:+ str_drop 1 ds)
    +:+ "e" +:+ exponent.

(** [float.__repr__] with the names [json] gives the exceptional values. *)
Definition float_repr (f : spec_float) : string :=
  match f with
  | S754_zero s => if s then "-0.0" else "0.0"
  | S754_infinity s => if s then "-Infinity" else "Infinity"
  | S754_nan => "NaN"
  | S754_finite s m e => (if s then "-" else "") +:+ repr_positive (Zpos m) e
  end.

(** The binary64 number nearest to [num / den], ties to even. *)
Definition round_ratio (num den : Z) : spec_float :=
  let l := Z.log2 num - Z.log2 den in
  let l := if num * 2 ^ Z.max 0 (- l) <? den * 2 ^ Z.max 0 l then l - 1 else l in
  let e := Z.max (-1074) (l - 52) in
  let n := num * 2 ^ Z.max 0 (- e) in
  let d := den * 2 ^ Z.max 0 e in
  let m := n / d in
  let m := match 2 * (n mod d) ?= d with
           | Lt => m
           | Gt => m + 1
           | Eq => if Z.even m then m else m + 1
           end in
  let '(m, e) := if m =? 2 ^ 53 then (2 ^ 52, e + 1) else (m, e) in
  match m with
  | Zpos p => if 971 <? e then S754_infinity false else S754_finite false p e
  | _ => S754_zero false
  end.

(** [float()] of the decimal [n * 10^q]: beyond [10^400] and below [10^-400] the
    answer needs no division. *)
Definition float_of_decimal (n q : Z) : spec_float :=
  if n =? 0 then S754_zero false
  else if 400 <? q + Z.of_nat (ndigits 10 n) then S754_infinity false
  else if q + Z.of_nat (ndigits 10 n) <? -400 then S754_zero false
  else round_ratio (n * 10 ^ Z.max 0 q) (10 ^ Z.max 0 (- q)).

Definition float_opp (f : spec_float) : spec_float :=
  match f with
  | S754_zero s => S754_zero (negb s)
  | S754_infinity s => S754_infinity (negb s)
  | S754_nan => S754_nan
  | S754_finite s m e => S754_finite (negb s) m e
  end.

Definition is_finite (f : spec_float) : bool :=
  match f with S754_zero _ | S754_finite _ _ _ => true | _ => false end.

(** ** The printer *)

(** The keyword arguments of [json.dumps]. *)
Record style := {
  ensure_ascii : bool;
  sort_keys : bool;
  allow_nan : bool;
  item_sep : string;
  key_sep : string;
  indent : option nat
}.

(** [json.dumps(v)] *)
Definition plain : style := {|
  ensure_ascii := true; sort_keys := false; allow_nan := true;
  item_sep := ", "; key_sep := ": "; indent := None |}.
(** [json.dumps(v, indent=n)] *)
Definition pretty (n : nat) : style := {|
  ensure_ascii := true; sort_keys := false; allow_nan := true;
  item_sep := ","; key_sep := ": "; indent := Some n |}.
(** [json.dumps(v, indent=n, sort_keys=True)] *)
Definition pretty_sorted (n : nat) : style := {|
  ensure_ascii := true; sort_keys := true; allow_nan := true;
  item_sep := ","; key_sep := ": "; indent := Some n |}.
(** [json.dumps(v, sort_keys=True, separators=(",", ":"))] *)
Definition compact : style := {|
  ensure_ascii := true; sort_keys := true; allow_nan := true;
  item_sep := ","; key_sep := ":"; indent := None |}.

Definition QUOTE : ascii := "034".
Definition BACKSLASH : ascii := "092".
Definition LF : ascii := "010".

(** The letter of a two-character escape. *)
Definition short_escape (c : ascii) : option ascii :=
  if code c =? 34 then Some QUOTE
  else if code c =? 92 then Some BACKSLASH
  else if code c =? 8 then Some "b"%char
  else if code c =? 12 then Some "f"%char
  else if code c =? 10 then Some "n"%char
  else if code c =? 13 then Some "r"%char
  else if code c =? 9 then Some "t"%char
  else None.

Definition escape (ascii_only : bool) (c : ascii) : string :=
  match short_escape c with
  | Some x => String BACKSLASH (String x "")
  | None =>
      if (code c <? 32) || (ascii_only && (126 <? code c))
      then String BACKSLASH (String "u" (rjust 4 "0" (to_hex (code c))))
      else String c ""
  end.

Fixpoint escape_all (ascii_only : bool) (s : string) : string :=
  match s with
  | EmptyString => ""
  | String c s => escape ascii_only c +:+ escape_all ascii_only s
  end.
Definition quoted (ascii_only : bool) (s : string) : string :=
  String QUOTE (escape_all ascii_only s +:+ String QUOTE "").

(** The line break before a member at nesting [level]. *)
Definition newline (st : style) (level : nat) : string :=
  match indent st with
  | Some n => String LF (str_repeat " " (n * level))
  | None => ""
  end.

Fixpoint join (sep : string) (l : list string) : string :=
  match l with
  | [] => ""
  | [x] => x
  | x :: l => x +:+ sep +:+ join sep l
  end.

(** A bracketed list of printed members. *)
Definition bracketed (st : style) (level : nat) (opening closing : ascii) (items : list string)
    : string :=
  match items with
  | [] => String opening (String closing "")
  | _ => String opening (newline st (S level)
           +:+ join (item_sep st +:+ newline st (S level)) items
           +:+ newline st level +:+ String closing "")
  end.

Fixpoint print (st : style) (level : nat) (j : json) : string :=
  match j with
  | JNull => "null"
  | JBool b => if b then "true" else "false"
  | JInt n => str_of_Z n
  | JFloat f => float_repr f
  | JStr s => quoted (ensure_ascii st) s
  | JArr l => bracketed st level "[" "]" (print st (S level) <$> l)
  | JObj ps =>
      bracketed st level "{" "}"
        ((λ p, quoted (ensure_ascii st) p.1 +:+ key_sep st +:+ print st (S level) p.2) <$> ps)
  end.

(** ** Values to documents *)

Definition key_leb {A} (a b : pykey * A) : bool :=
  match a.1, b.1 with
  | KStr s, KStr t => String.leb s t
  | KStr _, KOther _ => true
  | KOther _, KStr _ => false
  | KOther _, KOther _ => true
  end.
Definition is_other_key {A} (p : pykey * A) : bool :=
  match p.1 with KOther _ => true | KStr _ => false end.

(** A member as it is encoded: only a string key is a name. *)
Definition member (p : pykey * res json) : res (string * json) :=
  match p.1 with
  | KStr k => j ← p.2; Ok (k, j)
  | KOther _ => raise TypeError "keys must be str, int, float, bool or None"
  end.

(** What the encoder makes of a value.  Members are encoded in the order they
    are printed; a mixture of keys cannot be sorted. *)
Fixpoint to_json (st : style) (v : pyval) : res json :=
  match v with
  | VNone => Ok JNull
  | VBool b => Ok (JBool b)
  | VInt z =>
      raise_if (INT_MAX_STR_DIGITS <? Z.of_nat (ndigits 10 (Z.abs z))) ValueError
        "Exceeds the limit for integer string conversion" ;;
      Ok (JInt z)
  | VFloat f =>
      raise_if (negb (allow_nan st || is_finite f)) ValueError
        "Out of range float values are not JSON compliant" ;;
      Ok (JFloat f)
  | VStr s => Ok (JStr s)
  | VList l => JArr <$> map_res (to_json st) l
  | VDict d =>
      let members := (λ p, (p.1, to_json st p.2)) <$> d in
      raise_if (sort_keys st && existsb is_other_key d && (1 <? length d)%nat) TypeError
        "'<' not supported between instances" ;;
      JObj <$> map_res member (if sort_keys st then sorted_by key_leb members else members)
  | VOther t => raise TypeError ("Object of type " +:+ t +:+ " is not JSON serializable")
  end.

(** [json.dumps(v, ...)] *)
Definition dumps (st : style) (v : pyval) : res string := print st 0 <$> to_json st v.

(** ** The scanner *)

Definition json_space (c : ascii) : bool :=
  (code c =? 32) || (code c =? 9) || (code c =? 10) || (code c =? 13).
Definition skip_ws (s : string) : string := lstrip_by json_space s.

Definition decode_error {A} (msg : string) : res A := raise JSONDecodeError msg.

Fixpoint take_digits (s : string) : string * string :=
  match s with
  | String c r =>
      if is_dec_digit c then let '(ds, t) := take_digits r in (String c ds, t) else ("", s)
  | EmptyString => ("", "")
  end.

(** The optional fraction and exponent of a number: the matched digits. *)
Definition take_fraction (s : string) : string * string :=
  match s with
  | String c r =>
      if code c =? 46 then
        match take_digits r with ("", _) => ("", s) | m => m end
      else ("", s)
  | EmptyString => ("", s)
  end.
Definition take_exponent (s : string) : option (bool * string) * string :=
  match s with
  | String c r =>
      if (code c =? 101) || (code c =? 69) then
        let '(neg, r) := split_sign r in
        match take_digits r with ("", _) => (None, s) | (ds, t) => (Some (neg, ds), t) end
      else (None, s)
  | EmptyString => (None, s)
  end.

(** The digits before the point: no leading zero. *)
Definition take_integer (s : string) : string * string :=
  match s with
  | String c r => if code c =? 48 then (String c "", r) else take_digits s
  | EmptyString => ("", s)
  end.

Definition digits_value (ds : string) : Z := num_value 10 0 ds.

(** The number after an optional minus sign. *)
Definition scan_unsigned (neg : bool) (s : string) : res (json * string) :=
  let '(whole, r) := take_integer s in
  let '(fraction, r) := take_fraction r in
  let '(exponent, r) := take_exponent r in
  if (whole =? "")%string then decode_error "Expecting value"
  else
    match fraction, exponent with
    | EmptyString, None =>
        raise_if (INT_MAX_STR_DIGITS <? str_len whole) ValueError
          "Exceeds the limit for integer string conversion" ;;
        Ok (JInt (signed neg (digits_value whole)), r)
    | _, _ =>
        let x := match exponent with
                 | Some (n, ds) => signed n (digits_value ds)
                 | None => 0
                 end in
        let f := float_of_decimal (digits_value (whole +:+ fraction)) (x - str_len fraction) in
        Ok (JFloat (if neg then float_opp f else f), r)
    end.

(** The character a two-character escape stands for. *)
Definition unescape (c : ascii) : option ascii :=
  if code c =? 34 then Some QUOTE
  else if code c =? 92 then Some BACKSLASH
  else if code c =? 47 then Some c
  else if code c =? 98 then Some (ascii_of_N 8)
  else if code c =? 102 then Some (ascii_of_N 12)
  else if code c =? 110 then Some LF
  else if code c =? 114 then Some (ascii_of_N 13)
  else if code c =? 116 then Some (ascii_of_N 9)
  else None.

(** The rest of a string literal after its opening quote. *)
Fixpoint scan_string (s : string) : res (string * string) :=
  match s with
  | EmptyString => decode_error "Unterminated string"
  | String c s =>
      if code c =? 34 then Ok ("", s)
      else if code c =? 92 then
        match s with
        | String e s =>
            if code e =? 117 then
              match s with
              | String h3 (String h2 (String h1 (String h0 s))) =>
                  let h := String h3 (String h2 (String h1 (String h0 ""))) in
                  if str_all is_hex_digit h then
                    if hex_value h <? 256 then
                      '(t, r) ← scan_string s; Ok (String (ascii_of_N (Z.to_N (hex_value h))) t, r)
                    else raise OtherError "character outside Latin-1"
                  else decode_error "Invalid \uXXXX escape"
              | _ => decode_error "Invalid \uXXXX escape"
              end
            else
              match unescape e with
              | Some x => '(t, r) ← scan_string s; Ok (String x t, r)
              | None => decode_error "Invalid \escape"
              end
        | EmptyString => decode_error "Unterminated string"
        end
      else if code c <? 32 then decode_error "Invalid control character at"
      else '(t, r) ← scan_string s; Ok (String c t, r)
  end.

(** [name: ] of a member. *)
Definition scan_key (s : string) : res (string * string) :=
  match s with
  | String c r =>
      if code c =? 34 then
        '(k, r) ← scan_string r;
        match skip_ws r with
        | String c r => if code c =? 58 then Ok (k, skip_ws r) else decode_error "Expecting ':' delimiter"
        | EmptyString => decode_error "Expecting ':' delimiter"
        end
      else decode_error "Expecting property name enclosed in double quotes"
  | EmptyString => decode_error "Expecting property name enclosed in double quotes"
  end.

(** What follows a member: [true] for another one. *)
Definition scan_delimiter (closing : ascii) (s : string) : res (bool * string) :=
  match skip_ws s with
  | String c r =>
      if code c =? code closing then Ok (false, r)
      else if code c =? 44 then Ok (true, skip_ws r)
      else decode_error "Expecting ',' delimiter"
  | EmptyString => decode_error "Expecting ',' delimiter"
  end.

(** The value [json.loads] gives the words [NaN], [Infinity] and [-Infinity]
    unless it is called with another [parse_constant]. *)
Definition py_constant (word : string) : res json :=
  Ok (JFloat (if (word =? "NaN")%string then S754_nan else S754_infinity (startswith "-" word))).

Section scanner.
Context (parse_constant : string → res json).

Definition scan_word_with (s : string) : res (json * string) :=
  if startswith "null" s then Ok (JNull, str_drop 4 s)
  else if startswith "true" s then Ok (JBool true, str_drop 4 s)
  else if startswith "false" s then Ok (JBool false, str_drop 5 s)
  else if startswith "NaN" s then (j ← parse_constant "NaN"; Ok (j, str_drop 3 s))
  else if startswith "Infinity" s then (j ← parse_constant "Infinity"; Ok (j, str_drop 8 s))
  else if startswith "-Infinity" s then (j ← parse_constant "-Infinity"; Ok (j, str_drop 9 s))
  else match s with
       | String c r => if code c =? 45 then scan_unsigned true r else scan_unsigned false s
       | EmptyString => decode_error "Expecting value"
       end.

(** The text after [closing], if it comes next. *)
Definition closes (closing : ascii) (s : string) : option string :=
  match s with
  | String c r => if code c =? code closing then Some r else None
  | EmptyString => None
  end.

(** The members of an array or object, up to its end. *)
Fixpoint scan_list {A} (elem : string → res (A * string)) (closing : ascii) (fuel : nat) (s : string)
    : res (list A * string) :=
  match fuel with
  | O => raise RecursionError "fuel"
  | S fuel =>
      '(x, r) ← elem s;
      '(more, r) ← scan_delimiter closing r;
      if more : bool then '(l, r) ← scan_list elem closing fuel r; Ok (x :: l, r) else Ok ([x], r)
  end.
Definition scan_body {A} (elem : string → res (A * string)) (closing : ascii) (fuel : nat) (s : string)
    : res (list A * string) :=
  match closes closing (skip_ws s) with
  | Some r => Ok ([], r)
  | None => scan_list elem closing fuel (skip_ws s)
  end.

(** A value.  Each member and each level of nesting takes a character, so the
    length of the text bounds the recursion. *)
Fixpoint scan_value_with (fuel : nat) (s : string) : res (json * string) :=
  match fuel with
  | O => raise RecursionError "fuel"
  | S fuel =>
      match s with
      | String c r =>
          if code c =? 34 then '(t, r) ← scan_string r; Ok (JStr t, r)
          else if code c =? 91 then
            '(l, r) ← scan_body (scan_value_with fuel) "]" fuel r; Ok (JArr l, r)
          else if code c =? 123 then
            '(ps, r) ← scan_body (λ s, '(k, r) ← scan_key s; '(x, r) ← scan_value_with fuel r; Ok ((k, x), r))
                         "}" fuel r;
            Ok (JObj ps, r)
          else scan_word_with s
      | EmptyString => decode_error "Expecting value"
      end
  end.

(** The tree of a text. *)
Definition parse_with (s : string) : res json :=
  '(j, r) ← scan_value_with (S (String.length s)) (skip_ws s);
  match skip_ws r with
  | EmptyString => Ok j
  | _ => decode_error "Extra data"
  end.
End scanner.
Notation scan_word := (scan_word_with py_constant).
Notation scan_value := (scan_value_with py_constant).
Notation parse := (parse_with py_constant).

(** ** Documents to values *)

(** [dict(pairs)]: a repeated name keeps its first place and its last value. *)
Definition dict_of_pairs (ps : list (string * pyval)) : pydict :=
  foldl (λ d p, dict_set p.1 p.2 d) [] ps.

(** The dict of the pairs, by a hook that refuses a repeated name. *)
Fixpoint unique_members (duplicate : string → exn) (pairs : list (string * pyval)) (result : pydict)
    : res pydict :=
  match pairs with
  | [] => Ok result
  | (key, value) :: pairs =>
      (if dict_has key result then Raise (duplicate key) else Ok tt) ;;
      unique_members duplicate pairs (dict_set key value result)
  end.

Section hook.
Context (object_pairs_hook : list (string * pyval) → res pydict).

(** The values of a document; the hook runs on each object as it closes. *)
Fixpoint of_json_with (j : json) : res pyval :=
  match j with
  | JNull => Ok VNone
  | JBool b => Ok (VBool b)
  | JInt n => Ok (VInt n)
  | JFloat f => Ok (VFloat f)
  | JStr s => Ok (VStr s)
  | JArr l => VList <$> map_res of_json_with l
  | JObj ps =>
      pairs ← map_res (λ p, v ← of_json_with p.2; Ok (p.1, v)) ps;
      VDict <$> object_pairs_hook pairs
  end.
End hook.

Definition of_json (j : json) : res pyval := of_json_with (λ ps, Ok (dict_of_pairs ps)) j.

(** [json.loads(s)] *)
Definition loads (s : string) : res pyval := parse s ≫= of_json.

(** [json.loads(bs, object_pairs_hook=hook)] of bytes: an encoding other than
    UTF-8, which the first bytes give away, is outside the model. *)
Definition other_encoding (bs : list Z) : bool :=
  match bs with
  | 254 :: 255 :: _ | 255 :: 254 :: _ | 239 :: 187 :: 191 :: _ => true
  | [a; b] => (a =? 0) || (b =? 0)
  | a :: b :: _ :: _ :: _ => (a =? 0) || (b =? 0)
  | _ => false
  end.
Definition loads_bytes (hook : list (string * pyval) → res pydict) (bs : list Z) : res pyval :=
  raise_if (other_encoding bs) OtherError "encoding other than UTF-8" ;;
  text ← decode_utf8 bs;
  j ← parse text;
  of_json_with hook j.

(** * Lemmas *)

(** ** Strings *)

Lemma scan_string_escape b c t :
  scan_string (escape b c +:+ t) = ('(x, r) ← scan_string t; Ok (String c x, r)).
Proof. destruct c as [[] [] [] [] [] [] [] []], b; reflexivity. Qed.

Lemma scan_string_quoted b s t : scan_string (escape_all b s +:+ String QUOTE t) = Ok (s, t).
Proof.
  induction s as [|c s IH]; [done|]. simpl escape_all.
  by rewrite <- str_app_assoc, scan_string_escape, IH.
Qed.

Lemma quoted_app b s t : quoted b s +:+ t = String QUOTE (escape_all b s +:+ String QUOTE t).
Proof. unfold quoted. by rewrite str_app_cons, <- str_app_assoc. Qed.

(** ** White space *)

Lemma skip_ws_app w t : str_all json_space w = true → skip_ws (w +:+ t) = skip_ws t.
Proof. unfold skip_ws. induction w as [|c w IH]; simpl; [done|]. intros [-> ?]%andb_true_iff. auto. Qed.

Lemma skip_ws_cons c t : json_space c = false → skip_ws (String c t) = String c t.
Proof. unfold skip_ws. simpl. by intros ->. Qed.

Lemma newline_space st level : str_all json_space (newline st level) = true.
Proof. unfold newline. destruct (indent st); [|done]. simpl. by apply str_all_repeat. Qed.

(** ** Numbers *)

(** What may follow a printed value: the end, or a character that does not
    continue a number. *)
Definition ends_number (c : ascii) : bool :=
  negb (is_dec_digit c || (code c =? 46) || (code c =? 101) || (code c =? 69)
        || (code c =? 43) || (code c =? 45)).
Definition delimited (t : string) : Prop :=
  match t with EmptyString => True | String c _ => ends_number c = true end.

Lemma delimited_char c t : delimited (String c t) →
  is_dec_digit c = false ∧ (code c =? 46) = false ∧ (code c =? 101) = false
  ∧ (code c =? 69) = false ∧ (code c =? 43) = false ∧ (code c =? 45) = false.
Proof. simpl. unfold ends_number. intros [H H']%negb_true_iff%orb_false_iff. repeat (apply orb_false_iff in H as [H ?]). done. Qed.

Section local_scan.
Context (t : string) (Ht : delimited t).

Lemma take_digits_local s ds r : take_digits s = (ds, r) → take_digits (s +:+ t) = (ds, r +:+ t).
Proof.
  revert ds r. induction s as [|c s IH]; intros ds r; simpl.
  - intros [= <- <-]. destruct t as [|c r]; [done|]. apply delimited_char in Ht as (H & _).
    simpl. by rewrite H.
  - change (s ++ t)%string with (s +:+ t). destruct (is_dec_digit c); [|by intros [= <- <-]].
    destruct (take_digits s) as [ds' r']. rewrite (IH ds' r' eq_refl). by intros [= <- <-].
Qed.

Lemma take_digits_nonempty s c r ds :
  take_digits s = (String c ds, r) → ∃ s', s = String c s' ∧ is_dec_digit c = true.
Proof.
  destruct s as [|x s]; simpl; [done|]. destruct (is_dec_digit x) eqn:E; [|done].
  destruct (take_digits s). intros [= <- <- <-]. by exists s.
Qed.

Lemma take_integer_local s ds r : take_integer s = (ds, r) → take_integer (s +:+ t) = (ds, r +:+ t).
Proof.
  destruct s as [|c s].
  - intros [= <- <-]. simpl. destruct t as [|c r]; [done|]. apply delimited_char in Ht as (H & _).
    simpl. rewrite H. by destruct (Z.eqb_spec (code c) 48) as [E|];
      [unfold is_dec_digit, between in H; rewrite E in H|].
  - change (String c s +:+ t) with (String c (s +:+ t)). unfold take_integer.
    destruct (code c =? 48); [by intros [= <- <-]|]. apply (take_digits_local (String c s)).
Qed.

Lemma take_fraction_local s ds r : take_fraction s = (ds, r) → take_fraction (s +:+ t) = (ds, r +:+ t).
Proof.
  destruct s as [|c s]; simpl.
  - intros [= <- <-]. destruct t as [|c r]; [done|]. apply delimited_char in Ht as (_ & H & _).
    simpl. by rewrite H.
  - change (s ++ t)%string with (s +:+ t). destruct (code c =? 46); [|by intros [= <- <-]].
    destruct (take_digits s) as [ds' r'] eqn:E. rewrite (take_digits_local _ _ _ E).
    destruct ds'; by intros [= <- <-].
Qed.

Lemma take_exponent_local s x r : take_exponent s = (x, r) → take_exponent (s +:+ t) = (x, r +:+ t).
Proof.
  destruct s as [|c s]; simpl.
  - intros [= <- <-]. destruct t as [|c r]; [done|]. apply delimited_char in Ht as (_ & _ & H & H' & _).
    simpl. by rewrite H, H'.
  - change (s ++ t)%string with (s +:+ t).
    destruct ((code c =? 101) || (code c =? 69)); [|by intros [= <- <-]].
    assert (split_sign (s +:+ t) = ((split_sign s).1, (split_sign s).2 +:+ t)) as ->.
    { destruct s as [|x0 s]; simpl.
      - destruct t as [|x0 r0]; [done|]. apply delimited_char in Ht as (_ & _ & _ & _ & H & H').
        simpl. by rewrite H, H'.
      - by destruct (code x0 =? 45), (code x0 =? 43). }
    destruct (split_sign s) as [neg r0]. simpl.
    destruct (take_digits r0) as [ds' r'] eqn:E. rewrite (take_digits_local _ _ _ E).
    destruct ds'; by intros [= <- <-].
Qed.

(** A number that ends with its text is read the same in any context. *)
Lemma scan_unsigned_local neg s j :
  scan_unsigned neg s = Ok (j, "") → scan_unsigned neg (s +:+ t) = Ok (j, t).
Proof.
  unfold scan_unsigned.
  destruct (take_integer s) as [whole r1] eqn:E1. rewrite (take_integer_local _ _ _ E1).
  destruct (take_fraction r1) as [frac r2] eqn:E2. rewrite (take_fraction_local _ _ _ E2).
  destruct (take_exponent r2) as [exp r3] eqn:E3. rewrite (take_exponent_local _ _ _ E3).
  destruct (whole =? "")%string; [done|].
  destruct frac as [|c frac], exp as [[n ds]|]; try by intros [= <- ->].
  destruct (raise_if _ _ _); [|done]. by intros [= <- ->].
Qed.
End local_scan.

Lemma take_digits_all ds : str_all is_dec_digit ds = true → take_digits ds = (ds, "").
Proof. induction ds as [|c ds IH]; simpl; [done|]. intros [-> H]%andb_true_iff. by rewrite IH. Qed.

Lemma scan_unsigned_nat neg n :
  0 ≤ n → Z.of_nat (ndigits 10 n) ≤ INT_MAX_STR_DIGITS →
  scan_unsigned neg (to_dec n) = Ok (JInt (signed neg n), "").
Proof.
  intros Hn Hd.
  assert (take_integer (to_dec n) = (to_dec n, "")) as E.
  { destruct (decide (n = 0)) as [->|Hne]; [done|].
    pose proof (numw_dec (ndigits 10 n) n) as Hall.
    destruct (to_dec_head n) as (c & r & Ec & Hc & _); [lia|]. unfold to_dec in *. rewrite Ec in *.
    unfold take_integer. destruct (Z.eqb_spec (code c) 48) as [E|_]; [|by apply take_digits_all].
    unfold between in Hc. by rewrite E in Hc. }
  unfold scan_unsigned. rewrite E. simpl.
  assert (String.length (to_dec n) = ndigits 10 n) as Hl by apply length_numw.
  assert (to_dec n ≠ "") as Hne.
  { intros E0. rewrite E0 in Hl. pose proof (ndigits_pos 10 n). simpl in Hl. lia. }
  rewrite (proj2 (String.eqb_neq _ _) Hne). unfold str_len. rewrite Hl.
  rewrite (proj2 (Z.ltb_ge _ _) Hd). simpl. unfold digits_value, to_dec.
  rewrite num_value_numw by lia. rewrite Z.mod_small; [done|].
  destruct (ndigits_spec 10 n) as [? _]; lia.
Qed.

(** The text of a number starts like one. *)
Definition number_head (s : string) : bool :=
  match s with
  | String c r =>
      is_dec_digit c
      || (code c =? 45) && match r with String d _ => is_dec_digit d | EmptyString => false end
  | EmptyString => false
  end.

Lemma startswith_ne p x c r : p ≠ c → startswith (String p x) (String c r) = false.
Proof. intros H. unfold startswith. simpl. by destruct (Ascii.ascii_dec p c). Qed.

Section scan_words.
Context (pc : string → res json).

Lemma scan_word_digit c r : is_dec_digit c = true → scan_word_with pc (String c r) = scan_unsigned false (String c r).
Proof.
  intros Hc. unfold scan_word_with.
  rewrite !startswith_ne by (intros <-; discriminate Hc).
  destruct (Z.eqb_spec (code c) 45) as [E|]; [|done].
  unfold is_dec_digit, between in Hc. by rewrite E in Hc.
Qed.

Lemma scan_word_minus d r :
  is_dec_digit d = true → scan_word_with pc (String "-" (String d r)) = scan_unsigned true (String d r).
Proof.
  intros Hd. unfold scan_word_with.
  rewrite 5!startswith_ne by done.
  change (startswith "-Infinity" (String "-" (String d r))) with (startswith "Infinity" (String d r)).
  by rewrite startswith_ne by (intros <-; discriminate Hd).
Qed.

Lemma minus_char c : (code c =? 45) = true → c = "-"%char.
Proof. all_chars c. Qed.

Lemma scan_word_local s t j :
  delimited t → number_head s = true → scan_word_with pc s = Ok (j, "") → scan_word_with pc (s +:+ t) = Ok (j, t).
Proof.
  intros Ht. destruct s as [|c s]; [done|]. simpl number_head.
  change (String c s +:+ t) with (String c (s +:+ t)).
  intros [Hc|[->%minus_char Hd]%andb_true_iff]%orb_true_iff.
  - rewrite !scan_word_digit by done. by apply (scan_unsigned_local _ Ht _ (String c s)).
  - destruct s as [|d s]; [done|]. change (String d s +:+ t) with (String d (s +:+ t)).
    rewrite !scan_word_minus by done. by apply (scan_unsigned_local _ Ht _ (String d s)).
Qed.

Lemma digit_no_bracket c :
  is_dec_digit c = true → (code c =? 34) = false ∧ (code c =? 91) = false ∧ (code c =? 123) = false.
Proof. all_chars c. Qed.

Lemma scan_value_word fuel s : number_head s = true → scan_value_with pc (S fuel) s = scan_word_with pc s.
Proof.
  destruct s as [|c s]; [done|]. simpl number_head.
  intros [(H1 & H2 & H3)%digit_no_bracket|[->%minus_char _]%andb_true_iff]%orb_true_iff; [|done].
  simpl scan_value_with. by rewrite H1, H2, H3.
Qed.

Lemma str_of_Z_scan z :
  Z.of_nat (ndigits 10 (Z.abs z)) ≤ INT_MAX_STR_DIGITS →
  number_head (str_of_Z z) = true ∧ scan_word_with pc (str_of_Z z) = Ok (JInt z, "").
Proof.
  intros Hd. unfold str_of_Z.
  assert (∀ n, ∃ c r, to_dec n = String c r ∧ is_dec_digit c = true) as Hhead.
  { intros n. pose proof (numw_dec (ndigits 10 n) n) as Hall. pose proof (ndigits_pos 10 n) as Hp.
    unfold to_dec in *. destruct (ndigits 10 n); [lia|]. simpl in *. apply andb_true_iff in Hall as [? _].
    eauto. }
  destruct (Z.ltb_spec z 0) as [Hz|Hz].
  - destruct (Hhead (- z)) as (c & r & E & Hc). rewrite Z.abs_neq in Hd by lia.
    change ("-" +:+ to_dec (- z)) with (String "-" (to_dec (- z))). rewrite E. split; [simpl; by rewrite Hc|].
    rewrite scan_word_minus, <- E, scan_unsigned_nat by (done || lia). simpl. by rewrite Z.opp_involutive.
  - destruct (Hhead z) as (c & r & E & Hc). rewrite Z.abs_eq in Hd by lia.
    rewrite E. split; [simpl; by rewrite Hc|].
    by rewrite scan_word_digit, <- E, scan_unsigned_nat by (done || lia).
Qed.
End scan_words.

(** A number is no such word. *)
Lemma scan_word_number pc s : number_head s = true → scan_word_with pc s = scan_word s.
Proof.
  destruct s as [|c s]; [done|]. simpl number_head.
  intros [Hc|[->%minus_char Hd]%andb_true_iff]%orb_true_iff; [by rewrite !scan_word_digit|].
  destruct s as [|d s]; [done|]. by rewrite !scan_word_minus.
Qed.

(** ** Documents *)

(** The texts of numbers that are read back: an integer within the conversion
    limit, and a float whose shortest text rounds to it. *)
Definition float_ok (f : spec_float) : bool :=
  number_head (float_repr f)
  && match scan_word (float_repr f) with
     | Ok (JFloat g, EmptyString) => bool_decide (g = f)
     | _ => false
     end.
Fixpoint json_ok (j : json) : bool :=
  match j with
  | JInt n => Z.of_nat (ndigits 10 (Z.abs n)) <=? INT_MAX_STR_DIGITS
  | JFloat f => float_ok f
  | JArr l => forallb json_ok l
  | JObj ps => forallb (λ p, json_ok p.2) ps
  | _ => true
  end.

(** Separators [json.loads] accepts. *)
Definition style_ok (st : style) : Prop :=
  item_sep st ∈ [","; ", "] ∧ key_sep st ∈ [":"; ": "].

(** A first character that opens a value. *)
Definition value_head (s : string) : bool :=
  match s with
  | String c _ => negb (json_space c) && negb (code c =? 93) && negb (code c =? 125)
  | EmptyString => false
  end.

Lemma number_value_head s : number_head s = true → value_head s = true.
Proof.
  destruct s as [|c s]; [done|]. simpl.
  intros [Hc|[->%minus_char _]%andb_true_iff]%orb_true_iff; [|done]. revert Hc. all_chars c.
Qed.

Lemma value_head_app s t : value_head s = true → value_head (s +:+ t) = true.
Proof. by destruct s. Qed.

Lemma value_head_skip s : value_head s = true → skip_ws s = s.
Proof. destruct s as [|c s]; [done|]. simpl. intros H. bool_facts. by apply skip_ws_cons. Qed.

Lemma value_head_open s : value_head s = true → closes "]" s = None ∧ closes "}" s = None.
Proof.
  destruct s as [|c s]; [done|]. simpl. change (code "]") with 93. change (code "}") with 125.
  intros H. bool_facts. split; by rewrite (proj2 (Z.eqb_neq _ _)).
Qed.

Lemma quoted_head b s : value_head (quoted b s) = true.
Proof. done. Qed.

Lemma bracketed_head st level o c items :
  value_head (String o "") = true → value_head (bracketed st level o c items) = true.
Proof. by destruct items. Qed.

Lemma int_head n : number_head (str_of_Z n) = true.
Proof.
  assert (∀ n, ∃ c r, to_dec n = String c r ∧ is_dec_digit c = true) as Hhead.
  { intros k. pose proof (numw_dec (ndigits 10 k) k) as Hall. pose proof (ndigits_pos 10 k) as Hp.
    unfold to_dec in *. destruct (ndigits 10 k); [lia|]. simpl in *. apply andb_true_iff in Hall as [? _].
    eauto. }
  unfold str_of_Z. destruct (n <? 0).
  - destruct (Hhead (- n)) as (c & r & -> & Hc). simpl. by rewrite Hc.
  - destruct (Hhead n) as (c & r & -> & Hc). simpl. by rewrite Hc.
Qed.

Lemma print_head st level j : json_ok j = true → value_head (print st level j) = true.
Proof.
  destruct j as [|[]|n|f|s|l|ps]; simpl; intros Hj; try done.
  - apply number_value_head, int_head.
  - apply andb_true_iff in Hj as [Hj _]. by apply number_value_head.
  - by apply bracketed_head.
  - by apply bracketed_head.
Qed.

(** A separator, a closing bracket: what ends a member. *)
Definition is_close (c : ascii) : Prop := c = "]"%char ∨ c = "}"%char.

Lemma delimited_close st level c t : is_close c → delimited (newline st level +:+ String c t).
Proof. intros Hc. unfold newline. destruct (indent st); [done|]. by destruct Hc as [-> | ->]. Qed.

Lemma delimited_sep st level t : style_ok st → delimited (item_sep st +:+ newline st level +:+ t).
Proof. intros [H _]. by apply elem_of_cons in H as [-> | ->%list_elem_of_singleton]. Qed.

Lemma scan_close st level c t :
  is_close c → scan_delimiter c (newline st level +:+ String c t) = Ok (false, t).
Proof.
  intros Hc. unfold scan_delimiter. rewrite skip_ws_app by apply newline_space.
  rewrite skip_ws_cons by (by destruct Hc as [-> | ->]). by rewrite Z.eqb_refl.
Qed.

Lemma scan_sep st level c t :
  style_ok st → is_close c → value_head t = true →
  scan_delimiter c (item_sep st +:+ newline st level +:+ t) = Ok (true, t).
Proof.
  intros [Hs _] Hc Ht.
  assert (item_sep st = String "," (str_drop 1 (item_sep st))
    ∧ str_all json_space (str_drop 1 (item_sep st)) = true) as [-> Hw].
  { by apply elem_of_cons in Hs as [-> | ->%list_elem_of_singleton]. }
  generalize dependent (str_drop 1 (item_sep st)). intros w Hw. unfold scan_delimiter.
  rewrite str_app_cons, skip_ws_cons by done.
  rewrite (proj2 (Z.eqb_neq _ _)) by (by destruct Hc as [-> | ->]). simpl.
  rewrite skip_ws_app, skip_ws_app, value_head_skip; [done|done|apply newline_space|done].
Qed.

Section scan_members.
Context {A : Type} (elem : string → res (A * string)) (st : style) (level : nat) (closing : ascii).
Hypotheses (Hst : style_ok st) (Hclose : is_close closing).

(** [elem] reads the text [p] as [x] wherever a number may end. *)
Definition reads (px : string * A) : Prop :=
  value_head px.1 = true ∧ ∀ t, delimited t → elem (px.1 +:+ t) = Ok (px.2, t).

Lemma scan_list_join items fuel t :
  Forall reads items → items ≠ [] → (length items <= fuel)%nat →
  scan_list elem closing fuel
    (join (item_sep st +:+ newline st (S level)) items.*1 +:+ newline st level +:+ String closing t)
  = Ok (items.*2, t).
Proof.
  intros Hi Hne. revert fuel. induction Hi as [|[p x] items [_ Hx] Hi IH]; [done|]. simpl in Hx.
  intros [|fuel] Hf; simpl in Hf; [lia|]. destruct items as [|[p' x'] items].
  - simpl. rewrite Hx by (by apply delimited_close). simpl. by rewrite scan_close.
  - change (join ?s ((p, x) :: (p', x') :: items).*1) with (p +:+ s +:+ join s ((p', x') :: items).*1).
    rewrite <- !str_app_assoc. cbn [scan_list].
    rewrite Hx by (by apply delimited_sep). cbn [mbind res_bind].
    rewrite scan_sep; [|done..|].
    2:{ apply Forall_cons in Hi as [[Hh _] _]. apply value_head_app. simpl in Hh.
        destruct items; simpl; [done|by apply value_head_app]. }
    cbn [mbind res_bind]. rewrite IH; [done|done|simpl in *; lia].
Qed.

Lemma join_head items : Forall reads items → items ≠ [] → ∀ sep, value_head (join sep items.*1) = true.
Proof.
  intros [|[p x] [|]] Hne sep; [done|..]; destruct H; simpl; [done|by apply value_head_app].
Qed.

Lemma join_length_elem sep ps p : p ∈ ps → (String.length p <= String.length (join sep ps))%nat.
Proof.
  induction ps as [|x ps IH]; [by intros ?%elem_of_nil|]. intros [->|Hp]%elem_of_cons.
  - destruct ps; simpl; [done|]. rewrite !str_length_app. lia.
  - destruct ps as [|y ps]; [by apply elem_of_nil in Hp|]. specialize (IH Hp).
    change (join sep (x :: y :: ps)) with (x +:+ sep +:+ join sep (y :: ps)).
    rewrite !str_length_app. lia.
Qed.

Lemma join_length_count sep ps :
  sep ≠ "" → Forall (λ p, value_head p = true) ps → (length ps <= String.length (join sep ps))%nat.
Proof.
  intros Hs. assert (1 <= String.length sep)%nat by (destruct sep; [done|simpl; lia]).
  induction 1 as [|x ps Hx Hps IH]; [done|].
  assert (1 <= String.length x)%nat by (destruct x; [done|simpl; lia]).
  destruct ps as [|y ps]; [simpl; lia|].
  change (join sep (x :: y :: ps)) with (x +:+ sep +:+ join sep (y :: ps)).
  rewrite !str_length_app. simpl in *. lia.
Qed.

(** A bracketed list is read back, member by member. *)
Lemma scan_bracketed opening items fuel t :
  Forall reads items → (String.length (bracketed st level opening closing items.*1) <= S fuel)%nat →
  ∃ r, bracketed st level opening closing items.*1 +:+ t = String opening r
    ∧ scan_body elem closing fuel r = Ok (items.*2, t).
Proof.
  intros Hi Hf. destruct (decide (items = [])) as [->|Hne].
  - exists (String closing t). split; [done|]. unfold scan_body.
    rewrite skip_ws_cons by (by destruct Hclose as [-> | ->]). simpl. by rewrite Z.eqb_refl.
  - pose proof (join_head items Hi Hne (item_sep st +:+ newline st (S level))) as Hh.
    set (sep := item_sep st +:+ newline st (S level)) in *.
    assert (bracketed st level opening closing items.*1
      = String opening (newline st (S level) +:+ join sep items.*1
          +:+ newline st level +:+ String closing "")) as E.
    { by destruct items. }
    rewrite E in *. eexists. split; [rewrite str_app_cons; reflexivity|].
    unfold scan_body. rewrite <- !str_app_assoc, skip_ws_app by apply newline_space.
    rewrite value_head_skip by (by apply value_head_app).
    destruct (value_head_open _ (value_head_app _ (newline st level +:+ String closing "" +:+ t) Hh)) as [H1 H2].
    assert (closes closing (join sep items.*1 +:+ newline st level +:+ String closing "" +:+ t) = None) as ->.
    { by destruct Hclose as [-> | ->]. }
    apply scan_list_join; [done|done|].
    assert (length items.*1 <= String.length (join sep items.*1))%nat as Hl.
    { apply join_length_count.
      - destruct Hst as [Hs _]. unfold sep. by apply elem_of_cons in Hs as [-> | ->%list_elem_of_singleton].
      - apply Forall_fmap. eapply Forall_impl; [exact Hi|]. by intros ? []. }
    rewrite length_fmap in Hl. simpl in Hf. rewrite !str_length_app in Hf. simpl in Hf. lia.
Qed.
End scan_members.

Lemma bracketed_elem st level o c ps p :
  p ∈ ps → (String.length p < String.length (bracketed st level o c ps))%nat.
Proof.
  intros Hp. pose proof (join_length_elem (item_sep st +:+ newline st (S level)) ps p Hp).
  destruct ps; [by apply elem_of_nil in Hp|]. unfold bracketed. simpl String.length.
  rewrite !str_length_app. simpl in *. lia.
Qed.

Lemma scan_key_printed st k t :
  style_ok st → value_head t = true → scan_key (quoted (ensure_ascii st) k +:+ key_sep st +:+ t) = Ok (k, t).
Proof.
  intros [_ Hs] Ht. rewrite quoted_app. unfold scan_key. simpl. rewrite scan_string_quoted. simpl.
  apply elem_of_cons in Hs as [-> | ->%list_elem_of_singleton]; rewrite str_app_cons, skip_ws_cons by done;
    simpl; [by rewrite value_head_skip|].
  change (" " ++ t)%string with (" " +:+ t). by rewrite skip_ws_app, value_head_skip.
Qed.

Lemma number_head_app s t : number_head s = true → number_head (s +:+ t) = true.
Proof.
  destruct s as [|c [|d r]]; try done. simpl. rewrite andb_false_r, orb_false_r. by intros ->.
Qed.

Lemma forallb_elem {A} (f : A → bool) l x : forallb f l = true → x ∈ l → f x = true.
Proof. intros H Hx. by apply (proj1 (forallb_forall _ _) H), list_elem_of_In. Qed.

Section scan_printed.
Context (pc : string → res json).

(** What was printed scans back to the same document, in any context where a
    value may end. *)
Lemma scan_print st j :
  style_ok st → json_ok j = true → ∀ level t fuel,
  delimited t → (String.length (print st level j) <= fuel)%nat →
  scan_value_with pc fuel (print st level j +:+ t) = Ok (j, t).
Proof.
  intros Hst. induction j as [|b|n|f|s|l IH|ps IH]; intros Hj level t fuel Ht Hf;
    pose proof (print_head st level _ Hj) as Hh;
    (destruct fuel as [|fuel]; [destruct (print _ _ _); [done|simpl in Hf; lia]|]).
  - by destruct t.
  - by destruct b, t.
  - cbn [print json_ok] in *. apply Z.leb_le in Hj. destruct (str_of_Z_scan pc n Hj) as [Hn Hs].
    rewrite scan_value_word by (by apply number_head_app). by apply scan_word_local.
  - cbn [print json_ok] in *. unfold float_ok in Hj. apply andb_true_iff in Hj as [Hn Hs].
    destruct (scan_word (float_repr f)) as [[[] []]|] eqn:E; try done. bool_facts. subst.
    rewrite scan_value_word by (by apply number_head_app).
    apply scan_word_local; [done..|]. by rewrite scan_word_number.
  - cbn [print]. rewrite quoted_app. simpl. by rewrite scan_string_quoted.
  - cbn [print json_ok] in *. set (items := (λ x, (print st (S level) x, x)) <$> l).
    assert (print st (S level) <$> l = items.*1 ∧ items.*2 = l) as [E1 E2].
    { unfold items. rewrite <- !list_fmap_compose. split; [done|]. apply list_fmap_id. }
    rewrite E1 in *.
    destruct (scan_bracketed (scan_value_with pc fuel) st level "]" Hst (or_introl eq_refl) "[" items fuel t)
      as (r & -> & Hr); [|done|].
    { pose proof (proj1 (Forall_forall _ _) IH) as IHx. clear IH. apply Forall_forall. intros px (x & -> & Hx)%list_elem_of_fmap.
      pose proof (forallb_elem _ _ _ Hj Hx). split; simpl; [by apply print_head|].
      intros u Hu. apply IHx; [done..|].
      assert (print st (S level) x ∈ items.*1) as Hin.
      { rewrite <- E1. apply list_elem_of_fmap. by exists x. }
      apply (bracketed_elem st level "[" "]") in Hin. lia. }
    cbn [scan_value_with]. change (code "[") with 91. simpl. rewrite Hr. simpl. by rewrite E2.
  - cbn [print json_ok] in *.
    set (txt := λ p : string * json, quoted (ensure_ascii st) p.1 +:+ key_sep st +:+ print st (S level) p.2) in *.
    set (items := (λ p, (txt p, p)) <$> ps).
    assert (txt <$> ps = items.*1 ∧ items.*2 = ps) as [E1 E2].
    { unfold items. rewrite <- !list_fmap_compose. split; [done|]. apply list_fmap_id. }
    rewrite E1 in *.
    edestruct (scan_bracketed (λ s, '(k, r) ← scan_key s; '(x, r) ← scan_value_with pc fuel r; Ok ((k, x), r))
      st level "}" Hst (or_intror eq_refl) "{" items fuel t) as (r & -> & Hr); [|done|].
    { pose proof (proj1 (Forall_forall _ _) IH) as IHx. clear IH. apply Forall_forall. intros px (x & -> & Hx)%list_elem_of_fmap.
      pose proof (forallb_elem _ _ _ Hj Hx) as Hxo. simpl in Hxo. split; [done|].
      intros u Hu. unfold txt. cbn [fst snd]. rewrite <- !str_app_assoc, scan_key_printed;
        [|done|by apply value_head_app, print_head].
      simpl. rewrite IHx; [by destruct x|done..|].
      assert (txt x ∈ items.*1) as Hin.
      { rewrite <- E1. apply list_elem_of_fmap. by exists x. }
      apply (bracketed_elem st level "{" "}") in Hin. unfold txt in Hin.
      rewrite !str_length_app in Hin. lia. }
    cbn [scan_value_with]. change (code "{") with 123. simpl. rewrite Hr. simpl. by rewrite E2.
Qed.

Lemma space_delimited w : str_all json_space w = true → delimited w.
Proof. destruct w as [|c w]; [done|]. simpl. intros [Hc _]%andb_true_iff. revert Hc. all_chars c. Qed.

Lemma skip_ws_space w : str_all json_space w = true → skip_ws w = "".
Proof. intros Hw. rewrite <- (str_app_nil_r w). by rewrite skip_ws_app. Qed.

(** A printed document parses back, with white space after it. *)
Lemma parse_print st j w :
  style_ok st → json_ok j = true → str_all json_space w = true → parse_with pc (print st 0 j +:+ w) = Ok j.
Proof.
  intros Hst Hj Hw. unfold parse_with.
  rewrite value_head_skip by (by apply value_head_app, print_head).
  rewrite scan_print; [|done|done|by apply space_delimited|rewrite str_length_app; lia].
  simpl. by rewrite skip_ws_space.
Qed.
End scan_printed.

(** ** Values *)

(** The value with the members of every object in the order of their names. *)
Fixpoint sort_members (v : pyval) : pyval :=
  match v with
  | VList l => VList (sort_members <$> l)
  | VDict d => VDict (sorted_by key_leb ((λ p, (p.1, sort_members p.2)) <$> d))
  | _ => v
  end.

(** Equal up to the order of members. *)
Definition same_value (v w : pyval) : Prop := sort_members v = sort_members w.

#[export] Instance same_value_equiv : Equivalence same_value.
Proof. split; unfold same_value; red; congruence. Qed.

(** What the encoder leaves of a value under a style. *)
Definition normal (st : style) (v : pyval) : pyval := if sort_keys st then sort_members v else v.

#[export] Instance normal_proper st : Proper (same_value ==> same_value) (λ v, if sort_keys st then sort_members v else v).
Proof. intros v w H. destruct (sort_keys st); [by rewrite H|done]. Qed.

(** The value of a document whose names are distinct. *)
Fixpoint value_of (j : json) : pyval :=
  match j with
  | JNull => VNone
  | JBool b => VBool b
  | JInt n => VInt n
  | JFloat f => VFloat f
  | JStr s => VStr s
  | JArr l => VList (value_of <$> l)
  | JObj ps => VDict (dict_of ((λ p, (p.1, value_of p.2)) <$> ps))
  end.

Lemma insert_by_fmap {A B} (f : A → B) leb leb' (l : list A) x :
  (∀ a b, leb' (f a) (f b) = leb a b) → insert_by leb' (f x) (f <$> l) = f <$> insert_by leb x l.
Proof.
  intros Hf. induction l as [|y l IH]; [done|]. csimpl. rewrite Hf. destruct (leb x y); [done|].
  csimpl. by rewrite IH.
Qed.

Lemma sorted_by_fmap {A B} (f : A → B) leb leb' (l : list A) :
  (∀ a b, leb' (f a) (f b) = leb a b) → sorted_by leb' (f <$> l) = f <$> sorted_by leb l.
Proof.
  intros Hf. induction l as [|x l IH]; [done|]. csimpl. rewrite IH. by apply insert_by_fmap.
Qed.

(** The members of an encoded object are those of the dict, in printed order. *)
Definition printed_order (st : style) (d : pydict) : pydict :=
  if sort_keys st then sorted_by key_leb d else d.

Lemma elem_of_printed_order st d p : p ∈ printed_order st d ↔ p ∈ d.
Proof. unfold printed_order. destruct (sort_keys st); [apply elem_of_sorted_by|done]. Qed.

Lemma to_json_dict st d j :
  to_json st (VDict d) = Ok j ↔
  (sort_keys st && existsb is_other_key d && (1 <? length d)%nat = false)
  ∧ ∃ ps, j = JObj ps
      ∧ Forall2 (λ p q, p.1 = KStr q.1 ∧ to_json st p.2 = Ok q.2) (printed_order st d) ps.
Proof.
  cbn [to_json]. rewrite res_bind_ok. set (f := λ p : pykey * pyval, (p.1, to_json st p.2)).
  assert ((if sort_keys st then sorted_by key_leb (f <$> d) else f <$> d) = f <$> printed_order st d) as ->.
  { unfold printed_order. destruct (sort_keys st); [|done]. by apply sorted_by_fmap. }
  assert (∀ ps, map_res member (f <$> printed_order st d) = Ok ps ↔
    Forall2 (λ p q, p.1 = KStr q.1 ∧ to_json st p.2 = Ok q.2) (printed_order st d) ps) as Hm.
  { assert (∀ p q, member (f p) = Ok q ↔ p.1 = KStr q.1 ∧ to_json st p.2 = Ok q.2) as Hpq.
    { intros [k v] [k' j']. unfold member, f. simpl. destruct k as [s|t]; simpl.
      - split; [intros H; inv_res; done|]. intros [[= ->] ->]. done.
      - by split; [|intros [[=] _]]. }
    intros ps. rewrite map_res_ok, Forall2_fmap_l.
    split; (intros H; eapply Forall2_impl; [exact H|]; intros p q; apply Hpq). }
  split.
  - intros ([] & Hg & H). apply raise_if_ok in Hg. split; [done|].
    apply res_fmap_ok in H as (ps & H & <-). exists ps. split; [done|]. by apply Hm.
  - intros (-> & ps & -> & H%Hm). exists tt. split; [done|]. rewrite H. done.
Qed.

Lemma to_json_value st v j : to_json st v = Ok j → value_of j = normal st v.
Proof.
  unfold normal. revert j. induction v as [|b|z|f|s|l IH|d IH|t] using pyval_ind; intros j Hj.
  - by injection Hj as <-; destruct (sort_keys st).
  - by injection Hj as <-; destruct (sort_keys st).
  - simpl in Hj. inv_res. by destruct (sort_keys st).
  - simpl in Hj. inv_res. by destruct (sort_keys st).
  - by injection Hj as <-; destruct (sort_keys st).
  - cbn [to_json] in Hj. apply res_fmap_ok in Hj as (js & Hj%map_res_ok & <-). simpl.
    assert (value_of <$> js = (λ v, if sort_keys st then sort_members v else v) <$> l) as ->.
    { induction Hj as [|v j l js Hvj Hj IHj]; [done|]. apply Forall_cons in IH as [IHv IH].
      csimpl. f_equal; [by apply IHv|by apply IHj]. }
    destruct (sort_keys st); [done|]. by rewrite list_fmap_id.
  - apply to_json_dict in Hj as (_ & ps & -> & Hps). simpl.
    assert (dict_of ((λ p, (p.1, value_of p.2)) <$> ps)
      = (λ p, (p.1, if sort_keys st then sort_members p.2 else p.2)) <$> printed_order st d) as ->.
    { assert (Forall (λ kv, ∀ j, to_json st kv.2 = Ok j →
        value_of j = if sort_keys st then sort_members kv.2 else kv.2) (printed_order st d)) as IH'.
      { apply Forall_forall. intros p Hp%elem_of_printed_order. by apply (proj1 (Forall_forall _ _) IH). }
      clear IH. unfold dict_of. rewrite <- list_fmap_compose.
      induction Hps as [|[k v] [k' j] l ps [Hk Hv] Hps IHps]; [done|].
      apply Forall_cons in IH' as [IHv IH']. csimpl in *. subst. f_equal; [|by apply IHps].
      by rewrite (IHv _ Hv). }
    unfold printed_order. destruct (sort_keys st); simpl.
    + f_equal. symmetry. by apply sorted_by_fmap.
    + f_equal. rewrite <- (list_fmap_id d) at 2. apply list_fmap_ext. by intros i [k v] _.
  - done.
Qed.

Lemma value_of_inj j j' : value_of j = value_of j' → j = j'.
Proof.
  revert j'. induction j as [|b|n|f|s|l IH|ps IH]; intros [|b'|n'|f'|s'|l'|ps'] E; simpl in E; try done;
    try (injection E as ->; done).
  - injection E as E. f_equal. revert l' E. induction IH as [|x l Hx _ IHl]; intros [|y l'] E; try done.
    csimpl in E. injection E as E1 E2. f_equal; [by apply Hx|by apply IHl].
  - injection E as E. f_equal. revert ps' E. unfold dict_of.
    induction IH as [|[k x] ps Hx _ IHps]; intros [|[k' y] ps'] E; try done.
    csimpl in E. injection E as -> E1 E2. f_equal; [f_equal; by apply Hx|by apply IHps].
Qed.

(** Every float in the value is one whose text reads back. *)
Fixpoint floats_ok (v : pyval) : bool :=
  match v with
  | VFloat f => float_ok f
  | VList l => forallb floats_ok l
  | VDict d => forallb (λ p, floats_ok p.2) d
  | _ => true
  end.

Lemma to_json_ok st v j : floats_ok v = true → to_json st v = Ok j → json_ok j = true.
Proof.
  revert j. induction v as [|b|z|f|s|l IH|d IH|t] using pyval_ind; intros j Hf Hj; simpl in Hj;
    try (by injection Hj as <-).
  - inv_res. simpl. by apply Z.leb_le, Z.ltb_ge.
  - by inv_res.
  - apply res_fmap_ok in Hj as (js & Hj%map_res_ok & <-). cbn [json_ok floats_ok] in *.
    apply forallb_forall. intros x Hx%list_elem_of_In.
    apply list_elem_of_lookup in Hx as [i Hi].
    destruct (Forall2_lookup_r _ _ _ _ _ Hj Hi) as (v & Hv & E).
    apply list_elem_of_lookup_2 in Hv. rewrite Forall_forall in IH.
    apply (IH v); [done| |done]. by apply (forallb_elem _ _ _ Hf).
  - apply (to_json_dict st d j) in Hj as (_ & ps & -> & Hj). cbn [json_ok floats_ok] in *.
    apply forallb_forall. intros x Hx%list_elem_of_In.
    apply list_elem_of_lookup in Hx as [i Hi].
    destruct (Forall2_lookup_r _ _ _ _ _ Hj Hi) as (p & Hp & _ & E).
    apply list_elem_of_lookup_2, elem_of_printed_order in Hp. rewrite Forall_forall in IH.
    apply (IH p); [done| |done]. by apply (forallb_elem _ _ _ Hf).
  - done.
Qed.

Lemma throws_to_json st v : throws [TypeError; ValueError] (to_json st v).
Proof.
  induction v as [|b|z|f|s|l IH|d IH|t] using pyval_ind; cbn [to_json]; try solve [solve_throws].
  - by apply throws_fmap, throws_map_res_in.
  - apply throws_bind; [solve_throws|intros ? _]. apply throws_fmap, throws_map_res_in, Forall_forall.
    intros p Hp. assert (p ∈ (λ p, (p.1, to_json st p.2)) <$> d) as (q & -> & Hq)%list_elem_of_fmap.
    { destruct (sort_keys st); [by rewrite elem_of_sorted_by in Hp|done]. }
    unfold member. simpl. destruct q.1; [|solve_throws].
    apply throws_bind; [|solve_throws]. by apply (proj1 (Forall_forall _ _) IH).
Qed.
Lemma throws_dumps st v : throws [TypeError; ValueError] (dumps st v).
Proof. apply throws_fmap, throws_to_json. Qed.

Lemma dumps_parse pc st v s w :
  style_ok st → floats_ok v = true → dumps st v = Ok s → str_all json_space w = true →
  ∃ j, parse_with pc (s +:+ w) = Ok j ∧ to_json st v = Ok j ∧ value_of j = normal st v.
Proof.
  intros Hst Hf (j & Hj & <-)%res_fmap_ok Hw.
  exists j. split; [|split; [done|by apply to_json_value]].
  apply parse_print; [done| |done]. by eapply to_json_ok.
Qed.

(** Values of JSON types with string keys: encoding them can only fail for an
    integer that is too long or, where the style forbids them, a float that is not
    finite. *)
Fixpoint encodable (v : pyval) : bool :=
  match v with
  | VList l => forallb encodable l
  | VDict d => forallb (λ p, negb (is_other_key p) && encodable p.2) d
  | VOther _ => false
  | _ => true
  end.

Lemma throws_encodable st v : encodable v = true → throws [ValueError] (to_json st v).
Proof.
  induction v as [|b|z|f|s|l IH|d IH|t] using pyval_ind; cbn [to_json encodable]; intros Hv;
    try solve [solve_throws]; try done.
  - apply throws_fmap, throws_map_res_in. rewrite Forall_forall in *. intros x Hx.
    apply IH; [done|]. by apply (forallb_elem _ _ _ Hv).
  - assert (∀ p, p ∈ d → is_other_key p = false ∧ throws [ValueError] (to_json st p.2)) as Hd.
    { intros p Hp. pose proof (forallb_elem _ _ _ Hv Hp) as Hm. simpl in Hm. bool_facts.
      split; [done|]. by apply (proj1 (Forall_forall _ _) IH). }
    assert (existsb is_other_key d = false) as ->.
    { destruct (existsb is_other_key d) eqn:E; [|done]. apply existsb_exists in E as (p & Hp%list_elem_of_In & Eo).
      destruct (Hd p Hp) as [Hn _]. by rewrite Eo in Hn. }
    rewrite andb_false_r. simpl. apply throws_fmap, throws_map_res_in, Forall_forall. intros q Hq.
    assert (q ∈ (λ p, (p.1, to_json st p.2)) <$> d) as (p & -> & Hp)%list_elem_of_fmap.
    { destruct (sort_keys st); [by apply elem_of_sorted_by in Hq|done]. }
    destruct (Hd p Hp) as [Hn Ht]. unfold member. simpl. unfold is_other_key in Hn.
    destruct p.1; [|done]. by apply throws_bind; [|solve_throws].
Qed.

Lemma throws_dumps_encodable st v : encodable v = true → throws [ValueError] (dumps st v).
Proof. intros Hv. by apply throws_fmap, throws_encodable. Qed.

(** The same text is the same value, up to the order of members. *)
Lemma dumps_inj st v w s :
  style_ok st → floats_ok v = true → floats_ok w = true →
  dumps st v = Ok s → dumps st w = Ok s → normal st v = normal st w.
Proof.
  intros Hst Hv Hw Ev Ew.
  destruct (dumps_parse py_constant st v s "" Hst Hv Ev) as (j & Pj & _ & <-); [done|].
  destruct (dumps_parse py_constant st w s "" Hst Hw Ew) as (j' & Pj' & _ & <-); [done|]. congruence.
Qed.

(** And values with the same normal form have the same text. *)
Lemma dumps_normal st v w s t :
  dumps st v = Ok s → dumps st w = Ok t → normal st v = normal st w → s = t.
Proof.
  intros (j & Hj & <-)%res_fmap_ok (j' & Hj' & <-)%res_fmap_ok E.
  assert (j = j') as ->; [|done].
  apply value_of_inj. by rewrite (to_json_value st v j), (to_json_value st w j').
Qed.

(** ** Distinct names *)

Fixpoint distinct_names (j : json) : bool :=
  match j with
  | JArr l => forallb distinct_names l
  | JObj ps => bool_decide (NoDup ps.*1) && forallb (λ p, distinct_names p.2) ps
  | _ => true
  end.

(** Every dict of the value has each key once, as every Python dict does. *)
Fixpoint value_wf (v : pyval) : bool :=
  match v with
  | VList l => forallb value_wf l
  | VDict d => bool_decide (NoDup d.*1) && forallb (λ p, value_wf p.2) d
  | _ => true
  end.

Lemma of_json_value hook j :
  (∀ ps, NoDup ps.*1 → hook ps = Ok (dict_of ps)) → distinct_names j = true →
  of_json_with hook j = Ok (value_of j).
Proof.
  intros Hh. induction j as [|b|n|f|s|l IH|ps IH]; try done; cbn [distinct_names of_json_with value_of].
  - intros Hl. assert (map_res (of_json_with hook) l = Ok (value_of <$> l)) as ->; [|done].
    apply map_res_ok, Forall2_fmap_r, Forall_Forall2_diag, Forall_forall. intros x Hx.
    rewrite Forall_forall in IH. apply IH; [done|]. by apply (forallb_elem _ _ _ Hl).
  - intros [Hd Hl]%andb_true_iff. bool_facts.
    set (f := λ p : string * json, (p.1, value_of p.2)).
    assert (map_res (λ p, v ← of_json_with hook p.2; Ok (p.1, v)) ps = Ok (f <$> ps)) as ->.
    { apply map_res_ok, Forall2_fmap_r, Forall_Forall2_diag, Forall_forall. intros x Hx.
      rewrite Forall_forall in IH. rewrite IH; [done|done|]. by apply (forallb_elem _ _ _ Hl). }
    simpl. rewrite Hh; [done|]. by rewrite <- list_fmap_compose.
Qed.

Lemma dict_set_fresh k v d : (KStr k) ∉ d.*1 → dict_set k v d = d ++ [(KStr k, v)].
Proof.
  induction d as [|[[k'|t] w] d IH]; [done|..]; csimpl; intros [H1 H2]%not_elem_of_cons.
  - rewrite (proj2 (String.eqb_neq _ _)) by congruence. by rewrite IH.
  - by rewrite IH.
Qed.

Lemma foldl_dict_set ps d :
  (∀ k, k ∈ ps.*1 → KStr k ∉ d.*1) → NoDup ps.*1 →
  foldl (λ d p, dict_set p.1 p.2 d) d ps = d ++ dict_of ps.
Proof.
  revert d. induction ps as [|[k v] ps IH]; intros d Hd; csimpl in *; [by rewrite app_nil_r|].
  intros [Hk Hn]%NoDup_cons. rewrite dict_set_fresh by (apply Hd; by left).
  rewrite IH; [by rewrite <- app_assoc| |done].
  intros k' Hk'. rewrite fmap_app, elem_of_app. csimpl. rewrite list_elem_of_singleton.
  intros [H'|[= ->]]; [|done]. apply (Hd k'); [by right|done].
Qed.

(** [dict(pairs)] of distinct names is the literal. *)
Lemma dict_of_pairs_nodup ps : NoDup ps.*1 → dict_of_pairs ps = dict_of ps.
Proof. intros H. apply foldl_dict_set; [|done]. by intros k _ ?%elem_of_nil. Qed.

Lemma dict_has_key k d : dict_has k d = true ↔ KStr k ∈ d.*1.
Proof.
  induction d as [|[[k'|t] w] d IH]; csimpl.
  - split; [done|]. by intros ?%elem_of_nil.
  - unfold dict_has in *. simpl. rewrite elem_of_cons.
    destruct (String.eqb_spec k k') as [->|Hne].
    + split; [by left|done].
    + rewrite IH. split; [by right|]. by intros [[= ->]|?].
  - unfold dict_has in *. simpl. rewrite elem_of_cons, IH. split; [by right|]. by intros [|].
Qed.

(** The hook answers exactly the pairs with distinct names, with their dict. *)
Lemma unique_members_from dup ps d r :
  unique_members dup ps d = Ok r ↔
    NoDup ps.*1 ∧ (∀ k, k ∈ ps.*1 → KStr k ∉ d.*1) ∧ r = d ++ dict_of ps.
Proof.
  revert d. induction ps as [|[k v] ps IH]; intros d; csimpl.
  - rewrite app_nil_r. split.
    + intros [= <-]. split_and!; [apply NoDup_nil_2| |done]. by intros k ?%elem_of_nil.
    + by intros (_ & _ & ->).
  - rewrite NoDup_cons. destruct (dict_has k d) eqn:E.
    + apply dict_has_key in E. split; [done|]. intros (_ & H & _). destruct (H k); [by left|done].
    + assert (KStr k ∉ d.*1) as Hk by (rewrite <- dict_has_key; by rewrite E).
      simpl. rewrite IH, dict_set_fresh by done. rewrite <- app_assoc. simpl.
      setoid_rewrite fmap_app. setoid_rewrite elem_of_app. csimpl. setoid_rewrite list_elem_of_singleton.
      split.
      * intros (Hn & H & ->). split_and!; [|done| |done].
        -- intros Hin. destruct (H k Hin). by right.
        -- intros k' [->|Hin]%elem_of_cons; [done|]. intros ?. destruct (H k' Hin). by left.
      * intros ([Hkn Hn] & H & ->). split_and!; [done| |done].
        intros k' Hin [?|[= ->]]; [|done]. destruct (H k'); [by right|done].
Qed.

Lemma unique_members_ok dup ps r : unique_members dup ps [] = Ok r ↔ NoDup ps.*1 ∧ r = dict_of ps.
Proof.
  rewrite unique_members_from. split; [by intros (? & _ & ->)|]. intros [? ->].
  split_and!; [done| |done]. by intros k _ ?%elem_of_nil.
Qed.

Lemma throws_unique_members cs dup ps d :
  (∀ k, existsb (subclass (exn_cls (dup k))) cs = true) → throws cs (unique_members dup ps d).
Proof.
  intros H. revert d. induction ps as [|[k v] ps IH]; intros d; simpl; [apply throws_ok|].
  apply throws_bind; [|auto]. destruct (dict_has k d); [|apply throws_ok]. by intros e [= <-].
Qed.

Lemma throws_of_json_with cs hook j : (∀ ps, throws cs (hook ps)) → throws cs (of_json_with hook j).
Proof.
  intros Hh. induction j as [| | | | |l IH|ps IH] using json_ind; simpl; try apply throws_ok.
  - by apply throws_fmap, throws_map_res_in.
  - apply throws_bind; [|intros; apply throws_fmap, Hh].
    apply throws_map_res_in. eapply Forall_impl; [exact IH|]. intros p Hp.
    apply throws_bind; [done|intros; apply throws_ok].
Qed.

(** With such a hook a document has a value exactly when no object in it repeats
    a name. *)
Lemma of_json_unique dup j v :
  of_json_with (λ ps, unique_members dup ps []) j = Ok v ↔ distinct_names j = true ∧ v = value_of j.
Proof.
  set (hook := λ ps, unique_members dup ps []). split; cycle 1.
  { intros [Hd ->]. apply of_json_value; [|done]. intros ps Hps. by apply unique_members_ok. }
  revert v. induction j as [|b|n|f|s|l IH|ps IH] using json_ind; intros v; try (by intros [= <-]); cbn [of_json_with].
  - intros (vs & Hvs%map_res_ok & <-)%res_fmap_ok. cbn [distinct_names value_of].
    assert (forallb distinct_names l = true ∧ vs = value_of <$> l) as [? ->]; [|done].
    induction Hvs as [|x y l vs Hxy _ IHl]; [done|]. apply Forall_cons in IH as [Hx IH].
    apply Hx in Hxy as [Hxd ->]. destruct (IHl IH) as [Hl ->]. csimpl. by rewrite Hxd, Hl.
  - intros (pairs & Hps%map_res_ok & (d & [Hn ->]%unique_members_ok & <-)%res_fmap_ok)%res_bind_ok.
    cbn [distinct_names value_of].
    assert (forallb (λ p, distinct_names p.2) ps = true ∧ pairs = (λ p, (p.1, value_of p.2)) <$> ps) as [Hd ->].
    { clear Hn. induction Hps as [|[k x] q ps pairs (y & Hy & [= <-])%res_bind_ok _ IHp]; [done|].
      apply Forall_cons in IH as [Hx IH]. apply Hx in Hy as [Hxd ->]. destruct (IHp IH) as [Hl ->].
      cbn in Hxd. csimpl. by rewrite Hxd, Hl. }
    rewrite <- list_fmap_compose in Hn. split.
    + rewrite Hd, andb_true_r. by apply bool_decide_eq_true.
    + unfold dict_of. by rewrite <- list_fmap_compose.
Qed.

Lemma to_json_distinct st v j : value_wf v = true → to_json st v = Ok j → distinct_names j = true.
Proof.
  revert j. induction v as [|b|z|f|s|l IH|d IH|t] using pyval_ind; intros j Hf Hj; simpl in Hj;
    try (by injection Hj as <-).
  - by inv_res.
  - by inv_res.
  - apply res_fmap_ok in Hj as (js & Hj%map_res_ok & <-). cbn [distinct_names value_wf] in *.
    apply forallb_forall. intros x Hx%list_elem_of_In.
    apply list_elem_of_lookup in Hx as [i Hi].
    destruct (Forall2_lookup_r _ _ _ _ _ Hj Hi) as (v & Hv & E).
    apply list_elem_of_lookup_2 in Hv. rewrite Forall_forall in IH.
    apply (IH v); [done| |done]. by apply (forallb_elem _ _ _ Hf).
  - apply (to_json_dict st d j) in Hj as (_ & ps & -> & Hj). cbn [distinct_names value_wf] in *.
    apply andb_true_iff in Hf as [Hd Hf]. apply andb_true_iff. split.
    + bool_facts. apply bool_decide_eq_true.
      assert ((printed_order st d).*1 = KStr <$> ps.*1) as E.
      { clear -Hj. induction Hj as [|p q l ps [Hk _] _ IH]; [done|]. csimpl. by rewrite Hk, IH. }
      apply (NoDup_fmap_1 KStr). rewrite <- E. unfold printed_order.
      destruct (sort_keys st); [by rewrite sorted_by_perm|done].
    + apply forallb_forall. intros x Hx%list_elem_of_In.
      apply list_elem_of_lookup in Hx as [i Hi].
      destruct (Forall2_lookup_r _ _ _ _ _ Hj Hi) as (p & Hp & _ & E).
      apply list_elem_of_lookup_2, elem_of_printed_order in Hp. rewrite Forall_forall in IH.
      apply (IH p); [done| |done]. by apply (forallb_elem _ _ _ Hf).
  - done.
Qed.

(** [json.loads(json.dumps(v))] is [v], its members sorted if the style says so,
    whatever is done with constants, and with any hook that keeps distinct names. *)
Lemma loads_dumps_with pc hook st v s w :
  style_ok st → value_wf v = true → floats_ok v = true → dumps st v = Ok s →
  str_all json_space w = true → (∀ ps, NoDup ps.*1 → hook ps = Ok (dict_of ps)) →
  (parse_with pc (s +:+ w) ≫= of_json_with hook) = Ok (normal st v).
Proof.
  intros Hst Hw Hf Hs Hsp Hh. destruct (dumps_parse pc st v s w Hst Hf Hs Hsp) as (j & Hp & Hj & <-).
  rewrite Hp. simpl. apply of_json_value; [done|]. by eapply to_json_distinct.
Qed.

Lemma loads_dumps st v s w :
  style_ok st → value_wf v = true → floats_ok v = true → dumps st v = Ok s →
  str_all json_space w = true → loads (s +:+ w) = Ok (normal st v).
Proof.
  intros Hst Hw Hf Hs Hsp. apply (loads_dumps_with py_constant _ st v s w Hst Hw Hf Hs Hsp).
  intros ps Hps. by rewrite dict_of_pairs_nodup.
Qed.

(** ** Sorted members *)

Lemma find_key_fmap k (f : pyval → pyval) d :
  find_key k ((λ p, (p.1, f p.2)) <$> d) = f <$> find_key k d.
Proof. induction d as [|[k' v] d IH]; [done|]. csimpl. by case_bool_decide. Qed.

Lemma find_key_elem k v d : NoDup d.*1 → find_key k d = Some v ↔ (k, v) ∈ d.
Proof.
  induction d as [|[k' w] d IH]; csimpl; [by rewrite elem_of_nil|].
  intros [Hk Hd]%NoDup_cons. case_bool_decide as E.
  - subst. split; [intros [= ->]; by left|]. intros [[= ->]|Hin]%elem_of_cons; [done|].
    destruct Hk. apply list_elem_of_fmap. by exists (k', v).
  - rewrite IH, elem_of_cons by done. naive_solver.
Qed.

Lemma find_key_perm k (d e : pydict) : NoDup d.*1 → d ≡ₚ e → find_key k d = find_key k e.
Proof.
  intros Hd Hp. assert (NoDup e.*1) as He by (by rewrite <- Hp).
  apply option_eq. intros v. by rewrite !find_key_elem, Hp.
Qed.

Lemma find_key_str k d : find_key (KStr k) d = dict_lookup k d.
Proof.
  induction d as [|[[k'|t] v] d IH]; cbn [find_key dict_lookup]; [done|..].
  - destruct (String.eqb_spec k k') as [->|Hne]; [by rewrite bool_decide_eq_true_2|].
    rewrite bool_decide_eq_false_2 by congruence. done.
  - by rewrite bool_decide_eq_false_2.
Qed.

(** Sorting the members of a dict does not change what a lookup finds. *)
Lemma dict_lookup_sorted k d :
  NoDup d.*1 →
  dict_lookup k (sorted_by key_leb ((λ p, (p.1, sort_members p.2)) <$> d))
  = sort_members <$> dict_lookup k d.
Proof.
  intros Hd. rewrite <- !find_key_str, <- (find_key_fmap _ sort_members).
  symmetry. apply find_key_perm; [|by rewrite sorted_by_perm]. by rewrite <- list_fmap_compose.
Qed.

Lemma dict_get_sorted k d :
  NoDup d.*1 →
  dict_get k (sorted_by key_leb ((λ p, (p.1, sort_members p.2)) <$> d)) = sort_members (dict_get k d).
Proof. intros Hd. unfold dict_get. rewrite dict_lookup_sorted by done. by destruct (dict_lookup k d). Qed.

(** Values equal up to member order have, member by member, values equal up to
    member order. *)
Lemma same_value_lookup d e k :
  NoDup d.*1 → NoDup e.*1 → same_value (VDict d) (VDict e) →
  option_Forall2 same_value (dict_lookup k d) (dict_lookup k e).
Proof.
  unfold same_value. cbn [sort_members]. intros Hd He [= E].
  pose proof (dict_lookup_sorted k d Hd) as H1. rewrite E, (dict_lookup_sorted k e He) in H1.
  destruct (dict_lookup k d), (dict_lookup k e); simpl in H1; try done; constructor; congruence.
Qed.

Lemma same_value_get d e k :
  NoDup d.*1 → NoDup e.*1 → same_value (VDict d) (VDict e) →
  same_value (dict_get k d) (dict_get k e).
Proof.
  intros Hd He Hs. unfold dict_get. by destruct (same_value_lookup d e k Hd He Hs).
Qed.

(** ** The characters of a text *)

Definition printable (c : ascii) : bool := between 32 126 c.

Lemma printable_digit c : is_dec_digit c = true → printable c = true.
Proof. all_chars c. Qed.
Lemma printable_dec n : str_all printable (to_dec n) = true.
Proof. eapply str_all_impl, numw_dec. exact printable_digit. Qed.
Lemma printable_rjust n s : str_all printable s = true → str_all printable (rjust n "0" s) = true.
Proof. unfold rjust. intros Hs. by rewrite str_all_app, Hs, str_all_repeat. Qed.

Lemma printable_repr m e : str_all printable (repr_positive m e) = true.
Proof.
  unfold repr_positive, decimal_of.
  destruct (shortest _ _ _ _ _) as [n q]. destruct (strip_zeros _ _ _) as [n' q'].
  set (k := _ + str_len _). clearbody k.
  pose proof (printable_dec n') as Hd. destruct (_ && _).
  - destruct (k <=? 0); [by rewrite !str_all_app, Hd; unfold zeros; rewrite str_all_repeat|].
    destruct (_ <=? k).
    + rewrite !str_all_app, Hd. unfold zeros. by rewrite str_all_repeat.
    + by rewrite !str_all_app, str_all_take, str_all_drop.
  - rewrite !str_all_app, str_all_take by done.
    rewrite (printable_rjust 2) by apply printable_dec.
    destruct (_ =? 1); [|rewrite str_all_app, str_all_drop by done]; by destruct (k - 1 <? 0).
Qed.

Lemma printable_float f : str_all printable (float_repr f) = true.
Proof.
  destruct f as [[]|[]| |s m e]; try done. simpl. rewrite str_all_app, printable_repr. by destruct s.
Qed.

Lemma printable_int n : str_all printable (str_of_Z n) = true.
Proof.
  unfold str_of_Z. destruct (n <? 0); [|apply printable_dec]. by rewrite str_all_app, printable_dec.
Qed.

Lemma printable_quoted s : str_all printable (quoted true s) = true.
Proof.
  unfold quoted. cbn [str_all]. rewrite str_all_app. cbn [str_all].
  assert (str_all printable (escape_all true s) = true) as ->; [|done].
  induction s as [|c s IH]; [done|]. cbn [escape_all]. rewrite str_all_app, IH, andb_true_r.
  by destruct c as [[] [] [] [] [] [] [] []].
Qed.

Section text_chars.
Context (st : style) (P : ascii → bool).
Hypotheses (Hascii : ensure_ascii st = true) (HP : ∀ c, printable c = true → P c = true).
Hypotheses (Hitem : str_all P (item_sep st) = true) (Hkey : str_all P (key_sep st) = true).
Hypothesis (Hline : ∀ level, str_all P (newline st level) = true).

Lemma str_all_join sep l :
  str_all P sep = true → Forall (λ s, str_all P s = true) l → str_all P (join sep l) = true.
Proof.
  intros Hs. induction 1 as [|x l Hx Hl IH]; [done|]. destruct l as [|y l]; [done|].
  change (join sep (x :: y :: l)) with (x +:+ sep +:+ join sep (y :: l)).
  by rewrite !str_all_app, Hx, Hs, IH.
Qed.

Lemma str_all_bracketed level o c items :
  printable o = true → printable c = true → Forall (λ s, str_all P s = true) items →
  str_all P (bracketed st level o c items) = true.
Proof.
  intros Ho%HP Hc%HP Hi.
  assert (str_all P (join (item_sep st +:+ newline st (S level)) items) = true) as Hj.
  { apply str_all_join; [by rewrite str_all_app, Hitem, Hline|done]. }
  destruct items as [|x items]; [simpl; by rewrite Ho, Hc|].
  unfold bracketed. cbn [str_all]. rewrite Ho, !str_all_app, !Hline, Hj. simpl. by rewrite Hc.
Qed.

(** Every character of a printed document is printable or stands in a separator. *)
Lemma print_chars j : ∀ level, str_all P (print st level j) = true.
Proof.
  assert (∀ s, str_all printable s = true → str_all P s = true) as H
    by (intros s; by apply str_all_impl).
  induction j as [|b|n|f|s|l IH|ps IH]; intros level; cbn [print].
  - by apply H.
  - apply H. by destruct b.
  - apply H, printable_int.
  - apply H, printable_float.
  - rewrite Hascii. apply H, printable_quoted.
  - apply str_all_bracketed; [done..|]. apply Forall_fmap. eapply Forall_impl; [exact IH|]. auto.
  - apply str_all_bracketed; [done..|]. apply Forall_fmap. eapply Forall_impl; [exact IH|].
    intros p Hp. cbv [compose]. rewrite !str_all_app, Hascii, Hkey, Hp. by rewrite (H _ (printable_quoted _)).
Qed.
End text_chars.
