(* ===== verification/PyScan.v ===== *)
(** * The JSON scanner ends

    Every scan leaves less text than it was given, so the fuel of the scanner, the
    length of its text, is never used up: [json.loads] raises only a [ValueError],
    or reports a text outside the model. *)

From S2P Require Import Prelude PyStr PyVal PyJson.
Local Open Scope Z_scope.

(** A scan at [s]: it fails as [json.loads] documents, or outside the model, and
    what it leaves is shorter than what it was given. *)
Definition scan_errors : list exn_class := [ValueError; OtherError].
Definition consumes {A} (s : string) (m : res (A * string)) : Prop :=
  throws scan_errors m ∧ ∀ x r, m = Ok (x, r) → (String.length r < String.length s)%nat.

Section consume_lemmas.
Implicit Types (s r : string).

Lemma consumes_error {A} s c msg :
  existsb (subclass c) scan_errors = true → consumes (A:=A) s (raise c msg).
Proof. intros H. split; [by apply throws_raise|done]. Qed.
Lemma consumes_ok {A} s (x : A) r :
  (String.length r < String.length s)%nat → consumes s (Ok (x, r)).
Proof. intros H. split; [apply throws_ok|]. by intros y r' [= _ <-]. Qed.
Lemma consumes_longer {A} s s' (m : res (A * string)) :
  consumes s m → (String.length s <= String.length s')%nat → consumes s' m.
Proof. intros [H1 H2] Hl. split; [done|]. intros x r E. specialize (H2 x r E). lia. Qed.

(** A scan and what is made of its value and its rest. *)
Lemma consumes_bind {A B} s (m : res (A * string)) (f : A * string → res (B * string)) :
  consumes s m → (∀ x r, m = Ok (x, r) → (String.length r < String.length s)%nat → consumes s (f (x, r))) →
  consumes s (m ≫= f).
Proof.
  intros [H1 H2] Hf. destruct m as [[x r]|e].
  - apply (Hf x r); [done|]. by apply (H2 x).
  - split; [|done]. intros e' [= <-]. by apply H1.
Qed.

Lemma consumes_word {A} s (w : string) (m : res A) :
  startswith w s = true → w ≠ "" → throws scan_errors m →
  consumes s (x ← m; Ok (x, str_drop (String.length w) s)).
Proof.
  intros [r ->]%startswith_spec Hw Hm. rewrite str_drop_app. destruct m as [x|e].
  - apply consumes_ok. rewrite str_length_app. destruct w; [done|]. simpl. lia.
  - split; [|done]. intros e' [= <-]. by apply Hm.
Qed.

Lemma skip_ws_length s : (String.length (skip_ws s) <= String.length s)%nat.
Proof. unfold skip_ws. induction s as [|c s IH]; simpl; [done|]. destruct (json_space c); simpl; lia. Qed.

Lemma take_digits_length s ds r :
  take_digits s = (ds, r) → (String.length ds + String.length r = String.length s)%nat.
Proof.
  revert ds r. induction s as [|c s IH]; intros ds r; simpl; [by intros [= <- <-]|].
  destruct (is_dec_digit c); [|by intros [= <- <-]].
  destruct (take_digits s) as [ds' r'] eqn:E. intros [= <- <-]. simpl. specialize (IH _ _ eq_refl). lia.
Qed.
Lemma take_integer_length s ds r :
  take_integer s = (ds, r) → (String.length ds + String.length r = String.length s)%nat.
Proof.
  destruct s as [|c s]; cbn [take_integer]; [by intros [= <- <-]|].
  destruct (code c =? 48); [by intros [= <- <-]|]. apply take_digits_length.
Qed.
Lemma take_fraction_length s ds r :
  take_fraction s = (ds, r) → (String.length r <= String.length s)%nat.
Proof.
  destruct s as [|c s]; simpl; [by intros [= <- <-]|].
  destruct (code c =? 46); [|by intros [= <- <-]].
  destruct (take_digits s) as [[|d ds'] r'] eqn:E; [by intros [= <- <-]|].
  intros [= <- <-]. apply take_digits_length in E. simpl in E. lia.
Qed.
Lemma take_exponent_length s x r :
  take_exponent s = (x, r) → (String.length r <= String.length s)%nat.
Proof.
  destruct s as [|c s]; simpl; [by intros [= <- <-]|].
  destruct ((code c =? 101) || (code c =? 69)); [|by intros [= <- <-]].
  assert (String.length (split_sign s).2 <= String.length s)%nat as Hs.
  { unfold split_sign. destruct s as [|d s]; [done|]. destruct (code d =? 45), (code d =? 43); simpl; lia. }
  destruct (split_sign s) as [neg s']. simpl in Hs.
  destruct (take_digits s') as [[|d ds'] r'] eqn:E; [by intros [= <- <-]|].
  intros [= <- <-]. apply take_digits_length in E. simpl in E. lia.
Qed.

Lemma scan_unsigned_consumes neg s : consumes s (scan_unsigned neg s).
Proof.
  unfold scan_unsigned.
  destruct (take_integer s) as [whole r1] eqn:E1. apply take_integer_length in E1.
  destruct (take_fraction r1) as [frac r2] eqn:E2. apply take_fraction_length in E2.
  destruct (take_exponent r2) as [exp r3] eqn:E3. apply take_exponent_length in E3.
  destruct (String.eqb_spec whole "") as [_|Hne]; [by apply consumes_error|].
  assert (String.length r3 < String.length s)%nat by (destruct whole; [done|]; simpl in E1; lia).
  destruct frac as [|c frac], exp as [[n ds]|]; try by apply consumes_ok.
  destruct (INT_MAX_STR_DIGITS <? str_len whole); [by apply consumes_error|by apply consumes_ok].
Qed.

Lemma scan_string_consumes s : consumes s (scan_string s).
Proof.
  induction s as [s IH] using (induction_ltof1 _ String.length). unfold ltof in IH.
  destruct s as [|c s]; [by apply consumes_error|]. cbn [scan_string].
  assert (∀ x u, (String.length u < S (String.length s))%nat →
    consumes (String c s) ('(t, r) ← scan_string u; Ok (String x t, r))) as Hgo.
  { intros x u Hu. apply consumes_bind; [by apply (consumes_longer u); [apply IH|simpl; lia]|].
    intros t r _ Hr. by apply consumes_ok. }
  destruct (code c =? 34); [apply consumes_ok; simpl; lia|].
  destruct (code c =? 92).
  - destruct s as [|e s]; [by apply consumes_error|]. destruct (code e =? 117).
    + destruct s as [|h3 [|h2 [|h1 [|h0 s]]]]; try by apply consumes_error.
      destruct (str_all _ _); [|by apply consumes_error].
      destruct (hex_value _ <? 256); [|by apply consumes_error]. apply Hgo. simpl. lia.
    + destruct (unescape e); [|by apply consumes_error]. apply Hgo. simpl. lia.
  - destruct (code c <? 32); [by apply consumes_error|]. apply Hgo. lia.
Qed.

Lemma scan_key_consumes s : consumes s (scan_key s).
Proof.
  destruct s as [|c s]; [by apply consumes_error|]. unfold scan_key.
  destruct (code c =? 34); [|by apply consumes_error].
  apply consumes_bind; [apply (consumes_longer s); [apply scan_string_consumes|simpl; lia]|].
  intros k r _ Hr. pose proof (skip_ws_length r) as Hw.
  destruct (skip_ws r) as [|d u]; [by apply consumes_error|].
  destruct (code d =? 58); [|by apply consumes_error]. apply consumes_ok.
  pose proof (skip_ws_length u). simpl in *. lia.
Qed.

Lemma scan_delimiter_consumes closing s : consumes s (scan_delimiter closing s).
Proof.
  unfold scan_delimiter. pose proof (skip_ws_length s) as Hw.
  destruct (skip_ws s) as [|d u]; [by apply consumes_error|]. simpl in Hw.
  destruct (code d =? code closing); [apply consumes_ok; lia|].
  destruct (code d =? 44); [|by apply consumes_error]. apply consumes_ok.
  pose proof (skip_ws_length u). lia.
Qed.

Lemma scan_list_consumes {A} (elem : string → res (A * string)) closing fuel s :
  (∀ u, (String.length u <= String.length s)%nat → consumes u (elem u)) →
  (String.length s < fuel)%nat → consumes s (scan_list elem closing fuel s).
Proof.
  revert s. induction fuel as [|fuel IH]; intros s He Hf; [lia|]. cbn [scan_list].
  apply consumes_bind; [by apply He|]. intros x r _ Hr.
  apply consumes_bind; [apply (consumes_longer r); [apply scan_delimiter_consumes|lia]|].
  intros more r' _ Hr'. assert (consumes r (scan_delimiter closing r)) as Hd by apply scan_delimiter_consumes.
  destruct more; [|by apply consumes_ok].
  apply consumes_bind; [|intros l r'' _ ?; by apply consumes_ok].
  apply (consumes_longer r'); [apply IH; [|lia]|lia]. intros u Hu. apply He. lia.
Qed.

Lemma scan_body_consumes {A} (elem : string → res (A * string)) closing fuel s :
  (∀ u, (String.length u <= String.length s)%nat → consumes u (elem u)) →
  (String.length s < fuel)%nat → consumes s (scan_body elem closing fuel s).
Proof.
  intros He Hf. unfold scan_body. pose proof (skip_ws_length s) as Hw.
  destruct (closes closing (skip_ws s)) as [r|] eqn:Ec.
  - apply consumes_ok. destruct (skip_ws s) as [|d u]; [done|]. simpl in *.
    destruct (code d =? code closing); [|done]. injection Ec as ->. lia.
  - apply (consumes_longer (skip_ws s)); [|done]. apply scan_list_consumes; [|lia].
    intros u Hu. apply He. lia.
Qed.
End consume_lemmas.

Section scanner_ends.
Context (pc : string → res json) (Hpc : ∀ w, throws scan_errors (pc w)).

Lemma scan_word_consumes s : consumes s (scan_word_with pc s).
Proof.
  unfold scan_word_with.
  destruct (startswith "null" s) eqn:?; [by apply (consumes_word s "null" (Ok JNull))|].
  destruct (startswith "true" s) eqn:?; [by apply (consumes_word s "true" (Ok (JBool true)))|].
  destruct (startswith "false" s) eqn:?; [by apply (consumes_word s "false" (Ok (JBool false)))|].
  destruct (startswith "NaN" s) eqn:?; [by apply (consumes_word s "NaN")|].
  destruct (startswith "Infinity" s) eqn:?; [by apply (consumes_word s "Infinity")|].
  destruct (startswith "-Infinity" s) eqn:?; [by apply (consumes_word s "-Infinity")|].
  destruct s as [|c s]; [by apply consumes_error|].
  destruct (code c =? 45); [|apply scan_unsigned_consumes].
  apply (consumes_longer s); [apply scan_unsigned_consumes|simpl; lia].
Qed.

(** The fuel of the scanner is never used up. *)
Lemma scan_value_consumes fuel s :
  (String.length s < fuel)%nat → consumes s (scan_value_with pc fuel s).
Proof.
  revert s. induction fuel as [|fuel IH]; intros s Hf; [lia|]. cbn [scan_value_with].
  destruct s as [|c s]; [by apply consumes_error|]. simpl in Hf.
  assert (∀ A (f : string → res (A * string)) (g : A → json) (m : res (A * string)),
    consumes s m → consumes (String c s) ('(x, r) ← m; Ok (g x, r))) as Hg.
  { intros A f g m Hm. apply consumes_bind; [by apply (consumes_longer s); [|simpl; lia]|].
    intros x r _ Hr. by apply consumes_ok. }
  destruct (code c =? 34); [apply Hg; [exact scan_string|apply scan_string_consumes]|].
  destruct (code c =? 91).
  { apply (Hg _ (λ _, Ok ([], ""))), scan_body_consumes; [|lia]. intros u Hu. apply IH. lia. }
  destruct (code c =? 123); [|apply scan_word_consumes].
  apply (Hg _ (λ _, Ok ([], ""))), scan_body_consumes; [|lia]. intros u Hu.
  apply consumes_bind; [apply scan_key_consumes|]. intros k r _ Hr.
  apply consumes_bind; [apply (consumes_longer r); [apply IH; lia|lia]|].
  intros x r' _ Hr'. by apply consumes_ok.
Qed.

Lemma throws_parse s : throws scan_errors (parse_with pc s).
Proof.
  unfold parse_with. pose proof (skip_ws_length s).
  destruct (scan_value_consumes (S (String.length s)) (skip_ws s)) as [Ht _]; [lia|].
  apply throws_bind; [done|]. intros [j r] _. destruct (skip_ws r); [apply throws_ok|by apply throws_raise].
Qed.
End scanner_ends.

Lemma throws_decode_utf8 bs : throws [UnicodeDecodeError; OtherError] (decode_utf8 bs).
Proof.
  induction bs as [bs IH] using (induction_ltof1 _ length). unfold ltof in IH.
  destruct bs as [|b bs]; [apply throws_ok|]. cbn [decode_utf8].
  destruct (b <? 128); [apply throws_fmap, IH; simpl; lia|].
  destruct (_ || _); [by apply throws_raise|]. destruct (195 <? b); [by apply throws_raise|].
  destruct bs as [|c bs]; [by apply throws_raise|].
  destruct (_ && _); [apply throws_fmap, IH; simpl; lia|by apply throws_raise].
Qed.

Lemma throws_loads s : throws scan_errors (loads s).
Proof.
  apply throws_bind; [apply throws_parse; intros w; apply throws_ok|]. intros j _.
  apply throws_of_json_with. intros ps. apply throws_ok.
Qed.
