(* ===== verification/Anvil.v ===== *)
(** * The strict JSON-RPC client ([psv/anvil.py])

    The endpoint is untrusted: a [Transport] is any function from requests to
    responses that may keep a state of its own and may raise.  [RpcClient] is
    the client's state, the request counter and the transport's state;
    [call] and every typed method below are programs over it.  The theorems
    say what a value that passed a validator looks like, that the client
    raises only [RpcError] (or [ValueError] for a bad argument), that polling
    is bounded, and which JSON-RPC methods a program can have sent.

    The default HTTP transport is the file [Transport], the manager of the
    [anvil] process the file [AnvilProcess]. *)

From S2P Require Import Prelude PyStr PyText PyVal.
Local Open Scope Z_scope.

Definition _MAX_RPC_LIST_ITEMS : Z := 10000.
Definition _MAX_RPC_OBJECT_FIELDS : Z := 256.
Definition _MAX_RPC_STRING_CHARS : Z := 2 * 1024 * 1024.
Definition _MAX_RPC_DEPTH : Z := 16.
Definition _BLOCK_TAGS : list string := ["earliest"; "latest"; "pending"; "safe"; "finalized"].

(** [math.isfinite] *)
Definition isfinite (f : spec_float) : bool :=
  match f with
  | S754_zero _ | S754_finite _ _ _ => true
  | S754_infinity _ | S754_nan => false
  end.

Definition zlen {A} (l : list A) : Z := Z.of_nat (length l).

Section bounded.
Variable what : string.

Fixpoint _bounded_json (depth : Z) (value : pyval) {struct value} : res unit :=
  raise_if (_MAX_RPC_DEPTH <? depth) RpcError (what +:+ ": JSON nesting exceeds 16") ;;
  match value with
  | VStr s =>
      raise_if (_MAX_RPC_STRING_CHARS <? str_len s) RpcError
        (what +:+ ": string exceeds size limit")
  | VFloat f => raise_if (negb (isfinite f)) RpcError (what +:+ ": non-finite JSON number")
  | VNone | VBool _ | VInt _ => Ok tt
  | VList l =>
      raise_if (_MAX_RPC_LIST_ITEMS <? zlen l) RpcError (what +:+ ": list exceeds item limit") ;;
      for_each (_bounded_json (depth + 1)) l
  | VDict d =>
      raise_if (_MAX_RPC_OBJECT_FIELDS <? zlen d) RpcError
        (what +:+ ": object exceeds field limit") ;;
      for_each (λ kv : pykey * pyval,
        match kv with
        | (KStr _, item) => _bounded_json (depth + 1) item
        | (KOther _, _) => raise RpcError (what +:+ ": object key is not a string")
        end) d
  | VOther t => raise RpcError (what +:+ ": unsupported JSON value " +:+ t)
  end.
End bounded.

(** ** Scalar validators *)

Definition _quantity (value : pyval) (what : string) : res Z :=
  match as_str value with
  | Some s =>
      if re_quantity s then or_raise (py_int16 s) ValueError "invalid literal for int()"
      else raise RpcError (what +:+ ": expected canonical hex quantity")
  | None => raise RpcError (what +:+ ": expected canonical hex quantity")
  end.

Definition _data (value : pyval) (what : string) : res string :=
  match as_str value with
  | Some s => if re_data s then Ok s
              else raise RpcError (what +:+ ": expected even-length hex data")
  | None => raise RpcError (what +:+ ": expected even-length hex data")
  end.

Definition _hash (value : pyval) (what : string) : res string :=
  match as_str value with
  | Some s => if re_0xhex 64 s then Ok s
              else raise RpcError (what +:+ ": expected a 32-byte hash")
  | None => raise RpcError (what +:+ ": expected a 32-byte hash")
  end.

Definition _address (value : pyval) (what : string) (nullable : bool) : res (option string) :=
  match value with
  | VNone => if nullable then Ok None
             else raise RpcError (what +:+ ": expected a 20-byte address")
  | VStr s => if re_0xhex 40 s then Ok (Some s)
              else raise RpcError (what +:+ ": expected a 20-byte address")
  | _ => raise RpcError (what +:+ ": expected a 20-byte address")
  end.

(** A block selector argument: [int | str]. *)
Inductive block_sel :=
  | BNum (n : Z)
  | BTag (tag : string).

Definition _block_param (block : block_sel) : res string :=
  match block with
  | BNum n => if 0 <=? n then Ok (py_hex n) else raise ValueError "invalid block selector"
  | BTag t => if existsb (String.eqb t) _BLOCK_TAGS then Ok t
              else raise ValueError "invalid block selector"
  end.

(** ** Logs and receipts *)

Definition log_fields : list string :=
  ["address"; "topics"; "data"; "blockNumber"; "transactionHash"; "transactionIndex";
   "blockHash"; "logIndex"; "removed"].

Definition fields_present (ks : list string) (d : pydict) : bool :=
  forallb (λ k, dict_has k d) ks.

Definition _validate_log (value : pyval) (what : string) : res pydict :=
  d ← or_raise (as_dict value) RpcError (what +:+ ": expected log object");
  raise_if (negb (fields_present log_fields d)) RpcError (what +:+ ": log missing fields") ;;
  address ← dict_item "address" d;
  _address address (what +:+ ".address") false ;;
  topics ← dict_item "topics" d;
  ts ← or_raise (as_list topics) RpcError (what +:+ ".topics: expected a bounded list");
  raise_if (16 <? zlen ts) RpcError (what +:+ ".topics: expected a bounded list") ;;
  for_each (λ t, _hash t (what +:+ ".topics") ;; Ok tt) ts ;;
  data ← dict_item "data" d;
  _data data (what +:+ ".data") ;;
  number ← dict_item "blockNumber" d;
  _quantity number (what +:+ ".blockNumber") ;;
  tx ← dict_item "transactionHash" d;
  _hash tx (what +:+ ".transactionHash") ;;
  tx_index ← dict_item "transactionIndex" d;
  _quantity tx_index (what +:+ ".transactionIndex") ;;
  block_hash ← dict_item "blockHash" d;
  _hash block_hash (what +:+ ".blockHash") ;;
  log_index ← dict_item "logIndex" d;
  _quantity log_index (what +:+ ".logIndex") ;;
  removed ← dict_item "removed" d;
  or_raise (as_bool removed) RpcError (what +:+ ".removed: expected boolean") ;;
  Ok d.

Definition receipt_fields : list string :=
  ["transactionHash"; "blockHash"; "blockNumber"; "status"; "logs"].

(** [for key in (...): if key in value: _quantity(value[key], ...)] *)
Definition optional_quantity (d : pydict) (what : string) (k : string) : res unit :=
  match dict_lookup k d with
  | Some v => _quantity v (what +:+ "." +:+ k) ;; Ok tt
  | None => Ok tt
  end.

Definition optional_address (d : pydict) (what : string) (nullable : bool) (k : string) : res unit :=
  match dict_lookup k d with
  | Some v => _address v (what +:+ "." +:+ k) nullable ;; Ok tt
  | None => Ok tt
  end.

Definition _validate_receipt (value : pyval) (what : string) : res pydict :=
  d ← or_raise (as_dict value) RpcError (what +:+ ": expected receipt object");
  raise_if (negb (fields_present receipt_fields d)) RpcError
    (what +:+ ": receipt missing fields") ;;
  tx ← dict_item "transactionHash" d;
  _hash tx (what +:+ ".transactionHash") ;;
  block_hash ← dict_item "blockHash" d;
  _hash block_hash (what +:+ ".blockHash") ;;
  number ← dict_item "blockNumber" d;
  _quantity number (what +:+ ".blockNumber") ;;
  status_value ← dict_item "status" d;
  status ← _quantity status_value (what +:+ ".status");
  raise_if (negb ((status =? 0) || (status =? 1))) RpcError (what +:+ ".status: expected 0 or 1") ;;
  logs_value ← dict_item "logs" d;
  logs ← or_raise (as_list logs_value) RpcError (what +:+ ".logs: expected a bounded list");
  raise_if (_MAX_RPC_LIST_ITEMS <? zlen logs) RpcError (what +:+ ".logs: expected a bounded list") ;;
  for_each (λ log, _validate_log log (what +:+ ".logs") ;; Ok tt) logs ;;
  for_each (optional_quantity d what) ["transactionIndex"; "cumulativeGasUsed"; "gasUsed"; "type"] ;;
  optional_address d what false "from" ;;
  optional_address d what true "to" ;;
  Ok d.

(** ** The client *)

(** How a request is answered: the transport's own state [W] may change, and it
    may raise.  Nothing is assumed of it. *)
Class Transport (W : Type) := transport_send : pyval → prog W pyval.

Record RpcClient (W : Type) := { _id : Z; world : W }.
Arguments Build_RpcClient {W} _ _.
Arguments _id {W} _.
Arguments world {W} _.

Definition rpc_request (id : Z) (method : string) (params : list pyval) : pyval :=
  VDict (dict_of [("jsonrpc", VStr "2.0"); ("id", VInt id); ("method", VStr method);
                  ("params", VList params)]).

(** The envelope checks of [call] after the transport answered. *)
Definition check_envelope (method : string) (request_id : Z) (response : pyval) : res pyval :=
  _bounded_json (method +:+ " response") 0 response ;;
  d ← or_raise (as_dict response) RpcError (method +:+ ": response must be a JSON object");
  raise_if (negb (py_eq (dict_get "jsonrpc" d) (VStr "2.0"))) RpcError
    (method +:+ ": response has invalid jsonrpc version") ;;
  raise_if (negb (bool_decide (as_exact_int (dict_get "id" d) = Some request_id))) RpcError
    (method +:+ ": response id does not match request") ;;
  raise_if (Bool.eqb (dict_has "result" d) (dict_has "error" d)) RpcError
    (method +:+ ": response must contain exactly one of result/error") ;;
  (if dict_has "error" d then
     error_value ← dict_item "error" d;
     error ← or_raise (as_dict error_value) RpcError (method +:+ ": malformed error object");
     code ← or_raise (as_exact_int (dict_get "code" error)) RpcError
              (method +:+ ": malformed error object");
     message ← or_raise (as_str (dict_get "message" error)) RpcError
              (method +:+ ": malformed error object");
     raise RpcError (method +:+ ": RPC error " +:+ str_of_Z code +:+ ": " +:+ message)
   else Ok tt) ;;
  dict_item "result" d.

Section client.
Context `{Transport W}.
Notation client := (prog (RpcClient W)).

(** Any exception of the transport becomes an [RpcError]. *)
Definition send_checked (method : string) (request : pyval) : client pyval := λ self,
  match transport_send request (world self) with
  | (Ok v, w) => (Ok v, {| _id := _id self; world := w |})
  | (Raise e, w) =>
      (Raise (if subclass (exn_cls e) RpcError then e
              else Exn RpcError (method +:+ ": transport failure: " +:+ exn_str e)),
       {| _id := _id self; world := w |})
  end.

Definition call (method : string) (params : list pyval) : client pyval :=
  modify (λ self, {| _id := _id self + 1; world := world self |}) ;;
  self ← get_state;
  let request_id := _id self in
  response ← send_checked method (rpc_request request_id method params);
  lift (check_envelope method request_id response).

Definition snapshot : client string :=
  result ← call "evm_snapshot" [];
  lift (_quantity result "evm_snapshot result" ;;
        or_raise (as_str result) TypeError "str").

Definition revert (snapshot_id : string) : client bool :=
  lift (_quantity (VStr snapshot_id) "snapshot id") ;;
  result ← call "evm_revert" [VStr snapshot_id];
  lift (or_raise (as_bool result) RpcError "evm_revert result: expected boolean").

(** [for _ in range(n): m] *)
Fixpoint repeat_prog (n : nat) (m : client unit) : client unit :=
  match n with
  | O => mret tt
  | S n => m ;; repeat_prog n m
  end.

Definition mine (blocks : Z) : client unit :=
  lift (raise_if (negb ((1 <=? blocks) && (blocks <=? 1000000))) ValueError
          "blocks must be an integer within [1, 1000000]") ;;
  repeat_prog (Z.to_nat blocks)
    (result ← call "evm_mine" [];
     match result with
     | VNone => mret tt
     | _ => lift (_quantity result "evm_mine result" ;; Ok tt)
     end).

Definition increase_time (seconds : Z) : client unit :=
  lift (raise_if (seconds <? 0) ValueError "seconds must be a non-negative integer") ;;
  result ← call "evm_increaseTime" [VInt seconds];
  lift (_quantity result "evm_increaseTime result") ;;
  mine 1.

Definition set_automine (on : bool) : client unit :=
  result ← call "evm_setAutomine" [VBool on];
  lift (match result with
        | VNone | VBool _ => Ok tt
        | _ => raise RpcError "evm_setAutomine result: expected boolean or null"
        end).

Definition block_number : client Z :=
  result ← call "eth_blockNumber" [];
  lift (_quantity result "eth_blockNumber result").

Definition chain_id : client Z :=
  result ← call "eth_chainId" [];
  lift (chain_id ← _quantity result "eth_chainId result";
        raise_if (chain_id <=? 0) RpcError "eth_chainId result: chain id must be positive" ;;
        Ok chain_id).

(** The checks of [get_block] on the result object. *)
Definition validate_block (full_transactions : bool) (result : pyval) : res pydict :=
  d ← or_raise (as_dict result) RpcError "eth_getBlockByNumber result: expected block object";
  for_each (λ k, v ← or_raise (dict_lookup k d) RpcError
                       ("eth_getBlockByNumber result: missing " +:+ k);
                 _quantity v ("block." +:+ k) ;; Ok tt) ["number"; "timestamp"] ;;
  for_each (λ k, v ← or_raise (dict_lookup k d) RpcError
                       ("eth_getBlockByNumber result: missing " +:+ k);
                 _hash v ("block." +:+ k) ;; Ok tt) ["hash"; "parentHash"] ;;
  txs ← or_raise (as_list (dict_get "transactions" d)) RpcError
          "block.transactions: expected a bounded list";
  raise_if (_MAX_RPC_LIST_ITEMS <? zlen txs) RpcError
    "block.transactions: expected a bounded list" ;;
  (if full_transactions
   then raise_if (negb (forallb (λ tx, match as_dict tx with Some _ => true | None => false end) txs))
          RpcError "block.transactions: expected transaction objects"
   else for_each (λ tx, _hash tx "block.transactions" ;; Ok tt) txs) ;;
  Ok d.

Definition get_block (block : block_sel) (full_transactions : bool) : client pydict :=
  param ← lift (_block_param block);
  result ← call "eth_getBlockByNumber" [VStr param; VBool full_transactions];
  lift (validate_block full_transactions result).

Definition topic_val (topic : option string) : pyval :=
  match topic with Some t => VStr t | None => VNone end.

Definition get_logs (address : string) (topics : list (option string))
    (from_block to_block : block_sel) : client (list pydict) :=
  lift (_address (VStr address) "eth_getLogs address" false) ;;
  lift (raise_if (16 <? zlen topics) ValueError
          "topics must be a list with at most 16 entries") ;;
  lift (for_each (λ topic, match topic with
                           | Some t => _hash (VStr t) "eth_getLogs topic" ;; Ok tt
                           | None => Ok tt
                           end) topics) ;;
  from_param ← lift (_block_param from_block);
  to_param ← lift (_block_param to_block);
  result ← call "eth_getLogs"
    [VDict (dict_of [("address", VStr address); ("topics", VList (topic_val <$> topics));
                     ("fromBlock", VStr from_param); ("toBlock", VStr to_param)])];
  lift (logs ← or_raise (as_list result) RpcError "eth_getLogs result: expected a bounded list";
        raise_if (_MAX_RPC_LIST_ITEMS <? zlen logs) RpcError
          "eth_getLogs result: expected a bounded list" ;;
        map_res (λ log, _validate_log log "eth_getLogs result") logs).

Definition eth_call (to data : string) (block : block_sel) : client string :=
  lift (_address (VStr to) "eth_call to" false) ;;
  lift (_data (VStr data) "eth_call data") ;;
  param ← lift (_block_param block);
  result ← call "eth_call" [VDict (dict_of [("to", VStr to); ("data", VStr data)]); VStr param];
  lift (_data result "eth_call result").

Definition get_code (address : string) (block : block_sel) : client string :=
  lift (_address (VStr address) "eth_getCode address" false) ;;
  param ← lift (_block_param block);
  result ← call "eth_getCode" [VStr address; VStr param];
  lift (_data result "eth_getCode result").

Definition send_raw_transaction (raw : string) : client string :=
  lift (_data (VStr raw) "raw transaction") ;;
  result ← call "eth_sendRawTransaction" [VStr raw];
  lift (_hash result "eth_sendRawTransaction result").

Definition get_transaction_receipt (tx_hash : string) : client pydict :=
  lift (_hash (VStr tx_hash) "transaction hash") ;;
  receipt ← call "eth_getTransactionReceipt" [VStr tx_hash];
  match receipt with
  | VNone => lift (raise RpcError ("no receipt for " +:+ tx_hash))
  | _ => lift (_validate_receipt receipt "eth_getTransactionReceipt result")
  end.

(** The polling loop, [n] attempts left; sleeping between them has no effect
    on the modelled state. *)
Fixpoint poll_receipt (tx_hash : string) (n : nat) : client pydict :=
  match n with
  | O => lift (raise RpcError ("no receipt for " +:+ tx_hash))
  | S n =>
      receipt ← call "eth_getTransactionReceipt" [VStr tx_hash];
      match receipt with
      | VNone => poll_receipt tx_hash n
      | _ => lift (_validate_receipt receipt "eth_getTransactionReceipt result")
      end
  end.

Definition negative_delay (delay : pyval) : bool :=
  match delay with
  | VInt z => z <? 0
  | VFloat (S754_finite s _ _) | VFloat (S754_infinity s) => s
  | VFloat (S754_zero _) | VFloat S754_nan => false
  | _ => true
  end.

Definition wait_for_receipt (tx_hash : string) (tries : Z) (delay : pyval) : client pydict :=
  lift (_hash (VStr tx_hash) "transaction hash") ;;
  lift (raise_if (tries <=? 0) ValueError "tries must be a positive integer") ;;
  lift (raise_if (negative_delay delay) ValueError "delay must be non-negative") ;;
  poll_receipt tx_hash (Z.to_nat tries).
End client.

(** * Lemmas *)

(** ** Scalars *)

Section scalar_lemmas.
Implicit Types (v : pyval) (what s : string).

Lemma quantity_ok v what n :
  _quantity v what = Ok n →
  ∃ s, v = VStr s ∧ re_quantity s = true ∧ py_int16 s = Some n ∧ 0 ≤ n.
Proof.
  unfold _quantity. destruct v; simpl; try done. destruct (re_quantity s) eqn:E; [|done].
  destruct (re_quantity_int s E) as (m & Em & ?). rewrite Em. intros [= ->]. by exists s.
Qed.
Lemma quantity_complete s what :
  re_quantity s = true → ∃ n, _quantity (VStr s) what = Ok n ∧ py_int16 s = Some n.
Proof.
  intros E. unfold _quantity. simpl. rewrite E.
  destruct (re_quantity_int s E) as (m & -> & ?). by exists m.
Qed.
Lemma quantity_run s what :
  re_quantity s = true → _quantity (VStr s) what = Ok (default 0 (py_int16 s)).
Proof. intros E. by destruct (quantity_complete s what E) as (n & -> & ->). Qed.
Lemma quantity_py_hex n what : 0 ≤ n → _quantity (VStr (py_hex n)) what = Ok n.
Proof.
  intros Hn. unfold _quantity. simpl. by rewrite re_quantity_py_hex, py_int16_py_hex.
Qed.
Lemma hash_ok v what s : _hash v what = Ok s ↔ v = VStr s ∧ re_0xhex 64 s = true.
Proof.
  unfold _hash. destruct v as [| | | |t| | |]; simpl; try (by split; [|intros [[=] _]]).
  destruct (re_0xhex 64 t) eqn:E; split; [intros [= ->]|intros [[= ->] _]|done|]; auto.
  intros [[= ->] ?]. congruence.
Qed.
Lemma data_ok v what s : _data v what = Ok s ↔ v = VStr s ∧ re_data s = true.
Proof.
  unfold _data. destruct v as [| | | |t| | |]; simpl; try (by split; [|intros [[=] _]]).
  destruct (re_data t) eqn:E; split; [intros [= ->]|intros [[= ->] _]|done|]; auto.
  intros [[= ->] ?]. congruence.
Qed.
Lemma address_ok v what nullable o :
  _address v what nullable = Ok o ↔
    (v = VNone ∧ nullable = true ∧ o = None)
    ∨ ∃ s, v = VStr s ∧ o = Some s ∧ re_0xhex 40 s = true.
Proof.
  unfold _address. split.
  - destruct v as [| | | |t| | |]; try done.
    + destruct nullable; [|done]. intros [= <-]. by left.
    + destruct (re_0xhex 40 t) eqn:E; [|done]. intros [= <-]. right. by exists t.
  - intros [(-> & -> & ->)|(t & -> & -> & ->)]; done.
Qed.
End scalar_lemmas.

Lemma throws_quantity v what : throws [RpcError] (_quantity v what).
Proof.
  unfold _quantity. destruct (as_str v) as [s|]; [|by apply throws_raise].
  destruct (re_quantity s) eqn:E; [|by apply throws_raise].
  destruct (re_quantity_int s E) as (m & -> & ?). apply throws_ok.
Qed.
Lemma throws_hash v what : throws [RpcError] (_hash v what).
Proof. unfold _hash. solve_throws. Qed.
Lemma throws_data v what : throws [RpcError] (_data v what).
Proof. unfold _data. solve_throws. Qed.
Lemma throws_address v what nullable : throws [RpcError] (_address v what nullable).
Proof. unfold _address. solve_throws. Qed.
Lemma throws_block_param b : throws [ValueError] (_block_param b).
Proof. unfold _block_param. solve_throws. Qed.
#[export] Hint Resolve throws_quantity throws_hash throws_data throws_address
  throws_block_param : py.

(** A field whose presence has been checked cannot raise [KeyError]. *)
Lemma throws_dict_item ks cs k d :
  fields_present ks d = true → k ∈ ks → throws cs (dict_item k d).
Proof.
  unfold fields_present. rewrite forallb_forall. intros Hks Hk%list_elem_of_In.
  specialize (Hks k Hk). unfold dict_item. apply dict_has_lookup in Hks as [v ->].
  apply throws_ok.
Qed.

(** ** What the validators establish *)

(** [d[k]] is a string of this shape. *)
Definition str_field (k : string) (p : string → bool) (d : pydict) : Prop :=
  ∃ s, dict_lookup k d = Some (VStr s) ∧ p s = true.

Record wf_log (d : pydict) : Prop := {
  wf_log_address : str_field "address" (re_0xhex 40) d;
  wf_log_topics : ∃ ts, dict_lookup "topics" d = Some (VList (VStr <$> ts))
                        ∧ Forall (λ t, re_0xhex 64 t = true) ts ∧ zlen ts ≤ 16;
  wf_log_data : str_field "data" re_data d;
  wf_log_block_number : str_field "blockNumber" re_quantity d;
  wf_log_tx : str_field "transactionHash" (re_0xhex 64) d;
  wf_log_tx_index : str_field "transactionIndex" re_quantity d;
  wf_log_block_hash : str_field "blockHash" (re_0xhex 64) d;
  wf_log_index : str_field "logIndex" re_quantity d;
  wf_log_removed : ∃ b, dict_lookup "removed" d = Some (VBool b)
}.

(** The optional member [k], when present, is a string of this shape. *)
Definition opt_field (k : string) (p : pyval → Prop) (d : pydict) : Prop :=
  ∀ v, dict_lookup k d = Some v → p v.

Definition is_quantity_val (v : pyval) : Prop := ∃ s, v = VStr s ∧ re_quantity s = true.
Definition is_address_val (v : pyval) : Prop := ∃ s, v = VStr s ∧ re_0xhex 40 s = true.

Record wf_receipt (d : pydict) : Prop := {
  wf_receipt_tx : str_field "transactionHash" (re_0xhex 64) d;
  wf_receipt_block_hash : str_field "blockHash" (re_0xhex 64) d;
  wf_receipt_block_number : str_field "blockNumber" re_quantity d;
  wf_receipt_status : ∃ s, dict_lookup "status" d = Some (VStr s) ∧ re_quantity s = true
                           ∧ (py_int16 s = Some 0 ∨ py_int16 s = Some 1);
  wf_receipt_logs : ∃ ls, dict_lookup "logs" d = Some (VList (VDict <$> ls))
                          ∧ Forall wf_log ls ∧ zlen ls ≤ _MAX_RPC_LIST_ITEMS;
  wf_receipt_quantities :
    Forall (λ k, opt_field k is_quantity_val d)
      ["transactionIndex"; "cumulativeGasUsed"; "gasUsed"; "type"];
  wf_receipt_from : opt_field "from" is_address_val d;
  wf_receipt_to : opt_field "to" (λ v, v = VNone ∨ is_address_val v) d
}.

Section validator_lemmas.
Implicit Types (d : pydict) (v : pyval) (what k : string).

Lemma str_field_lookup k p d : str_field k p d → dict_has k d = true.
Proof. intros (s & Hs & _). apply dict_has_lookup. by eexists. Qed.

Lemma quantity_item k d what n (v : pyval) :
  dict_lookup k d = Some v → _quantity v what = Ok n → str_field k re_quantity d.
Proof.
  intros Hv (s & -> & Hs & _)%quantity_ok. by exists s.
Qed.
Lemma hash_item k d what s v :
  dict_lookup k d = Some v → _hash v what = Ok s → str_field k (re_0xhex 64) d.
Proof. intros Hv [-> Hs]%hash_ok. by exists s. Qed.
Lemma data_item k d what s v :
  dict_lookup k d = Some v → _data v what = Ok s → str_field k re_data d.
Proof. intros Hv [-> Hs]%data_ok. by exists s. Qed.
Lemma address_item k d what o v :
  dict_lookup k d = Some v → _address v what false = Ok o → str_field k (re_0xhex 40) d.
Proof. intros Hv [(_ & [=] & _)|(s & -> & _ & Hs)]%address_ok. by exists s. Qed.

Lemma str_list_hashes (what : string) l :
  for_each (λ t, _hash t what ;; Ok tt) l = Ok tt ↔
    ∃ ts, l = VStr <$> ts ∧ Forall (λ t, re_0xhex 64 t = true) ts.
Proof.
  rewrite for_each_ok. split.
  - induction 1 as [|x l Hx _ (ts & -> & IH)]; [by exists []|].
    apply res_bind_ok in Hx as (s & [-> Hs]%hash_ok & _). exists (s :: ts).
    split; [done|]. by constructor.
  - intros (ts & -> & Hts). rewrite Forall_fmap. eapply Forall_impl; [exact Hts|].
    intros t Ht. simpl. assert (_hash (VStr t) what = Ok t) as -> by (by apply hash_ok).
    done.
Qed.
End validator_lemmas.

(** Consume the next validated member of a dict. *)
Ltac take_field :=
  match goal with
  | H : dict_lookup _ _ = Some ?v, E : _quantity ?v _ = Ok _ |- _ =>
      pose proof (quantity_item _ _ _ _ _ H E); clear H
  | H : dict_lookup _ _ = Some ?v, E : _hash ?v _ = Ok _ |- _ =>
      pose proof (hash_item _ _ _ _ _ H E); clear H E
  | H : dict_lookup _ _ = Some ?v, E : _data ?v _ = Ok _ |- _ =>
      pose proof (data_item _ _ _ _ _ H E); clear H E
  | H : dict_lookup _ _ = Some ?v, E : _address ?v _ false = Ok _ |- _ =>
      pose proof (address_item _ _ _ _ _ H E); clear H E
  end.

(** Run a validated member: the converse of [take_field]. *)
Ltac run_field :=
  repeat match goal with H : str_field _ _ _ |- _ => destruct H as (? & ? & ?) end;
  repeat first
    [ run_step
    | lazymatch goal with
      | |- dict_item _ _ = Ok _ => apply dict_item_ok; eassumption
      | |- _hash _ _ = Ok _ => apply hash_ok; by eauto
      | |- _data _ _ = Ok _ => apply data_ok; by eauto
      | |- _address _ _ _ = Ok _ => apply address_ok; right; by eauto
      | |- _quantity _ _ = Ok _ => apply quantity_run; assumption
      end ].

Lemma validate_log_ok v what d : _validate_log v what = Ok d ↔ v = VDict d ∧ wf_log d.
Proof.
  split.
  - unfold _validate_log. intros H. inv_res. val_facts. subst. repeat take_field.
    match goal with H : for_each _ _ = Ok ?u |- _ => destruct u; apply str_list_hashes in H
      as (ts & -> & ?) end.
    bool_facts. split; [done|]. constructor; eauto.
    exists ts. unfold zlen in *. rewrite length_fmap in *. auto.
  - intros [-> []]. destruct wf_log_topics0 as (ts & Ht & Hts & Hlen), wf_log_removed0 as (b & Hb).
    unfold _validate_log. run_field.
    + apply negb_false_iff. unfold fields_present, log_fields, dict_has. simpl.
      by repeat match goal with H : dict_lookup _ _ = Some _ |- _ => rewrite H; clear H end.
    + unfold zlen in *. rewrite length_fmap. by apply Z.ltb_ge.
    + apply str_list_hashes. by exists ts.
Qed.

Lemma receipt_logs_ok (what : string) l :
  for_each (λ log, _validate_log log what ;; Ok tt) l = Ok tt ↔
    ∃ ls, l = VDict <$> ls ∧ Forall wf_log ls.
Proof.
  rewrite for_each_ok. split.
  - induction 1 as [|x l Hx _ (ls & -> & IH)]; [by exists []|].
    apply res_bind_ok in Hx as (d & [-> Hd]%validate_log_ok & _). exists (d :: ls).
    split; [done|]. by constructor.
  - intros (ls & -> & Hls). rewrite Forall_fmap. eapply Forall_impl; [exact Hls|].
    intros d Hd. simpl. by rewrite (proj2 (validate_log_ok _ what d)).
Qed.

Lemma optional_quantity_ok d what k :
  optional_quantity d what k = Ok tt ↔ opt_field k is_quantity_val d.
Proof.
  unfold optional_quantity, opt_field, is_quantity_val.
  destruct (dict_lookup k d) as [v|]; [|done]. split.
  - intros (n & (s & -> & ? & ? & ?)%quantity_ok & _)%res_bind_ok w [= <-]. by exists s.
  - intros H. destruct (H v eq_refl) as (s & -> & Hs).
    by destruct (quantity_complete s (what +:+ "." +:+ k) Hs) as (n & -> & _).
Qed.

Lemma optional_address_ok d what nullable k :
  optional_address d what nullable k = Ok tt ↔
    opt_field k (λ v, (v = VNone ∧ nullable = true) ∨ is_address_val v) d.
Proof.
  unfold optional_address, opt_field, is_address_val.
  destruct (dict_lookup k d) as [v|]; [|done]. split.
  - intros (o & [(-> & -> & ->)|(s & -> & -> & ?)]%address_ok & _)%res_bind_ok w [= <-];
      [by left|right; by exists s].
  - intros H. destruct (H v eq_refl) as [[-> ->]|(s & -> & Hs)]; [done|].
    simpl. by rewrite Hs.
Qed.

(** [_validate_receipt] accepts exactly the well-formed receipts and returns
    them unchanged. *)
Lemma validate_receipt_ok v what d : _validate_receipt v what = Ok d ↔ v = VDict d ∧ wf_receipt d.
Proof.
  split.
  - unfold _validate_receipt. intros H. inv_res. val_facts. subst.
    repeat match goal with
    | u : unit, H : optional_quantity _ _ _ = Ok ?u |- _ =>
        destruct u; apply optional_quantity_ok in H
    | u : unit, H : for_each _ _ = Ok ?u |- _ =>
        destruct u; apply receipt_logs_ok in H as (ls & -> & ?)
    | u : unit, H : optional_address _ _ _ _ = Ok ?u |- _ =>
        destruct u; apply optional_address_ok in H
    end.
    match goal with H : _quantity ?v _ = Ok ?n, H' : negb ((?n =? 0) || (?n =? 1)) = false |- _ =>
      apply quantity_ok in H as (st & -> & Hst & Hn & _);
      apply negb_false_iff, orb_true_iff in H' end.
    repeat take_field. bool_facts. split; [done|]. constructor; eauto.
    + exists st. split; [done|]. split; [done|]. rewrite Hn.
      match goal with H : _ ∨ _ |- _ => destruct H as [->%Z.eqb_eq| ->%Z.eqb_eq] end; auto.
    + exists ls. unfold zlen in *. rewrite length_fmap in *. auto.
    + intros v Hv. by match goal with
      | H : opt_field "from" _ _ |- _ => destruct (H v Hv) as [[_ [=]]|] end.
    + intros v Hv. match goal with
      | H : opt_field "to" _ _ |- _ => destruct (H v Hv) as [[? _]|] end; auto.
  - intros [-> []]. destruct wf_receipt_logs0 as (ls & Hl & Hls & Hlen),
      wf_receipt_status0 as (st & Hst & Hq & Hn).
    unfold _validate_receipt. run_field.
    + apply negb_false_iff. unfold fields_present, receipt_fields, dict_has. simpl.
      by repeat match goal with H : dict_lookup _ _ = Some _ |- _ => rewrite H; clear H end.
    + by destruct Hn as [-> | ->].
    + unfold zlen in *. rewrite length_fmap. by apply Z.ltb_ge.
    + apply receipt_logs_ok. by exists ls.
    + apply (for_each_ok _ _ tt). eapply Forall_impl; [eassumption|].
      intros k. apply optional_quantity_ok.
    + apply optional_address_ok. intros v Hv. right. by apply wf_receipt_from0.
    + apply optional_address_ok. intros v Hv. destruct (wf_receipt_to0 v Hv); auto.
Qed.

(** ** Exceptions of the client *)

(** As [throws_step], with the members whose presence was checked. *)
Ltac throws_fields :=
  repeat (throws_step ||
    match goal with
    | H : raise_if (negb (fields_present ?ks ?d)) _ _ = Ok _ |- throws _ (dict_item ?k ?d) =>
        apply (throws_dict_item ks);
          [by apply negb_false_iff; eapply raise_if_ok | apply list_elem_of_In; simpl; tauto]
    end).

Lemma throws_validate_log v what : throws [RpcError] (_validate_log v what).
Proof. unfold _validate_log. throws_fields. Qed.
#[export] Hint Resolve throws_validate_log : py.

Lemma throws_validate_receipt v what : throws [RpcError] (_validate_receipt v what).
Proof.
  unfold _validate_receipt, optional_quantity, optional_address. throws_fields.
Qed.
#[export] Hint Resolve throws_validate_receipt : py.

Lemma throws_bounded_json what depth v : throws [RpcError] (_bounded_json what depth v).
Proof.
  revert depth. induction v as [| | | | |l IH|d IH|] using pyval_ind; intros depth; simpl;
    (apply throws_bind; [by apply throws_raise_if|intros _ _]); try solve [solve_throws];
    (apply throws_bind; [by apply throws_raise_if|intros _ _]).
  - induction IH as [|x l Hx _ IHl]; simpl; [by intros e|].
    apply throws_bind; auto.
  - induction IH as [|[k y] d Hy _ IHd]; simpl; [by intros e|].
    apply throws_bind; [|auto]. destruct k; [apply Hy|by apply throws_raise].
Qed.
#[export] Hint Resolve throws_bounded_json : py.

Lemma dict_item_has k d : dict_has k d = true → ∃ v, dict_item k d = Ok v.
Proof. intros (v & Hv)%dict_has_lookup. exists v. by apply dict_item_ok. Qed.

Lemma throws_check_envelope method id v : throws [RpcError] (check_envelope method id v).
Proof.
  unfold check_envelope. repeat (apply throws_bind; [by eauto with py|intros ? ?]).
  apply throws_bind.
  - destruct (dict_has "error" _) eqn:E; [|apply throws_ok].
    destruct (dict_item_has _ _ E) as [w ->]. solve_throws.
  - intros ? Herr. destruct (dict_has "error" a0) eqn:E.
    + inv_res.
    + match goal with H : raise_if (Bool.eqb _ _) _ _ = Ok _ |- _ => apply raise_if_ok in H end.
      destruct (dict_has "result" a0) eqn:R; [|done].
      destruct (dict_item_has _ _ R) as [w ->]. apply throws_ok.
Qed.
#[export] Hint Resolve throws_check_envelope : py.

(** What an accepted response is: an object within the size bounds, of this
    protocol version and request, with a result and no error. *)
Lemma check_envelope_ok method id v r :
  check_envelope method id v = Ok r ↔
    ∃ d, v = VDict d ∧ _bounded_json (method +:+ " response") 0 v = Ok tt
         ∧ dict_lookup "jsonrpc" d = Some (VStr "2.0") ∧ dict_lookup "id" d = Some (VInt id)
         ∧ dict_lookup "error" d = None ∧ dict_lookup "result" d = Some r.
Proof.
  split.
  - unfold check_envelope. intros H. inv_res. val_facts. subst.
    match goal with u : unit, H : _bounded_json _ _ _ = Ok ?u |- _ => destruct u end.
    exists x0. bool_facts. val_facts.
    match goal with H : py_eq _ _ = true |- _ => apply py_eq_str in H end.
    destruct (dict_has "error" x0) eqn:E; [inv_res|]. unfold dict_has in E.
    repeat match goal with H : dict_get _ _ = _ |- _ => apply dict_get_lookup in H; [|done] end.
    repeat split; try done. by destruct (dict_lookup "error" x0).
  - intros (d & -> & Hb & Hv & Hid & Herr & Hr). unfold check_envelope.
    rewrite Hb. unfold dict_get, dict_has, dict_item. simpl. rewrite Hv, Hid, Herr, Hr. simpl.
    by rewrite bool_decide_true.
Qed.

Section client_lemmas.
Context `{Transport W}.
Notation client := (prog (RpcClient W)).
Implicit Types (method : string) (params : list pyval) (c : RpcClient W).

(** A call consumes one request id, whatever happens. *)
Lemma call_id method params c : _id (call method params c).2 = _id c + 1.
Proof.
  unfold call, mbind, prog_bind, modify, get_state, send_checked, lift. simpl.
  by destruct (transport_send _ _) as [[v|e] w].
Qed.

Lemma call_ok method params c r c' :
  call method params c = (Ok r, c') ↔
    ∃ d, transport_send (rpc_request (_id c + 1) method params) (world c)
           = (Ok (VDict d), world c')
         ∧ check_envelope method (_id c + 1) (VDict d) = Ok r ∧ _id c' = _id c + 1.
Proof.
  unfold call, mbind, prog_bind, modify, get_state, send_checked, lift. simpl.
  destruct (transport_send _ _) as [[v|e] w].
  - split.
    + intros [= Hr <-]. pose proof Hr as (d & -> & _)%check_envelope_ok. by exists d.
    + destruct c' as [i w']. simpl. intros (d & [= -> ->] & -> & ->). done.
  - split; [done|]. by intros (d & [=] & _).
Qed.

Lemma throws_call method params : throws_in [RpcError] (call method params).
Proof.
  unfold call. apply throws_in_bind; [apply throws_in_modify|intros _].
  apply throws_in_bind; [apply throws_in_get|intros self].
  apply throws_in_bind; [|intros v; apply throws_in_lift, throws_check_envelope].
  intros c e. unfold send_checked. destruct (transport_send _ _) as [[v|e'] w]; [done|].
  intros [= <-]. destruct (subclass (exn_cls e') RpcError) eqn:E; simpl; [by rewrite E|done].
Qed.
End client_lemmas.
#[export] Hint Resolve throws_call : py.

(** ** Every typed method *)

(** What a typed method can raise: [RpcError] for anything the endpoint did,
    [ValueError] for an argument outside its domain. *)
Notation rpc_errors := [RpcError; ValueError].

Lemma rpc_error_rpc_errors c :
  existsb (subclass c) [RpcError] = true → existsb (subclass c) rpc_errors = true.
Proof. by destruct c. Qed.
Lemma value_error_rpc_errors c :
  existsb (subclass c) [ValueError] = true → existsb (subclass c) rpc_errors = true.
Proof. by destruct c. Qed.

#[export] Hint Extern 4 (throws rpc_errors _) =>
  eapply throws_weaken; [apply rpc_error_rpc_errors|solve [eauto 3 with py]] : py.
#[export] Hint Extern 5 (throws rpc_errors _) =>
  eapply throws_weaken; [apply value_error_rpc_errors|solve [eauto 3 with py]] : py.
#[export] Hint Extern 4 (throws_in rpc_errors (call _ _)) =>
  eapply throws_in_weaken; [apply rpc_error_rpc_errors|apply throws_call] : py.

Section method_throws.
Context `{Transport W}.

Lemma throws_block_number : throws_in (S:=RpcClient W) rpc_errors block_number.
Proof. unfold block_number. solve_throws. Qed.
Lemma throws_chain_id : throws_in (S:=RpcClient W) rpc_errors chain_id.
Proof. unfold chain_id. solve_throws. Qed.
Lemma throws_get_block b full : throws_in (S:=RpcClient W) rpc_errors (get_block b full).
Proof. unfold get_block, validate_block. solve_throws. Qed.
Lemma throws_get_logs a ts f t : throws_in (S:=RpcClient W) rpc_errors (get_logs a ts f t).
Proof. unfold get_logs. solve_throws. Qed.
Lemma throws_eth_call a d b : throws_in (S:=RpcClient W) rpc_errors (eth_call a d b).
Proof. unfold eth_call. solve_throws. Qed.
Lemma throws_get_code a b : throws_in (S:=RpcClient W) rpc_errors (get_code a b).
Proof. unfold get_code. solve_throws. Qed.
Lemma throws_send_raw_transaction r :
  throws_in (S:=RpcClient W) rpc_errors (send_raw_transaction r).
Proof. unfold send_raw_transaction. solve_throws. Qed.
Lemma throws_get_transaction_receipt h :
  throws_in (S:=RpcClient W) rpc_errors (get_transaction_receipt h).
Proof. unfold get_transaction_receipt. solve_throws. Qed.
Lemma throws_poll_receipt h n : throws_in (S:=RpcClient W) rpc_errors (poll_receipt h n).
Proof. induction n as [|n IH]; simpl; solve_throws; apply IH. Qed.
Lemma throws_wait_for_receipt h t d :
  throws_in (S:=RpcClient W) rpc_errors (wait_for_receipt h t d).
Proof. unfold wait_for_receipt. solve_throws. apply throws_poll_receipt. Qed.
End method_throws.
#[export] Hint Resolve throws_block_number throws_chain_id throws_get_block throws_get_logs
  throws_eth_call throws_get_code throws_send_raw_transaction
  throws_get_transaction_receipt throws_wait_for_receipt : py.

(** ** The methods a program sends *)

(** [sends_only ms m]: every request [m] sends names a method of [ms].  Stated
    through the transport: an invariant of its state that such requests keep
    is kept by [m], whatever the answers are. *)
Definition sends_only `{Transport W} {A} (ms : list string) (m : prog (RpcClient W) A) : Prop :=
  ∀ I : W → Prop,
    (∀ method params id w, method ∈ ms → I w →
       I (transport_send (rpc_request id method params) w).2) →
    preserves (λ c, I (world c)) m.

Section sends_lemmas.
Context `{Transport W}.
Implicit Types ms : list string.

Lemma sends_ret {A} ms (a : A) : sends_only ms (mret a).
Proof. intros I _. apply preserves_ret. Qed.
Lemma sends_lift {A} ms (m : res A) : sends_only ms (lift m).
Proof. intros I _. apply preserves_lift. Qed.
Lemma sends_bind {A B} ms (m : prog (RpcClient W) A) (f : A → prog (RpcClient W) B) :
  sends_only ms m → (∀ a, sends_only ms (f a)) → sends_only ms (m ≫= f).
Proof. intros Hm Hf I HI. apply preserves_bind; [by apply Hm|]. intros a. by apply Hf. Qed.
Lemma sends_call ms method params : method ∈ ms → sends_only ms (call method params).
Proof.
  intros Hin I HI c Hc. unfold call, mbind, prog_bind, modify, get_state, send_checked, lift.
  simpl. specialize (HI method params (_id c + 1) (world c) Hin Hc).
  by destruct (transport_send _ _) as [[v|e] w].
Qed.
Lemma sends_mono {A} ms ms' (m : prog (RpcClient W) A) :
  ms ⊆ ms' → sends_only ms m → sends_only ms' m.
Proof. intros Hsub Hm I HI. apply Hm. intros. apply HI; auto. Qed.
End sends_lemmas.

Ltac sends_step :=
  match goal with
  | |- sends_only _ (_ ≫= _) => apply sends_bind; [|intros ?]
  | |- sends_only _ (lift _) => apply sends_lift
  | |- sends_only _ (mret _) => apply sends_ret
  | |- sends_only _ (call _ _) => apply sends_call; set_solver
  | |- sends_only _ (match ?x with _ => _ end) => destruct x
  end.
Ltac solve_sends := repeat sends_step.

Section method_sends.
Context `{Transport W}.

Lemma sends_chain_id : sends_only (W:=W) ["eth_chainId"] chain_id.
Proof. unfold chain_id. solve_sends. Qed.
Lemma sends_get_block b full : sends_only (W:=W) ["eth_getBlockByNumber"] (get_block b full).
Proof. unfold get_block. solve_sends. Qed.
Lemma sends_get_logs a ts f t : sends_only (W:=W) ["eth_getLogs"] (get_logs a ts f t).
Proof. unfold get_logs. solve_sends. Qed.
Lemma sends_eth_call a d b : sends_only (W:=W) ["eth_call"] (eth_call a d b).
Proof. unfold eth_call. solve_sends. Qed.
Lemma sends_get_code a b : sends_only (W:=W) ["eth_getCode"] (get_code a b).
Proof. unfold get_code. solve_sends. Qed.
Lemma sends_get_transaction_receipt h :
  sends_only (W:=W) ["eth_getTransactionReceipt"] (get_transaction_receipt h).
Proof. unfold get_transaction_receipt. solve_sends. Qed.
Lemma sends_poll_receipt h n :
  sends_only (W:=W) ["eth_getTransactionReceipt"] (poll_receipt h n).
Proof. induction n as [|n IH]; simpl; solve_sends; apply IH. Qed.
End method_sends.

(** ** Polling *)

Section polling.
Context `{Transport W}.

(** One poll per attempt at most, and a final answer as soon as there is one. *)
Lemma poll_receipt_bound h n c :
  _id c ≤ _id (poll_receipt h n c).2 ≤ _id c + Z.of_nat n.
Proof.
  revert c. induction n as [|n IH]; intros c; [simpl; lia|].
  rewrite Nat2Z.inj_succ. cbn [poll_receipt]. unfold mbind, prog_bind.
  pose proof (call_id "eth_getTransactionReceipt" [VStr h] c) as Hid.
  destruct (call _ _ c) as [[v|e] c1]; simpl in *; [|lia].
  specialize (IH c1). destruct v; unfold lift; simpl; lia.
Qed.

(** The first answer that is not null decides. *)
Lemma poll_receipt_ok h n c d c' :
  poll_receipt h n c = (Ok d, c') → wf_receipt d.
Proof.
  revert c. induction n as [|n IH]; intros c; [done|]. cbn [poll_receipt].
  intros (v & c1 & _ & Hd)%prog_bind_ok. destruct v; try (apply IH in Hd; done).
  all: apply lift_ok in Hd as [[_ Hd]%validate_receipt_ok _]; done.
Qed.
End polling.

(** ** Resource bounds *)

(** How deep a value nests: a scalar is at depth 0. *)
Fixpoint val_depth (v : pyval) : Z :=
  match v with
  | VList l => fold_right (λ x m, Z.max (1 + val_depth x) m) 0 l
  | VDict d => fold_right (λ kv m, Z.max (1 + val_depth kv.2) m) 0 d
  | _ => 0
  end.

(** The size limits of one node. *)
Definition node_ok (v : pyval) : Prop :=
  match v with
  | VStr s => str_len s ≤ _MAX_RPC_STRING_CHARS
  | VFloat f => isfinite f = true
  | VList l => zlen l ≤ _MAX_RPC_LIST_ITEMS
  | VDict d => zlen d ≤ _MAX_RPC_OBJECT_FIELDS ∧ Forall (λ kv, ∃ k, kv.1 = KStr k) d
  | VOther _ => False
  | _ => True
  end.

(** A property of every node of a value. *)
Fixpoint all_nodes (P : pyval → Prop) (v : pyval) : Prop :=
  P v ∧ match v with
        | VList l => fold_right (λ x Q, all_nodes P x ∧ Q) True l
        | VDict d => fold_right (λ kv Q, all_nodes P kv.2 ∧ Q) True d
        | _ => True
        end.

Lemma depth_list l n :
  0 ≤ n → (fold_right (λ x m, Z.max (1 + val_depth x) m) 0 l ≤ n
           ↔ Forall (λ x, val_depth x ≤ n - 1) l).
Proof.
  intros Hn. induction l as [|x l IH]; simpl; [by split|]. rewrite Forall_cons, <- IH. lia.
Qed.
Lemma depth_dict (d : pydict) n :
  0 ≤ n → (fold_right (λ kv m, Z.max (1 + val_depth kv.2) m) 0 d ≤ n
           ↔ Forall (λ kv, val_depth kv.2 ≤ n - 1) d).
Proof.
  intros Hn. induction d as [|x l IH]; simpl; [by split|]. rewrite Forall_cons, <- IH. lia.
Qed.
Lemma nodes_list P l :
  fold_right (λ x Q, all_nodes P x ∧ Q) True l ↔ Forall (all_nodes P) l.
Proof. induction l as [|x l IH]; simpl; [by split|]. by rewrite Forall_cons, IH. Qed.
Lemma nodes_dict P (d : pydict) :
  fold_right (λ kv Q, all_nodes P kv.2 ∧ Q) True d ↔ Forall (λ kv, all_nodes P kv.2) d.
Proof. induction d as [|x l IH]; simpl; [by split|]. by rewrite Forall_cons, IH. Qed.

Lemma val_depth_nonneg v : 0 ≤ val_depth v.
Proof.
  destruct v as [| | | | |l|d|]; simpl; try lia.
  - induction l; simpl; lia.
  - induction d; simpl; lia.
Qed.

Lemma bounded_guard b msg (m : res unit) :
  raise_if b RpcError msg ≫= (λ _, m) = Ok tt ↔ b = false ∧ m = Ok tt.
Proof. destruct b; simpl; unfold raise; naive_solver. Qed.

(** The depth threaded through the recursion is the nesting of the value, and
    the limits hold at every node. *)
Lemma bounded_json_at what depth v :
  0 ≤ depth →
  _bounded_json what depth v = Ok tt ↔
    depth + val_depth v ≤ _MAX_RPC_DEPTH ∧ all_nodes node_ok v.
Proof.
  revert depth. induction v as [| | |f|s|l IH|d IH|] using pyval_ind; intros depth Hd;
    cbn [_bounded_json]; rewrite bounded_guard, Z.ltb_ge; cbn [all_nodes node_ok val_depth].
  - rewrite Z.add_0_r. naive_solver.
  - rewrite Z.add_0_r. naive_solver.
  - rewrite Z.add_0_r. naive_solver.
  - rewrite raise_if_ok, negb_false_iff, Z.add_0_r. naive_solver.
  - rewrite raise_if_ok, Z.ltb_ge, Z.add_0_r. naive_solver.
  - rewrite bounded_guard, Z.ltb_ge, (for_each_ok _ _ tt), nodes_list.
    rewrite Forall_forall in IH.
    assert (Forall (λ x, _bounded_json what (depth + 1) x = Ok tt) l ↔
            Forall (λ x, val_depth x ≤ _MAX_RPC_DEPTH - depth - 1) l ∧ Forall (all_nodes node_ok) l)
      as ->.
    { rewrite !Forall_forall. split.
      - intros H. split; intros x Hx; specialize (H x Hx); apply IH in H as [? ?]; auto; lia.
      - intros [H1 H2] x Hx. apply IH; [done|lia|]. specialize (H1 x Hx). split; [lia|auto]. }
    pose proof (val_depth_nonneg (VList l)) as Hnn. simpl in Hnn.
    split; intros; destruct_and!; repeat split; try done; try lia.
    + assert (fold_right (λ x m, Z.max (1 + val_depth x) m) 0 l ≤ _MAX_RPC_DEPTH - depth); [|lia].
      by apply depth_list; [lia|].
    + apply depth_list; lia.
  - rewrite bounded_guard, Z.ltb_ge, (for_each_ok _ _ tt), nodes_dict.
    rewrite Forall_forall in IH.
    assert (Forall (λ kv : pykey * pyval, match kv with
              | (KStr _, item) => _bounded_json what (depth + 1) item
              | (KOther _, _) => raise RpcError (what +:+ ": object key is not a string")
              end = Ok tt) d ↔
            Forall (λ kv, ∃ k, kv.1 = KStr k) d ∧
            Forall (λ kv, val_depth kv.2 ≤ _MAX_RPC_DEPTH - depth - 1) d
            ∧ Forall (λ kv, all_nodes node_ok kv.2) d) as ->.
    { rewrite !Forall_forall. split.
      - intros H. repeat split; intros [[k|t] x] Hx; specialize (H _ Hx); try done;
          [by exists k|..]; apply (IH _ Hx) in H as [? ?]; simpl in *; auto; lia.
      - intros (H0 & H1 & H2) [[k|t] x] Hx; [|by destruct (H0 _ Hx)].
        apply (IH _ Hx); [lia|]. specialize (H1 _ Hx). simpl in *. split; [lia|].
        by apply (H2 _ Hx). }
    pose proof (val_depth_nonneg (VDict d)) as Hnn. simpl in Hnn.
    split; intros; destruct_and!; repeat split; try done; try lia.
    + assert (fold_right (λ kv m, Z.max (1 + val_depth kv.2) m) 0 d ≤ _MAX_RPC_DEPTH - depth); [|lia].
      by apply depth_dict; [lia|].
    + apply depth_dict; lia.
  - unfold raise. naive_solver.
Qed.

(** ** Properties *)

(** A call returns [r] exactly when the node answered its request with an
    object within the depth and size limits, of protocol version 2.0, carrying
    the id of this very request, a result [r] and no error member; it then has
    used one request id.  Any other answer raises. *)
Theorem call_accepts_exactly `{Transport W} method params (c c' : RpcClient W) r :
  call method params c = (Ok r, c') ↔
    ∃ d, transport_send (rpc_request (_id c + 1) method params) (world c)
           = (Ok (VDict d), world c')
         ∧ val_depth (VDict d) ≤ _MAX_RPC_DEPTH ∧ all_nodes node_ok (VDict d)
         ∧ dict_lookup "jsonrpc" d = Some (VStr "2.0")
         ∧ dict_lookup "id" d = Some (VInt (_id c + 1))
         ∧ dict_lookup "error" d = None ∧ dict_lookup "result" d = Some r
         ∧ _id c' = _id c + 1.
Proof.
  rewrite call_ok. split.
  - intros (d & Hw & (d' & [= <-] & Hb & Hv & Hid & He & Hr)%check_envelope_ok & Hc).
    apply bounded_json_at in Hb as [Hd Hn]; [|lia]. exists d. rewrite Z.add_0_l in Hd.
    split_and!; done.
  - intros (d & Hw & Hd & Hn & Hv & Hid & He & Hr & Hc). exists d. split; [done|]. split; [|done].
    apply check_envelope_ok. exists d. split; [done|]. split; [|done].
    apply bounded_json_at; [lia|]. by rewrite Z.add_0_l.
Qed.


(** ** An honest node *)

(** A transport that answers every request from a fixed function of the method
    and its parameters, and logs the methods it was sent.  It instantiates the
    theorems about arbitrary transports at concrete inputs. *)
Definition honest_node (answer : string → list pyval → pyval) : Transport (list string) :=
  λ request log,
    match request with
    | VDict d =>
        match dict_get "method" d, dict_get "params" d with
        | VStr m, VList ps =>
            (Ok (VDict (dict_of [("jsonrpc", VStr "2.0"); ("id", dict_get "id" d);
                                 ("result", answer m ps)])), log ++ [m])
        | _, _ => (raise OtherError "bad request", log)
        end
    | _ => (raise OtherError "bad request", log)
    end.

Definition fresh_client : RpcClient (list string) := {| _id := 0; world := [] |}.
