(* ===== verification/Chain.v ===== *)
(** * Chain-truth reads and exact ABI encoders ([psv/chain.py])

    The ABI slot encoders, the token reads pinned to a block, the calldata
    builders, and [SettlementTruth].  The theorems: an encoder either raises or
    produces a word of exactly 64 hex digits that decodes to its argument; the
    EIP-3009 calldata has a fixed length and layout from which every argument
    is read back; a decoded boolean is a boolean. *)

From S2P Require Import Prelude PyStr PyVal Anvil.
Local Open Scope Z_scope.

Definition SEL_BALANCE_OF : string := "70a08231".
Definition SEL_AUTHORIZATION_STATE : string := "e94a0102".
Definition SEL_TRANSFER_WITH_AUTHORIZATION : string := "cf092995".
Definition SEL_SET_EVENT_MODE : string := "2a030f44".
Definition SEL_SET_FEE_BPS : string := "023b1fc9".
Definition SEL_MINT : string := "40c10f19".
Definition SEL_EVENT_MODE : string := "0ce978e2".

Definition TOPIC_TRANSFER : string :=
  "0xddf252ad1be2c89b69c2b068fc378daa952ba7f163c4a11628f55a4df523b3ef".
Definition TOPIC_TRANSFER_V2 : string :=
  "0x58f9acac7a1c69c84dff9a713e28686566926c704ffaaa5562e8225bdf50911b".
Definition TOPIC_AUTHORIZATION_USED : string :=
  "0x98de503528ee59b575ef0c0a2576a82497bfc029a5685b209e9ec333479b10a5".

(** ** ABI words *)

Definition _word_to_int (result : pyval) (what : string) : res Z :=
  match as_str result with
  | Some s =>
      if re_0xhex 64 s then or_raise (py_int16 s) ValueError "invalid literal for int()"
      else raise RpcError (what +:+ ": malformed 32-byte ABI result")
  | None => raise RpcError (what +:+ ": malformed 32-byte ABI result")
  end.

Definition _slot_addr (addr : string) : res string :=
  raise_if (negb (re_0xhex 40 addr)) ValueError "not a 20-byte address" ;;
  Ok (rjust 64 "0" (lower (str_drop 2 addr))).

Definition _slot_uint (value : Z) : res string :=
  raise_if (negb (is_uint256 value)) ValueError "uint256 out of range" ;;
  Ok (fmt_064x value).

Definition _slot_bytes32 (value : string) : res string :=
  raise_if (negb (re_0xhex 64 value)) ValueError "not a bytes32 value" ;;
  Ok (lower (str_drop 2 value)).

Definition _topic_addr (addr : string) : res string :=
  slot ← _slot_addr addr; Ok ("0x" +:+ slot).

Definition _topic_bytes32 (value : string) : res string :=
  slot ← _slot_bytes32 value; Ok ("0x" +:+ slot).

(** ** The token handle *)

(** The RPC client the Python object holds is the state its methods run in. *)
Record TokenView := { address : string }.

(** Construction with [__post_init__]. *)
Definition make_token (addr : string) : res TokenView :=
  _slot_addr addr ;; Ok {| address := addr |}.

Section token_reads.
Context `{Transport W}.
Notation client := (prog (RpcClient W)).

Definition balance_of (self : TokenView) (who : string) (block : block_sel) : client Z :=
  slot ← lift (_slot_addr who);
  let data := "0x" +:+ SEL_BALANCE_OF +:+ slot in
  result ← eth_call (address self) data block;
  lift (_word_to_int (VStr result) "balanceOf").

Definition authorization_used (self : TokenView) (authorizer nonce : string)
    (block : block_sel) : client bool :=
  slot ← lift (_slot_addr authorizer);
  nonce_slot ← lift (_slot_bytes32 nonce);
  let data := "0x" +:+ SEL_AUTHORIZATION_STATE +:+ slot +:+ nonce_slot in
  word ← eth_call (address self) data block;
  result ← lift (_word_to_int (VStr word) "authorizationState");
  lift (raise_if (negb ((result =? 0) || (result =? 1))) RpcError
          "authorizationState: expected ABI boolean") ;;
  mret (result =? 1).

Definition event_mode (self : TokenView) (block : block_sel) : client Z :=
  result ← eth_call (address self) ("0x" +:+ SEL_EVENT_MODE) block;
  lift (_word_to_int (VStr result) "eventMode").

Definition authorization_used_logs (self : TokenView) (authorizer : option string)
    (from_block to_block : block_sel) : client (list pydict) :=
  topic ← lift (match authorizer with
                | Some a => if (a =? "")%string then Ok None else Some <$> _topic_addr a
                | None => Ok None
                end);
  get_logs (address self) [Some TOPIC_AUTHORIZATION_USED; topic] from_block to_block.
End token_reads.

(** ** Calldata *)

Definition settle_calldata (from_addr to : string) (value valid_after valid_before : Z)
    (nonce signature : string) : res string :=
  from_slot ← _slot_addr from_addr;
  to_slot ← _slot_addr to;
  from_int ← or_raise (py_int16 (str_drop 2 from_addr)) ValueError "invalid literal for int()";
  (if from_int =? 0 then raise ValueError "from_addr and to must be non-zero addresses"
   else to_int ← or_raise (py_int16 (str_drop 2 to)) ValueError "invalid literal for int()";
        raise_if (to_int =? 0) ValueError "from_addr and to must be non-zero addresses") ;;
  raise_if (negb ((1 <=? value) && (value <=? UINT256_MAX))) ValueError
    "value must be a positive uint256" ;;
  raise_if (negb ((0 <=? valid_after) && (valid_after <=? UINT256_MAX))) ValueError
    "valid_after must be a uint256" ;;
  raise_if (negb ((1 <=? valid_before) && (valid_before <=? UINT256_MAX))) ValueError
    "valid_before must be a positive uint256" ;;
  raise_if (valid_before <=? valid_after) ValueError
    "valid_after must be less than valid_before" ;;
  nonce_slot ← _slot_bytes32 nonce;
  raise_if (negb (re_0xhex 130 signature)) ValueError
    "signature must be exactly 65 bytes of 0x-prefixed hex" ;;
  let sig_hex := lower (str_drop 2 signature) in
  value_slot ← _slot_uint value;
  after_slot ← _slot_uint valid_after;
  before_slot ← _slot_uint valid_before;
  offset_slot ← _slot_uint (7 * 32);
  let head := SEL_TRANSFER_WITH_AUTHORIZATION +:+ from_slot +:+ to_slot +:+ value_slot
              +:+ after_slot +:+ before_slot +:+ nonce_slot +:+ offset_slot in
  length_slot ← _slot_uint 65;
  let tail := length_slot +:+ ljust (3 * 64) "0" sig_hex in
  Ok ("0x" +:+ head +:+ tail).

Definition set_event_mode_calldata (mode : Z) : res string :=
  raise_if (negb ((mode =? 0) || (mode =? 1))) ValueError "mode must be 0 or 1" ;;
  slot ← _slot_uint mode; Ok ("0x" +:+ SEL_SET_EVENT_MODE +:+ slot).

Definition set_fee_bps_calldata (bps : Z) : res string :=
  raise_if (negb ((0 <=? bps) && (bps <=? 10000))) ValueError
    "bps must be an integer within [0, 10000]" ;;
  slot ← _slot_uint bps; Ok ("0x" +:+ SEL_SET_FEE_BPS +:+ slot).

Definition mint_calldata (to : string) (amount : Z) : res string :=
  raise_if (negb ((1 <=? amount) && (amount <=? UINT256_MAX))) ValueError
    "amount must be a positive uint256" ;;
  to_slot ← _slot_addr to;
  slot ← _slot_uint amount;
  Ok ("0x" +:+ SEL_MINT +:+ to_slot +:+ slot).

(** ** Ground truth of one attempted payment *)

Record SettlementTruth := {
  nonce_consumed : bool;
  payer_balance_after : Z;
  payee_balance_after : Z;
  payer_delta : Z;
  payee_delta : Z
}.

Definition funds_moved (t : SettlementTruth) : bool :=
  nonce_consumed t && (0 <? payee_delta t) && (payer_delta t <? 0).

(** * Lemmas *)

(** ** Encoders *)

Section slot_lemmas.
Implicit Types (s w : string).

Lemma word_to_int_run s what :
  re_0xhex 64 s = true → _word_to_int (VStr s) what = Ok (hex_value (str_drop 2 s)).
Proof.
  intros E. unfold _word_to_int. simpl. rewrite E.
  by destruct (re_0xhex_int 64 s ltac:(lia) E) as [-> _].
Qed.

Lemma word_to_int_ok v what n :
  _word_to_int v what = Ok n →
  ∃ s, v = VStr s ∧ re_0xhex 64 s = true ∧ n = hex_value (str_drop 2 s) ∧ 0 ≤ n < 2 ^ 256.
Proof.
  unfold _word_to_int. destruct v as [| | | |s| | |]; try done. simpl.
  destruct (re_0xhex 64 s) eqn:E; [|done].
  destruct (re_0xhex_int 64 s ltac:(lia) E) as [-> Hr]. intros [= <-]. by exists s.
Qed.

Lemma throws_word_to_int v what : throws [RpcError] (_word_to_int v what).
Proof.
  unfold _word_to_int. destruct (as_str v) as [s|]; [|by apply throws_raise].
  destruct (re_0xhex 64 s) eqn:E; [|by apply throws_raise].
  destruct (re_0xhex_int 64 s ltac:(lia) E) as [-> _]. apply throws_ok.
Qed.

(** A slot is a word: 64 lower-case hex digits. *)
Definition is_word (w : string) : Prop :=
  String.length w = 64%nat ∧ str_all is_lower_hex_digit w = true.

Lemma slot_addr_ok addr w :
  _slot_addr addr = Ok w ↔
    re_0xhex 40 addr = true ∧ w = str_repeat "0" 24 +:+ lower (str_drop 2 addr).
Proof.
  unfold _slot_addr. destruct (re_0xhex 40 addr) eqn:E; cbn -[str_drop]; [|naive_solver].
  destruct (re_0xhex_drop _ _ E) as (_ & Hlen & _).
  unfold rjust. rewrite length_lower, Hlen. change (64 - 40)%nat with 24%nat.
  split; [by intros [= <-]|by intros [_ ->]].
Qed.
Lemma slot_uint_ok v w :
  _slot_uint v = Ok w ↔ 0 ≤ v < 2 ^ 256 ∧ w = fmt_064x v.
Proof.
  unfold _slot_uint. rewrite <- is_uint256_spec. destruct (is_uint256 v); simpl; [|naive_solver].
  split; [by intros [= <-]|by intros [_ ->]].
Qed.
Lemma slot_bytes32_ok v w :
  _slot_bytes32 v = Ok w ↔ re_0xhex 64 v = true ∧ w = lower (str_drop 2 v).
Proof.
  unfold _slot_bytes32. destruct (re_0xhex 64 v); simpl; [|naive_solver].
  split; [by intros [= <-]|by intros [_ ->]].
Qed.

Lemma slot_addr_word addr w : _slot_addr addr = Ok w → is_word w.
Proof.
  intros [(_ & Hlen & Hhex)%re_0xhex_drop ->]%slot_addr_ok. split.
  - rewrite str_length_app, str_length_repeat, length_lower. lia.
  - rewrite str_all_app, str_all_repeat, lower_all_hex; done.
Qed.
Lemma slot_uint_word v w : _slot_uint v = Ok w → is_word w.
Proof.
  intros [Hv ->]%slot_uint_ok. split; [by apply fmt_064x_length|by apply fmt_064x_hex].
Qed.
Lemma slot_bytes32_word v w : _slot_bytes32 v = Ok w → is_word w.
Proof.
  intros [(_ & Hlen & Hhex)%re_0xhex_drop ->]%slot_bytes32_ok.
  split; [by rewrite length_lower|by apply lower_all_hex].
Qed.

(** Reading a slot back. *)
Lemma slot_uint_decode v w : _slot_uint v = Ok w → hex_value w = v.
Proof. intros [Hv ->]%slot_uint_ok. by apply hex_value_fmt. Qed.
Lemma slot_addr_decode addr w :
  _slot_addr addr = Ok w → "0x" +:+ str_drop 24 w = lower addr.
Proof.
  intros [(E & _ & _)%re_0xhex_drop ->]%slot_addr_ok.
  rewrite E at 2. rewrite lower_app. reflexivity.
Qed.
Lemma slot_bytes32_decode v w : _slot_bytes32 v = Ok w → "0x" +:+ w = lower v.
Proof.
  intros [(E & _ & _)%re_0xhex_drop ->]%slot_bytes32_ok.
  rewrite E at 2. by rewrite lower_app.
Qed.
End slot_lemmas.

Lemma throws_slot_addr a : throws [ValueError] (_slot_addr a).
Proof. unfold _slot_addr. solve_throws. Qed.
Lemma throws_slot_bytes32 a : throws [ValueError] (_slot_bytes32 a).
Proof. unfold _slot_bytes32. solve_throws. Qed.
#[export] Hint Resolve throws_word_to_int throws_slot_addr throws_slot_bytes32 : py.

(** ** Reading calldata back *)

(** The 64-digit words after the selector, by index. *)
Definition calldata_word (i : nat) (data : string) : string :=
  str_slice (10 + 64 * i) (10 + 64 * i + 64) data.

Record settle_args := {
  arg_from : string; arg_to : string; arg_value : Z; arg_valid_after : Z;
  arg_valid_before : Z; arg_nonce : string; arg_signature : string
}.

#[export] Instance settle_args_eq_dec : EqDecision settle_args.
Proof. solve_decision. Defined.

(** The ABI decoding of a [transferWithAuthorization] call with a [bytes]
    signature: seven head words, the last one the offset of the tail, then the
    length and the bytes padded to whole words. *)
Definition decode_settle (data : string) : option settle_args :=
  if (String.length data =? 10 + 64 * 11)%nat
     && startswith ("0x" +:+ SEL_TRANSFER_WITH_AUTHORIZATION) data
     && (hex_value (calldata_word 6 data) =? 7 * 32)
     && (hex_value (calldata_word 7 data) =? 65)
  then Some {|
    arg_from := "0x" +:+ str_drop 24 (calldata_word 0 data);
    arg_to := "0x" +:+ str_drop 24 (calldata_word 1 data);
    arg_value := hex_value (calldata_word 2 data);
    arg_valid_after := hex_value (calldata_word 3 data);
    arg_valid_before := hex_value (calldata_word 4 data);
    arg_nonce := "0x" +:+ calldata_word 5 data;
    arg_signature := "0x" +:+ str_slice (10 + 64 * 8) (10 + 64 * 8 + 130) data |}
  else None.

(** The domain of [settle_calldata]. *)
Definition settle_domain (from_addr to : string) (value valid_after valid_before : Z)
    (nonce signature : string) : Prop :=
  re_0xhex 40 from_addr = true ∧ re_0xhex 40 to = true
  ∧ hex_value (str_drop 2 from_addr) ≠ 0 ∧ hex_value (str_drop 2 to) ≠ 0
  ∧ 1 ≤ value < 2 ^ 256 ∧ 0 ≤ valid_after < valid_before ∧ valid_before < 2 ^ 256
  ∧ re_0xhex 64 nonce = true ∧ re_0xhex 130 signature = true.

Section settle.
Variables (from_addr to : string) (value valid_after valid_before : Z) (nonce signature : string).

(** The calldata of arguments in the domain: the selector, seven head words,
    the length word and the padded signature. *)
Definition settle_words : list string :=
  [str_repeat "0" 24 +:+ lower (str_drop 2 from_addr);
   str_repeat "0" 24 +:+ lower (str_drop 2 to);
   fmt_064x value; fmt_064x valid_after; fmt_064x valid_before;
   lower (str_drop 2 nonce); fmt_064x (7 * 32); fmt_064x 65].

Lemma settle_calldata_run data :
  settle_calldata from_addr to value valid_after valid_before nonce signature = Ok data ↔
    settle_domain from_addr to value valid_after valid_before nonce signature
    ∧ data = ("0x" +:+ SEL_TRANSFER_WITH_AUTHORIZATION)
             +:+ (str_cat settle_words +:+ ljust 192 "0" (lower (str_drop 2 signature))).
Proof.
  unfold settle_calldata, settle_domain.
  assert (∀ a, re_0xhex 40 a = true →
    py_int16 (str_drop 2 a) = Some (hex_value (str_drop 2 a))) as Hint.
  { intros a (_ & Hlen & Hhex)%re_0xhex_drop. apply py_int16_hex; [|done].
    by intros E; rewrite E in Hlen. }
  split.
  - intros H. inv_res.
    repeat match goal with
    | H : _slot_addr _ = Ok _ |- _ => apply slot_addr_ok in H as [? ->]
    | H : _slot_uint _ = Ok _ |- _ => apply slot_uint_ok in H as [? ->]
    | H : _slot_bytes32 _ = Ok _ |- _ => apply slot_bytes32_ok in H as [? ->]
    | H : py_int16 (str_drop 2 ?a) = Some _, E : re_0xhex 40 ?a = true |- _ =>
        rewrite (Hint a E) in H; injection H as <-
    | H : (if ?b then raise _ _ else _) = Ok _ |- _ =>
        let E := fresh in destruct b eqn:E; [inv_res|]
    end.
    inv_res. rewrite (Hint to) in * by done. simplify_eq. bool_facts. split.
    + repeat split; try done; lia.
    + cbn [str_cat settle_words]. by rewrite str_app_nil_r, <- !str_app_assoc.
  - intros [(Hf & Ht & Hf0 & Ht0 & Hv & Ha & Hb & Hn & Hs) ->].
    assert (∀ a b c, (a ≤ b < c)%Z → negb ((a <=? b) && (b <=? c - 1)) = false) as Hrange.
    { intros a b c ?. apply negb_false_iff, andb_true_iff. rewrite !Z.leb_le. lia. }
    rewrite (proj2 (slot_addr_ok from_addr _)), (proj2 (slot_addr_ok to _)) by by split.
    rewrite !Hint by done. cbn [mbind res_bind or_raise].
    rewrite (proj2 (Z.eqb_neq _ 0) Hf0), (proj2 (Z.eqb_neq _ 0) Ht0).
    unfold UINT256_MAX. rewrite !Hrange by lia. rewrite (proj2 (Z.leb_gt _ _)) by lia.
    rewrite (proj2 (slot_bytes32_ok nonce _)) by by split.
    rewrite Hs. rewrite !(λ v H, proj2 (slot_uint_ok v _) (conj H eq_refl)) by lia.
    cbn [mbind res_bind raise_if negb].
    f_equal. cbn [str_cat settle_words]. by rewrite str_app_nil_r, <- !str_app_assoc.
Qed.

Lemma settle_words_length :
  settle_domain from_addr to value valid_after valid_before nonce signature →
  Forall (λ w, String.length w = 64%nat) settle_words.
Proof.
  intros (Hf & Ht & _ & _ & Hv & Ha & Hb & Hn & _).
  assert (∀ a, re_0xhex 40 a = true →
    String.length (str_repeat "0" 24 +:+ lower (str_drop 2 a)) = 64%nat) as Haddr.
  { intros a Ea. eapply slot_addr_word, slot_addr_ok. by split. }
  unfold settle_words. repeat (apply Forall_cons; split); try (by apply Haddr);
    try (apply fmt_064x_length; lia); try by apply Forall_nil.
  destruct (re_0xhex_drop _ _ Hn) as (_ & Hlen & _). by rewrite length_lower.
Qed.

(** Every word of the calldata at its place. *)
Lemma settle_calldata_words data i w :
  settle_calldata from_addr to value valid_after valid_before nonce signature = Ok data →
  settle_words !! i = Some w → calldata_word i data = w.
Proof.
  intros [HD ->]%settle_calldata_run Hi. unfold calldata_word.
  rewrite <- Nat.add_assoc, str_slice_drop, (str_drop_exact 10) by (done || lia).
  apply word_at; [by apply settle_words_length|done].
Qed.
End settle.

(** * Properties *)

(** C16: the EIP-3009 calldata [settle_calldata] builds has one fixed length
    and layout, and ABI-decoding it gives back every argument: addresses, nonce
    and signature in lower case, the three integers exactly. *)
Theorem settle_calldata_roundtrip from_addr to value valid_after valid_before nonce signature data :
  settle_calldata from_addr to value valid_after valid_before nonce signature = Ok data →
  decode_settle data = Some {|
    arg_from := lower from_addr; arg_to := lower to; arg_value := value;
    arg_valid_after := valid_after; arg_valid_before := valid_before;
    arg_nonce := lower nonce; arg_signature := lower signature |}.
Proof.
  intros H. pose proof H as [D E]%settle_calldata_run.
  pose proof (settle_words_length _ _ _ _ _ _ _ D) as Hlen.
  destruct D as (Hf & Ht & _ & _ & Hv & Ha & Hb & Hn & Hs).
  destruct (re_0xhex_drop _ _ Hs) as (_ & Ls & _).
  unfold decode_settle.
  pose proof (λ i w, settle_calldata_words _ _ _ _ _ _ _ data i w H) as Hw.
  rewrite (Hw 0%nat _ eq_refl), (Hw 1%nat _ eq_refl), (Hw 2%nat _ eq_refl), (Hw 3%nat _ eq_refl),
    (Hw 4%nat _ eq_refl), (Hw 5%nat _ eq_refl), (Hw 6%nat _ eq_refl), (Hw 7%nat _ eq_refl).
  rewrite !hex_value_fmt by lia.
  assert (String.length data =? 10 + 64 * 11 = true)%nat as ->.
  { apply Nat.eqb_eq. rewrite E, !str_length_app, str_length_cat, length_ljust, length_lower, Ls
      by done. reflexivity. }
  assert (startswith ("0x" +:+ SEL_TRANSFER_WITH_AUTHORIZATION) data = true) as ->.
  { rewrite E. apply startswith_app. }
  assert (str_slice (10 + 64 * 8) (10 + 64 * 8 + 130) data = lower (str_drop 2 signature)) as ->.
  { rewrite E. unfold str_slice. rewrite str_drop_add, (str_drop_exact 10) by done.
    rewrite (str_drop_exact (64 * 8)) by (rewrite str_length_cat; done).
    unfold ljust. apply str_take_exact. by rewrite length_lower, Ls. }
  rewrite !(str_drop_exact 24) by apply str_length_repeat.
  by rewrite (lower_0xhex 40 from_addr), (lower_0xhex 40 to), (lower_0xhex 64 nonce),
    (lower_0xhex 130 signature).
Qed.

Lemma settle_calldata_roundtrip_witness :
  let a := "0x" +:+ str_repeat "a" 40 in let b := "0x" +:+ str_repeat "B" 40 in
  let n := "0x" +:+ str_repeat "1" 64 in let sig := "0x" +:+ str_repeat "F" 130 in
  ∃ data,
    settle_calldata a b 10000 0 (2 ^ 48) n sig = Ok data
    ∧ decode_settle data = Some {|
        arg_from := lower a; arg_to := lower b; arg_value := 10000; arg_valid_after := 0;
        arg_valid_before := 2 ^ 48; arg_nonce := lower n; arg_signature := lower sig |}.
Proof.
  intros a b n sig. eexists. split; [vm_compute; reflexivity|].
  apply settle_calldata_roundtrip. vm_compute. reflexivity.
Defined.

(** [settle_calldata] accepts exactly its documented domain: two non-zero
    20-byte addresses, a positive uint256 amount, a non-empty uint256 validity
    window, a 32-byte nonce and a 65-byte signature. *)
Theorem settle_calldata_domain from_addr to value valid_after valid_before nonce signature :
  (∃ data, settle_calldata from_addr to value valid_after valid_before nonce signature = Ok data)
  ↔ settle_domain from_addr to value valid_after valid_before nonce signature.
Proof.
  split.
  - by intros (data & [D _]%settle_calldata_run).
  - intros D. eexists. apply settle_calldata_run. by split.
Qed.

(** The token's authorization state is read as a boolean or not at all: a
    returned value is the last ABI word of the answer, and a word other than
    0 and 1 raises [RpcError]. *)
Theorem authorization_used_exact `{Transport W} self authorizer nonce block
    (c c' : RpcClient W) b :
  authorization_used self authorizer nonce block c = (Ok b, c') →
  ∃ data word,
    eth_call (address self) data block c = (Ok word, c')
    ∧ data = "0x" +:+ SEL_AUTHORIZATION_STATE
             +:+ (str_repeat "0" 24 +:+ lower (str_drop 2 authorizer)) +:+ lower (str_drop 2 nonce)
    ∧ hex_value (str_drop 2 word) = (if b then 1 else 0).
Proof.
  unfold authorization_used. intros H0. inv_res.
  repeat match goal with
  | H : _slot_addr _ = Ok _ |- _ => apply slot_addr_ok in H as [? ->]
  | H : _slot_bytes32 _ = Ok _ |- _ => apply slot_bytes32_ok in H as [? ->]
  | H : _word_to_int _ _ = Ok _ |- _ => apply word_to_int_ok in H as (w & [= <-] & ? & -> & ?)
  end.
  do 2 eexists. split; [eassumption|]. split; [done|].
  bool_facts. destruct (_ =? 1) eqn:E; bool_facts; [done|].
  rewrite orb_false_r in *. bool_facts. done.
Qed.

Lemma authorization_used_exact_witness :
  let node := honest_node (λ _ _, VStr ("0x" +:+ fmt_064x 1)) in
  let a := "0x" +:+ str_repeat "a" 40 in let n := "0x" +:+ str_repeat "1" 64 in
  ∃ c' data word,
    authorization_used (H:=node) {| address := a |} a n (BTag "latest") fresh_client = (Ok true, c')
    ∧ eth_call (H:=node) a data (BTag "latest") fresh_client = (Ok word, c')
    ∧ hex_value (str_drop 2 word) = 1.
Proof.
  intros node a n. set (c' := {| _id := 1; world := ["eth_call"] |}).
  assert (authorization_used (H:=node) {| address := a |} a n (BTag "latest") fresh_client
          = (Ok true, c')) as E by (vm_compute; reflexivity).
  destruct (authorization_used_exact (H:=node) _ _ _ _ _ _ _ E) as (data & word & Hc & _ & Hw).
  by exists c', data, word.
Defined.
