(* ===== verification/Divergence.v ===== *)
(** * The divergence detector ([psv/divergence.py], [psv/differential.py])

    One payment has two records, the chain's [SettlementTruth] and the belief
    of the system under test.  The detectors grade their agreement.  The
    theorems give the verdict of every combination, show that a verdict is a
    failure exactly when a contract between chain, belief and amount is broken,
    relate the exact and the metered scheme, and show that differential testing
    localises the faulty system.

    The prose of a verdict is represented by its template and the numbers it
    quotes ([message]). *)

From S2P Require Import Prelude PyStr PyVal Anvil Chain.
Local Open Scope Z_scope.

Inductive DivergenceKind :=
  | CONSISTENT_PAID | CONSISTENT_UNPAID | SILENT_LOSS | PHANTOM_CREDIT | UNDERPAID_CREDIT
  | OVER_AUTHORIZED_SETTLEMENT.

Inductive Severity := OK | CRITICAL.

#[export] Instance DivergenceKind_eq_dec : EqDecision DivergenceKind.
Proof. solve_decision. Defined.
#[export] Instance Severity_eq_dec : EqDecision Severity.
Proof. solve_decision. Defined.

(** [kind.value] and [severity.value] *)
Definition kind_value (k : DivergenceKind) : string :=
  match k with
  | CONSISTENT_PAID => "consistent_paid"
  | CONSISTENT_UNPAID => "consistent_unpaid"
  | SILENT_LOSS => "silent_loss"
  | PHANTOM_CREDIT => "phantom_credit"
  | UNDERPAID_CREDIT => "underpaid_credit"
  | OVER_AUTHORIZED_SETTLEMENT => "over_authorized_settlement"
  end.
Definition severity_value (s : Severity) : string :=
  match s with OK => "ok" | CRITICAL => "critical" end.

(** The message templates with the numbers they interpolate. *)
Inductive message :=
  | MsgUnderpaid (received required short : Z)
  | MsgPaid (received_of_required : option (Z * Z))
  | MsgUnpaid
  | MsgSilentLoss (payer payee : Z) (consumed : bool)
  | MsgPhantomCredit (consumed : bool) (payee : Z)
  | MsgOverAuthorized (received authorized over : Z)
  | MsgMeteredPaid (received authorized : Z)
  | MsgMeteredUnpaid
  | MsgMeteredSilentLoss (payer payee : Z) (consumed : bool)
  | MsgMeteredPhantomCredit (consumed : bool) (payee : Z).

#[export] Instance message_eq_dec : EqDecision message.
Proof. solve_decision. Defined.

Record Divergence := { kind : DivergenceKind; severity : Severity; msg : message }.

#[export] Instance Divergence_eq_dec : EqDecision Divergence.
Proof. solve_decision. Defined.

Definition is_failure (d : Divergence) : bool := bool_decide (severity d = CRITICAL).

Definition detect_payment_divergence (chain : SettlementTruth) (sut_believes_paid : bool)
    (required_amount : option Z) : Divergence :=
  let moved := funds_moved chain in
  if moved && sut_believes_paid then
    match required_amount with
    | Some required =>
        if payee_delta chain <? required then
          {| kind := UNDERPAID_CREDIT; severity := CRITICAL;
             msg := MsgUnderpaid (payee_delta chain) required (required - payee_delta chain) |}
        else
          {| kind := CONSISTENT_PAID; severity := OK;
             msg := MsgPaid (Some (payee_delta chain, required)) |}
    | None => {| kind := CONSISTENT_PAID; severity := OK; msg := MsgPaid None |}
    end
  else if negb moved && negb sut_believes_paid then
    {| kind := CONSISTENT_UNPAID; severity := OK; msg := MsgUnpaid |}
  else if moved && negb sut_believes_paid then
    {| kind := SILENT_LOSS; severity := CRITICAL;
       msg := MsgSilentLoss (payer_delta chain) (payee_delta chain) (nonce_consumed chain) |}
  else
    {| kind := PHANTOM_CREDIT; severity := CRITICAL;
       msg := MsgPhantomCredit (nonce_consumed chain) (payee_delta chain) |}.

Definition detect_metered_divergence (chain : SettlementTruth) (sut_believes_paid : bool)
    (authorized_max : Z) : res Divergence :=
  raise_if (authorized_max <? 0) ValueError
    "authorized_max must be a non-negative integer (token base units)" ;;
  let moved := funds_moved chain in
  Ok (if moved && sut_believes_paid then
        if authorized_max <? payee_delta chain then
          {| kind := OVER_AUTHORIZED_SETTLEMENT; severity := CRITICAL;
             msg := MsgOverAuthorized (payee_delta chain) authorized_max
                      (payee_delta chain - authorized_max) |}
        else
          {| kind := CONSISTENT_PAID; severity := OK;
             msg := MsgMeteredPaid (payee_delta chain) authorized_max |}
      else if negb moved && negb sut_believes_paid then
        {| kind := CONSISTENT_UNPAID; severity := OK; msg := MsgMeteredUnpaid |}
      else if moved && negb sut_believes_paid then
        {| kind := SILENT_LOSS; severity := CRITICAL;
           msg := MsgMeteredSilentLoss (payer_delta chain) (payee_delta chain)
                    (nonce_consumed chain) |}
      else
        {| kind := PHANTOM_CREDIT; severity := CRITICAL;
           msg := MsgMeteredPhantomCredit (nonce_consumed chain) (payee_delta chain) |}).

Definition settlement_truth_from_balances (consumed : bool)
    (payer_before payer_after payee_before payee_after : Z) : SettlementTruth :=
  {| nonce_consumed := consumed;
     payer_balance_after := payer_after;
     payee_balance_after := payee_after;
     payer_delta := payer_after - payer_before;
     payee_delta := payee_after - payee_before |}.

(** ** Differential testing *)

Record DifferentialResult := {
  verdicts : list (string * Divergence);
  disagree : bool;
  failing : list (string * Divergence)
}.

(** [DifferentialResult.has_finding] *)
Definition has_finding (r : DifferentialResult) : bool :=
  match failing r with [] => false | _ => true end.

Definition bad_sut_name (kv : pykey * pyval) : bool :=
  match kv.1 with KStr s => (s =? "")%string | KOther _ => true end.
Definition bad_belief (kv : pykey * pyval) : bool :=
  match kv.2 with VBool _ => false | _ => true end.
Definition named_belief (kv : pykey * pyval) : option (string * bool) :=
  match kv with (KStr name, VBool b) => Some (name, b) | _ => None end.

(** [len(set(values)) > 1] for booleans *)
Definition two_values (bs : list bool) : bool := existsb id bs && existsb negb bs.

Definition run_differential (chain : SettlementTruth) (beliefs : pydict)
    (required_amount : option Z) : res DifferentialResult :=
  raise_if (match beliefs with [] => true | _ => false end) ValueError
    "beliefs must contain at least one SUT" ;;
  raise_if (existsb bad_sut_name beliefs) ValueError "every SUT name must be a non-empty string" ;;
  raise_if (existsb bad_belief beliefs) ValueError "every SUT belief must be a boolean" ;;
  raise_if (match required_amount with Some r => negb (is_uint256 r) | None => false end) ValueError
    "required_amount must be a uint256 or null" ;;
  let bs := omap named_belief beliefs in
  let vs := (λ nb, (nb.1, detect_payment_divergence chain nb.2 required_amount)) <$> bs in
  Ok {| verdicts := vs;
        disagree := two_values (snd <$> bs);
        failing := filter (λ nv, is_failure nv.2 = true) vs |}.

(** * Specification *)

(** The verdict table of the README, by what the chain proves. *)
Inductive chain_result := PaidInFull | PaidShort | NotSettled.

Definition chain_result_of (t : SettlementTruth) (required : option Z) : chain_result :=
  if funds_moved t then
    match required with
    | Some r => if payee_delta t <? r then PaidShort else PaidInFull
    | None => PaidInFull
    end
  else NotSettled.

Definition verdict_table (r : chain_result) (believes_paid : bool) : DivergenceKind :=
  match r, believes_paid with
  | PaidInFull, true => CONSISTENT_PAID
  | NotSettled, false => CONSISTENT_UNPAID
  | PaidInFull, false | PaidShort, false => SILENT_LOSS
  | NotSettled, true => PHANTOM_CREDIT
  | PaidShort, true => UNDERPAID_CREDIT
  end.

(** The amount rule of an exact payment. *)
Definition covers (t : SettlementTruth) (required : option Z) : Prop :=
  match required with Some r => r ≤ payee_delta t | None => True end.

(** * Lemmas *)

Lemma funds_moved_spec t :
  funds_moved t = true ↔ nonce_consumed t = true ∧ 0 < payee_delta t ∧ payer_delta t < 0.
Proof. unfold funds_moved. rewrite !andb_true_iff, !Z.ltb_lt. tauto. Qed.

Lemma is_failure_spec d : is_failure d = true ↔ severity d = CRITICAL.
Proof. apply bool_decide_eq_true. Qed.

(** Case analysis on every guard of a detector. *)
Ltac verdict_cases :=
  try (match goal with b : bool |- _ => destruct b end);
  repeat match goal with
  | |- context [funds_moved ?t] => destruct (funds_moved t) eqn:?
  | |- context [match ?b with true => _ | false => _ end] => is_var b; destruct b
  | |- context [match ?r with Some _ => _ | None => _ end] => is_var r; destruct r
  | |- context [?x <? ?y] => destruct (Z.ltb_spec x y)
  end; simpl.
Ltac verdict_goals :=
  repeat match goal with
  | |- _ ∧ _ => split
  | |- _ ↔ _ => split
  | |- _ → _ => intros ?
  | |- _ ≠ _ => intros ?
  | H : _ ∧ _ |- _ => destruct H
  | H : true = true → _ |- _ => specialize (H eq_refl)
  end; try first [done | discriminate | congruence | lia].

Lemma payment_healthy t believes required :
  severity (detect_payment_divergence t believes required) = OK ↔
    believes = funds_moved t ∧ (believes = true → covers t required).
Proof. unfold detect_payment_divergence, covers. verdict_cases; verdict_goals. Qed.

Lemma healthy_not_failure d : is_failure d = false ↔ severity d = OK.
Proof. unfold is_failure. rewrite bool_decide_eq_false. destruct (severity d); by split. Qed.

Lemma metered_run t believes cap d :
  detect_metered_divergence t believes cap = Ok d →
  0 ≤ cap ∧ (severity d = OK ↔
               believes = funds_moved t ∧ (believes = true → payee_delta t ≤ cap)).
Proof.
  unfold detect_metered_divergence. destruct (Z.ltb_spec cap 0); simpl; [done|].
  intros [= <-]. split; [done|]. verdict_cases; verdict_goals.
Qed.

Lemma two_values_spec bs : two_values bs = true ↔ true ∈ bs ∧ false ∈ bs.
Proof.
  unfold two_values. rewrite andb_true_iff, !existsb_exists. split.
  - intros [([] & H1 & E1) ([] & H2 & E2)]; try done. by rewrite !list_elem_of_In.
  - intros [H1 H2]. rewrite list_elem_of_In in H1, H2. split; [by exists true|by exists false].
Qed.

Lemma named_beliefs_length beliefs :
  existsb bad_sut_name beliefs = false → existsb bad_belief beliefs = false →
  length (omap named_belief beliefs) = length beliefs.
Proof.
  induction beliefs as [|[k v] l IH]; [done|]. simpl.
  intros [Hk Hn]%orb_false_iff [Hv Hb]%orb_false_iff.
  destruct k; [|done]. destruct v; try done. simpl. f_equal. by apply IH.
Qed.

(** What a successful differential run returns. *)
Lemma run_differential_ok t beliefs required r :
  run_differential t beliefs required = Ok r →
  let bs := omap named_belief beliefs in
  length bs = length beliefs
  ∧ verdicts r = (λ nb, (nb.1, detect_payment_divergence t nb.2 required)) <$> bs
  ∧ disagree r = two_values (snd <$> bs)
  ∧ failing r = filter (λ nv, is_failure nv.2 = true) (verdicts r).
Proof.
  unfold run_differential. intros H. inv_res.
  split; [by apply named_beliefs_length|done].
Qed.

(** * Properties *)

(** The exact-scheme verdict is the published table: paid in full, paid
    short or not settled against the belief; the severity is critical exactly
    for the three mismatches, and an underpaid verdict reports the positive
    shortfall. *)
Theorem payment_verdict_table t believes required :
  let d := detect_payment_divergence t believes required in
  kind d = verdict_table (chain_result_of t required) believes
  ∧ (severity d = CRITICAL ↔ kind d ≠ CONSISTENT_PAID ∧ kind d ≠ CONSISTENT_UNPAID)
  ∧ ((∃ short, 0 < short ∧ required = Some (payee_delta t + short)
               ∧ msg d = MsgUnderpaid (payee_delta t) (payee_delta t + short) short) ↔
     kind d = UNDERPAID_CREDIT).
Proof.
  unfold detect_payment_divergence, chain_result_of, verdict_table.
  verdict_cases; (split; [done|]); (split; [by verdict_goals|]); split; try done;
    try (by intros (? & ? & ? & ?)).
  intros _. exists (z - payee_delta t). split_and!; [lia|f_equal; lia|f_equal; lia].
Qed.

(** C29: an exact payment is healthy exactly when the belief agrees with the
    chain (nonce burned, payer debited, payee credited) and, if credited, the
    merchant netted the required amount. *)
Theorem payment_healthy_iff t believes required :
  is_failure (detect_payment_divergence t believes required) = false ↔
    (believes = true ↔ nonce_consumed t = true ∧ 0 < payee_delta t ∧ payer_delta t < 0)
    ∧ (believes = true → ∀ r, required = Some r → r ≤ payee_delta t).
Proof.
  rewrite healthy_not_failure, payment_healthy, <- funds_moved_spec. unfold covers.
  destruct believes, (funds_moved t), required; verdict_goals; naive_solver.
Qed.

(** A metered payment is refused only for a negative cap, and is healthy
    exactly when the belief agrees with the chain and, if credited, at most the
    cap moved; more than the cap is [OVER_AUTHORIZED_SETTLEMENT]. *)
Theorem metered_verdict t believes cap :
  match detect_metered_divergence t believes cap with
  | Raise e => cap < 0 ∧ exn_cls e = ValueError
  | Ok d =>
      0 ≤ cap
      ∧ (is_failure d = false ↔
           believes = funds_moved t ∧ (believes = true → payee_delta t ≤ cap))
      ∧ (kind d = OVER_AUTHORIZED_SETTLEMENT ↔
           believes = true ∧ funds_moved t = true ∧ cap < payee_delta t)
      ∧ kind d ≠ UNDERPAID_CREDIT
  end.
Proof.
  destruct (detect_metered_divergence t believes cap) as [d|e] eqn:E.
  - destruct (metered_run _ _ _ _ E) as [Hc Hd]. rewrite healthy_not_failure.
    split; [done|]. split; [done|]. revert E. unfold detect_metered_divergence.
    destruct (Z.ltb_spec cap 0); simpl; [done|]. intros [= <-].
    verdict_cases; verdict_goals.
  - revert E. unfold detect_metered_divergence.
    destruct (Z.ltb_spec cap 0); simpl; [|done]. by intros [= <-].
Qed.

(** The two schemes bracket the amount: a credited payment passes the exact
    check for [a] and the metered check for the cap [a] exactly when the chain
    moved [a] itself. *)
Theorem exact_and_metered_pin_the_amount t a d :
  detect_metered_divergence t true a = Ok d →
  (is_failure (detect_payment_divergence t true (Some a)) = false ∧ is_failure d = false) ↔
    funds_moved t = true ∧ payee_delta t = a.
Proof.
  intros [_ Hd]%metered_run. rewrite !healthy_not_failure, Hd, payment_healthy.
  destruct (funds_moved t); simpl; verdict_goals.
Qed.

Lemma exact_and_metered_pin_the_amount_witness :
  let t := settlement_truth_from_balances true 100 90 0 10 in
  funds_moved t = true ∧ payee_delta t = 10.
Proof.
  assert (E : detect_metered_divergence (settlement_truth_from_balances true 100 90 0 10) true 10
              = Ok {| kind := CONSISTENT_PAID; severity := OK; msg := MsgMeteredPaid 10 10 |})
    by (vm_compute; reflexivity).
  apply (exact_and_metered_pin_the_amount _ _ _ E). split; vm_compute; reflexivity.
Defined.

(** Differential testing localises the fault.  When it runs, every system
    has one verdict; two systems that disagree are reported and at least one of
    them is failing, and without a required amount the failing systems are
    exactly those whose belief contradicts the chain. *)
Theorem differential_localises_the_fault t beliefs required r :
  run_differential t beliefs required = Ok r →
  length (verdicts r) = length beliefs
  ∧ (∀ name d, (name, d) ∈ failing r ↔
       ∃ b, (KStr name, VBool b) ∈ beliefs
            ∧ d = detect_payment_divergence t b required ∧ is_failure d = true)
  ∧ (disagree r = true ↔
       ∃ n1 n2, (KStr n1, VBool true) ∈ beliefs ∧ (KStr n2, VBool false) ∈ beliefs)
  ∧ (disagree r = true → has_finding r = true)
  ∧ (required = None → ∀ name b, (KStr name, VBool b) ∈ beliefs →
       ((∃ d, (name, d) ∈ failing r ∧ d = detect_payment_divergence t b None)
        ↔ b ≠ funds_moved t)).
Proof.
  intros (Hlen & Hv & Hd & Hf)%run_differential_ok.
  assert (Hin : ∀ n b, (n, b) ∈ omap named_belief beliefs ↔ (KStr n, VBool b) ∈ beliefs).
  { intros n b. rewrite list_elem_of_omap. split.
    - intros ([[k|] [| | | | | | |]] & Hk & [=]); by subst.
    - intros Hk. by exists (KStr n, VBool b). }
  assert (Hfail : ∀ name d, (name, d) ∈ failing r ↔
       ∃ b, (KStr name, VBool b) ∈ beliefs
            ∧ d = detect_payment_divergence t b required ∧ is_failure d = true).
  { intros name d. rewrite Hf, list_elem_of_filter, Hv, list_elem_of_fmap. simpl. split.
    - intros [Hd' ([n b] & [= -> ->] & Hb%Hin)]. by exists b.
    - intros (b & Hb%Hin & -> & Hd'). split; [done|]. by exists (name, b). }
  assert (Hdis : disagree r = true ↔
       ∃ n1 n2, (KStr n1, VBool true) ∈ beliefs ∧ (KStr n2, VBool false) ∈ beliefs).
  { rewrite Hd, two_values_spec, !list_elem_of_fmap. split.
    - intros [([n1 []] & [=] & H1%Hin) ([n2 []] & [=] & H2%Hin)]. by exists n1, n2.
    - intros (n1 & n2 & H1%Hin & H2%Hin). split; [by exists (n1, true)|by exists (n2, false)]. }
  split_and!; [by rewrite Hv, length_fmap|done|done| |].
  - intros (n1 & n2 & H1 & H2)%Hdis.
    assert (∃ nd, nd ∈ failing r) as [nd Hnd].
    { destruct (is_failure (detect_payment_divergence t true required)) eqn:E1.
      { eexists (n1, _). apply Hfail. eauto. }
      destruct (is_failure (detect_payment_divergence t false required)) eqn:E2.
      { eexists (n2, _). apply Hfail. eauto. }
      rewrite healthy_not_failure, payment_healthy in E1, E2. destruct E1, E2. congruence. }
    unfold has_finding. destruct (failing r); [by apply elem_of_nil in Hnd|done].
  - intros -> name b Hb. pose proof (payment_healthy t b None) as Hok. simpl in Hok.
    rewrite <- healthy_not_failure in Hok. split.
    + intros (d & (b' & Hb' & Hd1 & Hd2)%Hfail & ->) Heq.
      rewrite (proj2 Hok) in Hd2; [done|]. by rewrite Heq.
    + intros Hneq. eexists. split; [|done]. apply Hfail. exists b. split_and!; [done..|].
      destruct (is_failure _) eqn:E; [done|]. by destruct (proj1 Hok eq_refl).
Qed.

Lemma differential_localises_the_fault_witness :
  let t := settlement_truth_from_balances true 100 90 0 10 in
  let beliefs := [(KStr "good", VBool true); (KStr "bad", VBool false)] in
  ∃ r, run_differential t beliefs None = Ok r
       ∧ has_finding r = true ∧ length (verdicts r) = 2%nat.
Proof.
  eexists. split; [vm_compute; reflexivity|].
  match goal with |- has_finding ?r = _ ∧ _ => set (R := r) end.
  assert (E : run_differential (settlement_truth_from_balances true 100 90 0 10)
                [(KStr "good", VBool true); (KStr "bad", VBool false)] None = Ok R)
    by (vm_compute; reflexivity).
  destruct (differential_localises_the_fault _ _ _ _ E) as (H1 & _ & _ & H2 & _).
  split; [|done]. apply H2. vm_compute; reflexivity.
Defined.

(** The metered check bounds what the payee received, not what left the payer:
    with a fee on the transfer, more than the cap leaves the payer of a healthy
    settlement. *)
Example metered_fee_hides_the_excess :
  let t := settlement_truth_from_balances true 200 90 0 90 in
  payer_delta t = -110
  ∧ kind <$> detect_metered_divergence t true 100 = Ok CONSISTENT_PAID.
Proof. by vm_compute. Qed.
