(* ===== verification/Reconciliation.v ===== *)
(** * Settlement identities and ledger reconciliation ([psv/reconciliation.py])

    A settlement is identified by chain, asset, transaction hash and log index;
    a ledger is reconciled against the [Transfer] logs of a snapshot.  The
    theorems characterise the result of a reconciliation completely: when one is
    returned it is the sorted list of exactly the live credits the ledger does
    not know, and it is refused exactly for a malformed log, a log out of scope
    or two conflicting observations of one settlement.  From this follow
    independence of order and repetition, and that the asset-scoped form ignores
    foreign tokens.  Logs and credits round-trip.

    The client's [list[dict[str, object]]] is [list pydict]; the ledger's [set]
    is a [gset]; the dict of observations keeps insertion order. *)

From S2P Require Import Prelude PyStr PyVal.
Local Open Scope Z_scope.

Definition TOPIC_TRANSFER : string :=
  "0xddf252ad1be2c89b69c2b068fc378daa952ba7f163c4a11628f55a4df523b3ef".

(** ** Strict decoding *)

Definition _exact_hex (value : pyval) (size : nat) (what : string) : res string :=
  match as_str value with
  | None => raise ReconciliationError (what +:+ " must be 0x-prefixed fixed-size hex")
  | Some s =>
      raise_if (negb (startswith "0x" s) || negb (String.length s =? 2 + size * 2)%nat)
        ReconciliationError (what +:+ " must be 0x-prefixed fixed-size hex") ;;
      or_raise (fromhex (str_drop 2 s)) ReconciliationError
        (what +:+ " must be 0x-prefixed fixed-size hex") ;;
      Ok (lower s)
  end.

Definition _quantity (value : pyval) (what : string) : res Z :=
  match as_str value with
  | None => raise ReconciliationError (what +:+ " must be a canonical JSON-RPC hex quantity")
  | Some s =>
      raise_if (negb (startswith "0x" s) || (s =? "0x")%string
                || ((3 <? String.length s)%nat && (str_slice 2 3 s =? "0")%string))
        ReconciliationError (what +:+ " must be a canonical JSON-RPC hex quantity") ;;
      result ← or_raise (py_int16 (str_drop 2 s)) ReconciliationError
        (what +:+ " must be a canonical JSON-RPC hex quantity");
      raise_if (negb (is_uint256 result)) ReconciliationError (what +:+ " is outside uint256") ;;
      Ok result
  end.

Definition _address (value : pyval) (what : string) : res string := _exact_hex value 20 what.

Definition topic_addr (addr : string) : res string :=
  exact ← _address (VStr addr) "address";
  Ok ("0x" +:+ str_repeat "0" 24 +:+ str_drop 2 exact).

Definition _addr_from_topic (topic : pyval) (what : string) : res string :=
  exact ← _exact_hex topic 32 what;
  raise_if (negb (str_slice 2 26 exact =? str_repeat "0" 24)%string) ReconciliationError
    (what +:+ " is not a canonically padded address topic") ;;
  Ok ("0x" +:+ str_last 40 exact).

(** ** Identities and credits *)

Record SettlementIdentity := mk_identity {
  chain_id : Z;
  asset : string;
  tx_hash : string;
  log_index : Z
}.

#[export] Instance SettlementIdentity_eq_dec : EqDecision SettlementIdentity.
Proof. solve_decision. Defined.
#[export] Instance SettlementIdentity_countable : Countable SettlementIdentity.
Proof.
  refine (inj_countable' (λ i, (chain_id i, asset i, tx_hash i, log_index i))
    (λ '(c, a, t, l), mk_identity c a t l) _). by intros [].
Defined.

(** The constructor with [__post_init__]. *)
Definition make_identity (chain_id : Z) (asset tx_hash : string) (log_index : Z)
    : res SettlementIdentity :=
  raise_if (chain_id <=? 0) ReconciliationError "chain_id must be positive" ;;
  asset ← _address (VStr asset) "asset";
  tx_hash ← _exact_hex (VStr tx_hash) 32 "tx hash";
  raise_if (negb (is_uint256 log_index)) ReconciliationError "log_index is outside uint256" ;;
  Ok (mk_identity chain_id asset tx_hash log_index).

Record OnChainCredit := mk_credit {
  identity : SettlementIdentity;
  block_hash : string;
  block_number : Z;
  payer : string;
  payee : string;
  value : Z;
  removed : bool
}.

#[export] Instance OnChainCredit_eq_dec : EqDecision OnChainCredit.
Proof. solve_decision. Defined.
#[export] Instance OnChainCredit_countable : Countable OnChainCredit.
Proof.
  refine (inj_countable'
    (λ c, (identity c, block_hash c, block_number c, payer c, payee c, value c, removed c))
    (λ '(i, h, n, p, q, v, r), mk_credit i h n p q v r) _). by intros [].
Defined.

(** The constructor with [__post_init__]. *)
Definition make_credit (identity : SettlementIdentity) (block_hash : string) (block_number : Z)
    (payer payee : string) (value : Z) (removed : bool) : res OnChainCredit :=
  block_hash ← _exact_hex (VStr block_hash) 32 "block hash";
  payer ← _address (VStr payer) "payer";
  payee ← _address (VStr payee) "payee";
  raise_if (negb (is_uint256 block_number)) ReconciliationError
    "block_number is outside uint256" ;;
  raise_if (negb (is_uint256 value)) ReconciliationError "value is outside uint256" ;;
  Ok (mk_credit identity block_hash block_number payer payee value removed).

Definition decode_transfer_log (log : pydict) (chain_id : Z) : res OnChainCredit :=
  raise_if (chain_id <=? 0) ReconciliationError "chain_id must be positive" ;;
  match as_list (dict_get "topics" log) with
  | Some [topic0; topic1; topic2] =>
      t0 ← _exact_hex topic0 32 "topic0";
      raise_if (negb (t0 =? TOPIC_TRANSFER)%string) ReconciliationError
        "log topic0 is not Transfer(address,address,uint256)" ;;
      data ← _exact_hex (dict_get "data" log) 32 "Transfer data";
      removed ← or_raise (as_bool (dict_get "removed" log)) ReconciliationError
        "removed must be a boolean";
      asset ← _address (dict_get "address" log) "log address";
      tx_hash ← _exact_hex (dict_get "transactionHash" log) 32 "transaction hash";
      log_index ← _quantity (dict_get "logIndex" log) "log index";
      block_hash ← _exact_hex (dict_get "blockHash" log) 32 "block hash";
      block_number ← _quantity (dict_get "blockNumber" log) "block number";
      identity ← make_identity chain_id asset tx_hash log_index;
      payer ← _addr_from_topic topic1 "payer topic";
      payee ← _addr_from_topic topic2 "payee topic";
      value ← or_raise (py_int16 data) ValueError "invalid literal for int() with base 16";
      make_credit identity block_hash block_number payer payee value removed
  | _ => raise ReconciliationError "Transfer log must contain exactly three topics"
  end.

(** ** Reconciliation *)

Inductive LedgerEntry :=
  | EntryIdentity (i : SettlementIdentity)
  | EntryCredit (c : OnChainCredit).

#[export] Instance LedgerEntry_eq_dec : EqDecision LedgerEntry.
Proof. solve_decision. Defined.
#[export] Instance LedgerEntry_countable : Countable LedgerEntry.
Proof.
  refine (inj_countable' (λ e, match e with EntryIdentity i => inl i | EntryCredit c => inr c end)
    (λ s, match s with inl i => EntryIdentity i | inr c => EntryCredit c end) _).
  by intros [].
Defined.

Definition entry_identity (e : LedgerEntry) : SettlementIdentity :=
  match e with EntryIdentity i => i | EntryCredit c => identity c end.

(** [known = {entry.identity if isinstance(entry, OnChainCredit) else entry ...}] *)
Definition known (ledger_entries : gset LedgerEntry) : gset SettlementIdentity :=
  set_map entry_identity ledger_entries.

(** The tuple comparison of the sort key. *)
Definition credit_leb (a b : OnChainCredit) : bool :=
  if negb (block_number a =? block_number b) then block_number a <? block_number b
  else if negb (log_index (identity a) =? log_index (identity b))
  then log_index (identity a) <? log_index (identity b)
  else if negb (tx_hash (identity a) =? tx_hash (identity b))%string
  then (tx_hash (identity a) <=? tx_hash (identity b))%string
  else (asset (identity a) <=? asset (identity b))%string.

(** [_address(x) if x else None] *)
Definition expected_address (x : option string) (what : string) : res (option string) :=
  match x with
  | Some s => if (s =? "")%string then Ok None else Some <$> _address (VStr s) what
  | None => Ok None
  end.

Definition mismatch (expected : option string) (observed : string) : bool :=
  match expected with Some e => negb (observed =? e)%string | None => false end.

(** The loop over the logs. *)
Fixpoint observe (chain_id : Z) (asset_ payee_ : option string) (logs : list pydict)
    (observations : list (SettlementIdentity * OnChainCredit))
    : res (list (SettlementIdentity * OnChainCredit)) :=
  match logs with
  | [] => Ok observations
  | log :: logs =>
      credit ← decode_transfer_log log chain_id;
      raise_if (mismatch asset_ (asset (identity credit))) ReconciliationError "cross-asset log" ;;
      raise_if (mismatch payee_ (payee credit)) ReconciliationError "cross-recipient log" ;;
      raise_if (match od_get (identity credit) observations with
                | Some previous => negb (bool_decide (previous = credit))
                | None => false
                end) ReconciliationError "conflicting observations for settlement" ;;
      observe chain_id asset_ payee_ logs (od_set (identity credit) credit observations)
  end.

Definition find_unreconciled (transfers : list pydict) (ledger_entries : gset LedgerEntry)
    (chain_id : Z) (expected_asset expected_payee : option string) : res (list OnChainCredit) :=
  asset_ ← expected_address expected_asset "expected asset";
  payee_ ← expected_address expected_payee "expected payee";
  observations ← observe chain_id asset_ payee_ transfers [];
  Ok (sorted_by credit_leb
        (snd <$> filter (λ ic, removed ic.2 = false ∧ ic.1 ∉ known ledger_entries) observations)).

Definition reconcile_asset_scoped (transfers : list pydict) (ledger_entries : gset LedgerEntry)
    (chain_id : Z) (expected_asset : string) (expected_payee : option string)
    : res (list OnChainCredit) :=
  asset_ ← _address (VStr expected_asset) "expected asset";
  decoded ← map_res (λ log, credit ← decode_transfer_log log chain_id;
                            Ok (log, asset (identity credit))) transfers;
  let scoped := (filter (λ la, la.2 = asset_) decoded).*1 in
  find_unreconciled scoped ledger_entries chain_id (Some asset_) expected_payee.

(** * Specification *)

(** The normal form of fixed-size hex data. *)
Definition normal_hex (size : nat) (s : string) : Prop :=
  (∃ d, s = "0x" +:+ d ∧ String.length d = (size * 2)%nat ∧ is_Some (fromhex d)) ∧ lower s = s.

(** The invariant of a decoded credit. *)
Record credit_wf (cid : Z) (c : OnChainCredit) : Prop := {
  wf_chain : chain_id (identity c) = cid ∧ 0 < cid;
  wf_asset : normal_hex 20 (asset (identity c));
  wf_tx : normal_hex 32 (tx_hash (identity c));
  wf_index : is_uint256 (log_index (identity c)) = true;
  wf_block_hash : normal_hex 32 (block_hash c);
  wf_block_number : is_uint256 (block_number c) = true;
  wf_payer : normal_hex 20 (payer c);
  wf_payee : normal_hex 20 (payee c);
  wf_value : is_uint256 (value c) = true
}.

Definition in_scope (asset_ payee_ : option string) (c : OnChainCredit) : Prop :=
  mismatch asset_ (asset (identity c)) = false ∧ mismatch payee_ (payee c) = false.

(** One settlement, one observation. *)
Definition consistent (cs : list OnChainCredit) : Prop :=
  ∀ c1 c2, c1 ∈ cs → c2 ∈ cs → identity c1 = identity c2 → c1 = c2.

Definition credit_lt (a b : OnChainCredit) : Prop :=
  credit_leb a b = true ∧ credit_leb b a = false.

(** What a reconciliation promises of its result: every log decodes in scope,
    one settlement has one observation, and the result lists, strictly sorted,
    exactly the live credits of the snapshot that the ledger does not know. *)
Record reconciled (transfers : list pydict) (ledger : gset LedgerEntry) (cid : Z)
    (asset_ payee_ : option string) (r : list OnChainCredit) : Prop := {
  rec_decodes : ∀ log, log ∈ transfers →
    ∃ c, decode_transfer_log log cid = Ok c ∧ in_scope asset_ payee_ c;
  rec_consistent : ∀ log1 log2 c1 c2, log1 ∈ transfers → log2 ∈ transfers →
    decode_transfer_log log1 cid = Ok c1 → decode_transfer_log log2 cid = Ok c2 →
    identity c1 = identity c2 → c1 = c2;
  rec_members : ∀ c, c ∈ r ↔
    removed c = false ∧ identity c ∉ known ledger
    ∧ ∃ log, log ∈ transfers ∧ decode_transfer_log log cid = Ok c;
  rec_sorted : StronglySorted credit_lt r
}.

(** The log a node reports for a credit. *)
Definition log_of_credit (c : OnChainCredit) : pydict := dict_of [
  ("topics", VList (VStr <$> [TOPIC_TRANSFER;
                              "0x" +:+ str_repeat "0" 24 +:+ str_drop 2 (payer c);
                              "0x" +:+ str_repeat "0" 24 +:+ str_drop 2 (payee c)]));
  ("data", VStr ("0x" +:+ fmt_064x (value c)));
  ("removed", VBool (removed c));
  ("address", VStr (asset (identity c)));
  ("transactionHash", VStr (tx_hash (identity c)));
  ("logIndex", VStr (py_hex (log_index (identity c))));
  ("blockHash", VStr (block_hash c));
  ("blockNumber", VStr (py_hex (block_number c)))
].

(** * Lemmas *)

(** ** Decoding *)

Section decoding.
Implicit Types (s w : string) (v : pyval).

Lemma exact_hex_run size d what :
  String.length d = (size * 2)%nat → is_Some (fromhex d) →
  _exact_hex (VStr ("0x" +:+ d)) size what = Ok (lower ("0x" +:+ d)).
Proof.
  intros Hlen [bs Hbs]. unfold _exact_hex. cbn [as_str].
  rewrite startswith_app, str_length_app, Hlen. cbn -[fromhex str_drop lower].
  rewrite Nat.eqb_refl. cbn -[fromhex str_drop lower].
  change (str_drop 2 ("0x" +:+ d)) with d. by rewrite Hbs.
Qed.

Lemma exact_hex_ok v size what s :
  _exact_hex v size what = Ok s ↔
    ∃ d, v = VStr ("0x" +:+ d) ∧ String.length d = (size * 2)%nat ∧ is_Some (fromhex d)
         ∧ s = lower ("0x" +:+ d).
Proof.
  split; [|intros (d & -> & Hlen & Hd & ->); by apply exact_hex_run].
  unfold _exact_hex. destruct v as [| | | |r| | |]; try done. cbn [as_str].
  intros H. inv_res. bool_facts.
  match goal with H : startswith _ _ = true |- _ => apply startswith_spec in H as [d ->] end.
  exists d. change (str_drop 2 ("0x" +:+ d)) with d in *.
  rewrite str_length_app in *. simpl in *. split_and!; [done|lia|eauto|done].
Qed.

Lemma normal_hex_lower size d :
  String.length d = (size * 2)%nat → is_Some (fromhex d) →
  normal_hex size (lower ("0x" +:+ d)).
Proof.
  intros Hlen Hd. split; [|apply lower_idemp]. exists (lower d).
  by rewrite lower_app, length_lower, fromhex_lower.
Qed.

Lemma exact_hex_normal v size what s : _exact_hex v size what = Ok s → normal_hex size s.
Proof. intros (d & -> & ? & ? & ->)%exact_hex_ok. by apply normal_hex_lower. Qed.

Lemma exact_hex_id s size what : normal_hex size s → _exact_hex (VStr s) size what = Ok s.
Proof. intros [(d & -> & ? & ?) E]. by rewrite exact_hex_run, E. Qed.

Lemma throws_exact_hex v size what : throws [ReconciliationError] (_exact_hex v size what).
Proof. unfold _exact_hex. solve_throws. Qed.

Lemma quantity_uint256 v what n : _quantity v what = Ok n → is_uint256 n = true.
Proof.
  unfold _quantity. destruct (as_str v); [|done]. intros H. inv_res. by bool_facts.
Qed.

Lemma exact_quantity_py_hex n what :
  is_uint256 n = true → _quantity (VStr (py_hex n)) what = Ok n.
Proof.
  intros Hn. pose proof Hn as [H0 _]%is_uint256_spec.
  pose proof (re_quantity_py_hex n H0) as Hq. unfold _quantity. cbn [as_str].
  assert (negb (startswith "0x" (py_hex n)) || (py_hex n =? "0x")%string
          || ((3 <? String.length (py_hex n))%nat && (str_slice 2 3 (py_hex n) =? "0")%string)
          = false) as ->.
  { unfold re_quantity, py_hex in *. rewrite startswith_app in *.
    change (str_drop 2 ("0x" +:+ to_hex n)) with (to_hex n) in Hq. cbn [negb orb].
    destruct (to_hex n) as [|c r]; [done|]. cbn [orb] in *.
    apply andb_true_iff in Hq as [_ [_ Hq]%andb_true_iff].
    change (str_slice 2 3 ("0x" +:+ String c r)) with (String c "").
    change (String.length ("0x" +:+ String c r)) with (3 + String.length r)%nat.
    destruct (String.eqb_spec (String c "") "0") as [E|]; [|by rewrite andb_false_r].
    injection E as ->. destruct r; [done|]. by simpl in Hq. }
  cbn [raise_if mbind res_bind]. change (str_drop 2 (py_hex n)) with (to_hex n).
  rewrite py_int16_to_hex by done. cbn [or_raise mbind res_bind]. by rewrite Hn.
Qed.

Lemma throws_exact_quantity v what : throws [ReconciliationError] (_quantity v what).
Proof. unfold _quantity. solve_throws. Qed.


Lemma addr_from_topic_encode d what :
  normal_hex 20 ("0x" +:+ d) →
  _addr_from_topic (VStr ("0x" +:+ str_repeat "0" 24 +:+ d)) what = Ok ("0x" +:+ d).
Proof.
  intros [(e & Heq & Hlen & [bs Hbs]) Hlow]. apply (inj (String.append "0x")) in Heq as <-. unfold _addr_from_topic.
  rewrite exact_hex_run.
  2:{ rewrite str_length_app, Hlen. reflexivity. }
  2:{ change (fromhex (str_repeat "0" 24 +:+ d)) with
        (Nat.iter 12 (fmap (M:=option) (cons 0)) (fromhex d)). by rewrite Hbs. }
  rewrite lower_app, (lower_app (str_repeat "0" 24)).
  assert (lower d = d) as ->.
  { rewrite lower_app in Hlow. change (lower "0x") with "0x" in Hlow.
    by apply (inj (String.append "0x")) in Hlow. }
  cbn [mbind res_bind]. change (lower "0x") with "0x".
  change (lower (str_repeat "0" 24)) with (str_repeat "0" 24).
  change (str_slice 2 26 ("0x" +:+ str_repeat "0" 24 +:+ d)) with
    (str_take 24 (str_repeat "0" 24 +:+ d)).
  rewrite str_take_exact by apply str_length_repeat. rewrite String.eqb_refl. simpl.
  f_equal. unfold str_last. rewrite !str_length_app, Hlen.
  change ("0x" +:+ str_repeat "0" 24 +:+ d) with (("0x" +:+ str_repeat "0" 24) +:+ d).
  by rewrite str_drop_exact.
Qed.
End decoding.
#[export] Hint Resolve throws_exact_hex throws_exact_quantity : py.

Lemma addr_from_topic_ok v what s :
  _addr_from_topic v what = Ok s →
  ∃ d, s = "0x" +:+ d ∧ String.length d = 40%nat ∧ lower s = s
       ∧ lower (default "" (as_str v)) = "0x" +:+ str_repeat "0" 24 +:+ d.
Proof.
  unfold _addr_from_topic. intros H. inv_res. bool_facts.
  match goal with H : _exact_hex _ _ _ = Ok _ |- _ =>
    apply exact_hex_ok in H as (t & -> & Hlen & _ & ->) end.
  rewrite lower_app in *. change (lower "0x") with "0x" in *.
  assert (Ht : lower t = str_repeat "0" 24 +:+ str_drop 24 (lower t)).
  { rewrite <- (str_take_drop 24 (lower t)) at 1. f_equal.
    match goal with H : str_slice 2 26 _ = _ |- _ => rewrite <- H end. reflexivity. }
  exists (str_drop 24 (lower t)).
  assert (str_last 40 ("0x" +:+ lower t) = str_drop 24 (lower t)) as ->.
  { unfold str_last. by rewrite str_length_app, length_lower, Hlen. }
  split_and!; [done| | |].
  - by rewrite str_length_drop, length_lower, Hlen.
  - by rewrite lower_app, lower_drop, lower_idemp.
  - simpl. rewrite lower_app. change (lower "0x") with "0x". by rewrite <- Ht.
Qed.

Lemma throws_addr_from_topic v what : throws [ReconciliationError] (_addr_from_topic v what).
Proof. unfold _addr_from_topic, mret. solve_throws. Qed.

Lemma make_identity_ok cid a t l i :
  make_identity cid a t l = Ok i →
  chain_id i = cid ∧ 0 < cid ∧ normal_hex 20 (asset i) ∧ normal_hex 32 (tx_hash i)
  ∧ log_index i = l ∧ is_uint256 l = true.
Proof.
  unfold make_identity, _address. intros H. inv_res. bool_facts.
  repeat match goal with H : _exact_hex _ _ _ = Ok _ |- _ => apply exact_hex_normal in H end.
  done.
Qed.

(** Asset and hash are stored in lower case. *)
Lemma make_identity_lower cid a t l i :
  make_identity cid a t l = Ok i → asset i = lower a ∧ tx_hash i = lower t.
Proof.
  unfold make_identity, _address. intros H. inv_res.
  repeat match goal with
  | H : _exact_hex _ _ _ = Ok _ |- _ => apply exact_hex_ok in H as (? & [= ->] & _ & _ & ->)
  end. done.
Qed.

Lemma make_identity_id i :
  0 < chain_id i → normal_hex 20 (asset i) → normal_hex 32 (tx_hash i) →
  is_uint256 (log_index i) = true →
  make_identity (chain_id i) (asset i) (tx_hash i) (log_index i) = Ok i.
Proof.
  intros Hc Ha Ht Hl. unfold make_identity, _address.
  rewrite (proj2 (Z.leb_gt _ _)), !exact_hex_id, Hl by done. by destruct i.
Qed.

Lemma make_credit_ok i h n p q v r c :
  make_credit i h n p q v r = Ok c →
  identity c = i ∧ normal_hex 32 (block_hash c) ∧ is_uint256 (block_number c) = true
  ∧ normal_hex 20 (payer c) ∧ normal_hex 20 (payee c) ∧ is_uint256 (value c) = true
  ∧ block_number c = n ∧ value c = v ∧ removed c = r.
Proof.
  unfold make_credit, _address. intros H. inv_res. bool_facts.
  repeat match goal with H : _exact_hex _ _ _ = Ok _ |- _ => apply exact_hex_normal in H end.
  done.
Qed.

Lemma make_credit_id c :
  normal_hex 32 (block_hash c) → is_uint256 (block_number c) = true →
  normal_hex 20 (payer c) → normal_hex 20 (payee c) → is_uint256 (value c) = true →
  make_credit (identity c) (block_hash c) (block_number c) (payer c) (payee c) (value c) (removed c)
  = Ok c.
Proof.
  intros Hh Hn Hp Hq Hv. unfold make_credit, _address. rewrite !exact_hex_id, Hn, Hv by done.
  by destruct c.
Qed.

Lemma decode_wf log cid c : decode_transfer_log log cid = Ok c → credit_wf cid c.
Proof.
  unfold decode_transfer_log. intros H. inv_res.
  destruct (as_list (dict_get "topics" log)) as [[|t0 [|t1 [|t2 [|]]]]|]; try done. inv_res.
  match goal with H : make_identity _ _ _ _ = _ |- _ =>
    apply make_identity_ok in H as (? & ? & ? & ? & ? & ?) end.
  match goal with H : make_credit _ _ _ _ _ _ _ = _ |- _ =>
    apply make_credit_ok in H as (? & ? & ? & ? & ? & ? & ? & ? & ?) end.
  subst. by split.
Qed.

Lemma decode_tx_hash log cid c h :
  decode_transfer_log log cid = Ok c → dict_get "transactionHash" log = VStr h →
  tx_hash (identity c) = lower h.
Proof.
  unfold decode_transfer_log. intros H Hh. inv_res.
  destruct (as_list (dict_get "topics" log)) as [[|t0 [|t1 [|t2 [|]]]]|]; try done. inv_res.
  match goal with H : make_credit _ _ _ _ _ _ _ = _ |- _ =>
    apply make_credit_ok in H as (-> & _) end.
  match goal with H : make_identity _ _ _ _ = _ |- _ =>
    apply make_identity_lower in H as [_ ->] end.
  match goal with H : _exact_hex (dict_get "transactionHash" log) _ _ = _ |- _ =>
    apply exact_hex_ok in H as (d & Hd & _ & _ & ->) end.
  rewrite lower_idemp. congruence.
Qed.

(** A decode that succeeds field by field. *)
Lemma decode_run log cid t0 t1 t2 data rm a t i h n id p q v :
  0 < cid → dict_get "topics" log = VList [t0; t1; t2] →
  _exact_hex t0 32 "topic0" = Ok TOPIC_TRANSFER →
  _exact_hex (dict_get "data" log) 32 "Transfer data" = Ok data →
  dict_get "removed" log = VBool rm →
  _address (dict_get "address" log) "log address" = Ok a →
  _exact_hex (dict_get "transactionHash" log) 32 "transaction hash" = Ok t →
  _quantity (dict_get "logIndex" log) "log index" = Ok i →
  _exact_hex (dict_get "blockHash" log) 32 "block hash" = Ok h →
  _quantity (dict_get "blockNumber" log) "block number" = Ok n →
  make_identity cid a t i = Ok id →
  _addr_from_topic t1 "payer topic" = Ok p → _addr_from_topic t2 "payee topic" = Ok q →
  py_int16 data = Some v →
  decode_transfer_log log cid = make_credit id h n p q v rm.
Proof.
  intros Hc Ht E0 E1 E2 E3 E4 E5 E6 E7 E8 E9 E10 E11. unfold decode_transfer_log.
  rewrite (proj2 (Z.leb_gt _ _) Hc), Ht. cbn [raise_if as_list mbind res_bind].
  rewrite E0. cbn [mbind res_bind]. rewrite String.eqb_refl. cbn [negb raise_if mbind res_bind].
  rewrite E1, E2, E3, E4, E5, E6, E7. cbn [mbind res_bind as_bool or_raise].
  rewrite E8, E9, E10. cbn [mbind res_bind]. by rewrite E11.
Qed.

Lemma normal_hex_drop size s : normal_hex size s → s = "0x" +:+ str_drop 2 s.
Proof. by intros [(d & -> & _) _]. Qed.

Lemma decode_log_of_credit cid c :
  credit_wf cid c → decode_transfer_log (log_of_credit c) cid = Ok c.
Proof.
  intros [[<- Hc] Ha Ht Hi Hh Hn Hp Hq Hv].
  pose proof Hv as Hv'%is_uint256_spec.
  assert (Hhex : str_all is_hex_digit (fmt_064x (value c)) = true)
    by (eapply str_all_impl, fmt_064x_hex; [apply lower_hex_hex|done]).
  assert (Hlen : String.length (fmt_064x (value c)) = 64%nat) by by apply fmt_064x_length.
  destruct (fromhex_hex (fmt_064x (value c))) as (bs & Hbs & _); [by rewrite Hlen|done|].
  rewrite (decode_run (log_of_credit c) _ _ _ _ (lower ("0x" +:+ fmt_064x (value c))) (removed c)
    (asset (identity c)) (tx_hash (identity c)) (log_index (identity c)) (block_hash c)
    (block_number c) (identity c) (payer c) (payee c) (value c) Hc eq_refl).
  - by apply make_credit_id.
  - reflexivity.
  - change (dict_get "data" (log_of_credit c)) with (VStr ("0x" +:+ fmt_064x (value c))).
    apply exact_hex_run; [done|by eexists].
  - reflexivity.
  - by apply (exact_hex_id (asset (identity c))).
  - by apply (exact_hex_id (tx_hash (identity c))).
  - by apply (exact_quantity_py_hex (log_index (identity c))).
  - by apply (exact_hex_id (block_hash c)).
  - by apply (exact_quantity_py_hex (block_number c)).
  - by apply make_identity_id.
  - rewrite (normal_hex_drop 20 (payer c)) at 2 by done.
    apply addr_from_topic_encode. by rewrite <- (normal_hex_drop 20).
  - rewrite (normal_hex_drop 20 (payee c)) at 2 by done.
    apply addr_from_topic_encode. by rewrite <- (normal_hex_drop 20).
  - rewrite lower_app, (lower_lower_hex (fmt_064x _)) by by apply fmt_064x_hex.
    change (lower "0x") with "0x". rewrite py_int16_0x; [by rewrite hex_value_fmt| |done].
    intros E. by rewrite E in Hlen.
Qed.

Lemma throws_decode log cid : throws [ValueError] (decode_transfer_log log cid).
Proof.
  assert (∀ A (m : res A), throws [ReconciliationError] m → throws [ValueError] m) as Hweak.
  { intros A m Hm e He. specialize (Hm e He). destruct e as [[] ?]; try done. }
  unfold decode_transfer_log, make_identity, make_credit, _address. solve_throws;
    try (apply Hweak; eauto with py; apply throws_addr_from_topic).
Qed.

(** ** The sort key *)

Lemma str_leb_trans a b c :
  (a <=? b)%string = true → (b <=? c)%string = true → (a <=? c)%string = true.
Proof.
  intros Hab%Is_true_true Hbc%Is_true_true. apply Is_true_true.
  by transitivity b; [exact Hab|exact Hbc].
Qed.

Ltac leb_cases :=
  repeat match goal with
  | H : context [?a =? ?b] |- _ => destruct (Z.eqb_spec a b)
  | |- context [?a =? ?b] => destruct (Z.eqb_spec a b)
  | H : context [(?a =? ?b)%string] |- _ => destruct (String.eqb_spec a b)
  | |- context [(?a =? ?b)%string] => destruct (String.eqb_spec a b)
  end; simpl in *; bool_facts; rewrite ?Z.ltb_lt; try lia.

Lemma credit_leb_total a b : credit_leb a b = true ∨ credit_leb b a = true.
Proof.
  unfold credit_leb. leb_cases; try congruence; try apply String.leb_total.
Qed.

Lemma credit_leb_trans a b c :
  credit_leb a b = true → credit_leb b c = true → credit_leb a c = true.
Proof.
  unfold credit_leb. intros Hab Hbc. leb_cases; try congruence;
    try (by eapply str_leb_trans).
  destruct n0. apply String.leb_antisym; congruence.
Qed.

(** Credits of one chain with equal keys have one identity. *)
Lemma credit_leb_antisym a b :
  credit_leb a b = true → credit_leb b a = true →
  chain_id (identity a) = chain_id (identity b) → identity a = identity b.
Proof.
  unfold credit_leb. destruct (identity a) as [ca aa ta la], (identity b) as [cb ab tb lb]. simpl.
  intros Hab Hba Hc. leb_cases; try (exfalso; congruence).
  - subst. f_equal. by apply String.leb_antisym.
  - destruct n. by apply String.leb_antisym.
Qed.

(** A strictly sorted list is determined by its members. *)
Lemma sorted_lt_nodup l : StronglySorted credit_lt l → NoDup l.
Proof.
  induction 1 as [|x l Hl IH Hx]; constructor; [|done].
  intros Hin. rewrite Forall_forall in Hx. destruct (Hx x Hin). congruence.
Qed.

Lemma sorted_lt_unique l1 l2 :
  StronglySorted credit_lt l1 → StronglySorted credit_lt l2 → (∀ c, c ∈ l1 ↔ c ∈ l2) → l1 = l2.
Proof.
  intros H1 H2 Hin. apply (StronglySorted_unique_strong credit_lt); [|done..|].
  - intros x y _ _ [??] [??]. congruence.
  - apply NoDup_Permutation; eauto using sorted_lt_nodup.
Qed.

Lemma sorted_strict l :
  NoDup l →
  (∀ a b, a ∈ l → b ∈ l → credit_leb a b = true → credit_leb b a = true → a = b) →
  StronglySorted credit_lt (sorted_by credit_leb l).
Proof.
  intros Hnd Hanti.
  pose proof (sorted_by_sorted _ credit_leb_total credit_leb_trans l) as Hs.
  assert (NoDup (sorted_by credit_leb l)) as Hnd' by by rewrite sorted_by_perm.
  assert (∀ x, x ∈ sorted_by credit_leb l → x ∈ l) as Hin by (intros x; apply elem_of_sorted_by).
  revert Hs Hnd' Hin. generalize (sorted_by credit_leb l) as k.
  induction 1 as [|x k Hk IH Hx]; [constructor|]. intros [Hxk Hnk]%NoDup_cons Hin.
  constructor; [apply IH; [done|]; intros; apply Hin; by right|].
  rewrite Forall_forall in *. intros y Hy. split; [by apply Hx|].
  destruct (credit_leb y x) eqn:E; [|done]. destruct Hxk.
  rewrite (Hanti x y); [done|apply Hin; by left|apply Hin; by right|by apply Hx|done].
Qed.

(** ** The observation loop *)

Definition obs_wf (obs : list (SettlementIdentity * OnChainCredit)) : Prop :=
  NoDup obs.*1 ∧ ∀ i c, (i, c) ∈ obs → i = identity c.

Lemma obs_wf_set obs c : obs_wf obs → obs_wf (od_set (identity c) c obs).
Proof.
  intros [Hnd Hid]. split; [by apply od_set_nodup|].
  intros i c' [[-> ->]|[_ Hin]]%elem_of_od_set; [done|by apply Hid|done].
Qed.

(** Two observations of one settlement in a well-formed map are equal. *)
Lemma obs_functional obs c1 c2 :
  obs_wf obs → (identity c1, c1) ∈ obs → (identity c2, c2) ∈ obs →
  identity c1 = identity c2 → c1 = c2.
Proof.
  intros [Hnd _] H1 H2 E. apply (od_get_in _ _ _ Hnd) in H1, H2. congruence.
Qed.

Section observe.
Variables (cid : Z) (asset_ payee_ : option string).
Notation decodes := (Forall2 (λ log c, decode_transfer_log log cid = Ok c)).

Lemma observe_sound logs obs obs' :
  obs_wf obs → observe cid asset_ payee_ logs obs = Ok obs' →
  obs_wf obs' ∧ ∃ cs, decodes logs cs ∧ Forall (in_scope asset_ payee_) cs
    ∧ ∀ c, (identity c, c) ∈ obs' ↔ (identity c, c) ∈ obs ∨ c ∈ cs.
Proof.
  revert obs. induction logs as [|log logs IH]; intros obs Hobs; simpl.
  { intros [= <-]. split; [done|]. exists []. split_and!; [constructor..|].
    intros c. rewrite elem_of_nil. tauto. }
  intros H. inv_res. apply IH in H as (Hobs' & cs & Hdec & Hscope & Hin); [|by apply obs_wf_set].
  split; [done|]. exists (x :: cs). split_and!; [by constructor|by constructor|].
  intros c. rewrite Hin, elem_of_od_set, elem_of_cons by apply Hobs. split.
  - intros [[[_ ->]|[_ ?]]|?]; tauto.
  - intros [Hc|[->|Hc]]; [|tauto..].
    destruct (decide (identity c = identity x)) as [E|]; [|tauto].
    left. left. split; [done|].
    destruct Hobs as [Hnd _]. pose proof (od_get_in _ _ _ Hnd Hc) as Hg.
    rewrite E in Hg. destruct (od_get (identity x) obs); [|done].
    injection Hg as ->. by bool_facts.
Qed.

Lemma observe_complete logs obs cs :
  obs_wf obs → decodes logs cs → Forall (in_scope asset_ payee_) cs →
  consistent (cs ++ obs.*2) → is_Some (match observe cid asset_ payee_ logs obs with
                                      | Ok o => Some o | Raise _ => None end).
Proof.
  intros Hobs Hdec. revert obs Hobs. induction Hdec as [|log c logs cs Hc Hdec IH];
    intros obs Hobs Hscope Hcons; simpl; [by eexists|].
  apply Forall_cons in Hscope as [[Ha Hp] Hscope]. rewrite Hc. simpl. rewrite Ha, Hp. simpl.
  assert (∀ c', od_get (identity c) obs = Some c' → c' = c) as Hprev.
  { intros c' Hg%od_get_elem. pose proof (proj2 Hobs _ _ Hg) as E.
    apply Hcons; [|by left|done]. apply elem_of_app. right.
    apply list_elem_of_fmap. by exists (identity c, c'). }
  assert (match od_get (identity c) obs with
          | Some previous => negb (bool_decide (previous = c)) | None => false end = false) as ->.
  { destruct (od_get (identity c) obs); [|done]. by rewrite bool_decide_true by auto. }
  simpl. apply IH; [by apply obs_wf_set|done|].
  assert (∀ x, x ∈ cs ++ (od_set (identity c) c obs).*2 → x ∈ (c :: cs) ++ obs.*2) as Hsub.
  { intros x. rewrite !elem_of_app, elem_of_cons, !list_elem_of_fmap.
    intros [?|([i c'] & -> & Hin)]; [tauto|]. simpl.
    apply elem_of_od_set in Hin as [[_ ->]|[_ Hin]]; [tauto| |apply Hobs].
    right. by exists (i, c'). }
  intros c1 c2 H1%Hsub H2%Hsub. by apply Hcons.
Qed.
End observe.

(** The credits of a snapshot whose logs all decode. *)
Lemma decoded_credits cid logs :
  (∀ log, log ∈ logs → ∃ c, decode_transfer_log log cid = Ok c) →
  ∃ cs, Forall2 (λ log c, decode_transfer_log log cid = Ok c) logs cs.
Proof.
  induction logs as [|log logs IH]; intros H; [by exists []|].
  destruct (H log) as [c Hc]; [by left|]. destruct IH as [cs Hcs]; [by intros; apply H; right|].
  exists (c :: cs). by constructor.
Qed.

Lemma decoded_members cid logs cs c :
  Forall2 (λ log c, decode_transfer_log log cid = Ok c) logs cs →
  c ∈ cs ↔ ∃ log, log ∈ logs ∧ decode_transfer_log log cid = Ok c.
Proof.
  intros Hcs. split.
  - intros [i Hi]%list_elem_of_lookup. destruct (Forall2_lookup_r _ _ _ _ _ Hcs Hi) as (log & Hl & E).
    exists log. split; [by eapply list_elem_of_lookup_2|done].
  - intros (log & [i Hi]%list_elem_of_lookup & E).
    destruct (Forall2_lookup_l _ _ _ _ _ Hcs Hi) as (c' & Hl & E').
    rewrite E in E'. injection E' as <-. by eapply list_elem_of_lookup_2.
Qed.

(** ** The reconciliation meets its specification *)

Lemma reconciled_unique transfers ledger cid a p r1 r2 :
  reconciled transfers ledger cid a p r1 → reconciled transfers ledger cid a p r2 → r1 = r2.
Proof.
  intros H1 H2. apply sorted_lt_unique; [by eapply rec_sorted|by eapply rec_sorted|].
  intros c. by rewrite (rec_members _ _ _ _ _ _ H1), (rec_members _ _ _ _ _ _ H2).
Qed.

(** The list built from the observations of a snapshot. *)
Lemma observations_reconciled transfers ledger cid a p obs :
  observe cid a p transfers [] = Ok obs →
  reconciled transfers ledger cid a p (sorted_by credit_leb
    (snd <$> filter (λ ic, removed ic.2 = false ∧ ic.1 ∉ known ledger) obs)).
Proof.
  intros (Hobs & cs & Hdec & Hscope & Hin)%observe_sound; [|split; [constructor|]];
    [|by intros ?? ?%elem_of_nil].
  assert (Hmem : ∀ c, c ∈ cs ↔ (identity c, c) ∈ obs).
  { intros c. rewrite Hin, elem_of_nil. tauto. }
  assert (Hlive : ∀ c, c ∈ (filter (λ ic, removed ic.2 = false ∧ ic.1 ∉ known ledger) obs).*2
            ↔ removed c = false ∧ identity c ∉ known ledger ∧ (identity c, c) ∈ obs).
  { intros c. rewrite list_elem_of_fmap. split.
    - intros ([i c'] & -> & [[??] Hc]%list_elem_of_filter). simpl in *.
      pose proof (proj2 Hobs _ _ Hc) as ->. done.
    - intros (? & ? & ?). exists (identity c, c). by rewrite list_elem_of_filter. }
  split.
  - intros log [i Hi]%list_elem_of_lookup.
    destruct (Forall2_lookup_l _ _ _ _ _ Hdec Hi) as (c & Hc & E).
    exists c. split; [done|]. rewrite Forall_forall in Hscope.
    apply Hscope. by eapply list_elem_of_lookup_2.
  - intros l1 l2 c1 c2 H1 H2 E1 E2. apply (obs_functional obs); [done| |];
      apply Hmem, (decoded_members _ _ _ _ Hdec); eauto.
  - intros c. by rewrite elem_of_sorted_by, Hlive, <- (decoded_members _ _ _ _ Hdec), Hmem.
  - apply sorted_strict.
    + apply (NoDup_fmap_1 identity). rewrite <- list_fmap_compose.
      erewrite (list_fmap_ext _ fst); [eapply sublist_NoDup;
        [apply Hobs|apply fmap_sublist, sublist_filter]|].
      intros k [i c] [_ Hk]%list_elem_of_lookup_2%list_elem_of_filter. simpl.
      by rewrite (proj2 Hobs _ _ Hk).
    + intros x y (_ & _ & Hx)%Hlive (_ & _ & Hy)%Hlive Hxy Hyx.
      apply (obs_functional obs); [done..|]. apply credit_leb_antisym; [done..|].
      apply Hmem, (decoded_members _ _ _ _ Hdec) in Hx as (? & _ & [[-> _] _ _ _ _ _ _ _ _]%decode_wf).
      by apply Hmem, (decoded_members _ _ _ _ Hdec) in Hy as (? & _ & [[-> _] _ _ _ _ _ _ _ _]%decode_wf).
Qed.

Lemma find_unreconciled_iff transfers ledger cid ea ep r :
  find_unreconciled transfers ledger cid ea ep = Ok r ↔
    ∃ a p, expected_address ea "expected asset" = Ok a ∧ expected_address ep "expected payee" = Ok p
           ∧ reconciled transfers ledger cid a p r.
Proof.
  unfold find_unreconciled. split.
  - intros H. inv_res. do 2 eexists. split_and!; [done..|]. by apply observations_reconciled.
  - intros (a & p & -> & -> & Hrec). simpl.
    destruct (decoded_credits cid transfers) as [cs Hcs].
    { intros log Hl. destruct (rec_decodes _ _ _ _ _ _ Hrec log Hl) as (c & ? & _). eauto. }
    pose proof (observe_complete cid a p transfers [] cs) as Hc.
    destruct Hc as [obs Hc]; [split; [constructor|]; by intros ?? ?%elem_of_nil|done| | |].
    + apply Forall_forall. intros c (log & Hl & E)%(decoded_members _ _ _ _ Hcs).
      destruct (rec_decodes _ _ _ _ _ _ Hrec log Hl) as (c' & E' & ?). congruence.
    + intros c1 c2. rewrite !app_nil_r.
      intros (l1 & H1 & E1)%(decoded_members _ _ _ _ Hcs) (l2 & H2 & E2)%(decoded_members _ _ _ _ Hcs).
      by apply (rec_consistent _ _ _ _ _ _ Hrec l1 l2).
    + destruct (observe cid a p transfers []) as [o|] eqn:Eo; [|done]. simpl. f_equal.
      by eapply reconciled_unique; [apply observations_reconciled|].
Qed.

Lemma throws_observe cid a p logs obs : throws [ValueError] (observe cid a p logs obs).
Proof.
  revert obs. induction logs as [|log t IH]; intros obs; simpl; [apply throws_ok|].
  apply throws_bind; [apply throws_decode|intros]. repeat throws_step.
Qed.

Lemma throws_find_unreconciled transfers ledger cid ea ep :
  throws [ValueError] (find_unreconciled transfers ledger cid ea ep).
Proof.
  assert (∀ v n w, throws [ValueError] (_exact_hex v n w)) as Hx
    by (intros; unfold _exact_hex; solve_throws).
  unfold find_unreconciled, expected_address, _address.
  repeat throws_step. apply throws_observe.
Qed.

(** ** Asset scoping *)

Definition own_log (cid : Z) (a : string) (log : pydict) : bool :=
  match decode_transfer_log log cid with
  | Ok c => (asset (identity c) =? a)%string
  | Raise _ => false
  end.

Lemma expected_address_normal a what : normal_hex 20 a → expected_address (Some a) what = Ok (Some a).
Proof.
  intros Ha. unfold expected_address, _address. rewrite exact_hex_id by done.
  by destruct Ha as [(d & -> & _) _].
Qed.

Lemma scoped_logs cid a logs decoded :
  map_res (λ log, credit ← decode_transfer_log log cid; Ok (log, asset (identity credit))) logs
    = Ok decoded →
  (filter (λ la, la.2 = a) decoded).*1 = filter (λ log, own_log cid a log = true) logs.
Proof.
  intros H%map_res_ok. induction H as [|log [l b] logs decoded Hx H IH]; [done|]. inv_res.
  unfold own_log in IH |- *. rewrite !filter_cons. simpl. rewrite H0.
  destruct (String.eqb_spec (asset (identity x)) a); case_decide; try done; csimpl; by rewrite IH.
Qed.

Lemma reconcile_asset_scoped_iff transfers ledger cid ea ep r :
  reconcile_asset_scoped transfers ledger cid ea ep = Ok r ↔
    ∃ a p, _address (VStr ea) "expected asset" = Ok a
      ∧ expected_address ep "expected payee" = Ok p
      ∧ (∀ log, log ∈ transfers → ∃ c, decode_transfer_log log cid = Ok c)
      ∧ reconciled (filter (λ log, own_log cid a log = true) transfers) ledger cid (Some a) p r.
Proof.
  unfold reconcile_asset_scoped. split.
  - intros H. inv_res. rename x into a.
    match goal with H : map_res _ _ = Ok _ |- _ =>
      pose proof (scoped_logs _ a _ _ H) as Es; apply map_res_ok in H as Hdec end.
    rewrite Es in *. apply find_unreconciled_iff in H as (a' & p & Ha & Hp & Hrec).
    rewrite expected_address_normal in Ha by by eapply exact_hex_normal. injection Ha as <-.
    exists a, p. split_and!; [done..| |done].
    intros log [i Hi]%list_elem_of_lookup.
    destruct (Forall2_lookup_l _ _ _ _ _ Hdec Hi) as (y & _ & Hy). inv_res. eauto.
  - intros (a & p & Ha & Hp & Hdec & Hrec). rewrite Ha. cbn [mbind res_bind].
    destruct (map_res _ transfers) as [decoded|e] eqn:E; cbn [mbind res_bind].
    + rewrite (scoped_logs _ _ _ _ E). apply find_unreconciled_iff. exists (Some a), p.
      split_and!; [|done..]. by eapply expected_address_normal, exact_hex_normal.
    + exfalso. clear Hrec. induction transfers as [|log t IH]; [done|]. simpl in E.
      destruct (Hdec log) as [c Hc]; [by left|]. rewrite Hc in E. simpl in E.
      destruct (map_res _ t); [done|]. apply IH; [|done]. intros. apply Hdec. by right.
Qed.

(** ** Concrete snapshots *)

Definition sample_credit (i v : Z) (rm : bool) : OnChainCredit :=
  mk_credit (mk_identity 8453 ("0x" +:+ str_repeat "a" 40) ("0x" +:+ str_repeat "1" 64) i)
    ("0x" +:+ str_repeat "2" 64) 7 ("0x" +:+ str_repeat "b" 40) ("0x" +:+ str_repeat "c" 40) v rm.
Definition sample_log (i v : Z) (rm : bool) : pydict := log_of_credit (sample_credit i v rm).

(** * Properties *)

(** C1: [find_unreconciled] meets its specification in both directions: it
    returns [r] exactly when the expected addresses are valid, every log decodes
    within the expected asset and payee, no settlement has two observations, and
    [r] is the strictly sorted list of all live credits absent from the ledger.
    So nothing is missed, nothing is invented, and everything else raises. *)
Theorem find_unreconciled_spec transfers ledger cid ea ep r :
  find_unreconciled transfers ledger cid ea ep = Ok r ↔
    ∃ a p, expected_address ea "expected asset" = Ok a ∧ expected_address ep "expected payee" = Ok p
           ∧ reconciled transfers ledger cid a p r.
Proof. apply find_unreconciled_iff. Qed.

(** The result depends only on which logs were seen and which settlements
    are known: order and repetition of logs, and how an entry is stored, are
    irrelevant, for success and for refusal alike. *)
Theorem find_unreconciled_snapshot t1 t2 l1 l2 cid ea ep r :
  (∀ log, log ∈ t1 ↔ log ∈ t2) → known l1 = known l2 →
  find_unreconciled t1 l1 cid ea ep = Ok r ↔ find_unreconciled t2 l2 cid ea ep = Ok r.
Proof.
  intros Ht Hl. rewrite !find_unreconciled_iff.
  assert (∀ u1 u2 k1 k2 a p, (∀ log, log ∈ u1 ↔ log ∈ u2) → known k1 = known k2 →
    reconciled u1 k1 cid a p r → reconciled u2 k2 cid a p r) as Hone.
  { intros u1 u2 k1 k2 a p Hu Hk [Hd Hc Hm Hs]. split; [| |intros c; rewrite Hm, Hk|done].
    - intros log Hlog. by apply Hd, Hu.
    - intros log1 log2 c1 c2 H1%Hu H2%Hu. by apply Hc.
    - split; intros (? & ? & log & ? & ?); split_and!; try done;
        exists log; (split; [by apply Hu|done]). }
  split; intros (a & p & ? & ? & Hr); exists a, p; (split_and!; [done..|]); eapply Hone;
    try exact Hr; try done. all: by intros log; rewrite Ht.
Qed.

Lemma find_unreconciled_snapshot_witness :
  find_unreconciled [sample_log 1 5 false; sample_log 0 9 false; sample_log 1 5 false] ∅ 8453
    None None = Ok [sample_credit 0 9 false; sample_credit 1 5 false].
Proof.
  refine (proj1 (find_unreconciled_snapshot
    [sample_log 0 9 false; sample_log 1 5 false]
    [sample_log 1 5 false; sample_log 0 9 false; sample_log 1 5 false] ∅ ∅ 8453 None None
    [sample_credit 0 9 false; sample_credit 1 5 false] _ eq_refl) _).
  - intros log. rewrite !elem_of_cons, !elem_of_nil. tauto.
  - vm_compute. reflexivity.
Defined.

(** Booking settlements removes exactly those from the next reconciliation
    of the same snapshot; booking all of them leaves nothing to reconcile. *)
Theorem booked_credits_are_reconciled transfers ledger cid ea ep r booked :
  find_unreconciled transfers ledger cid ea ep = Ok r →
  find_unreconciled transfers (ledger ∪ list_to_set (EntryIdentity <$> booked)) cid ea ep
  = Ok (filter (λ c, identity c ∉ booked) r).
Proof.
  rewrite !find_unreconciled_iff. intros (a & p & Ha & Hp & [Hd Hc Hm Hs]).
  exists a, p. split_and!; [done..|]. split; [done..| |].
  - intros c. rewrite list_elem_of_filter, Hm. unfold known. rewrite set_map_union_L.
    rewrite not_elem_of_union.
    assert (identity c ∉ set_map (D:=gset SettlementIdentity) entry_identity
              (list_to_set (C:=gset LedgerEntry) (EntryIdentity <$> booked))
            ↔ identity c ∉ booked) as ->; [|tauto].
    rewrite elem_of_map. setoid_rewrite elem_of_list_to_set.
    setoid_rewrite list_elem_of_fmap. split.
    + intros H Hb. apply H. exists (EntryIdentity (identity c)). eauto.
    + intros H (e & He & i & -> & Hi). apply H. by rewrite He.
  - clear -Hs. induction Hs as [|x l Hl IH Hx]; [constructor|]. rewrite filter_cons.
    case_decide; [|done]. constructor; [done|]. rewrite Forall_forall in *.
    intros y [_ Hy]%list_elem_of_filter. by apply Hx.
Qed.

Lemma booked_credits_are_reconciled_witness :
  find_unreconciled [sample_log 0 9 false; sample_log 1 5 false]
    (∅ ∪ list_to_set (EntryIdentity <$> [identity (sample_credit 0 9 false)])) 8453 None None
  = Ok [sample_credit 1 5 false].
Proof.
  rewrite (booked_credits_are_reconciled _ _ _ _ _
             [sample_credit 0 9 false; sample_credit 1 5 false]);
    vm_compute; reflexivity.
Defined.

(** Two observations of one settlement that differ in anything, a reorged
    and a live copy of a log for example, make the snapshot inconclusive: the
    reconciliation raises a [ValueError] whatever else it contains. *)
Theorem conflicting_observations_fail_closed transfers ledger cid ea ep log1 log2 c1 c2 :
  log1 ∈ transfers → log2 ∈ transfers →
  decode_transfer_log log1 cid = Ok c1 → decode_transfer_log log2 cid = Ok c2 →
  identity c1 = identity c2 → c1 ≠ c2 →
  ∃ e, find_unreconciled transfers ledger cid ea ep = Raise e
       ∧ subclass (exn_cls e) ValueError = true.
Proof.
  intros H1 H2 E1 E2 Hid Hne. destruct (find_unreconciled _ _ _ _ _) as [r|e] eqn:E.
  { apply find_unreconciled_iff in E as (a & p & _ & _ & Hr).
    destruct Hne. by apply (rec_consistent _ _ _ _ _ _ Hr log1 log2). }
  exists e. split; [done|].
  pose proof (throws_find_unreconciled transfers ledger cid ea ep e E) as Ht.
  simpl in Ht. by rewrite orb_false_r in Ht.
Qed.

Lemma conflicting_observations_fail_closed_witness :
  ∃ e, find_unreconciled [sample_log 0 9 false; sample_log 3 1 false; sample_log 0 9 true]
         ∅ 8453 None None = Raise e
       ∧ subclass (exn_cls e) ValueError = true.
Proof.
  apply (conflicting_observations_fail_closed _ _ _ _ _ (sample_log 0 9 false)
    (sample_log 0 9 true) (sample_credit 0 9 false) (sample_credit 0 9 true)).
  - left.
  - right. right. left.
  - vm_compute. reflexivity.
  - vm_compute. reflexivity.
  - reflexivity.
  - intros [=].
Defined.

(** Decoded credits are exactly the normalised ones, and the log of a
    normalised credit decodes to that credit: nothing of a credit, its
    provenance included, is lost or altered between log and record. *)
Theorem transfer_log_roundtrip cid c :
  (credit_wf cid c ↔ ∃ log, decode_transfer_log log cid = Ok c)
  ∧ (credit_wf cid c ↔ decode_transfer_log (log_of_credit c) cid = Ok c).
Proof.
  split; split; intros H.
  - eexists. by apply decode_log_of_credit.
  - destruct H as [log H]. by eapply decode_wf.
  - by apply decode_log_of_credit.
  - by eapply decode_wf.
Qed.

(** The asset-scoped reconciliation attributes only the expected token: its
    result is the strict reconciliation of the own-asset logs, every credit of
    it has the expected asset, and decodable logs of other tokens, whatever
    their recipient, change neither the result nor whether there is one. *)
Theorem asset_scope_ignores_foreign_tokens t1 log t2 ledger cid ea ep r a c :
  _address (VStr ea) "expected asset" = Ok a →
  decode_transfer_log log cid = Ok c → asset (identity c) ≠ a →
  (reconcile_asset_scoped (t1 ++ log :: t2) ledger cid ea ep = Ok r ↔
     reconcile_asset_scoped (t1 ++ t2) ledger cid ea ep = Ok r)
  ∧ (reconcile_asset_scoped (t1 ++ t2) ledger cid ea ep = Ok r →
       ∀ k, k ∈ r → asset (identity k) = a).
Proof.
  intros Ha Hc Hne. rewrite !reconcile_asset_scoped_iff. split.
  - assert (∀ a', Ok a = Ok a' →
      filter (λ log, own_log cid a' log = true) (t1 ++ log :: t2) =
      filter (λ log, own_log cid a' log = true) (t1 ++ t2)) as Hf.
    { intros a' [= <-]. rewrite !filter_app, filter_cons, decide_False; [done|].
      unfold own_log. rewrite Hc. by intros E%String.eqb_eq. }
    split; intros (a' & p & Ha' & Hp & Hdec & Hrec); exists a', p;
      rewrite Ha in Ha'; rewrite (Hf _ Ha') in *; (split_and!; [congruence|done| |done]);
      intros l; [intros Hl; apply Hdec|];
      rewrite !elem_of_app, ?elem_of_cons in *; [tauto|].
    intros [?|[->|?]]; [| by eauto |]; apply Hdec; rewrite elem_of_app; tauto.
  - intros (a' & p & Ha' & _ & _ & Hrec) k (_ & _ & l & [Hl _]%list_elem_of_filter & E)
      %(rec_members _ _ _ _ _ _ Hrec).
    rewrite Ha in Ha'. injection Ha' as <-. unfold own_log in Hl. rewrite E in Hl.
    by apply String.eqb_eq in Hl.
Qed.

Lemma asset_scope_ignores_foreign_tokens_witness :
  let foreign := log_of_credit (mk_credit
    (mk_identity 8453 ("0x" +:+ str_repeat "f" 40) ("0x" +:+ str_repeat "1" 64) 4)
    ("0x" +:+ str_repeat "2" 64) 7 ("0x" +:+ str_repeat "b" 40) ("0x" +:+ str_repeat "c" 40)
    9 false) in
  reconcile_asset_scoped ([sample_log 0 9 false] ++ foreign :: [sample_log 1 5 false]) ∅ 8453
    ("0x" +:+ str_repeat "A" 40) None = Ok [sample_credit 0 9 false; sample_credit 1 5 false].
Proof.
  intros foreign.
  eapply (asset_scope_ignores_foreign_tokens _ foreign).
  - vm_compute. reflexivity.
  - vm_compute. reflexivity.
  - vm_compute. intros [=].
  - vm_compute. reflexivity.
Defined.

(** ** Leniency of the hex parsers *)

(** [bytes.fromhex] skips white space, so fixed-size hex may contain some; and
    [int(_, 16)] accepts a sign, so a quantity may carry one.  A data word with
    inner white space passes [_exact_hex] and then fails in [int] with a plain
    [ValueError] instead of a [ReconciliationError]. *)
Example exact_hex_accepts_spaces :
  _exact_hex (VStr ("0x" +:+ str_repeat " " 40)) 20 "address"
  = Ok ("0x" +:+ str_repeat " " 40).
Proof. vm_compute. reflexivity. Qed.

Example quantity_accepts_sign : _quantity (VStr "0x+5") "log index" = Ok 5.
Proof. vm_compute. reflexivity. Qed.

Example data_word_plain_value_error :
  decode_transfer_log (dict_set "data" (VStr ("0xaa  " +:+ str_repeat "b" 60)) (sample_log 0 9 false))
    8453
  = raise ValueError "invalid literal for int() with base 16".
Proof. vm_compute. reflexivity. Qed.
