(* ===== verification/Confirmer.v ===== *)
(** * Settlement confirmation by event watching ([psv/reference_sut/confirmer.py])

    The confirmer credits a submitted transaction when its receipt carries a
    [Transfer] log with the watched topic and the order's [AuthorizationUsed]
    log.  The theorems: a confirmation is backed by two distinct logs of that
    very transaction (soundness), the decision is exactly the last matching pair
    (functional behaviour), and a token whose event signature drifts makes the
    confirmer blind, which the divergence detector reports as a silent loss.

    [fetch_logs] is a parameter, as in the code; it runs in a state [S]. *)

From S2P Require Import Prelude PyStr PyVal Anvil Chain Divergence.
Local Open Scope Z_scope.

Definition TOPIC_TRANSFER : string :=
  "0xddf252ad1be2c89b69c2b068fc378daa952ba7f163c4a11628f55a4df523b3ef".
Definition TOPIC_AUTHORIZATION_USED : string :=
  "0x98de503528ee59b575ef0c0a2576a82497bfc029a5685b209e9ec333479b10a5".

Definition topic_addr (addr : string) : string :=
  "0x" +:+ rjust 64 "0" (removeprefix "0x" (lower addr)).
Definition topic_nonce (nonce : string) : string :=
  "0x" +:+ rjust 64 "0" (removeprefix "0x" (lower nonce)).

Definition _same_hex (left : pyval) (right : string) : bool :=
  match as_str left with Some l => (lower l =? lower right)%string | None => false end.

(** [isinstance(value, int)] holds of booleans too. *)
Definition _quantity (value : pyval) : option Z :=
  match value with
  | VInt z => Some z
  | VBool b => Some (if b then 1 else 0)
  | VStr s => py_int16 s
  | _ => None
  end.

Definition quantity_is (value : pyval) (n : Z) : bool :=
  match _quantity value with Some q => q =? n | None => false end.

Definition _topics (log : pydict) : list pyval := default [] (as_list (dict_get "topics" log)).

Definition _receipt_log_matches_fetched (receipt_log : pydict) (fetched_logs : list pydict) : bool :=
  match as_str (dict_get "transactionHash" receipt_log),
        _quantity (dict_get "logIndex" receipt_log) with
  | Some tx_hash, Some log_index =>
      existsb (λ candidate, _same_hex (dict_get "transactionHash" candidate) tx_hash
                            && quantity_is (dict_get "logIndex" candidate) log_index) fetched_logs
  | _, _ => false
  end.

Record EventWatchingConfirmer (S : Type) := {
  fetch_logs : string → list (option string) → Z → prog S (list pydict);
  watched_topic0 : string
}.
Arguments fetch_logs {S} _.
Arguments watched_topic0 {S} _.

(** The keyword arguments of one confirmation. *)
Record settlement_query := {
  token : string; payer : string; payee : string; expected_value : Z;
  authorization_nonce : string; submitted_tx : string
}.

Section confirm.
Context {S : Type} (self : EventWatchingConfirmer S) (q : settlement_query).

(** The [continue] guards of the loop: the log's index if it is a live log of
    the token in the submitted transaction and block. *)
Definition own_log_index (block_number : Z) (log : pydict) : option Z :=
  if bool_decide (dict_get "removed" log = VBool true) then None
  else if negb (_same_hex (dict_get "address" log) (token q)) then None
  else if negb (_same_hex (dict_get "transactionHash" log) (submitted_tx q)) then None
  else if negb (quantity_is (dict_get "blockNumber" log) block_number) then None
  else _quantity (dict_get "logIndex" log).

Definition three_topics (log : pydict) (t0 t1 t2 : string) : bool :=
  match _topics log with
  | [x0; x1; x2] => _same_hex x0 t0 && _same_hex x1 t1 && _same_hex x2 t2
  | _ => false
  end.

Definition is_transfer (fetched_logs : list pydict) (log : pydict) : bool :=
  three_topics log (watched_topic0 self) (topic_addr (payer q)) (topic_addr (payee q))
  && quantity_is (dict_get "data" log) (expected_value q)
  && _receipt_log_matches_fetched log fetched_logs.

Definition is_authorization (log : pydict) : bool :=
  three_topics log TOPIC_AUTHORIZATION_USED (topic_addr (payer q))
    (topic_nonce (authorization_nonce q)).

(** One iteration: the running [transfer_index] and [authorization_index]. *)
Definition scan_log (block_number : Z) (fetched_logs : list pydict)
    (acc : option Z * option Z) (log : pydict) : option Z * option Z :=
  match own_log_index block_number log with
  | None => acc
  | Some log_index =>
      (if is_transfer fetched_logs log then Some log_index else acc.1,
       if is_authorization log then Some log_index else acc.2)
  end.

Definition pick_index (acc : option Z * option Z) : option Z :=
  match acc with
  | (Some transfer_index, Some authorization_index) =>
      if negb (transfer_index =? authorization_index) then Some transfer_index else None
  | _ => None
  end.

(** The guards before the log fetch: the receipt and its block number. *)
Definition receipt_block (receipt : option pydict) (from_block : Z) : option (pydict * Z) :=
  match receipt with
  | None => None
  | Some r =>
      if negb (quantity_is (dict_get "status" r) 1) then None
      else if negb (_same_hex (dict_get "transactionHash" r) (submitted_tx q)) then None
      else if negb (_same_hex (dict_get "to" r) (token q)) then None
      else match _quantity (dict_get "blockNumber" r) with
           | None => None
           | Some b => if b <? from_block then None else Some (r, b)
           end
  end.

Definition settlement_log_index (receipt : option pydict) (from_block : Z) : prog S (option Z) :=
  match receipt_block receipt from_block with
  | None => mret None
  | Some (r, block_number) =>
      let topics := [Some (watched_topic0 self); Some (topic_addr (payer q));
                     Some (topic_addr (payee q))] in
      fetched_logs ← fetch_logs self (token q) topics block_number;
      match as_list (dict_get "logs" r) with
      | None => mret None
      | Some raw_receipt_logs =>
          let receipt_logs := omap as_dict raw_receipt_logs in
          mret (pick_index (foldl (scan_log block_number fetched_logs) (None, None) receipt_logs))
      end
  end.

Definition is_settled (receipt : option pydict) (from_block : Z) : prog S bool :=
  idx ← settlement_log_index receipt from_block;
  mret (match idx with Some _ => true | None => false end).
End confirm.

(** * Specification *)

(** The logs of a receipt. *)
Definition receipt_logs (r : pydict) : list pydict :=
  omap as_dict (default [] (as_list (dict_get "logs" r))).

(** The index of the last own log with property [p]. *)
Definition last_index (q : settlement_query) (b : Z) (p : pydict → bool) (logs : list pydict)
    : option Z :=
  last (omap (λ log, if p log then own_log_index q b log else None) logs).

(** A live log number [i] of the token in the submitted transaction and block. *)
Definition own_log (q : settlement_query) (b : Z) (log : pydict) (i : Z) : Prop :=
  dict_get "removed" log ≠ VBool true
  ∧ _same_hex (dict_get "address" log) (token q) = true
  ∧ _same_hex (dict_get "transactionHash" log) (submitted_tx q) = true
  ∧ quantity_is (dict_get "blockNumber" log) b = true
  ∧ _quantity (dict_get "logIndex" log) = Some i.

(** What stands behind a confirmed index [i]: the last own [Transfer] of the
    token from payer to payee with the expected value in the successful receipt
    of the submitted transaction, reported by the node independently, and under
    another index the payer's [AuthorizationUsed] log with the order's nonce. *)
Definition settlement_evidence {S} (self : EventWatchingConfirmer S) (q : settlement_query)
    (receipt : option pydict) (from_block : Z) (s : S) (i : Z) (s' : S) : Prop :=
  ∃ r b fetched tlog alog j,
    receipt = Some r ∧ quantity_is (dict_get "status" r) 1 = true
    ∧ _same_hex (dict_get "transactionHash" r) (submitted_tx q) = true
    ∧ _same_hex (dict_get "to" r) (token q) = true
    ∧ _quantity (dict_get "blockNumber" r) = Some b ∧ from_block ≤ b
    ∧ fetch_logs self (token q) [Some (watched_topic0 self); Some (topic_addr (payer q));
                                 Some (topic_addr (payee q))] b s = (Ok fetched, s')
    ∧ tlog ∈ receipt_logs r ∧ own_log q b tlog i
    ∧ three_topics tlog (watched_topic0 self) (topic_addr (payer q)) (topic_addr (payee q)) = true
    ∧ _quantity (dict_get "data" tlog) = Some (expected_value q)
    ∧ (∃ candidate h, candidate ∈ fetched ∧ dict_get "transactionHash" tlog = VStr h
         ∧ _same_hex (dict_get "transactionHash" candidate) h = true
         ∧ _quantity (dict_get "logIndex" candidate) = Some i)
    ∧ alog ∈ receipt_logs r ∧ own_log q b alog j ∧ i ≠ j
    ∧ three_topics alog TOPIC_AUTHORIZATION_USED (topic_addr (payer q))
        (topic_nonce (authorization_nonce q)) = true.

(** * Lemmas *)

Section confirm_lemmas.
Context {S : Type} (self : EventWatchingConfirmer S) (q : settlement_query).

Lemma last_index_snoc b p logs log :
  last_index q b p (logs ++ [log]) =
    match own_log_index q b log with
    | Some i => if p log then Some i else last_index q b p logs
    | None => last_index q b p logs
    end.
Proof.
  unfold last_index. rewrite omap_app. simpl.
  destruct (p log), (own_log_index q b log); simpl; by rewrite ?app_nil_r, ?last_snoc.
Qed.

(** The loop computes the two last indices. *)
Lemma scan_logs_spec b fetched logs :
  foldl (scan_log self q b fetched) (None, None) logs
  = (last_index q b (is_transfer self q fetched) logs,
     last_index q b (is_authorization q) logs).
Proof.
  induction logs as [|log logs IH] using rev_ind; [done|].
  rewrite foldl_app, IH, !last_index_snoc. simpl. unfold scan_log.
  by destruct (own_log_index q b log).
Qed.

Lemma last_index_elem b p logs i :
  last_index q b p logs = Some i →
  ∃ log, log ∈ logs ∧ p log = true ∧ own_log_index q b log = Some i.
Proof.
  unfold last_index. intros (log & Hlog & E)%last_Some_elem_of%list_elem_of_omap.
  exists log. destruct (p log); [done|discriminate].
Qed.

Lemma last_index_none b p logs :
  (∀ log, log ∈ logs → p log = true → own_log_index q b log = None) →
  last_index q b p logs = None.
Proof.
  intros H. destruct (last_index q b p logs) eqn:E; [|done].
  apply last_index_elem in E as (log & Hin & Hp & Ho). by rewrite (H log) in Ho.
Qed.

Lemma settlement_log_index_run receipt from_block s o s' :
  settlement_log_index self q receipt from_block s = (Ok o, s') →
  match receipt_block q receipt from_block with
  | None => o = None ∧ s' = s
  | Some (r, b) =>
      ∃ fetched,
        fetch_logs self (token q) [Some (watched_topic0 self); Some (topic_addr (payer q));
                                   Some (topic_addr (payee q))] b s = (Ok fetched, s')
        ∧ o = pick_index (last_index q b (is_transfer self q fetched) (receipt_logs r),
                          last_index q b (is_authorization q) (receipt_logs r))
  end.
Proof.
  unfold settlement_log_index, receipt_logs.
  destruct (receipt_block q receipt from_block) as [[r b]|]; intros H; [|by inv_res].
  apply prog_bind_ok in H as (fetched & s1 & Hf & H).
  destruct (as_list (dict_get "logs" r)) as [raw|]; inv_res; exists fetched; split; try done.
  simpl. by rewrite scan_logs_spec.
Qed.

Lemma receipt_block_ok receipt from_block r b :
  receipt_block q receipt from_block = Some (r, b) ↔
    receipt = Some r ∧ quantity_is (dict_get "status" r) 1 = true
    ∧ _same_hex (dict_get "transactionHash" r) (submitted_tx q) = true
    ∧ _same_hex (dict_get "to" r) (token q) = true
    ∧ _quantity (dict_get "blockNumber" r) = Some b ∧ from_block ≤ b.
Proof.
  unfold receipt_block. destruct receipt as [r'|]; [|by split; [|intros ([=] & _)]].
  split.
  - repeat match goal with |- context [if ?c then _ else _] => destruct c eqn:? end; try done.
    destruct (_quantity (dict_get "blockNumber" r')) eqn:E; [|done].
    destruct (Z.ltb_spec z from_block); [done|]. intros [= -> ->]. by bool_facts.
  - intros ([= ->] & -> & -> & -> & -> & Hle). simpl.
    by rewrite (proj2 (Z.ltb_ge _ _)).
Qed.

Lemma pick_index_some acc i :
  pick_index acc = Some i ↔ acc.1 = Some i ∧ ∃ j, acc.2 = Some j ∧ i ≠ j.
Proof.
  destruct acc as [[t|] [a|]]; simpl; try (split; [done|]; by intros (? & ? & ? & ?)).
  destruct (Z.eqb_spec t a); simpl; split.
  - done.
  - intros ([= ->] & j & [= <-] & ?). done.
  - intros [= <-]. eauto.
  - by intros ([= ->] & _).
Qed.

Lemma own_log_index_ok b log i : own_log_index q b log = Some i ↔ own_log q b log i.
Proof.
  unfold own_log_index, own_log. case_bool_decide; [by split; [|intros []]|].
  repeat match goal with |- context [if negb ?c then _ else _] => destruct c; simpl end; split;
    try done; try tauto; by intros (? & ? & ? & ? & ?).
Qed.
End confirm_lemmas.

Lemma matches_fetched_ok log fetched :
  _receipt_log_matches_fetched log fetched = true →
  ∃ candidate h i, candidate ∈ fetched ∧ dict_get "transactionHash" log = VStr h
    ∧ _quantity (dict_get "logIndex" log) = Some i
    ∧ _same_hex (dict_get "transactionHash" candidate) h = true
    ∧ _quantity (dict_get "logIndex" candidate) = Some i.
Proof.
  unfold _receipt_log_matches_fetched.
  destruct (dict_get "transactionHash" log) as [| | | |h| | |]; try done. simpl.
  destruct (_quantity (dict_get "logIndex" log)) as [i|]; [|done].
  intros (c & Hc & Hm)%existsb_exists. bool_facts. exists c, h, i.
  unfold quantity_is in *. destruct (_quantity (dict_get "logIndex" c)); [|done]. bool_facts. subst.
  split_and!; try done. by apply list_elem_of_In.
Qed.

Lemma quantity_is_ok v n : quantity_is v n = true ↔ _quantity v = Some n.
Proof.
  unfold quantity_is. destruct (_quantity v); [|done]. rewrite Z.eqb_eq. split; congruence.
Qed.

Lemma confirmed_evidence {S} (self : EventWatchingConfirmer S) q receipt from_block s i s' :
  settlement_log_index self q receipt from_block s = (Ok (Some i), s') →
  settlement_evidence self q receipt from_block s i s'.
Proof.
  intros H%settlement_log_index_run.
  destruct (receipt_block q receipt from_block) as [[r b]|] eqn:Er; [|by destruct H].
  apply receipt_block_ok in Er as (-> & Hs & Htx & Hto & Hn & Hb).
  destruct H as (fetched & Hf & (Ht & j & Ha & Hij)%eq_sym%pick_index_some). simpl in *.
  apply last_index_elem in Ht as (tlog & Hin & Htr & Hown%own_log_index_ok).
  apply last_index_elem in Ha as (alog & Hin' & Hau & Hown'%own_log_index_ok).
  apply andb_true_iff in Htr as [[Htr Hd%quantity_is_ok]%andb_true_iff Hm].
  apply matches_fetched_ok in Hm as (c & h & i' & Hc & Hh & Hi & Hch & Hci).
  pose proof Hown as (_ & _ & _ & _ & Hi'). assert (i' = i) as -> by congruence.
  exists r, b, fetched, tlog, alog, j.
  repeat match goal with
  | |- (∃ _, _) ∧ _ => split; [by exists c, h|]
  | |- _ ∧ _ => split; [done|]
  end. done.
Qed.

(** ** A concrete confirmation *)

Definition sample_query : settlement_query := {|
  token := "0xT"; payer := "0xaa"; payee := "0xbb"; expected_value := 10;
  authorization_nonce := "0x01"; submitted_tx := "0xABC" |}.
Definition sample_event (index : Z) (topics : list string) (data : string) : pydict := dict_of [
  ("removed", VBool false); ("address", VStr "0xt"); ("transactionHash", VStr "0xabc");
  ("blockNumber", VStr "0x5"); ("logIndex", VInt index); ("topics", VList (VStr <$> topics));
  ("data", VStr data)].
Definition sample_transfer (topic0 : string) : pydict :=
  sample_event 3 [topic0; topic_addr "0xaa"; topic_addr "0xbb"] "0xa".
Definition sample_receipt (topic0 : string) : pydict := dict_of [
  ("status", VStr "0x1"); ("transactionHash", VStr "0xabc"); ("to", VStr "0xT");
  ("blockNumber", VStr "0x5");
  ("logs", VList [VDict (sample_event 2 [TOPIC_AUTHORIZATION_USED; topic_addr "0xaa";
                                         topic_nonce "0x01"] "0x");
                  VDict (sample_transfer topic0)])].
(** A confirmer whose node knows the legacy event only. *)
Definition sample_confirmer (logs : list pydict) : EventWatchingConfirmer unit := {|
  fetch_logs := λ _ _ _, mret logs; watched_topic0 := TOPIC_TRANSFER |}.

(** * Properties *)

(** C2: a confirmation is backed by evidence.  A returned index is the index of
    a live [Transfer] log of the token from payer to payee with the expected
    value, which the node also reports independently; the same successful
    transaction carries, under another index, the payer's [AuthorizationUsed]
    log with this order's nonce. *)
Theorem confirmation_sound {S} (self : EventWatchingConfirmer S) q receipt from_block s i s' :
  settlement_log_index self q receipt from_block s = (Ok (Some i), s') →
  settlement_evidence self q receipt from_block s i s'.
Proof. apply confirmed_evidence. Qed.

Lemma confirmation_sound_witness :
  let self := sample_confirmer [sample_transfer TOPIC_TRANSFER] in
  let r := sample_receipt TOPIC_TRANSFER in
  settlement_log_index self sample_query (Some r) 0 tt = (Ok (Some 3), tt)
  ∧ ∃ tlog, tlog ∈ receipt_logs r ∧ _quantity (dict_get "data" tlog) = Some 10.
Proof.
  intros self r.
  assert (settlement_log_index self sample_query (Some r) 0 tt = (Ok (Some 3), tt)) as E
    by (vm_compute; reflexivity).
  split; [done|].
  destruct (confirmation_sound self sample_query (Some r) 0 tt 3 tt E)
    as (r' & b & f & tlog & alog & j & Hr & _ & _ & _ & _ & _ & _ & Hin & _ & _ & Hd & _).
  injection Hr as <-. by exists tlog.
Defined.

(** The decision is exactly: the receipt's guards hold, and the last own
    [Transfer] match and the last own authorization match exist under different
    indices. *)
Theorem confirmation_exact {S} (self : EventWatchingConfirmer S) q r b from_block s fetched s' o :
  receipt_block q (Some r) from_block = Some (r, b) →
  fetch_logs self (token q) [Some (watched_topic0 self); Some (topic_addr (payer q));
                             Some (topic_addr (payee q))] b s = (Ok fetched, s') →
  settlement_log_index self q (Some r) from_block s = (Ok o, s') ↔
    o = match last_index q b (is_transfer self q fetched) (receipt_logs r),
              last_index q b (is_authorization q) (receipt_logs r) with
        | Some i, Some j => if i =? j then None else Some i
        | _, _ => None
        end.
Proof.
  intros Er Hf.
  assert (settlement_log_index self q (Some r) from_block s
    = (Ok (pick_index (last_index q b (is_transfer self q fetched) (receipt_logs r),
                       last_index q b (is_authorization q) (receipt_logs r))), s')) as ->.
  { unfold settlement_log_index, receipt_logs. rewrite Er. unfold mbind, prog_bind. rewrite Hf.
    destruct (as_list (dict_get "logs" r)); [|done]. by rewrite scan_logs_spec. }
  unfold pick_index. destruct (last_index q b (is_transfer self q fetched) (receipt_logs r)) as [i|],
    (last_index q b (is_authorization q) (receipt_logs r)) as [j|]; try (split; congruence).
  destruct (i =? j); simpl; split; congruence.
Qed.

Lemma confirmation_exact_witness :
  settlement_log_index (sample_confirmer []) sample_query (Some (sample_receipt TOPIC_TRANSFER)) 0 tt
  = (Ok None, tt).
Proof.
  refine (proj2 (confirmation_exact (sample_confirmer []) sample_query
    (sample_receipt TOPIC_TRANSFER) 5 0 tt [] tt None _ _) _); vm_compute; reflexivity.
Defined.

(** C3: blindness to signature drift.  If no log of the token in the receipt
    carries the watched topic, the payment is never confirmed, whatever moved on
    chain; when funds did move, the detector grades it [SILENT_LOSS]. *)
Theorem signature_drift_is_silent_loss {S} (self : EventWatchingConfirmer S) q r from_block s
    settled s' truth required :
  (∀ log, log ∈ receipt_logs r → _same_hex (dict_get "address" log) (token q) = true →
     ∀ t0, head (_topics log) = Some t0 → _same_hex t0 (watched_topic0 self) = false) →
  is_settled self q (Some r) from_block s = (Ok settled, s') →
  funds_moved truth = true →
  settled = false
  ∧ kind (detect_payment_divergence truth settled required) = SILENT_LOSS
  ∧ is_failure (detect_payment_divergence truth settled required) = true.
Proof.
  intros Hdrift H Hmoved. unfold is_settled in H.
  apply prog_bind_ok in H as (x & s1 & H & [-> ->]%mret_ok).
  apply settlement_log_index_run in H.
  assert (x = None) as ->.
  { destruct (receipt_block q (Some r) from_block) as [[r' b]|] eqn:Er; [|by destruct H].
    apply receipt_block_ok in Er as ([= <-] & _). destruct H as (fetched & _ & ->).
    rewrite last_index_none; [done|]. intros log Hin Htr.
    destruct (own_log_index q b log) eqn:Ho; [|done]. exfalso.
    apply own_log_index_ok in Ho as (_ & Haddr & _). unfold is_transfer, three_topics in Htr.
    pose proof (Hdrift log Hin Haddr) as Hd.
    destruct (_topics log) as [|t0 [|t1 [|t2 [|]]]]; try done.
    by rewrite (Hd t0 eq_refl) in Htr. }
  unfold detect_payment_divergence. by rewrite Hmoved.
Qed.

Lemma signature_drift_is_silent_loss_witness :
  let self := sample_confirmer [] in
  let truth := settlement_truth_from_balances true 100 90 0 10 in
  is_settled self sample_query (Some (sample_receipt TOPIC_TRANSFER_V2)) 0 tt = (Ok false, tt)
  ∧ kind (detect_payment_divergence truth false (Some 10)) = SILENT_LOSS.
Proof.
  intros self truth.
  assert (is_settled self sample_query (Some (sample_receipt TOPIC_TRANSFER_V2)) 0 tt
          = (Ok false, tt)) as E by (vm_compute; reflexivity).
  split; [done|].
  refine (proj1 (proj2 (signature_drift_is_silent_loss self sample_query
    (sample_receipt TOPIC_TRANSFER_V2) 0 tt false tt truth (Some 10) _ E _)));
    [|vm_compute; reflexivity].
  intros log Hin _ t0 Ht0. unfold receipt_logs in Hin.
  cbn in Hin. apply elem_of_cons in Hin as [->|[->|Hin%elem_of_nil]%elem_of_cons];
    [..|done]; injection Ht0 as <-; vm_compute; reflexivity.
Defined.
