(* ===== verification/Safety.v ===== *)
(** * The submission policy ([psv/safety.py])

    Every value-bearing submission of the reference system passes this policy.
    The theorems: an accepted submission is on an allow-listed chain the node
    confirms, with valid non-zero parties, the merchant as payee, the quoted
    amount exactly and deployed code at the token; a chain outside the allow list
    is refused before the node is asked anything.

    [SafetyRpc] is the interface of the [Protocol] class: the policy is proved
    against it, and the JSON-RPC client of [Anvil] is its instance. *)

From S2P Require Import Prelude PyStr PyVal Anvil.
Local Open Scope Z_scope.

(** [class SafetyRpc(Protocol)], a client whose state is [S]. *)
Class SafetyRpc (S : Type) := {
  rpc_call : string → prog S pyval;
  rpc_get_code : string → prog S string
}.

(** What an implementation promises: its errors are RPC or value errors. *)
Class SafetyRpcLaws (S : Type) `{SafetyRpc S} := {
  rpc_call_throws : ∀ m, throws_in (S:=S) [RpcError; ValueError] (rpc_call m);
  rpc_get_code_throws : ∀ a, throws_in (S:=S) [RpcError; ValueError] (rpc_get_code a)
}.

#[export] Instance rpc_client_safety `{Transport W} : SafetyRpc (RpcClient W) := {
  rpc_call := λ m, call m [];
  rpc_get_code := λ a, get_code a (BTag "latest")
}.

#[export] Instance rpc_client_safety_laws `{Transport W} : SafetyRpcLaws (RpcClient W).
Proof.
  split; intros; simpl; [|apply throws_get_code].
  eapply throws_in_weaken; [apply rpc_error_rpc_errors|apply throws_call].
Qed.

Definition ALLOWED_SETTLEMENT_CHAIN_IDS : list Z := [1337; 31337; 84532; 11155111].

Definition allowed_chain (chain_id : Z) : bool :=
  bool_decide (chain_id ∈ ALLOWED_SETTLEMENT_CHAIN_IDS).

Definition _require_address (value : string) (field : string) : res string :=
  let hex_value := removeprefix "0x" value in
  raise_if (negb (String.length hex_value =? 40)%nat) SettlementSafetyError
    (field +:+ " must be an exact 20-byte EVM address") ;;
  numeric ← or_raise (py_int16 hex_value) SettlementSafetyError
    (field +:+ " must be a hexadecimal EVM address");
  raise_if (numeric =? 0) SettlementSafetyError (field +:+ " must not be the zero address") ;;
  Ok ("0x" +:+ lower hex_value).

Definition _parse_chain_id (raw : pyval) : res Z :=
  s ← or_raise (as_str raw) SettlementSafetyError "eth_chainId returned a malformed result";
  raise_if (negb (startswith "0x" s)) SettlementSafetyError
    "eth_chainId returned a malformed result" ;;
  chain_id ← or_raise (py_int16 s) SettlementSafetyError "eth_chainId returned a malformed result";
  raise_if (chain_id <=? 0) SettlementSafetyError "eth_chainId returned an invalid chain id" ;;
  Ok chain_id.

Definition _require_deployed_code (code : string) : res unit :=
  raise_if (negb (startswith "0x" code)) SettlementSafetyError
    "eth_getCode returned a malformed result" ;;
  let hex_code := str_drop 2 code in
  raise_if (hex_code =? "")%string SettlementSafetyError
    "configured token address has no deployed contract code" ;;
  numeric ← or_raise (py_int16 hex_code) SettlementSafetyError
    "eth_getCode returned a malformed result";
  raise_if (numeric =? 0) SettlementSafetyError
    "configured token address has no deployed contract code" ;;
  raise_if (negb (Nat.even (String.length hex_code))) SettlementSafetyError
    "eth_getCode returned a malformed result".

(** [int(raw)] after the type checks; a digit string past the interpreter's
    limit raises a plain [ValueError]. *)
Definition _require_exact_amount (raw : pyval) (expected : Z) : res unit :=
  amount ← match raw with
           | VInt n => Ok n
           | VStr s =>
               raise_if (negb (isascii s) || negb (isdecimal s)) SettlementSafetyError
                 "authorization amount must be an integer" ;;
               or_raise (py_int10 s) ValueError "Exceeds the limit for integer string conversion"
           | _ => raise SettlementSafetyError "authorization amount must be an integer"
           end;
  raise_if ((expected <=? 0) || (2 ^ 256 <=? expected)) SettlementSafetyError
    "configured order amount is outside uint256 payment bounds" ;;
  raise_if (negb (amount =? expected)) SettlementSafetyError
    "authorization amount does not match the quoted order amount".

(** The keyword arguments of [require_safe_submission], the client apart. *)
Record submission := {
  configured_chain_id : Z;
  token_address : string;
  payer_address : string;
  payee_address : string;
  authorization_to : string;
  authorization_amount : pyval;
  expected_amount : Z
}.

Section policy.
Context {S : Type} `{SafetyRpc S}.

Definition require_safe_submission (sub : submission) : prog S unit :=
  lift (raise_if (negb (allowed_chain (configured_chain_id sub))) SettlementSafetyError
          "chain is not in the local/testnet allowlist") ;;
  raw ← rpc_call "eth_chainId";
  actual_chain_id ← lift (_parse_chain_id raw);
  lift (raise_if (negb (actual_chain_id =? configured_chain_id sub)) SettlementSafetyError
          "RPC chain mismatch") ;;
  token ← lift (_require_address (token_address sub) "token address");
  lift (_require_address (payer_address sub) "payer address") ;;
  payee ← lift (_require_address (payee_address sub) "payee address");
  authorized_payee ← lift (_require_address (authorization_to sub) "authorization payee");
  lift (raise_if (negb (authorized_payee =? payee)%string) SettlementSafetyError
          "authorization payee does not match the configured merchant") ;;
  lift (_require_exact_amount (authorization_amount sub) (expected_amount sub)) ;;
  code ← rpc_get_code token;
  lift (_require_deployed_code code).
End policy.

(** * Specification *)

(** A party: 40 characters after the optional prefix that parse to a non-zero
    number. *)
Definition valid_party (a : string) : Prop :=
  String.length (removeprefix "0x" a) = 40%nat
  ∧ ∃ n, py_int16 (removeprefix "0x" a) = Some n ∧ n ≠ 0.

Definition normal_party (a : string) : string := "0x" +:+ lower (removeprefix "0x" a).

Definition amount_of (raw : pyval) : option Z :=
  match raw with
  | VInt n => Some n
  | VStr s => if isdecimal s then py_int10 s else None
  | _ => None
  end.

(** * Lemmas *)

Lemma require_address_ok value field a :
  _require_address value field = Ok a ↔ valid_party value ∧ a = normal_party value.
Proof.
  unfold _require_address, valid_party, normal_party. split.
  - intros Hr. inv_res. bool_facts. eauto 10.
  - intros [(Hl & n & Hn & H0) ->]. rewrite Hl, Hn. simpl.
    by rewrite (proj2 (Z.eqb_neq _ _)).
Qed.

Lemma parse_chain_id_ok raw n :
  _parse_chain_id raw = Ok n →
  ∃ s, raw = VStr s ∧ startswith "0x" s = true ∧ py_int16 s = Some n ∧ 0 < n.
Proof.
  unfold _parse_chain_id. intros Hr. inv_res. bool_facts. val_facts. eauto 10.
Qed.

Lemma require_exact_amount_ok raw expected u :
  _require_exact_amount raw expected = Ok u →
  amount_of raw = Some expected ∧ 0 < expected < 2 ^ 256.
Proof.
  unfold _require_exact_amount, amount_of. intros Hr. inv_res. bool_facts. subst.
  split; [|lia]. destruct raw; try done; inv_res; bool_facts; [done|].
  by repeat match goal with E : isdecimal _ = true |- _ => rewrite E end.
Qed.

Lemma require_deployed_code_ok code u :
  _require_deployed_code code = Ok u →
  ∃ n, py_int16 (str_drop 2 code) = Some n ∧ n ≠ 0 ∧ startswith "0x" code = true.
Proof. unfold _require_deployed_code. intros Hr. inv_res. bool_facts. eauto. Qed.

Lemma throws_require_address v f : throws [SettlementSafetyError] (_require_address v f).
Proof. unfold _require_address. solve_throws. Qed.
Lemma throws_parse_chain_id v : throws [SettlementSafetyError] (_parse_chain_id v).
Proof. unfold _parse_chain_id. solve_throws. Qed.
Lemma throws_deployed_code c : throws [SettlementSafetyError] (_require_deployed_code c).
Proof. unfold _require_deployed_code. solve_throws. Qed.
Lemma throws_exact_amount v n :
  throws [SettlementSafetyError; ValueError] (_require_exact_amount v n).
Proof. unfold _require_exact_amount. solve_throws. Qed.

(** Outside the allow list, mainnets included, a submission is refused with
    [SettlementSafetyError] before any request: the client is untouched. *)
Lemma off_allowlist_refused_offline {S} `{SafetyRpc S} sub (s : S) :
  allowed_chain (configured_chain_id sub) = false →
  ∃ e, require_safe_submission sub s = (Raise e, s) ∧ exn_cls e = SettlementSafetyError.
Proof. intros Hn. unfold require_safe_submission. rewrite Hn. by eexists. Qed.

(** * Properties *)

(** C38: an accepted submission is safe: the chain is on the allow list and the
    node reports the same chain; token and parties are valid non-zero addresses;
    the authorization pays the configured merchant exactly the expected positive
    amount; and the token has non-zero deployed code at the node. *)
Theorem safe_submission_sound {S} `{SafetyRpc S} sub (s s' : S) u :
  require_safe_submission sub s = (Ok u, s') →
  configured_chain_id sub ∈ ALLOWED_SETTLEMENT_CHAIN_IDS
  ∧ valid_party (token_address sub) ∧ valid_party (payer_address sub)
  ∧ valid_party (payee_address sub) ∧ valid_party (authorization_to sub)
  ∧ normal_party (authorization_to sub) = normal_party (payee_address sub)
  ∧ amount_of (authorization_amount sub) = Some (expected_amount sub)
  ∧ 0 < expected_amount sub < 2 ^ 256
  ∧ ∃ raw s1 code n,
      rpc_call "eth_chainId" s = (Ok (VStr raw), s1)
      ∧ py_int16 raw = Some (configured_chain_id sub)
      ∧ rpc_get_code (normal_party (token_address sub)) s1 = (Ok code, s')
      ∧ py_int16 (str_drop 2 code) = Some n ∧ n ≠ 0.
Proof.
  unfold require_safe_submission, allowed_chain. intros Hr. inv_res. bool_facts.
  repeat match goal with
  | E : _require_address _ _ = Ok _ |- _ => apply require_address_ok in E as [? ->]
  | E : _parse_chain_id _ = Ok _ |- _ => apply parse_chain_id_ok in E as (? & -> & ? & ? & ?)
  | E : _require_exact_amount _ _ = Ok _ |- _ => apply require_exact_amount_ok in E as [? ?]
  | E : _require_deployed_code _ = Ok _ |- _ => apply require_deployed_code_ok in E as (? & ? & ? & ?)
  end.
  split_and!; try done; try lia.
  do 4 eexists. split_and!; try done. congruence.
Qed.

Definition sample_submission (chain : Z) : submission := {|
  configured_chain_id := chain;
  token_address := "0x" +:+ str_repeat "a" 40; payer_address := "0x" +:+ str_repeat "b" 40;
  payee_address := "0x" +:+ str_repeat "c" 40; authorization_to := "0x" +:+ str_repeat "C" 40;
  authorization_amount := VStr "10000"; expected_amount := 10000 |}.
Definition sample_node : Transport (list string) :=
  honest_node (λ m _, VStr (if (m =? "eth_chainId")%string then py_hex 84532 else "0x6001")).

Lemma safe_submission_sound_witness :
  let node := sample_node in
  require_safe_submission (H:=rpc_client_safety (H:=node)) (sample_submission 84532) fresh_client
  = (Ok tt, {| _id := 2; world := ["eth_chainId"; "eth_getCode"] |})
  ∧ 84532 ∈ ALLOWED_SETTLEMENT_CHAIN_IDS.
Proof.
  intros node.
  assert (require_safe_submission (H:=rpc_client_safety (H:=node)) (sample_submission 84532)
            fresh_client = (Ok tt, {| _id := 2; world := ["eth_chainId"; "eth_getCode"] |})) as E
    by (vm_compute; reflexivity).
  split; [exact E|].
  exact (proj1 (safe_submission_sound (H:=rpc_client_safety (H:=node)) _ _ _ _ E)).
Defined.

(** The policy fails only in known ways: whatever the client answers, the
    exception is a [SettlementSafetyError], an RPC error or a [ValueError]. *)
Lemma safe_submission_errors {S} `{SafetyRpcLaws S} sub :
  throws_in (S:=S) [SettlementSafetyError; RpcError; ValueError] (require_safe_submission sub).
Proof.
  assert (∀ A (m : res A), throws [SettlementSafetyError] m →
    throws [SettlementSafetyError; RpcError; ValueError] m) as Hs
    by (intros A m Hm; eapply throws_weaken, Hm; by intros []).
  assert (∀ A (m : prog S A), throws_in [RpcError; ValueError] m →
    throws_in [SettlementSafetyError; RpcError; ValueError] m) as Hr
    by (intros A m Hm; eapply throws_in_weaken, Hm; by intros []).
  unfold require_safe_submission. repeat throws_step;
    first [ apply Hs, throws_require_address | apply Hs, throws_parse_chain_id
          | apply Hs, throws_deployed_code | apply Hr, rpc_call_throws
          | apply Hr, rpc_get_code_throws | idtac ].
  eapply throws_weaken, throws_exact_amount. by intros [].
Qed.

(** ** Leniency of the address check *)

(** [int(hex_value, 16)] accepts a sign, underscores and white space, so the
    check admits texts that are not 20 bytes of hex; and the digits limit makes
    an over-long amount a plain [ValueError]. *)
Example party_with_sign_accepted :
  _require_address ("0x+" +:+ str_repeat "1" 39) "payer address"
  = Ok ("0x+" +:+ str_repeat "1" 39).
Proof. vm_compute. reflexivity. Qed.

Example long_amount_plain_value_error :
  match _require_exact_amount (VStr (str_repeat "1" 4301)) 5 with
  | Raise e => exn_cls e | Ok _ => OtherError
  end = ValueError.
Proof. vm_compute. reflexivity. Qed.
