(* ===== verification/Reorg.v ===== *)
(** * Finality under reorganisation ([psv/reorg.py])

    Confirmation depth, and the verdict whether a settlement is final.  The
    theorems: a settlement is final exactly when it is deep enough and its block
    hash is the canonical one; a differing canonical hash always means reorged
    and never final; finality is kept as the chain grows on the same fork. *)

From S2P Require Import Prelude PyStr PyVal Anvil.
Local Open Scope Z_scope.

Definition _block (value : Z) (what : string) : res Z :=
  raise_if (negb (is_uint256 value)) ValueError (what +:+ " must be a uint256") ;; Ok value.

Definition confirmations (current_block tx_block : Z) : res Z :=
  current ← _block current_block "current_block";
  transaction ← _block tx_block "tx_block";
  Ok (if (transaction =? 0) || (current <? transaction) then 0 else current - transaction + 1).

Definition is_final (current_block tx_block required_confirmations : Z) : res bool :=
  raise_if (required_confirmations <=? 0) ValueError
    "required_confirmations must be a positive integer" ;;
  depth ← confirmations current_block tx_block;
  Ok (required_confirmations <=? depth).

Definition _hash (value what : string) : res string :=
  raise_if (negb (re_0xhex 64 value)) ValueError (what +:+ " must be an exact 32-byte hash") ;;
  Ok (lower value).

Record SettlementFinality := {
  final : bool;
  depth : Z;
  reorged : bool;
  reason : string
}.

Definition assess_finality (settlement_block_number : Z) (settlement_block_hash : string)
    (current_block : Z) (canonical_block_hash : option string) (required_confirmations : Z)
    : res SettlementFinality :=
  raise_if (required_confirmations <=? 0) ValueError
    "required_confirmations must be a positive integer" ;;
  settlement_hash ← _hash settlement_block_hash "settlement_block_hash";
  depth ← confirmations current_block settlement_block_number;
  differs ← match canonical_block_hash with
            | Some h => canonical ← _hash h "canonical_block_hash";
                        Ok (negb (canonical =? settlement_hash)%string)
            | None => Ok false
            end;
  Ok (if (differs : bool) then
        {| final := false; depth := depth; reorged := true;
           reason := "settlement block was reorged out (canonical hash differs); re-confirm inclusion" |}
      else if depth =? 0 then
        {| final := false; depth := 0; reorged := false; reason := "settlement not yet mined" |}
      else match canonical_block_hash with
           | None =>
               {| final := false; depth := depth; reorged := false;
                  reason := "canonical block hash unavailable at settlement height; cannot confirm canonicality" |}
           | Some _ =>
               if depth <? required_confirmations then
                 {| final := false; depth := depth; reorged := false;
                    reason := "insufficient confirmations (" +:+ str_of_Z depth +:+ " < "
                              +:+ str_of_Z required_confirmations +:+ ")" |}
               else
                 {| final := true; depth := depth; reorged := false;
                    reason := "final: deep and canonical" |}
           end).

Section simulation.
Context `{Transport W}.

Definition take_checkpoint : prog (RpcClient W) string := snapshot.
Definition reorg_to (checkpoint : string) : prog (RpcClient W) bool := revert checkpoint.
End simulation.

(** * Lemmas *)

Lemma confirmations_ok current tx n :
  confirmations current tx = Ok n ↔
    (0 ≤ current < 2 ^ 256 ∧ 0 ≤ tx < 2 ^ 256)
    ∧ n = if decide (0 < tx ≤ current) then current - tx + 1 else 0.
Proof.
  unfold confirmations, _block. rewrite <- !is_uint256_spec.
  destruct (is_uint256 current), (is_uint256 tx) eqn:E; simpl;
    try (split; [done|by intros [[? ?] _]]).
  apply is_uint256_spec in E.
  assert ((if (tx =? 0) || (current <? tx) then 0 else current - tx + 1)
          = if decide (0 < tx ≤ current) then current - tx + 1 else 0) as ->.
  { destruct (Z.eqb_spec tx 0), (Z.ltb_spec current tx); simpl; case_decide; lia. }
  split; [by intros [= <-]|by intros [_ ->]].
Qed.

Lemma finality_hash_ok value what h : _hash value what = Ok h ↔ re_0xhex 64 value = true ∧ h = lower value.
Proof.
  unfold _hash. destruct (re_0xhex 64 value); simpl; [|by split; [|intros []]].
  split; [by intros [= <-]|by intros [_ ->]].
Qed.

(** The verdict on validated arguments. *)
Lemma assess_finality_ok number hash current canonical required v :
  assess_finality number hash current canonical required = Ok v →
  0 < required ∧ confirmations current number = Ok (depth v)
  ∧ (∀ h, canonical = Some h → re_0xhex 64 h = true) ∧ re_0xhex 64 hash = true
  ∧ (reorged v = true ↔ ∃ h, canonical = Some h ∧ lower h ≠ lower hash)
  ∧ (final v = true ↔ required ≤ depth v ∧ ∃ h, canonical = Some h ∧ lower h = lower hash).
Proof.
  unfold assess_finality. intros H. inv_res. bool_facts.
  match goal with E : _hash hash _ = Ok _ |- _ => apply finality_hash_ok in E as [Hh ->] end.
  match goal with E : confirmations _ _ = Ok ?n |- _ => rename n into d; rename E into Hd end.
  destruct canonical as [h|]; inv_res.
  - match goal with E : _hash h _ = Ok _ |- _ => apply finality_hash_ok in E as [Hc ->] end.
    destruct (String.eqb_spec (lower h) (lower hash)) as [E|E]; simpl.
    + destruct (Z.eqb_spec d 0); [|destruct (Z.ltb_spec d required)]; simpl; subst;
        split_and!; try done; try lia; try (by intros ? [= <-]);
        try (split; [done|]; intros (? & [= <-] & ?); done);
        try (split; [done|]; intros [? _]; lia). split; eauto.
    + split_and!; try done; try (by intros ? [= <-]); [split; eauto|].
      split; [done|]. intros (_ & ? & [= <-] & ?). done.
  - destruct (Z.eqb_spec d 0); simpl; subst; split_and!; try done;
      try (split; [done|]; intros (? & ? & ?); naive_solver); by split; [|intros (? & [=] & ?)].
Qed.

(** * Properties *)

(** A verdict is final exactly when the settlement is mined, has the
    required confirmations and sits in the canonical block; a canonical hash
    that differs is reported as reorged whatever the depth, and a reorged
    settlement is never final. *)
Theorem final_iff_deep_and_canonical number hash current canonical required v :
  assess_finality number hash current canonical required = Ok v →
  (final v = true ↔
     0 < number ∧ number + required ≤ current + 1
     ∧ ∃ h, canonical = Some h ∧ lower h = lower hash)
  ∧ (reorged v = true ↔ ∃ h, canonical = Some h ∧ lower h ≠ lower hash)
  ∧ (reorged v = true → final v = false).
Proof.
  intros (Hr & Hd & _ & _ & Hreorg & Hfinal)%assess_finality_ok.
  apply confirmations_ok in Hd as [[Hc Hn] Hd]. split_and!.
  - rewrite Hfinal. split; intros H; split_and!; try apply H; rewrite ?Hd in *;
      destruct H as [H1 H2]; case_decide; lia.
  - done.
  - intros (h & -> & Hne)%Hreorg. destruct (final v); [|done].
    by destruct (proj1 Hfinal eq_refl) as (_ & h' & [= <-] & ?).
Qed.

(** Finality is stable: on the same fork (the canonical hash at the height
    unchanged) a final settlement stays final at every later head, and needs no
    more than any smaller number of confirmations. *)
Theorem finality_is_stable number hash current current' canonical required required' v :
  assess_finality number hash current canonical required = Ok v → final v = true →
  current ≤ current' < 2 ^ 256 → 0 < required' ≤ required →
  ∃ v', assess_finality number hash current' canonical required' = Ok v' ∧ final v' = true.
Proof.
  intros H Hf Hc' Hr'.
  pose proof (assess_finality_ok _ _ _ _ _ _ H) as (Hr & Hd & Hcan & Hh & _ & Hfinal).
  apply Hfinal in Hf as (Hdeep & h & -> & Heq). specialize (Hcan h eq_refl).
  apply confirmations_ok in Hd as [[Hc Hn] Hd]. rewrite Hd in Hdeep. case_decide; [|lia].
  assert (confirmations current' number = Ok (current' - number + 1)) as Hd'.
  { apply confirmations_ok. split; [lia|]. case_decide; lia. }
  eexists. split.
  - unfold assess_finality. rewrite (proj2 (Z.leb_gt _ _)) by lia.
    rewrite (proj2 (finality_hash_ok hash _ _)) by done. rewrite Hd'.
    rewrite (proj2 (finality_hash_ok h _ _)) by done. reflexivity.
  - rewrite Heq, String.eqb_refl. simpl. rewrite (proj2 (Z.eqb_neq _ _)) by lia.
    by rewrite (proj2 (Z.ltb_ge _ _)) by lia.
Qed.

Definition sample_hash (c : ascii) : string := "0x" +:+ str_repeat c 64.

Lemma final_iff_deep_and_canonical_witness :
  ∃ v, assess_finality 100 (sample_hash "a") 105 (Some (sample_hash "b")) 3 = Ok v
       ∧ reorged v = true ∧ final v = false.
Proof.
  eexists. split; [vm_compute; reflexivity|].
  match goal with |- reorged ?v = _ ∧ _ => set (V := v) end.
  assert (E : assess_finality 100 (sample_hash "a") 105 (Some (sample_hash "b")) 3 = Ok V)
    by (vm_compute; reflexivity).
  destruct (final_iff_deep_and_canonical _ _ _ _ _ _ E) as (_ & _ & H).
  split; [reflexivity|apply H; reflexivity].
Defined.

Lemma finality_is_stable_witness :
  ∃ v', assess_finality 100 (sample_hash "a") 999 (Some (sample_hash "A")) 2 = Ok v'
        ∧ final v' = true.
Proof.
  refine (finality_is_stable 100 (sample_hash "a") 105 999 (Some (sample_hash "A")) 3 2
    {| final := true; depth := 6; reorged := false; reason := "final: deep and canonical" |}
    _ eq_refl _ _); [vm_compute; reflexivity|lia..].
Defined.
