(* ===== verification/PyTime.v ===== *)
(** * [datetime]

    An aware or naive instant with microseconds, its conversion to UTC, the ISO
    8601 text of a UTC instant, and the elapsed seconds between two instants as
    the float [round(delta.total_seconds(), n)]. *)

From S2P Require Import Prelude PyStr PyVal PyJson.
Local Open Scope Z_scope.

(** The wall clock in microseconds since 0001-01-01T00:00:00, and the offset of
    its zone from UTC; [None] for a naive instant. *)
Record datetime := { wall : Z; utcoffset : option Z }.

Definition US_PER_DAY : Z := 86400 * 1000000.
(** The range ends with the year 9999. *)
Definition in_range (us : Z) : bool := (0 <=? us) && (us <? 3652059 * US_PER_DAY).

Definition is_aware (t : datetime) : bool :=
  match utcoffset t with Some _ => true | None => false end.
(** The instant on the UTC clock; a naive one is not converted here. *)
Definition utc (t : datetime) : Z := wall t - default 0 (utcoffset t).

(** Year, month and day of the day [n] days after 0001-01-01: counted from the
    first of March of the year zero, in eras of four hundred years. *)
Definition civil (n : Z) : Z * Z * Z :=
  let z := n + 306 in
  let era := z / 146097 in
  let doe := z mod 146097 in
  let yoe := (doe - doe / 1460 + doe / 36524 - doe / 146096) / 365 in
  let doy := doe - (365 * yoe + yoe / 4 - yoe / 100) in
  let mp := (5 * doy + 2) / 153 in
  let d := doy - (153 * mp + 2) / 5 + 1 in
  let m := if mp <? 10 then mp + 3 else mp - 9 in
  (yoe + era * 400 + (if m <=? 2 then 1 else 0), m, d).

Definition two (n : Z) : string := rjust 2 "0" (to_dec n).

(** [isoformat()] of a UTC instant. *)
Definition isoformat_utc (us : Z) : string :=
  let '(y, m, d) := civil (us / US_PER_DAY) in
  let s := us mod US_PER_DAY / 1000000 in
  let micro := us mod 1000000 in
  rjust 4 "0" (to_dec y) +:+ "-" +:+ two m +:+ "-" +:+ two d +:+ "T"
  +:+ two (s / 3600) +:+ ":" +:+ two (s / 60 mod 60) +:+ ":" +:+ two (s mod 60)
  +:+ (if micro =? 0 then "" else "." +:+ rjust 6 "0" (to_dec micro))
  +:+ "+00:00".

(** [t.astimezone(UTC).isoformat()] of an aware instant *)
Definition utc_text (t : datetime) : res string :=
  raise_if (negb (in_range (utc t))) OtherError "date value out of range" ;;
  Ok (isoformat_utc (utc t)).

(** [round(x, 3)] of a float that is not negative *)
Definition round3 (f : spec_float) : spec_float :=
  match f with
  | S754_finite false m e =>
      let num := Zpos m * 2 ^ Z.max 0 e * 1000 in
      let den := 2 ^ Z.max 0 (- e) in
      let n := num / den in
      let n := match 2 * (num mod den) ?= den with
               | Lt => n
               | Gt => n + 1
               | Eq => if Z.even n then n else n + 1
               end in
      float_of_decimal n (-3)
  | _ => f
  end.

(** [round((b - a).total_seconds(), 3)] for [a <= b] *)
Definition elapsed_seconds (a b : datetime) : spec_float :=
  round3 (float_of_decimal (utc b - utc a) (-6)).

(** An instant of the calendar on the UTC clock has a text. *)
Lemma utc_text_utc t :
  in_range t = true → utc_text {| wall := t; utcoffset := Some 0 |} = Ok (isoformat_utc t).
Proof. intros Ht. unfold utc_text, utc. simpl. by rewrite Z.sub_0_r, Ht. Qed.

Lemma throws_utc_text t :
  in_range (utc t) = true → ∀ cs, throws cs (utc_text t).
Proof. intros Ht cs. unfold utc_text. rewrite Ht. apply throws_ok. Qed.

(** The text of an instant depends on the instant alone, not on its zone. *)
Lemma utc_text_zone t t' : utc t = utc t' → utc_text t = utc_text t'.
Proof. intros E. unfold utc_text. by rewrite E. Qed.

Lemma str_all_ascii_rjust n s : isascii s = true → isascii (rjust n "0" s) = true.
Proof. unfold isascii, rjust. intros Hs. by rewrite str_all_app, Hs, str_all_repeat. Qed.
