(* ===== verification/AnvilProcess.v ===== *)
(** * The local chain ([AnvilProcess] of [psv/anvil.py])

    Starting, watching and stopping an [anvil] child.  The operating system keeps
    a table of the children; whether a command can be started, whether a child
    obeys the request to terminate, and the clock are parameters.  The node behind
    the endpoint is the one the HTTP transport reaches.

    The theorems: starting ends once the clock passes the deadline, and a child
    never outlives its context manager, whether it becomes ready, the body fails,
    or it has to be killed. *)

From S2P Require Import Prelude PyStr PyVal Anvil PyUrl PyText Transport.
Local Open Scope Z_scope.

Inductive pstate := Running | Ended.
#[export] Instance pstate_eq_dec : EqDecision pstate.
Proof. solve_decision. Defined.

Record AnvilProcess := {
  chain_id : Z; port : Z; host : string; extra_args : list string;
  _proc : option nat                  (** the handle of the child *)
}.
Definition set_proc (p : option nat) (a : AnvilProcess) : AnvilProcess :=
  {| chain_id := chain_id a; port := port a; host := host a; extra_args := extra_args a; _proc := p |}.

Definition endpoint (self : AnvilProcess) : string :=
  "http://" +:+ host self +:+ ":" +:+ str_of_Z (port self).

(** The manager, the children ever started, the network, and how often the clock
    was read. *)
Record session (W : Type) := { self : AnvilProcess; procs : list pstate; net : W; ticks : nat }.
Arguments Build_session {W} _ _ _ _.
Arguments self {W} _.
Arguments procs {W} _.
Arguments net {W} _.
Arguments ticks {W} _.

Section process.
Context {W : Type} (open : Opener W).
(** [Popen(cmd)] may fail; a child may ignore [SIGTERM]; the k-th reading of
    [time.time()], in milliseconds. *)
Context (spawn_error : list string → option exn) (obeys : nat → bool) (clock : nat → Z).
Notation run := (prog (session W)).

Definition set_self (f : AnvilProcess → AnvilProcess) : run unit :=
  modify (λ s, {| self := f (self s); procs := procs s; net := net s; ticks := ticks s |}).
Definition set_state (pid : nat) (p : pstate) : run unit :=
  modify (λ s, {| self := self s; procs := <[pid := p]> (procs s); net := net s; ticks := ticks s |}).
Definition time : run Z := λ s,
  (Ok (clock (ticks s)), {| self := self s; procs := procs s; net := net s; ticks := S (ticks s) |}).

Definition command (a : AnvilProcess) : list string :=
  ["anvil"; "--chain-id"; str_of_Z (chain_id a); "--port"; str_of_Z (port a); "--host"; host a]
  ++ extra_args a.

(** [subprocess.Popen(cmd)] *)
Definition Popen (cmd : list string) : run nat := λ s,
  match spawn_error cmd with
  | Some e => (Raise e, s)
  | None => (Ok (length (procs s)),
             {| self := self s; procs := procs s ++ [Running]; net := net s; ticks := ticks s |})
  end.

(** A request of the readiness client, whose counter is its own. *)
Definition on_client {A} (e : string) (timeout : spec_float) (id : Z) (m : prog (RpcClient W) A) : run (res A * Z) :=
  λ s, let '(r, c) := m {| _id := id; world := net s |} in
       (Ok (r, _id c), {| self := self s; procs := procs s; net := world c; ticks := ticks s |}).

(** [client.block_number()] over the default transport *)
Definition ready (e : string) (timeout : spec_float) (id : Z) : run (res Z * Z) :=
  on_client e timeout id (@block_number W (_urllib_transport open e timeout)).

(** [_proc.terminate()], [_proc.wait(timeout=5)], [_proc.kill()] *)
Definition terminate (pid : nat) : run unit := if obeys pid then set_state pid Ended else mret tt.
Definition wait_ended (pid : nat) : run bool :=
  s ← get_state; mret (bool_decide (procs s !! pid ≠ Some Running)).
Definition kill (pid : nat) : run unit := set_state pid Ended.

Definition stop : run unit :=
  s ← get_state;
  match _proc (self s) with
  | Some pid =>
      terminate pid ;;
      ended ← wait_ended pid;
      (if ended : bool then mret tt else kill pid) ;;
      set_self (set_proc None)
  | None => mret tt
  end.

(** One second, the timeout of the readiness client. *)
Definition one_second : spec_float := S754_finite false 1 0.

(** The polling loop; [true] when the endpoint answered before the deadline. *)
Fixpoint poll_ready (fuel : nat) (e : string) (deadline : Z) (id : Z) : run bool :=
  match fuel with
  | O => lift (raise RecursionError "fuel")
  | S fuel =>
      now ← time;
      if now <? deadline then
        '(r, id) ← ready e one_second id;
        if is_ok r then mret true else poll_ready fuel e deadline id
      else mret false
  end.

Definition start (fuel : nat) (ready_timeout : Z) : run unit :=
  s ← get_state;
  pid ← Popen (command (self s));
  set_self (set_proc (Some pid)) ;;
  now ← time;
  ok ← poll_ready fuel (endpoint (self s)) (now + ready_timeout) 0;
  if ok : bool then mret tt
  else
    stop ;;
    lift (raise RuntimeError ("anvil did not become ready on " +:+ endpoint (self s))).

(** [__exit__] runs however the body ends; its own exception would win. *)
Definition finally {A} (body : run A) (exit : run unit) : run A := λ s,
  let (r, s') := body s in
  match exit s' with
  | (Ok _, s'') => (r, s'')
  | (Raise e, s'') => (Raise e, s'')
  end.

(** [with AnvilProcess(...) as p: body] *)
Definition managed {A} (fuel : nat) (ready_timeout : Z) (body : run A) : run A :=
  start fuel ready_timeout ;;
  finally body stop.
End process.

(** * Lemmas *)

(** Every child that runs is the manager's. *)
Definition owned {W} (s : session W) : Prop :=
  ∀ pid, procs s !! pid = Some Running → _proc (self s) = Some pid.
Definition all_ended {W} (s : session W) : Prop := ∀ pid, procs s !! pid ≠ Some Running.

Section process_lemmas.
Context {W : Type} (open : Opener W) (spawn_error : list string → option exn) (obeys : nat → bool) (clock : nat → Z).
Implicit Types s : session W.

(** Stopping never fails, and the manager's child has ended. *)
Lemma stop_run s :
  owned s → (stop obeys s).1 = Ok tt ∧ all_ended (stop obeys s).2
            ∧ net (stop obeys s).2 = net s ∧ _proc (self (stop obeys s).2) = None.
Proof.
  intros Ho. unfold stop, mbind, prog_bind, get_state, mret, prog_ret.
  destruct (_proc (self s)) as [pid|] eqn:Ep; cbn.
  - unfold terminate, wait_ended, kill, set_state, set_self, modify, mbind, prog_bind, get_state, mret, prog_ret.
    assert (∀ ps : list pstate, (∀ q, ps !! q = Some Running → q = pid) → ∀ q, <[pid:=Ended]> ps !! q ≠ Some Running) as Hins.
    { intros ps Hps q Hq. destruct (decide (q = pid)) as [->|Hne].
      - apply list_lookup_insert_Some in Hq as [(_ & [=] & _)|(Hn & _)]. done.
      - rewrite list_lookup_insert_ne in Hq by done. apply Hps in Hq. done. }
    assert (∀ q, procs s !! q = Some Running → q = pid) as Hown.
    { intros q Hq. specialize (Ho q Hq). congruence. }
    destruct (obeys pid); cbn.
    + rewrite bool_decide_true by (by apply Hins). cbn. split_and!; [done|by intros q; apply Hins|done..].
    + destruct (bool_decide _) eqn:Eb; cbn; bool_facts.
      * split_and!; [done| |done..]. intros q Hq. pose proof (Hown q Hq). subst. done.
      * split_and!; [done|by intros q; apply Hins|done..].
  - split_and!; [done| |done..]. intros q Hq. specialize (Ho q Hq). congruence.
Qed.

(** The polling loop touches only the network and the clock. *)
Lemma poll_ready_state fuel e deadline id s :
  procs (poll_ready open clock fuel e deadline id s).2 = procs s
  ∧ self (poll_ready open clock fuel e deadline id s).2 = self s.
Proof.
  revert id s. induction fuel as [|fuel IH]; intros id s; [done|]. cbn [poll_ready].
  unfold mbind, prog_bind, time, ready, on_client. cbn -[block_number].
  destruct (_ <? _); [|done].
  destruct (block_number _) as [r c]. cbn. destruct (is_ok r); [done|].
  destruct (IH (_id c) {| self := self s; procs := procs s; net := world c; ticks := S (ticks s) |}) as [-> ->]. done.
Qed.

(** It ends once the clock has reached the deadline. *)
Lemma poll_ready_ends fuel e deadline id s :
  (∃ k, (k < fuel)%nat ∧ deadline ≤ clock (ticks s + k)) →
  ∃ b, (poll_ready open clock fuel e deadline id s).1 = Ok b.
Proof.
  revert id s. induction fuel as [|fuel IH]; intros id s (k & Hk & Hc); [lia|]. cbn [poll_ready].
  unfold mbind, prog_bind, time, ready, on_client. cbn -[block_number].
  destruct (Z.ltb_spec (clock (ticks s)) deadline) as [Hlt|Hge]; [|by eexists].
  destruct (block_number _) as [r c]. cbn. destruct (is_ok r); [by eexists|].
  apply IH. cbn. destruct k as [|k]; [rewrite Nat.add_0_r in Hc; lia|].
  exists k. split; [lia|]. by rewrite Nat.add_succ_r in Hc.
Qed.
End process_lemmas.

(** * Properties *)

Section process_properties.
Context {W : Type} (open : Opener W) (spawn_error : list string → option exn) (obeys : nat → bool) (clock : nat → Z).

(** Starting: no child is lost, and a failure leaves none running. *)
Lemma start_owned fuel ready_timeout (s : session W) :
  all_ended s → (∃ k, (k < fuel)%nat ∧ clock (ticks s) + ready_timeout ≤ clock (S (ticks s) + k)) →
  match start open spawn_error obeys clock fuel ready_timeout s with
  | (Ok _, s') => owned s'
  | (Raise e, s') => all_ended s' ∧ (e = Exn RuntimeError ("anvil did not become ready on " +:+ endpoint (self s))
                                     ∨ spawn_error (command (self s)) = Some e)
  end.
Proof.
  intros Hs Hc. unfold start, mbind, prog_bind, get_state, Popen, set_self, modify, time. cbn -[poll_ready stop endpoint command].
  destruct (spawn_error (command (self s))) as [e|]; [by split; [|right]|]. cbn -[poll_ready stop endpoint command].
  set (s1 := {| self := set_proc (Some (length (procs s))) (self s); procs := procs s ++ [Running];
                net := net s; ticks := S (ticks s) |}).
  assert (owned s1) as Ho.
  { intros pid Hp. change ((procs s ++ [Running]) !! pid = Some Running) in Hp. apply lookup_app_Some in Hp as [?|[Hl E]]; [by destruct (Hs pid)|].
    apply list_lookup_singleton_Some in E as [E _]. cbn. f_equal. lia. }
  set (d := clock (ticks s) + ready_timeout) in *. set (e := endpoint (self s)).
  destruct (poll_ready_state open clock fuel e d 0 s1) as [Ep Es].
  destruct (poll_ready_ends open clock fuel e d 0 s1 Hc) as [b Eb].
  destruct (poll_ready open clock fuel e d 0 s1) as [r s2]. cbn in Ep, Es, Eb. subst r.
  assert (owned s2) as Ho2 by (intros pid; rewrite Ep, Es; apply Ho).
  destruct b; [done|].
  destruct (stop_run obeys s2 Ho2) as (E1 & E2 & _). destruct (stop obeys s2) as [r s3]. cbn in E1, E2. subst r.
  cbn. split; [done|by left].
Qed.

(** C28: a local chain never outlives its context manager.  Once the clock passes
    the deadline, starting ends: either the program could not be started, or the
    endpoint did not answer and the child is stopped before [RuntimeError] is
    raised, or the body runs; and after a body that starts no child of its own -
    however it ends, and even if the child ignores the request to terminate - no
    child is running. *)
Theorem managed_child_is_stopped {A} (body : prog (session W) A) fuel ready_timeout (s : session W) :
  all_ended s → (∃ k, (k < fuel)%nat ∧ clock (ticks s) + ready_timeout ≤ clock (S (ticks s) + k)) →
  (∀ s, owned s → owned (body s).2) →
  let (r, s') := managed open spawn_error obeys clock fuel ready_timeout body s in
  all_ended s' ∧ match r with
                 | Ok _ => True
                 | Raise e =>
                     e = Exn RuntimeError ("anvil did not become ready on " +:+ endpoint (self s))
                     ∨ spawn_error (command (self s)) = Some e
                     ∨ ∃ s1 s2, body s1 = (Raise e, s2)
                 end.
Proof.
  intros Hs Hc Hb. pose proof (start_owned fuel ready_timeout s Hs Hc) as Hst.
  unfold managed, mbind, prog_bind, finally.
  destruct (start _ _ _ _ _ _ s) as [[u|e] s1]; [|naive_solver].
  specialize (Hb s1 Hst). destruct (body s1) as [r s2] eqn:Er. cbn in Hb.
  destruct (stop_run obeys s2 Hb) as (E1 & E2 & _). destruct (stop obeys s2) as [x s3].
  cbn in E1, E2. subst x. split; [done|]. destruct r; [done|]. eauto.
Qed.
End process_properties.

(** A child that ignores [SIGTERM], a node that never answers, and a clock that
    advances by 200 milliseconds a reading. *)
Definition silent_node : Opener unit := λ _ _ w, (raise OSError "connection refused", w).
Definition fresh_session : session unit := {|
  self := {| chain_id := 84532; port := 8545; host := "127.0.0.1"; extra_args := []; _proc := None |};
  procs := []; net := tt; ticks := 0 |}.

Lemma managed_child_is_stopped_witness :
  all_ended (managed silent_node (λ _, None) (λ _, false) (λ k, 200 * Z.of_nat k) 100 15000 (mret tt) fresh_session).2.
Proof.
  pose proof (managed_child_is_stopped silent_node (λ _, None) (λ _, false) (λ k, 200 * Z.of_nat k)
    (mret tt) 100 15000 fresh_session) as H.
  destruct (managed _ _ _ _ _ _ _ _) as [r s']. refine (proj1 (H _ _ _)).
  - intros pid. done.
  - exists 90%nat. split; [lia|]. vm_compute. discriminate.
  - intros s Hs. exact Hs.
Defined.

(** The default deadline is fifteen seconds. *)
Example silent_node_is_reported :
  (start silent_node (λ _, None) (λ _, false) (λ k, 200 * Z.of_nat k) 100 15000 fresh_session).1
  = raise RuntimeError "anvil did not become ready on http://127.0.0.1:8545".
Proof. vm_compute; reflexivity. Qed.

(** Starting a manager twice loses the first child: the body of the theorem must
    not do it. *)
Example second_start_loses_the_first :
  procs (managed (one_answer (encode_utf8 chain_id_text)) (λ _, None) (λ _, true) (λ k, 200 * Z.of_nat k) 100 15000
    (start (one_answer (encode_utf8 chain_id_text)) (λ _, None) (λ _, true) (λ k, 200 * Z.of_nat k) 100 15000)
    fresh_session).2
  = [Running; Ended].
Proof. vm_compute; reflexivity. Qed.
