(* ===== verification/PyArgs.v ===== *)
(** * [argparse] and [float()]

    Command lines of long options, as CPython's [argparse] reads them: exact
    options, unique abbreviations, [--option=value] and [--option value], flags,
    type conversions, required options, mutually exclusive groups, [-h]/[--help],
    the separator [--], and the words that look like options but are values.  An
    error of the parser is a [CliUsageError], as the package's own [error] method
    raises it. *)

From S2P Require Import Prelude PyStr PyVal PyJson PyUrl.
Local Open Scope Z_scope.

(** ** [float(s)] *)

(** Underscores stand between two digits and are dropped; [None] if not. *)
Fixpoint drop_underscores (after_digit : bool) (s : string) : option string :=
  match s with
  | EmptyString => Some ""
  | String c r =>
      if code c =? 95 then
        match r with
        | String d _ => if after_digit && is_dec_digit d then drop_underscores false r else None
        | EmptyString => None
        end
      else String c <$> drop_underscores (is_dec_digit c) r
  end.

Definition float_unsigned (s : string) : option spec_float :=
  let name := lower s in
  if ((name =? "inf") || (name =? "infinity"))%string then Some (S754_infinity false)
  else if (name =? "nan")%string then Some S754_nan
  else
    s ← drop_underscores false s;
    let '(whole, r) := take_digits s in
    let '(fraction, r) := match r with
                          | String c r' => if code c =? 46 then take_digits r' else ("", r)
                          | EmptyString => ("", r)
                          end in
    let '(exponent, r) := take_exponent r in
    if (whole +:+ fraction =? "")%string || negb (r =? "")%string then None
    else
      let x := match exponent with Some (n, ds) => signed n (digits_value ds) | None => 0 end in
      Some (float_of_decimal (digits_value (whole +:+ fraction)) (x - str_len fraction)).

(** [None] for its [ValueError] *)
Definition py_float (s : string) : option spec_float :=
  let '(neg, u) := split_sign (strip s) in
  (λ f, if neg then float_opp f else f) <$> float_unsigned u.

(** ** Options *)

(** An option of a parser whose namespace is an [A]: it takes a value or none, and
    stores the converted value; at most one option of a group may occur. *)
Record action (A : Type) := {
  flag : string;
  valued : bool;
  needed : bool;
  group : option nat;
  store : string → A → res A
}.
Arguments flag {A} _.
Arguments valued {A} _.
Arguments needed {A} _.
Arguments group {A} _.
Arguments store {A} _ _ _.

(** How a word of the command line is read. *)
Inductive token :=
  | Positional
  | Separator
  | Unknown
  | Help (explicit : option string)
  | Known (name : string) (explicit : option string).

(** [^-\d+$|^-\d*\.\d+$]; a line feed may follow. *)
Definition negative_number (s : string) : bool :=
  match s with
  | String c r =>
      (code c =? 45)
      && let '(whole, r) := take_digits r in
         let final r := (r =? "")%string || (r =? String LF "")%string in
         (negb (whole =? "")%string && final r)
         || match r with
            | String d r' =>
                let '(fraction, r') := take_digits r' in
                (code d =? 46) && negb (fraction =? "")%string && final r'
            | EmptyString => false
            end
  | EmptyString => false
  end.

Definition usage_error {A} (msg : string) : res A := raise CliUsageError msg.

Section parser.
Context {A : Type}.
Implicit Types (acts : list (action A)) (a : A).

Definition find_action acts (name : string) : option (action A) :=
  find (λ x, (flag x =? name)%string) acts.

Definition exact acts (name : string) (explicit : option string) : option token :=
  if ((name =? "-h") || (name =? "--help"))%string then Some (Help explicit)
  else match find_action acts name with
       | Some _ => Some (Known name explicit)
       | None => None
       end.

(** [_get_option_tuples] *)
Definition abbreviated acts (arg : string) : list token :=
  if startswith "--" arg then
    let '(prefix, has_value, value) := partition "=" arg in
    let explicit := if has_value then Some value else None in
    (if startswith prefix "--help" then [Help explicit] else [])
    ++ ((λ x, Known (flag x) explicit) <$> filter (λ x, startswith prefix (flag x) = true) acts)
  else if startswith "-h" arg then [Help (Some (str_drop 2 arg))] else [].

(** [_parse_optional] *)
Definition classify acts (arg : string) : res token :=
  match arg with
  | EmptyString => Ok Positional
  | String c r =>
      if negb (code c =? 45) then Ok Positional
      else match exact acts arg None with
           | Some t => Ok t
           | None =>
               if (r =? "")%string then Ok Positional
               else
                 let '(name, has_value, value) := partition "=" arg in
                 match (if has_value then exact acts name (Some value) else None) with
                 | Some t => Ok t
                 | None =>
                     match abbreviated acts arg with
                     | [t] => Ok t
                     | _ :: _ :: _ => usage_error "ambiguous option"
                     | [] => if negative_number arg || str_has " " arg then Ok Positional
                             else Ok Unknown
                     end
                 end
           end
  end.

(** Every word is classified before any is consumed. *)
Fixpoint classify_all acts (argv : list string) : res (list (string * token)) :=
  match argv with
  | [] => Ok []
  | arg :: argv =>
      if (arg =? "--")%string then Ok ((arg, Separator) :: ((λ x, (x, Positional)) <$> argv))
      else t ← classify acts arg; ts ← classify_all acts argv; Ok ((arg, t) :: ts)
  end.

(** The conversion and its error messages. *)
Definition convert (x : action A) (value : string) a : res A :=
  try_except (store x value a) [ArgumentTypeError; TypeError; ValueError]
    (λ e, usage_error ("argument " +:+ flag x +:+ ": " +:+ exn_msg e)).

Definition conflicts acts (seen : list string) (x : action A) : bool :=
  match group x with
  | None => false
  | Some g => existsb (λ name, negb (name =? flag x)%string
                               && match find_action acts name with
                                  | Some y => bool_decide (group y = Some g)
                                  | None => false
                                  end) seen
  end.

(** [take_action] *)
Definition take_action acts (x : action A) (value : string) (seen : list string) a
    : res (list string * A) :=
  a ← convert x value a;
  raise_if (conflicts acts seen x) CliUsageError "not allowed with argument" ;;
  Ok (flag x :: seen, a).

(** The loop over the words; [extra] says that a word was not consumed. *)
Fixpoint consume acts (words : list (string * token)) (seen : list string) (extra : bool) a
    : res (list string * bool * A) :=
  match words with
  | [] => Ok (seen, extra, a)
  | (_, Help None) :: _ => raise SystemExit "0"
  | (_, Help (Some _)) :: _ => usage_error "ignored explicit argument"
  | (_, Known name explicit) :: words =>
      match find_action acts name, explicit with
      | None, _ => usage_error "unrecognized arguments"
      | Some x, Some value =>
          if valued x then
            '(seen, a) ← take_action acts x value seen a; consume acts words seen extra a
          else usage_error "ignored explicit argument"
      | Some x, None =>
          if valued x then
            match words with
            | (value, Positional) :: words | (_, Separator) :: (value, Positional) :: words =>
                '(seen, a) ← take_action acts x value seen a; consume acts words seen extra a
            | _ => usage_error "expected one argument"
            end
          else '(seen, a) ← take_action acts x "" seen a; consume acts words seen extra a
      end
  | (_, _) :: words => consume acts words seen true a
  end.

(** A needed option, or some option of each needed group, was seen. *)
Definition satisfied acts (seen : list string) (x : action A) : bool :=
  negb (needed x)
  || existsb (λ name, (name =? flag x)%string
                      || match group x, find_action acts name with
                         | Some g, Some y => bool_decide (group y = Some g)
                         | _, _ => false
                         end) seen.

(** The namespace of a subcommand, and whether words were left over. *)
Definition parse_options acts (argv : list string) a : res (A * bool) :=
  words ← classify_all acts argv;
  '(seen, extra, a) ← consume acts words [] false a;
  raise_if (negb (forallb (satisfied acts seen) acts)) CliUsageError
    "the following arguments are required" ;;
  Ok (a, extra).
End parser.

(** ** Subcommands *)

(** A parser whose only option is help and whose first word chooses the parser of
    the rest. *)
Fixpoint parse_command {B} (sub : string → list string → res (B * bool)) (argv : list string) : res B :=
  match argv with
  | [] => usage_error "the following arguments are required: command"
  | word :: rest =>
      t ← (if (word =? "--")%string then Ok Positional else classify (A:=B) [] word);
      match t with
      | Help None => raise SystemExit "0"
      | Help (Some _) => usage_error "ignored explicit argument"
      | Positional =>
          '(b, extra) ← sub word rest;
          raise_if extra CliUsageError "unrecognized arguments" ;;
          Ok b
      | _ => parse_command sub rest ;; usage_error "unrecognized arguments"
      end
  end.

(** * Lemmas *)

Section parser_lemmas.
Context {A : Type}.
Implicit Types (acts : list (action A)) (a : A) (uses : list (action A * string)).

(** ** Errors *)

Notation usage_errors := [CliUsageError; SystemExit].

Lemma throws_usage {B} msg : throws usage_errors (usage_error (A:=B) msg).
Proof. by apply throws_raise. Qed.
#[local] Hint Resolve throws_usage : py.

Lemma throws_classify acts arg : throws usage_errors (classify acts arg).
Proof. unfold classify. solve_throws. Qed.
Lemma throws_classify_all acts argv : throws usage_errors (classify_all acts argv).
Proof.
  induction argv as [|arg argv IH]; simpl; [solve_throws|].
  destruct (arg =? "--")%string; [solve_throws|].
  apply throws_bind; [apply throws_classify|intros t _]. apply throws_bind; [apply IH|solve_throws].
Qed.

(** Conversions that raise only errors of the argument. *)
Definition converts acts : Prop :=
  Forall (λ x, ∀ v a, throws [ArgumentTypeError; TypeError; ValueError] (store x v a)) acts.

Lemma find_action_elem acts name x : find_action acts name = Some x → x ∈ acts ∧ flag x = name.
Proof.
  unfold find_action. intros [Hx Hf]%find_some. split; [by apply list_elem_of_In|by apply String.eqb_eq].
Qed.

Lemma throws_take_action acts x v seen a :
  converts acts → x ∈ acts → throws usage_errors (take_action acts x v seen a).
Proof.
  intros Hc Hx. unfold take_action, convert. apply throws_bind; [|intros; solve_throws].
  unfold converts in Hc. rewrite Forall_forall in Hc. specialize (Hc x Hx v a).
  intros e. unfold try_except. destruct (store x v a) as [b|e']; [done|].
  destruct (existsb _ _) eqn:E; [by intros [= <-]|]. intros [= <-].
  specialize (Hc e' eq_refl). simpl in *. by rewrite E in Hc.
Qed.

Lemma throws_consume acts words seen extra a :
  converts acts → throws usage_errors (consume acts words seen extra a).
Proof.
  intros Hc. revert seen extra a. remember (length words) as n eqn:Hn. revert words Hn.
  induction (lt_wf n) as [n _ IH]. intros words -> seen extra a.
  destruct words as [|[arg t] words]; [done|].
  assert (∀ ws seen extra a, (length ws <= length words)%nat →
    throws usage_errors (consume acts ws seen extra a)) as IHw by (intros; eapply IH; [|done]; simpl; lia).
  assert (∀ x v ws, x ∈ acts → (length ws <= length words)%nat →
    throws usage_errors ('(seen, a) ← take_action acts x v seen a; consume acts ws seen extra a)) as Ht.
  { intros x v ws Hx Hws. apply throws_bind; [by apply throws_take_action|].
    intros [seen' a'] _. by apply IHw. }
  destruct t as [| | |[e|]|name explicit]; simpl; try (by apply IHw); try solve [solve_throws].
  destruct (find_action acts name) as [x|] eqn:Ex; [|solve_throws].
  apply find_action_elem in Ex as [Hx _].
  destruct explicit as [v|]; destruct (valued x); try solve [solve_throws]; try (by apply Ht).
  destruct words as [|[w []] words]; try solve [solve_throws]; [apply Ht; simpl; auto|].
  destruct words as [|[w' []] words]; try solve [solve_throws]. apply Ht; simpl; auto.
Qed.

Lemma throws_parse_options acts argv a : converts acts → throws usage_errors (parse_options acts argv a).
Proof.
  intros Hc. unfold parse_options. apply throws_bind; [apply throws_classify_all|intros words _].
  apply throws_bind; [by apply throws_consume|intros [[seen extra] b] _]. solve_throws.
Qed.

(** ** What the parser stores *)

(** An invariant of the options seen and the namespace. *)
Definition stored_by acts (I : list string → A → Prop) : Prop :=
  ∀ x v seen a b, x ∈ acts → I seen a → store x v a = Ok b → I (flag x :: seen) b.

Lemma take_action_invariant acts I x v seen a seen' b :
  stored_by acts I → x ∈ acts → I seen a → take_action acts x v seen a = Ok (seen', b) → I seen' b.
Proof.
  intros HI Hx Ha H. unfold take_action, convert in H.
  apply res_bind_ok in H as (b' & Hb & H). apply res_bind_ok in H as ([] & _ & [= <- <-]).
  apply try_except_ok in Hb as [Hb|(e & _ & _ & Hb)]; [by eapply HI|done].
Qed.

Lemma consume_invariant acts I words seen extra a seen' extra' b :
  stored_by acts I → I seen a → consume acts words seen extra a = Ok (seen', extra', b) → I seen' b.
Proof.
  intros HI. revert seen extra a. remember (length words) as n eqn:Hn. revert words Hn.
  induction (lt_wf n) as [n _ IH]. intros words -> seen extra a Ha H.
  destruct words as [|[arg t] words]; [by injection H as <- <- <-|].
  assert (∀ ws seen extra a, (length ws <= length words)%nat → I seen a →
    consume acts ws seen extra a = Ok (seen', extra', b) → I seen' b) as IHw
    by (intros; eapply IH; [|done..]; simpl; lia).
  assert (∀ x v ws, x ∈ acts → (length ws <= length words)%nat →
    ('(seen, a) ← take_action acts x v seen a; consume acts ws seen extra a) = Ok (seen', extra', b) →
    I seen' b) as Ht.
  { intros x v ws Hx Hws Hr. apply res_bind_ok in Hr as ([s1 a1] & H1 & Hr).
    by apply (IHw _ _ _ _ Hws (take_action_invariant _ _ _ _ _ _ _ _ HI Hx Ha H1)) in Hr. }
  destruct t as [| | |[e|]|name explicit]; simpl in H; try done; try (by eapply IHw; [|done..]).
  destruct (find_action acts name) as [x|] eqn:Ex; [|done].
  apply find_action_elem in Ex as [Hx _].
  destruct explicit as [v|]; destruct (valued x); try done; try (by eapply Ht).
  destruct words as [|[w []] words]; try done; [by eapply Ht; [| |done]; simpl; auto|].
  destruct words as [|[w' []] words]; try done. eapply Ht; [| |done]; simpl; auto.
Qed.

(** A parsed namespace satisfies the invariant, and every needed option outside a
    group was seen. *)
Lemma parse_options_invariant acts I argv a b extra :
  stored_by acts I → I [] a → parse_options acts argv a = Ok (b, extra) →
  ∃ seen, I seen b ∧ (∀ x, x ∈ acts → needed x = true → group x = None → flag x ∈ seen).
Proof.
  intros HI Ha H. unfold parse_options in H.
  apply res_bind_ok in H as (words & _ & H). apply res_bind_ok in H as ([[seen extra'] b'] & Hc & H).
  apply res_bind_ok in H as ([] & Hs%raise_if_ok%negb_false_iff & [= -> ->]).
  exists seen. split; [by eapply consume_invariant|].
  intros x Hx Hn Hg. apply (forallb_elem _ _ _ Hs) in Hx. unfold satisfied in Hx. rewrite Hn, Hg in Hx.
  apply orb_true_iff in Hx as [?|Hx]; [done|].
  apply existsb_exists in Hx as (name & Hin & E). rewrite orb_false_r in E.
  apply String.eqb_eq in E as <-. by apply list_elem_of_In.
Qed.
End parser_lemmas.

Lemma parse_command_invariant {B} (P : B → Prop) (sub : string → list string → res (B * bool)) argv b :
  (∀ word rest b extra, sub word rest = Ok (b, extra) → P b) → parse_command sub argv = Ok b → P b.
Proof.
  intros Hs. destruct argv as [|word rest]; [done|]. simpl. intros (t & _ & H)%res_bind_ok.
  destruct t as [| | |[]|]; try done; try (by apply res_bind_ok in H as (? & _ & H)).
  apply res_bind_ok in H as ([b' extra] & Hb & H). apply res_bind_ok in H as ([] & _ & [= <-]).
  by eapply Hs.
Qed.

Lemma throws_parse_command {B} (sub : string → list string → res (B * bool)) argv :
  (∀ word rest, throws [CliUsageError; SystemExit] (sub word rest)) →
  throws [CliUsageError; SystemExit] (parse_command sub argv).
Proof.
  intros Hs. induction argv as [|word rest IH]; simpl; [by apply throws_raise|].
  apply throws_bind; [destruct (word =? "--")%string; [apply throws_ok|apply throws_classify]|].
  intros t _. destruct t as [| | |[]|]; try by apply throws_raise.
  - apply throws_bind; [apply Hs|]. intros [b extra] _. solve_throws.
  - apply throws_bind; [apply IH|]. intros; by apply throws_raise.
  - apply throws_bind; [apply IH|]. intros; by apply throws_raise.
  - apply throws_bind; [apply IH|]. intros; by apply throws_raise.
Qed.

(** ** Written options *)

Section written.
Context {A : Type}.
Implicit Types (acts : list (action A)) (x : action A) (a : A) (uses : list (action A * string)).

(** The word that gives an option its value. *)
Definition written (u : action A * string) : string :=
  if valued u.1 then flag u.1 +:+ "=" +:+ u.2 else flag u.1.

(** Long option names without an equals sign, each declared once. *)
Definition flag_ok (name : string) : bool :=
  startswith "--" name && (2 <? str_len name) && str_all (λ c, negb (is_char "=" c)) name
  && negb (name =? "--help")%string.
Definition parser_ok acts : bool :=
  forallb (λ x, flag_ok (flag x)) acts && bool_decide (NoDup (flag <$> acts)).

Lemma find_action_ok acts x : parser_ok acts = true → x ∈ acts → find_action acts (flag x) = Some x.
Proof.
  unfold parser_ok. intros [_ Hd]%andb_true_iff Hx. apply bool_decide_eq_true in Hd.
  unfold find_action. induction acts as [|y acts IH]; [by apply elem_of_nil in Hx|].
  csimpl in Hd. apply NoDup_cons in Hd as [Hy Hd]. simpl. apply elem_of_cons in Hx as [->|Hx].
  - by rewrite String.eqb_refl.
  - rewrite (proj2 (String.eqb_neq _ _)); [by apply IH|].
    intros E. apply Hy. rewrite E. by apply list_elem_of_fmap_2.
Qed.

Lemma parser_ok_flag acts x : parser_ok acts = true → x ∈ acts → flag_ok (flag x) = true.
Proof.
  unfold parser_ok. intros [Hf _]%andb_true_iff Hx. by apply (forallb_elem _ _ _ Hf) in Hx.
Qed.

Lemma flag_ok_shape name :
  flag_ok name = true →
  (∃ c r, name = String "-" (String "-" (String c r)))
  ∧ str_all (λ c, negb (is_char "=" c)) name = true ∧ name ≠ "--help".
Proof.
  unfold flag_ok. intros [[[Hs Hl]%andb_true_iff Heq]%andb_true_iff Hh]%andb_true_iff.
  apply startswith_spec in Hs as [r ->]. destruct r as [|c r]; [done|].
  split; [by exists c, r|]. split; [done|]. by apply negb_true_iff, String.eqb_neq in Hh.
Qed.

(** A word with an equals sign is no option by itself. *)
Lemma exact_equals acts name v : parser_ok acts = true → exact acts (name +:+ "=" +:+ v) None = None.
Proof.
  intros Hp. assert (str_has "=" (name +:+ "=" +:+ v) = true) as Hc
    by (rewrite str_has_app; change (str_has "=" ("=" +:+ v)) with true; apply orb_true_r).
  unfold exact. destruct (_ || _) eqn:Eh.
  { apply orb_true_iff in Eh as [E|E]; apply String.eqb_eq in E; by rewrite E in Hc. }
  destruct (find_action acts _) as [y|] eqn:Ey; [|done].
  apply find_action_elem in Ey as [Hy Ey]. exfalso.
  apply (parser_ok_flag _ _ Hp), flag_ok_shape in Hy as (_ & Hy & _).
  rewrite Ey in Hy. by rewrite (str_has_none _ _ Hy) in Hc.
Qed.

Lemma exact_flag acts x explicit :
  parser_ok acts = true → x ∈ acts → exact acts (flag x) explicit = Some (Known (flag x) explicit).
Proof.
  intros Hp Hx. destruct (flag_ok_shape _ (parser_ok_flag _ _ Hp Hx)) as ((c & r & E) & _ & Hh).
  unfold exact. rewrite (proj2 (String.eqb_neq _ "--help") Hh), find_action_ok by done.
  by rewrite (proj2 (String.eqb_neq _ "-h")) by by rewrite E.
Qed.

Lemma classify_written acts x v :
  parser_ok acts = true → x ∈ acts →
  classify acts (written (x, v)) = Ok (Known (flag x) (if valued x then Some v else None))
  ∧ written (x, v) ≠ "--".
Proof.
  intros Hp Hx. destruct (flag_ok_shape _ (parser_ok_flag _ _ Hp Hx)) as ((c & r & E) & Heq & _).
  unfold written. cbn [fst snd]. destruct (valued x); (split; [|by rewrite E]).
  - pose proof (exact_equals acts (flag x) v Hp) as Hn.
    pose proof (partition_app "=" (flag x) v Heq) as Hs.
    pose proof (exact_flag acts x (Some v) Hp Hx) as He.
    change (String "=" v) with ("=" +:+ v) in Hs. unfold classify.
    destruct (flag x +:+ "=" +:+ v) as [|d w] eqn:Ew; [by rewrite E in Ew|].
    assert (d = "-"%char ∧ w ≠ "") as [-> Hw] by (rewrite E in Ew; by injection Ew as <- <-).
    change (negb (code "-" =? 45)) with false. cbv iota. rewrite Hn.
    rewrite (proj2 (String.eqb_neq _ _) Hw), Hs, He. done.
  - pose proof (exact_flag acts x None Hp Hx) as He. unfold classify.
    destruct (flag x) as [|d w] eqn:Ew; [done|]. injection E as -> _.
    change (negb (code "-" =? 45)) with false. cbv iota. by rewrite He.
Qed.

Lemma classify_all_written acts uses :
  parser_ok acts = true → Forall (λ u, u.1 ∈ acts) uses →
  classify_all acts (written <$> uses)
  = Ok ((λ u, (written u, Known (flag u.1) (if valued u.1 then Some u.2 else None))) <$> uses).
Proof.
  intros Hp. induction 1 as [|[x v] uses Hx Huses IH]; [done|]. csimpl.
  destruct (classify_written acts x v Hp Hx) as [Hc Hn].
  by rewrite (proj2 (String.eqb_neq _ _) Hn), Hc, IH.
Qed.

(** What the uses store, one after the other. *)
Fixpoint store_all acts uses (seen : list string) a : res (list string * A) :=
  match uses with
  | [] => Ok (seen, a)
  | (x, v) :: uses => '(seen, a) ← take_action acts x v seen a; store_all acts uses seen a
  end.

Lemma consume_written acts uses seen a :
  parser_ok acts = true → Forall (λ u, u.1 ∈ acts) uses → Forall (λ u, valued u.1 = false → u.2 = "") uses →
  consume acts ((λ u, (written u, Known (flag u.1) (if valued u.1 then Some u.2 else None))) <$> uses)
    seen false a
  = ('(seen, a) ← store_all acts uses seen a; Ok (seen, false, a)).
Proof.
  intros Hp Huses. revert seen a. induction Huses as [|[x v] uses Hx Huses IH]; [done|].
  intros seen a [Hv Hall]%Forall_cons. csimpl. rewrite find_action_ok by done.
  destruct (valued x) eqn:Ev; simpl in *; [|rewrite (Hv Ev)];
    destruct (take_action _ _ _ _ _) as [[seen' a']|e]; simpl; by rewrite ?IH.
Qed.

(** Parsing written options stores their values in order. *)
Lemma parse_written acts uses seen a a' :
  parser_ok acts = true → Forall (λ u, u.1 ∈ acts) uses → Forall (λ u, valued u.1 = false → u.2 = "") uses →
  store_all acts uses [] a = Ok (seen, a') → forallb (satisfied acts seen) acts = true →
  parse_options acts (written <$> uses) a = Ok (a', false).
Proof.
  intros Hp Hu Hv Hs Hsat. unfold parse_options. rewrite classify_all_written by done.
  cbn [mbind res_bind]. rewrite consume_written, Hs by done. simpl. by rewrite Hsat.
Qed.
End written.
