(* ===== verification/PySha256.v ===== *)
(** * SHA-256 ([hashlib.sha256])

    The standard library's hash as the rail checks and recovered order ids use
    it: FIPS 180-4 on lists of byte values, with the lower-case hex digest.  Two
    published test vectors are checked by evaluation. *)

From S2P Require Import Prelude PyStr.
Local Open Scope Z_scope.

(** ** The tables, computed *)

(** The largest [r] with [r^k <= n] below [lo + 2^bits], by bisection. *)
Fixpoint int_root (bits : nat) (k n lo : Z) : Z :=
  match bits with
  | O => lo
  | S b =>
      let mid := lo + 2 ^ Z.of_nat b in
      int_root b k n (if mid ^ k <=? n then mid else lo)
  end.

Definition is_prime (n : Z) : bool :=
  forallb (λ d, negb (n mod d =? 0)) (Z.of_nat <$> seq 2 (Z.to_nat n - 2)).

(** The first 32 bits of the fractional part of the [k]-th root of [p]. *)
Definition root_bits (k p : Z) : Z := int_root 40 k (p * 2 ^ (32 * k)) 0 mod 2 ^ 32.

(** The first sixty-four primes; the last one is 311. *)
Definition primes : list Z :=
  Eval vm_compute in filter (λ n, is_prime n = true) (Z.of_nat <$> seq 2 310).

Definition round_constants : list Z := Eval vm_compute in root_bits 3 <$> primes.
Definition initial_state : list Z := Eval vm_compute in root_bits 2 <$> take 8 primes.

(** ** The compression function *)

Definition w32 (x : Z) : Z := Z.land x 0xffffffff.
Definition rotr (n x : Z) : Z := w32 (Z.lor (Z.shiftr x n) (Z.shiftl x (32 - n))).
Definition xor3 (a b c : Z) : Z := Z.lxor a (Z.lxor b c).

Definition small_sigma0 (x : Z) : Z := xor3 (rotr 7 x) (rotr 18 x) (Z.shiftr x 3).
Definition small_sigma1 (x : Z) : Z := xor3 (rotr 17 x) (rotr 19 x) (Z.shiftr x 10).
Definition big_sigma0 (x : Z) : Z := xor3 (rotr 2 x) (rotr 13 x) (rotr 22 x).
Definition big_sigma1 (x : Z) : Z := xor3 (rotr 6 x) (rotr 11 x) (rotr 25 x).
Definition choose (x y z : Z) : Z := Z.lxor (Z.land x y) (Z.land (Z.lxor x 0xffffffff) z).
Definition majority (x y z : Z) : Z := xor3 (Z.land x y) (Z.land x z) (Z.land y z).

(** The message schedule: [n] further words after the last sixteen, which are
    kept newest first. *)
Fixpoint schedule (n : nat) (recent : list Z) : list Z :=
  match n with
  | O => []
  | S n =>
      let w := w32 (small_sigma1 (nth 1 recent 0) + nth 6 recent 0
                    + small_sigma0 (nth 14 recent 0) + nth 15 recent 0) in
      w :: schedule n (w :: take 15 recent)
  end.

Definition round (st : list Z) (kw : Z * Z) : list Z :=
  match st with
  | [a; b; c; d; e; f; g; h] =>
      let t1 := h + big_sigma1 e + choose e f g + kw.1 + kw.2 in
      let t2 := big_sigma0 a + majority a b c in
      [w32 (t1 + t2); a; b; c; w32 (d + t1); e; f; g]
  | _ => st
  end.

Definition compress (st block : list Z) : list Z :=
  let ws := block ++ schedule 48 (rev block) in
  zip_with (λ x y, w32 (x + y)) st (foldl round st (zip round_constants ws)).

(** Big-endian bytes of a number, and words of four bytes. *)
Definition be_bytes (n : nat) (v : Z) : list Z :=
  (λ i, Z.land (Z.shiftr v (8 * Z.of_nat i)) 255) <$> rev (seq 0 n).

Fixpoint words (bs : list Z) : list Z :=
  match bs with
  | a :: b :: c :: d :: bs => (((a * 256 + b) * 256 + c) * 256 + d) :: words bs
  | _ => []
  end.

Definition pad (bs : list Z) : list Z :=
  let l := Z.of_nat (length bs) in
  bs ++ [128] ++ replicate (Z.to_nat ((55 - l) mod 64)) 0 ++ be_bytes 8 (8 * l).

(** [fuel] bounds the number of sixteen-word blocks. *)
Fixpoint compress_all (fuel : nat) (st ws : list Z) : list Z :=
  match fuel, ws with
  | O, _ | _, [] => st
  | S fuel, _ => compress_all fuel (compress st (take 16 ws)) (drop 16 ws)
  end.

Definition sha256 (bs : list Z) : list Z :=
  let ws := words (pad bs) in compress_all (length ws) initial_state ws.

(** [hashlib.sha256(bs).hexdigest()] *)
Definition sha256_hex (bs : list Z) : string := str_cat (numw 16 8 <$> sha256 bs).

(** The bytes of an ASCII text, [s.encode()]. *)
Fixpoint encode_ascii (s : string) : list Z :=
  match s with EmptyString => [] | String c s => code c :: encode_ascii s end.

Example sha256_empty :
  sha256_hex [] = "e3b0c44298fc1c149afbf4c8996fb92427ae41e4649b934ca495991b7852b855".
Proof. vm_compute. reflexivity. Qed.

Example sha256_abc :
  sha256_hex (encode_ascii "abc")
  = "ba7816bf8f01cfea414140de5dae2223b00361a396177a9cb410ff61f20015ad".
Proof. vm_compute. reflexivity. Qed.

Example sha256_two_blocks :
  sha256_hex (encode_ascii (str_repeat "a" 60))
  = "11ee391211c6256460b6ed375957fadd8061cafbb31daf967db875aebd5aaad4".
Proof. vm_compute. reflexivity. Qed.

Lemma round_length st kw : length st = 8%nat → length (round st kw) = 8%nat.
Proof. by destruct st as [|a [|b [|c [|d [|e [|f [|g [|h [|]]]]]]]]]. Qed.

Lemma compress_length st block : length st = 8%nat → length (compress st block) = 8%nat.
Proof.
  intros Hst. unfold compress. rewrite length_zip_with.
  assert (∀ l s, length s = 8%nat → length (foldl round s l) = 8%nat) as Hfold.
  { induction l as [|kw l IH]; intros s Hs; [done|]. simpl. by apply IH, round_length. }
  rewrite Hfold by done. lia.
Qed.

Lemma sha256_length bs : length (sha256 bs) = 8%nat.
Proof.
  unfold sha256. generalize (words (pad bs)) as ws. intros ws.
  assert (length initial_state = 8%nat) as Hi by done. revert Hi.
  generalize initial_state (length ws). intros st fuel. revert st ws.
  induction fuel as [|fuel IH]; intros st ws Hst; simpl; [done|].
  destruct ws; [done|]. by apply IH, compress_length.
Qed.

(** A digest is 64 lower-case hex digits. *)
Lemma sha256_hex_digest bs : re_sha256 (sha256_hex bs) = true.
Proof.
  assert (∀ l, String.length (str_cat (numw 16 8 <$> l)) = (8 * length l)%nat
               ∧ str_all is_lower_hex_digit (str_cat (numw 16 8 <$> l)) = true) as H.
  { induction l as [|w l [IH1 IH2]]; [done|].
    change (str_cat (numw 16 8 <$> w :: l)) with (numw 16 8 w +:+ str_cat (numw 16 8 <$> l)).
    rewrite str_length_app, str_all_app, length_numw, numw_lower_hex, IH1, IH2 by done.
    simpl length. split; [lia|done]. }
  unfold re_sha256, sha256_hex. destruct (H (sha256 bs)) as [-> ->]. by rewrite sha256_length.
Qed.
