(* ===== verification/PyDecimal.v ===== *)
(** * Python's [decimal.Decimal] as the package uses it

    [Decimal(s)] of a string, the tuple view of a finite value, comparison with
    0 and 1, and the decimal text of an integer.  Construction from a string is
    exact; it is refused outside the exponent range of the C implementation. *)

From S2P Require Import Prelude PyStr.
Local Open Scope Z_scope.

(** [DFinite sign coefficient exponent] is [(-1)^sign * coefficient * 10^exponent]. *)
Inductive decimal :=
  | DFinite (sign : bool) (coefficient exponent : Z)
  | DInf (sign : bool)
  | DNaN.

#[export] Instance decimal_eq_dec : EqDecision decimal.
Proof. solve_decision. Defined.

(** The longest prefix of characters in [p], and the rest. *)
Fixpoint span (p : ascii → bool) (s : string) : string * string :=
  match s with
  | EmptyString => (EmptyString, EmptyString)
  | String c r => if p c then let '(a, b) := span p r in (String c a, b) else (EmptyString, s)
  end.

Fixpoint drop_underscores (s : string) : string :=
  match s with
  | EmptyString => EmptyString
  | String c r => if code c =? 95 then drop_underscores r else String c (drop_underscores r)
  end.

Definition MAX_EMAX : Z := 999999999999999999.
Definition MIN_ETINY : Z := -1999999999999999997.

(** The exponent part: nothing, or [e] and an integer. *)
Definition parse_exponent (s : string) : option Z :=
  match s with
  | EmptyString => Some 0
  | String c r =>
      if (code c =? 101) || (code c =? 69) then
        let '(neg, d) := split_sign r in
        if negb (d =? "")%string && str_all is_dec_digit d
        then Some (signed neg (num_value 10 0 d)) else None
      else None
  end.

(** The fraction part: nothing, or a dot and digits. *)
Definition split_fraction (s : string) : string * string :=
  match s with
  | String c r => if code c =? 46 then span is_dec_digit r else (EmptyString, s)
  | EmptyString => (EmptyString, EmptyString)
  end.

Definition parse_number (neg : bool) (s : string) : option decimal :=
  let '(whole, s) := span is_dec_digit s in
  let '(fraction, s) := split_fraction s in
  if ((whole +:+ fraction) =? "")%string then None
  else
    e ← parse_exponent s;
    let coefficient := num_value 10 0 (whole +:+ fraction) in
    let exponent := e - str_len fraction in
    if (exponent + Z.of_nat (ndigits 10 coefficient) - 1 <=? MAX_EMAX) && (MIN_ETINY <=? exponent)
    then Some (DFinite neg coefficient exponent) else None.

(** [Decimal(s)], [None] for [InvalidOperation] *)
Definition py_decimal (s : string) : option decimal :=
  let '(neg, r) := split_sign (drop_underscores (strip s)) in
  let low := lower r in
  if (low =? "inf")%string || (low =? "infinity")%string then Some (DInf neg)
  else if (startswith "nan" low && str_all is_dec_digit (str_drop 3 low))
          || (startswith "snan" low && str_all is_dec_digit (str_drop 4 low)) then Some DNaN
  else parse_number neg r.

Definition is_finite (d : decimal) : bool := match d with DFinite _ _ _ => true | _ => false end.

(** [d < 0] of a finite value *)
Definition is_negative (d : decimal) : bool :=
  match d with DFinite sign c _ => sign && negb (c =? 0) | DInf sign => sign | DNaN => false end.

(** [d <= 1] of a finite non-negative value *)
Definition le_one (d : decimal) : bool :=
  match d with
  | DFinite _ c e => if 0 <=? e then c * 10 ^ e <=? 1 else c <=? 10 ^ (- e)
  | _ => false
  end.

(** [d.as_integer_ratio()] of a finite non-negative value: in lowest terms. *)
Definition as_integer_ratio (d : decimal) : Z * Z :=
  match d with
  | DFinite sign c e =>
      let n := c * 10 ^ Z.max e 0 in
      let m := 10 ^ Z.max (- e) 0 in
      let g := Z.gcd n m in
      (signed sign (n / g), m / g)
  | _ => (0, 1)
  end.

(** * Lemmas *)

Lemma span_app p s t :
  str_all p s = true → (∀ c r, t = String c r → p c = false) → span p (s +:+ t) = (s, t).
Proof.
  intros Hs Ht. induction s as [|c s IH]; simpl in *.
  - change (EmptyString +:+ t) with t. destruct t as [|c t]; [done|]. simpl.
    by rewrite (Ht c t eq_refl).
  - apply andb_true_iff in Hs as [Hc Hs]. change (String c s +:+ t) with (String c (s +:+ t)).
    simpl. by rewrite Hc, IH.
Qed.

Lemma drop_underscores_id s : str_all (λ c, negb (code c =? 95)) s = true → drop_underscores s = s.
Proof.
  induction s as [|c s IH]; [done|]. cbn [str_all drop_underscores].
  intros [->%negb_true_iff Hs]%andb_true_iff. by rewrite IH.
Qed.

Lemma strip_id s : str_all (λ c, negb (str_space c)) s = true → strip s = s.
Proof. apply strip_by_id. Qed.

(** Characters of a plain decimal number. *)
Definition plain_char (c : ascii) : bool := is_dec_digit c || (code c =? 46).

Lemma plain_char_facts c :
  plain_char c = true → str_space c = false ∧ (code c =? 95) = false ∧ (code c =? 45) = false
    ∧ (code c =? 43) = false ∧ lower_char c = c ∧ (code c =? 105) = false
    ∧ (code c =? 110) = false ∧ (code c =? 115) = false.
Proof. all_chars c. Qed.

Lemma dot_not_digit c : is_dec_digit c = true → (code c =? 46) = false.
Proof. all_chars c. Qed.

(** [Decimal(s)] of plain digits and dots is [parse_number]. *)
Lemma py_decimal_plain s :
  s ≠ "" → str_all plain_char s = true → py_decimal s = parse_number false s.
Proof.
  intros Hne Hs. unfold py_decimal.
  rewrite strip_id by (eapply str_all_impl, Hs; by intros c [-> _]%plain_char_facts).
  rewrite drop_underscores_id by (eapply str_all_impl, Hs; by intros c (_ & -> & _)%plain_char_facts).
  destruct s as [|c r]; [done|]. cbn [str_all] in Hs. apply andb_true_iff in Hs as [Hc Hr].
  destruct (plain_char_facts c Hc) as (_ & _ & E45 & E43 & Elow & E105 & E110 & E115).
  unfold split_sign. rewrite E45, E43.
  assert (∀ a t, (code c =? code a) = false → (lower (String c r) =? String a t)%string = false
    ∧ startswith (String a t) (lower (String c r)) = false) as Hhead.
  { intros a t Hne'. change (lower (String c r)) with (String (lower_char c) (lower r)).
    rewrite Elow. assert (c ≠ a) by (intros ->; by rewrite Z.eqb_refl in Hne'). split.
    - apply String.eqb_neq. congruence.
    - unfold startswith. simpl. by destruct (ascii_dec a c). }
  rewrite (proj1 (Hhead "i"%char "nf" E105)), (proj1 (Hhead "i"%char "nfinity" E105)),
    (proj2 (Hhead "n"%char "an" E110)), (proj2 (Hhead "s"%char "nan" E115)). done.
Qed.

Lemma dec_value_range s :
  str_all is_dec_digit s = true → 0 ≤ num_value 10 0 s < 10 ^ str_len s.
Proof.
  unfold str_len. induction s as [|c s IH]; [by intros _; cbv|].
  cbn [str_all String.length]. intros [Hc Hs]%andb_true_iff.
  change (num_value 10 0 (String c s)) with (num_value 10 (0 * 10 + digit_val c) s).
  rewrite num_value_acc, Nat2Z.inj_succ, Z.pow_succ_r by lia.
  specialize (IH Hs). assert (0 ≤ digit_val c < 10) by (clear -Hc; all_chars c; lia). nia.
Qed.

(** Digits with an optional fraction denote the digits scaled. *)
Lemma parse_plain w f :
  str_all is_dec_digit w = true → str_all is_dec_digit f = true → w ≠ "" →
  str_len w + str_len f ≤ 1024 →
  parse_number false (w +:+ (if (f =? "")%string then "" else "." +:+ f))
  = Some (DFinite false (num_value 10 0 (w +:+ f)) (- str_len f)).
Proof.
  intros Hw Hf Hne Hlen. unfold parse_number. rewrite span_app; [|done|].
  2:{ intros c r. destruct (f =? "")%string; [done|]. by intros [= <- _]. }
  assert (split_fraction (if (f =? "")%string then "" else "." +:+ f) = (f, "")) as ->.
  { destruct (String.eqb_spec f "") as [->|Hf0]; [done|].
    change (split_fraction ("." +:+ f)) with (span is_dec_digit f).
    rewrite <- (str_app_nil_r f) at 1. by apply span_app. }
  assert (((w +:+ f) =? "")%string = false) as ->.
  { apply String.eqb_neq. by destruct w. }
  cbn [parse_exponent mbind option_bind]. rewrite Z.sub_0_l.
  assert (Hwf : str_all is_dec_digit (w +:+ f) = true) by by rewrite str_all_app, Hw, Hf.
  pose proof (dec_value_range _ Hwf) as Hr. set (n := num_value 10 0 (w +:+ f)) in *.
  assert (Hl : str_len (w +:+ f) = str_len w + str_len f).
  { unfold str_len. rewrite str_length_app. lia. }
  assert (0 < str_len w) by (unfold str_len; destruct w; simpl; [done|lia]).
  assert (0 ≤ str_len f) by (unfold str_len; lia).
  assert (Z.of_nat (ndigits 10 n) ≤ 1024) as Hn.
  { transitivity (str_len (w +:+ f)); [|lia]. unfold str_len in Hr |- *.
    enough (ndigits 10 n <= String.length (w +:+ f))%nat by lia.
    apply ndigits_le; [lia|done|]. unfold str_len in *. lia. }
  unfold MAX_EMAX, MIN_ETINY. rewrite !(proj2 (Z.leb_le _ _)) by lia. done.
Qed.

Lemma span_prefix p s : str_all p (span p s).1 = true.
Proof.
  induction s as [|c s IH]; [done|]. simpl. destruct (p c) eqn:E; [|done].
  destruct (span p s). simpl in *. by rewrite E.
Qed.

Lemma py_decimal_nonneg s sign c e : py_decimal s = Some (DFinite sign c e) → 0 ≤ c.
Proof.
  unfold py_decimal. destruct (split_sign _) as [neg r].
  destruct (_ || _); [done|]. destruct (_ || _); [done|]. unfold parse_number.
  destruct (span is_dec_digit r) as [w r1] eqn:E1.
  destruct (split_fraction r1) as [f r2] eqn:E2.
  destruct (_ =? _)%string; [done|]. destruct (parse_exponent r2) as [x|]; [|done]. simpl.
  destruct (_ && _); [|done]. intros [= <- <- <-].
  assert (Hw : str_all is_dec_digit w = true).
  { pose proof (span_prefix is_dec_digit r) as Hp. by rewrite E1 in Hp. }
  assert (Hf : str_all is_dec_digit f = true).
  { unfold split_fraction in E2. destruct r1 as [|a r1]; [by injection E2 as <- _|].
    destruct (code a =? 46); [|by injection E2 as <- _].
    pose proof (span_prefix is_dec_digit r1) as Hp. by rewrite E2 in Hp. }
  apply dec_value_range. by rewrite str_all_app, Hw, Hf.
Qed.

(** The digit count brackets the value. *)
Lemma ndigits_lower v : 0 < v → 10 ^ (Z.of_nat (ndigits 10 v) - 1) ≤ v.
Proof.
  intros Hv. destruct (ndigits_spec 10 v ltac:(lia) ltac:(lia)) as [_ Hlo].
  pose proof (ndigits_pos 10 v). destruct (decide (1 < ndigits 10 v)%nat); [by apply Hlo|].
  replace (ndigits 10 v) with 1%nat by lia. simpl. lia.
Qed.
