(* ===== verification/TokenQuirks.v ===== *)
(** * Token decimals and fee-on-transfer arithmetic ([psv/token_quirks.py])

    Conversion between human amounts and atomic units, and the net of a fee.
    The theorems: an amount survives the trip to text and back at every decimal
    count; a conversion is exact or refused; the fee splits the gross amount
    without loss, and a short receipt is the one the detector calls underpaid. *)

From S2P Require Import Prelude PyStr PyVal Anvil Chain Divergence PyDecimal.
Local Open Scope Z_scope.

Definition _MAX_DECIMALS : Z := 255.

Definition _decimals (value : Z) : res Z :=
  raise_if (negb ((0 <=? value) && (value <=? _MAX_DECIMALS))) ValueError
    "decimals must be an integer within [0, 255]" ;; Ok value.

Definition _uint256 (value : Z) (what : string) : res Z :=
  raise_if (negb (is_uint256 value)) ValueError (what +:+ " must be a uint256") ;; Ok value.

(** [human: str | int] *)
Inductive human_amount :=
  | HStr (s : string)
  | HInt (z : Z).

(** [str(human)]: the text of an over-long integer is refused by the
    interpreter. *)
Definition human_text (human : human_amount) : res string :=
  match human with
  | HStr s => Ok s
  | HInt z =>
      raise_if (INT_MAX_STR_DIGITS <? Z.of_nat (ndigits 10 (Z.abs z))) ValueError
        "Exceeds the limit for integer string conversion" ;;
      Ok (str_of_Z z)
  end.

Definition to_atomic (human : human_amount) (decimals : Z) : res Z :=
  places ← _decimals decimals;
  raise_if (match human with HStr s => 1024 <? str_len s | HInt _ => false end) ValueError
    "human amount exceeds the input size limit" ;;
  text ← human_text human;
  amount ← or_raise (py_decimal text) ValueError "invalid human amount";
  raise_if (negb (is_finite amount) || is_negative amount) ValueError
    "human amount must be finite and non-negative" ;;
  match amount with
  | DFinite sign coefficient exponent =>
      let coefficient_digits := Z.of_nat (ndigits 10 coefficient) in
      let scaled_exponent := exponent + places in
      atomic ← (if 0 <=? scaled_exponent then
                  raise_if (negb (coefficient =? 0) && (78 <? coefficient_digits + scaled_exponent))
                    ValueError "atomic amount must be a uint256" ;;
                  Ok (coefficient * 10 ^ scaled_exponent)
                else
                  let divisor_places := - scaled_exponent in
                  raise_if (negb (coefficient =? 0) && (coefficient_digits <? divisor_places))
                    ValueError "not representable" ;;
                  let divisor := 10 ^ divisor_places in
                  raise_if (negb (coefficient mod divisor =? 0)) ValueError "not representable" ;;
                  Ok (coefficient / divisor));
      let atomic := if sign then - atomic else atomic in
      raise_if (atomic <? 0) ValueError "human amount must be non-negative" ;;
      _uint256 atomic "atomic amount"
  | _ => raise ValueError "human amount must be finite"
  end.

Definition is_zero_char (c : ascii) : bool := code c =? 48.

Definition from_atomic (atomic decimals : Z) : res string :=
  value ← _uint256 atomic "atomic amount";
  places ← _decimals decimals;
  if places =? 0 then Ok (str_of_Z value)
  else
    let digits := rjust (Z.to_nat (places + 1)) "0" (str_of_Z value) in
    let cut := (String.length digits - Z.to_nat places)%nat in
    let whole := str_take cut digits in
    let fraction := rstrip_by is_zero_char (str_drop cut digits) in
    Ok (if (fraction =? "")%string then whole else whole +:+ "." +:+ fraction).

Definition net_after_fee (gross fee_bps : Z) : res Z :=
  amount ← _uint256 gross "gross";
  raise_if (negb ((0 <=? fee_bps) && (fee_bps <=? 10000))) ValueError
    "fee_bps must be an integer within [0, 10000]" ;;
  Ok (amount - (amount * fee_bps) / 10000).

Definition received_is_sufficient (received required : Z) : res bool :=
  actual ← _uint256 received "received";
  expected ← _uint256 required "required";
  Ok (expected <=? actual).

Definition underpayment (received required : Z) : res Z :=
  actual ← _uint256 received "received";
  expected ← _uint256 required "required";
  Ok (Z.max 0 (expected - actual)).

(** * Lemmas *)

Lemma uint256_ok v what n : _uint256 v what = Ok n ↔ 0 ≤ v < 2 ^ 256 ∧ n = v.
Proof.
  unfold _uint256. rewrite <- is_uint256_spec. destruct (is_uint256 v); simpl; [|by split; [|intros []]].
  split; [by intros [= <-]|by intros [_ ->]].
Qed.

Lemma decimals_ok d n : _decimals d = Ok n ↔ 0 ≤ d ≤ 255 ∧ n = d.
Proof.
  unfold _decimals, _MAX_DECIMALS.
  destruct (Z.leb_spec 0 d), (Z.leb_spec d 255); simpl; split;
    try (by intros [? ->]); try (intros [? ->]; exfalso; lia); try done.
  intros [= <-]. lia.
Qed.

Lemma rstrip_zeros s : ∃ k, s = rstrip_by is_zero_char s +:+ str_repeat "0" k.
Proof.
  induction s as [|c s [k IH]]; [by exists 0%nat|]. cbn [rstrip_by].
  destruct (String.eqb_spec (rstrip_by is_zero_char s) "") as [E|E]; simpl.
  - destruct (is_zero_char c) eqn:Hc.
    + exists (S k). rewrite E in IH. rewrite IH at 1.
      assert (c = "0"%char) as -> by (clear -Hc; unfold is_zero_char in Hc; all_chars c). done.
    + exists k. by rewrite IH at 1.
  - exists k. by rewrite IH at 1.
Qed.

Lemma num_value_zeros acc k : num_value 10 acc (str_repeat "0" k) = acc * 10 ^ Z.of_nat k.
Proof.
  revert acc. induction k as [|k IH]; intros acc; [change (acc = acc * 1); lia|].
  change (str_repeat "0" (S k)) with (String "0" (str_repeat "0" k)).
  change (num_value 10 acc (String "0" (str_repeat "0" k))) with
    (num_value 10 (acc * 10 + 0) (str_repeat "0" k)).
  rewrite IH, Nat2Z.inj_succ, Z.pow_succ_r by lia. lia.
Qed.

(** The text of an amount: the digits of the value, split at the decimals and
    without trailing zeros. *)
Lemma from_atomic_text a d s :
  from_atomic a d = Ok s →
  0 ≤ a < 2 ^ 256 ∧ 0 ≤ d ≤ 255
  ∧ ∃ w f, s = w +:+ (if (f =? "")%string then "" else "." +:+ f)
           ∧ str_all is_dec_digit w = true ∧ str_all is_dec_digit f = true ∧ w ≠ ""
           ∧ str_len f ≤ d ∧ str_len w ≤ 79
           ∧ a = num_value 10 0 (w +:+ f) * 10 ^ (d - str_len f).
Proof.
  unfold from_atomic. intros H. inv_res.
  match goal with E : _uint256 _ _ = Ok _ |- _ => apply uint256_ok in E as [Ha ->] end.
  match goal with E : _decimals _ = Ok _ |- _ => apply decimals_ok in E as [Hd ->] end.
  split; [done|]. split; [done|].
  assert (Hn : (ndigits 10 a <= 78)%nat) by (apply ndigits_le; lia).
  pose proof (ndigits_pos 10 a) as Hpos.
  destruct (ndigits_spec 10 a ltac:(lia) ltac:(lia)) as [Hlt _].
  assert (Hstr : str_of_Z a = numw 10 (ndigits 10 a) a).
  { unfold str_of_Z, to_dec. by rewrite (proj2 (Z.ltb_ge _ _)) by lia. }
  rewrite Hstr in H. destruct (Z.eqb_spec d 0) as [->|Hd0]; inv_res.
  { exists (numw 10 (ndigits 10 a) a), "". rewrite !str_app_nil_r.
    split_and!; try done; try apply numw_dec; try (by apply numw_nonempty).
    - unfold str_len. rewrite length_numw. lia.
    - rewrite num_value_numw by lia. rewrite Z.mod_small by lia.
      change (10 ^ (0 - str_len "")) with 1. lia. }
  set (m := Nat.max (ndigits 10 a) (Z.to_nat (d + 1))).
  assert (rjust (Z.to_nat (d + 1)) "0" (numw 10 (ndigits 10 a) a) = numw 10 m a) as ->.
  { destruct (decide (ndigits 10 a <= Z.to_nat (d + 1))%nat) as [Hle|Hgt].
    - unfold m. rewrite Nat.max_r by done. apply rjust_numw; lia.
    - unfold m. rewrite Nat.max_l by lia. unfold rjust. rewrite length_numw.
      by replace (_ - _)%nat with 0%nat by lia. }
  assert (Hm : a < 10 ^ Z.of_nat m).
  { eapply Z.lt_le_trans; [exact Hlt|]. apply Z.pow_le_mono_r; lia. }
  rewrite length_numw. set (cut := (m - Z.to_nat d)%nat).
  assert (Hcut : (1 <= cut <= 78)%nat) by lia.
  set (D := numw 10 m a). assert (HD : str_all is_dec_digit D = true) by apply numw_dec.
  destruct (rstrip_zeros (str_drop cut D)) as [k Hk].
  set (f := rstrip_by is_zero_char (str_drop cut D)) in *.
  assert (Hlf : (String.length f + k = Z.to_nat d)%nat).
  { apply (f_equal String.length) in Hk. rewrite str_length_app, str_length_repeat, str_length_drop in Hk.
    unfold D in Hk. rewrite length_numw in Hk. lia. }
  exists (str_take cut D), f. split_and!.
  - destruct (f =? "")%string; [by rewrite str_app_nil_r|done].
  - by apply str_all_take.
  - pose proof (str_all_drop is_dec_digit cut D HD) as Hdrop.
    rewrite Hk, str_all_app in Hdrop. by apply andb_true_iff in Hdrop as [? _].
  - intros E%(f_equal String.length). rewrite str_length_take in E. unfold D in E.
    rewrite length_numw in E. simpl in E. lia.
  - unfold str_len. lia.
  - unfold str_len. rewrite str_length_take. lia.
  - assert (Hv : num_value 10 0 D = a).
    { unfold D. rewrite num_value_numw by lia. rewrite Z.mod_small by lia. lia. }
    rewrite <- Hv at 1. rewrite <- (str_take_drop cut D) at 1. rewrite Hk at 1.
    rewrite str_app_assoc, num_value_app, num_value_zeros. f_equal. f_equal.
   
    unfold str_len. lia.
Qed.

(** The digit guards of [to_atomic] never refuse a representable uint256. *)
Lemma digits_guard_scale c k a :
  0 < c → 0 ≤ k → c * 10 ^ k = a → a < 2 ^ 256 → Z.of_nat (ndigits 10 c) + k ≤ 78.
Proof.
  intros Hc Hk Ha Hlt. pose proof (ndigits_lower c Hc) as Hlo. pose proof (ndigits_pos 10 c).
  assert (10 ^ (Z.of_nat (ndigits 10 c) - 1 + k) < 10 ^ 78).
  { rewrite Z.pow_add_r by lia. assert (0 < 10 ^ k) by (apply Z.pow_pos_nonneg; lia). 
    assert (2 ^ 256 < 10 ^ 78) by done. nia. }
  enough (Z.of_nat (ndigits 10 c) - 1 + k < 78) by lia.
  apply (Z.pow_lt_mono_r_iff 10); lia.
Qed.

Lemma digits_guard_divide c m a :
  0 < c → 0 ≤ m → a * 10 ^ m = c → m < Z.of_nat (ndigits 10 c).
Proof.
  intros Hc Hm Ha. destruct (ndigits_spec 10 c ltac:(lia) ltac:(lia)) as [Hhi _].
  assert (0 < 10 ^ m) by (apply Z.pow_pos_nonneg; lia).
  assert (0 < a) by nia. assert (1 * 10 ^ m ≤ a * 10 ^ m) by (apply Z.mul_le_mono_nonneg_r; lia).
  apply (Z.pow_lt_mono_r_iff 10); lia.
Qed.

(** [to_atomic] on a parsed amount. *)
Lemma to_atomic_run text d sign c e a :
  py_decimal text = Some (DFinite sign c e) → 0 ≤ d ≤ 255 → str_len text ≤ 1024 →
  to_atomic (HStr text) d = Ok a ↔
    (sign = true → c = 0) ∧ 0 ≤ a < 2 ^ 256
    ∧ a * 10 ^ Z.max 0 (- (e + d)) = c * 10 ^ Z.max 0 (e + d).
Proof.
  intros Hp Hd Hlen. pose proof (py_decimal_nonneg _ _ _ _ Hp) as Hc.
  unfold to_atomic. rewrite (proj2 (decimals_ok d d)) by done. cbn [mbind res_bind].
  rewrite (proj2 (Z.ltb_ge _ _)) by done. cbn [raise_if mbind res_bind human_text].
  rewrite Hp. cbn [or_raise mbind res_bind is_finite is_negative negb orb].
  destruct (sign && negb (c =? 0)) eqn:Hsign; cbn [raise_if mbind res_bind].
  { bool_facts. split; [done|]. intros [Hz _]. subst. by destruct (Hz eq_refl). }
  assert (Hz : sign = true → c = 0).
  { intros ->. simpl in Hsign. by bool_facts. }
  assert (Hneg : ∀ z, (c = 0 → z = 0) → (if sign then - z else z) = z).
  { intros z H0. destruct sign; [|done]. rewrite H0; [done|by apply Hz]. }
  destruct (Z.leb_spec 0 (e + d)) as [Hs|Hs].
  - rewrite Z.max_l, Z.max_r, Z.mul_1_r by lia.
    destruct (negb (c =? 0) && (78 <? Z.of_nat (ndigits 10 c) + (e + d))) eqn:Hg;
      cbn [raise_if mbind res_bind].
    { bool_facts. split; [done|]. intros (_ & Ha & E).
      pose proof (digits_guard_scale c (e + d) a ltac:(lia) Hs ltac:(lia) ltac:(lia)). lia. }
    rewrite Hneg by lia. assert (0 ≤ c * 10 ^ (e + d)) by (apply Z.mul_nonneg_nonneg; lia).
    rewrite (proj2 (Z.ltb_ge _ _)) by done. cbn [raise_if mbind res_bind].
    rewrite uint256_ok. split; [intros [? ->]|intros (_ & ? & ->)]; done.
  - rewrite Z.max_r, Z.max_l, Z.mul_1_r by lia. set (m := - (e + d)) in *.
    assert (Hpow : 0 < 10 ^ m) by (apply Z.pow_pos_nonneg; lia).
    destruct (negb (c =? 0) && (Z.of_nat (ndigits 10 c) <? m)) eqn:Hg;
      cbn [raise_if mbind res_bind].
    { bool_facts. split; [done|]. intros (_ & Ha & E).
      pose proof (digits_guard_divide c m a ltac:(lia) ltac:(lia) E). lia. }
    destruct (Z.eqb_spec (c mod 10 ^ m) 0) as [Hm|Hm]; cbn [negb raise_if mbind res_bind].
    + apply Z.mod_divide in Hm as [q ->]; [|lia]. rewrite Z.div_mul by lia.
      rewrite Hneg by nia. rewrite (proj2 (Z.ltb_ge _ _)) by nia. cbn [raise_if mbind res_bind].
      rewrite uint256_ok. split.
      * intros [? ->]. done.
      * intros (_ & ? & E). assert (a = q) by nia. by subst.
    + split; [done|]. intros (_ & _ & E). destruct Hm. rewrite <- E. by apply Z.mod_mul; lia.
Qed.

(** * Properties *)

(** An amount survives the trip through its human text: for every uint256
    and every decimal count up to 255, [to_atomic (from_atomic a)] is [a]. *)
Theorem atomic_roundtrip a d s :
  from_atomic a d = Ok s → to_atomic (HStr s) d = Ok a.
Proof.
  intros (Ha & Hd & w & f & -> & Hw & Hf & Hne & Hlf & Hlw & Hv)%from_atomic_text.
  assert (0 ≤ str_len f) by (unfold str_len; lia).
  apply (to_atomic_run _ _ false (num_value 10 0 (w +:+ f)) (- str_len f)); [|done| |].
  - rewrite py_decimal_plain; [apply parse_plain; done || lia| |].
    + by destruct w.
    + rewrite str_all_app. apply andb_true_iff. split.
      { eapply str_all_impl, Hw. intros c Hc. unfold plain_char. by rewrite Hc. }
      destruct (f =? "")%string; [done|]. rewrite str_all_app. simpl.
      eapply str_all_impl, Hf. intros c Hc. unfold plain_char. by rewrite Hc.
  - unfold str_len in *. rewrite str_length_app. destruct (f =? "")%string; [simpl; lia|].
    rewrite str_length_app. simpl. lia.
  - split; [done|]. split; [done|]. rewrite Hv at 1.
    rewrite Z.max_l, Z.max_r by lia. rewrite Z.mul_1_r. f_equal. f_equal. lia.
Qed.

Lemma atomic_roundtrip_witness :
  to_atomic (HStr "1.000001") 6 = Ok 1000001.
Proof. apply atomic_roundtrip. vm_compute. reflexivity. Defined.

(** C40: a conversion to atomic units is exact or refused: on a text of
    admissible size it returns [a] exactly when the text is a finite
    non-negative decimal number equal to [a] shifted by the decimals and [a] is
    a uint256; nothing is rounded or clamped. *)
Theorem to_atomic_exact text d a :
  0 ≤ d ≤ 255 → str_len text ≤ 1024 →
  to_atomic (HStr text) d = Ok a ↔
    ∃ sign c e, py_decimal text = Some (DFinite sign c e) ∧ (sign = true → c = 0)
      ∧ 0 ≤ a < 2 ^ 256
      ∧ a * 10 ^ Z.max 0 (- (e + d)) = c * 10 ^ Z.max 0 (e + d).
Proof.
  intros Hd Hlen. destruct (py_decimal text) as [[sign c e| |]|] eqn:Hp.
  { rewrite (to_atomic_run _ _ _ _ _ _ Hp Hd Hlen). split; [naive_solver|].
    by intros (? & ? & ? & [= <- <- <-] & ?). }
  all: split; [|by intros (? & ? & ? & [=] & _)]; unfold to_atomic;
    rewrite (proj2 (decimals_ok d d)) by done; cbn [mbind res_bind];
    rewrite (proj2 (Z.ltb_ge _ _)) by done; cbn [raise_if mbind res_bind human_text];
    rewrite Hp; done.
Qed.

Lemma to_atomic_exact_witness :
  to_atomic (HStr "12e-1") 0 ≠ Ok 1 ∧ to_atomic (HStr "120e-1") 0 = Ok 12.
Proof.
  split.
  - intros (sign & c & e & E & _ & _ & H)%to_atomic_exact; [|lia|vm_compute; discriminate].
    assert (py_decimal "12e-1" = Some (DFinite false 12 (-1))) as E' by (vm_compute; reflexivity).
    rewrite E' in E. injection E as <- <- <-. vm_compute in H. discriminate.
  - apply to_atomic_exact; [lia|vm_compute; discriminate|].
    exists false, 120, (-1). split; [vm_compute; reflexivity|].
    split; [done|]. split; [lia|]. vm_compute. reflexivity.
Defined.

(** The fee splits the gross amount without loss: recipient and fee add up
    to it, the fee is the basis-point share rounded down, so a fee is visible in
    the net as soon as the share reaches one unit. *)
Theorem net_after_fee_splits gross bps net :
  net_after_fee gross bps = Ok net →
  0 ≤ net ≤ gross
  ∧ (let fee := gross - net in fee * 10000 ≤ gross * bps < (fee + 1) * 10000)
  ∧ (net < gross ↔ 10000 ≤ gross * bps).
Proof.
  unfold net_after_fee. intros H. inv_res. bool_facts.
  match goal with E : _uint256 _ _ = Ok _ |- _ => apply uint256_ok in E as [Hg ->] end.
  pose proof (Z.div_mod (gross * bps) 10000 ltac:(lia)) as Hdm.
  pose proof (Z.mod_pos_bound (gross * bps) 10000 ltac:(lia)).
  set (q := gross * bps / 10000) in *. assert (0 ≤ gross * bps ≤ gross * 10000) by nia.
  split_and!; lia.
Qed.

Lemma net_after_fee_splits_witness :
  net_after_fee 10000 250 = Ok 9750 ∧ 9750 < 10000.
Proof.
  assert (E : net_after_fee 10000 250 = Ok 9750) by (vm_compute; reflexivity).
  split; [done|]. apply (net_after_fee_splits _ _ _ E). lia.
Defined.

(** A receipt is sufficient exactly when there is no underpayment, and the
    underpayment is the shortfall the divergence detector reports for a credited
    order whose payee netted that receipt. *)
Theorem underpayment_is_the_detected_shortfall received required u t :
  underpayment received required = Ok u →
  funds_moved t = true → payee_delta t = received →
  received_is_sufficient received required = Ok (u =? 0)
  ∧ (0 < u ↔ kind (detect_payment_divergence t true (Some required)) = UNDERPAID_CREDIT)
  ∧ (0 < u → msg (detect_payment_divergence t true (Some required))
              = MsgUnderpaid received required u).
Proof.
  unfold underpayment, received_is_sufficient. intros H Hmoved <-. inv_res.
  repeat match goal with E : _uint256 _ _ = Ok _ |- _ => apply uint256_ok in E as [? ->] end.
  rewrite !(proj2 (uint256_ok _ _ _)) by done. cbn [mbind res_bind].
  unfold detect_payment_divergence. rewrite Hmoved. simpl.
  destruct (Z.ltb_spec (payee_delta t) required); simpl; split_and!.
  - f_equal. rewrite (proj2 (Z.leb_gt _ _)), (proj2 (Z.eqb_neq _ _)) by lia. done.
  - split; [done|lia].
  - intros _. f_equal. lia.
  - f_equal. rewrite (proj2 (Z.leb_le _ _)), (proj2 (Z.eqb_eq _ _)) by lia. done.
  - split; [lia|done].
  - lia.
Qed.

Lemma underpayment_is_the_detected_shortfall_witness :
  let t := settlement_truth_from_balances true 100 90 0 9 in
  kind (detect_payment_divergence t true (Some 10)) = UNDERPAID_CREDIT.
Proof.
  intros t.
  apply (underpayment_is_the_detected_shortfall 9 10 1 t eq_refl eq_refl eq_refl). lia.
Defined.
