(* ===== verification/QuoteOption.v ===== *)
(** * Quotes as free options ([psv/quote_option.py])

    A buyer who may exercise a locked price gains whatever fair value has risen
    above it.  The theorems: the staleness test is the exact rational inequality;
    without repricing the loss is the sum of all gains; with repricing the loss is
    bounded by the tolerated fraction of the locked prices, and is zero at
    tolerance zero. *)

From S2P Require Import Prelude PyStr PyDecimal.
Local Open Scope Z_scope.

Definition _amount (value : Z) (what : string) : res Z :=
  raise_if (negb (is_uint256 value)) ValueError (what +:+ " must be a uint256") ;; Ok value.

(** The accepted types of a tolerance: [TolText s] is a [Decimal], [float] or
    [str] with [str(value) == s]. *)
Inductive tolerance :=
  | TolText (s : string)
  | TolInt (z : Z)
  | TolOther.

Definition _tolerance (value : tolerance) : res decimal :=
  text ← match value with
         | TolText s => Ok s
         | TolInt z =>
             raise_if (INT_MAX_STR_DIGITS <? Z.of_nat (ndigits 10 (Z.abs z))) ValueError
               "Exceeds the limit for integer string conversion" ;;
             Ok (str_of_Z z)
         | TolOther => raise ValueError "tolerance must be a decimal value"
         end;
  parsed ← or_raise (py_decimal text) ValueError "invalid tolerance";
  raise_if (negb (is_finite parsed) || is_negative parsed || negb (le_one parsed)) ValueError
    "tolerance must be finite and within [0, 1]" ;;
  Ok parsed.

Definition option_value (locked_price fair_value_now : Z) : res Z :=
  locked ← _amount locked_price "locked_price";
  fair ← _amount fair_value_now "fair_value_now";
  Ok (Z.max 0 (fair - locked)).

(** The test on a normalised tolerance: normalising one again changes nothing,
    as [Decimal(str(d)) == d]. *)
Definition stale_at (locked_price fair_value_now : Z) (slack : decimal) : res bool :=
  locked ← _amount locked_price "locked_price";
  fair ← _amount fair_value_now "fair_value_now";
  Ok (if locked =? 0 then 0 <? fair
      else let '(numerator, denominator) := as_integer_ratio slack in
           locked * (denominator + numerator) <? fair * denominator).

Definition quote_is_stale (locked_price fair_value_now : Z) (value : tolerance) : res bool :=
  _amount locked_price "locked_price" ;;
  _amount fair_value_now "fair_value_now" ;;
  slack ← _tolerance value;
  stale_at locked_price fair_value_now slack.

Record Round := { locked_price : Z; fair_value_at_exercise : Z }.

Record ExploitResult := { rounds : Z; exercised : Z; system_loss : Z }.

Definition is_exploitable (r : ExploitResult) : bool := 0 <? system_loss r.

(** The loop over the rounds with its two counters. *)
Fixpoint run_rounds (rs : list Round) (slack : decimal) (reprice : bool) (exercised loss : Z)
    : res (Z * Z) :=
  match rs with
  | [] => Ok (exercised, loss)
  | round :: rs =>
      gain ← option_value (locked_price round) (fair_value_at_exercise round);
      if gain <=? 0 then run_rounds rs slack reprice exercised loss
      else
        stale ← (if reprice then stale_at (locked_price round) (fair_value_at_exercise round) slack
                 else Ok false);
        if (stale : bool) then run_rounds rs slack reprice exercised loss
        else
          let exercised := exercised + 1 in
          let loss := loss + gain in
          raise_if (UINT256_MAX <? loss) ValueError "aggregate system_loss exceeds uint256" ;;
          run_rounds rs slack reprice exercised loss
  end.

Definition simulate_attacker (rs : list Round) (value : tolerance) (reprice : bool)
    : res ExploitResult :=
  slack ← _tolerance value;
  '(exercised, loss) ← run_rounds rs slack reprice 0 0;
  Ok {| rounds := Z.of_nat (length rs); exercised := exercised; system_loss := loss |}.

(** * Specification *)

Definition gain (r : Round) : Z := Z.max 0 (fair_value_at_exercise r - locked_price r).

Fixpoint sumZ (l : list Z) : Z := match l with [] => 0 | x :: l => x + sumZ l end.

(** Fair value strictly above [locked * (1 + c * 10^e)], cross-multiplied. *)
Definition above_tolerance (locked fair c e : Z) : Prop :=
  locked * (10 ^ Z.max (- e) 0 + c * 10 ^ Z.max e 0) < fair * 10 ^ Z.max (- e) 0.

(** * Lemmas *)

Lemma amount_ok v what n : _amount v what = Ok n ↔ 0 ≤ v < 2 ^ 256 ∧ n = v.
Proof.
  unfold _amount. rewrite <- is_uint256_spec. destruct (is_uint256 v); simpl; [|by split; [|intros []]].
  split; [by intros [= <-]|by intros [_ ->]].
Qed.

Lemma tolerance_ok value d :
  _tolerance value = Ok d →
  ∃ sign c e, d = DFinite sign c e ∧ 0 ≤ c ∧ (sign = true → c = 0)
    ∧ c * 10 ^ Z.max e 0 ≤ 10 ^ Z.max (- e) 0.
Proof.
  unfold _tolerance. intros H. inv_res. bool_facts. destruct d as [sign c e| |]; try done.
  match goal with E : py_decimal _ = _ |- _ => pose proof (py_decimal_nonneg _ _ _ _ E) as Hc end.
  exists sign, c, e. split_and!; try done.
  - intros ->. match goal with E : is_negative _ = false |- _ => simpl in E end. by bool_facts.
  - unfold le_one in *. destruct (Z.leb_spec 0 e); bool_facts.
    + rewrite Z.max_l, Z.max_r by lia. simpl. lia.
    + rewrite Z.max_r, Z.max_l by lia. simpl. lia.
Qed.

(** The reduced ratio of a tolerance compares like the unreduced one. *)
Lemma ratio_compare sign c e locked fair :
  0 ≤ c → (sign = true → c = 0) →
  let ratio := as_integer_ratio (DFinite sign c e) in
  0 < ratio.2 ∧ 0 ≤ ratio.1
  ∧ ratio.1 * 10 ^ Z.max (- e) 0 = c * 10 ^ Z.max e 0 * ratio.2
  ∧ (locked * (ratio.2 + ratio.1) < fair * ratio.2 ↔ above_tolerance locked fair c e).
Proof.
  intros Hc Hs. unfold as_integer_ratio, above_tolerance.
  set (N := c * 10 ^ Z.max e 0). set (M := 10 ^ Z.max (- e) 0).
  assert (HM : 0 < M) by (apply Z.pow_pos_nonneg; lia).
  assert (HN : 0 ≤ N) by (apply Z.mul_nonneg_nonneg; lia).
  assert (Hg : 0 < Z.gcd N M).
  { pose proof (Z.gcd_nonneg N M). destruct (Z.eq_dec (Z.gcd N M) 0) as [E|]; [|lia].
    apply Z.gcd_eq_0_r in E. lia. }
  set (g := Z.gcd N M) in *.
  destruct (Z.gcd_divide_l N M) as [n En], (Z.gcd_divide_r N M) as [m Em]. fold g in En, Em.
  cbv zeta. simpl fst. simpl snd. assert (signed sign (N / g) = n) as ->.
  { rewrite En, Z.div_mul by lia. destruct sign; [|done]. simpl.
    assert (N = 0) by (unfold N; rewrite Hs by done; lia). nia. }
  simpl. assert (M / g = m) as -> by (rewrite Em at 1; rewrite Z.div_mul by lia; done).
  rewrite En, Em. split_and!; [nia|nia|lia|nia].
Qed.

Lemma stale_at_ok locked fair sign c e b :
  0 ≤ c → (sign = true → c = 0) →
  stale_at locked fair (DFinite sign c e) = Ok b →
  0 ≤ locked < 2 ^ 256 ∧ 0 ≤ fair < 2 ^ 256 ∧ (b = true ↔ above_tolerance locked fair c e).
Proof.
  intros Hc Hs. unfold stale_at. intros H. inv_res.
  repeat match goal with E : _amount _ _ = Ok _ |- _ => apply amount_ok in E as [? ->] end.
  split_and!; try done; try lia. destruct (Z.eqb_spec locked 0) as [->|]; inv_res.
  - unfold above_tolerance. rewrite Z.mul_0_l, Z.ltb_lt.
    assert (0 < 10 ^ Z.max (- e) 0) by (apply Z.pow_pos_nonneg; lia). nia.
  - pose proof (ratio_compare sign c e locked fair Hc Hs) as Hr.
    destruct Hr as (_ & _ & _ & Hr). by rewrite Z.ltb_lt.
Qed.

Lemma option_value_ok r g :
  option_value (locked_price r) (fair_value_at_exercise r) = Ok g →
  g = gain r ∧ 0 ≤ locked_price r < 2 ^ 256 ∧ 0 ≤ fair_value_at_exercise r < 2 ^ 256.
Proof.
  unfold option_value. intros H. inv_res.
  repeat match goal with E : _amount _ _ = Ok _ |- _ => apply amount_ok in E as [? ->] end.
  done.
Qed.

(** Without repricing every gain is taken. *)
Lemma run_rounds_all rs slack ex loss ex' loss' :
  run_rounds rs slack false ex loss = Ok (ex', loss') →
  loss' = loss + sumZ (gain <$> rs)
  ∧ ex' = ex + Z.of_nat (length (filter (λ r, 0 < gain r) rs)).
Proof.
  revert ex loss. induction rs as [|r rs IH]; intros ex loss H; simpl in H.
  { injection H as <- <-. simpl. lia. }
  inv_res. match goal with E : option_value _ _ = Ok _ |- _ => apply option_value_ok in E as (-> & _) end.
  rewrite filter_cons. csimpl. destruct (Z.leb_spec (gain r) 0).
  - rewrite decide_False by lia. apply IH in H as [-> ->]. assert (0 ≤ gain r) by (unfold gain; lia).
    split; lia.
  - rewrite decide_True by lia. inv_res.
    match goal with E : run_rounds _ _ _ _ _ = Ok _ |- _ => apply IH in E as [-> ->] end.
    simpl length. lia.
Qed.

(** With repricing only tolerated gains are taken. *)
Lemma run_rounds_reprice rs sign c e ex loss ex' loss' :
  0 ≤ c → (sign = true → c = 0) →
  run_rounds rs (DFinite sign c e) true ex loss = Ok (ex', loss') →
  (loss' - loss) * 10 ^ Z.max (- e) 0 ≤ c * 10 ^ Z.max e 0 * sumZ (locked_price <$> rs)
  ∧ loss ≤ loss'.
Proof.
  intros Hc Hs. revert ex loss. induction rs as [|r rs IH]; intros ex loss H; simpl in H.
  { injection H as <- <-. simpl. lia. }
  inv_res. match goal with E : option_value _ _ = Ok _ |- _ =>
    apply option_value_ok in E as (-> & Hl & Hf) end.
  assert (0 < 10 ^ Z.max (- e) 0) by (apply Z.pow_pos_nonneg; lia).
  assert (0 ≤ c * 10 ^ Z.max e 0) by (apply Z.mul_nonneg_nonneg; lia).
  csimpl. destruct (Z.leb_spec (gain r) 0); [apply IH in H as [? ?]; split; [nia|done]|].
  inv_res. match goal with E : stale_at _ _ _ = Ok ?b |- _ =>
    apply (stale_at_ok _ _ _ _ _ _ Hc Hs) in E as (_ & _ & E); destruct b end.
  - apply IH in H as [? ?]. split; [nia|done].
  - inv_res. match goal with E : run_rounds _ _ _ _ _ = Ok _ |- _ => apply IH in E as [? ?] end.
    assert (¬ above_tolerance (locked_price r) (fair_value_at_exercise r) c e) as Hna
      by naive_solver. unfold above_tolerance in Hna. unfold gain in *. split; [nia|lia].
Qed.

(** * Properties *)

(** A quote is stale exactly when fair value exceeds the locked price by more
    than the tolerated fraction [c * 10^e], decided in exact arithmetic for
    every uint256 pair, a zero price included. *)
Theorem quote_is_stale_exact locked fair value b :
  quote_is_stale locked fair value = Ok b →
  ∃ sign c e, _tolerance value = Ok (DFinite sign c e)
    ∧ (b = true ↔ above_tolerance locked fair c e).
Proof.
  unfold quote_is_stale. intros H. inv_res.
  match goal with E : _tolerance _ = Ok _ |- _ =>
    pose proof E as Et; apply tolerance_ok in E as (sign & c & e & -> & Hc & Hs & _) end.
  exists sign, c, e. split; [done|].
  by apply (stale_at_ok _ _ _ _ _ _ Hc Hs) in H as (_ & _ & ?).
Qed.

Lemma quote_is_stale_exact_witness :
  ∃ sign c e, _tolerance (TolText "0.02") = Ok (DFinite sign c e)
    ∧ (true = true ↔ above_tolerance 10000 10201 c e).
Proof.
  apply (quote_is_stale_exact 10000 10201 (TolText "0.02") true). vm_compute. reflexivity.
Defined.

(** A system that never reprices loses the sum of all gains, exercised in
    every round with a gain, and is exploitable exactly when some fair value
    rose above its locked price. *)
Theorem unguarded_loss_is_total rs value r :
  simulate_attacker rs value false = Ok r →
  system_loss r = sumZ (gain <$> rs)
  ∧ exercised r = Z.of_nat (length (filter (λ x, 0 < gain x) rs))
  ∧ (is_exploitable r = true ↔ ∃ x, x ∈ rs ∧ locked_price x < fair_value_at_exercise x).
Proof.
  unfold simulate_attacker. intros H. inv_res. destruct x0 as [ex loss]. inv_res.
  match goal with E : run_rounds _ _ _ _ _ = Ok _ |- _ => apply run_rounds_all in E as [-> ->] end.
  rewrite !Z.add_0_l. split_and!; [done|done|]. unfold is_exploitable. simpl. rewrite Z.ltb_lt.
  clear. induction rs as [|x rs IH]; csimpl.
  - split; [lia|]. by intros (x & ?%elem_of_nil & _).
  - assert (0 ≤ sumZ (gain <$> rs)).
    { clear. induction rs as [|y rs IH]; csimpl; [lia|]. unfold gain at 1. lia. }
    setoid_rewrite elem_of_cons. split.
    + intros Hpos. destruct (decide (locked_price x < fair_value_at_exercise x)); [eauto|].
      unfold gain at 1 in Hpos. destruct (proj1 IH) as (y & ? & ?); [lia|eauto].
    + intros (y & [->|Hy] & Hlt).
      * unfold gain at 1. lia.
      * enough (0 < sumZ (gain <$> rs)) by (unfold gain at 1; lia). apply IH. eauto.
Qed.

Lemma unguarded_loss_is_total_witness :
  let rs := [ {| locked_price := 100; fair_value_at_exercise := 130 |};
              {| locked_price := 100; fair_value_at_exercise := 90 |} ] in
  ∃ r, simulate_attacker rs (TolInt 0) false = Ok r ∧ system_loss r = 30.
Proof.
  intros rs. exists {| rounds := 2; exercised := 1; system_loss := 30 |}.
  assert (E : simulate_attacker rs (TolInt 0) false
              = Ok {| rounds := 2; exercised := 1; system_loss := 30 |})
    by (vm_compute; reflexivity).
  split; [done|]. exact (proj1 (unguarded_loss_is_total _ _ _ E)).
Defined.

(** Repricing bounds the damage: at tolerance [c * 10^e] the total loss is at
    most that fraction of the sum of the locked prices, and at tolerance zero
    the system is not exploitable at all. *)
Theorem repricing_bounds_the_loss rs value r :
  simulate_attacker rs value true = Ok r →
  ∃ sign c e, _tolerance value = Ok (DFinite sign c e)
    ∧ system_loss r * 10 ^ Z.max (- e) 0 ≤ c * 10 ^ Z.max e 0 * sumZ (locked_price <$> rs)
    ∧ (c = 0 → is_exploitable r = false).
Proof.
  unfold simulate_attacker. intros H. inv_res. destruct x0 as [ex loss]. inv_res.
  match goal with E : _tolerance _ = Ok _ |- _ =>
    pose proof E as Et; apply tolerance_ok in E as (sign & c & e & -> & Hc & Hs & _) end.
  exists sign, c, e. split; [done|].
  match goal with E : run_rounds _ _ _ _ _ = Ok _ |- _ =>
    apply (run_rounds_reprice _ _ _ _ _ _ _ _ Hc Hs) in E as [Hb Hpos] end.
  rewrite Z.sub_0_r in Hb. split; [done|]. intros ->. unfold is_exploitable. simpl.
  apply Z.ltb_ge. assert (0 < 10 ^ Z.max (- e) 0) by (apply Z.pow_pos_nonneg; lia). nia.
Qed.

Lemma repricing_bounds_the_loss_witness :
  let rs := [ {| locked_price := 100; fair_value_at_exercise := 102 |};
              {| locked_price := 100; fair_value_at_exercise := 190 |} ] in
  ∃ r, simulate_attacker rs (TolText "0.02") true = Ok r
    ∧ ∃ sign c e, _tolerance (TolText "0.02") = Ok (DFinite sign c e).
Proof.
  intros rs. exists {| rounds := 2; exercised := 1; system_loss := 2 |}.
  assert (E : simulate_attacker rs (TolText "0.02") true
              = Ok {| rounds := 2; exercised := 1; system_loss := 2 |})
    by (vm_compute; reflexivity).
  split; [done|].
  destruct (repricing_bounds_the_loss _ _ _ E) as (sign & c & e & Ht & _).
  by exists sign, c, e.
Defined.
