(* ===== verification/SecurityChecks.v ===== *)
(** * System-level security checks ([psv/security_checks.py])

    Chain binding of an authorization, the asset guard, order-id entropy and
    deployed code.  The theorems: an authorization is accepted exactly when the
    recovered signer is its claimed payer; the deployed-code check agrees with
    the submission policy's; and an accepted order id has its hex digits, up to
    the one trailing newline [$] lets through.

    Signature recovery ([eth_account]) is a parameter. *)

From S2P Require Import Prelude PyStr PyVal Anvil Safety.
Local Open Scope Z_scope.

(** The EIP-712 domain of a check. *)
Record eip712_domain := {
  dom_chain_id : Z; dom_token_address : string; dom_token_name : string; dom_token_version : string
}.

Section binding.
(** [recovered_signer(auth, ...)]: the recovery of the wallet library. *)
Variable recovered_signer : pydict → eip712_domain → res string.
(** [str(v)] of a value that is not a string. *)
Variable str_other : pyval → string.

Definition py_str (v : pyval) : string := match v with VStr s => s | _ => str_other v end.

Definition authorization_binds_to_chain (auth : pydict) (dom : eip712_domain) : res bool :=
  match recovered_signer auth dom with
  | Raise _ => Ok false
  | Ok recovered =>
      from ← dict_item "from" auth;
      Ok (lower recovered =? lower (py_str from))%string
  end.
End binding.

(** [re.fullmatch(r"0[xX][0-9a-fA-F]{40}", s)] *)
Definition re_any_address (s : string) : bool :=
  match s with
  | String z (String x d) =>
      (code z =? 48) && ((code x =? 120) || (code x =? 88)) && (String.length d =? 40)%nat
      && str_all is_hex_digit d
  | _ => false
  end.

Definition asset_matches (log_address expected_token : string) : res bool :=
  raise_if (negb (re_any_address log_address) || negb (re_any_address expected_token)) ValueError
    "asset addresses must be exact 20-byte EVM addresses" ;;
  Ok (lower log_address =? lower expected_token)%string.

Definition newline : string := String (ascii_of_nat 10) EmptyString.

(** [re.match(r"^[0-9a-fA-F]+$", s)]: [$] also matches before a final newline. *)
Definition hex_line (s : string) : bool :=
  let body := if (str_last 1 s =? newline)%string then str_take (String.length s - 1) s else s in
  negb (body =? "")%string && str_all is_hex_digit body.

Definition sufficient_id_entropy (order_id prefix : string) (min_random_hex : Z) : bool :=
  let body := removeprefix prefix order_id in
  (min_random_hex <=? str_len body) && hex_line body.

Definition asset_is_deployed_contract (code_ : string) : res bool :=
  raise_if (negb (re_data code_)) ValueError "code must be 0x-prefixed even-length hex data" ;;
  let stripped := lower (str_drop 2 code_) in
  Ok ((0 <? str_len stripped) && str_any (λ c, negb (code c =? 48)) stripped).

(** * Lemmas *)

Lemma hex_value_zero s :
  str_all is_hex_digit s = true →
  hex_value s = 0 ↔ str_any (λ c, negb (code c =? 48)) s = false.
Proof.
  unfold hex_value. induction s as [|c s IH]; [done|].
  cbn [str_all str_any]. intros [Hc Hs]%andb_true_iff. specialize (IH Hs).
  change (num_value 16 0 (String c s)) with (num_value 16 (0 * 16 + digit_val c) s).
  rewrite num_value_acc. pose proof (hex_value_range s Hs) as Hr. unfold hex_value in Hr.
  pose proof (digit_val_hex_range c Hc).
  assert (0 < 16 ^ Z.of_nat (String.length s)) by (apply Z.pow_pos_nonneg; lia).
  assert (digit_val c = 0 ↔ code c = 48) as Hz by (clear -Hc; all_chars c; lia).
  rewrite orb_false_iff, negb_false_iff, Z.eqb_eq, <- IH, <- Hz. split; [intros E; split; nia|].
  intros [-> ->]. lia.
Qed.

Lemma str_any_lower_zero s :
  str_any (λ c, negb (code c =? 48)) (lower s) = str_any (λ c, negb (code c =? 48)) s.
Proof.
  induction s as [|c s IH]; [done|].
  change (lower (String c s)) with (String (lower_char c) (lower s)). cbn [str_any]. rewrite IH.
  f_equal. clear. all_chars c.
Qed.

(** * Properties *)

(** The two deployed-code checks agree: for well-formed code the pre-flight
    check answers [True] exactly when the submission policy accepts the code. *)
Theorem deployed_code_checks_agree code_ b :
  asset_is_deployed_contract code_ = Ok b →
  (b = true ↔ _require_deployed_code code_ = Ok tt).
Proof.
  unfold asset_is_deployed_contract. intros H. inv_res. bool_facts.
  match goal with E : re_data _ = true |- _ => apply re_data_spec in E as (d & -> & Heven & Hhex) end.
  change (str_drop 2 ("0x" +:+ d)) with d.
  rewrite str_any_lower_zero. unfold str_len. rewrite length_lower.
  unfold _require_deployed_code. rewrite startswith_app. cbn [negb raise_if mbind res_bind].
  change (str_drop 2 ("0x" +:+ d)) with d. rewrite Heven.
  destruct (String.eqb_spec d "") as [->|Hne]; [by split|].
  assert (0 <? Z.of_nat (String.length d) = true) as ->.
  { apply Z.ltb_lt. destruct d; [done|]. simpl. lia. }
  rewrite py_int16_hex by done. cbn [raise_if mbind res_bind or_raise andb negb].
  pose proof (hex_value_zero d Hhex) as Hz.
  destruct (str_any _ d), (Z.eqb_spec (hex_value d) 0); simpl; try (by split).
  - exfalso. by apply Hz in e.
  - exfalso. by apply n, Hz.
Qed.

Lemma deployed_code_checks_agree_witness :
  true = true ↔ _require_deployed_code "0x6001" = Ok tt.
Proof. apply deployed_code_checks_agree. vm_compute. reflexivity. Defined.

(** An accepted order id carries its entropy: after the prefix there are at
    least the required characters, all of them hex digits but for at most one
    final newline. *)
Theorem sufficient_entropy_exact order_id prefix n :
  sufficient_id_entropy order_id prefix n = true ↔
    ∃ d tail, removeprefix prefix order_id = d +:+ tail ∧ (tail = "" ∨ tail = newline)
      ∧ d ≠ "" ∧ str_all is_hex_digit d = true ∧ n ≤ str_len d + str_len tail.
Proof.
  unfold sufficient_id_entropy, hex_line. set (body := removeprefix prefix order_id).
  rewrite !andb_true_iff, Z.leb_le, negb_true_iff, String.eqb_neq.
  assert (Hlast : ∀ s, (str_last 1 s =? newline)%string = true →
    s = str_take (String.length s - 1) s +:+ newline).
  { intros s E%String.eqb_eq. unfold str_last in E. rewrite <- E. by rewrite str_take_drop. }
  assert (Happ : ∀ d t, str_len (d +:+ t) = str_len d + str_len t).
  { intros. unfold str_len. rewrite str_length_app. lia. }
  split.
  - intros (Hn & Hne & Hhex). destruct (str_last 1 body =? newline)%string eqn:E.
    + exists (str_take (String.length body - 1) body), newline.
      split_and!; [by apply Hlast|by right|done|done|]. by rewrite <- Happ, <- Hlast.
    + exists body, "". rewrite str_app_nil_r. split_and!; [done|by left|done|done|].
      change (str_len "") with 0. lia.
  - intros (d & tail & Hb & Htail & Hne & Hhex & Hn). rewrite Hb, Happ.
    split; [done|]. destruct Htail as [-> | ->].
    + rewrite str_app_nil_r. destruct (str_last 1 d =? newline)%string eqn:E; [|done].
      rewrite (Hlast d E), str_all_app in Hhex. apply andb_true_iff in Hhex as [_ Hx].
      vm_compute in Hx. discriminate.
    + assert (str_last 1 (d +:+ newline) = newline) as ->.
      { unfold str_last. rewrite str_length_app. simpl.
        replace (String.length d + 1 - 1)%nat with (String.length d) by lia. apply str_drop_app. }
      rewrite String.eqb_refl, str_length_app. simpl.
      replace (String.length d + 1 - 1)%nat with (String.length d) by lia.
      by rewrite str_take_app.
Qed.

Example eleven_digits_and_a_newline :
  sufficient_id_entropy ("ord_" +:+ str_repeat "a" 11 +:+ newline) "ord_" 12 = true.
Proof. vm_compute. reflexivity. Qed.

(** An authorization binds to a chain exactly when recovery under that
    chain's domain yields its claimed payer; a failing recovery is a refusal,
    never an error. *)
Theorem binding_is_recovered_payer recovered_signer str_other auth from dom :
  dict_lookup "from" auth = Some from →
  ∃ b, authorization_binds_to_chain recovered_signer str_other auth dom = Ok b
       ∧ (b = true ↔ ∃ a, recovered_signer auth dom = Ok a
                          ∧ lower a = lower (py_str str_other from)).
Proof.
  intros Hf. unfold authorization_binds_to_chain, dict_item. rewrite Hf. simpl.
  destruct (recovered_signer auth dom) as [a|e]; eexists; (split; [done|]).
  - rewrite String.eqb_eq. split; [eauto|]. by intros (? & [= <-] & ?).
  - split; [done|]. by intros (? & [=] & _).
Qed.

Lemma binding_is_recovered_payer_witness :
  let recover (_ : pydict) (dom : eip712_domain) : res string :=
    if dom_chain_id dom =? 84532 then Ok "0xAA" else raise ValueError "bad signature" in
  let dom := {| dom_chain_id := 8453; dom_token_address := "0xT"; dom_token_name := "USDC";
                dom_token_version := "2" |} in
  ∃ b, authorization_binds_to_chain recover (λ _, "") (dict_of [("from", VStr "0xaa")]) dom = Ok b
       ∧ (b = true ↔ ∃ a, recover (dict_of [("from", VStr "0xaa")]) dom = Ok a
                          ∧ lower a = lower (py_str (λ _, "") (VStr "0xaa"))).
Proof. intros recover dom. apply binding_is_recovered_payer. reflexivity. Defined.
