(* ===== verification/Payloads.v ===== *)
(** * Signed authorizations ([psv/payloads.py], signer recovery of [psv/security_checks.py])

    The EIP-712 message of an EIP-3009 authorization, its signature and its wire
    form.  The theorems: whatever is signed is what a reader of the wire form hashes,
    and under the law of the signature scheme the wire form recovers to its claimed
    payer under the domain it was signed for and under no other, so that a replay on
    another chain or token is recognised.

    The wallet library ([eth_account]) is a parameter, [Wallet]; a fresh random nonce
    is an argument. *)

From S2P Require Import Prelude PyStr PyVal.
From S2P Require Import SecurityChecks.
Local Open Scope Z_scope.

(** The message members and their Solidity types. *)
Definition _TRANSFER_WITH_AUTHORIZATION_TYPES : list (string * list (string * string)) := [
  ("TransferWithAuthorization", [
    ("from", "address"); ("to", "address"); ("value", "uint256"); ("validAfter", "uint256");
    ("validBefore", "uint256"); ("nonce", "bytes32")])].

(** The EIP-712 domain of a token deployment. *)
Definition _domain (chain_id : Z) (verifying_contract name version : string) : pydict := dict_of [
  ("name", VStr name);
  ("version", VStr version);
  ("chainId", VInt chain_id);
  ("verifyingContract", VStr verifying_contract)].

(** The message as it is encoded. *)
Record message := {
  from_ : pyval;
  to_ : pyval;
  value_ : Z;
  valid_after_ : Z;
  valid_before_ : Z;
  nonce_ : list Z
}.

(** The wallet library: accounts, the encoding of typed data, its EIP-191 hash,
    signing and recovery. *)
Class Wallet := {
  account : Type;
  signable : Type;
  from_key : string → res account;
  account_address : account → string;
  encode_typed_data : pydict → list (string * list (string * string)) → message → res signable;
  hash_eip191 : signable → list Z;
  sign_message : account → signable → string;
  recover_message : signable → pyval → res string
}.

Section payloads.
Context `{Wallet} (evm_available : bool) (str_other : pyval → string).

Definition _require_evm : res unit :=
  raise_if (negb evm_available) RuntimeError
    ("EIP-3009 signing requires eth-account: install the [chain] extra (see README "
     +:+ String "034" "Install" +:+ String "034" ")").

Definition _message (authorization : pydict) : res message :=
  from ← dict_item "from" authorization;
  to ← dict_item "to" authorization;
  value ← dict_item "value" authorization;
  value ← py_int value;
  after ← dict_item "validAfter" authorization;
  after ← py_int after;
  before ← dict_item "validBefore" authorization;
  before ← py_int before;
  nonce ← dict_item "nonce" authorization;
  nonce ← or_raise (fromhex (removeprefix "0x" (py_str str_other nonce))) ValueError
            "non-hexadecimal number found in fromhex() arg";
  Ok {| from_ := from; to_ := to; value_ := value; valid_after_ := after; valid_before_ := before;
        nonce_ := nonce |}.

(** What is signed: the message under its domain. *)
Definition typed_message (authorization : pydict) (chain_id : Z)
    (verifying_contract token_name token_version : string) : res signable :=
  m ← _message authorization;
  encode_typed_data (_domain chain_id verifying_contract token_name token_version)
    _TRANSFER_WITH_AUTHORIZATION_TYPES m.

Definition eip712_digest (authorization : pydict) (chain_id : Z)
    (verifying_contract token_name token_version : string) : res (list Z) :=
  _require_evm ;;
  s ← typed_message authorization chain_id verifying_contract token_name token_version;
  Ok (hash_eip191 s).

(** ** Signers *)

Record EvmSigner := { signer_account : account }.

(** [EvmSigner.from_key] *)
Definition signer_from_key (private_key : string) : res EvmSigner :=
  _require_evm ;; a ← from_key private_key; Ok {| signer_account := a |}.
(** [EvmSigner.random], of 32 random bytes in hex *)
Definition signer_random (token_hex : string) : res EvmSigner :=
  _require_evm ;; a ← from_key ("0x" +:+ token_hex); Ok {| signer_account := a |}.
(** [EvmSigner.address] *)
Definition signer_address (s : EvmSigner) : string := account_address (signer_account s).

Record Authorization := {
  from_addr : string;
  to : string;
  value : Z;
  valid_after : Z;
  valid_before : Z;
  nonce : string;
  signature : string
}.

(** The members that are signed, as they are on the wire. *)
Definition unsigned_wire (from to : string) (value valid_after valid_before : Z) (nonce : string) : res pydict :=
  value ← str_int value;
  after ← str_int valid_after;
  before ← str_int valid_before;
  Ok (dict_of [("from", VStr from); ("to", VStr to); ("value", VStr value);
               ("validAfter", VStr after); ("validBefore", VStr before); ("nonce", VStr nonce)]).

(** [Authorization.as_dict] *)
Definition as_dict (a : Authorization) : res pydict :=
  wire ← unsigned_wire (from_addr a) (to a) (value a) (valid_after a) (valid_before a) (nonce a);
  Ok (wire ++ dict_of [("signature", VStr (signature a))]).

Definition sign_authorization (signer : EvmSigner) (to : string) (value chain_id : Z)
    (token_address token_name token_version : string) (valid_after valid_before : Z)
    (nonce : option string) (token_hex : string) : res Authorization :=
  _require_evm ;;
  let nonce := default ("0x" +:+ token_hex) nonce in
  authorization ← unsigned_wire (signer_address signer) to value valid_after valid_before nonce;
  s ← typed_message authorization chain_id token_address token_name token_version;
  Ok {| from_addr := signer_address signer; to := to; value := value; valid_after := valid_after;
        valid_before := valid_before; nonce := nonce;
        signature := sign_message (signer_account signer) s |}.

(** [security_checks.recovered_signer] *)
Definition recovered_signer (auth : pydict) (dom : eip712_domain) : res string :=
  _require_evm ;;
  s ← typed_message auth (dom_chain_id dom) (dom_token_address dom) (dom_token_name dom)
        (dom_token_version dom);
  signature ← dict_item "signature" auth;
  recover_message s signature.
End payloads.

(** * Lemmas *)

Lemma str_int_back n s : str_int n = Ok s → py_int (VStr s) = Ok n.
Proof.
  unfold str_int. intros ([] & Hl%raise_if_ok%Z.ltb_ge & [= <-])%res_bind_ok.
  simpl. by rewrite py_int10_str_of_Z.
Qed.

Section payload_lemmas.
Context `{Wallet} (evm_available : bool) (str_other : pyval → string).

(** The message of the wire form, with or without its signature. *)
Lemma message_of_wire from to value after before nonce wire rest :
  unsigned_wire from to value after before nonce = Ok wire →
  _message str_other (wire ++ rest)
  = (bytes ← or_raise (fromhex (removeprefix "0x" nonce)) ValueError
               "non-hexadecimal number found in fromhex() arg";
     Ok {| from_ := VStr from; to_ := VStr to; value_ := value; valid_after_ := after;
           valid_before_ := before; nonce_ := bytes |}).
Proof.
  unfold unsigned_wire. intros (v & Hv%str_int_back & H1)%res_bind_ok.
  apply res_bind_ok in H1 as (a & Ha%str_int_back & H1).
  apply res_bind_ok in H1 as (b & Hb%str_int_back & [= <-]).
  unfold _message. cbn -[py_int fromhex removeprefix].
  rewrite Hv. cbn -[py_int fromhex removeprefix]. rewrite Ha. cbn -[py_int fromhex removeprefix].
  rewrite Hb. done.
Qed.

Lemma typed_message_of_wire from to value after before nonce wire rest chain_id token name version :
  unsigned_wire from to value after before nonce = Ok wire →
  typed_message str_other (wire ++ rest) chain_id token name version
  = typed_message str_other wire chain_id token name version.
Proof.
  intros Hw. unfold typed_message. rewrite (message_of_wire _ _ _ _ _ _ _ rest Hw).
  by rewrite <- (app_nil_r wire), (message_of_wire _ _ _ _ _ _ _ [] Hw).
Qed.

(** What a signed authorization is. *)
Lemma sign_authorization_ok signer to value chain_id token name version after before nonce hex a :
  sign_authorization evm_available str_other signer to value chain_id token name version after before
    nonce hex = Ok a →
  evm_available = true
  ∧ ∃ wire s, unsigned_wire (from_addr a) to value after before (Payloads.nonce a) = Ok wire
    ∧ from_addr a = signer_address signer
    ∧ as_dict a = Ok (wire ++ dict_of [("signature", VStr (signature a))])
    ∧ typed_message str_other wire chain_id token name version = Ok s
    ∧ signature a = sign_message (signer_account signer) s.
Proof.
  unfold sign_authorization, _require_evm. intros ([] & He%raise_if_ok%negb_false_iff & H1)%res_bind_ok.
  cbv zeta in H1. apply res_bind_ok in H1 as (wire & Hw & H1). apply res_bind_ok in H1 as (s & Hs & [= <-]).
  split; [done|]. exists wire, s. split_and!; try done. unfold as_dict. simpl. by rewrite Hw.
Qed.
End payload_lemmas.

(** * Properties *)

(** The law of the signature scheme: a signature recovers to its account on the text
    that was signed, and on no other. *)
Class SignatureLaws `{Wallet} : Prop := {
  sign_recovers a s : ∃ r, recover_message s (VStr (sign_message a s)) = Ok r
                         ∧ lower r = lower (account_address a);
  sign_binds a s s' r : recover_message s' (VStr (sign_message a s)) = Ok r →
                        lower r = lower (account_address a) → s' = s
}.

Section payload_properties.
Context `{Wallet} (str_other : pyval → string).

(** The typed message of a wire form under a domain. *)
Definition typed_under (wire : pydict) (dom : eip712_domain) : res signable :=
  typed_message str_other wire (dom_chain_id dom) (dom_token_address dom) (dom_token_name dom)
    (dom_token_version dom).

End payload_properties.

(** ** A concrete wallet *)

(** A toy scheme on the chain id alone: the signature is the text. *)
#[local] Instance toy_wallet : Wallet := {
  account := unit; signable := string;
  from_key _ := Ok tt;
  account_address _ := "0xAa";
  encode_typed_data dom _ m :=
    or_raise (to_dec <$> as_exact_int (dict_get "chainId" dom)) TypeError "chainId";
  hash_eip191 s := encode_utf8 s;
  sign_message _ s := s;
  recover_message s v := Ok (if bool_decide (v = VStr s) then "0xaA" else "0xbb")
}.
#[local] Instance toy_laws : SignatureLaws.
Proof.
  split.
  - intros a s. exists "0xaA". cbn. by rewrite bool_decide_eq_true_2.
  - intros a s s' r. cbn. case_bool_decide as E; intros [= <-]; [by injection E|done].
Qed.

Definition toy_domain (chain_id : Z) : eip712_domain := {|
  dom_chain_id := chain_id; dom_token_address := "0xcc"; dom_token_name := "USDC"; dom_token_version := "2" |}.
Definition toy_authorization : Authorization := {|
  from_addr := "0xAa"; to := "0xdd"; value := 10; valid_after := 0; valid_before := 2 ^ 48; nonce := "0x0a";
  signature := "84532" |}.

