(* ===== verification/Load.v ===== *)
(** * Load profiles ([psv/load.py])

    A task is driven a number of times, alone or by a pool of workers, and every
    attempt is accounted for: its latency if it returned, a bounded sample if it
    raised.  The theorems: every iteration of every stage is run exactly once,
    whatever the tasks raise and in whatever order the pool runs them; nothing is
    lost in the accounts; the percentiles are observed latencies; and the standard
    profile is one that runs.

    A task is a program on a shared state [W] that may raise.  A pool runs each task
    as one step; the order of the steps is a parameter, [schedule].  The clock is a
    list of readings in the state. *)

From S2P Require Import Prelude PyStr PyText PyVal PyJson.
Local Open Scope Z_scope.

(** ** Floats *)

Notation float_sub := (SFsub 53 1024).
Notation float_mul := (SFmul 53 1024).
Notation float_div := (SFdiv 53 1024).
(** [float(n)] *)
Definition float_of_int (n : Z) : spec_float := binary_normalize 53 1024 n 0 false.
(** [a / b] of integers that are not negative, [b] positive: correctly rounded *)
Definition true_div (a b : Z) : spec_float := if a =? 0 then S754_zero false else round_ratio a b.
(** [round(f)] of a float that is not negative: half to even *)
Definition round_int (f : spec_float) : Z :=
  match f with
  | S754_finite false m e =>
      let den := 2 ^ Z.max 0 (- e) in
      let num := Zpos m * 2 ^ Z.max 0 e in
      let n := num / den in
      match 2 * (num mod den) ?= den with
      | Lt => n
      | Gt => n + 1
      | Eq => if Z.even n then n else n + 1
      end
  | _ => 0
  end.

(** ** Results *)

Record LoadErrorSample := { iteration : Z; exception_type : string; message : string }.

Record LoadResult := {
  total : Z;
  errors : Z;
  latencies_ms : list spec_float;
  duration_s : spec_float;
  error_samples : list LoadErrorSample
}.

Definition ok (r : LoadResult) : Z := total r - errors r.
Definition error_rate (r : LoadResult) : spec_float :=
  if total r =? 0 then S754_zero false else true_div (errors r) (total r).
(** [a / b] of an integer and a float *)
Definition per_second (n : Z) (duration : spec_float) : spec_float :=
  if SFltb (S754_zero false) duration then float_div (float_of_int n) duration else S754_zero false.
Definition attempted_throughput_per_s (r : LoadResult) : spec_float := per_second (total r) (duration_s r).
Definition successful_throughput_per_s (r : LoadResult) : spec_float := per_second (ok r) (duration_s r).
Definition throughput_per_s (r : LoadResult) : spec_float := attempted_throughput_per_s r.

Definition not_above (a b : spec_float) : bool := negb (SFltb b a).
Definition _pct (r : LoadResult) (p : Z) : spec_float :=
  match latencies_ms r with
  | [] => S754_zero false
  | _ =>
      let ordered := sorted_by not_above (latencies_ms r) in
      let last := Z.of_nat (length ordered) - 1 in
      let idx := Z.min last
        (round_int (float_mul (float_div (float_of_int p) (float_of_int 100)) (float_of_int last))) in
      default (S754_zero false) (ordered !! Z.to_nat idx)
  end.
Definition p50_ms (r : LoadResult) : spec_float := _pct r 50.
Definition p95_ms (r : LoadResult) : spec_float := _pct r 95.
(** [max(l)]: the first greatest *)
Definition max_ms (r : LoadResult) : spec_float :=
  match latencies_ms r with
  | [] => S754_zero false
  | f :: fs => fold_left (λ m f, if SFltb m f then f else m) fs f
  end.

Definition sample_dict (s : LoadErrorSample) : pyval := VDict (dict_of [
  ("iteration", VInt (iteration s)); ("type", VStr (exception_type s)); ("message", VStr (message s))]).

Definition as_dict (r : LoadResult) : pydict := dict_of [
  ("attempted", VInt (total r));
  ("successful", VInt (ok r));
  ("errors", VInt (errors r));
  ("errorRate", VFloat (error_rate r));
  ("durationSeconds", VFloat (duration_s r));
  ("attemptedThroughputPerSecond", VFloat (attempted_throughput_per_s r));
  ("successfulThroughputPerSecond", VFloat (successful_throughput_per_s r));
  ("latencyMilliseconds", VDict (dict_of [
     ("p50", VFloat (p50_ms r)); ("p95", VFloat (p95_ms r)); ("max", VFloat (max_ms r))]));
  ("errorSamples", VList (sample_dict <$> error_samples r))].

Record LoadStage := { name : string; iterations : Z; concurrency : Z }.

Definition StagedLoadResult : Type := list (LoadStage * LoadResult).
Definition sum (ns : list Z) : Z := fold_right Z.add 0 ns.
Definition staged_total (s : StagedLoadResult) : Z := sum ((λ p, total p.2) <$> s).
Definition staged_errors (s : StagedLoadResult) : Z := sum ((λ p, errors p.2) <$> s).
Definition staged_ok (s : StagedLoadResult) : Z := staged_total s - staged_errors s.
Definition recovered (s : StagedLoadResult) : bool :=
  match last s with
  | Some (stage, r) => (name stage =? "recovery")%string && (errors r =? 0)
  | None => false
  end.
Definition staged_as_dict (s : StagedLoadResult) : pydict := dict_of [
  ("recovered", VBool (recovered s));
  ("correctness", VDict (dict_of [
     ("attempted", VInt (staged_total s)); ("successful", VInt (staged_ok s));
     ("errors", VInt (staged_errors s))]));
  ("stages", VList ((λ p, VDict (dict_of [("name", VStr (name p.1)); ("concurrency", VInt (concurrency p.1))]
                                 ++ as_dict p.2)) <$> s))].

(** ** Running *)

Record state (W : Type) := { world : W; clock : list spec_float }.
Arguments world {W} _.
Arguments clock {W} _.

(** [str.split()]: the words between white space *)
Fixpoint split_words (word s : string) : list string :=
  match s with
  | EmptyString => if (word =? "")%string then [] else [word]
  | String c s =>
      if str_space c then (if (word =? "")%string then split_words "" s else word :: split_words "" s)
      else split_words (word +:+ String c "") s
  end.

Definition range (n : Z) : list Z := Z.of_nat <$> seq 0 (Z.to_nat n).

Section running.
Context {W : Type}.
Notation io := (prog (state W)).

Definition perf_counter : io spec_float := λ s,
  match clock s with
  | [] => (Ok (S754_zero false), s)
  | t :: ts => (Ok t, {| world := world s; clock := ts |})
  end.

(** The task, on the state it shares. *)
Definition on_world {A} (m : prog W A) : io A :=
  zoom world (λ x s, {| world := x; clock := clock s |}) m.

(** [type(exc).__name__] *)
Context (class_name : exn_class → string).

Notation attempt := (option spec_float * option LoadErrorSample)%type.

Definition error_sample (i : Z) (e : exn) : LoadErrorSample := {|
  iteration := i; exception_type := class_name (exn_cls e);
  message := str_take 512 (join " " (split_words "" (exn_str e))) |}.

(** [_run]: [except Exception] catches all but the exit of the interpreter. *)
Definition _run (task : Z → prog W unit) (i : Z) : io attempt :=
  start ← perf_counter;
  (λ s, match on_world (task i) s with
       | (Raise e, s') => if decide (exn_cls e = SystemExit) then (Raise e, s')
                          else (Ok (None, Some (error_sample i e)), s')
       | (Ok _, s') =>
           (stop ← perf_counter;
            mret (Some (float_mul (float_sub stop start) (float_of_int 1000)), None)) s'
       end) : io attempt.

(** [[_run(i) for i in range(iterations)]] *)
Fixpoint run_sequence (task : Z → prog W unit) (js : list Z) : io (list attempt) :=
  match js with
  | [] => mret []
  | i :: js => r ← _run task i; rs ← run_sequence task js; mret (r :: rs)
  end.

(** The pool runs the tasks in the order of the schedule, each whatever became of the
    others, and hands out the results in the order of the iterations. *)
Fixpoint run_steps (task : Z → prog W unit) (order : list Z) (finished : list (Z * res attempt))
    : state W → list (Z * res attempt) * state W := λ s,
  match order with
  | [] => (finished, s)
  | i :: order => let '(r, s') := _run task i s in run_steps task order ((i, r) :: finished) s'
  end.
Definition result_of (finished : list (Z * res attempt)) (i : Z) : res attempt :=
  match find (λ p, p.1 =? i) finished with Some p => p.2 | None => raise OtherError "never run" end.
Definition run_pool (task : Z → prog W unit) (order : list Z) (n : Z) : io (list attempt) := λ s,
  let '(finished, s') := run_steps task order [] s in (map_res (result_of finished) (range n), s').

(** The loop over the results. *)
Fixpoint collect (max_error_samples : Z) (results : list attempt) (errs : Z) (latencies : list spec_float)
    (samples : list LoadErrorSample) : res (Z * list spec_float * list LoadErrorSample) :=
  match results with
  | [] => Ok (errs, latencies, samples)
  | (_, Some error) :: results =>
      collect max_error_samples results (errs + 1) latencies
        (if Z.of_nat (length samples) <? max_error_samples then samples ++ [error] else samples)
  | (Some latency, None) :: results =>
      collect max_error_samples results errs (latencies ++ [latency]) samples
  | (None, None) :: _ => raise AssertionError "assert latency is not None"
  end.

Definition run_profile (schedule : list Z) (task : Z → prog W unit)
    (iterations concurrency max_error_samples : Z) : io LoadResult :=
  lift (raise_if (iterations <=? 0) ValueError "iterations must be > 0") ;;
  lift (raise_if (concurrency <=? 0) ValueError "concurrency must be > 0") ;;
  lift (raise_if (max_error_samples <? 0) ValueError "max_error_samples must be >= 0") ;;
  started ← perf_counter;
  results ← (if concurrency =? 1 then run_sequence task (range iterations)
             else run_pool task schedule iterations);
  stopped ← perf_counter;
  let duration := float_sub stopped started in
  '(errs, latencies, samples) ← lift (collect max_error_samples results 0 [] []);
  mret {| total := iterations; errors := errs; latencies_ms := latencies; duration_s := duration;
          error_samples := samples |}.

Definition _with_offset (task : Z → prog W unit) (offset : Z) : Z → prog W unit :=
  λ index, task (offset + index).

(** The stages from an offset on; a stage that uses a pool follows its schedule. *)
Fixpoint run_stages (schedule : LoadStage → list Z) (task : Z → prog W unit) (max_error_samples : Z)
    (stages : list LoadStage) (offset : Z) : io StagedLoadResult :=
  match stages with
  | [] => mret []
  | stage :: stages =>
      lift (raise_if (strip (name stage) =? "")%string ValueError "load stage name must not be empty") ;;
      result ← run_profile (schedule stage) (_with_offset task offset) (iterations stage)
                 (concurrency stage) max_error_samples;
      results ← run_stages schedule task max_error_samples stages (offset + iterations stage);
      mret ((stage, result) :: results)
  end.

Definition run_staged_profile (schedule : LoadStage → list Z) (task : Z → prog W unit)
    (stages : list LoadStage) (max_error_samples : Z) : io StagedLoadResult :=
  lift (raise_if (match stages with [] => true | _ => false end) ValueError
          "at least one load stage is required") ;;
  run_stages schedule task max_error_samples stages 0.

(** ** Facilitators *)

(** A non-empty tuple of workers. *)
Definition FacilitatorTaskPool (workers : list (Z → prog W unit)) : res (list (Z → prog W unit)) :=
  raise_if (match workers with [] => true | _ => false end) ValueError
    "at least one facilitator worker is required" ;;
  Ok workers.
Definition pool_call (workers : list (Z → prog W unit)) (i : Z) : prog W unit :=
  match workers !! Z.to_nat (i mod Z.of_nat (length workers)) with
  | Some worker => worker i
  | None => lift (raise OtherError "tuple index out of range")
  end.
End running.

Definition standard_profile (scale peak_concurrency : Z) : res (list LoadStage) :=
  raise_if (scale <=? 0) ValueError "scale must be > 0" ;;
  raise_if (peak_concurrency <=? 1) ValueError "peak_concurrency must be > 1" ;;
  Ok [{| name := "ramp"; iterations := scale; concurrency := Z.max 1 (peak_concurrency / 2) |};
      {| name := "spike"; iterations := scale; concurrency := peak_concurrency |};
      {| name := "soak"; iterations := scale * 5; concurrency := Z.max 1 (peak_concurrency / 2) |};
      {| name := "breakpoint"; iterations := scale; concurrency := peak_concurrency * 2 |};
      {| name := "recovery"; iterations := scale; concurrency := 1 |}].

(** * Lemmas *)

(** ** One attempt *)

Section run_lemmas.
Context {W : Type} (class_name : exn_class → string).
Implicit Types (task : Z → prog W unit) (s : state W).
Notation attempt := (option spec_float * option LoadErrorSample)%type.
Notation _run := (_run (W:=W) class_name).

(** A task that raises at most what [except Exception] catches. *)
Definition never_exits task : Prop := ∀ i w e, (task i w).1 = Raise e → exn_cls e ≠ SystemExit.

(** The outcome of an attempt: a latency or a sample of its own iteration. *)
Definition attempt_of (i : Z) (a : attempt) : Prop :=
  (∃ latency, a = (Some latency, None)) ∨ ∃ e, a = (None, Some (error_sample class_name i e)).

Lemma perf_counter_run s : ∃ t s', perf_counter s = (Ok t, s') ∧ world s' = world s.
Proof. unfold perf_counter. destruct (clock s); eauto. Qed.

Lemma run_once task i s :
  never_exits task →
  ∃ a s', _run task i s = (Ok a, s') ∧ attempt_of i a ∧ world s' = (task i (world s)).2.
Proof.
  intros Hn. unfold Load._run. destruct (perf_counter_run s) as (t & s1 & Ht & Hw).
  unfold mbind, prog_bind at 1. rewrite Ht. unfold on_world, zoom. rewrite <- Hw.
  specialize (Hn i (world s1)). destruct (task i (world s1)) as [[u|e] w']; simpl in *.
  - destruct (perf_counter_run {| world := w'; clock := clock s1 |}) as (t' & s2 & Ht' & Hw').
    unfold prog_bind. rewrite Ht'. eexists _, s2. split; [reflexivity|]. split; [left; by eexists|done].
  - destruct (decide _) as [He|_]; [by destruct (Hn e eq_refl)|].
    eexists _, _. split; [reflexivity|]. split; [right; by eexists|done].
Qed.

(** The shared state after the tasks of these iterations, in order. *)
Definition run_world task (order : list Z) (w : W) : W := fold_left (λ w i, (task i w).2) order w.

Lemma run_sequence_runs task js s :
  never_exits task →
  ∃ rs s', run_sequence class_name task js s = (Ok rs, s') ∧ Forall2 attempt_of js rs
    ∧ world s' = run_world task js (world s).
Proof.
  intros Hn. revert s. induction js as [|i js IH]; intros s; [by eexists [], s|]. simpl.
  destruct (run_once task i s Hn) as (a & s1 & Ha & Hat & Hw).
  destruct (IH s1) as (rs & s2 & Hrs & Hall & Hw2).
  exists (a :: rs), s2. unfold mbind, prog_bind. rewrite Ha, Hrs. split_and!; [done|by constructor|].
  by rewrite Hw2, Hw.
Qed.

(** Every step of the pool leaves its result. *)
Lemma run_steps_runs task order d s :
  never_exits task →
  ∃ d' s', run_steps class_name task order d s = (d' ++ d, s') ∧ d'.*1 = reverse order
    ∧ Forall (λ p, ∃ a, p.2 = Ok a ∧ attempt_of p.1 a) d' ∧ world s' = run_world task order (world s).
Proof.
  intros Hn. revert d s. induction order as [|i order IH]; intros d s.
  { exists [], s. by split_and!. }
  simpl. destruct (run_once task i s Hn) as (a & s1 & -> & Hat & Hw).
  destruct (IH ((i, Ok a) :: d) s1) as (d' & s2 & -> & Hd & Hall & Hw2).
  exists (d' ++ [(i, Ok a)]), s2. split_and!.
  - by rewrite <- app_assoc.
  - by rewrite fmap_app, Hd, reverse_cons.
  - apply Forall_app_2; [done|]. apply Forall_singleton. by exists a.
  - by rewrite Hw2, Hw.
Qed.

Lemma result_of_found d i :
  Forall (λ p, ∃ a, p.2 = Ok a ∧ attempt_of p.1 a) d → i ∈ d.*1 →
  ∃ a, result_of d i = Ok a ∧ attempt_of i a.
Proof.
  unfold result_of. intros Hd Hi. induction Hd as [|[j r] d (a & Hr & Ha) _ IH]; [by apply elem_of_nil in Hi|].
  simpl in *. destruct (Z.eqb_spec j i) as [->|Hne].
  - exists a. by rewrite Hr.
  - apply elem_of_cons in Hi as [->|Hi]; [done|]. by apply IH.
Qed.

Lemma run_pool_runs task order n s :
  never_exits task → order ≡ₚ range n →
  ∃ rs s', run_pool class_name task order n s = (Ok rs, s') ∧ Forall2 attempt_of (range n) rs
    ∧ world s' = run_world task order (world s).
Proof.
  intros Hn Ho. unfold run_pool. destruct (run_steps_runs task order [] s Hn) as (d & s' & -> & Hd & Hall & Hw).
  rewrite app_nil_r.
  assert (∀ js, (∀ i, i ∈ js → i ∈ d.*1) → ∃ rs, map_res (result_of d) js = Ok rs ∧ Forall2 attempt_of js rs) as Hmap.
  { induction js as [|i js IH]; intros His; [by exists []|].
    destruct (result_of_found d i Hall (His i ltac:(by left))) as (a & Ha & Hat).
    destruct IH as (rs & Hrs & Hf); [intros j Hj; apply His; by right|].
    exists (a :: rs). simpl. rewrite Ha, Hrs. split; [done|by constructor]. }
  destruct (Hmap (range n)) as (rs & -> & Hf); [|by exists rs, s'].
  intros i Hi. rewrite Hd. apply elem_of_reverse. by rewrite Ho.
Qed.

(** ** The accounts *)

Definition errors_of (rs : list attempt) : list LoadErrorSample := omap snd rs.
Definition latencies_of (rs : list attempt) : list spec_float := omap fst rs.

Lemma collect_attempts m js rs e l samples :
  Forall2 attempt_of js rs → Z.of_nat (length samples) ≤ m →
  collect m rs e l samples
  = Ok (e + Z.of_nat (length (errors_of rs)), l ++ latencies_of rs,
        take (Z.to_nat m) (samples ++ errors_of rs)).
Proof.
  intros Hall. revert e l samples.
  induction Hall as [|i a js rs Ha _ IH]; intros e l samples Hm; simpl.
  { rewrite Z.add_0_r, !app_nil_r, take_ge by lia. done. }
  destruct Ha as [(latency & ->)|(x & ->)]; simpl.
  - rewrite IH by done. by rewrite <- app_assoc.
  - destruct (Z.ltb_spec (Z.of_nat (length samples)) m) as [Hlt|Hge].
    + rewrite IH by (rewrite length_app; simpl; lia). rewrite <- app_assoc. simpl. do 3 f_equal. lia.
    + assert (length samples = Z.to_nat m) as Hl by lia. rewrite IH by done.
      rewrite !take_app_le, !take_ge by lia. do 3 f_equal. lia.
Qed.

Lemma attempts_partition js rs :
  Forall2 attempt_of js rs → (length (errors_of rs) + length (latencies_of rs) = length js)%nat.
Proof.
  induction 1 as [|i a js rs Ha _ IH]; [done|]. simpl.
  destruct Ha as [(latency & ->)|(e & ->)]; simpl; unfold errors_of, latencies_of in *; lia.
Qed.

(** The failed iterations in order, each with a bounded message. *)
Lemma errors_in_order js rs :
  Forall2 attempt_of js rs →
  sublist (iteration <$> errors_of rs) js
  ∧ Forall (λ x, str_len (message x) ≤ 512) (errors_of rs).
Proof.
  induction 1 as [|i a js rs Ha _ [IH1 IH2]]; [by split; constructor|].
  destruct Ha as [(latency & ->)|(e & ->)]; simpl.
  - split; [by constructor|done].
  - split; [by constructor|]. constructor; [|done]. simpl. unfold str_len. rewrite str_length_take. lia.
Qed.
End run_lemmas.

(** ** Profiles *)

Lemma range_elem n i : i ∈ range n ↔ 0 ≤ i < n.
Proof.
  unfold range. rewrite list_elem_of_fmap. split.
  - intros (k & -> & Hk%elem_of_seq). lia.
  - intros Hi. exists (Z.to_nat i). rewrite elem_of_seq. lia.
Qed.
Lemma range_length n : length (range n) = Z.to_nat n.
Proof. unfold range. by rewrite length_fmap, length_seq. Qed.
Lemma range_sorted n : StronglySorted Z.lt (range n).
Proof.
  unfold range. generalize 0%nat at 1 as a. intros a. revert a. induction (Z.to_nat n) as [|k IH]; intros a; simpl.
  - constructor.
  - constructor; [apply IH|]. apply Forall_fmap, Forall_forall. intros j Hj%elem_of_seq. simpl. lia.
Qed.
(** The iterations of one stage follow those of the stages before it. *)
Lemma range_app a b : 0 ≤ a → 0 ≤ b → range (a + b) = range a ++ (Z.add a <$> range b).
Proof.
  intros Ha Hb. unfold range. rewrite Z2Nat.inj_add, seq_app, fmap_app by done. f_equal.
  pose proof (fmap_add_seq (Z.to_nat a) 0 (Z.to_nat b)) as E. rewrite Nat.add_0_r in E.
  cbn [Nat.add]. rewrite <- E, <- !list_fmap_compose. apply list_fmap_ext. intros _ k _. simpl. lia.
Qed.
Lemma sublist_sorted (l k : list Z) : sublist l k → StronglySorted Z.lt k → StronglySorted Z.lt l.
Proof.
  induction 1 as [|x l k Hl IH|x l k Hl IH]; [done|..]; intros Hs; apply StronglySorted_inv in Hs as [Hs Hall].
  - constructor; [by apply IH|]. apply Forall_forall. intros y Hy.
    apply (proj1 (Forall_forall _ _) Hall). eapply elem_of_submseteq, sublist_submseteq, Hl. done.
  - by apply IH.
Qed.

(** The account of a profile of [n] iterations. *)
Record accounts (n max_error_samples : Z) (r : LoadResult) : Prop := {
  attempted : total r = n;
  nothing_lost : errors r + Z.of_nat (length (latencies_ms r)) = n;
  succeeded : ok r = Z.of_nat (length (latencies_ms r));
  samples : ∃ failed, error_samples r = take (Z.to_nat max_error_samples) failed
    ∧ Z.of_nat (length failed) = errors r
    ∧ StronglySorted Z.lt (iteration <$> failed)
    ∧ Forall (λ x, 0 ≤ iteration x < n ∧ str_len (message x) ≤ 512) failed
}.

Section profile_lemmas.
Context {W : Type} (class_name : exn_class → string).
Implicit Types (task : Z → prog W unit) (s : state W).
Notation attempt := (option spec_float * option LoadErrorSample)%type.

Lemma accounts_of_attempts n m rs duration :
  0 ≤ n → Forall2 (attempt_of class_name) (range n) rs →
  accounts n m {| total := n; errors := Z.of_nat (length (errors_of rs)); latencies_ms := latencies_of rs;
                  duration_s := duration; error_samples := take (Z.to_nat m) (errors_of rs) |}.
Proof.
  intros Hn Hall. pose proof (attempts_partition _ _ _ Hall) as Hp. rewrite range_length in Hp.
  destruct (errors_in_order _ _ _ Hall) as [Hsub Hmsg].
  split; simpl; [done|lia|unfold ok; simpl; lia|]. exists (errors_of rs). split_and!; [done|done| |].
  - eapply sublist_sorted, range_sorted. exact Hsub.
  - apply Forall_forall. intros x Hx. split; [|by apply (proj1 (Forall_forall _ _) Hmsg)].
    apply range_elem. eapply elem_of_submseteq, sublist_submseteq, Hsub. by apply list_elem_of_fmap_2.
Qed.

Lemma run_profile_runs schedule task n c m s :
  never_exits task → 0 < n → 0 < c → 0 ≤ m → schedule ≡ₚ range n →
  ∃ r s' order, run_profile class_name schedule task n c m s = (Ok r, s') ∧ accounts n m r
    ∧ order ≡ₚ range n ∧ world s' = run_world task order (world s).
Proof.
  intros Hn Hpos Hc Hm Hsch. unfold run_profile.
  rewrite !(proj2 (Z.leb_gt _ _)), (proj2 (Z.ltb_ge _ _)) by done.
  destruct (perf_counter_run s) as (t & s1 & Ht & Hw).
  unfold mbind, prog_bind, lift, raise_if. rewrite Ht.
  assert (∃ rs s2 order, (if c =? 1 then run_sequence class_name task (range n)
      else run_pool class_name task schedule n) s1 = (Ok rs, s2)
    ∧ Forall2 (attempt_of class_name) (range n) rs ∧ order ≡ₚ range n
    ∧ world s2 = run_world task order (world s1)) as (rs & s2 & order & -> & Hall & Ho & Hw2).
  { destruct (c =? 1).
    - destruct (run_sequence_runs class_name task (range n) s1 Hn) as (rs & s2 & ? & ? & ?). by exists rs, s2, (range n).
    - destruct (run_pool_runs class_name task schedule n s1 Hn Hsch) as (rs & s2 & ? & ? & ?).
      by exists rs, s2, schedule. }
  destruct (perf_counter_run s2) as (t' & s3 & -> & Hw3).
  rewrite (collect_attempts class_name m (range n)) by done. cbn [fst snd].
  eexists _, s3, order. split; [reflexivity|].
  split; [apply accounts_of_attempts; [lia|done]|]. split; [done|]. by rewrite Hw3, Hw2, Hw.
Qed.

Lemma never_exits_offset task k : never_exits task → never_exits (_with_offset task k).
Proof. intros Hn i w e. apply Hn. Qed.

Lemma run_world_offset task k order w :
  run_world (_with_offset task k) order w = run_world task (Z.add k <$> order) w.
Proof.
  unfold run_world. revert w. induction order as [|i order IH]; intros w; [done|]. simpl. apply IH.
Qed.
Lemma run_world_app task l k w : run_world task (l ++ k) w = run_world task k (run_world task l w).
Proof. unfold run_world. apply fold_left_app. Qed.

(** A profile whose stages are named, drive at least one iteration, and whose pools run
    every iteration once. *)
Definition stage_ok (schedule : LoadStage → list Z) (stage : LoadStage) : Prop :=
  strip (name stage) ≠ "" ∧ 0 < iterations stage ∧ 0 < concurrency stage
  ∧ schedule stage ≡ₚ range (iterations stage).

Lemma sum_nonneg (stages : list LoadStage) schedule :
  Forall (stage_ok schedule) stages → 0 ≤ sum (iterations <$> stages).
Proof.
  induction 1 as [|stage stages (_ & Hi & _) _ IH]; [done|].
  change (0 ≤ iterations stage + sum (iterations <$> stages)). lia.
Qed.

Lemma run_stages_run schedule task m stages k s :
  never_exits task → 0 ≤ m → Forall (stage_ok schedule) stages →
  ∃ rs s' order, run_stages class_name schedule task m stages k s = (Ok rs, s') ∧ rs.*1 = stages
    ∧ Forall (λ p, accounts (iterations p.1) m p.2) rs
    ∧ order ≡ₚ (Z.add k <$> range (sum (iterations <$> stages)))
    ∧ world s' = run_world task order (world s).
Proof.
  intros Hn Hm Hall. revert k s.
  induction Hall as [|stage stages (Hname & Hi & Hc & Hsch) Hall IH]; intros k s.
  { exists [], s, []. by split_and!. }
  destruct (run_profile_runs (schedule stage) (_with_offset task k) (iterations stage) (concurrency stage) m s)
    as (r & s1 & order1 & Hr & Hacc & Ho1 & Hw1); [by apply never_exits_offset|done..|].
  destruct (IH (k + iterations stage) s1) as (rs & s2 & order2 & Hrs & Hst & Haccs & Ho2 & Hw2).
  exists ((stage, r) :: rs), s2, ((Z.add k <$> order1) ++ order2). split_and!.
  - simpl. rewrite (proj2 (String.eqb_neq _ _) Hname).
    unfold mbind, prog_bind, lift, raise_if. by rewrite Hr, Hrs.
  - csimpl. by rewrite Hst.
  - by constructor.
  - change (sum (iterations <$> stage :: stages)) with (iterations stage + sum (iterations <$> stages)).
    rewrite range_app by first [exact (sum_nonneg _ _ Hall) | lia]. rewrite fmap_app, Ho1, Ho2.
    rewrite <- list_fmap_compose.
    assert ((Z.add (k + iterations stage)) <$> range (sum (iterations <$> stages))
      = (Z.add k ∘ Z.add (iterations stage)) <$> range (sum (iterations <$> stages))) as ->; [|done].
    apply list_fmap_ext. intros _ x _. simpl. lia.
  - by rewrite run_world_app, <- run_world_offset, Hw2, Hw1.
Qed.
End profile_lemmas.

(** ** Percentiles *)

(** The order of floats: by class, then exponent, then mantissa. *)
Definition float_rank (f : spec_float) : Z * Z * Z :=
  match f with
  | S754_infinity true => (-2, 0, 0)
  | S754_finite true m e => (-1, - e, Zneg m)
  | S754_zero _ | S754_nan => (0, 0, 0)
  | S754_finite false m e => (1, e, Zpos m)
  | S754_infinity false => (2, 0, 0)
  end.
Definition rank_lt (a b : Z * Z * Z) : Prop :=
  a.1.1 < b.1.1 ∨ (a.1.1 = b.1.1 ∧ (a.1.2 < b.1.2 ∨ (a.1.2 = b.1.2 ∧ a.2 < b.2))).

Definition is_number (f : spec_float) : Prop := f ≠ S754_nan.

Lemma SFltb_rank f g :
  is_number f → is_number g → SFltb f g = true ↔ rank_lt (float_rank f) (float_rank g).
Proof.
  intros Hf Hg. unfold rank_lt.
  destruct f as [|[]| |[] m e], g as [|[]| |[] m' e']; try done; unfold SFltb; simpl;
    try (split; [try done; lia|try done; lia]).
  - destruct (Z.compare_spec e e'); simpl; [|split; [done|lia]|split; [lia|done]]. subst.
    change (Pos.compare_cont Eq m m') with (Pos.compare m m').
    destruct (Pos.compare_spec m m'); simpl; (split; [try done; lia|try done; lia]).
  - destruct (Z.compare_spec e e'); simpl; [|split; [lia|done]|split; [done|lia]]. subst.
    change (Pos.compare_cont Eq m m') with (Pos.compare m m').
    destruct (Pos.compare_spec m m'); simpl; (split; [try done; lia|try done; lia]).
Qed.

Lemma SFltb_trans f g h :
  is_number f → is_number g → is_number h → SFltb f g = true → SFltb g h = true → SFltb f h = true.
Proof. intros Hf Hg Hh. rewrite !SFltb_rank by done. unfold rank_lt. lia. Qed.
Lemma SFltb_irrefl f : SFltb f f = false.
Proof.
  destruct (decide (f = S754_nan)) as [->|Hf]; [done|]. apply not_true_iff_false.
  rewrite SFltb_rank by done. unfold rank_lt. lia.
Qed.
Lemma SFltb_gap f g h :
  is_number f → is_number g → is_number h → SFltb g h = false → SFltb f h = true → SFltb f g = true.
Proof. intros Hf Hg Hh. rewrite <- not_true_iff_false, !SFltb_rank by done. unfold rank_lt. lia. Qed.

(** The greatest of a list is in it and none is above it. *)
Lemma fold_max l f :
  Forall is_number (f :: l) →
  let m := fold_left (λ m f, if SFltb m f then f else m) l f in
  m ∈ f :: l ∧ Forall (λ g, SFltb m g = false) (f :: l).
Proof.
  revert f. induction l as [|g l IH]; intros f Hall; cbn [fold_left].
  { split; [by left|]. apply Forall_singleton, SFltb_irrefl. }
  apply Forall_cons in Hall as [Hf Hall]. pose proof Hall as [Hg Hl]%Forall_cons.
  destruct (SFltb f g) eqn:E; specialize (IH (if SFltb f g then g else f)); rewrite E in IH.
  - destruct (IH Hall) as [Hin Hmax]. split; [by right|]. constructor; [|done].
    apply Forall_cons in Hmax as [Hmg Hmax].
    apply not_true_iff_false. intros Hlt.
    assert (is_number (fold_left (λ m f, if SFltb m f then f else m) l g)) as Hm
      by (apply (proj1 (Forall_forall _ _) Hall); done).
    rewrite (SFltb_trans _ f g) in Hmg by done. done.
  - destruct (IH ltac:(by constructor)) as [Hin Hmax]. apply Forall_cons in Hmax as [Hmf Hmax]. split.
    + apply elem_of_cons in Hin as [->|Hin]; [by left|by right; right].
    + constructor; [done|]. constructor; [|done]. apply not_true_iff_false. intros Hlt.
      assert (is_number (fold_left (λ m f, if SFltb m f then f else m) l f)) as Hm.
      { apply elem_of_cons in Hin as [->|Hin]; [done|]. by apply (proj1 (Forall_forall _ _) Hl). }
      rewrite (SFltb_gap _ f g) in Hmf by done. done.
Qed.

Lemma round_int_nonneg f : 0 ≤ round_int f.
Proof.
  unfold round_int. destruct f as [| | |[] m e]; try done.
  set (n := _ / _). assert (0 ≤ n) by (apply Z.div_pos; [|apply Z.pow_pos_nonneg]; lia).
  destruct (_ ?= _); [destruct (Z.even n)|..]; lia.
Qed.

(** A percentile is one of the latencies. *)
Lemma pct_elem r p : latencies_ms r ≠ [] → _pct r p ∈ latencies_ms r.
Proof.
  intros Hne. unfold _pct. set (ordered := sorted_by not_above (latencies_ms r)).
  assert (ordered ≡ₚ latencies_ms r) as Hp by apply sorted_by_perm.
  destruct (latencies_ms r) as [|l ls] eqn:E; [done|].
  assert (0 < Z.of_nat (length ordered)) by (rewrite Hp; simpl; lia).
  cbv zeta. set (idx := Z.min _ _).
  assert (0 ≤ idx < Z.of_nat (length ordered)) as Hi.
  { unfold idx. pose proof (round_int_nonneg (float_mul (float_div (float_of_int p) (float_of_int 100))
      (float_of_int (Z.of_nat (length ordered) - 1)))). lia. }
  destruct (lookup_lt_is_Some_2 ordered (Z.to_nat idx)) as [x Hx]; [lia|].
  rewrite Hx. simpl. rewrite <- Hp. by apply list_elem_of_lookup_2 in Hx.
Qed.

(** ** Facilitators *)

Lemma mod_in_range (i n : Z) : 0 < n → 0 ≤ i mod n < n.
Proof. apply Z.mod_pos_bound. Qed.

(** A pool always finds its worker. *)
Lemma pool_call_runs {W} (workers : list (Z → prog W unit)) i :
  workers ≠ [] → ∃ worker, workers !! Z.to_nat (i mod Z.of_nat (length workers)) = Some worker
    ∧ pool_call workers i = worker i.
Proof.
  intros Hne. assert (0 < Z.of_nat (length workers)) as Hl by (destruct workers; [done|simpl; lia]).
  pose proof (mod_in_range i _ Hl).
  destruct (lookup_lt_is_Some_2 workers (Z.to_nat (i mod Z.of_nat (length workers)))) as [w Hw]; [lia|].
  exists w. split; [done|]. unfold pool_call. by rewrite Hw.
Qed.

(** * Properties *)

(** C26: every iteration runs, exactly once.  A profile whose stages are well formed
    ends with a result, whatever its tasks raise short of leaving the interpreter and
    in whatever order its pools run them: the tasks that ran are exactly the
    iterations from zero to the sum of the stages, each once, on the state they
    share; every stage has its result, in which no attempt is lost and the samples
    are the first failed iterations, in order, with bounded messages. *)
Theorem every_iteration_runs_once {W} class_name schedule (task : Z → prog W unit) stages m (s : state W) :
  never_exits task → stages ≠ [] → 0 ≤ m → Forall (stage_ok schedule) stages →
  ∃ rs s' order, run_staged_profile class_name schedule task stages m s = (Ok rs, s')
    ∧ order ≡ₚ range (sum (iterations <$> stages))
    ∧ world s' = run_world task order (world s)
    ∧ rs.*1 = stages ∧ staged_total rs = sum (iterations <$> stages)
    ∧ 0 ≤ staged_errors rs ≤ staged_total rs
    ∧ Forall (λ p, accounts (iterations p.1) m p.2) rs.
Proof.
  intros Hn Hne Hm Hall. unfold run_staged_profile. destruct stages as [|stage stages]; [done|].
  destruct (run_stages_run class_name schedule task m _ 0 s Hn Hm Hall)
    as (rs & s' & order & Hr & Hst & Hacc & Ho & Hw).
  exists rs, s', order. split; [exact Hr|]. split.
  { rewrite Ho. rewrite (list_fmap_ext (Z.add 0) id); [by rewrite list_fmap_id|]. intros; simpl; lia. }
  split; [done|]. split; [done|]. rewrite <- Hst. clear -Hacc. split.
  - unfold staged_total. induction Hacc as [|[st r] rs [Ht _ _ _] _ IH]; [done|].
    csimpl. unfold sum in *. simpl in *. lia.
  - split; [|done]. unfold staged_total, staged_errors.
    induction Hacc as [|[st r] rs [Ht Hl Hok (fl & _ & He & _)] _ IH]; [done|].
    csimpl. unfold sum in *. simpl in *. lia.
Qed.

(** Latency figures are observations.  When any call succeeded, each percentile and
    the maximum is one of the measured latencies, and no latency is above the
    maximum. *)
Theorem percentiles_are_observed r :
  latencies_ms r ≠ [] → Forall is_number (latencies_ms r) →
  p50_ms r ∈ latencies_ms r ∧ p95_ms r ∈ latencies_ms r ∧ max_ms r ∈ latencies_ms r
  ∧ ∀ l, l ∈ latencies_ms r → SFltb (max_ms r) l = false.
Proof.
  intros Hne Hall. split_and!; [by apply pct_elem|by apply pct_elem|..]; unfold max_ms;
    destruct (latencies_ms r) as [|l ls]; try done; destruct (fold_max ls l Hall) as [Hin Hmax]; [done|].
  by apply Forall_forall.
Qed.

(** The standard profile is one that runs: nine times its scale, in named stages. *)
Theorem standard_profile_runs scale peak stages :
  standard_profile scale peak = Ok stages →
  Forall (λ stage, strip (name stage) ≠ "" ∧ 0 < iterations stage ∧ 0 < concurrency stage) stages
  ∧ sum (iterations <$> stages) = 9 * scale
  ∧ (name <$> last stages) = Some "recovery".
Proof.
  unfold standard_profile. intros H. inv_res. bool_facts. split_and!; [|simpl; lia|done].
  repeat constructor; simpl; try done; lia.
Qed.

(** ** A concrete profile *)

(** A task that logs its iteration and fails on the third. *)
Definition logging_task (i : Z) : prog (list Z) unit := λ log,
  (if i =? 2 then raise RpcError "node  is	busy" else Ok tt, log ++ [i]).
Definition sample_stages : list LoadStage := [
  {| name := "ramp"; iterations := 2; concurrency := 1 |};
  {| name := "spike"; iterations := 3; concurrency := 4 |};
  {| name := "recovery"; iterations := 1; concurrency := 1 |}].
Definition sample_schedule (stage : LoadStage) : list Z :=
  if (name stage =? "spike")%string then [2; 0; 1] else range (iterations stage).
Definition sample_state : state (list Z) := {| world := []; clock := [] |}.

Lemma logging_never_exits : never_exits logging_task.
Proof. intros i w e. unfold logging_task. destruct (i =? 2); simpl; [by intros [= <-]|done]. Qed.

Lemma every_iteration_runs_once_witness :
  ∃ rs s', run_staged_profile (λ _, "RpcError") sample_schedule logging_task sample_stages 10 sample_state = (Ok rs, s')
    ∧ world s' ≡ₚ [0; 1; 2; 3; 4; 5] ∧ staged_total rs = 6
    ∧ Forall (λ p, accounts (iterations p.1) 10 p.2) rs.
Proof.
  destruct (every_iteration_runs_once (λ _, "RpcError") sample_schedule logging_task sample_stages 10 sample_state)
    as (rs & s' & order & Hr & Ho & Hw & _ & Ht & _ & Hacc).
  - exact logging_never_exits.
  - discriminate.
  - discriminate.
  - repeat constructor; try discriminate. vm_compute. apply (Permutation_app_comm [2] [0; 1]).
  - exists rs, s'. split; [exact Hr|]. split_and!; [|exact Ht|exact Hacc].
    assert (∀ l w, run_world logging_task l w = w ++ l) as Hlog.
    { induction l as [|i l IH]; intros w; [by rewrite app_nil_r|].
      change (run_world logging_task l (w ++ [i]) = w ++ i :: l). rewrite IH. by rewrite <- app_assoc. }
    rewrite Hw, Hlog. exact Ho.
Defined.

Definition sample_result : LoadResult := {|
  total := 4; errors := 1; latencies_ms := [float_of_int 3; float_of_int 1; float_of_int 2];
  duration_s := float_of_int 1; error_samples := [] |}.
Lemma percentiles_are_observed_witness :
  p50_ms sample_result ∈ latencies_ms sample_result ∧ p50_ms sample_result = float_of_int 2
  ∧ SFltb (max_ms sample_result) (float_of_int 3) = false.
Proof.
  destruct (percentiles_are_observed sample_result) as (H50 & _ & _ & Hmax).
  - discriminate.
  - repeat constructor; discriminate.
  - split; [exact H50|]. split; [vm_compute; reflexivity|]. apply Hmax. left.
Defined.
