(* ===== verification/Rails.v ===== *)
(** * Attested rails ([psv/rails.py], configuration)

    The reviewed metadata of a rail, its validation on construction, the table
    of known rails and the lookup.  The theorems: every entry of the table passes
    its own validation, and a calibrated mainnet rail always carries a pinned
    block, code hash and, behind a proxy, a pinned implementation.

    A frozen dataclass with [__post_init__] is a record and a [check_] function
    that returns the record or raises.  The one label outside Latin-1 is written
    by the bytes of its UTF-8 encoding. *)

From S2P Require Import Prelude PyStr PyText PyVal PyJson Anvil.
Local Open Scope Z_scope.

Definition _PROXY_KINDS : list string :=
  ["none"; "fiat-token-proxy"; "vendor-proxy"; "erc1967-proxy"; "unknown"].

Definition str_in (s : string) (l : list string) : bool := existsb (String.eqb s) l.

Record FinalityPolicy := { block_tag : string; minimum_confirmations : Z }.

Definition check_finality (p : FinalityPolicy) : res FinalityPolicy :=
  raise_if (negb (str_in (block_tag p) ["latest"; "safe"; "finalized"])) ValueError
    "unsupported finality block tag" ;;
  raise_if (minimum_confirmations p <? 1) ValueError "minimum_confirmations must be positive" ;;
  Ok p.

Record RailAttestation := {
  version : string;
  reviewed_on : string;
  authoritative_sources : list string;
  interface : string;
  network_class : string;
  proxy_kind : string;
  expected_decimals : Z;
  domain_name : option string;
  domain_version : option string;
  reviewed_block_number : option Z;
  reviewed_block_hash : option string;
  implementation_address : option string;
  expected_code_sha256 : option string;
  proxy_implementation_slot : option string;
  implementation_code_sha256 : option string;
  calibrated : bool
}.

Definition is_none {A} (o : option A) : bool := match o with None => true | Some _ => false end.

(** [x is not None and fullmatch(x) is None] *)
Definition set_and_not (p : string → bool) (o : option string) : bool :=
  match o with Some s => negb (p s) | None => false end.

Definition check_attestation (a : RailAttestation) : res RailAttestation :=
  raise_if ((version a =? "")%string || match authoritative_sources a with [] => true | _ => false end)
    ValueError "rail attestation needs a version and authoritative source" ;;
  raise_if (negb (interface a =? "eip3009")%string) ValueError
    "only the attested eip3009 interface is supported" ;;
  raise_if (negb (str_in (network_class a) ["local"; "testnet"; "mainnet"])) ValueError
    "invalid network classification" ;;
  raise_if (negb (str_in (proxy_kind a) _PROXY_KINDS)) ValueError "unknown proxy_kind" ;;
  raise_if (negb ((0 <=? expected_decimals a) && (expected_decimals a <=? 36))) ValueError
    "attested decimals must be within [0, 36]" ;;
  raise_if (negb (Bool.eqb (is_none (reviewed_block_number a)) (is_none (reviewed_block_hash a))))
    ValueError "reviewed block number/hash must be set together" ;;
  raise_if (match reviewed_block_number a with Some n => n <? 0 | None => false end) ValueError
    "reviewed block number cannot be negative" ;;
  raise_if (set_and_not (re_0xhex 64) (reviewed_block_hash a)) ValueError
    "reviewed_block_hash must be an exact hash" ;;
  raise_if (set_and_not re_sha256 (expected_code_sha256 a)) ValueError
    "expected_code_sha256 must be lowercase SHA-256 hex" ;;
  raise_if (set_and_not (re_0xhex 40) (implementation_address a)) ValueError
    "implementation_address must be an exact EVM address" ;;
  raise_if (set_and_not (re_0xhex 64) (proxy_implementation_slot a)) ValueError
    "proxy_implementation_slot must be an exact bytes32 slot" ;;
  raise_if (set_and_not re_sha256 (implementation_code_sha256 a)) ValueError
    "implementation_code_sha256 must be lowercase SHA-256 hex" ;;
  raise_if ((network_class a =? "mainnet")%string && calibrated a
            && (is_none (reviewed_block_number a) || is_none (expected_code_sha256 a)
                || (negb (proxy_kind a =? "none")%string
                    && (is_none (implementation_address a)
                        || is_none (proxy_implementation_slot a)
                        || is_none (implementation_code_sha256 a)))))
    ValueError "calibrated mainnet rails require pinned code/proxy identity" ;;
  Ok a.

Record RailConfig := {
  key : string;
  label : string;
  rail_chain_id : Z;
  token_address : string;
  decimals : Z;
  token_name : option string;
  token_version : option string;
  finality : FinalityPolicy;
  attestation : RailAttestation;
  signing_enabled : bool
}.

Definition check_rail (r : RailConfig) : res RailConfig :=
  raise_if (rail_chain_id r <=? 0) ValueError "rail chain_id must be positive" ;;
  raise_if (negb (re_0xhex 40 (token_address r))) ValueError
    "rail token_address must be an exact EVM address" ;;
  raise_if (negb ((0 <=? decimals r) && (decimals r <=? 36))) ValueError
    "rail decimals must be within [0, 36]" ;;
  raise_if (signing_enabled r) ValueError "signing is disabled for every reconciliation rail" ;;
  raise_if (negb (expected_decimals (attestation r) =? decimals r)) ValueError
    "rail decimals differ from the reviewed attestation" ;;
  raise_if (negb (bool_decide (domain_name (attestation r) = token_name r))
            || negb (bool_decide (domain_version (attestation r) = token_version r))) ValueError
    "rail domain differs from the reviewed attestation" ;;
  Ok r.

Definition make_finality (tag : string) (confirmations : Z) : res FinalityPolicy :=
  check_finality {| block_tag := tag; minimum_confirmations := confirmations |}.

(** The nine positional arguments of a rail; [signing_enabled] has its default. *)
Definition make_rail (key label : string) (chain_id : Z) (token_address : string) (decimals : Z)
    (token_name token_version : option string) (finality : FinalityPolicy)
    (attestation : RailAttestation) : res RailConfig :=
  check_rail {| key := key; label := label; rail_chain_id := chain_id;
    token_address := token_address; decimals := decimals; token_name := token_name;
    token_version := token_version; finality := finality; attestation := attestation;
    signing_enabled := false |}.

Definition _REVIEWED : string := "2026-07-18".
Definition _REVIEWED_2026_08_13 : string := "2026-08-13".
Definition _ATTESTATION_VERSION : string := "2026-07-18.2".
Definition _ATTESTATION_VERSION_2026_08_13 : string := "2026-08-13.1".
Definition _REVIEWED_2026_10_07 : string := "2026-10-07".
Definition _ATTESTATION_VERSION_2026_10_07 : string := "2026-10-07.1".
Definition _CIRCLE_USDC : string :=
  "https://developers.circle.com/stablecoins/usdc-contract-addresses".
Definition _CIRCLE_EURC : string :=
  "https://developers.circle.com/stablecoins/eurc-contract-addresses".
Definition _JPYC_NOTICE : string := "https://corporate.jpyc.co.jp/news/posts/Notice".
Definition _EIP_3009 : string := "https://eips.ethereum.org/EIPS/eip-3009".
Definition _BASE_RPC : string := "https://mainnet.base.org".
Definition _POLYGON_RPC : string := "https://polygon.drpc.org".
Definition _X402_DEFAULT_ASSETS : string :=
  "https://github.com/x402-foundation/x402/blob/main/DEFAULT_ASSETS.md".
Definition _CELO_RPC : string := "https://forno.celo.org".
Definition _CELO_SEPOLIA_RPC : string := "https://forno.celo-sepolia.celo-testnet.org".
Definition _BASE_SEPOLIA_RPC : string := "https://sepolia.base.org".
Definition _X402_DEFAULT_ASSETS_BASE_SEPOLIA : string :=
  "https://github.com/x402-foundation/x402/blob/cb0ec5bc/python/x402/mechanisms/evm/default_assets.py".
Definition _FLARE_RPC : string := "https://flare-api.flare.network/ext/C/rpc".
Definition _CIRCLE_PROXY_SLOT : string :=
  "0x7050c9e0f4ca769c69bd3a8ef740bc37934f8e2c036e5a723fd8ee048ed3f8c3".
Definition _ERC1967_PROXY_SLOT : string :=
  "0x360894a13ba1a3210667c828492db98dca3e2076cc3735a920a3ca505d382bbc".

(** [date] values are their ISO text.  The arguments follow the source's keyword
    order, with [None] for a keyword left at its default. *)
Definition _attestation (sources : list string) (network_class proxy_kind : string) (decimals : Z)
    (domain_name domain_version : option string) (calibrated : option bool)
    (reviewed_block_number : option Z) (reviewed_block_hash expected_code_sha256
     implementation_address proxy_implementation_slot implementation_code_sha256 : option string)
    (reviewed_on version : string) : res RailAttestation :=
  check_attestation {|
    version := version; reviewed_on := reviewed_on; authoritative_sources := sources;
    interface := "eip3009"; network_class := network_class; proxy_kind := proxy_kind;
    expected_decimals := decimals; domain_name := domain_name; domain_version := domain_version;
    reviewed_block_number := reviewed_block_number; reviewed_block_hash := reviewed_block_hash;
    implementation_address := implementation_address; expected_code_sha256 := expected_code_sha256;
    proxy_implementation_slot := proxy_implementation_slot;
    implementation_code_sha256 := implementation_code_sha256;
    calibrated := default (network_class =? "local")%string calibrated |}.

Definition rail_mock_anvil : res RailConfig :=
  finality ← make_finality "latest" 1;
  attestation ← _attestation [_EIP_3009] "local" "none" 6
    (Some "USDC") (Some "2") None None
    None None None None None
    _REVIEWED _ATTESTATION_VERSION;
  make_rail "mock-anvil" "Local MockUSDC (Anvil)" 84532
    "0x5FbDB2315678afecb367f032d93F642f64180aa3" 6 (Some "USDC") (Some "2")
    finality attestation.

Definition rail_usdc_base : res RailConfig :=
  finality ← make_finality "finalized" 1;
  attestation ← _attestation [_CIRCLE_USDC; _EIP_3009; _BASE_RPC] "mainnet" "fiat-token-proxy" 6
    (Some "USD Coin") (Some "2") (Some true) (Some 48783151)
    (Some "0x958d7bd04181a2d5b4ae239e5ecdf8944fe46fe25cedac2bb961a081aa822edb")
    (Some "98d785fcb1bf847f287adc2310759fd94cc13e754b974bc72131382e8266f607")
    (Some "0x2ce6311ddae708829bc0784c967b7d77d19fd779")
    (Some "0x7050c9e0f4ca769c69bd3a8ef740bc37934f8e2c036e5a723fd8ee048ed3f8c3")
    (Some "dcb3b7ca28662970d0a7cdad420e529fb837d7bf8a246b1a680c20e153db79e8")
    _REVIEWED _ATTESTATION_VERSION;
  make_rail "usdc-base" "USDC on Base" 8453
    "0x833589fCD6eDb6E08f4c7C32D4f71b54bdA02913" 6 (Some "USD Coin") (Some "2")
    finality attestation.

Definition rail_usdc_polygon : res RailConfig :=
  finality ← make_finality "finalized" 1;
  attestation ← _attestation [_CIRCLE_USDC; _EIP_3009; _POLYGON_RPC] "mainnet" "fiat-token-proxy" 6
    (Some "USD Coin") (Some "2") (Some true) (Some 91954134)
    (Some "0x643d0996cf9b2c8a345330946878e5f701a4bfbb825dab4b5b4337432012ce2c")
    (Some "dc2898fcd8071dd801212e8f34ce32f23aba05aadbad71ff84ef7faa2909a29c")
    (Some "0x235ae97b28466db30469b89a9fe4cff0659f82cb")
    (Some "0x7050c9e0f4ca769c69bd3a8ef740bc37934f8e2c036e5a723fd8ee048ed3f8c3")
    (Some "ccc73d219a0d3f7ea8a2bafce3351a9ae1d394dd9ab4c35497865541505fedd9")
    _REVIEWED_2026_08_13 _ATTESTATION_VERSION_2026_08_13;
  make_rail "usdc-polygon" "USDC on Polygon" 137
    "0x3c499c542cEF5E3811e1192ce70d8cC03d5c3359" 6 (Some "USD Coin") (Some "2")
    finality attestation.

Definition rail_jpyc_polygon : res RailConfig :=
  finality ← make_finality "finalized" 1;
  attestation ← _attestation [_JPYC_NOTICE; _EIP_3009] "mainnet" "vendor-proxy" 18
    (Some "JPY Coin") (Some "1") None None
    None None None None None
    _REVIEWED _ATTESTATION_VERSION;
  make_rail "jpyc-polygon" "JPYC on Polygon" 137
    "0xe7c3d8c9a439fede00d2600032d5db0be71c3c29" 18 (Some "JPY Coin") (Some "1")
    finality attestation.

Definition rail_eurc_base : res RailConfig :=
  finality ← make_finality "finalized" 1;
  attestation ← _attestation [_CIRCLE_EURC; _EIP_3009; _BASE_RPC] "mainnet" "fiat-token-proxy" 6
    None None (Some true) (Some 48783151)
    (Some "0x958d7bd04181a2d5b4ae239e5ecdf8944fe46fe25cedac2bb961a081aa822edb")
    (Some "c9cf7c3f11c4d3d818801b5a965cea3bae6ff3b9b923242b91a9b4e5888e7835")
    (Some "0x2ce6311ddae708829bc0784c967b7d77d19fd779")
    (Some "0x7050c9e0f4ca769c69bd3a8ef740bc37934f8e2c036e5a723fd8ee048ed3f8c3")
    (Some "dcb3b7ca28662970d0a7cdad420e529fb837d7bf8a246b1a680c20e153db79e8")
    _REVIEWED _ATTESTATION_VERSION;
  make_rail "eurc-base" "EURC on Base" 8453
    "0x60a3e35cc302bfa44cb288bc5a4f316fdb1adb42" 6 None None
    finality attestation.

Definition rail_usdc_celo : res RailConfig :=
  finality ← make_finality "finalized" 1;
  attestation ← _attestation [_CIRCLE_USDC; _EIP_3009; _X402_DEFAULT_ASSETS; _CELO_RPC]
    "mainnet" "fiat-token-proxy" 6
    (Some "USDC") (Some "2") (Some true) (Some 74742375)
    (Some "0x0e5b9dcd8f843fc8ddaa41bc578b82a0eb9149e1570eaeda534c6c7809b8b939")
    (Some "c8dd45e79870cb5e3d81e19f704c0fb54809c98f5be4243c552dc34a3ca7b6e4")
    (Some "0xda06d4e3f59fe2c8ff3077a9d50d5be5e231becd")
    (Some _CIRCLE_PROXY_SLOT)
    (Some "d13bec344a0650de736a9bfce03cd0930d5c117764f61ea3ed2357f70e817a14")
    _REVIEWED_2026_08_13 _ATTESTATION_VERSION_2026_08_13;
  make_rail "usdc-celo" "USDC on Celo" 42220
    "0xcebA9300f2b948710d2653dD7B07f33A8B32118C" 6 (Some "USDC") (Some "2")
    finality attestation.

Definition rail_usdc_celo_sepolia : res RailConfig :=
  finality ← make_finality "finalized" 1;
  attestation ← _attestation [_CIRCLE_USDC; _EIP_3009; _X402_DEFAULT_ASSETS; _CELO_SEPOLIA_RPC]
    "testnet" "fiat-token-proxy" 6
    (Some "USDC") (Some "2") (Some true) (Some 33358890)
    (Some "0x5982a282bf48188354af6583ea268bcafd0297c9b7ea30fa95e49fd57a7ccc9d")
    (Some "c9cf7c3f11c4d3d818801b5a965cea3bae6ff3b9b923242b91a9b4e5888e7835")
    (Some "0x18b2bf98579267d4b108c5d82f816710a17efbb6")
    (Some _CIRCLE_PROXY_SLOT)
    (Some "a0c17ab2e0a8e1e606fed223171bdf66dd58e8fa571b15e6af1bea4e640515d8")
    _REVIEWED_2026_08_13 _ATTESTATION_VERSION_2026_08_13;
  make_rail "usdc-celo-sepolia" "USDC on Celo Sepolia" 11142220
    "0x01C5C0122039549AD1493B8220cABEdD739BC44E" 6 (Some "USDC") (Some "2")
    finality attestation.

Definition rail_usdc_base_sepolia : res RailConfig :=
  finality ← make_finality "finalized" 1;
  attestation ← _attestation [_CIRCLE_USDC; _EIP_3009; _X402_DEFAULT_ASSETS_BASE_SEPOLIA;
    _BASE_SEPOLIA_RPC] "testnet" "fiat-token-proxy" 6
    (Some "USDC") (Some "2") (Some true) (Some 47801036)
    (Some "0x70b0837b92f7f71dc81194899b23c18ee6332c74464b8da42c359a9a4ba70266")
    (Some "e878b99fc0c17354c86c7edeb999c70c18cfd925abb0958496f027cbad996d28")
    (Some "0xd74cc5d436923b8ba2c179b4bca2841d8a52c5b5")
    (Some _CIRCLE_PROXY_SLOT)
    (Some "9e410c49b2c8f98e4924d5cab8f07e734625c650c940a7ed600b376f010eba77")
    _REVIEWED_2026_10_07 _ATTESTATION_VERSION_2026_10_07;
  make_rail "usdc-base-sepolia" "USDC on Base Sepolia" 84532
    "0x036CbD53842c5426634e7929541eC2318f3dCF7e" 6 (Some "USDC") (Some "2")
    finality attestation.

Definition rail_usdt0_flare : res RailConfig :=
  finality ← make_finality "finalized" 1;
  attestation ← _attestation [_EIP_3009; _X402_DEFAULT_ASSETS; _FLARE_RPC] "mainnet" "erc1967-proxy" 6
    (Some "USD₮0") (Some "1") (Some true) (Some 67327446)
    (Some "0xeed7aaaa1f2998e09cd4e5a3da1c4226217a1ef84aa5fe877a29bd54aa6257cd")
    (Some "e518057ee9772b6d5ad104f0c0cbae96d42e5543dcaaff3b39257089ab5fe699")
    (Some "0x779ded0c9e1022225f8e0630b35a9b54be713736")
    (Some _ERC1967_PROXY_SLOT)
    (Some "6ed7b35f916bd991124be4fbfccfaa693f61f7a74800eea445fa8727463d6f44")
    _REVIEWED_2026_08_13 _ATTESTATION_VERSION_2026_08_13;
  make_rail "usdt0-flare" "USD₮0 on Flare" 14
    "0xe7cd86e13AC4309349F30B3435a9d337750fC82D" 6 (Some "USD₮0") (Some "1")
    finality attestation.

Definition KNOWN_RAILS : res (list (string * RailConfig)) :=
  map_res (λ kr, rail ← kr.2; Ok (kr.1, rail)) [
    ("mock-anvil", rail_mock_anvil);
    ("usdc-base", rail_usdc_base);
    ("usdc-polygon", rail_usdc_polygon);
    ("jpyc-polygon", rail_jpyc_polygon);
    ("eurc-base", rail_eurc_base);
    ("usdc-celo", rail_usdc_celo);
    ("usdc-celo-sepolia", rail_usdc_celo_sepolia);
    ("usdc-base-sepolia", rail_usdc_base_sepolia);
    ("usdt0-flare", rail_usdt0_flare)].

Definition get_rail (k : string) : res RailConfig :=
  rails ← KNOWN_RAILS;
  or_raise (od_get k rails) KeyError
    ("unknown rail " +:+ str_repr k +:+ "; known: "
     +:+ join ", " (sorted_by String.leb (rails.*1))).

(** * Specification *)

(** A pinned identity: a reviewed block, the code hash and, behind a proxy, the
    implementation's slot, address and code hash, all well formed. *)
Definition pinned (a : RailAttestation) : Prop :=
  (∃ n h, reviewed_block_number a = Some n ∧ 0 ≤ n
          ∧ reviewed_block_hash a = Some h ∧ re_0xhex 64 h = true)
  ∧ (∃ h, expected_code_sha256 a = Some h ∧ re_sha256 h = true)
  ∧ (proxy_kind a ≠ "none" →
      ∃ addr slot h, implementation_address a = Some addr ∧ re_0xhex 40 addr = true
        ∧ proxy_implementation_slot a = Some slot ∧ re_0xhex 64 slot = true
        ∧ implementation_code_sha256 a = Some h ∧ re_sha256 h = true).

Record rail_wf (r : RailConfig) : Prop := {
  rail_read_only : signing_enabled r = false;
  rail_chain_pos : 0 < rail_chain_id r;
  rail_token : re_0xhex 40 (token_address r) = true;
  rail_depth : 1 ≤ minimum_confirmations (finality r);
  rail_tag : block_tag (finality r) ∈ ["latest"; "safe"; "finalized"];
  rail_interface : interface (attestation r) = "eip3009";
  rail_decimals : expected_decimals (attestation r) = decimals r;
  rail_domain : domain_name (attestation r) = token_name r
                ∧ domain_version (attestation r) = token_version r;
  rail_pinned : network_class (attestation r) = "mainnet" → calibrated (attestation r) = true →
                pinned (attestation r)
}.

(** * Lemmas *)

Lemma str_in_elem s l : str_in s l = true ↔ s ∈ l.
Proof.
  unfold str_in. rewrite existsb_exists. setoid_rewrite String.eqb_eq.
  setoid_rewrite <- list_elem_of_In. split; [by intros (? & ? & ->)|eauto].
Qed.

Lemma set_and_not_ok p o s : set_and_not p o = false → o = Some s → p s = true.
Proof. intros H ->. simpl in H. by apply negb_false_iff in H. Qed.

Lemma check_attestation_ok a b :
  check_attestation a = Ok b →
  b = a ∧ interface a = "eip3009"
  ∧ (network_class a = "mainnet" → calibrated a = true → pinned a).
Proof.
  unfold check_attestation. intros H. inv_res. bool_facts. split; [done|]. split; [done|].
  intros Hnet Hcal. rewrite Hnet, Hcal in *. simpl in *.
  repeat match goal with H : _ || _ = false |- _ => apply orb_false_iff in H as [??] end.
  destruct (reviewed_block_number b) as [n|] eqn:En; [|done].
  destruct (reviewed_block_hash b) as [h|] eqn:Eh; [|done].
  destruct (expected_code_sha256 b) as [c|] eqn:Ec; [|done].
  unfold set_and_not in *. simpl in *. bool_facts. split; [eauto 10|]. split; [eauto|].
  intros Hp. destruct (String.eqb_spec (proxy_kind b) "none"); [done|]. simpl in *.
  destruct (implementation_address b) as [ad|] eqn:Ead, (proxy_implementation_slot b) as [sl|] eqn:Esl,
    (implementation_code_sha256 b) as [ih|] eqn:Eih; try done. simpl in *. bool_facts.
  exists ad, sl, ih. done.
Qed.

Lemma check_rail_ok r r' :
  check_rail r = Ok r' →
  r' = r ∧ 0 < rail_chain_id r ∧ re_0xhex 40 (token_address r) = true
  ∧ signing_enabled r = false ∧ expected_decimals (attestation r) = decimals r
  ∧ domain_name (attestation r) = token_name r ∧ domain_version (attestation r) = token_version r.
Proof. unfold check_rail. intros H. inv_res. bool_facts. done. Qed.

(** A rail built by the constructors is well formed. *)
Lemma constructed_rail_wf f a r r' f' a' :
  check_finality f = Ok f' → check_attestation a = Ok a' →
  finality r = f' → attestation r = a' → check_rail r = Ok r' → rail_wf r'.
Proof.
  intros Hf (-> & Hi & Hp)%check_attestation_ok <- Ea Hr. subst a.
  apply check_rail_ok in Hr as (-> & ? & ? & ? & ? & ? & ?).
  unfold check_finality in Hf. inv_res. bool_facts. subst.
  split; try done. by apply str_in_elem.
Qed.

Definition known_keys : list string :=
  ["mock-anvil"; "usdc-base"; "usdc-polygon"; "jpyc-polygon"; "eurc-base"; "usdc-celo";
   "usdc-celo-sepolia"; "usdc-base-sepolia"; "usdt0-flare"].

Lemma known_rails_built :
  ∃ rails, KNOWN_RAILS = Ok rails ∧ rails.*1 = known_keys
           ∧ Forall (λ kr, key kr.2 = kr.1 ∧ check_finality (finality kr.2) = Ok (finality kr.2)
                ∧ check_attestation (attestation kr.2) = Ok (attestation kr.2)
                ∧ check_rail kr.2 = Ok kr.2) rails.
Proof.
  eexists. split; [vm_compute; reflexivity|]. split; [vm_compute; reflexivity|].
  repeat (apply Forall_cons; split; [split_and!; vm_compute; reflexivity|]). constructor.
Qed.

(** * Properties *)

(** The table of rails is sound: [get_rail] answers for exactly the known
    keys, with the rail of that key, and every such rail is read-only, agrees
    with its attestation, and if it is a calibrated mainnet rail carries a fully
    pinned code and proxy identity; any other key raises [KeyError]. *)
Theorem get_rail_sound k :
  match get_rail k with
  | Ok r => k ∈ known_keys ∧ key r = k ∧ rail_wf r
  | Raise e => k ∉ known_keys ∧ exn_cls e = KeyError
  end.
Proof.
  destruct known_rails_built as (rails & E & Hkeys & Hall). unfold get_rail. rewrite E. simpl.
  destruct (od_get k rails) as [r|] eqn:Eg; simpl.
  - apply od_get_elem in Eg. rewrite Forall_forall in Hall.
    destruct (Hall _ Eg) as (Hk & Hf & Ha & Hr). split_and!; [|done|].
    + rewrite <- Hkeys. apply list_elem_of_fmap. by exists (k, r).
    + by eapply constructed_rail_wf.
  - split; [|done]. rewrite <- Hkeys. by apply od_get_none.
Qed.
