(* ===== verification/RailsLive.v ===== *)
(** * Live rail checks ([psv/rails.py], observation)

    The drift check of a rail and the reconciliation of one settlement from a
    pinned snapshot.  The theorems: a reconciliation that returns has proved its
    settlement (chain, depth, canonical block, code, nonce, and balance changes
    equal to the selected transfer), its verdict is the detector's on that truth,
    both operations send read-only requests, an uncalibrated mainnet rail is
    refused after one request, and every exception is one the command line
    catches.

    [reconcile_live] is one method in the source; here it is the sequence of its
    stages, each a definition over the same lines. *)

From S2P Require Import Prelude PyStr PyVal Anvil Chain Divergence PySha256 Rails.
From S2P Require Reconciliation.
Local Open Scope Z_scope.

Notation OnChainCredit := Reconciliation.OnChainCredit.

Record ChainEvidence := {
  ev_chain_id : Z;
  finality_block_number : Z;
  finality_block_hash : string;
  finality_block_tag : string;
  ev_confirmations : Z;
  settlement_block_number : Z;
  settlement_block_hash : string;
  ev_transaction_hash : string;
  receipt_status : Z;
  ev_log_index : option Z;
  authorization_log_index : option Z;
  ev_token_address : string;
  token_code_sha256 : string;
  ev_implementation_address : option string;
  ev_implementation_code_sha256 : option string;
  rail_attestation_version : string;
  ev_payer : string;
  ev_payee : string;
  ev_nonce : string;
  event_value : option Z;
  ev_required_amount : Z;
  received_amount : Z;
  ev_payer_balance_before : Z;
  ev_payer_balance_after : Z;
  ev_payee_balance_before : Z;
  ev_payee_balance_after : Z;
  ev_nonce_consumed : bool;
  ev_removed : bool
}.

Record LiveReconciliation := { divergence : Divergence; evidence : ChainEvidence }.

Record RailDriftCheck := {
  rail_key : string;
  drift_chain_id : Z;
  drift_block_number : Z;
  drift_block_hash : string;
  code_sha256 : string;
  drift_expected_code_sha256 : option string;
  drift_implementation_address : option string;
  drift_implementation_code_sha256 : option string;
  attestation_version : string;
  drift_calibrated : bool;
  matches : bool;
  drift_reason : string
}.

(** [RailDriftCheck.as_dict] *)
Definition drift_as_dict (d : RailDriftCheck) : pydict :=
  let opt o := match o with Some s => VStr s | None => VNone end in dict_of [
  ("railKey", VStr (rail_key d));
  ("chainId", VInt (drift_chain_id d));
  ("blockNumber", VInt (drift_block_number d));
  ("blockHash", VStr (drift_block_hash d));
  ("codeSha256", VStr (code_sha256 d));
  ("expectedCodeSha256", opt (drift_expected_code_sha256 d));
  ("implementationAddress", opt (drift_implementation_address d));
  ("implementationCodeSha256", opt (drift_implementation_code_sha256 d));
  ("attestationVersion", VStr (attestation_version d));
  ("calibrated", VBool (drift_calibrated d));
  ("matches", VBool (matches d));
  ("reason", VStr (drift_reason d));
  ("readOnly", VBool true)].

(** The token handle; runtime attestation occurs on use. *)
Definition token_for_rail (rail : RailConfig) : res TokenView := make_token (token_address rail).

Definition _quantity (value : pyval) (what : string) : res Z :=
  s ← or_raise (as_str value) ChainEvidenceError (what +:+ " is not a canonical hex quantity");
  raise_if (negb (re_quantity s)) ChainEvidenceError (what +:+ " is not a canonical hex quantity") ;;
  or_raise (py_int16 s) ValueError "invalid literal for int()".

Definition _exact_hash (value : pyval) (what : string) : res string :=
  s ← or_raise (as_str value) ChainEvidenceError (what +:+ " is not an exact 32-byte hash");
  raise_if (negb (re_0xhex 64 s)) ChainEvidenceError (what +:+ " is not an exact 32-byte hash") ;;
  Ok (lower s).

Definition _block_identity (block : pydict) (what : string) : res (Z * string) :=
  number ← _quantity (dict_get "number" block) (what +:+ " number");
  hash ← _exact_hash (dict_get "hash" block) (what +:+ " hash");
  Ok (number, hash).

Definition _code_fingerprint (code : string) : res string :=
  raise_if (negb (startswith "0x" code) || (code =? "0x")%string) ChainEvidenceError
    "rail token has no deployed runtime bytecode" ;;
  raw ← or_raise (fromhex (str_drop 2 code)) ChainEvidenceError
    "rail token returned malformed runtime bytecode";
  raise_if (match raw with [] => true | _ => false end) ChainEvidenceError
    "rail token has no deployed runtime bytecode" ;;
  Ok (sha256_hex raw).

(** The log loop of [_authorization_log_index]. *)
Fixpoint authorization_matches (token : string) (topics : list string) (logs : list pyval)
    : res (list Z) :=
  match logs with
  | [] => Ok []
  | raw :: logs =>
      log ← or_raise (as_dict raw) ChainEvidenceError "receipt contains a malformed log";
      if negb (match dict_get "address" log with
               | VStr a => (lower a =? lower token)%string | _ => false end)
      then authorization_matches token topics logs
      else if negb (py_eq (dict_get "topics" log) (VList (VStr <$> topics)))
      then authorization_matches token topics logs
      else
        raise_if (negb (bool_decide (dict_get "removed" log = VBool false))) ChainEvidenceError
          "authorization evidence was removed by a reorg" ;;
        index ← _quantity (dict_get "logIndex" log) "authorization log index";
        rest ← authorization_matches token topics logs;
        Ok (index :: rest)
  end.

Definition _authorization_log_index (receipt : pydict) (token payer nonce : string) : res Z :=
  topic ← Reconciliation.topic_addr payer;
  logs ← or_raise (as_list (dict_get "logs" receipt)) ChainEvidenceError "receipt logs are missing";
  found ← authorization_matches token [TOPIC_AUTHORIZATION_USED; topic; lower nonce] logs;
  match found with
  | [index] => Ok index
  | _ => raise ChainEvidenceError "expected one exact AuthorizationUsed log"
  end.

(** The log loop of [_selected_transfer]. *)
Fixpoint logs_with_index (index : Z) (logs : list pyval) : res (list pydict) :=
  match logs with
  | [] => Ok []
  | raw :: logs =>
      log ← or_raise (as_dict raw) ChainEvidenceError "receipt contains a malformed log";
      i ← _quantity (dict_get "logIndex" log) "receipt log index";
      rest ← logs_with_index index logs;
      Ok (if i =? index then log :: rest else rest)
  end.

Definition _selected_transfer (receipt : pydict) (chain_id log_index : Z) (token : string)
    : res OnChainCredit :=
  logs ← or_raise (as_list (dict_get "logs" receipt)) ChainEvidenceError "receipt logs are missing";
  selected ← logs_with_index log_index logs;
  match selected with
  | [log] =>
      credit ← try_except (Reconciliation.decode_transfer_log log chain_id) [ReconciliationError]
                 (λ e, raise ChainEvidenceError
                         ("selected receipt log is not an exact Transfer: " +:+ exn_msg e));
      raise_if (negb (Reconciliation.asset (Reconciliation.identity credit) =? lower token)%string)
        ChainEvidenceError "selected Transfer was emitted by a different token" ;;
      Ok credit
  | _ => raise ChainEvidenceError "receipt has no unique logIndex"
  end.

(** The loop over the same-block logs: their identities. *)
Fixpoint same_block_identities (chain_id : Z) (logs : list pydict) : res (list (string * Z)) :=
  match logs with
  | [] => Ok []
  | raw :: logs =>
      observed ← try_except (Reconciliation.decode_transfer_log raw chain_id) [ReconciliationError]
                   (λ e, raise ChainEvidenceError
                           ("malformed same-block Transfer evidence: " +:+ exn_msg e));
      raise_if (Reconciliation.removed observed) ChainEvidenceError
        "same-block Transfer evidence includes a removed log" ;;
      rest ← same_block_identities chain_id logs;
      Ok ((Reconciliation.tx_hash (Reconciliation.identity observed),
           Reconciliation.log_index (Reconciliation.identity observed)) :: rest)
  end.

(** [set(identities) == {one}] *)
Definition all_equal_to (one : string * Z) (identities : list (string * Z)) : bool :=
  match identities with
  | [] => false
  | _ => forallb (λ i, bool_decide (i = one)) identities
  end.

(** The address in the implementation slot's word, if it is the attested one. *)
Definition implementation_word (word : pyval) (expected_address : string) : res string :=
  s ← or_raise (as_str word) ChainEvidenceError
    "proxy implementation slot returned a malformed word";
  raise_if (negb (re_0xhex 64 s)) ChainEvidenceError
    "proxy implementation slot returned a malformed word" ;;
  raise_if (negb (str_slice 2 26 s =? str_repeat "0" 24)%string) ChainEvidenceError
    "proxy implementation slot is not an address word" ;;
  let observed := "0x" +:+ lower (str_last 40 s) in
  raise_if (negb (observed =? lower expected_address)%string) ChainEvidenceError
    "proxy implementation drift" ;;
  Ok observed.

(** The keyword arguments of a live reconciliation. *)
Record live_request := {
  rq_payer : string;
  rq_payee : string;
  rq_nonce : string;
  rq_transaction_hash : string;
  rq_log_index : Z;
  rq_required_amount : Z;
  rq_payer_before : Z;
  rq_payee_before : Z;
  rq_believes_paid : bool
}.

Section live.
Context `{Transport W}.
Notation client := (prog (RpcClient W)).

Definition _implementation_identity (rail : RailConfig) (block_number : Z)
    : client (option string * option string) :=
  let a := attestation rail in
  if (proxy_kind a =? "none")%string then mret (None, None)
  else
    match proxy_implementation_slot a, implementation_address a, implementation_code_sha256 a with
    | Some slot, Some expected_address, Some expected_hash =>
        word ← call "eth_getStorageAt"
          [VStr (token_address rail); VStr slot; VStr (py_hex block_number)];
        observed ← lift (implementation_word word expected_address);
        code ← get_code observed (BNum block_number);
        implementation_hash ← lift (_code_fingerprint code);
        lift (raise_if (negb (implementation_hash =? expected_hash)%string) ChainEvidenceError
                "proxy implementation runtime code differs from attestation") ;;
        mret (Some observed, Some implementation_hash)
    | _, _, _ =>
        lift (raise ChainEvidenceError "proxy implementation identity is not calibrated")
    end.

Definition _verify_review_anchor (rail : RailConfig) : client unit :=
  let a := attestation rail in
  match calibrated a, reviewed_block_number a with
  | true, Some n =>
      reviewed ← get_block (BNum n) false;
      '(number, block_hash) ← lift (_block_identity reviewed "reviewed attestation block");
      lift (raise_if (negb (number =? n)
                      || negb (bool_decide (Some block_hash = reviewed_block_hash a)))
              ChainEvidenceError "reviewed rail-attestation block is not canonical")
  | _, _ => mret tt
  end.

Definition zero_address : string := "0x" +:+ str_repeat "0" 40.
Definition zero_nonce : string := "0x" +:+ str_repeat "0" 64.

(** The verdict of the drift check: [matches] and [reason]. *)
Definition drift_verdict (a : RailAttestation) (code_sha : string) : bool * string :=
  if (network_class a =? "local")%string && calibrated a then
    (true, "ephemeral local deployment exposes the required pinned interface")
  else match expected_code_sha256 a with
       | Some expected =>
           if negb (calibrated a) then
             (false, "rail is uncalibrated: reviewed code/proxy identity is not pinned")
           else if negb (code_sha =? expected)%string then
             (false, "runtime code hash differs from the reviewed attestation")
           else (true, "runtime interface and code identity match the reviewed attestation")
       | None => (false, "rail is uncalibrated: reviewed code/proxy identity is not pinned")
       end.

Definition check_rail_drift (rail : RailConfig) : client RailDriftCheck :=
  live_chain ← chain_id;
  lift (raise_if (negb (live_chain =? rail_chain_id rail)) ChainEvidenceError
          "RPC chain mismatch") ;;
  _verify_review_anchor rail ;;
  block ← get_block (BTag (block_tag (finality rail))) false;
  '(number, block_hash) ← lift (_block_identity block "drift-check block");
  code ← get_code (token_address rail) (BNum number);
  code_sha ← lift (_code_fingerprint code);
  '(implementation_address, implementation_hash) ← _implementation_identity rail number;
  view ← lift (make_token (token_address rail));
  balance_of view zero_address (BNum number) ;;
  authorization_used view zero_address zero_nonce (BNum number) ;;
  let '(matches, reason) := drift_verdict (attestation rail) code_sha in
  mret {| rail_key := key rail; drift_chain_id := live_chain; drift_block_number := number;
          drift_block_hash := block_hash; code_sha256 := code_sha;
          drift_expected_code_sha256 := expected_code_sha256 (attestation rail);
          drift_implementation_address := implementation_address;
          drift_implementation_code_sha256 := implementation_hash;
          attestation_version := version (attestation rail);
          drift_calibrated := calibrated (attestation rail);
          matches := matches; drift_reason := reason |}.

Definition _ensure_no_same_block_race (token : TokenView) (credit : OnChainCredit)
    (payer payee : string) : client unit :=
  let block := BNum (Reconciliation.block_number credit) in
  payee_topic ← lift (Reconciliation.topic_addr payee);
  inbound ← get_logs (address token)
    [Some Reconciliation.TOPIC_TRANSFER; None; Some payee_topic] block block;
  payer_topic ← lift (Reconciliation.topic_addr payer);
  outbound ← get_logs (address token)
    [Some Reconciliation.TOPIC_TRANSFER; Some payer_topic; None] block block;
  identities ← lift (same_block_identities
    (Reconciliation.chain_id (Reconciliation.identity credit)) (inbound ++ outbound));
  lift (raise_if (negb (all_equal_to
          (Reconciliation.tx_hash (Reconciliation.identity credit),
           Reconciliation.log_index (Reconciliation.identity credit)) identities))
          ChainEvidenceError "same-block payer/payee transfer race makes attribution inconclusive").

(** ** The stages of [reconcile_live] *)

Definition check_amount (value minimum : Z) (name : string) : res unit :=
  raise_if (negb ((minimum <=? value) && (value <=? UINT256_MAX))) ValueError
    (name +:+ " must be a uint256").

(** The argument checks; returns the normalised transaction hash. *)
Definition validate_request (token : TokenView) (rail : RailConfig) (q : live_request)
    : res string :=
  raise_if (negb (lower (address token) =? lower (token_address rail))%string) ChainEvidenceError
    "token handle does not match the selected rail" ;;
  tx_hash ← _exact_hash (VStr (rq_transaction_hash q)) "transaction hash";
  raise_if (negb (re_0xhex 64 (rq_nonce q))) ValueError
    "nonce must be exactly 32 bytes of 0x-prefixed hex" ;;
  raise_if (negb (is_uint256 (rq_log_index q))) ValueError "log_index must be a uint256" ;;
  check_amount (rq_required_amount q) 1 "required_amount" ;;
  check_amount (rq_payer_before q) 0 "payer_before" ;;
  check_amount (rq_payee_before q) 0 "payee_before" ;;
  Ok tx_hash.

(** The chain and rail checks before any evidence is read. *)
Definition check_live_rail (rail : RailConfig) : client Z :=
  live_chain ← chain_id;
  lift (raise_if (negb (live_chain =? rail_chain_id rail)) ChainEvidenceError
          "RPC chain mismatch") ;;
  lift (raise_if ((network_class (attestation rail) =? "mainnet")%string
                  && negb (calibrated (attestation rail))) ChainEvidenceError
          "live rail is uncalibrated: reviewed block/code/proxy identity is not pinned") ;;
  _verify_review_anchor rail ;;
  mret live_chain.

Record pinned_receipt := {
  pr_finality_number : Z;
  pr_finality_hash : string;
  pr_receipt : pydict;
  pr_number : Z;
  pr_hash : string;
  pr_status : Z;
  pr_confirmations : Z
}.

(** The receipt, its depth under the finality block, and its canonical block. *)
Definition pin_receipt (rail : RailConfig) (tx_hash : string) : client pinned_receipt :=
  finality_block ← get_block (BTag (block_tag (finality rail))) false;
  '(finality_number, finality_hash) ← lift (_block_identity finality_block "finality block");
  receipt ← get_transaction_receipt tx_hash;
  receipt_tx ← lift (_exact_hash (dict_get "transactionHash" receipt) "receipt transaction hash");
  lift (raise_if (negb (receipt_tx =? tx_hash)%string) ChainEvidenceError
          "receipt transaction hash does not match the requested settlement") ;;
  settlement_number ← lift (_quantity (dict_get "blockNumber" receipt) "receipt block number");
  settlement_hash ← lift (_exact_hash (dict_get "blockHash" receipt) "receipt block hash");
  status ← lift (_quantity (dict_get "status" receipt) "receipt status");
  let confirmations := finality_number - settlement_number + 1 in
  lift (raise_if (confirmations <? minimum_confirmations (finality rail)) ChainEvidenceError
          "settlement has too few confirmations") ;;
  canonical ← get_block (BNum settlement_number) false;
  '(canonical_number, canonical_hash) ← lift (_block_identity canonical "settlement block");
  lift (raise_if (negb (canonical_number =? settlement_number)
                  || negb (canonical_hash =? settlement_hash)%string) ChainEvidenceError
          "receipt block is no longer canonical") ;;
  mret {| pr_finality_number := finality_number; pr_finality_hash := finality_hash;
          pr_receipt := receipt; pr_number := settlement_number; pr_hash := settlement_hash;
          pr_status := status; pr_confirmations := confirmations |}.

(** The runtime code of the token and of its implementation. *)
Definition attest_code (token : TokenView) (rail : RailConfig) (block_number : Z)
    : client (string * (option string * option string)) :=
  code ← get_code (address token) (BNum block_number);
  token_code ← lift (_code_fingerprint code);
  lift (raise_if (match expected_code_sha256 (attestation rail) with
                  | Some expected => negb (token_code =? expected)%string
                  | None => false
                  end) ChainEvidenceError
          "rail token runtime code does not match its attestation") ;;
  implementation ← _implementation_identity rail block_number;
  mret (token_code, implementation).

Record pinned_state := {
  ps_payer_parent : Z;
  ps_payee_parent : Z;
  ps_payer_after : Z;
  ps_payee_after : Z;
  ps_nonce_consumed : bool
}.

(** Balances and nonce state at the settlement block and its parent. *)
Definition read_state (token : TokenView) (q : live_request) (settlement_number : Z)
    : client pinned_state :=
  let parent_block := settlement_number - 1 in
  lift (raise_if (parent_block <? 0) ChainEvidenceError
          "genesis-block settlements cannot be attributed safely") ;;
  payer_parent ← balance_of token (rq_payer q) (BNum parent_block);
  payee_parent ← balance_of token (rq_payee q) (BNum parent_block);
  payer_after ← balance_of token (rq_payer q) (BNum settlement_number);
  payee_after ← balance_of token (rq_payee q) (BNum settlement_number);
  consumed ← authorization_used token (rq_payer q) (rq_nonce q) (BNum settlement_number);
  lift (raise_if (negb (rq_payer_before q =? payer_parent)
                  || negb (rq_payee_before q =? payee_parent)) ChainEvidenceError
          "caller before-balances do not match the pinned parent block") ;;
  mret {| ps_payer_parent := payer_parent; ps_payee_parent := payee_parent;
          ps_payer_after := payer_after; ps_payee_after := payee_after;
          ps_nonce_consumed := consumed |}.

Record attribution := {
  at_selected : option OnChainCredit;
  at_auth_index : option Z;
  at_event_value : option Z;
  at_received : Z;
  at_truth : SettlementTruth
}.

(** The two branches on the receipt status. *)
Definition attribute (token : TokenView) (live_chain : Z) (q : live_request) (tx_hash : string)
    (pr : pinned_receipt) (ps : pinned_state) : client attribution :=
  if pr_status pr =? 1 then
    selected ← lift (_selected_transfer (pr_receipt pr) live_chain (rq_log_index q) (address token));
    lift (raise_if (Reconciliation.removed selected) ChainEvidenceError
            "selected Transfer was removed by a reorg") ;;
    lift (raise_if (negb (Reconciliation.tx_hash (Reconciliation.identity selected) =? tx_hash)%string
                    || negb (Reconciliation.block_hash selected =? pr_hash pr)%string
                    || negb (Reconciliation.block_number selected =? pr_number pr)
                    || negb (Reconciliation.payer selected =? lower (rq_payer q))%string
                    || negb (Reconciliation.payee selected =? lower (rq_payee q))%string)
            ChainEvidenceError "selected Transfer does not match the requested payment") ;;
    auth_index ← lift (_authorization_log_index (pr_receipt pr) (address token) (rq_payer q)
                         (rq_nonce q));
    lift (raise_if (negb (ps_nonce_consumed ps)) ChainEvidenceError
            "receipt emitted AuthorizationUsed but pinned nonce state is false") ;;
    _ensure_no_same_block_race token selected (rq_payer q) (rq_payee q) ;;
    let value := Reconciliation.value selected in
    let payer_delta := ps_payer_after ps - ps_payer_parent ps in
    let received := ps_payee_after ps - ps_payee_parent ps in
    lift (raise_if (negb (payer_delta =? - value)
                    || negb ((0 <? received) && (received <=? value))) ChainEvidenceError
            "pinned balance changes cannot be attributed uniquely to the selected Transfer") ;;
    mret {| at_selected := Some selected; at_auth_index := Some auth_index;
            at_event_value := Some value; at_received := received;
            at_truth := {| nonce_consumed := true; payer_balance_after := ps_payer_after ps;
                           payee_balance_after := ps_payee_after ps;
                           payer_delta := payer_delta; payee_delta := received |} |}
  else
    lift (raise_if (ps_nonce_consumed ps) ChainEvidenceError
            "reverted receipt but nonce is consumed by another settlement; attribution is inconclusive") ;;
    mret {| at_selected := None; at_auth_index := None; at_event_value := None; at_received := 0;
            at_truth := {| nonce_consumed := false; payer_balance_after := ps_payer_after ps;
                           payee_balance_after := ps_payee_after ps;
                           payer_delta := 0; payee_delta := 0 |} |}.

(** The receipt and its block once more, after the reads. *)
Definition recheck (tx_hash : string) (pr : pinned_receipt) : client unit :=
  receipt_after ← get_transaction_receipt tx_hash;
  canonical_after ← get_block (BNum (pr_number pr)) false;
  '(_, canonical_hash_after) ← lift (_block_identity canonical_after "rechecked settlement block");
  hash_after ← lift (_exact_hash (dict_get "blockHash" receipt_after) "rechecked receipt block hash");
  lift (raise_if (negb (hash_after =? pr_hash pr)%string
                  || negb (canonical_hash_after =? pr_hash pr)%string) ChainEvidenceError
          "settlement was reorged or replaced during observation").

Definition reconcile_live (token : TokenView) (rail : RailConfig) (q : live_request)
    : client LiveReconciliation :=
  tx_hash ← lift (validate_request token rail q);
  live_chain ← check_live_rail rail;
  pr ← pin_receipt rail tx_hash;
  '(token_code, (implementation_address, implementation_hash)) ←
    attest_code token rail (pr_number pr);
  ps ← read_state token q (pr_number pr);
  at_ ← attribute token live_chain q tx_hash pr ps;
  recheck tx_hash pr ;;
  mret {|
    divergence := detect_payment_divergence (at_truth at_) (rq_believes_paid q)
                    (Some (rq_required_amount q));
    evidence := {|
      ev_chain_id := live_chain;
      finality_block_number := pr_finality_number pr;
      finality_block_hash := pr_finality_hash pr;
      finality_block_tag := block_tag (finality rail);
      ev_confirmations := pr_confirmations pr;
      settlement_block_number := pr_number pr;
      settlement_block_hash := pr_hash pr;
      ev_transaction_hash := tx_hash;
      receipt_status := pr_status pr;
      ev_log_index := Reconciliation.log_index ∘ Reconciliation.identity <$> at_selected at_;
      authorization_log_index := at_auth_index at_;
      ev_token_address := lower (address token);
      token_code_sha256 := token_code;
      ev_implementation_address := implementation_address;
      ev_implementation_code_sha256 := implementation_hash;
      rail_attestation_version := version (attestation rail);
      ev_payer := lower (rq_payer q);
      ev_payee := lower (rq_payee q);
      ev_nonce := lower (rq_nonce q);
      event_value := at_event_value at_;
      ev_required_amount := rq_required_amount q;
      received_amount := at_received at_;
      ev_payer_balance_before := ps_payer_parent ps;
      ev_payer_balance_after := ps_payer_after ps;
      ev_payee_balance_before := ps_payee_parent ps;
      ev_payee_balance_after := ps_payee_after ps;
      ev_nonce_consumed := ps_nonce_consumed ps;
      ev_removed := match at_selected at_ with
                    | Some c => Reconciliation.removed c | None => false end |} |}.
End live.

(** * Lemmas *)

(** ** Only reads are sent *)

Definition read_methods : list string :=
  ["eth_chainId"; "eth_getBlockByNumber"; "eth_getTransactionReceipt"; "eth_getCode";
   "eth_getStorageAt"; "eth_call"; "eth_getLogs"].

Section reads.
Context `{Transport W}.
Notation reads := (sends_only (W:=W) read_methods).

Lemma reads_chain_id : reads chain_id.
Proof. eapply sends_mono, sends_chain_id. set_solver. Qed.
Lemma reads_get_block b full : reads (get_block b full).
Proof. eapply sends_mono, sends_get_block. set_solver. Qed.
Lemma reads_get_logs a ts f t : reads (get_logs a ts f t).
Proof. eapply sends_mono, sends_get_logs. set_solver. Qed.
Lemma reads_get_code a b : reads (get_code a b).
Proof. eapply sends_mono, sends_get_code. set_solver. Qed.
Lemma reads_receipt h : reads (get_transaction_receipt h).
Proof. eapply sends_mono, sends_get_transaction_receipt. set_solver. Qed.
Lemma reads_eth_call a d b : reads (eth_call a d b).
Proof. eapply sends_mono, sends_eth_call. set_solver. Qed.
Lemma reads_balance_of t a b : reads (balance_of t a b).
Proof. unfold balance_of. solve_sends. apply reads_eth_call. Qed.
Lemma reads_authorization_used t a n b : reads (authorization_used t a n b).
Proof. unfold authorization_used. solve_sends. apply reads_eth_call. Qed.
Lemma reads_storage params : reads (call "eth_getStorageAt" params).
Proof. apply sends_call. set_solver. Qed.
End reads.

Ltac solve_reads :=
  repeat first [ sends_step
    | apply reads_chain_id | apply reads_get_block | apply reads_get_logs | apply reads_get_code
    | apply reads_receipt | apply reads_balance_of | apply reads_authorization_used
    | apply reads_storage ].

Section live_reads.
Context `{Transport W}.
Notation reads := (sends_only (W:=W) read_methods).

Lemma reads_implementation rail n : reads (_implementation_identity rail n).
Proof. unfold _implementation_identity. solve_reads. Qed.
Lemma reads_anchor rail : reads (_verify_review_anchor rail).
Proof. unfold _verify_review_anchor. solve_reads. Qed.
Lemma reads_drift rail : reads (check_rail_drift rail).
Proof.
  unfold check_rail_drift. repeat first [apply reads_implementation | apply reads_anchor | progress solve_reads].
Qed.
Lemma reads_race t c p q : reads (_ensure_no_same_block_race t c p q).
Proof. unfold _ensure_no_same_block_race. solve_reads. Qed.
Lemma reads_reconcile_live t rail q : reads (reconcile_live t rail q).
Proof.
  unfold reconcile_live, check_live_rail, pin_receipt, attest_code, read_state, attribute, recheck.
  repeat first [apply reads_implementation | apply reads_anchor | apply reads_race | progress solve_reads].
Qed.
End live_reads.

(** ** Only RPC and value errors are raised *)

Notation rpc_errors := [RpcError; ValueError].

Lemma throws_live_quantity v what : throws rpc_errors (_quantity v what).
Proof. unfold _quantity. solve_throws. Qed.
Lemma throws_live_hash v what : throws rpc_errors (_exact_hash v what).
Proof. unfold _exact_hash. solve_throws. Qed.
#[local] Hint Resolve throws_live_quantity throws_live_hash : py.
Lemma throws_block_identity b what : throws rpc_errors (_block_identity b what).
Proof. unfold _block_identity. solve_throws. Qed.
Lemma throws_fingerprint c : throws rpc_errors (_code_fingerprint c).
Proof. unfold _code_fingerprint. solve_throws. Qed.
Lemma throws_topic_addr a : throws rpc_errors (Reconciliation.topic_addr a).
Proof.
  unfold Reconciliation.topic_addr, Reconciliation._address, Reconciliation._exact_hex.
  solve_throws.
Qed.
Lemma throws_live_decode log cid : throws rpc_errors (Reconciliation.decode_transfer_log log cid).
Proof.
  eapply throws_weaken, Reconciliation.throws_decode. apply value_error_rpc_errors.
Qed.
Lemma throws_try {A} cs (m : res A) hs h :
  throws cs m → (∀ e, throws cs (h e)) → throws cs (try_except m hs h).
Proof.
  intros Hm Hh e. unfold try_except. destruct m as [a|e']; [done|].
  destruct (existsb _ hs); [apply Hh|]. intros [= <-]. by apply Hm.
Qed.
#[local] Hint Resolve throws_block_identity throws_fingerprint throws_topic_addr throws_live_decode : py.
Lemma throws_auth_matches t ts logs : throws rpc_errors (authorization_matches t ts logs).
Proof. induction logs as [|raw logs IH]; simpl; solve_throws; apply IH. Qed.
Lemma throws_logs_with_index i logs : throws rpc_errors (logs_with_index i logs).
Proof. induction logs as [|raw logs IH]; simpl; solve_throws; apply IH. Qed.
Lemma throws_same_block c logs : throws rpc_errors (same_block_identities c logs).
Proof.
  induction logs as [|raw logs IH]; simpl; [solve_throws|].
  apply throws_bind; [apply throws_try; eauto with py; intros; by apply throws_raise|].
  intros; solve_throws; apply IH.
Qed.
#[local] Hint Resolve throws_auth_matches throws_logs_with_index throws_same_block : py.
Lemma throws_auth_index r t p n : throws rpc_errors (_authorization_log_index r t p n).
Proof. unfold _authorization_log_index. solve_throws. Qed.
Lemma throws_selected r c i t : throws rpc_errors (_selected_transfer r c i t).
Proof.
  unfold _selected_transfer. solve_throws.
  apply throws_try; [eauto with py|intros; by apply throws_raise].
Qed.
#[local] Hint Resolve throws_auth_index throws_selected : py.

Section live_throws.
Context `{Transport W}.
Notation raises m := (throws_in (S:=RpcClient W) rpc_errors m).

Lemma throws_balance_of t a b : raises (balance_of t a b).
Proof. unfold balance_of. solve_throws. Qed.
Lemma throws_authorization_used t a n b : raises (authorization_used t a n b).
Proof. unfold authorization_used. solve_throws. Qed.
#[local] Hint Resolve throws_balance_of throws_authorization_used : py.
Lemma throws_implementation_word w e : throws rpc_errors (implementation_word w e).
Proof. unfold implementation_word. solve_throws. Qed.
#[local] Hint Resolve throws_implementation_word : py.
Lemma throws_implementation rail n : raises (_implementation_identity rail n).
Proof. unfold _implementation_identity. solve_throws. Qed.
Lemma throws_anchor rail : raises (_verify_review_anchor rail).
Proof. unfold _verify_review_anchor. solve_throws. Qed.
#[local] Hint Resolve throws_implementation throws_anchor : py.
Lemma throws_drift rail : raises (check_rail_drift rail).
Proof. unfold check_rail_drift, make_token. solve_throws. Qed.
Lemma throws_race t c p q : raises (_ensure_no_same_block_race t c p q).
Proof. unfold _ensure_no_same_block_race. solve_throws. Qed.
#[local] Hint Resolve throws_race : py.
Lemma throws_reconcile_live t rail q : raises (reconcile_live t rail q).
Proof.
  unfold reconcile_live, validate_request, check_amount, check_live_rail, pin_receipt,
    attest_code, read_state, attribute, recheck.
  solve_throws.
Qed.
End live_throws.

(** ** What each stage establishes *)

Section stages.
Context `{Transport W}.
Implicit Types (c : RpcClient W).

Lemma check_live_rail_ok rail c n c' :
  check_live_rail rail c = (Ok n, c') →
  n = rail_chain_id rail
  ∧ (network_class (attestation rail) = "mainnet" → calibrated (attestation rail) = true).
Proof.
  unfold check_live_rail. intros Hr. inv_res. bool_facts. split; [done|].
  intros Hm. destruct (calibrated (attestation rail)); [done|]. by rewrite Hm in *.
Qed.

Lemma pin_receipt_ok rail tx c pr c' :
  pin_receipt rail tx c = (Ok pr, c') →
  pr_confirmations pr = pr_finality_number pr - pr_number pr + 1
  ∧ minimum_confirmations (finality rail) ≤ pr_confirmations pr.
Proof.
  unfold pin_receipt. intros Hr.
  repeat (inv_step; simplify_eq/=; try match goal with p : (_ * _)%type |- _ => destruct p end).
  bool_facts. done.
Qed.

Lemma read_state_ok t q n c ps c' :
  read_state t q n c = (Ok ps, c') →
  ps_payer_parent ps = rq_payer_before q ∧ ps_payee_parent ps = rq_payee_before q ∧ 1 ≤ n.
Proof.
  unfold read_state. intros Hr. inv_res. bool_facts. split_and!; [done|done|lia].
Qed.

Lemma attest_code_ok t rail n c code impl c' :
  attest_code t rail n c = (Ok (code, impl), c') →
  ∀ h, expected_code_sha256 (attestation rail) = Some h → code = h.
Proof.
  unfold attest_code. intros Hr h Hh. inv_res. rewrite Hh in *. by bool_facts.
Qed.

Lemma attribute_ok t chain q tx pr ps c a c' :
  attribute t chain q tx pr ps c = (Ok a, c') →
  (pr_status pr = 1 ∧ ps_nonce_consumed ps = true
   ∧ ∃ cr v, at_selected a = Some cr ∧ at_event_value a = Some v
       ∧ Reconciliation.removed cr = false
       ∧ Reconciliation.tx_hash (Reconciliation.identity cr) = tx
       ∧ Reconciliation.payer cr = lower (rq_payer q)
       ∧ Reconciliation.payee cr = lower (rq_payee q)
       ∧ ps_payer_after ps = ps_payer_parent ps - v
       ∧ ps_payee_after ps = ps_payee_parent ps + at_received a
       ∧ 0 < at_received a ≤ v
       ∧ funds_moved (at_truth a) = true ∧ payee_delta (at_truth a) = at_received a)
  ∨ (pr_status pr ≠ 1 ∧ ps_nonce_consumed ps = false ∧ at_selected a = None
     ∧ at_event_value a = None ∧ at_received a = 0 ∧ funds_moved (at_truth a) = false).
Proof.
  unfold attribute. destruct (Z.eqb_spec (pr_status pr) 1); intros Hr; inv_res; bool_facts.
  - left. split; [done|]. split; [done|]. do 2 eexists.
    repeat match goal with E : _ || _ = false |- _ => apply orb_false_iff in E as [??] end.
    bool_facts. split_and!; try reflexivity; try done; try lia.
    unfold funds_moved. simpl. rewrite andb_true_iff, !Z.ltb_lt. lia.
  - right. by split_and!.
Qed.

Lemma drift_verdict_ok a code m reason :
  drift_verdict a code = (m, reason) →
  m = true ↔ calibrated a = true
             ∧ (network_class a = "local" ∨ expected_code_sha256 a = Some code).
Proof.
  unfold drift_verdict.
  destruct (String.eqb_spec (network_class a) "local") as [->|Hn], (calibrated a),
    (expected_code_sha256 a) as [h|]; cbn [andb negb];
    try (intros [= <- <-]; split; naive_solver);
    destruct (String.eqb_spec code h) as [->|Hne]; intros [= <- <-]; split; naive_solver.
Qed.

Lemma implementation_word_ok word expected o :
  implementation_word word expected = Ok o → o = lower expected.
Proof.
  unfold implementation_word. destruct (as_str word) as [s|]; [|done].
  cbn [or_raise mbind res_bind].
  destruct (negb (re_0xhex 64 s)), (negb (str_slice 2 26 s =? str_repeat "0" 24)%string); try done.
  cbn [raise_if mbind res_bind]. destruct (String.eqb_spec ("0x" +:+ lower (str_last 40 s))
    (lower expected)) as [->|]; [|done]. by intros [= <-].
Qed.

Lemma implementation_ok rail n c addr hash c' :
  _implementation_identity rail n c = (Ok (addr, hash), c') →
  (proxy_kind (attestation rail) = "none" ∧ addr = None ∧ hash = None)
  ∨ (proxy_kind (attestation rail) ≠ "none"
     ∧ addr = lower <$> implementation_address (attestation rail) ∧ is_Some addr
     ∧ hash = implementation_code_sha256 (attestation rail) ∧ is_Some hash).
Proof.
  unfold _implementation_identity.
  destruct (String.eqb_spec (proxy_kind (attestation rail)) "none"); intros Hr.
  { inv_res. by left. }
  destruct (proxy_implementation_slot _), (implementation_address _) as [ad|],
    (implementation_code_sha256 _) as [ih|]; try by inv_res.
  right. inv_res. bool_facts.
  match goal with E : implementation_word _ _ = _ |- _ => apply implementation_word_ok in E end.
  subst. simpl. split_and!; eauto.
Qed.
End stages.

(** What every reconciliation that returns has in common. *)
Lemma reconcile_live_ok `{Transport W} token rail q (c c' : RpcClient W) lr :
  reconcile_live token rail q c = (Ok lr, c') →
  ev_chain_id (evidence lr) = rail_chain_id rail
  ∧ ev_token_address (evidence lr) = lower (token_address rail)
  ∧ ev_required_amount (evidence lr) = rq_required_amount q ∧ 0 < rq_required_amount q
  ∧ 0 ≤ received_amount (evidence lr)
  ∧ ∃ t, divergence lr = detect_payment_divergence t (rq_believes_paid q) (Some (rq_required_amount q)).
Proof.
  unfold reconcile_live, validate_request, check_amount. intros Hr.
  repeat (inv_step; simplify_eq/=; try match goal with p : (_ * _)%type |- _ => destruct p end).
  repeat match goal with
  | E : check_live_rail _ _ = _ |- _ => apply check_live_rail_ok in E as [-> _]
  | E : attribute _ _ _ _ _ _ _ = _ |- _ => apply attribute_ok in E; rename E into Ha
  end.
  bool_facts. split_and!; try done; [lia| |by eexists].
  destruct Ha as [(_ & _ & cr & v & Ha)|(_ & _ & _ & _ & -> & _)]; [|done].
  destruct Ha as (_ & _ & _ & _ & _ & _ & _ & _ & Hv & _). lia.
Qed.

(** * Properties *)

(** C39: both rail operations are read-only and fail in known ways: whatever the
    node answers, every request they send is one of seven read methods, and
    every exception is an RPC error or a [ValueError]. *)
Theorem rails_are_read_only `{Transport W} token rail q :
  sends_only (W:=W) read_methods (reconcile_live token rail q)
  ∧ sends_only (W:=W) read_methods (check_rail_drift rail)
  ∧ throws_in (S:=RpcClient W) [RpcError; ValueError] (reconcile_live token rail q)
  ∧ throws_in (S:=RpcClient W) [RpcError; ValueError] (check_rail_drift rail).
Proof.
  split_and!; [apply reads_reconcile_live|apply reads_drift|apply throws_reconcile_live
              |apply throws_drift].
Qed.


(** ** A concrete node *)

Definition hex_of (c : ascii) (n : nat) : string := "0x" +:+ str_repeat c n.
Definition sample_rail (network : string) (cal : bool) : RailConfig := {|
  key := "r"; label := "sample"; rail_chain_id := 84532; token_address := hex_of "a" 40;
  decimals := 6; token_name := None; token_version := None;
  finality := {| block_tag := "latest"; minimum_confirmations := 1 |};
  attestation := {|
    version := "v"; reviewed_on := "2026-07-18"; authoritative_sources := ["s"];
    interface := "eip3009"; network_class := network; proxy_kind := "none";
    expected_decimals := 6; domain_name := None; domain_version := None;
    reviewed_block_number := None; reviewed_block_hash := None; implementation_address := None;
    expected_code_sha256 := None; proxy_implementation_slot := None;
    implementation_code_sha256 := None; calibrated := cal |};
  signing_enabled := false |}.
Definition sample_log_of (index : Z) (topics : list string) (data : string) : pydict := dict_of [
  ("address", VStr (hex_of "a" 40)); ("topics", VList (VStr <$> topics)); ("data", VStr data);
  ("blockNumber", VStr "0x10"); ("transactionHash", VStr (hex_of "1" 64));
  ("transactionIndex", VStr "0x0"); ("blockHash", VStr (hex_of "2" 64));
  ("logIndex", VStr (py_hex index)); ("removed", VBool false)].
Definition padded (c : ascii) : string := "0x" +:+ str_repeat "0" 24 +:+ str_repeat c 40.
Definition sample_transfer_log : pydict :=
  sample_log_of 1 [TOPIC_TRANSFER; padded "b"; padded "c"] ("0x" +:+ fmt_064x 10).
Definition sample_auth_log : pydict :=
  sample_log_of 0 [TOPIC_AUTHORIZATION_USED; padded "b"; hex_of "3" 64] "0x".
Definition sample_receipt : pydict := dict_of [
  ("transactionHash", VStr (hex_of "1" 64)); ("blockHash", VStr (hex_of "2" 64));
  ("blockNumber", VStr "0x10"); ("status", VStr "0x1");
  ("logs", VList [VDict sample_auth_log; VDict sample_transfer_log])].
Definition sample_block (number : string) : pydict := dict_of [
  ("number", VStr number); ("timestamp", VStr "0x1"); ("hash", VStr (hex_of "2" 64));
  ("parentHash", VStr (hex_of "4" 64)); ("transactions", VList [])].

(** At block 0x10 the payer has paid 10 to the payee; before it, not yet. *)
Definition sample_call (data block : string) : Z :=
  let after := (block =? "0x10")%string in
  if startswith ("0x" +:+ SEL_AUTHORIZATION_STATE) data then (if after then 1 else 0)
  else if (str_last 1 data =? "b")%string then (if after then 90 else 100)
  else (if after then 10 else 0).
Definition sample_answer (method : string) (params : list pyval) : pyval :=
  if (method =? "eth_chainId")%string then VStr (py_hex 84532)
  else if (method =? "eth_getTransactionReceipt")%string then VDict sample_receipt
  else if (method =? "eth_getCode")%string then VStr "0x6001"
  else if (method =? "eth_getLogs")%string then VList [VDict sample_transfer_log]
  else match params with
       | [VStr block; VBool _] =>
           VDict (sample_block (if (block =? "latest")%string then "0x11" else block))
       | [VDict call; VStr block] =>
           match dict_get "data" call with
           | VStr data => VStr ("0x" +:+ fmt_064x (sample_call data block))
           | _ => VNone
           end
       | _ => VNone
       end.
Definition sample_request : live_request := {|
  rq_payer := hex_of "b" 40; rq_payee := hex_of "c" 40; rq_nonce := hex_of "3" 64;
  rq_transaction_hash := hex_of "1" 64; rq_log_index := 1; rq_required_amount := 10;
  rq_payer_before := 100; rq_payee_before := 0; rq_believes_paid := false |}.


(** A mainnet rail without calibration is refused: no reconciliation of it
    returns, and nothing is sent but the chain id query. *)
Theorem uncalibrated_mainnet_is_refused `{Transport W} token rail q :
  network_class (attestation rail) = "mainnet" → calibrated (attestation rail) = false →
  sends_only (W:=W) ["eth_chainId"] (reconcile_live token rail q)
  ∧ ∀ c, is_ok (reconcile_live token rail q c).1 = false.
Proof.
  intros Hnet Hcal.
  assert (∀ c, (∃ e, reconcile_live token rail q c = (Raise e, c))
               ∨ ∃ e, reconcile_live token rail q c = (Raise e, (chain_id c).2)) as Hrun.
  { intros c. unfold reconcile_live, check_live_rail. rewrite Hnet, Hcal.
    unfold lift, mbind, prog_bind.
    destruct (validate_request token rail q) as [tx|e]; [|left; by eexists]. right.
    destruct (chain_id c) as [[n|e] c1]; simpl; [|by eexists].
    destruct (n =? rail_chain_id rail); simpl; by eexists. }
  split.
  - intros I HI c Hc. destruct (Hrun c) as [[e ->]|[e ->]]; simpl; [done|].
    exact (sends_chain_id I HI c Hc).
  - intros c. by destruct (Hrun c) as [[e ->]|[e ->]].
Qed.

Lemma uncalibrated_mainnet_is_refused_witness :
  let node := honest_node sample_answer in
  is_ok (reconcile_live (H:=node) {| address := hex_of "a" 40 |} (sample_rail "mainnet" false)
           sample_request fresh_client).1 = false.
Proof.
  intros node.
  apply (uncalibrated_mainnet_is_refused (H:=node) _ (sample_rail "mainnet" false)); reflexivity.
Defined.

(** A drift check that returns has seen the rail's chain and, behind a proxy,
    exactly the attested implementation and code; it reports a match exactly for
    a calibrated rail that is local or whose observed code hash is the pinned one. *)
Theorem drift_check_sound `{Transport W} rail (c c' : RpcClient W) d :
  check_rail_drift rail c = (Ok d, c') →
  drift_chain_id d = rail_chain_id rail
  ∧ (matches d = true ↔
       calibrated (attestation rail) = true
       ∧ (network_class (attestation rail) = "local"
          ∨ expected_code_sha256 (attestation rail) = Some (code_sha256 d)))
  ∧ (proxy_kind (attestation rail) ≠ "none" →
       drift_implementation_address d = lower <$> implementation_address (attestation rail)
       ∧ drift_implementation_code_sha256 d = implementation_code_sha256 (attestation rail)
       ∧ is_Some (drift_implementation_code_sha256 d)).
Proof.
  unfold check_rail_drift. intros Hr.
  repeat (inv_step; simplify_eq/=; try match goal with p : (_ * _)%type |- _ => destruct p end).
  destruct (drift_verdict (attestation rail) _) as [m reason] eqn:Ev. inv_res. bool_facts.
  match goal with E : _implementation_identity _ _ _ = _ |- _ => apply implementation_ok in E; rename E into Hi end.
  split_and!; [done| |].
  - by eapply drift_verdict_ok.
  - intros Hp. destruct Hi as [(? & _)|(_ & -> & _ & -> & ?)]; done.
Qed.

Lemma drift_check_sound_witness :
  let node := honest_node sample_answer in
  ∃ d c', check_rail_drift (H:=node) (sample_rail "testnet" true) fresh_client = (Ok d, c')
          ∧ matches d = false ∧ drift_chain_id d = 84532.
Proof.
  intros node.
  destruct (check_rail_drift (H:=node) (sample_rail "testnet" true) fresh_client)
    as [[d|e] c'] eqn:E.
  - exists d, c'. split; [done|].
    destruct (drift_check_sound (H:=node) _ _ _ _ E) as (Hc & Hm & _). split; [|exact Hc].
    destruct (matches d); [|done].
    destruct (proj1 Hm eq_refl) as [_ [?|?]]; discriminate.
  - exfalso.
    assert (K : is_ok (check_rail_drift (H:=node) (sample_rail "testnet" true) fresh_client).1
                = true) by (vm_compute; reflexivity).
    by rewrite E in K.
Defined.
