(* ===== verification/SvmChain.v ===== *)
(** * Settlement truth on Solana ([psv/svm_chain.py])

    The SPL token balances that a Solana node reports before and after a
    transaction become the same [SettlementTruth] that the EVM oracle produces,
    so the detectors of [Divergence] grade both.  There is no nonce: a
    transaction without error counts as a consumed authorization.

    The theorems: the truth is accepted exactly from metadata in which the token
    account of each party is unambiguous, it is the truth of the ledger the
    metadata lists, a failed transaction is never graded as a payment, and the
    rail table is well formed. *)

From S2P Require Import Prelude PyStr PyVal Chain Divergence.
From S2P Require Rails.
Local Open Scope Z_scope.

(** CAIP-2 networks *)
Definition SOLANA_MAINNET : string := "solana:5eykt4UsFv8P8NJdTREpY1vzqKqZKvdp".
Definition SOLANA_DEVNET : string := "solana:EtWTRABZaYq6iMfeYKouRu166VU2xqa1".
Definition SOLANA_TESTNET : string := "solana:4uhcVJyU9pJkvQyS88uRDiswHXSCkY3z".
Definition SOLANA_NETWORKS : list string := [SOLANA_MAINNET; SOLANA_DEVNET; SOLANA_TESTNET].

Definition TOKEN_PROGRAM : string := "TokenkegQfeZyiNwAJbNbGKPFXCWuBvf9Ss623VQ5DA".
Definition TOKEN_2022_PROGRAM : string := "TokenzQdBNbLqP5VEhdkAS6EPFLC1PHnBqCXEpPxuEb".
Definition _TOKEN_PROGRAMS : list string := [TOKEN_PROGRAM; TOKEN_2022_PROGRAM].

Definition _U64_MAX : Z := 2 ^ 64 - 1.

(** [[1-9A-HJ-NP-Za-km-z]] *)
Definition base58_char (c : ascii) : bool :=
  between 49 57 c || between 65 72 c || between 74 78 c || between 80 90 c
  || between 97 107 c || between 109 122 c.
(** [_BASE58_RE.fullmatch(s)] *)
Definition _BASE58_RE (s : string) : bool :=
  str_all base58_char s && (32 <=? str_len s) && (str_len s <=? 44).

Definition _b58 (value : pyval) (what : string) : res string :=
  s ← or_raise (as_str value) SvmEvidenceError (what +:+ " must be a base58 Solana address");
  raise_if (negb (_BASE58_RE s)) SvmEvidenceError (what +:+ " must be a base58 Solana address") ;;
  Ok s.

(** [int(value)] raises a plain [ValueError]. *)
Definition _amount (value : pyval) (what : string) : res Z :=
  s ← or_raise (as_str value) SvmEvidenceError (what +:+ " must be a decimal uint64 string");
  raise_if (negb (isdigit s)) SvmEvidenceError (what +:+ " must be a decimal uint64 string") ;;
  result ← or_raise (py_int10 s) ValueError "invalid literal for int() with base 10";
  raise_if (negb ((0 <=? result) && (result <=? _U64_MAX))) SvmEvidenceError
    (what +:+ " is outside uint64") ;;
  Ok result.

(** One round of the loop of [_balance_for]. *)
Definition find_balance (owner mint what : string) (found : list Z) (entry : pyval) : res (list Z) :=
  entry ← or_raise (as_dict entry) SvmEvidenceError (what +:+ " entry must be an object");
  if py_eq (dict_get "owner" entry) (VStr owner) && py_eq (dict_get "mint" entry) (VStr mint) then
    ui ← or_raise (as_dict (dict_get "uiTokenAmount" entry)) SvmEvidenceError
           (what +:+ " uiTokenAmount must be an object");
    n ← _amount (dict_get "amount" ui) (what +:+ " amount");
    Ok (found ++ [n])
  else Ok found.

Fixpoint find_balances (owner mint what : string) (found : list Z) (balances : list pyval)
    : res (list Z) :=
  match balances with
  | [] => Ok found
  | entry :: balances =>
      found ← find_balance owner mint what found entry;
      find_balances owner mint what found balances
  end.

Definition _balance_for (balances : list pyval) (owner mint what : string) : res Z :=
  found ← find_balances owner mint what [] balances;
  raise_if (1 <? length found)%nat SvmEvidenceError
    (what +:+ ": more than one token account for owner+mint") ;;
  Ok (default 0 (head found)).

Definition settlement_truth_from_svm_meta (meta mint payer_owner payee_owner : pyval)
    : res SettlementTruth :=
  meta ← or_raise (as_dict meta) SvmEvidenceError "meta must be an object";
  mint ← _b58 mint "mint";
  payer_owner ← _b58 payer_owner "payer_owner";
  payee_owner ← _b58 payee_owner "payee_owner";
  raise_if (payer_owner =? payee_owner)%string SvmEvidenceError
    "payer and payee owners must differ" ;;
  raise_if (negb (dict_has "err" meta)) SvmEvidenceError "meta must carry an err field" ;;
  '(pre, post) ← or_raise (match as_list (dict_get "preTokenBalances" meta),
                                 as_list (dict_get "postTokenBalances" meta) with
                           | Some pre, Some post => Some (pre, post)
                           | _, _ => None
                           end) SvmEvidenceError "meta must carry pre/postTokenBalances lists";
  let succeeded := bool_decide (dict_get "err" meta = VNone) in
  payer_before ← _balance_for pre payer_owner mint "pre payer";
  payer_after ← _balance_for post payer_owner mint "post payer";
  payee_before ← _balance_for pre payee_owner mint "pre payee";
  payee_after ← _balance_for post payee_owner mint "post payee";
  Ok (settlement_truth_from_balances succeeded payer_before payer_after payee_before payee_after).

(** ** Rails *)

Record SvmRailAttestation := {
  version : string;
  reviewed_on : string;
  authoritative_sources : list string;
  network_class : string;
  expected_decimals : Z;
  calibrated : bool
}.

Definition check_attestation (a : SvmRailAttestation) : res SvmRailAttestation :=
  raise_if ((version a =? "")%string || match authoritative_sources a with [] => true | _ => false end)
    ValueError "svm rail attestation needs a version and authoritative source" ;;
  raise_if (negb (Rails.str_in (network_class a) ["local"; "testnet"; "mainnet"])) ValueError
    "invalid network classification" ;;
  raise_if (negb ((0 <=? expected_decimals a) && (expected_decimals a <=? 36))) ValueError
    "attested decimals must be within [0, 36]" ;;
  Ok a.

Record SvmRailConfig := {
  key : string;
  label : string;
  network : string;
  rail_mint : string;
  decimals : Z;
  token_program : string;
  attestation : SvmRailAttestation;
  signing_enabled : bool
}.

Definition check_rail (r : SvmRailConfig) : res SvmRailConfig :=
  raise_if (negb (Rails.str_in (network r) SOLANA_NETWORKS)) ValueError
    "svm rail network must be a known solana CAIP-2 id" ;;
  raise_if (negb (_BASE58_RE (rail_mint r))) ValueError
    "svm rail mint must be a base58 Solana address" ;;
  raise_if (negb (Rails.str_in (token_program r) _TOKEN_PROGRAMS)) ValueError
    "svm rail token_program must be SPL Token or Token-2022" ;;
  raise_if (negb ((0 <=? decimals r) && (decimals r <=? 36))) ValueError
    "svm rail decimals must be within [0, 36]" ;;
  raise_if (signing_enabled r) ValueError "signing is disabled for every reconciliation rail" ;;
  raise_if (negb (expected_decimals (attestation r) =? decimals r)) ValueError
    "svm rail decimals differ from the reviewed attestation" ;;
  Ok r.

Definition _CIRCLE_USDC : string :=
  "https://developers.circle.com/stablecoins/usdc-contract-addresses".

Definition rail_usdc_solana_devnet : res SvmRailConfig :=
  a ← check_attestation {|
    version := "2026-07-19";
    reviewed_on := "2026-07-19";
    authoritative_sources := [_CIRCLE_USDC];
    network_class := "testnet";
    expected_decimals := 6;
    calibrated := false |};
  check_rail {|
    key := "usdc-solana-devnet";
    label := "USDC on Solana devnet";
    network := SOLANA_DEVNET;
    rail_mint := "4zMMC9srt5Ri5X14GAgXhaHii3GnPAEERYPJgZJDncDU";
    decimals := 6;
    token_program := TOKEN_PROGRAM;
    attestation := a;
    signing_enabled := false |}.

Definition SVM_RAILS : res (list (string * SvmRailConfig)) :=
  devnet ← rail_usdc_solana_devnet; Ok [("usdc-solana-devnet", devnet)].

Definition get_svm_rail (k : string) : res SvmRailConfig :=
  rails ← SVM_RAILS;
  or_raise (od_get k rails) KeyError ("unknown svm rail: " +:+ k).

(** * Lemmas *)

(** ** Token accounts *)

(** The entries of a balance list that stand for the account of [owner] in [mint]. *)
Definition of_account (owner mint : string) (entry : pyval) : bool :=
  match as_dict entry with
  | Some d => py_eq (dict_get "owner" d) (VStr owner) && py_eq (dict_get "mint" d) (VStr mint)
  | None => false
  end.

(** The entry states the amount [n], a [uint64]. *)
Definition states_amount (entry : pyval) (n : Z) : Prop :=
  ∃ d ui s, entry = VDict d ∧ dict_get "uiTokenAmount" d = VDict ui ∧ dict_get "amount" ui = VStr s
    ∧ isdigit s = true ∧ py_int10 s = Some n ∧ 0 ≤ n ≤ _U64_MAX.

(** The list gives [owner] exactly one balance in [mint]: that of its only
    entry, or zero without an entry. *)
Definition one_balance (balances : list pyval) (owner mint : string) (n : Z) : Prop :=
  Forall (λ e, ∃ d, e = VDict d) balances
  ∧ match filter (λ e, of_account owner mint e = true) balances with
    | [] => n = 0
    | [e] => states_amount e n
    | _ => False
    end.

Lemma svm_amount_ok v what n :
  _amount v what = Ok n ↔
  ∃ s, v = VStr s ∧ isdigit s = true ∧ py_int10 s = Some n ∧ 0 ≤ n ≤ _U64_MAX.
Proof.
  unfold _amount. split.
  - intros H. inv_res. val_facts. bool_facts. eauto 8 with lia.
  - intros (s & -> & Hs & Hn & ? & ?). simpl. rewrite Hs, Hn. simpl.
    by rewrite (proj2 (Z.leb_le _ _)), (proj2 (Z.leb_le _ _)).
Qed.

Lemma find_balance_ok owner mint what found e found' :
  find_balance owner mint what found e = Ok found' ↔
  (∃ d, e = VDict d)
  ∧ if of_account owner mint e then ∃ n, states_amount e n ∧ found' = found ++ [n] else found' = found.
Proof.
  unfold find_balance. split.
  - intros H. do 2 inv_step. val_facts. subst. split; [eauto|]. unfold of_account. simpl in *.
    case_match; [|by injection H as <-]. inv_res. val_facts. subst. eexists. split; [|done].
    match goal with E : _amount _ _ = Ok _ |- _ => apply svm_amount_ok in E as (s & ? & ?) end.
    repeat eexists; try done; naive_solver.
  - intros [[d ->] H]. unfold of_account in H. simpl in *. case_match; [|by rewrite H].
    destruct H as (n & (d' & ui & s & [= <-] & Hui & Hs & Hn) & ->). rewrite Hui. simpl. rewrite Hs.
    by rewrite (proj2 (svm_amount_ok (VStr s) _ n)) by eauto.
Qed.

Lemma find_balances_ok owner mint what l found r :
  find_balances owner mint what found l = Ok r ↔
  Forall (λ e, ∃ d, e = VDict d) l
  ∧ ∃ ns, r = found ++ ns ∧ Forall2 states_amount (filter (λ e, of_account owner mint e = true) l) ns.
Proof.
  revert found. induction l as [|e l IH]; intros found; simpl.
  - split; [intros [= <-]; split; [done|exists []; by rewrite app_nil_r]|].
    intros (_ & ns & -> & ->%Forall2_nil_inv_l). by rewrite app_nil_r.
  - rewrite Forall_cons, filter_cons. split.
    + intros H. inv_step. rename select (find_balance _ _ _ _ _ = _) into He.
      apply find_balance_ok in He as [Hd He]. apply IH in H as (Hl & ns & -> & Hns).
      split; [done|]. destruct (of_account owner mint e); simpl.
      * destruct He as (n & Hn & ->). exists (n :: ns). rewrite <- app_assoc. split; [done|by constructor].
      * subst. eauto.
    + intros ([Hd Hl] & ns & -> & Hns).
      destruct (of_account owner mint e) eqn:Ha; simpl in Hns.
      * apply Forall2_cons_inv_l in Hns as (n & ns' & Hn & Hns & ->).
        rewrite (proj2 (find_balance_ok _ _ _ _ _ (found ++ [n]))) by (split; [done|rewrite Ha; eauto]).
        simpl. apply IH. split; [done|]. exists ns'. by rewrite <- app_assoc.
      * rewrite (proj2 (find_balance_ok _ _ _ _ _ found)) by (by rewrite Ha). simpl. apply IH. eauto.
Qed.

Lemma balance_for_ok l owner mint what n :
  _balance_for l owner mint what = Ok n ↔ one_balance l owner mint n.
Proof.
  unfold _balance_for, one_balance. split.
  - intros H. inv_res. rename select (find_balances _ _ _ _ _ = _) into Hf.
    apply find_balances_ok in Hf as (Hl & ns & -> & Hns). split; [done|]. bool_facts. simpl in *.
    destruct Hns as [|e n es ns Hn [|]]; simpl in *; [done|done|done].
  - intros [Hl Hn].
    assert (∃ ns, Forall2 states_amount (filter (λ e, of_account owner mint e = true) l) ns
      ∧ (length ns <= 1)%nat ∧ n = default 0 (head ns)) as (ns & Hns & Hlen & ->).
    { destruct (filter _ l) as [|e [|]]; [exists []; auto|exists [n]; auto|done]. }
    rewrite (proj2 (find_balances_ok _ _ _ _ _ ns)) by eauto. simpl.
    by rewrite (proj2 (Nat.ltb_ge _ _)).
Qed.

Lemma b58_ok v what s : _b58 v what = Ok s ↔ v = VStr s ∧ _BASE58_RE s = true.
Proof.
  unfold _b58. split.
  - intros H. inv_res. val_facts. bool_facts. by subst.
  - intros [-> Hs]. simpl. by rewrite Hs.
Qed.

(** ** The evidence *)

Record svm_evidence (meta : pydict) (mint payer payee : string) (t : SettlementTruth) : Prop := {
  evidence_addresses : _BASE58_RE mint = true ∧ _BASE58_RE payer = true ∧ _BASE58_RE payee = true;
  evidence_parties : payer ≠ payee;
  evidence_result : dict_has "err" meta = true;
  evidence_balances : ∃ pre post payer_before payer_after payee_before payee_after,
    dict_get "preTokenBalances" meta = VList pre ∧ dict_get "postTokenBalances" meta = VList post
    ∧ one_balance pre payer mint payer_before ∧ one_balance post payer mint payer_after
    ∧ one_balance pre payee mint payee_before ∧ one_balance post payee mint payee_after
    ∧ t = settlement_truth_from_balances (bool_decide (dict_get "err" meta = VNone))
            payer_before payer_after payee_before payee_after
}.

Lemma svm_truth_ok meta mint payer payee t :
  settlement_truth_from_svm_meta meta mint payer payee = Ok t ↔
  ∃ d m p q, meta = VDict d ∧ mint = VStr m ∧ payer = VStr p ∧ payee = VStr q ∧ svm_evidence d m p q t.
Proof.
  unfold settlement_truth_from_svm_meta. split.
  - intros H. inv_res. match goal with x : list pyval * list pyval |- _ => destruct x as [pre post] end.
    inv_res. do 2 (case_match; [|done]). simplify_eq. val_facts.
    repeat match goal with
    | H : _b58 _ _ = Ok _ |- _ => apply b58_ok in H as [-> ?]
    | H : _balance_for _ _ _ _ = Ok _ |- _ => apply balance_for_ok in H
    end.
    bool_facts. subst. do 4 eexists. split_and!; try done. split; [done|..].
    + done.
    + done.
    + do 6 eexists. split_and!; eauto.
  - intros (d & m & p & q & -> & -> & -> & -> & [(Hm & Hp & Hq) Hne He Hb]).
    destruct Hb as (pre & post & pb & pa & qb & qa & Epre & Epost & H1 & H2 & H3 & H4 & ->).
    cbn [as_dict or_raise mbind res_bind].
    rewrite (proj2 (b58_ok (VStr m) _ m)), (proj2 (b58_ok (VStr p) _ p)), (proj2 (b58_ok (VStr q) _ q)) by done.
    cbn. rewrite (proj2 (String.eqb_neq _ _) Hne), He, Epre, Epost. cbn.
    rewrite (proj2 (balance_for_ok pre p m _ pb)), (proj2 (balance_for_ok post p m _ pa)),
      (proj2 (balance_for_ok pre q m _ qb)), (proj2 (balance_for_ok post q m _ qa)) by done. done.
Qed.

(** ** The ledger behind the metadata *)

(** Token amounts by owner and mint. *)
Notation ledger := (gmap (string * string) Z).

(** The entry a node writes for an account. *)
Definition ledger_entry (account : (string * string) * Z) : pyval :=
  VDict (dict_of [
    ("owner", VStr account.1.1); ("mint", VStr account.1.2);
    ("uiTokenAmount", VDict (dict_of [("amount", VStr (to_dec account.2))]))]).

(** The balance list states the ledger, in any order. *)
Definition lists_ledger (balances : list pyval) (accounts : ledger) : Prop :=
  balances ≡ₚ ledger_entry <$> map_to_list accounts
  ∧ map_Forall (λ _ n, 0 ≤ n ≤ _U64_MAX) accounts.

Lemma of_account_entry owner mint a :
  of_account owner mint (ledger_entry a) = true ↔ a.1 = (owner, mint).
Proof.
  destruct a as [[o m] n]. unfold of_account. simpl. rewrite andb_true_iff.
  change (py_eq (VStr o) (VStr owner) = true ∧ py_eq (VStr m) (VStr mint) = true ↔ (o, m) = (owner, mint)).
  rewrite !py_eq_str. naive_solver.
Qed.

Lemma entry_states_amount a : 0 ≤ a.2 ≤ _U64_MAX → states_amount (ledger_entry a) a.2.
Proof.
  intros Ha. do 3 eexists. split_and!; [done..| | |lia|lia].
  - unfold isdigit. rewrite (proj2 (String.eqb_neq _ _)) by apply numw_nonempty, ndigits_pos.
    simpl. eapply str_all_impl, numw_dec. by intros c ->.
  - apply py_int10_to_dec; [lia|].
    assert (ndigits 10 a.2 <= 20)%nat; [|unfold INT_MAX_STR_DIGITS; lia].
    apply ndigits_le; unfold _U64_MAX in *; lia.
Qed.

Lemma filter_unique_key {V} (accounts : gmap (string * string) V) k :
  filter (λ a, a.1 = k) (map_to_list accounts)
  ≡ₚ match accounts !! k with Some n => [(k, n)] | None => [] end.
Proof.
  apply NoDup_Permutation.
  - apply NoDup_filter, NoDup_map_to_list.
  - destruct (accounts !! k); [apply NoDup_singleton|constructor].
  - intros [k' n]. rewrite list_elem_of_filter, elem_of_map_to_list. simpl. split.
    + intros [-> ->]. by apply list_elem_of_singleton.
    + destruct (accounts !! k) eqn:E; [intros [= -> ->]%list_elem_of_singleton|intros ?%elem_of_nil]; done.
Qed.

Lemma listed_balance balances accounts owner mint :
  lists_ledger balances accounts → one_balance balances owner mint (default 0 (accounts !! (owner, mint))).
Proof.
  intros [Hperm Hall]. split.
  - rewrite Hperm. apply Forall_fmap, Forall_true. intros a. by eexists.
  - set (P := λ e, of_account owner mint e = true).
    assert (filter P balances ≡ₚ ledger_entry <$> match accounts !! (owner, mint) with
                                                 | Some n => [((owner, mint), n)] | None => [] end) as Hf.
    { rewrite Hperm, <- filter_unique_key. clear.
      induction (map_to_list accounts) as [|a l IH]; [done|]. csimpl. rewrite !filter_cons.
      pose proof (of_account_entry owner mint a) as Ha. unfold P at 1.
      do 2 destruct (decide _); csimpl; rewrite IH; tauto || done. }
    destruct (accounts !! (owner, mint)) as [n|] eqn:E; simpl in Hf.
    + apply Permutation_singleton_r in Hf as ->. apply (entry_states_amount (_, n)).
      by apply (Hall _ _ E).
    + by apply Permutation_nil_r in Hf as ->.
Qed.

(** * Properties *)


(** Only proven balances are graded, and a failed transaction never counts
    as a payment.  A truth that is returned rests on well-formed, distinct
    parties and, for each of the four balances, on the single account entry of
    that owner and mint (or its absence); if the node reports an error then the
    detector grades belief in payment as a phantom credit and disbelief as
    consistent, whatever the balances and the required amount. *)
Theorem svm_verdict_sound meta mint payer payee t :
  settlement_truth_from_svm_meta meta mint payer payee = Ok t →
  ∃ d m p q, meta = VDict d ∧ mint = VStr m ∧ payer = VStr p ∧ payee = VStr q ∧ svm_evidence d m p q t
  ∧ (dict_get "err" d ≠ VNone → ∀ believes required,
       kind (detect_payment_divergence t believes required)
       = if believes then PHANTOM_CREDIT else CONSISTENT_UNPAID).
Proof.
  intros (d & m & p & q & -> & -> & -> & -> & He)%svm_truth_ok.
  exists d, m, p, q. split_and!; try done. intros Herr believes required.
  destruct (evidence_balances _ _ _ _ _ He) as (? & ? & ? & ? & ? & ? & _ & _ & _ & _ & _ & _ & ->).
  unfold detect_payment_divergence, funds_moved. simpl.
  rewrite bool_decide_eq_false_2 by done. by destruct believes.
Qed.

(** The table of Solana rails is sound: it answers exactly its keys, with
    read-only rails of a known network and token program whose mint is base58
    and whose decimals are the reviewed ones. *)
Theorem get_svm_rail_sound k :
  match get_svm_rail k with
  | Ok r => k = "usdc-solana-devnet" ∧ key r = k ∧ network r ∈ SOLANA_NETWORKS
            ∧ token_program r ∈ _TOKEN_PROGRAMS ∧ _BASE58_RE (rail_mint r) = true
            ∧ signing_enabled r = false ∧ expected_decimals (attestation r) = decimals r
  | Raise e => k ≠ "usdc-solana-devnet" ∧ exn_cls e = KeyError
  end.
Proof.
  assert (∃ r, SVM_RAILS = Ok [("usdc-solana-devnet", r)] ∧ key r = "usdc-solana-devnet"
    ∧ check_rail r = Ok r) as (r & E & Hk & Hr).
  { eexists. split_and!; vm_compute; reflexivity. }
  unfold get_svm_rail. rewrite E. simpl. destruct (decide (k = "usdc-solana-devnet")) as [->|]; [|done].
  simpl. unfold check_rail in Hr. inv_res. bool_facts.
  split_and!; try done; by apply Rails.str_in_elem.
Qed.

(** ** Concrete inputs *)

Definition sample_payer : string := "PayerPayerPayerPayerPayerPayerPayerPayer".
Definition sample_payee : string := "MerchantMerchantMerchantMerchantMerchant".
Definition sample_mint : string := "4zMMC9srt5Ri5X14GAgXhaHii3GnPAEERYPJgZJDncDU".
Definition ledger_before : ledger := {[ (sample_payer, sample_mint) := 5000000 ]}.
Definition ledger_after : ledger :=
  <[(sample_payee, sample_mint) := 2000000]> {[ (sample_payer, sample_mint) := 3000000 ]}.
Definition sample_meta (err : pyval) : pydict := dict_of [
  ("err", err);
  ("preTokenBalances", VList (ledger_entry <$> map_to_list ledger_before));
  ("postTokenBalances", VList (ledger_entry <$> map_to_list ledger_after))].


Lemma svm_verdict_sound_witness :
  ∃ t, settlement_truth_from_svm_meta (VDict (sample_meta (VStr "InstructionError")))
         (VStr sample_mint) (VStr sample_payer) (VStr sample_payee) = Ok t
       ∧ kind (detect_payment_divergence t true None) = PHANTOM_CREDIT.
Proof.
  assert (settlement_truth_from_svm_meta (VDict (sample_meta (VStr "InstructionError")))
            (VStr sample_mint) (VStr sample_payer) (VStr sample_payee)
          = Ok (settlement_truth_from_balances false 5000000 3000000 0 2000000)) as E
    by (vm_compute; reflexivity).
  eexists. split; [exact E|].
  destruct (svm_verdict_sound _ _ _ _ _ E) as (d & m & p & q & Ed & _ & _ & _ & _ & H).
  injection Ed as <-. refine (H _ true None). vm_compute. intros Hn. discriminate Hn.
Defined.

(** A superscript digit passes [isdigit] and is refused by [int]: the error is a
    plain [ValueError], not the documented [SvmEvidenceError]. *)
Example superscript_amount_plain_value_error :
  _amount (VStr (String "178" "")) "pre payer amount"
  = raise ValueError "invalid literal for int() with base 10".
Proof. vm_compute. reflexivity. Qed.
