(* ===== verification/Report.v ===== *)
(** * Reconciliation reports ([psv/report.py])

    A verdict and the evidence it was proved from become one immutable record
    with a JSON document, a Markdown text and an exit code.  The theorems: a
    report that renders is read back from its JSON text as the same document,
    which the document validator accepts; the validators reject exactly what
    they promise to; and the exit code is the verdict.

    The prose of a verdict is rendered here from the templates of [Divergence];
    characters beyond Latin-1 are written by the bytes of their UTF-8 encoding. *)

From S2P Require Import Prelude PyStr PyVal PyJson PyTime.
From S2P Require Import Divergence.
From S2P Require Rails RailsLive.
Local Open Scope Z_scope.

Definition REPORT_VERSION : string := "2.0".
Definition REPORT_SCHEMA_ID : string :=
  "https://github.com/moped2110/psv/schemas/reconciliation-report-v2.json".
Definition PRIVACY_POLICY : string :=
  "Contains public on-chain identifiers and caller-supplied payment metadata; "
  +:+ "RPC URLs, credentials, signatures, and private keys are never included.".

Definition _REASON_CODES : list (string * string) := [
  ("consistent_paid", "PSV-RECON-CONSISTENT-PAID");
  ("consistent_unpaid", "PSV-RECON-CONSISTENT-UNPAID");
  ("silent_loss", "PSV-RECON-SILENT-LOSS");
  ("phantom_credit", "PSV-RECON-PHANTOM-CREDIT");
  ("underpaid_credit", "PSV-RECON-UNDERPAID-CREDIT")].

(** ** Text with numbers *)

Definition str_bool (b : bool) : string := if b then "True" else "False".

(** [f"{n:+d}"] *)
Definition plus_d (n : Z) : string := if n <? 0 then str_of_Z n else "+" +:+ str_of_Z n.

(** The pieces of an f-string. *)
Inductive piece :=
  | T (s : string)
  | N (n : Z)
  | ON (n : option Z)
  | B (b : bool).

Definition piece_text (p : piece) : res string :=
  match p with
  | T s => Ok s
  | N n => str_int n
  | ON None => Ok "None"
  | ON (Some n) => str_int n
  | B b => Ok (str_bool b)
  end.
Definition fstring (ps : list piece) : res string := join "" <$> map_res piece_text ps.

(** The message of a verdict; the amounts in it are differences of [uint256]
    numbers. *)
Definition message_text (m : message) : string :=
  match m with
  | MsgUnderpaid received required short =>
      "UNDERPAID CREDIT: the SUT credited the order as paid, but the merchant "
      +:+ "received " +:+ str_of_Z received +:+ " on-chain against a required "
      +:+ str_of_Z required +:+ " — short by " +:+ str_of_Z short
      +:+ ". The order is handed out for "
      +:+ "less than its price: a partial payment, or a fee-on-transfer / rebasing "
      +:+ "token skimming the difference, waved through as full settlement."
  | MsgPaid received_of_required =>
      "Funds moved on-chain and the SUT correctly registered the payment."
      +:+ match received_of_required with
          | Some (received, required) =>
              " Received " +:+ str_of_Z received +:+ " >= required " +:+ str_of_Z required +:+ "."
          | None => ""
          end
  | MsgUnpaid => "No funds moved and the SUT correctly treats the order as unpaid."
  | MsgSilentLoss payer payee consumed =>
      "SILENT LOSS: the payer was debited and the merchant credited on-chain "
      +:+ "(payer " +:+ plus_d payer +:+ ", payee " +:+ plus_d payee +:+ ", nonce "
      +:+ "consumed=" +:+ str_bool consumed +:+ "), but the SUT believes the order is "
      +:+ "unpaid. The customer paid and gets nothing — the classic SC1 symptom of "
      +:+ "a settlement event the system stopped recognizing."
  | MsgPhantomCredit consumed payee =>
      "PHANTOM CREDIT: the SUT believes the order is paid, but no funds moved "
      +:+ "on-chain (nonce consumed=" +:+ str_bool consumed +:+ ", payee delta "
      +:+ plus_d payee +:+ "). The resource is handed out for free."
  | MsgOverAuthorized received authorized over =>
      "OVER-AUTHORIZED SETTLEMENT: the SUT credited an upto (metered) order, but "
      +:+ "the merchant received " +:+ str_of_Z received +:+ " on-chain against an authorized "
      +:+ "maximum of " +:+ str_of_Z authorized +:+ " — over by " +:+ str_of_Z over
      +:+ ". The facilitator settled "
      +:+ "beyond the client's cap; an upto authorization MUST settle at most the "
      +:+ "authorized maximum."
  | MsgMeteredPaid received authorized =>
      "Funds moved on-chain (" +:+ str_of_Z received +:+ ") within the authorized maximum "
      +:+ str_of_Z authorized +:+ ", and the SUT correctly registered the metered payment."
  | MsgMeteredUnpaid => "No funds moved and the SUT correctly treats the metered order as unpaid."
  | MsgMeteredSilentLoss payer payee consumed =>
      "SILENT LOSS: the payer was debited and the merchant credited on-chain "
      +:+ "(payer " +:+ plus_d payer +:+ ", payee " +:+ plus_d payee +:+ ", nonce "
      +:+ "consumed=" +:+ str_bool consumed +:+ "), but the SUT believes the metered order is "
      +:+ "unpaid. The customer paid and gets nothing."
  | MsgMeteredPhantomCredit consumed payee =>
      "PHANTOM CREDIT: the SUT believes the metered order is paid, but no funds moved "
      +:+ "on-chain (nonce consumed=" +:+ str_bool consumed +:+ ", payee delta "
      +:+ plus_d payee +:+ "). Either nothing settled, or a consumed upto "
      +:+ "authorization was replayed and credited again. The resource is handed out free."
  end.

(** ** The report *)

Record ReconReport := {
  generated_at : string;
  rail_key : string;
  rail_label : string;
  chain_id : Z;
  token_address : string;
  payer : string;
  payee : string;
  nonce : string;
  sut_believes_paid : bool;
  report_kind : string;
  report_severity : string;
  reason_code : string;
  report_message : string;
  report_is_failure : bool;
  evidence : RailsLive.ChainEvidence
}.

(** [now] is the clock of a caller that injects no timestamp. *)
Definition build (now : datetime) (rail : Rails.RailConfig) (payer payee nonce : string)
    (sut_believes_paid : bool) (divergence : Divergence) (evidence : RailsLive.ChainEvidence)
    (generated_at : option datetime) : res ReconReport :=
  let when := default now generated_at in
  raise_if (negb (is_aware when)) ValueError "generated_at must be timezone-aware" ;;
  raise_if (negb (RailsLive.ev_chain_id evidence =? Rails.rail_chain_id rail)
            || negb (RailsLive.ev_token_address evidence =? lower (Rails.token_address rail))%string)
    ValueError "evidence does not match the selected rail" ;;
  generated ← utc_text when;
  code ← or_raise (od_get (kind_value (kind divergence)) _REASON_CODES) KeyError
           (kind_value (kind divergence));
  Ok {| generated_at := generated;
        rail_key := Rails.key rail;
        rail_label := Rails.label rail;
        chain_id := Rails.rail_chain_id rail;
        token_address := lower (Rails.token_address rail);
        payer := lower payer;
        payee := lower payee;
        nonce := lower nonce;
        sut_believes_paid := sut_believes_paid;
        report_kind := kind_value (kind divergence);
        report_severity := severity_value (severity divergence);
        reason_code := code;
        report_message := message_text (msg divergence);
        report_is_failure := is_failure divergence;
        evidence := evidence |}.

Definition opt_str (o : option string) : pyval := match o with Some s => VStr s | None => VNone end.
Definition opt_int (o : option Z) : pyval := match o with Some n => VInt n | None => VNone end.
Definition object (kvs : list (string * pyval)) : pyval := VDict (dict_of kvs).

(** The ["evidence"] member of the document. *)
Definition evidence_dict (e : RailsLive.ChainEvidence) : pyval := object [
  ("chainId", VInt (RailsLive.ev_chain_id e));
  ("finalityBlock", object [
     ("number", VInt (RailsLive.finality_block_number e));
     ("hash", VStr (RailsLive.finality_block_hash e));
     ("tag", VStr (RailsLive.finality_block_tag e));
     ("confirmations", VInt (RailsLive.ev_confirmations e))]);
  ("settlementBlock", object [
     ("number", VInt (RailsLive.settlement_block_number e));
     ("hash", VStr (RailsLive.settlement_block_hash e))]);
  ("transaction", object [
     ("hash", VStr (RailsLive.ev_transaction_hash e));
     ("receiptStatus", VInt (RailsLive.receipt_status e));
     ("logIndex", opt_int (RailsLive.ev_log_index e));
     ("authorizationLogIndex", opt_int (RailsLive.authorization_log_index e));
     ("removed", VBool (RailsLive.ev_removed e))]);
  ("token", object [
     ("address", VStr (RailsLive.ev_token_address e));
     ("codeSha256", VStr (RailsLive.token_code_sha256 e));
     ("implementationAddress", opt_str (RailsLive.ev_implementation_address e));
     ("implementationCodeSha256", opt_str (RailsLive.ev_implementation_code_sha256 e));
     ("railAttestationVersion", VStr (RailsLive.rail_attestation_version e))]);
  ("authorization", object [
     ("payer", VStr (RailsLive.ev_payer e));
     ("payee", VStr (RailsLive.ev_payee e));
     ("nonce", VStr (RailsLive.ev_nonce e));
     ("nonceConsumed", VBool (RailsLive.ev_nonce_consumed e));
     ("eventValue", opt_int (RailsLive.event_value e))]);
  ("balances", object [
     ("payerBefore", VInt (RailsLive.ev_payer_balance_before e));
     ("payerAfter", VInt (RailsLive.ev_payer_balance_after e));
     ("payeeBefore", VInt (RailsLive.ev_payee_balance_before e));
     ("payeeAfter", VInt (RailsLive.ev_payee_balance_after e));
     ("requiredAmount", VInt (RailsLive.ev_required_amount e));
     ("receivedAmount", VInt (RailsLive.received_amount e))])].

Definition tool_member : pyval :=
  object [("name", VStr "psv"); ("mode", VStr "reconcile"); ("readOnly", VBool true)].

Definition to_dict (r : ReconReport) : pydict := dict_of [
  ("$schema", VStr REPORT_SCHEMA_ID);
  ("reportVersion", VStr REPORT_VERSION);
  ("tool", tool_member);
  ("generatedAt", VStr (generated_at r));
  ("privacy", object [("policy", VStr PRIVACY_POLICY)]);
  ("rail", object [
     ("key", VStr (rail_key r)); ("label", VStr (rail_label r));
     ("chainId", VInt (chain_id r)); ("token", VStr (token_address r))]);
  ("payment", object [
     ("payer", VStr (payer r)); ("payee", VStr (payee r)); ("nonce", VStr (nonce r));
     ("sutBelievesPaid", VBool (sut_believes_paid r));
     ("requiredAmount", VInt (RailsLive.ev_required_amount (evidence r)));
     ("receivedAmount", VInt (RailsLive.received_amount (evidence r)))]);
  ("evidence", evidence_dict (evidence r));
  ("divergence", object [
     ("kind", VStr (report_kind r)); ("severity", VStr (report_severity r));
     ("reasonCode", VStr (reason_code r)); ("message", VStr (report_message r));
     ("isFailure", VBool (report_is_failure r))])].

Definition required_members : list string :=
  ["$schema"; "reportVersion"; "tool"; "generatedAt"; "privacy"; "rail"; "payment"; "evidence";
   "divergence"].

Definition validate (r : ReconReport) : res unit :=
  let doc := to_dict r in
  raise_if (negb (dict_keys_are required_members doc)
            || negb (py_eq (dict_get "reportVersion" doc) (VStr REPORT_VERSION))) ValueError
    "invalid reconciliation report envelope" ;;
  raise_if (negb (bool_decide (Some (reason_code r) = od_get (report_kind r) _REASON_CODES)))
    ValueError "invalid divergence reason code" ;;
  raise_if ((RailsLive.ev_required_amount (evidence r) <=? 0)
            || (RailsLive.received_amount (evidence r) <? 0)) ValueError
    "invalid report amount evidence" ;;
  raise_if (negb (RailsLive.ev_chain_id (evidence r) =? chain_id r)) ValueError
    "report and evidence chain IDs differ".

Definition to_json (r : ReconReport) : res string :=
  validate r ;; dumps (pretty_sorted 2) (VDict (to_dict r)).

Definition markdown_lines (r : ReconReport) : list (list piece) :=
  let e := evidence r in [
  [T "# psv reconciliation report"];
  [T ""];
  [T "_Read-only: psv read the chain and compared it to the system's belief. No funds moved._"];
  [T ""];
  [T "**Verdict:** "; T (if report_is_failure r then "DIVERGENCE" else "CONSISTENT"); T " - `";
   T (report_kind r); T "` ("; T (report_severity r); T ")"];
  [T "**Reason code:** `"; T (reason_code r); T "`"];
  [T "**Rail:** "; T (rail_label r); T " (`"; T (rail_key r); T "`, chainId "; N (chain_id r); T ")"];
  [T "**Token:** `"; T (token_address r); T "`"];
  [T "**Payer:** `"; T (payer r); T "` -> **Payee:** `"; T (payee r); T "`"];
  [T "**Nonce:** `"; T (nonce r); T "`"];
  [T "**Transaction:** `"; T (RailsLive.ev_transaction_hash e); T "` (receipt status ";
   N (RailsLive.receipt_status e); T ")"];
  [T "**Log:** `"; ON (RailsLive.ev_log_index e); T "`; authorization log `";
   ON (RailsLive.authorization_log_index e); T "`"];
  [T "**Settlement block:** "; N (RailsLive.settlement_block_number e); T " `";
   T (RailsLive.settlement_block_hash e); T "`"];
  [T "**Finality:** "; T (RailsLive.finality_block_tag e); T " block ";
   N (RailsLive.finality_block_number e); T ", "; N (RailsLive.ev_confirmations e);
   T " confirmations"];
  [T "**Amount:** required "; N (RailsLive.ev_required_amount e); T "; received ";
   N (RailsLive.received_amount e); T "; event "; ON (RailsLive.event_value e)];
  [T "**Balances:** payer "; N (RailsLive.ev_payer_balance_before e); T " -> ";
   N (RailsLive.ev_payer_balance_after e); T "; payee "; N (RailsLive.ev_payee_balance_before e);
   T " -> "; N (RailsLive.ev_payee_balance_after e)];
  [T "**System believed paid:** "; B (sut_believes_paid r)];
  [T ""];
  [T "> "; T (report_message r)];
  [T ""];
  [T "Privacy: "; T PRIVACY_POLICY];
  [T ""]].

Definition to_markdown (r : ReconReport) : res string :=
  validate r ;; join (String LF "") <$> map_res fstring (markdown_lines r).

Definition as_dict : ReconReport → pydict := to_dict.

Definition exit_code (r : ReconReport) : Z := if report_is_failure r then 1 else 0.

Definition validate_report_document (document : pydict) : res unit :=
  raise_if (negb (py_eq (dict_get "reportVersion" document) (VStr REPORT_VERSION))) ValueError
    "unsupported report version" ;;
  raise_if (negb (py_eq (dict_get "$schema" document) (VStr REPORT_SCHEMA_ID))) ValueError
    "unknown report schema" ;;
  raise_if (negb (py_eq (dict_get "tool" document) tool_member)) ValueError
    "invalid tool metadata" ;;
  '(rail, evidence) ← or_raise (match PyVal.as_dict (dict_get "rail" document),
                                      PyVal.as_dict (dict_get "evidence" document) with
                                | Some rail, Some evidence => Some (rail, evidence)
                                | _, _ => None
                                end) ValueError "rail/evidence must be objects";
  raise_if (negb (py_eq (dict_get "chainId" rail) (dict_get "chainId" evidence))) ValueError
    "report and evidence chain IDs differ".

(** * Lemmas *)

Lemma validate_ok r :
  validate r = Ok tt ↔
  od_get (report_kind r) _REASON_CODES = Some (reason_code r)
  ∧ 0 < RailsLive.ev_required_amount (evidence r) ∧ 0 ≤ RailsLive.received_amount (evidence r)
  ∧ RailsLive.ev_chain_id (evidence r) = chain_id r.
Proof.
  unfold validate. change (dict_keys_are _ _) with true. cbn [negb orb].
  change (py_eq _ _) with true. split.
  - intros Hv. inv_res. bool_facts.
    split_and!; [done|..|done]; lia.
  - intros (Hc & ? & ? & He). rewrite bool_decide_eq_true_2 by done. cbn.
    rewrite (proj2 (Z.leb_gt _ _)), (proj2 (Z.ltb_ge _ _)) by done. cbn. by rewrite He, Z.eqb_refl.
Qed.

(** A value whose dicts have distinct keys and whose floats round-trip. *)
Definition plain_value (v : pyval) : Prop := value_wf v = true ∧ floats_ok v = true.

Lemma object_plain kvs :
  bool_decide (NoDup kvs.*1) = true → Forall (λ kv, plain_value kv.2) kvs → plain_value (object kvs).
Proof.
  intros Hd%bool_decide_eq_true Hall. unfold object, plain_value. cbn [value_wf floats_ok].
  rewrite bool_decide_eq_true_2.
  - split; [apply andb_true_iff; split; [done|]|];
      apply forallb_forall; intros p Hp%list_elem_of_In;
      apply list_elem_of_fmap in Hp as (kv & -> & Hkv); by destruct (proj1 (Forall_forall _ _) Hall _ Hkv).
  - unfold dict_of. rewrite <- list_fmap_compose.
    change ((fst ∘ (λ kv : string * pyval, (KStr kv.1, kv.2))) <$> kvs) with ((KStr ∘ fst) <$> kvs).
    rewrite list_fmap_compose. apply NoDup_fmap_2; [intros ?? [= ->]; done|done].
Qed.

Lemma opt_str_plain o : plain_value (opt_str o).
Proof. by destruct o. Qed.
Lemma opt_int_plain o : plain_value (opt_int o).
Proof. by destruct o. Qed.

Ltac plain :=
  lazymatch goal with
  | |- plain_value (opt_str _) => apply opt_str_plain
  | |- plain_value (opt_int _) => apply opt_int_plain
  | |- plain_value (object _) => apply object_plain; [vm_compute; reflexivity|plain]
  | |- plain_value (VDict (dict_of _)) => apply object_plain; [vm_compute; reflexivity|plain]
  | |- Forall _ [] => constructor
  | |- Forall _ (_ :: _) => constructor; [cbn [snd]; plain|plain]
  | |- _ => done
  end.

Lemma py_eq_int n : py_eq (VInt n) (VInt n) = true.
Proof. unfold py_eq, scalar_eq. cbn. apply Z.eqb_refl. Qed.

(** Sorting an object keeps its members. *)
Lemma sorted_member kvs :
  plain_value (object kvs) →
  ∃ d, PyVal.as_dict (sort_members (object kvs)) = Some d
       ∧ ∀ k, dict_get k d = sort_members (dict_get k (dict_of kvs)).
Proof.
  intros [Hw _]. unfold object in Hw. cbn [value_wf] in Hw. bool_facts. eexists. split; [reflexivity|].
  intros k. by apply dict_get_sorted.
Qed.

Lemma to_dict_plain r : plain_value (VDict (to_dict r)).
Proof. unfold to_dict, evidence_dict, tool_member. plain. Qed.

Lemma to_dict_nodup r : NoDup (to_dict r).*1.
Proof. destruct (to_dict_plain r) as [H _]. cbn [value_wf] in H. by bool_facts. Qed.

(** ** A document determines its report *)

Lemma same_object kvs kvs' :
  bool_decide (NoDup kvs.*1) = true → kvs.*1 = kvs'.*1 → same_value (object kvs) (object kvs') →
  Forall2 (λ a b, same_value a.2 b.2) kvs kvs'.
Proof.
  intros Hd%bool_decide_eq_true Hk Hs.
  assert (∀ l : list (string * pyval), NoDup l.*1 → NoDup (dict_of l).*1) as Hnd.
  { intros l Hl. unfold dict_of. rewrite <- list_fmap_compose.
    change ((fst ∘ (λ kv : string * pyval, (KStr kv.1, kv.2))) <$> l) with ((KStr ∘ fst) <$> l).
    rewrite list_fmap_compose. apply NoDup_fmap_2; [intros ?? [= ->]; done|done]. }
  assert (∀ l i k v, NoDup l.*1 → l !! i = Some (k, v) → dict_lookup k (dict_of l) = Some v) as Hl.
  { intros l i k v Hn Hi. rewrite <- find_key_str. apply find_key_elem; [by apply Hnd|].
    apply list_elem_of_fmap. exists (k, v). split; [done|]. by eapply list_elem_of_lookup_2. }
  apply Forall2_same_length_lookup. split.
  { apply (f_equal length) in Hk. by rewrite !length_fmap in Hk. }
  intros i [k v] [k' w] Hi Hi'.
  assert (k = k') as <-.
  { apply (f_equal (λ l, l !! i)) in Hk. rewrite !list_lookup_fmap, Hi, Hi' in Hk. by injection Hk. }
  pose proof (same_value_lookup _ _ k (Hnd _ Hd) ltac:(apply Hnd; by rewrite <- Hk) Hs) as Ho.
  rewrite (Hl _ _ _ _ Hd Hi), (Hl _ i k w) in Ho; [by inversion Ho|by rewrite <- Hk|done].
Qed.

Lemma same_opt_str a b : same_value (opt_str a) (opt_str b) → a = b.
Proof. destruct a, b; by intros [=]; subst. Qed.
Lemma same_opt_int a b : same_value (opt_int a) (opt_int b) → a = b.
Proof. destruct a, b; by intros [=]; subst. Qed.

Ltac same_parts :=
  repeat match goal with
  | H : same_value (object _) (object _) |- _ => apply same_object in H; [|vm_compute; reflexivity|reflexivity]
  | H : Forall2 _ (_ :: _) (_ :: _) |- _ => apply Forall2_cons_1 in H as [? H]; cbn [snd] in *
  | H : Forall2 _ [] [] |- _ => clear H
  | H : same_value (VStr _) (VStr _) |- _ => injection H as H
  | H : same_value (VInt _) (VInt _) |- _ => injection H as H
  | H : same_value (VBool _) (VBool _) |- _ => injection H as H
  | H : same_value (opt_str _) (opt_str _) |- _ => apply same_opt_str in H
  | H : same_value (opt_int _) (opt_int _) |- _ => apply same_opt_int in H
  end.

Lemma same_evidence e e' : same_value (evidence_dict e) (evidence_dict e') → e = e'.
Proof. unfold evidence_dict. intros H. same_parts. destruct e, e'; simpl in *. by subst. Qed.

Lemma same_report r r' : same_value (VDict (to_dict r)) (VDict (to_dict r')) → r = r'.
Proof.
  unfold to_dict. intros H.
  lazymatch type of H with
  | same_value (VDict (dict_of ?l)) (VDict (dict_of ?l')) => change (same_value (object l) (object l')) in H
  end.
  same_parts.
  match goal with E : same_value (evidence_dict _) (evidence_dict _) |- _ => apply same_evidence in E end.
  destruct r, r'; simpl in *. by subst.
Qed.

(** ** Building *)

Lemma report_built now rail p q n believes d e t r :
  build now rail p q n believes d e t = Ok r →
  is_aware (default now t) = true ∧ utc_text (default now t) = Ok (generated_at r)
  ∧ RailsLive.ev_chain_id e = Rails.rail_chain_id rail
  ∧ RailsLive.ev_token_address e = lower (Rails.token_address rail)
  ∧ chain_id r = Rails.rail_chain_id rail ∧ evidence r = e
  ∧ report_kind r = kind_value (kind d) ∧ report_is_failure r = is_failure d
  ∧ od_get (report_kind r) _REASON_CODES = Some (reason_code r)
  ∧ payer r = lower p ∧ payee r = lower q ∧ nonce r = lower n ∧ sut_believes_paid r = believes.
Proof. unfold build. intros H. inv_res. bool_facts. by split_and!. Qed.

(** Only a metered verdict has no reason code. *)
Lemma reason_code_known k :
  k ≠ OVER_AUTHORIZED_SETTLEMENT → is_Some (od_get (kind_value k) _REASON_CODES).
Proof. destruct k; try done; intros _; by eexists. Qed.

Lemma build_succeeds now rail p q n believes d e t g :
  is_aware (default now t) = true → utc_text (default now t) = Ok g →
  RailsLive.ev_chain_id e = Rails.rail_chain_id rail →
  RailsLive.ev_token_address e = lower (Rails.token_address rail) →
  kind d ≠ OVER_AUTHORIZED_SETTLEMENT →
  ∃ r, build now rail p q n believes d e t = Ok r.
Proof.
  intros Ha Hg Hc Ht [code Hk]%reason_code_known. unfold build.
  cbv zeta. rewrite Ha, Hc, Ht, Z.eqb_refl, String.eqb_refl, Hg, Hk. by eexists.
Qed.

(** ** Rendering *)

Definition prints (n : Z) : Prop := Z.of_nat (ndigits 10 (Z.abs n)) ≤ INT_MAX_STR_DIGITS.

Lemma str_int_ok n : prints n → str_int n = Ok (str_of_Z n).
Proof. unfold str_int, prints. intros H. by rewrite (proj2 (Z.ltb_ge _ _)). Qed.

Lemma prints_bound n : prints n → Z.abs n < 10 ^ INT_MAX_STR_DIGITS.
Proof.
  unfold prints. intros H. destruct (ndigits_spec 10 (Z.abs n)) as [Hn _]; [lia..|].
  eapply Z.lt_le_trans; [exact Hn|]. apply Z.pow_le_mono_r; lia.
Qed.

(** The numbers of a piece that have to be printed. *)
Definition piece_prints (p : piece) : Prop :=
  match p with N n | ON (Some n) => prints n | _ => True end.

Lemma str_int_prints n : is_ok (str_int n) = true ↔ prints n.
Proof.
  unfold str_int, prints. destruct (Z.ltb_spec INT_MAX_STR_DIGITS (Z.of_nat (ndigits 10 (Z.abs n))));
    simpl; split; done || lia.
Qed.

Lemma is_ok_fmap {A B} (f : A → B) (m : res A) : is_ok (f <$> m) = is_ok m.
Proof. by destruct m. Qed.
Lemma is_ok_map_res {A B} (f : A → res B) l :
  is_ok (map_res f l) = true ↔ Forall (λ x, is_ok (f x) = true) l.
Proof.
  induction l as [|x l IH]; [done|]. rewrite Forall_cons, <- IH. simpl.
  destruct (f x), (map_res f l); simpl; naive_solver.
Qed.

Lemma fstring_prints ps : is_ok (fstring ps) = true ↔ Forall piece_prints ps.
Proof.
  unfold fstring. rewrite is_ok_fmap, is_ok_map_res. apply Forall_proper; [|done].
  intros [s|n|[n|]|b]; simpl; try done; apply str_int_prints.
Qed.

(** A valid report renders exactly when all its numbers can be printed. *)
Lemma markdown_prints r :
  is_ok (to_markdown r) = true ↔
  validate r = Ok tt ∧ Forall (Forall piece_prints) (markdown_lines r).
Proof.
  unfold to_markdown. destruct (validate r) as [[]|e]; cbn [mbind res_bind]; [|naive_solver].
  rewrite is_ok_fmap, is_ok_map_res.
  rewrite (Forall_proper _ (λ ps, Forall piece_prints ps) fstring_prints _ _ eq_refl). naive_solver.
Qed.

Lemma unprintable_block r :
  10 ^ INT_MAX_STR_DIGITS ≤ RailsLive.finality_block_number (evidence r) → is_ok (to_markdown r) = false.
Proof.
  intros Hn. destruct (is_ok (to_markdown r)) eqn:E; [|done].
  apply markdown_prints in E as [_ E]. unfold markdown_lines in E.
  do 13 apply Forall_cons_1 in E as [_ E]. apply Forall_cons_1 in E as [E _].
  do 3 apply Forall_cons_1 in E as [_ E]. apply Forall_cons_1 in E as [E%prints_bound _]. lia.
Qed.

Lemma throws_str_int n : throws [ValueError] (str_int n).
Proof. unfold str_int. solve_throws. Qed.
#[local] Hint Resolve throws_str_int : py.
Lemma throws_fstring ps : throws [ValueError] (fstring ps).
Proof.
  unfold fstring. apply throws_fmap, throws_map_res. intros [s|n|[n|]|b]; simpl; solve_throws.
Qed.
Lemma throws_validate r : throws [ValueError] (validate r).
Proof. unfold validate. solve_throws. Qed.
#[local] Hint Resolve throws_fstring throws_validate : py.
Lemma throws_to_markdown r : throws [ValueError] (to_markdown r).
Proof. unfold to_markdown. solve_throws. Qed.

(** * Properties *)

(** C23: a report survives its text.  Whatever a report renders to is read back
    as its own document with the members sorted, the validator accepts that
    document, and no other report renders to the same text. *)
Theorem report_text_roundtrip r s :
  to_json r = Ok s →
  ∃ doc, loads s = Ok (VDict doc) ∧ VDict doc = sort_members (VDict (to_dict r))
    ∧ validate_report_document doc = Ok tt
    ∧ ∀ r', to_json r' = Ok s → r' = r.
Proof.
  unfold to_json. intros ([] & Hv & Hs)%res_bind_ok. destruct (to_dict_plain r) as [Hw Hf].
  assert (style_ok (pretty_sorted 2)) as Hst by (split; set_solver).
  assert (loads s = Ok (sort_members (VDict (to_dict r)))) as Hload.
  { rewrite <- (str_app_nil_r s). by apply (loads_dumps (pretty_sorted 2) _ s ""). }
  exists (sorted_by key_leb ((λ p, (p.1, sort_members p.2)) <$> to_dict r)).
  split_and!; [exact Hload|reflexivity|..].
  - apply validate_ok in Hv as (_ & _ & _ & Hc).
    assert (∀ k, dict_get k (sorted_by key_leb ((λ p, (p.1, sort_members p.2)) <$> to_dict r))
                 = sort_members (dict_get k (to_dict r))) as Hget
      by (intros k; apply dict_get_sorted, to_dict_nodup).
    unfold validate_report_document. rewrite !Hget.
    change (py_eq (sort_members (dict_get "reportVersion" _)) _) with true.
    change (py_eq (sort_members (dict_get "$schema" _)) _) with true.
    replace (py_eq (sort_members (dict_get "tool" _)) _) with true by (vm_compute; reflexivity).
    destruct (sorted_member [("key", VStr (rail_key r)); ("label", VStr (rail_label r));
                ("chainId", VInt (chain_id r)); ("token", VStr (token_address r))])
      as (dr & Er & Hr); [plain|].
    unfold evidence_dict in *. edestruct sorted_member as (de & Ee & He).
    2: { change (dict_get "rail" (to_dict r)) with (object [
           ("key", VStr (rail_key r)); ("label", VStr (rail_label r));
           ("chainId", VInt (chain_id r)); ("token", VStr (token_address r))]).
         change (dict_get "evidence" (to_dict r)) with (evidence_dict (evidence r)).
         unfold evidence_dict. rewrite Er, Ee. cbn [or_raise mbind res_bind negb raise_if].
         rewrite Hr, He. cbn -[py_eq]. by rewrite Hc, py_eq_int. }
    plain.
  - intros r' ([] & _ & Hs')%res_bind_ok. apply same_report.
    destruct (to_dict_plain r') as [_ Hf']. by apply (dumps_inj (pretty_sorted 2) _ _ s).
Qed.

(** ** Concrete inputs *)

Definition sample_evidence (token : string) (block value : Z) : RailsLive.ChainEvidence := {|
  RailsLive.ev_chain_id := 84532; RailsLive.finality_block_number := block + 1;
  RailsLive.finality_block_hash := "0x22"; RailsLive.finality_block_tag := "latest";
  RailsLive.ev_confirmations := 2; RailsLive.settlement_block_number := block;
  RailsLive.settlement_block_hash := "0x21"; RailsLive.ev_transaction_hash := "0x11";
  RailsLive.receipt_status := 1; RailsLive.ev_log_index := Some 1;
  RailsLive.authorization_log_index := Some 0; RailsLive.ev_token_address := token;
  RailsLive.token_code_sha256 := "c0de"; RailsLive.ev_implementation_address := None;
  RailsLive.ev_implementation_code_sha256 := None; RailsLive.rail_attestation_version := "v";
  RailsLive.ev_payer := "0xbb"; RailsLive.ev_payee := "0xcc"; RailsLive.ev_nonce := "0x33";
  RailsLive.event_value := Some value; RailsLive.ev_required_amount := 10;
  RailsLive.received_amount := value; RailsLive.ev_payer_balance_before := 100;
  RailsLive.ev_payer_balance_after := 100 - value; RailsLive.ev_payee_balance_before := 0;
  RailsLive.ev_payee_balance_after := value; RailsLive.ev_nonce_consumed := true;
  RailsLive.ev_removed := false |}.
Definition sample_report (block : Z) : ReconReport := {|
  generated_at := "2026-07-18T12:00:00+00:00"; rail_key := "r"; rail_label := "sample";
  chain_id := 84532; token_address := "0xaa"; payer := "0xbb"; payee := "0xcc"; nonce := "0x33";
  sut_believes_paid := false; report_kind := "silent_loss"; report_severity := "critical";
  reason_code := "PSV-RECON-SILENT-LOSS";
  report_message := message_text (MsgSilentLoss (-10) 10 true); report_is_failure := true;
  evidence := sample_evidence "0xaa" block 10 |}.

Lemma report_text_roundtrip_witness :
  ∃ s doc, to_json (sample_report 16) = Ok s ∧ loads s = Ok (VDict doc)
           ∧ validate_report_document doc = Ok tt.
Proof.
  destruct (to_json (sample_report 16)) as [s|e] eqn:E.
  - destruct (report_text_roundtrip (sample_report 16) s E) as (doc & Hl & _ & Hv & _).
    exists s, doc. split; [reflexivity|split; [exact Hl|exact Hv]].
  - exfalso. assert (is_ok (to_json (sample_report 16)) = true) as K by (vm_compute; reflexivity).
    rewrite E in K. discriminate K.
Defined.

(** The table of reason codes has no entry for the metered kind: such a verdict
    cannot be reported. *)
Example metered_verdict_has_no_report :
  build {| wall := 0; utcoffset := Some 0 |} (RailsLive.sample_rail "local" true) "0xbb" "0xcc" "0x33"
    true {| kind := OVER_AUTHORIZED_SETTLEMENT; severity := CRITICAL; msg := MsgOverAuthorized 11 10 1 |}
    (sample_evidence (RailsLive.hex_of "a" 40) 16 11) None
  = raise KeyError "over_authorized_settlement".
Proof. vm_compute. reflexivity. Qed.

(** The node chooses the block number: no text can be produced for a block
    number of more than 4300 digits, although the report is valid. *)
Example huge_block_number_does_not_render n :
  10 ^ INT_MAX_STR_DIGITS ≤ n → validate (sample_report n) = Ok tt ∧ is_ok (to_markdown (sample_report n)) = false.
Proof.
  intros Hn. split; [by apply validate_ok|]. apply unprintable_block. simpl. lia.
Qed.
