(* ===== verification/Receipt.v ===== *)
(** * Hybrid receipt verification ([psv/pqc/__init__.py], [psv/pqc/provider/__init__.py])

    A version 2 receipt carries a classical and a post-quantum signature over the
    canonical bytes of the receipt with both signature values blanked.  The
    theorems: a receipt is VERIFIED exactly when the policy is on and both
    signatures, under the keys their entries name, verify over those bytes; the
    canonical bytes determine the whole receipt but for the two signatures; and
    every other outcome carries its finding.

    The two cryptographic backends are parameters here; the file [Backends] models
    the ones that are shipped. *)

From S2P Require Import Prelude PyStr PyText PyVal PyJson PyScan.
Local Open Scope Z_scope.

Definition _DOMAIN : list Z := encode_utf8 "PSV-RECEIPT-V2" ++ [0].
Definition _CLASSICAL_ALG : string := "ECDSA-P256-SHA256".
Definition _PQC_ALG : string := "ML-DSA-65".
Definition _TRUE_VALUES : list string := ["1"; "true"; "yes"; "on"].

Inductive FindingKind := UNVERIFIABLE_RECEIPT | NAKED_RECEIPT.
Inductive VerificationStatus := DISABLED | VERIFIED | FAILED.

#[export] Instance VerificationStatus_eq_dec : EqDecision VerificationStatus.
Proof. solve_decision. Defined.

Record PQCConfig := { enabled : bool; provider_name : string }.

Definition from_env (environ : gmap string string) : PQCConfig := {|
  enabled := existsb (String.eqb (lower (strip (default "" (environ !! "PSV_PQC"))))) _TRUE_VALUES;
  provider_name := "cryptography" |}.

Record ReceiptVerification := {
  verification_status : VerificationStatus;
  receipt_bytes : list Z;
  finding : option FindingKind;
  detail : string
}.

(** A cryptographic backend. *)
Record VerificationProvider := {
  available : bool;
  unavailable_reason : string;
  verify_ecdsa_p256_sha256 : list Z → list Z → list Z → res bool;
  verify_mldsa65 : list Z → list Z → list Z → res bool
}.

(** The backends a name selects. *)
Section providers.
Context (CryptographyProvider OQSProvider : VerificationProvider).

Definition load_provider (name : string) : res VerificationProvider :=
  provider ← (if (name =? "cryptography")%string then Ok CryptographyProvider
              else if (name =? "oqs")%string then Ok OQSProvider
              else raise ProviderUnavailableError ("unknown PQC provider: " +:+ name));
  raise_if (negb (available provider)) ProviderUnavailableError (unavailable_reason provider) ;;
  Ok provider.
End providers.

(** ** The signed bytes *)

(** Blank one signature value of a copied [sig_v2]. *)
Definition blank_signature (sig_v2 : pydict) (name : string) : res pydict :=
  entry ← or_raise (as_dict (dict_get name sig_v2)) ValueError ("sig_v2." +:+ name +:+ " must be an object");
  Ok (dict_set name (VDict (dict_set "signature" (VStr "") entry)) sig_v2).

Definition _unsigned_receipt (receipt : pydict) : res pydict :=
  sig_v2 ← or_raise (as_dict (dict_get "sig_v2" receipt)) ValueError "sig_v2 must be an object";
  sig_v2 ← blank_signature sig_v2 "classical";
  sig_v2 ← blank_signature sig_v2 "pqc";
  Ok (dict_set "sig_v2" (VDict sig_v2) receipt).

Fixpoint _validate_json_profile (value : pyval) : res unit :=
  match value with
  | VDict d =>
      for_each (λ kv,
        raise_if (match kv.1 with KStr k => negb (isascii k) | KOther _ => true end) ValueError
          "receipt object keys must be ASCII strings" ;;
        _validate_json_profile kv.2) d
  | VList l => for_each _validate_json_profile l
  | VFloat _ => raise ValueError "receipt numbers must be integers; decimal amounts use strings"
  | VOther _ => raise ValueError "receipt contains a non-JSON value"
  | _ => Ok tt
  end.

(** The keyword arguments of the canonical encoding. *)
Definition canonical_style : style := {|
  ensure_ascii := false; sort_keys := true; allow_nan := false;
  item_sep := ","; key_sep := ":"; indent := None |}.

Definition canonical_receipt_payload (receipt : pydict) : res (list Z) :=
  unsigned ← _unsigned_receipt receipt;
  _validate_json_profile (VDict unsigned) ;;
  encoded ← try_except (dumps canonical_style (VDict unsigned)) [TypeError; ValueError]
              (λ _, raise ValueError "receipt is not canonicalizable JSON");
  Ok (_DOMAIN ++ encode_utf8 encoded).

(** ** The entries *)

Definition _unique_object (pairs : list (string * pyval)) : res pydict :=
  unique_members (λ key, Exn ValueError ("duplicate JSON member: " +:+ key)) pairs [].

(** The value of a character of the base64 alphabet. *)
Definition base64_value (c : ascii) : option Z :=
  if between 65 90 c then Some (code c - 65)
  else if between 97 122 c then Some (code c - 71)
  else if is_dec_digit c then Some (code c + 4)
  else if code c =? 43 then Some 62
  else if code c =? 47 then Some 63
  else None.

(** [binascii.a2b_base64(s, strict_mode=True)] after a first character: the place
    in the group of four, the bits carried over, and the padding seen. *)
Fixpoint a2b_base64 (quad left pads : Z) (padded : bool) (s : string) : option (list Z) :=
  match s with
  | EmptyString => if quad =? 0 then Some [] else None
  | String c s =>
      if code c =? 61 then
        if (2 <=? quad) && (4 <=? quad + (pads + 1)) then
          if (s =? "")%string then Some [] else None
        else a2b_base64 quad left (if 2 <=? quad then pads + 1 else pads) true s
      else
        match base64_value c with
        | None => None
        | Some v =>
            if padded then None
            else if quad =? 0 then a2b_base64 1 v 0 false s
            else if quad =? 1 then cons (left * 4 + v / 16) <$> a2b_base64 2 (v mod 16) 0 false s
            else if quad =? 2 then cons (left * 16 + v / 4) <$> a2b_base64 3 (v mod 4) 0 false s
            else cons (left * 64 + v) <$> a2b_base64 0 0 0 false s
        end
  end.

(** [bytes.translate] of the url alphabet to the standard one: characters of the
    standard alphabet stay. *)
Fixpoint from_url_alphabet (s : string) : string :=
  match s with
  | EmptyString => ""
  | String c s =>
      String (if code c =? 45 then "+"%char else if code c =? 95 then "/"%char else c)
        (from_url_alphabet s)
  end.

(** [base64.b64decode(s, altchars=b"-_", validate=True)], [None] for its error *)
Definition b64decode (s : string) : option (list Z) :=
  if negb (isascii s) then None
  else if startswith "=" s then None
  else a2b_base64 0 0 0 false (from_url_alphabet s).

Definition _decode_signature (value : pyval) : res (list Z) :=
  s ← or_raise (as_str value) ValueError "signature must be non-empty unpadded base64url";
  raise_if ((s =? "")%string || str_any (λ c, code c =? 61) s) ValueError
    "signature must be non-empty unpadded base64url" ;;
  or_raise (b64decode (s +:+ str_repeat "=" (Z.to_nat (- str_len s mod 4)))) ValueError
    "signature is not valid base64url".

Definition _signature_entry (sig_v2 : pydict) (name algorithm : string) : res (string * list Z) :=
  entry ← or_raise (as_dict (dict_get name sig_v2)) ValueError
            ("sig_v2." +:+ name +:+ " has an invalid structure");
  raise_if (negb (dict_keys_are ["alg"; "kid"; "signature"] entry)) ValueError
    ("sig_v2." +:+ name +:+ " has an invalid structure") ;;
  raise_if (negb (py_eq (dict_get "alg" entry) (VStr algorithm))) ValueError
    ("sig_v2." +:+ name +:+ ".alg is not registered for receipt v2") ;;
  kid ← or_raise (as_str (dict_get "kid" entry)) ValueError ("sig_v2." +:+ name +:+ ".kid is invalid");
  raise_if ((kid =? "")%string || (128 <? str_len kid)) ValueError
    ("sig_v2." +:+ name +:+ ".kid is invalid") ;;
  signature ← _decode_signature (dict_get "signature" entry);
  Ok (kid, signature).

(** ** Verification *)

Section verify.
Context (CryptographyProvider OQSProvider : VerificationProvider).
Context (classical_keys pqc_keys : gmap string (list Z)).

Definition naked (bytes : list Z) : ReceiptVerification := {|
  verification_status := FAILED; receipt_bytes := bytes; finding := Some NAKED_RECEIPT;
  detail := "PQC policy requires sig_v2" |}.
Definition verified (bytes : list Z) : ReceiptVerification := {|
  verification_status := VERIFIED; receipt_bytes := bytes; finding := None; detail := "" |}.
Definition unverifiable (bytes : list Z) (message : string) : ReceiptVerification := {|
  verification_status := FAILED; receipt_bytes := bytes; finding := Some UNVERIFIABLE_RECEIPT;
  detail := message |}.
Definition disabled (bytes : list Z) : ReceiptVerification := {|
  verification_status := DISABLED; receipt_bytes := bytes; finding := None; detail := "" |}.

(** The checks on a receipt that has a [sig_v2]. *)
Definition check_signatures (decoded sig_v2 : pydict) (policy : PQCConfig)
    (provider : option VerificationProvider) : res unit :=
  raise_if (negb (dict_keys_are ["version"; "classical"; "pqc"] sig_v2)) ValueError
    "sig_v2 has an invalid structure" ;;
  raise_if (negb (py_eq (dict_get "version" sig_v2) (VInt 2))) ValueError "sig_v2.version must be 2" ;;
  '(classical_kid, classical_signature) ← _signature_entry sig_v2 "classical" _CLASSICAL_ALG;
  '(pqc_kid, pqc_signature) ← _signature_entry sig_v2 "pqc" _PQC_ALG;
  classical_key ← or_raise (classical_keys !! classical_kid) KeyError classical_kid;
  pqc_key ← or_raise (pqc_keys !! pqc_kid) KeyError pqc_kid;
  raise_if (negb ((length classical_key =? 65)%nat && (length pqc_key =? 1952)%nat
                  && (length pqc_signature =? 3309)%nat)) ValueError
    "hybrid key or ML-DSA-65 signature has an invalid length" ;;
  payload ← canonical_receipt_payload decoded;
  verifier ← match provider with
             | Some p => Ok p
             | None => load_provider CryptographyProvider OQSProvider (provider_name policy)
             end;
  classical_valid ← verify_ecdsa_p256_sha256 verifier classical_key payload classical_signature;
  pqc_valid ← verify_mldsa65 verifier pqc_key payload pqc_signature;
  raise_if (negb (classical_valid && pqc_valid)) ValueError
    "hybrid verification requires both signatures to be valid".

(** The body of the [try]. *)
Definition verify_body (bytes : list Z) (policy : PQCConfig) (provider : option VerificationProvider)
    : res ReceiptVerification :=
  value ← loads_bytes _unique_object bytes;
  decoded ← or_raise (as_dict value) ValueError "receipt must be a JSON object";
  match dict_get "sig_v2" decoded with
  | VNone => Ok (naked bytes)
  | VDict sig_v2 => check_signatures decoded sig_v2 policy provider ;; Ok (verified bytes)
  | _ => raise ValueError "sig_v2 has an invalid structure"
  end.

(** [config] is [None] when the caller leaves the policy to the environment. *)
Definition verify_receipt (environ : gmap string string) (bytes : list Z) (config : option PQCConfig)
    (provider : option VerificationProvider) : res ReceiptVerification :=
  let policy := default (from_env environ) config in
  if negb (enabled policy) then Ok (disabled bytes)
  else try_except (verify_body bytes policy provider)
         [JSONDecodeError; UnicodeDecodeError; KeyError; ProviderUnavailableError; ValueError]
         (λ e, Ok (unverifiable bytes (exn_str e))).
End verify.

(** * Lemmas *)

Lemma for_each_in {A} (f : A → res unit) l x : for_each f l = Ok tt → x ∈ l → f x = Ok tt.
Proof. intros H Hx. apply for_each_ok in H. by apply (proj1 (Forall_forall _ _) H). Qed.

(** A value that fits the profile holds no float. *)
Lemma profile_floats v : _validate_json_profile v = Ok tt → floats_ok v = true.
Proof.
  induction v as [|b|z|f|s|l IH|d IH|t] using pyval_ind; try done; cbn [_validate_json_profile floats_ok].
  - intros H. apply forallb_forall. intros x Hx%list_elem_of_In.
    apply (proj1 (Forall_forall _ _) IH x Hx). by apply (for_each_in _ _ _ H).
  - intros H. apply forallb_forall. intros x Hx%list_elem_of_In.
    apply (proj1 (Forall_forall _ _) IH x Hx).
    pose proof (for_each_in _ _ _ H Hx) as Hp. simpl in Hp. by inv_res.
Qed.

Lemma canonical_style_ok : style_ok canonical_style.
Proof. split; by left. Qed.

Lemma canonical_payload_ok receipt p :
  canonical_receipt_payload receipt = Ok p ↔
  ∃ u s, _unsigned_receipt receipt = Ok u ∧ _validate_json_profile (VDict u) = Ok tt
    ∧ dumps canonical_style (VDict u) = Ok s ∧ p = _DOMAIN ++ encode_utf8 s.
Proof.
  unfold canonical_receipt_payload. split.
  - intros H. inv_res. match goal with x : unit |- _ => destruct x end.
    match goal with H : try_except _ _ _ = Ok _ |- _ => apply try_except_ok in H as [H|(e & _ & _ & [=])] end.
    eauto 10.
  - intros (u & s & -> & Hv & Hd & ->). cbn [mbind res_bind]. rewrite Hv. cbn [mbind res_bind]. by rewrite Hd.
Qed.

Lemma throws_unsigned d : throws [ValueError] (_unsigned_receipt d).
Proof. unfold _unsigned_receipt, blank_signature. solve_throws. Qed.

Lemma throws_profile v : throws [ValueError] (_validate_json_profile v).
Proof.
  induction v as [|b|z|f|s|l IH|d IH|t] using pyval_ind; cbn [_validate_json_profile];
    try solve [solve_throws].
  - by apply throws_for_each_in.
  - apply throws_for_each_in. eapply Forall_impl; [exact IH|]. intros x Hx.
    apply throws_bind; [|done]. destruct x.1; solve_throws.
Qed.

Lemma throws_canonical d : throws [ValueError] (canonical_receipt_payload d).
Proof.
  unfold canonical_receipt_payload. apply throws_bind; [apply throws_unsigned|intros u _].
  apply throws_bind; [apply throws_profile|intros ? _]. apply throws_bind; [|solve_throws].
  apply throws_try_except; [apply throws_dumps|solve_throws].
Qed.

(** Blanking leaves the other members alone. *)
Lemma unsigned_lookup receipt u k :
  _unsigned_receipt receipt = Ok u → k ≠ "sig_v2" → dict_lookup k u = dict_lookup k receipt.
Proof. unfold _unsigned_receipt. intros H Hk. inv_res. by apply dict_lookup_set_ne. Qed.

Lemma unsigned_wf receipt u : dict_wf receipt → _unsigned_receipt receipt = Ok u → dict_wf u.
Proof. unfold _unsigned_receipt. intros Hd H. inv_res. by apply dict_set_wf. Qed.

Lemma payload_eq s t : _DOMAIN ++ encode_utf8 s = _DOMAIN ++ encode_utf8 t → s = t.
Proof. by intros E%(inj _)%encode_utf8_inj. Qed.

(** * Properties *)

(** The signed bytes stand for the receipt.  Two receipts have the same
    canonical bytes exactly when, with both signature values blanked, they are
    the same up to the order of members; then every other member of the one is a
    member of the other with the same value. *)
Theorem payload_determines_receipt d e p q u w :
  dict_wf d → dict_wf e → _unsigned_receipt d = Ok u → _unsigned_receipt e = Ok w →
  canonical_receipt_payload d = Ok p → canonical_receipt_payload e = Ok q →
  (p = q ↔ same_value (VDict u) (VDict w))
  ∧ (p = q → ∀ k, k ≠ "sig_v2" →
       option_Forall2 same_value (dict_lookup k d) (dict_lookup k e)).
Proof.
  intros Hd He Hu Hw (u' & s & Hu' & Vu & Su & ->)%canonical_payload_ok
    (w' & t & Hw' & Vw & Tw & ->)%canonical_payload_ok.
  rewrite Hu in Hu'. rewrite Hw in Hw'. injection Hu' as <-. injection Hw' as <-.
  assert (_DOMAIN ++ encode_utf8 s = _DOMAIN ++ encode_utf8 t ↔ same_value (VDict u) (VDict w)) as Hiff.
  { split.
    - intros ->%payload_eq. apply (dumps_inj canonical_style _ _ t canonical_style_ok); try done;
        by apply profile_floats.
    - intros E. by rewrite (dumps_normal canonical_style _ _ _ _ Su Tw E). }
  split; [exact Hiff|]. intros E%Hiff k Hk.
  rewrite <- (unsigned_lookup d u), <- (unsigned_lookup e w) by done.
  apply same_value_lookup; [by apply (unsigned_wf _ _ Hd Hu)|by apply (unsigned_wf _ _ He Hw)|done].
Qed.

(** A canonical receipt and the same receipt with its members in another order
    and another signature. *)
Definition sample_entry (alg signature : string) : pyval :=
  VDict (dict_of [("alg", VStr alg); ("kid", VStr "key-1"); ("signature", VStr signature)]).
Definition sample_receipt (signature : string) : pydict := dict_of [
  ("order", VStr "ord_01"); ("amount", VInt 10000);
  ("sig_v2", VDict (dict_of [("version", VInt 2); ("classical", sample_entry _CLASSICAL_ALG signature);
                             ("pqc", sample_entry _PQC_ALG (str_repeat "A" 4412))]))].
Definition reordered_receipt : pydict := rev (sample_receipt "QUJD").

Lemma payload_determines_receipt_witness :
  ∃ p, canonical_receipt_payload (sample_receipt "QQ") = Ok p
    ∧ canonical_receipt_payload reordered_receipt = Ok p
    ∧ option_Forall2 same_value (dict_lookup "amount" (sample_receipt "QQ"))
        (dict_lookup "amount" reordered_receipt).
Proof.
  assert (∃ p u w, canonical_receipt_payload (sample_receipt "QQ") = Ok p
    ∧ canonical_receipt_payload reordered_receipt = Ok p
    ∧ _unsigned_receipt (sample_receipt "QQ") = Ok u ∧ _unsigned_receipt reordered_receipt = Ok w)
    as (p & u & w & Hp & Hq & Hu & Hw).
  { eexists _, _, _. split; [vm_compute; reflexivity|]. split; [vm_compute; reflexivity|].
    split; reflexivity. }
  exists p. split; [exact Hp|]. split; [exact Hq|].
  refine (proj2 (payload_determines_receipt (sample_receipt "QQ") reordered_receipt p p u w _ _ Hu Hw Hp Hq)
    eq_refl "amount" _).
  - apply (bool_decide_eq_true_1 _). vm_compute. reflexivity.
  - apply (bool_decide_eq_true_1 _). vm_compute. reflexivity.
  - intros E. discriminate E.
Defined.

(** What a verified receipt has: the entries, their keys, and both signatures
    valid over the canonical bytes. *)
Record hybrid_evidence (cryptography oqs : VerificationProvider) (classical_keys pqc_keys : gmap string (list Z))
    (bytes : list Z) (policy : PQCConfig) (provider : option VerificationProvider) : Prop := {
  evidence : ∃ receipt sig_v2 ckid csig pkid psig ckey pkey payload verifier,
    loads_bytes _unique_object bytes = Ok (VDict receipt)
    ∧ dict_get "sig_v2" receipt = VDict sig_v2
    ∧ dict_keys_are ["version"; "classical"; "pqc"] sig_v2 = true
    ∧ py_eq (dict_get "version" sig_v2) (VInt 2) = true
    ∧ _signature_entry sig_v2 "classical" _CLASSICAL_ALG = Ok (ckid, csig)
    ∧ _signature_entry sig_v2 "pqc" _PQC_ALG = Ok (pkid, psig)
    ∧ classical_keys !! ckid = Some ckey ∧ pqc_keys !! pkid = Some pkey
    ∧ length ckey = 65%nat ∧ length pkey = 1952%nat ∧ length psig = 3309%nat
    ∧ canonical_receipt_payload receipt = Ok payload
    ∧ match provider with
      | Some p => Ok p
      | None => load_provider cryptography oqs (provider_name policy)
      end = Ok verifier
    ∧ verify_ecdsa_p256_sha256 verifier ckey payload csig = Ok true
    ∧ verify_mldsa65 verifier pkey payload psig = Ok true
}.

Lemma check_signatures_ok cryptography oqs ck pk receipt sig_v2 policy provider bytes :
  loads_bytes _unique_object bytes = Ok (VDict receipt) → dict_get "sig_v2" receipt = VDict sig_v2 →
  check_signatures cryptography oqs ck pk receipt sig_v2 policy provider = Ok tt ↔
  hybrid_evidence cryptography oqs ck pk bytes policy provider.
Proof.
  intros Hb Hs. split.
  - intros H. unfold check_signatures in H. inv_res.
    do 2 (repeat match goal with x : _ * _ |- _ => destruct x end; inv_res). bool_facts. subst.
    constructor. do 10 eexists. split_and!; try eassumption; done.
  - intros [(receipt' & sig' & ckid & csig & pkid & psig & ckey & pkey & payload & ver
      & Hb' & Hs' & Hk & Hv & Hc & Hp & Hck & Hpk & Hl1 & Hl2 & Hl3 & Hpay & Hver & H1 & H2)].
    rewrite Hb in Hb'. injection Hb' as <-. rewrite Hs in Hs'. injection Hs' as <-.
    unfold check_signatures. rewrite Hk, Hv. cbn [negb raise_if mbind res_bind].
    rewrite Hc. cbn [mbind res_bind]. rewrite Hp. cbn [mbind res_bind]. rewrite Hck, Hpk.
    cbn [or_raise mbind res_bind]. rewrite Hl1, Hl2, Hl3. cbn [Nat.eqb andb negb raise_if mbind res_bind].
    rewrite Hpay. cbn [mbind res_bind]. rewrite Hver. cbn [mbind res_bind]. rewrite H1. cbn [mbind res_bind].
    by rewrite H2.
Qed.

Lemma verified_body cryptography oqs ck pk bytes policy provider :
  (∃ v, verify_body cryptography oqs ck pk bytes policy provider = Ok v ∧ verification_status v = VERIFIED)
  ↔ hybrid_evidence cryptography oqs ck pk bytes policy provider.
Proof.
  split.
  - intros (v & H & Hv). unfold verify_body in H. inv_res. val_facts. subst.
    destruct (dict_get "sig_v2" _) as [| | | | | |sig|] eqn:E; inv_res; try done.
    match goal with x : unit |- _ => destruct x end.
    by eapply check_signatures_ok.
  - intros Hev. exists (verified bytes). split; [|done].
    pose proof Hev as [(receipt & sig_v2 & _ & _ & _ & _ & _ & _ & _ & _ & Hb & Hs & _)].
    unfold verify_body. rewrite Hb. simpl. rewrite Hs.
    apply (check_signatures_ok _ _ _ _ _ _ _ _ _ Hb Hs) in Hev. by rewrite Hev.
Qed.

Lemma verified_body_of cryptography oqs ck pk environ bytes config provider v :
  verify_receipt cryptography oqs ck pk environ bytes config provider = Ok v → verification_status v = VERIFIED →
  enabled (default (from_env environ) config) = true
  ∧ verify_body cryptography oqs ck pk bytes (default (from_env environ) config) provider = Ok v.
Proof.
  unfold verify_receipt. destruct (enabled _); simpl; [|by intros [= <-]].
  intros [H|(e & _ & _ & [= <-])]%try_except_ok Hv; [by split|done].
Qed.

(** C35: verification is hybrid and exact.  A receipt is VERIFIED exactly when the
    policy is on and it is a JSON object whose [sig_v2] has the registered shape
    and whose two signatures, under the keys their entries name, are both valid
    over the canonical bytes; neither signature alone is enough. *)
Theorem verified_iff cryptography oqs ck pk environ bytes config provider :
  let policy := default (from_env environ) config in
  (∃ v, verify_receipt cryptography oqs ck pk environ bytes config provider = Ok v
        ∧ verification_status v = VERIFIED)
  ↔ enabled policy = true ∧ hybrid_evidence cryptography oqs ck pk bytes policy provider.
Proof.
  intros policy. split.
  - intros (v & H & Hv). destruct (verified_body_of _ _ _ _ _ _ _ _ _ H Hv) as [He Hb].
    split; [done|]. apply verified_body. by exists v.
  - intros [He (v & Hb & Hv)%verified_body]. exists v. split; [|done].
    unfold verify_receipt. fold policy. rewrite He. simpl. apply try_except_ok. by left.
Qed.

(** A backend answers, or raises one of the exceptions the verifier handles. *)
Definition answers (p : VerificationProvider) : Prop :=
  ∀ key message signature,
    throws [ProviderUnavailableError; ValueError] (verify_ecdsa_p256_sha256 p key message signature)
    ∧ throws [ProviderUnavailableError; ValueError] (verify_mldsa65 p key message signature).

Definition caught : list exn_class :=
  [JSONDecodeError; UnicodeDecodeError; KeyError; ProviderUnavailableError; ValueError].

Lemma throws_caught_value {A} (m : res A) : throws [ValueError] m → throws caught m.
Proof. apply throws_subset. intros c ->%list_elem_of_singleton. do 4 right. by left. Qed.
Lemma throws_caught_provider {A} (m : res A) : throws [ProviderUnavailableError; ValueError] m → throws caught m.
Proof.
  apply throws_subset. intros c [->| ->%list_elem_of_singleton]%elem_of_cons.
  - do 3 right. by left.
  - do 4 right. by left.
Qed.

Lemma throws_signature_entry sig name alg : throws caught (_signature_entry sig name alg).
Proof. unfold _signature_entry, _decode_signature. solve_throws. Qed.

Lemma throws_check_signatures cryptography oqs ck pk decoded sig policy provider :
  answers cryptography → answers oqs → (∀ p, provider = Some p → answers p) →
  throws caught (check_signatures cryptography oqs ck pk decoded sig policy provider).
Proof.
  intros Hc Ho Hp. unfold check_signatures.
  do 2 (apply throws_bind; [solve_throws|intros ? _]).
  do 2 (apply throws_bind; [apply throws_signature_entry|intros [] _]).
  do 3 (apply throws_bind; [solve_throws|intros ? _]).
  apply throws_bind; [apply throws_caught_value, throws_canonical|intros payload _].
  apply throws_bind.
  { destruct provider; [solve_throws|]. unfold load_provider. solve_throws. }
  intros verifier Hver.
  assert (answers verifier) as Hv.
  { destruct provider as [p|]; [injection Hver as <-; by apply Hp|]. unfold load_provider in Hver.
    inv_res. destruct (_ =? _)%string; inv_res; [done|]. destruct (_ =? _)%string; inv_res. done. }
  apply throws_bind; [apply throws_caught_provider, Hv|intros ? _].
  apply throws_bind; [apply throws_caught_provider, Hv|intros ? _]. solve_throws.
Qed.

(** The bytes do not leave the model, which holds Latin-1 text. *)
Definition within_latin1 (bytes : list Z) : Prop :=
  ∀ e, loads_bytes _unique_object bytes = Raise e → exn_cls e ≠ OtherError.

Lemma within_latin1_throws bytes :
  within_latin1 bytes → throws caught (loads_bytes _unique_object bytes).
Proof.
  intros Hb. assert (throws scan_errors (loads_bytes _unique_object bytes)) as Hs.
  { unfold loads_bytes. apply throws_bind; [by apply throws_raise_if|intros _ _].
    apply throws_bind; [|intros text _].
    { apply (throws_weaken [UnicodeDecodeError; OtherError]); [by intros []|apply throws_decode_utf8]. }
    apply throws_bind; [apply throws_parse; intros w; apply throws_ok|intros j _].
    apply throws_of_json_with. intros ps. by apply throws_unique_members. }
  intros e He. specialize (Hb e He). specialize (Hs e He). revert Hb Hs. by destruct (exn_cls e).
Qed.

(** Every receipt is graded.  Whatever the receipt, the keys and the policy,
    verification returns a verdict that carries the bytes it was given: DISABLED
    exactly when the policy is off, and otherwise a finding exactly when it is
    FAILED, NAKED exactly for an object without [sig_v2].  (The backends answer
    or raise as documented; the bytes are a text within Latin-1.) *)
Theorem every_receipt_is_graded cryptography oqs ck pk environ bytes config provider :
  answers cryptography → answers oqs → (∀ p, provider = Some p → answers p) →
  within_latin1 bytes →
  let policy := default (from_env environ) config in
  ∃ v, verify_receipt cryptography oqs ck pk environ bytes config provider = Ok v
    ∧ receipt_bytes v = bytes
    ∧ (verification_status v = DISABLED ↔ enabled policy = false)
    ∧ (finding v = None ↔ verification_status v ≠ FAILED)
    ∧ (finding v = Some NAKED_RECEIPT ↔ enabled policy = true ∧ ∃ d,
         loads_bytes _unique_object bytes = Ok (VDict d) ∧ dict_get "sig_v2" d = VNone).
Proof.
  intros Hc Ho Hp Hb%within_latin1_throws policy. unfold verify_receipt. fold policy. destruct (enabled policy); simpl.
  2:{ exists (disabled bytes). naive_solver. }
  assert (throws caught (verify_body cryptography oqs ck pk bytes policy provider)) as Ht.
  { unfold verify_body. apply throws_bind; [done|intros ? _]. apply throws_bind; [solve_throws|intros ? _].
    destruct (dict_get _ _); try solve [solve_throws].
    apply throws_bind; [by apply throws_check_signatures|solve_throws]. }
  destruct (verify_body cryptography oqs ck pk bytes policy provider) as [v|e] eqn:E; cbn [try_except].
  - exists v. split; [done|]. unfold verify_body in E.
    apply res_bind_ok in E as (value & Ev & E). apply res_bind_ok in E as (d & Ed & E).
    apply or_raise_ok, as_dict_Some in Ed as ->. rewrite Ev.
    destruct (dict_get "sig_v2" d) eqn:Es; inv_res; (split; [done|]); (split; [done|]);
      (split; [done|]); (split; [|intros (_ & d' & [= <-] & Hd'); congruence]); [|done].
    intros _. split; [done|]. by exists d.
  - assert (existsb (subclass (exn_cls e)) caught = true) as He by by apply Ht.
    unfold caught in He. rewrite He. eexists. split; [done|]. split; [done|]. split; [done|].
    split; [done|]. split; [done|]. intros (_ & d & Hd & Hs). unfold verify_body in E.
    rewrite Hd in E. simpl in E. by rewrite Hs in E.
Qed.

(** A backend of which every signature is valid. *)
Definition trusting : VerificationProvider := {|
  available := true; unavailable_reason := "";
  verify_ecdsa_p256_sha256 := λ _ _ _, Ok true; verify_mldsa65 := λ _ _ _, Ok true |}.
Definition refusing : VerificationProvider := {|
  available := true; unavailable_reason := "";
  verify_ecdsa_p256_sha256 := λ _ _ _, Ok true; verify_mldsa65 := λ _ _ _, Ok false |}.
Definition sample_keys (n : nat) : gmap string (list Z) := {[ "key-1" := replicate n 7 ]}.
Definition sample_bytes : list Z :=
  match dumps plain (VDict (sample_receipt "QUJD")) with Ok s => encode_utf8 s | Raise _ => [] end.
Definition sample_verdict (p : VerificationProvider) : res ReceiptVerification :=
  verify_receipt p p (sample_keys 65) (sample_keys 1952) {[ "PSV_PQC" := " On " ]} sample_bytes None None.

Lemma every_receipt_is_graded_witness :
  ∃ v, sample_verdict refusing = Ok v ∧ verification_status v = FAILED ∧ finding v ≠ None.
Proof.
  destruct (every_receipt_is_graded refusing refusing (sample_keys 65) (sample_keys 1952)
    {[ "PSV_PQC" := " On " ]} sample_bytes None None) as (v & Hv & _ & _ & Hf & _).
  - intros key message signature. split; intros e He; discriminate He.
  - intros key message signature. split; intros e He; discriminate He.
  - intros p Hp. discriminate Hp.
  - intros e He.
    assert (is_ok (loads_bytes _unique_object sample_bytes) = true) as Ho by (vm_compute; reflexivity).
    rewrite He in Ho. discriminate Ho.
  - exists v. split; [exact Hv|].
    assert (verification_status <$> sample_verdict refusing = Ok FAILED) as Hs by (vm_compute; reflexivity).
    unfold sample_verdict in Hs. rewrite Hv in Hs. injection Hs as Hs. split; [exact Hs|].
    intros Hn. exact (proj1 Hf Hn Hs).
Defined.

(** Both signatures are needed, and a receipt with both is verified. *)
Example sample_receipt_verified :
  verification_status <$> sample_verdict trusting = Ok VERIFIED
  ∧ verification_status <$> sample_verdict refusing = Ok FAILED.
Proof. split; vm_compute; reflexivity. Qed.

(** The documented format is the url alphabet; the decoder also takes the
    standard one, and ignores the spare bits of the last character. *)
Example standard_alphabet_accepted :
  _decode_signature (VStr "a+/b") = _decode_signature (VStr "a-_b")
  ∧ _decode_signature (VStr "QQ") = _decode_signature (VStr "QR").
Proof. split; vm_compute; reflexivity. Qed.
