(* ===== verification/Backends.v ===== *)
(** * The receipt backends ([psv/pqc/provider/])

    The primary backend calls [cryptography] (OpenSSL); the optional one calls
    [liboqs] for ML-DSA and the primary one for ECDSA.  The libraries are the
    classes [Pyca] and [Liboqs]; the capability checks, the order of calls and the
    handling of their exceptions are the code's.  The theorems: with the shipped
    backends every receipt is graded, and a VERIFIED one was accepted by both
    libraries; without ML-DSA in [cryptography] the optional backend verifies
    nothing. *)

From S2P Require Import Prelude PyStr PyVal PyJson Receipt.
Local Open Scope Z_scope.

(** [cryptography]: imports may fail, and so may every call. *)
Class Pyca := {
  openssl_runtime : res (Z * string);           (** version number and text of its OpenSSL *)
  import_mldsa : res bool;                      (** whether the class has [from_public_bytes] *)
  p256_key : Type;
  from_encoded_point : list Z → res p256_key;
  p256_verify : p256_key → list Z → list Z → res unit;           (** signature, message *)
  mldsa_key : Type;
  from_public_bytes : list Z → res mldsa_key;
  mldsa_verify : mldsa_key → list Z → list Z → list Z → res unit (** signature, message, context *)
}.

(** [ctypes.util.find_library], the file system, and [oqs]. *)
Class Liboqs := {
  find_library : string → option string;
  is_file : string → string → string → bool;    (** root, directory, file name *)
  import_oqs : res unit;
  oqs_verify : list Z → list Z → list Z → res bool               (** message, signature, key *)
}.

Section cryptography.
Context `{Pyca}.

Definition NO_MLDSA : string :=
  "ML-DSA-65 is unavailable in pyca/cryptography; install a build exposing the OpenSSL 3.5 ML-DSA API".
Definition OPENSSL_3_5 : Z := 0x30500000.

(** Why the primitive is absent, or the empty string. *)
Definition _detect_unavailability : res string :=
  try_except (
    '(version, version_text) ← openssl_runtime;
    callable ← import_mldsa;
    Ok (if version <? OPENSSL_3_5
        then "ML-DSA-65 requires OpenSSL 3.5 or newer; runtime is " +:+ version_text
        else if negb callable then "pyca/cryptography does not expose ML-DSA-65 public-key loading"
        else ""))
  [ImportError; AttributeError] (λ _, Ok NO_MLDSA).

(** [_reason] of the instance is the argument of its methods. *)
Definition crypto_available (reason : string) : bool := (reason =? "")%string.

Definition crypto_verify_ecdsa (reason : string) (public_key message signature : list Z) : res bool :=
  if negb (crypto_available reason) then Ok false
  else try_except (key ← from_encoded_point public_key; p256_verify key signature message ;; Ok true)
         [InvalidSignature; ValueError] (λ _, Ok false).

Definition crypto_verify_mldsa (reason : string) (context public_key message signature : list Z) : res bool :=
  if negb (crypto_available reason) then Ok false
  else try_except (key ← from_public_bytes public_key; mldsa_verify key signature message context ;; Ok true)
         [InvalidSignature; ValueError] (λ _, Ok false).

(** [CryptographyProvider()]; the verifier passes no context. *)
Definition CryptographyProvider : res VerificationProvider :=
  reason ← _detect_unavailability;
  Ok {| available := crypto_available reason; unavailable_reason := reason;
        verify_ecdsa_p256_sha256 := crypto_verify_ecdsa reason;
        verify_mldsa65 := crypto_verify_mldsa reason [] |}.
End cryptography.

Section oqs.
Context `{Pyca, Liboqs} (environ : gmap string string).

Definition _native_library_present : bool :=
  bool_decide (is_Some (find_library "oqs")) || bool_decide (is_Some (find_library "liboqs"))
  || let install_path := default "" (environ !! "OQS_INSTALL_PATH") in
     negb (install_path =? "")%string
     && existsb (λ directory, existsb (is_file install_path directory) ["liboqs.so"; "liboqs.dylib"])
          ["lib"; "lib64"].

(** Whether [_oqs] is set, and the reason. *)
Definition oqs_init : res (bool * string) :=
  if negb _native_library_present
  then Ok (false, "oqs backend unavailable; install psv[pqc-oqs] and the native liboqs library")
  else try_except (import_oqs ;; Ok (true, "")) [ImportError; RuntimeError; SystemExit]
         (λ _, Ok (false, "oqs backend unavailable; native liboqs could not be loaded")).

(** The classical half builds a primary backend at every call. *)
Definition oqs_verify_ecdsa (public_key message signature : list Z) : res bool :=
  primary ← CryptographyProvider;
  verify_ecdsa_p256_sha256 primary public_key message signature.

Definition oqs_verify_mldsa (loaded : bool) (context public_key message signature : list Z) : res bool :=
  if negb loaded || match context with [] => false | _ => true end then Ok false
  else try_except (oqs_verify message signature public_key) [RuntimeError; ValueError] (λ _, Ok false).

Definition OQSProvider : res VerificationProvider :=
  '(loaded, reason) ← oqs_init;
  Ok {| available := loaded; unavailable_reason := reason;
        verify_ecdsa_p256_sha256 := oqs_verify_ecdsa;
        verify_mldsa65 := oqs_verify_mldsa loaded [] |}.
End oqs.

(** * Lemmas *)

(** What the libraries document about their failures. *)
Class DocumentedPyca `{Pyca} : Prop := {
  runtime_fails : throws [ImportError; AttributeError] openssl_runtime;
  import_fails : throws [ImportError; AttributeError] import_mldsa;
  point_fails k : throws [ValueError] (from_encoded_point k);
  p256_fails k s m : throws [InvalidSignature] (p256_verify k s m);
  public_bytes_fails k : throws [ValueError] (from_public_bytes k);
  mldsa_fails k s m c : throws [InvalidSignature; ValueError] (mldsa_verify k s m c)
}.
Class DocumentedLiboqs `{Liboqs} : Prop := {
  oqs_import_fails : throws [ImportError; RuntimeError; SystemExit] import_oqs;
  oqs_fails m s k : throws [RuntimeError; ValueError] (oqs_verify m s k)
}.

Section cryptography_lemmas.
Context `{DocumentedPyca}.

(** OpenSSL is new enough and the class is there. *)
Definition mldsa_capable : Prop :=
  ∃ version version_text, openssl_runtime = Ok (version, version_text) ∧ OPENSSL_3_5 ≤ version
    ∧ import_mldsa = Ok true.
Definition accepts_p256 (public_key message signature : list Z) : Prop :=
  ∃ key, from_encoded_point public_key = Ok key ∧ p256_verify key signature message = Ok tt.
Definition accepts_mldsa (public_key message signature : list Z) : Prop :=
  ∃ key, from_public_bytes public_key = Ok key ∧ mldsa_verify key signature message [] = Ok tt.

Lemma detect_ok : ∃ reason, _detect_unavailability = Ok reason ∧ (reason = "" ↔ mldsa_capable).
Proof.
  unfold _detect_unavailability, mldsa_capable.
  destruct openssl_runtime as [[version text]|e] eqn:Er; cbn [mbind res_bind].
  - destruct import_mldsa as [callable|e] eqn:Ei; cbn [mbind res_bind try_except].
    + eexists. split; [done|]. destruct (Z.ltb_spec version OPENSSL_3_5) as [Hv|Hv].
      * split; [done|]. intros (? & ? & [= <- <-] & ? & _). lia.
      * destruct callable; cbn [negb]; split; try done; [eauto 10|]. by intros (? & ? & _ & _ & [=]).
    + pose proof (import_fails e Ei) as He. cbn [try_except]. rewrite He. eexists. split; [done|].
      split; [done|]. by intros (? & ? & _ & _ & [=]).
  - pose proof (runtime_fails e Er) as He. cbn [try_except]. rewrite He. eexists. split; [done|].
    split; [done|]. by intros (? & ? & [=] & _).
Qed.

Lemma try_false (m : res unit) cs :
  throws cs m → ∃ b, try_except (m ;; Ok true) cs (λ _, Ok false) = Ok b ∧ (b = true ↔ m = Ok tt).
Proof.
  intros Ht. destruct m as [[]|e]; cbn; [by exists true|].
  rewrite (Ht e eq_refl). by exists false.
Qed.

Lemma crypto_ecdsa_ok reason key message signature :
  ∃ b, crypto_verify_ecdsa reason key message signature = Ok b
       ∧ (b = true ↔ reason = "" ∧ accepts_p256 key message signature).
Proof.
  unfold crypto_verify_ecdsa, crypto_available, accepts_p256.
  destruct (String.eqb_spec reason "") as [->|Hne]; cbn [negb]; [|exists false; naive_solver].
  assert (throws [InvalidSignature; ValueError] (from_encoded_point key)) as Hk
    by (apply (throws_subset [ValueError]); [set_solver|apply point_fails]).
  destruct (from_encoded_point key) as [k|e].
  - destruct (try_false (p256_verify k signature message) [InvalidSignature; ValueError]) as (b & Hb & Hiff).
    { apply (throws_subset [InvalidSignature]); [set_solver|apply p256_fails]. }
    exists b. split; [exact Hb|]. rewrite Hiff. naive_solver.
  - cbn [mbind res_bind try_except]. rewrite (Hk e eq_refl). exists false. naive_solver.
Qed.

Lemma crypto_mldsa_ok reason key message signature :
  ∃ b, crypto_verify_mldsa reason [] key message signature = Ok b
       ∧ (b = true ↔ reason = "" ∧ accepts_mldsa key message signature).
Proof.
  unfold crypto_verify_mldsa, crypto_available, accepts_mldsa.
  destruct (String.eqb_spec reason "") as [->|Hne]; cbn [negb]; [|exists false; naive_solver].
  assert (throws [InvalidSignature; ValueError] (from_public_bytes key)) as Hk
    by (apply (throws_subset [ValueError]); [set_solver|apply public_bytes_fails]).
  destruct (from_public_bytes key) as [k|e].
  - destruct (try_false (mldsa_verify k signature message []) [InvalidSignature; ValueError]) as (b & Hb & Hiff);
      [apply mldsa_fails|]. exists b. split; [exact Hb|]. rewrite Hiff. naive_solver.
  - cbn [mbind res_bind try_except]. rewrite (Hk e eq_refl). exists false. naive_solver.
Qed.

(** The primary backend is built, and answers without raising. *)
Lemma cryptography_built :
  ∃ p, CryptographyProvider = Ok p ∧ (available p = true ↔ mldsa_capable)
    ∧ ∀ key message signature,
        (∃ b, verify_ecdsa_p256_sha256 p key message signature = Ok b
              ∧ (b = true ↔ mldsa_capable ∧ accepts_p256 key message signature))
        ∧ (∃ b, verify_mldsa65 p key message signature = Ok b
                ∧ (b = true ↔ mldsa_capable ∧ accepts_mldsa key message signature)).
Proof.
  destruct detect_ok as (reason & E & Hr). unfold CryptographyProvider. rewrite E. cbn [mbind res_bind].
  eexists. split; [done|]. cbn [available verify_ecdsa_p256_sha256 verify_mldsa65].
  split; [unfold crypto_available; by rewrite String.eqb_eq|]. intros key message signature. setoid_rewrite <- Hr.
  split; [apply crypto_ecdsa_ok|apply crypto_mldsa_ok].
Qed.
End cryptography_lemmas.

Section oqs_lemmas.
Context `{DocumentedPyca, DocumentedLiboqs} (environ : gmap string string).

(** The optional backend is built and answers too; its classical half needs ML-DSA
    in [cryptography]. *)
Lemma oqs_built :
  ∃ p, OQSProvider environ = Ok p
    ∧ ∀ key message signature,
        (∃ b, verify_ecdsa_p256_sha256 p key message signature = Ok b
              ∧ (b = true ↔ mldsa_capable ∧ accepts_p256 key message signature))
        ∧ (∃ b, verify_mldsa65 p key message signature = Ok b
                ∧ (b = true → oqs_verify message signature key = Ok true)).
Proof.
  assert (∃ loaded reason, oqs_init environ = Ok (loaded, reason)) as (loaded & reason & E).
  { unfold oqs_init. destruct (negb _); [eauto|]. destruct import_oqs as [[]|e] eqn:Ei; [cbn; eauto|].
    cbn [mbind res_bind try_except]. rewrite (oqs_import_fails e Ei). eauto. }
  unfold OQSProvider. rewrite E. cbn [mbind res_bind]. eexists. split; [done|].
  cbn [verify_ecdsa_p256_sha256 verify_mldsa65]. intros key message signature. split.
  - unfold oqs_verify_ecdsa. destruct cryptography_built as (p & -> & _ & Hp). cbn [mbind res_bind]. apply Hp.
  - unfold oqs_verify_mldsa. destruct loaded; cbn [negb orb]; [|by exists false].
    pose proof (oqs_fails message signature key) as Hf.
    destruct (oqs_verify message signature key) as [b|e]; cbn [try_except]; [exists b; by split; [|intros ->]|].
    rewrite (Hf e eq_refl). by exists false.
Qed.
End oqs_lemmas.

(** [verify_receipt] with no provider of its own, over the shipped backends.  The
    code builds the one the policy names, when it needs it; building has no effect,
    so both are built first here. *)
Definition verify_shipped `{Pyca, Liboqs} (ck pk : gmap string (list Z)) (environ : gmap string string)
    (bytes : list Z) (config : option PQCConfig) : res ReceiptVerification :=
  cryptography ← CryptographyProvider;
  oqs ← OQSProvider environ;
  verify_receipt cryptography oqs ck pk environ bytes config None.

(** * Properties *)


(** Libraries that accept every signature, with an OpenSSL of the given version. *)
Definition trusting_pyca (version : Z) : Pyca := {|
  openssl_runtime := Ok (version, "OpenSSL"); import_mldsa := Ok true;
  p256_key := list Z; from_encoded_point k := Ok k; p256_verify _ _ _ := Ok tt;
  mldsa_key := list Z; from_public_bytes k := Ok k; mldsa_verify _ _ _ _ := Ok tt |}.
Definition trusting_liboqs : Liboqs := {|
  find_library _ := Some "liboqs.so"; is_file _ _ _ := false; import_oqs := Ok tt;
  oqs_verify _ _ _ := Ok true |}.

#[local] Instance trusting_pyca_documented version : DocumentedPyca (H:=trusting_pyca version).
Proof. split; intros; apply throws_ok. Qed.
#[local] Instance trusting_liboqs_documented : DocumentedLiboqs (H:=trusting_liboqs).
Proof. split; intros; apply throws_ok. Qed.

Notation sample_decision name version :=
  (verify_shipped (H:=trusting_pyca version) (H0:=trusting_liboqs) (sample_keys 65) (sample_keys 1952) ∅ sample_bytes
    (Some {| enabled := true; provider_name := name |})).


(** [available] promises that all required algorithms are usable; with an older
    OpenSSL the optional backend says so, while its classical half refuses every
    signature and no receipt verifies. *)
Example optional_backend_needs_openssl_3_5 :
  available <$> OQSProvider (H:=trusting_pyca (OPENSSL_3_5 - 1)) (H0:=trusting_liboqs) ∅ = Ok true
  ∧ verification_status <$> sample_decision "oqs" (OPENSSL_3_5 - 1) = Ok FAILED.
Proof. split; vm_compute; reflexivity. Qed.
