(* ===== verification/RunRecord.v ===== *)
(** * Run records and their journal ([psv/run_record.py])

    The record of one run with its content checksum, its exclusive creation in the
    log directory, the append-only journal and the verifier of both.  The
    theorems: what is built verifies; the checksum binds the record up to a
    SHA-256 collision; no input named like a secret is kept and the endpoint
    that is kept does not depend on its credentials, path or query; a failed
    creation leaves no file and never touches another; and a journal made by any
    sequence of writes verifies.

    The log directory is a map from file names to bytes.  A system call may fail
    or write less than it was given: the outcomes are a list in the state.
    Deleting a file that was just created does not fail; threads and other
    processes are not modelled. *)

From S2P Require Import Prelude PyStr PyVal PyJson PyTime PyUrl PySha256.
Local Open Scope Z_scope.

Definition SCHEMA_VERSION : string := "1.1".
Definition JOURNAL : string := "runs.jsonl".

(** [p in s] *)
Fixpoint contains (p s : string) : bool :=
  startswith p s || match s with String _ r => contains p r | EmptyString => false end.

(** [s.replace(c, "")] *)
Definition without (c : ascii) (s : string) : string := remove_chars (is_char c) s.

(** ** Building *)

Definition _redact_url (url : string) : string :=
  if (url =? "")%string then url
  else match urlsplit url with
       | Raise _ => "<unparseable>"
       | Ok parts =>
           match hostname parts with
           | Some host =>
               if (scheme parts =? "")%string then "<redacted>"
               else match port parts with
                    | Raise _ => "<unparseable>"
                    | Ok p =>
                        let host := match p with
                                    | Some n => if n =? 0 then host else host +:+ ":" +:+ str_of_Z n
                                    | None => host
                                    end in
                        scheme parts +:+ "://" +:+ host
                    end
           | None => "<redacted>"
           end
       end.

Definition is_secret_name (k : string) : bool :=
  contains "key" (lower k) || contains "secret" (lower k) || contains "password" (lower k).
Definition is_url_name (k : string) : bool := (k =? "rpc_url")%string || (k =? "rpcUrl")%string.

Section build.
(** [str(v)] of a value that is not a string; the interpreter and the machine; the
    version of the package. *)
Context (str_other : pyval → string) (python platform machine version : string).

Definition py_str (v : pyval) : string := match v with VStr s => s | _ => str_other v end.

(** The loop of [_clean_inputs]. *)
Fixpoint clean_members (inputs : pydict) (out : pydict) : res pydict :=
  match inputs with
  | [] => Ok out
  | (_, VNone) :: inputs => clean_members inputs out
  | (KOther _, _) :: _ => raise AttributeError "object has no attribute 'lower'"
  | (KStr k, v) :: inputs =>
      if is_secret_name k then clean_members inputs out
      else clean_members inputs
             (dict_set k (if is_url_name k then VStr (_redact_url (py_str v)) else v) out)
  end.
Definition _clean_inputs (inputs : pydict) : res pydict := clean_members inputs [].

(** [{k: v for k, v in record.items() if k != "runId"}] *)
Definition content (record : pydict) : pydict :=
  filter (λ kv, kv.1 ≠ KStr "runId") record.
Definition canonical_text (record : pydict) : res string := dumps compact (VDict (content record)).
Definition _content_hash (record : pydict) : res string :=
  canonical ← canonical_text record;
  Ok ("sha256:" +:+ sha256_hex (encode_utf8 canonical)).

Definition opt_dict (o : option pydict) : pyval := match o with Some d => VDict d | None => VNone end.
Definition opt_text (o : option string) : pyval := match o with Some s => VStr s | None => VNone end.

(** The record before its id. *)
Definition record_members (command started finished : string) (duration : spec_float)
    (cleaned : pydict) (report : option pydict) (code : Z) (error : option string) : pydict := dict_of [
  ("schemaVersion", VStr SCHEMA_VERSION);
  ("tool", VDict (dict_of [("name", VStr "psv"); ("version", VStr version)]));
  ("command", VStr command);
  ("startedAt", VStr started);
  ("finishedAt", VStr finished);
  ("durationSeconds", VFloat duration);
  ("inputs", VDict cleaned);
  ("environment", VDict (dict_of [("python", VStr python); ("platform", VStr platform);
                                  ("machine", VStr machine)]));
  ("report", opt_dict report);
  ("exitCode", VInt code);
  ("consistent", VBool (match error with None => code =? 0 | Some _ => false end));
  ("error", opt_text error)].

Definition build_run_record (command : string) (inputs : pydict) (report : option pydict)
    (exit_code : pyval) (started_at finished_at : datetime) (error : option string) : res pydict :=
  raise_if (strip command =? "")%string ValueError "command must not be empty" ;;
  code ← or_raise (as_exact_int exit_code) ValueError "exit_code must be a non-negative integer";
  raise_if (code <? 0) ValueError "exit_code must be a non-negative integer" ;;
  raise_if (negb (is_aware started_at) || negb (is_aware finished_at)) ValueError
    "run timestamps must be timezone-aware" ;;
  raise_if (utc finished_at <? utc started_at) ValueError "finished_at must not precede started_at" ;;
  started ← utc_text started_at;
  finished ← utc_text finished_at;
  cleaned ← _clean_inputs inputs;
  let record := record_members command started finished (elapsed_seconds started_at finished_at)
                  cleaned report code error in
  run_id ← _content_hash record;
  Ok (dict_set "runId" (VStr run_id) record).
End build.

Definition verify_run_record (record : pydict) : res bool :=
  match dict_get "runId" record with
  | VStr claimed => h ← _content_hash record; Ok (claimed =? h)%string
  | _ => Ok false
  end.

(** ** The log directory *)

(** A system call succeeds, writes at most so many bytes, or fails. *)
Inductive outcome := Done | AtMost (n : Z) | Fails.

Record log_state := { files : gmap string (list Z); outcomes : list outcome }.
Definition set_files (f : gmap string (list Z)) (s : log_state) : log_state :=
  {| files := f; outcomes := outcomes s |}.

(** The outcome of the next call; when none is left, calls succeed. *)
Definition next_outcome : prog log_state outcome := λ s,
  match outcomes s with
  | [] => (Ok Done, s)
  | o :: os => (Ok o, {| files := files s; outcomes := os |})
  end.
Definition syscall : prog log_state outcome :=
  o ← next_outcome;
  match o with Fails => lift (raise OSError "system call failed") | _ => mret o end.

(** [os.open] with [O_CREAT | O_EXCL] *)
Definition open_exclusive (path : string) : prog log_state unit :=
  syscall ;;
  s ← get_state;
  match files s !! path with
  | Some _ => lift (raise FileExistsError "File exists")
  | None => modify (set_files (<[path := []]> (files s)))
  end.
(** [os.open] with [O_CREAT | O_APPEND] *)
Definition open_append (path : string) : prog log_state unit :=
  syscall ;;
  s ← get_state;
  match files s !! path with
  | Some _ => mret tt
  | None => modify (set_files (<[path := []]> (files s)))
  end.
(** [os.write] at the end of the file: how many bytes were written *)
Definition os_write (path : string) (data : list Z) : prog log_state Z :=
  o ← syscall;
  let n := match o with
           | AtMost n => Z.max 0 (Z.min n (Z.of_nat (length data)))
           | _ => Z.of_nat (length data)
           end in
  modify (λ s, set_files (alter (λ old, old ++ take (Z.to_nat n) data) path (files s)) s) ;;
  mret n.
Definition fsync : prog log_state unit := syscall ;; mret tt.

(** The [while view] loop; each round writes at least a byte, so the length of the
    payload bounds the rounds. *)
Fixpoint write_all (fuel : nat) (path : string) (view : list Z) : prog log_state unit :=
  match view, fuel with
  | [], _ => mret tt
  | _, O => lift (raise RecursionError "fuel")
  | _, S fuel =>
      written ← os_write path view;
      if written <=? 0 then lift (raise OSError "failed to write run record")
      else write_all fuel path (drop (Z.to_nat written) view)
  end.

(** The [finally] block: an incomplete file is removed. *)
Definition unless_complete (path : string) (m : prog log_state unit) : prog log_state unit := λ s,
  match m s with
  | (Ok u, s') => (Ok u, s')
  | (Raise e, s') => (Raise e, set_files (delete path (files s')) s')
  end.

Definition _write_exclusive (path : string) (payload : list Z) : prog log_state unit :=
  open_exclusive path ;;
  unless_complete path (write_all (length payload) path payload ;; fsync).

(** [{stem}{suffix}.json] *)
Definition record_name (stem : string) (sequence : Z) : string :=
  stem +:+ (if sequence =? 0 then "" else "-" +:+ str_of_Z sequence) +:+ ".json".

(** The rounds of the [for] loop from [sequence] on. *)
Fixpoint allocate (rounds : nat) (sequence : Z) (stem : string) (payload : list Z)
    : prog log_state string :=
  match rounds with
  | O => lift (raise FileExistsError "could not allocate a unique run-record filename")
  | S rounds =>
      let path := record_name stem sequence in
      catch (_write_exclusive path payload ;; mret path) [FileExistsError]
        (λ _, allocate rounds (sequence + 1) stem payload)
  end.
Definition _exclusive_record_path (stem : string) (payload : list Z) : prog log_state string :=
  allocate (Z.to_nat 10000) 0 stem payload.

Definition _append_journal (line : list Z) : prog log_state unit :=
  open_append JOURNAL ;;
  written ← os_write JOURNAL line;
  lift (raise_if (negb (written =? Z.of_nat (length line))) OSError "partial run journal write") ;;
  fsync.

Definition item_str (k : string) (record : pydict) : res string :=
  v ← dict_item k record; or_raise (as_str v) AttributeError "object has no attribute".

(** The members the journal repeats. *)
Definition journal_entry (record : pydict) (file : string) : res pydict :=
  run_id ← dict_item "runId" record;
  started ← dict_item "startedAt" record;
  command ← dict_item "command" record;
  consistent ← dict_item "consistent" record;
  exit_code ← dict_item "exitCode" record;
  error ← dict_item "error" record;
  Ok (dict_of [("runId", run_id); ("startedAt", started); ("command", command);
               ("consistent", consistent); ("exitCode", exit_code); ("error", error);
               ("file", VStr file)]).

(** [(json.dumps(...) + "\n").encode()] *)
Definition line_of (text : string) : list Z := encode_utf8 (text +:+ String LF "").

(** [run-{ts}-{short}] *)
Definition record_stem (started run_id : string) : string :=
  let ts := without "." (without "-" (without ":" started)) in
  let short := str_take 12 (removeprefix "sha256:" run_id) in
  "run-" +:+ ts +:+ "-" +:+ short.

Definition write_run_record (record : pydict) : prog log_state string :=
  ok ← lift (verify_run_record record);
  lift (raise_if (negb ok) ValueError "refusing to persist a run record with an invalid checksum") ;;
  syscall ;;
  started ← lift (item_str "startedAt" record);
  run_id ← lift (item_str "runId" record);
  text ← lift (dumps (pretty 2) (VDict record));
  path ← _exclusive_record_path (record_stem started run_id) (line_of text);
  entry ← lift (journal_entry record path);
  line ← lift (dumps plain (VDict entry));
  _append_journal (line_of line) ;;
  mret path.

(** ** The verifier *)

(** Text mode: a carriage return, alone or before a line feed, is a line feed. *)
Fixpoint universal_newlines (s : string) : string :=
  match s with
  | EmptyString => ""
  | String c r =>
      if code c =? 13 then
        String LF (match r with
                   | String d r' => if code d =? 10 then universal_newlines r' else universal_newlines r
                   | EmptyString => ""
                   end)
      else String c (universal_newlines r)
  end.
(** [path.read_text(encoding="utf-8")] *)
Definition read_text (file : list Z) : res string := universal_newlines <$> decode_utf8 file.

Definition is_line_break (c : ascii) : bool :=
  between 10 13 c || between 28 30 c || (code c =? 133).
(** [s.splitlines()] *)
Fixpoint splitlines (s : string) : list string :=
  match s with
  | EmptyString => []
  | String c r =>
      if code c =? 13 then
        "" :: match r with
              | String d r' => if code d =? 10 then splitlines r' else splitlines r
              | EmptyString => []
              end
      else if is_line_break c then "" :: splitlines r
      else match splitlines r with x :: l => String c x :: l | [] => [String c ""] end
  end.

(** [Path(s).name] *)
Definition path_name (s : string) : string :=
  List.last (filter (λ p, p ≠ "" ∧ p ≠ ".") (split_on "/" s)) "".

(** Opening [log_dir / filename]; only the files of the directory itself exist. *)
Definition read_file (fs : gmap string (list Z)) (filename : string) : res string :=
  raise_if (str_has "000" filename) ValueError "embedded null byte" ;;
  bytes ← or_raise (fs !! filename) OSError "No such file or directory";
  read_text bytes.

Definition finding_of (line_number : Z) (what : string) : string :=
  "runs.jsonl:" +:+ str_of_Z line_number +:+ ": " +:+ what.

(** The checks on one line: its finding, if any. *)
Definition check_line (fs : gmap string (list Z)) (line_number : Z) (raw : string)
    : res (option string) :=
  let found what := Ok (Some (finding_of line_number what)) in
  entry ← try_except (Some <$> loads raw) [JSONDecodeError] (λ _, Ok None);
  match entry with
  | None => found "invalid or truncated JSON"
  | Some (VDict entry) =>
      match dict_get "file" entry with
      | VStr filename =>
          if negb (path_name filename =? filename)%string then found "unsafe record filename"
          else
            record ← try_except (text ← read_file fs filename; Some <$> loads text)
                       [OSError; JSONDecodeError] (λ _, Ok None);
            match record with
            | None => found "record is missing or invalid"
            | Some (VDict record) =>
                ok ← verify_run_record record;
                if negb ok then found "record checksum is invalid"
                else if negb (py_eq (dict_get "runId" entry) (dict_get "runId" record))
                then found "journal/record runId mismatch"
                else Ok None
            | Some _ => found "record checksum is invalid"
            end
      | _ => found "unsafe record filename"
      end
  | Some _ => found "entry must be an object"
  end.

Fixpoint check_lines (fs : gmap string (list Z)) (line_number : Z) (lines : list string)
    : res (list string) :=
  match lines with
  | [] => Ok []
  | raw :: lines =>
      f ← check_line fs line_number raw;
      rest ← check_lines fs (line_number + 1) lines;
      Ok (match f with Some x => x :: rest | None => rest end)
  end.

Definition verify_run_journal (fs : gmap string (list Z)) : res (list string) :=
  match fs !! JOURNAL with
  | None => Ok ["runs.jsonl is missing"]
  | Some bytes => text ← read_text bytes; check_lines fs 1 (splitlines text)
  end.

(** * Lemmas *)

(** ** Checksums *)

Lemma content_set v d : content (dict_set "runId" v d) = content d.
Proof.
  unfold content. induction d as [|[[k|t] w] d IH]; [done|..]; cbn [dict_set].
  - destruct (String.eqb_spec "runId" k) as [<-|Hne].
    + by rewrite !filter_cons_False by (intros H; by apply H).
    + rewrite !filter_cons_True by (intros [= ->]; done). by rewrite IH.
  - rewrite !filter_cons_True by done. by rewrite IH.
Qed.

Lemma content_hash_ok d h :
  _content_hash d = Ok h ↔
  ∃ s, canonical_text d = Ok s ∧ h = "sha256:" +:+ sha256_hex (encode_utf8 s).
Proof.
  unfold _content_hash. rewrite res_bind_ok. split.
  - intros (s & Hs & [= <-]). eauto.
  - intros (s & Hs & ->). eauto.
Qed.

Lemma verify_ok d :
  verify_run_record d = Ok true ↔
  ∃ s, canonical_text d = Ok s ∧ dict_get "runId" d = VStr ("sha256:" +:+ sha256_hex (encode_utf8 s)).
Proof.
  unfold verify_run_record. split.
  - destruct (dict_get "runId" d) as [| | | |claimed| | |]; try done.
    intros (h & (s & Hs & ->)%content_hash_ok & [= E%String.eqb_eq])%res_bind_ok. subst. eauto.
  - intros (s & Hs & ->). apply res_bind_ok. eexists. split; [by apply content_hash_ok; eauto|].
    by rewrite String.eqb_refl.
Qed.

Lemma dict_get_set k v d : dict_get k (dict_set k v d) = v.
Proof. unfold dict_get. by rewrite dict_lookup_set_eq. Qed.
Lemma dict_get_set_ne k k' v d : k ≠ k' → dict_get k (dict_set k' v d) = dict_get k d.
Proof. intros H. unfold dict_get. by rewrite dict_lookup_set_ne. Qed.

(** ** Redaction *)

Lemma dict_lookup_elem_wf k v d : dict_wf d → (KStr k, v) ∈ d → dict_lookup k d = Some v.
Proof. intros Hd Hin. rewrite <- find_key_str. by apply find_key_elem. Qed.

Definition cleaned_value (str_other : pyval → string) (k : string) (v : pyval) : pyval :=
  if is_url_name k then VStr (_redact_url (py_str str_other v)) else v.

Lemma clean_members_lookup str_other inputs out cleaned k :
  clean_members str_other inputs out = Ok cleaned → dict_wf inputs →
  dict_lookup k cleaned =
    match dict_lookup k inputs with
    | Some v => if bool_decide (v = VNone) || is_secret_name k then dict_lookup k out
                else Some (cleaned_value str_other k v)
    | None => dict_lookup k out
    end.
Proof.
  revert out. induction inputs as [|[[k'|t] v] inputs IH]; intros out H Hw.
  - by injection H as <-.
  - apply NoDup_cons in Hw as [Hk' Hw].
    assert (dict_lookup k' inputs = None) as Hfresh.
    { destruct (dict_lookup k' inputs) as [w|] eqn:E; [|done]. destruct Hk'. apply list_elem_of_fmap.
      exists (KStr k', w). split; [done|by apply dict_lookup_elem]. }
    cbn [dict_lookup]. destruct (String.eqb_spec k k') as [->|Hne].
    + specialize (λ out H, IH out H Hw). rewrite Hfresh in IH.
      destruct v; cbn [clean_members] in H; [by apply IH|..];
        (rewrite bool_decide_eq_false_2 by done); cbn [orb];
        (destruct (is_secret_name k'); [by apply IH|]);
        apply IH in H as ->; by rewrite dict_lookup_set_eq.
    + assert (∃ out', clean_members str_other inputs out' = Ok cleaned
        ∧ dict_lookup k out' = dict_lookup k out) as (out' & H' & Hout).
      { destruct v; cbn [clean_members] in H; [by exists out|..];
          (destruct (is_secret_name k'); [by exists out|]);
          (eexists; split; [exact H|by apply dict_lookup_set_ne]). }
      rewrite (IH _ H' Hw), Hout. done.
  - destruct v; cbn [clean_members] in H; try done.
    apply NoDup_cons in Hw as [_ Hw]. by rewrite (IH _ H Hw).
Qed.

(** An endpoint as an operator writes it, with or without credentials and port. *)
Definition endpoint_url (scheme : string) (userinfo : option string) (host : string)
    (port : option Z) (tail : string) : string :=
  scheme +:+ "://" +:+ (match userinfo with Some u => u +:+ "@" | None => "" end)
  +:+ host +:+ (match port with Some n => ":" +:+ str_of_Z n | None => "" end) +:+ tail.

(** Characters with no meaning to [urlsplit] in a location. *)
Definition plain_char (c : ascii) : bool :=
  (32 <? code c) && negb (str_has c "/?#@:[]%").
Definition user_char (c : ascii) : bool :=
  (32 <? code c) && negb (str_has c "/?#[]").

Record endpoint_ok (scheme : string) (userinfo : option string) (host : string)
    (port : option Z) (tail : string) : Prop := {
  eok_scheme : ∃ c r, scheme = String c r ∧ is_alpha c = true ∧ str_all is_scheme_char scheme = true;
  eok_user : match userinfo with Some u => str_all user_char u = true | None => True end;
  eok_host : host ≠ "" ∧ str_all plain_char host = true;
  eok_port : match port with Some n => 1 ≤ n ≤ 65535 | None => True end;
  eok_tail : match tail with String c _ => ends_netloc c = true | EmptyString => True end
}.

(** Scheme, host and port: what may be kept of an endpoint. *)
Definition public_part (scheme host : string) (port : option Z) : string :=
  lower scheme +:+ "://" +:+ lower host
  +:+ match port with Some n => ":" +:+ str_of_Z n | None => "" end.

Lemma user_char_spec c : user_char c = true →
  negb (ends_netloc c) = true ∧ negb (is_char "[" c) = true ∧ negb (is_char "]" c) = true
  ∧ negb ((code c =? 9) || (code c =? 10) || (code c =? 13)) = true.
Proof. all_chars c. Qed.
Lemma plain_char_spec c : plain_char c = true →
  user_char c = true ∧ negb (is_char "@" c) = true ∧ negb (is_char ":" c) = true
  ∧ negb (is_char "%" c) = true.
Proof. all_chars c. Qed.
Lemma digit_user_char c : is_dec_digit c = true → user_char c = true ∧ negb (is_char "@" c) = true.
Proof. all_chars c. Qed.
Lemma scheme_char_spec c : is_scheme_char c = true → user_char c = true ∧ negb (is_char ":" c) = true.
Proof. all_chars c. Qed.

Lemma remove_chars_app p s t : remove_chars p (s +:+ t) = remove_chars p s +:+ remove_chars p t.
Proof.
  induction s as [|c s IH]; [done|]. rewrite str_app_cons. simpl. destruct (p c); [done|].
  by rewrite str_app_cons, IH.
Qed.

Definition port_text (prt : option Z) : string :=
  match prt with Some n => ":" +:+ str_of_Z n | None => "" end.
Definition user_text (userinfo : option string) : string :=
  match userinfo with Some u => u +:+ "@" | None => "" end.
Definition location (userinfo : option string) (host : string) (prt : option Z) : string :=
  user_text userinfo +:+ host +:+ port_text prt.

Lemma port_digits n : 1 ≤ n ≤ 65535 →
  str_of_Z n = to_dec n ∧ str_all is_dec_digit (to_dec n) = true ∧ to_dec n ≠ ""
  ∧ Z.of_nat (ndigits 10 n) ≤ INT_MAX_STR_DIGITS.
Proof.
  intros Hn. split.
  { unfold str_of_Z. by rewrite (proj2 (Z.ltb_ge _ _)) by lia. }
  split; [apply numw_dec|]. split; [apply numw_nonempty, ndigits_pos|].
  assert (ndigits 10 n <= 5)%nat; [|unfold INT_MAX_STR_DIGITS; lia].
  apply ndigits_le; simpl; lia.
Qed.

Section endpoints.
Context (sch : string) (userinfo : option string) (host : string) (prt : option Z) (tail : string).
Context (Hok : endpoint_ok sch userinfo host prt tail).

Lemma port_chars :
  str_all user_char (port_text prt) = true ∧ str_all (λ c, negb (is_char "@" c)) (port_text prt) = true.
Proof.
  pose proof (eok_port _ _ _ _ _ Hok) as Hp. clear Hok. unfold port_text. destruct prt as [n|]; [|done].
  destruct (port_digits n Hp) as (-> & Hd & _). rewrite !str_all_app.
  by split; simpl; eapply str_all_impl; try exact Hd; intros c [? ?]%digit_user_char.
Qed.

Lemma host_chars p : (∀ c, plain_char c = true → p c = true) → str_all p host = true.
Proof. intros H. destruct (eok_host _ _ _ _ _ Hok) as [_ Hh]. by eapply str_all_impl. Qed.

Lemma location_chars p : (∀ c, user_char c = true → p c = true) → str_all p (location userinfo host prt) = true.
Proof.
  intros H. eapply str_all_impl; [exact H|]. unfold location, user_text. destruct port_chars as [Hp _].
  rewrite !str_all_app, Hp, (host_chars user_char), !andb_true_r
    by (intros c Hc; apply (plain_char_spec c Hc)).
  pose proof (eok_user _ _ _ _ _ Hok) as Hu. clear -Hu. destruct userinfo as [u|]; [|done].
  by rewrite str_all_app, Hu.
Qed.

Lemma location_hostinfo :
  _hostinfo (location userinfo host prt) = (host, match prt with Some n => str_of_Z n | None => "" end).
Proof.
  unfold _hostinfo, location. destruct port_chars as [Hp Hpa].
  assert (str_all (λ c, negb (is_char "@" c)) (host +:+ port_text prt) = true) as Hat.
  { rewrite str_all_app, Hpa, host_chars; [done|]. intros c Hc. apply (plain_char_spec c Hc). }
  assert (∃ u b, rpartition "@" (user_text userinfo +:+ host +:+ port_text prt)
    = (u, b, host +:+ port_text prt)) as (u & b & ->).
  { clear Hok. unfold user_text. destruct userinfo as [u|].
    - exists u, true. rewrite <- str_app_assoc. by apply (rpartition_app "@" u).
    - exists "", false. by apply rpartition_none. }
  assert (str_all (λ c, negb (is_char "[" c)) (host +:+ port_text prt) = true) as Hb.
  { rewrite str_all_app, host_chars by (intros c Hc; apply (user_char_spec c), (plain_char_spec c Hc)).
    simpl. eapply str_all_impl, Hp. intros c Hc. apply (user_char_spec c Hc). }
  rewrite (partition_none "[") by done.
  assert (str_all (λ c, negb (is_char ":" c)) host = true) as Hcolon.
  { apply host_chars. intros c Hc. apply (plain_char_spec c Hc). }
  clear -Hcolon. unfold port_text. destruct prt as [n|].
  - change (":" +:+ ?x) with (String ":" x). by rewrite partition_app.
  - by rewrite str_app_nil_r, partition_none.
Qed.

Definition is_removed (c : ascii) : bool := (code c =? 9) || (code c =? 10) || (code c =? 13).

Lemma clean_endpoint :
  url_clean (endpoint_url sch userinfo host prt tail)
  = sch +:+ String ":" ("//" +:+ location userinfo host prt +:+ remove_chars is_removed tail).
Proof.
  destruct (eok_scheme _ _ _ _ _ Hok) as (c & r & Es & Ha & Hs).
  assert (endpoint_url sch userinfo host prt tail
    = sch +:+ String ":" ("//" +:+ location userinfo host prt +:+ tail)) as ->.
  { unfold endpoint_url, location, user_text, port_text. by rewrite <- !str_app_assoc. }
  unfold url_clean. fold is_removed.
  assert (lstrip_by (λ c, code c <=? 32) (sch +:+ String ":" ("//" +:+ location userinfo host prt +:+ tail))
    = sch +:+ String ":" ("//" +:+ location userinfo host prt +:+ tail)) as ->.
  { rewrite Es, str_app_cons. cbn [lstrip_by].
    assert ((code c <=? 32) = false) as ->; [clear -Ha; revert Ha; all_chars c|done]. }
  change (remove_chars (λ c, is_removed c)) with (remove_chars is_removed).
  rewrite remove_chars_app, remove_chars_none
    by (eapply str_all_impl, Hs; intros x Hx; by apply user_char_spec, scheme_char_spec).
  f_equal. change (remove_chars is_removed (String ":" ("//" +:+ ?x)))
    with (String ":" ("//" +:+ remove_chars is_removed x)).
  do 2 f_equal. rewrite remove_chars_app. f_equal.
  apply remove_chars_none, location_chars. intros x Hx. by apply user_char_spec.
Qed.

(** What [urlsplit] finds in the endpoint. *)
Lemma urlsplit_endpoint :
  ∃ parts, urlsplit (endpoint_url sch userinfo host prt tail) = Ok parts
    ∧ scheme parts = lower sch ∧ netloc parts = location userinfo host prt.
Proof.
  unfold urlsplit. rewrite clean_endpoint. unfold split_scheme.
  destruct (eok_scheme _ _ _ _ _ Hok) as (c & r & Es & Ha & Hs).
  rewrite partition_app by (eapply str_all_impl, Hs; intros x Hx; apply (scheme_char_spec x Hx)).
  rewrite Es, <- Es, Ha, Hs. cbn [andb].
  assert (split_netloc ("//" +:+ location userinfo host prt +:+ remove_chars is_removed tail)
    = (location userinfo host prt, remove_chars is_removed tail)) as ->.
  { unfold split_netloc. rewrite startswith_app.
    rewrite (str_drop_exact 2 "//") by done.
    rewrite cut_app by (apply location_chars; intros x Hx; apply (user_char_spec x Hx)).
    assert (cut ends_netloc (remove_chars is_removed tail) = ("", remove_chars is_removed tail)) as ->.
    { pose proof (eok_tail _ _ _ _ _ Hok) as Ht. clear -Ht. destruct tail as [|x t]; [done|].
      assert (is_removed x = false) as Hx by (revert Ht; all_chars x). simpl. rewrite Hx. simpl. by rewrite Ht. }
    simpl. by rewrite str_app_nil_r. }
  rewrite !str_has_none by (apply location_chars; intros x Hx; apply (user_char_spec x Hx)).
  cbn [xorb andb raise_if mbind res_bind].
  destruct (partition "#" _) as [[rest b] fragment]. destruct (partition "?" rest) as [[path b'] query].
  by eexists.
Qed.

Lemma redact_endpoint : _redact_url (endpoint_url sch userinfo host prt tail) = public_part sch host prt.
Proof.
  destruct urlsplit_endpoint as (parts & Hp & Hs & Hn). unfold _redact_url. rewrite Hp.
  destruct (eok_scheme _ _ _ _ _ Hok) as (c & r & Es & _).
  destruct (eok_host _ _ _ _ _ Hok) as [Hne _].
  assert ((endpoint_url sch userinfo host prt tail =? "")%string = false) as ->.
  { apply String.eqb_neq. unfold endpoint_url. by rewrite Es. }
  unfold hostname, port. rewrite Hn, location_hostinfo, Hs.
  assert (empty host = false) as -> by by apply String.eqb_neq.
  rewrite partition_none by (apply host_chars; intros x Hx; apply (plain_char_spec x Hx)).
  assert ((lower sch =? "")%string = false) as ->.
  { apply String.eqb_neq. by rewrite Es. }
  rewrite !str_app_nil_r. unfold public_part. pose proof (eok_port _ _ _ _ _ Hok) as Hpt.
  clear -Hpt. destruct prt as [n|]; [|by rewrite str_app_nil_r].
  destruct (port_digits n Hpt) as (-> & Hd & He & Hl).
  assert (empty (to_dec n) = false) as -> by by apply String.eqb_neq.
  assert (isdigit (to_dec n) && isascii (to_dec n) = true) as ->.
  { unfold isdigit, isascii. rewrite (proj2 (String.eqb_neq _ _)) by done. simpl.
    apply andb_true_iff. split; eapply str_all_impl; try exact Hd; intros x; all_chars x. }
  rewrite py_int10_to_dec by lia. simpl.
  rewrite !(proj2 (Z.leb_le _ _)) by lia. simpl. rewrite (proj2 (Z.eqb_neq _ _)) by lia.
  unfold str_of_Z. by rewrite (proj2 (Z.ltb_ge _ _)) by lia.
Qed.
End endpoints.

(** ** Files *)

Lemma syscall_run s r s' :
  syscall s = (r, s') → files s' = files s ∧ (∀ e, r = Raise e → exn_cls e = OSError).
Proof.
  unfold syscall, next_outcome, lift, raise, mbind, prog_bind, mret, prog_ret.
  destruct (outcomes s) as [|[] os]; intros [= <- <-]; split; try done; by intros e [= <-].
Qed.

(** A call whose file holds a prefix of what is written, and only that file. *)
Lemma os_write_run path data s r s' old :
  os_write path data s = (r, s') → files s !! path = Some old →
  ∃ n, (n <= length data)%nat ∧ files s' = <[path := old ++ take n data]> (files s)
    ∧ match r with
      | Ok w => Z.to_nat w = n ∧ 0 ≤ w
      | Raise e => n = 0%nat ∧ exn_cls e = OSError
      end.
Proof.
  unfold os_write. intros H Hold. apply prog_bind_run in H as [(e & -> & Hsys)|(o & s1 & Hsys & H)];
    apply syscall_run in Hsys as [Hf Hr].
  - exists 0%nat. rewrite Hf, app_nil_r, insert_id by done. eauto with lia.
  - revert H. set (n := match o with AtMost _ => _ | _ => _ end).
    assert (0 ≤ n ≤ Z.of_nat (length data)) as Hn by (unfold n; destruct o; lia).
    unfold modify, mret, prog_ret, mbind, prog_bind. intros [= <- <-]. simpl. rewrite Hf.
    exists (Z.to_nat n). split; [lia|]. split; [|split; [done|lia]].
    apply map_eq. intros k. destruct (decide (k = path)) as [->|Hne].
    + by rewrite lookup_alter_eq, lookup_insert_eq, Hold.
    + by rewrite lookup_alter_ne, lookup_insert_ne.
Qed.

Lemma write_all_run fuel path view s r s' old :
  write_all fuel path view s = (r, s') → files s !! path = Some old → (length view <= fuel)%nat →
  ∃ n, files s' = <[path := old ++ take n view]> (files s)
    ∧ match r with Ok _ => (length view <= n)%nat | Raise e => exn_cls e = OSError end.
Proof.
  revert view s old. induction fuel as [|fuel IH]; intros view s old H Hold Hf.
  { destruct view; [|simpl in Hf; lia]. injection H as <- <-. exists 0%nat.
    by rewrite app_nil_r, insert_id. }
  destruct view as [|b view].
  { injection H as <- <-. exists 0%nat. by rewrite app_nil_r, insert_id. }
  cbn [write_all] in H. apply prog_bind_run in H as [(e & -> & H)|(w & s1 & H & Hrest)];
    destruct (os_write_run _ _ _ _ _ _ H Hold) as (n & Hn & Hs1 & Hr).
  - exists n. destruct Hr. done.
  - destruct Hr as [<- Hw]. destruct (Z.leb_spec w 0) as [Hw0|Hw0].
    + apply lift_run in Hrest as [<- ->]. by exists (Z.to_nat w).
    + assert (files s1 !! path = Some (old ++ take (Z.to_nat w) (b :: view))) as Hold1
        by (rewrite Hs1; apply lookup_insert_eq).
      apply (IH _ _ _ Hrest) in Hold1 as (m & Hs' & Hr).
      * exists (Z.to_nat w + m)%nat. rewrite Hs', Hs1, insert_insert_eq. split.
        { f_equal. rewrite <- app_assoc. f_equal. symmetry.
          rewrite <- (take_drop (Z.to_nat w) (b :: view)) at 1.
          rewrite take_app, length_take, take_take.
          rewrite Nat.min_r by lia. f_equal. f_equal. lia. }
        destruct r; [|done]. rewrite length_drop in Hr. lia.
      * rewrite length_drop. simpl in *. lia.
Qed.

(** Creation is all or nothing. *)
Lemma write_exclusive_run path payload s r s' :
  _write_exclusive path payload s = (r, s') →
  match r with
  | Ok _ => files s !! path = None ∧ files s' = <[path := payload]> (files s)
  | Raise e => files s' = files s
      ∧ (exn_cls e = OSError ∨ exn_cls e = FileExistsError ∧ is_Some (files s !! path))
  end.
Proof.
  unfold _write_exclusive, open_exclusive. intros H.
  apply prog_bind_run in H as [(e & -> & H)|([] & s1 & H & Hw)].
  - apply prog_bind_run in H as [(e' & [= <-] & H)|(o & s2 & Hsys & H)].
    + apply syscall_run in H as [-> Hr]. split; [done|]. left. by apply Hr.
    + apply syscall_run in Hsys as [Hf _]. unfold get_state, mbind, prog_bind in H.
      destruct (files s2 !! path) as [old|] eqn:E; [|done].
      apply lift_run in H as [H ->]. injection H as <-. rewrite Hf in E. rewrite Hf.
      split; [done|]. right. split; [done|by eexists].
  - apply prog_bind_run in H as [(e' & [=] & H)|(o & s2 & Hsys & H)].
    apply syscall_run in Hsys as [Hf _]. unfold get_state, mbind, prog_bind in H.
    destruct (files s2 !! path) as [old|] eqn:E; [done|].
    apply modify_ok in H as ->. rewrite Hf in E.
    revert Hw. unfold unless_complete.
    destruct ((_ ;; fsync) _) as [r1 s1] eqn:Ebody.
    assert (∃ n, files s1 = <[path := take n payload]> (files s)
      ∧ match r1 with Ok _ => (length payload <= n)%nat | Raise e => exn_cls e = OSError end)
      as (n & Hs1 & Hr1).
    { apply prog_bind_run in Ebody as [(e & -> & H)|([] & s3 & H & Hs)];
        apply (write_all_run _ _ _ _ _ _ []) in H as (n & Hn & Hr);
        try (simpl; by rewrite lookup_insert_eq); try done;
        simpl in Hn; rewrite Hf, insert_insert_eq in Hn.
      - by exists n.
      - exists n. unfold fsync in Hs.
        apply prog_bind_run in Hs as [(e & -> & Hs)|(o' & s4 & Hs & [= <- <-])];
          apply syscall_run in Hs as [-> Hr']; (split; [done|]); [by apply Hr'|done]. }
    destruct r1 as [[]|e]; intros [= <- <-]; simpl; rewrite Hs1.
    + split; [done|]. by rewrite take_ge.
    + rewrite delete_insert_id by done. split; [done|by left].
Qed.

Lemma allocate_run rounds sequence stem payload s r s' :
  allocate rounds sequence stem payload s = (r, s') →
  match r with
  | Ok name => ∃ q, sequence ≤ q < sequence + Z.of_nat rounds ∧ name = record_name stem q
      ∧ files s !! name = None ∧ files s' = <[name := payload]> (files s)
  | Raise e => files s' = files s
  end.
Proof.
  revert sequence s. induction rounds as [|rounds IH]; intros sequence s H.
  { by injection H as <- <-. }
  cbn [allocate] in H. unfold catch in H.
  destruct ((_write_exclusive (record_name stem sequence) payload ;;
             mret (record_name stem sequence) : prog log_state string) s) as [[name|e] s1] eqn:E.
  - injection H as <- <-. apply prog_bind_ok in E as ([] & s2 & E & [-> ->]%mret_ok).
    apply write_exclusive_run in E as [Hn Hs]. exists sequence. split; [lia|]. done.
  - assert (files s1 = files s) as Hs1.
    { apply prog_bind_raise in E as [E|(? & ? & _ & [=])]. by apply write_exclusive_run in E as [? _]. }
    destruct (existsb _ _); [|by injection H as <- <-].
    apply IH in H. destruct r as [name|e']; [|by rewrite H].
    destruct H as (q & Hq & -> & Hn & Hs). exists q. rewrite Hs1 in Hn, Hs. split; [lia|done].
Qed.

(** The bytes of a file, none when it does not exist. *)
Definition bytes_of (fs : gmap string (list Z)) (path : string) : list Z := default [] (fs !! path).

Lemma append_journal_run line s r s' :
  _append_journal line s = (r, s') →
  (files s' = files s ∧ ∃ e, r = Raise e)
  ∨ ∃ n, files s' = <[JOURNAL := bytes_of (files s) JOURNAL ++ take n line]> (files s)
      ∧ ((∃ u, r = Ok u) → (length line <= n)%nat).
Proof.
  unfold _append_journal, open_append. intros H.
  apply prog_bind_run in H as [(e & -> & H)|([] & s1 & H & Hw)].
  - left. split; [|by eexists]. apply prog_bind_run in H as [(e' & _ & H)|(o & s2 & Hsys & H)].
    + by apply syscall_run in H as [-> _].
    + apply syscall_run in Hsys as [<- _]. unfold get_state, mbind, prog_bind in H.
      by destruct (files s2 !! JOURNAL).
  - right. assert (∃ old, files s1 !! JOURNAL = Some old ∧ old = bytes_of (files s) JOURNAL
      ∧ files s1 = <[JOURNAL := old]> (files s)) as (old & Hold & -> & Hs1).
    { apply prog_bind_run in H as [(e' & [=] & H)|(o & s2 & Hsys & H)].
      apply syscall_run in Hsys as [Hf _]. unfold get_state, mbind, prog_bind in H. unfold bytes_of.
      rewrite <- Hf. destruct (files s2 !! JOURNAL) as [old|] eqn:E.
      - injection H as <-. exists old. by rewrite insert_id.
      - apply modify_ok in H as ->. exists []. simpl. by rewrite lookup_insert_eq. }
    apply prog_bind_run in Hw as [(e & -> & H')|(w & s2 & H' & Hrest)];
      destruct (os_write_run _ _ _ _ _ _ H' Hold) as (n & Hn & Hs2 & Hr);
      rewrite Hs1, insert_insert_eq in Hs2; exists n.
    + split; [done|]. by intros [].
    + apply prog_bind_run in Hrest as [(e & -> & [_ ->]%lift_run)|([] & s3 & [Hl ->]%lift_ok & Hs)].
      { split; [done|]. by intros []. }
      apply raise_if_ok in Hl. bool_facts. unfold fsync in Hs.
      apply prog_bind_run in Hs as [(e & -> & [-> _]%syscall_run)|(o & s4 & [Hf4 _]%syscall_run & [= <- <-])].
      * split; [done|]. by intros [].
      * rewrite Hf4. split; [done|]. destruct Hr. lia.
Qed.

Lemma record_name_not_journal started run_id q : record_name (record_stem started run_id) q ≠ JOURNAL.
Proof. unfold record_name, JOURNAL. intros [=]. Qed.

Lemma item_str_ok k record s : item_str k record = Ok s → dict_lookup k record = Some (VStr s).
Proof. unfold item_str. intros H. inv_res. by val_facts; subst. Qed.

(** What an attempt to write a record does to the directory. *)
Inductive write_effect (record : pydict) (fs fs' : gmap string (list Z)) : res string → Prop :=
  (** nothing was created *)
  | write_nothing e : fs' = fs → write_effect record fs fs' (Raise e)
  (** the record was created; the journal holds a part of the line *)
  | write_unindexed e name text n line :
      fs !! name = None → name ≠ JOURNAL → dumps (pretty 2) (VDict record) = Ok text →
      (fs' = <[name := line_of text]> fs
       ∨ fs' = <[JOURNAL := bytes_of fs JOURNAL ++ take n line]> (<[name := line_of text]> fs)) →
      write_effect record fs fs' (Raise e)
  (** both were written *)
  | write_indexed name started run_id q text entry line :
      dict_lookup "startedAt" record = Some (VStr started) →
      dict_lookup "runId" record = Some (VStr run_id) →
      fs !! name = None → name = record_name (record_stem started run_id) q → 0 ≤ q →
      verify_run_record record = Ok true →
      dumps (pretty 2) (VDict record) = Ok text → journal_entry record name = Ok entry →
      dumps plain (VDict entry) = Ok line →
      fs' = <[JOURNAL := bytes_of fs JOURNAL ++ line_of line]> (<[name := line_of text]> fs) →
      write_effect record fs fs' (Ok name).
#[local] Hint Constructors write_effect : core.

Lemma write_run_record_run record s r s' :
  write_run_record record s = (r, s') → write_effect record (files s) (files s') r.
Proof.
  unfold write_run_record. intros H.
  apply prog_bind_run in H as [(e & -> & [_ ->]%lift_run)|(ok & s0 & [Hv ->]%lift_ok & H)]; [by auto|].
  apply prog_bind_run in H as [(e & -> & [_ ->]%lift_run)|([] & s0 & [Hok ->]%lift_ok & H)]; [by auto|].
  apply raise_if_ok, negb_false_iff in Hok as ->.
  apply prog_bind_run in H as [(e & -> & [Hf _]%syscall_run)|(o & s1 & [Hf _]%syscall_run & H)]; [by auto|].
  apply prog_bind_run in H as [(e & -> & [_ ->]%lift_run)|(started & s0 & [Hst%item_str_ok ->]%lift_ok & H)]; [by auto|].
  apply prog_bind_run in H as [(e & -> & [_ ->]%lift_run)|(run_id & s0 & [Hid%item_str_ok ->]%lift_ok & H)]; [by auto|].
  apply prog_bind_run in H as [(e & -> & [_ ->]%lift_run)|(text & s0 & [Ht ->]%lift_ok & H)]; [by auto|].
  rewrite <- Hf. clear Hf.
  apply prog_bind_run in H as [(e & -> & H)|(name & s2 & H & Hrest)]; apply allocate_run in H; [by auto|].
  destruct H as (q & Hq & Hname & Hnone & Hs2).
  assert (name ≠ JOURNAL) as Hne by (rewrite Hname; apply record_name_not_journal).
  assert (bytes_of (files s2) JOURNAL = bytes_of (files s1) JOURNAL) as Hj.
  { unfold bytes_of. by rewrite Hs2, lookup_insert_ne. }
  apply prog_bind_run in Hrest as [(e & -> & [_ ->]%lift_run)|(entry & s0 & [He ->]%lift_ok & H)];
    [eapply (write_unindexed _ _ _ _ name text 0 []); eauto|].
  apply prog_bind_run in H as [(e & -> & [_ ->]%lift_run)|(line & s0 & [Hl ->]%lift_ok & H)];
    [eapply (write_unindexed _ _ _ _ name text 0 []); eauto|].
  apply prog_bind_run in H as [(e & -> & H)|(u & s3 & H & [= <- <-])];
    apply append_journal_run in H as [[Hs3 [e' He']]|(n & Hs3 & Hn)]; try done;
    rewrite ?Hj, Hs2 in Hs3.
  - eapply (write_unindexed _ _ _ _ name text 0 []); eauto.
  - eapply (write_unindexed _ _ _ _ name text n (line_of line)); eauto.
  - rewrite take_ge in Hs3 by (apply Hn; by eexists). eapply write_indexed; eauto; lia.
Qed.

(** ** Texts *)

(** The journal of these lines. *)
Fixpoint concat_lines (lines : list string) : string :=
  match lines with
  | [] => ""
  | l :: lines => l +:+ String LF (concat_lines lines)
  end.

Lemma concat_lines_snoc lines l :
  encode_utf8 (concat_lines (lines ++ [l])) = encode_utf8 (concat_lines lines) ++ line_of l.
Proof.
  unfold line_of. rewrite <- encode_utf8_app. f_equal.
  induction lines as [|x lines IH]; [done|]. simpl. rewrite IH. by rewrite <- (str_app_assoc x), str_app_cons.
Qed.

(** A character of a record file: printable, or a line feed. *)
Definition textual (c : ascii) : bool := printable c || (code c =? 10).

Lemma textual_spec c : textual c = true → (code c =? 13) = false.
Proof. all_chars c. Qed.
Lemma printable_spec c :
  printable c = true → (code c =? 13) = false ∧ is_line_break c = false ∧ textual c = true.
Proof. all_chars c. Qed.

Lemma universal_newlines_id s : str_all textual s = true → universal_newlines s = s.
Proof.
  induction s as [|c s IH]; [done|]. cbn [str_all universal_newlines].
  intros [Hc%textual_spec Hs]%andb_true_iff. by rewrite Hc, IH.
Qed.

Lemma read_textual s : str_all textual s = true → read_text (encode_utf8 s) = Ok s.
Proof. intros Hs. unfold read_text. rewrite decode_encode_utf8. simpl. by rewrite universal_newlines_id. Qed.

Lemma splitlines_cons l s : str_all printable l = true → splitlines (l +:+ String LF s) = l :: splitlines s.
Proof.
  induction l as [|c l IH]; [done|]. cbn [str_all]. intros [Hc Hl]%andb_true_iff.
  apply printable_spec in Hc as (H1 & H2 & _). rewrite str_app_cons. cbn [splitlines].
  by rewrite H1, H2, IH.
Qed.

Lemma splitlines_concat lines :
  Forall (λ l, str_all printable l = true) lines → splitlines (concat_lines lines) = lines.
Proof. induction 1 as [|l lines Hl _ IH]; [done|]. simpl. by rewrite splitlines_cons, IH. Qed.

Lemma concat_lines_textual lines :
  Forall (λ l, str_all printable l = true) lines → str_all textual (concat_lines lines) = true.
Proof.
  induction 1 as [|l lines Hl _ IH]; [done|]. simpl. rewrite str_all_app. simpl. rewrite IH, andb_true_r.
  eapply str_all_impl, Hl. intros c Hc. by apply printable_spec.
Qed.

Lemma plain_printable v s : dumps plain v = Ok s → str_all printable s = true.
Proof. intros (j & _ & <-)%res_fmap_ok. by apply print_chars. Qed.

Lemma pretty_textual n v s : dumps (pretty n) v = Ok s → str_all textual s = true.
Proof.
  intros (j & _ & <-)%res_fmap_ok. apply print_chars; try done.
  - intros c Hc. by apply printable_spec.
  - intros level. unfold newline. simpl. by apply str_all_repeat.
Qed.

(** ** Indexed records *)

(** What a record must be for its file to read back: JSON with each name once,
    numbers whose text reads back, and a time stamp that is no path. *)
Definition recordable (record : pydict) : bool :=
  value_wf (VDict record) && floats_ok (VDict record)
  && match dict_get "startedAt" record with
     | VStr s => str_all (λ c, negb (is_char "/" c) && (0 <? code c)) s
     | _ => false
     end.

Lemma style_ok_plain : style_ok plain.
Proof. split; [by right; left|by right; left]. Qed.
Lemma style_ok_pretty n : style_ok (pretty n).
Proof. split; [by left|by right; left]. Qed.

(** A file that reads back as the record. *)
Definition holds (fs : gmap string (list Z)) (name : string) (record : pydict) : Prop :=
  ∃ text, read_file fs name = Ok text ∧ loads text = Ok (VDict record).

(** A line of the journal whose record is there and intact. *)
Definition line_good (fs : gmap string (list Z)) (record : pydict) (line : string) : Prop :=
  str_all printable line = true ∧ ∃ entry name id,
    loads line = Ok (VDict entry) ∧ dict_get "file" entry = VStr name ∧ path_name name = name
    ∧ name ≠ JOURNAL ∧ holds fs name record ∧ verify_run_record record = Ok true
    ∧ dict_get "runId" entry = VStr id ∧ dict_get "runId" record = VStr id.

Lemma check_line_good fs record line n : line_good fs record line → check_line fs n line = Ok None.
Proof.
  intros (_ & entry & name & id & Hl & Hf & Hp & _ & (text & Ht & Hr) & Hv & Hi & Hi').
  unfold check_line. rewrite Hl. simpl. rewrite Hf, Hp, String.eqb_refl. simpl.
  rewrite Ht. simpl. rewrite Hr. simpl. rewrite Hv. simpl. rewrite Hi, Hi'. simpl.
  by rewrite String.eqb_refl.
Qed.

Lemma check_lines_good fs lines : Forall (λ l, ∃ r, line_good fs r l) lines → ∀ n, check_lines fs n lines = Ok [].
Proof.
  induction 1 as [|l lines [r Hl] _ IH]; intros n; [done|]. simpl. by rewrite (check_line_good _ _ _ _ Hl), IH.
Qed.

(** Another file does not matter. *)
Lemma line_good_mono fs fs' record line :
  (∀ k, k ≠ JOURNAL → is_Some (fs !! k) → fs' !! k = fs !! k) →
  line_good fs record line → line_good fs' record line.
Proof.
  intros Hm (Hp & entry & name & id & Hl & Hf & Hn & Hne & (text & Ht & Hr) & Hrest).
  split; [done|]. exists entry, name, id. do 4 (split; [done|]). split; [|done].
  exists text. split; [|done]. unfold read_file in *. inv_res.
  rewrite Hm by (done || by eexists).
  match goal with H : str_has _ _ = false |- _ => rewrite H end. simpl.
  match goal with H : fs !! name = Some _ |- _ => rewrite H end. done.
Qed.

Definition name_char (c : ascii) : bool := negb (is_char "/" c) && (0 <? code c).

Lemma name_char_spec c : name_char c = true →
  negb (is_char "/" c) = true ∧ negb (is_char "000" c) = true.
Proof. all_chars c. Qed.

Lemma split_on_none c s : str_all (λ d, negb (is_char c d)) s = true → split_on c s = [s].
Proof.
  induction s as [|d s IH]; [done|]. cbn [str_all split_on].
  intros [Hd%negb_true_iff Hs]%andb_true_iff. by rewrite Hd, IH.
Qed.

Lemma path_name_plain s :
  str_all (λ d, negb (is_char "/" d)) s = true → s ≠ "." → path_name s = s.
Proof.
  intros Hs Hd. unfold path_name. rewrite split_on_none by done.
  destruct (decide (s = "")) as [->|Hne]; [done|]. by rewrite filter_cons_True.
Qed.

Lemma str_all_removed p q s : str_all p s = true → str_all p (remove_chars q s) = true.
Proof.
  induction s as [|c s IH]; [done|]. cbn [str_all remove_chars]. intros [Hc Hs]%andb_true_iff.
  destruct (q c); [by apply IH|]. cbn [str_all]. by rewrite Hc, IH.
Qed.

Lemma name_char_hex c : is_hex_digit c = true → name_char c = true.
Proof. all_chars c. Qed.
Lemma name_char_dec c : is_dec_digit c = true → name_char c = true.
Proof. all_chars c. Qed.

Lemma record_name_chars started run_id h q :
  str_all name_char started = true → run_id = "sha256:" +:+ h → str_all is_hex_digit h = true → 0 ≤ q →
  str_all name_char (record_name (record_stem started run_id) q) = true.
Proof.
  intros Hs -> Hh Hq. unfold record_name, record_stem, without. rewrite !str_all_app.
  assert (removeprefix "sha256:" ("sha256:" +:+ h) = h) as ->.
  { unfold removeprefix. rewrite startswith_app. by apply str_drop_exact. }
  rewrite str_all_removed by (by repeat apply str_all_removed).
  rewrite (str_all_take name_char) by (eapply str_all_impl, Hh; exact name_char_hex).
  simpl. rewrite andb_true_r. destruct (Z.eqb_spec q 0); [done|].
  rewrite str_all_app. unfold str_of_Z. rewrite (proj2 (Z.ltb_ge _ _)) by lia.
  apply andb_true_iff. split; [done|]. eapply str_all_impl, numw_dec. exact name_char_dec.
Qed.

Lemma entry_json record name entry :
  journal_entry record name = Ok entry →
  (value_wf (VDict record) = true → value_wf (VDict entry) = true)
  ∧ (floats_ok (VDict record) = true → floats_ok (VDict entry) = true)
  ∧ dict_get "file" entry = VStr name ∧ dict_lookup "runId" entry = dict_lookup "runId" record.
Proof.
  unfold journal_entry. intros H.
  assert (∀ (p : pyval → bool) k v, forallb (λ q, p q.2) record = true → dict_lookup k record = Some v → p v = true) as Hp.
  { intros p k v Hr Hk%dict_lookup_elem. exact (forallb_elem _ _ _ Hr Hk). }
  inv_res. val_facts. split; [|split; [|split; [done|by symmetry]]].
  - intros [_ Hr]%andb_true_iff. by repeat (erewrite (Hp value_wf) by eassumption; cbn [andb]).
  - intros Hr. by repeat (erewrite (Hp floats_ok) by eassumption; cbn [andb]).
Qed.

(** A record that was written is held by its file, and its line is good. *)
Lemma written_line_good record name started run_id q text entry line (fs' : gmap string (list Z)) :
  recordable record = true →
  dict_lookup "startedAt" record = Some (VStr started) →
  dict_lookup "runId" record = Some (VStr run_id) →
  name = record_name (record_stem started run_id) q → 0 ≤ q →
  verify_run_record record = Ok true →
  dumps (pretty 2) (VDict record) = Ok text → journal_entry record name = Ok entry →
  dumps plain (VDict entry) = Ok line → fs' !! name = Some (line_of text) →
  line_good fs' record line ∧ holds fs' name record.
Proof.
  intros Hr Hst Hid Hname Hq Hv Ht He Hl Hfs. unfold recordable in Hr.
  apply andb_true_iff in Hr as [[Hw Hf]%andb_true_iff Hstart].
  unfold dict_get in Hstart. rewrite Hst in Hstart. simpl in Hstart.
  pose proof Hv as (canon & _ & Hrid)%verify_ok. unfold dict_get in Hrid. rewrite Hid in Hrid. simpl in Hrid.
  injection Hrid as Hrid.
  pose proof (sha256_hex_digest (encode_utf8 canon)) as [_ Hhex]%andb_true_iff.
  assert (str_all name_char name = true) as Hchars.
  { rewrite Hname. apply (record_name_chars _ _ _ _ Hstart Hrid); [|done].
    eapply str_all_impl, Hhex. exact lower_hex_hex. }
  assert (holds fs' name record) as Hh.
  { exists (text +:+ String LF ""). split.
    - unfold read_file. rewrite str_has_none by (eapply str_all_impl, Hchars; intros c; apply name_char_spec).
      simpl. rewrite Hfs. simpl. unfold line_of. apply read_textual.
      rewrite str_all_app, (pretty_textual _ _ _ Ht). done.
    - by apply (loads_dumps (pretty 2) _ _ _ (style_ok_pretty 2)). }
  split; [|done]. destruct (entry_json _ _ _ He) as (Hew & Hef & Hfile & Hrun).
  split; [by eapply plain_printable|]. exists entry, name, run_id. split.
  { rewrite <- (str_app_nil_r line). by apply (loads_dumps plain _ _ _ style_ok_plain); auto. }
  split; [done|]. split.
  { apply path_name_plain; [eapply str_all_impl, Hchars; intros c; apply name_char_spec|].
    rewrite Hname. intros [=]. }
  split; [rewrite Hname; apply record_name_not_journal|]. split; [done|]. split; [done|].
  unfold dict_get. by rewrite Hrun, Hid.
Qed.

(** ** Errors *)

Lemma throws_in_syscall : throws_in [OSError] syscall.
Proof.
  intros s. unfold syscall, next_outcome, mbind, prog_bind.
  destruct (outcomes s) as [|[] os]; simpl; try done; by apply throws_raise.
Qed.
Lemma throws_in_os_write path data : throws_in [OSError] (os_write path data).
Proof. unfold os_write. apply throws_in_bind; [apply throws_in_syscall|solve_throws]. Qed.
Lemma throws_in_append_journal line : throws_in [OSError] (_append_journal line).
Proof.
  unfold _append_journal, open_append, fsync.
  repeat first [apply throws_in_syscall | apply throws_in_os_write | progress solve_throws].
Qed.
Lemma throws_in_allocate rounds sequence stem payload : throws_in [OSError] (allocate rounds sequence stem payload).
Proof.
  revert sequence. induction rounds as [|rounds IH]; intros sequence s; [by apply throws_raise|].
  cbn [allocate]. unfold catch.
  destruct ((_write_exclusive (record_name stem sequence) payload ;;
             mret (record_name stem sequence) : prog log_state string) s) as [[name|e] s1] eqn:E; [done|].
  destruct (existsb _ _); [apply IH|]. simpl. intros e' [= <-].
  apply prog_bind_raise in E as [E|(? & ? & _ & [=])].
  apply write_exclusive_run in E as [_ [Hc|[Hc _]]]; by rewrite Hc.
Qed.

(** Encodable records that carry what the journal repeats. *)
Definition complete (record : pydict) : Prop :=
  encodable (VDict record) = true
  ∧ (∃ started, dict_lookup "startedAt" record = Some (VStr started))
  ∧ (∃ run_id, dict_lookup "runId" record = Some (VStr run_id))
  ∧ Forall (λ k, is_Some (dict_lookup k record)) ["command"; "consistent"; "exitCode"; "error"].

Lemma encodable_lookup k d v : encodable (VDict d) = true → dict_lookup k d = Some v → encodable v = true.
Proof.
  intros Hd Hk. cbn [encodable] in Hd. apply dict_lookup_elem in Hk.
  pose proof (forallb_elem _ _ _ Hd Hk) as H. simpl in H. by bool_facts.
Qed.

Lemma encodable_content record : encodable (VDict record) = true → encodable (VDict (content record)) = true.
Proof.
  cbn [encodable]. intros H. apply forallb_forall. intros p Hp%list_elem_of_In.
  unfold content in Hp. apply list_elem_of_filter in Hp as [_ Hp]. by apply (forallb_elem _ _ _ H).
Qed.

Lemma throws_content_hash record : encodable (VDict record) = true → throws [ValueError] (_content_hash record).
Proof.
  intros H. unfold _content_hash, canonical_text, dumps.
  apply throws_bind; [by apply throws_dumps_encodable, encodable_content|solve_throws].
Qed.

Lemma journal_entry_complete record file :
  complete record → ∃ entry, journal_entry record file = Ok entry ∧ encodable (VDict entry) = true.
Proof.
  intros (He & (started & Hs) & (run_id & Hr) & Hall). apply Forall_cons in Hall as [[c Hc] Hall].
  apply Forall_cons in Hall as [[k Hk] Hall]. apply Forall_cons in Hall as [[x Hx] Hall].
  apply Forall_cons in Hall as [[e Hee] _].
  unfold journal_entry, dict_item. rewrite Hs, Hr, Hc, Hk, Hx, Hee. simpl. eexists. split; [done|]. simpl.
  by rewrite (encodable_lookup _ _ _ He Hc), (encodable_lookup _ _ _ He Hk), (encodable_lookup _ _ _ He Hx),
    (encodable_lookup _ _ _ He Hee).
Qed.

(** Writing such a record fails in the ways the caller handles. *)
Lemma throws_in_write_run_record record :
  complete record → throws_in [OSError; ValueError] (write_run_record record).
Proof.
  intros Hc. pose proof Hc as (He & (started & Hs) & (run_id & Hr) & _).
  assert (∀ {A} (m : prog log_state A), throws_in [OSError] m → throws_in [OSError; ValueError] m) as Hos
    by (intros A m Hm s; eapply throws_subset, Hm; set_solver).
  assert (∀ {A} (m : res A), throws [ValueError] m → throws [OSError; ValueError] m) as Hve
    by (intros A m; apply throws_subset; set_solver).
  unfold write_run_record. apply throws_in_bind.
  { apply throws_in_lift, Hve. unfold verify_run_record. destruct (dict_get _ _); try apply throws_ok.
    apply throws_bind; [by apply throws_content_hash|solve_throws]. }
  intros ok. apply throws_in_bind; [solve_throws|intros _].
  apply throws_in_bind; [apply Hos, throws_in_syscall|intros _].
  unfold item_str, dict_item. rewrite Hs, Hr. cbn [or_raise mbind res_bind as_str].
  apply throws_in_bind; [by apply throws_in_lift|intros ?].
  apply throws_in_bind; [by apply throws_in_lift|intros ?].
  apply throws_in_bind; [by apply throws_in_lift, Hve, throws_dumps_encodable|intros text].
  apply throws_in_bind; [apply Hos, throws_in_allocate|intros path].
  destruct (journal_entry_complete record path Hc) as (entry & -> & Hent).
  intros s. change (throws [OSError; ValueError] ((line ← lift (dumps plain (VDict entry));
    _append_journal (line_of line) ;; mret path : prog log_state string) s).1). revert s.
  apply throws_in_bind; [by apply throws_in_lift, Hve, throws_dumps_encodable|intros line].
  apply throws_in_bind; [apply Hos, throws_in_append_journal|intros _; apply throws_in_ret].
Qed.

(** What a built record is made of. *)
Lemma record_built str_other python platform machine version command inputs report exit_code
    started_at finished_at error record :
  build_run_record str_other python platform machine version command inputs report exit_code
    started_at finished_at error = Ok record →
  ∃ code started finished cleaned run_id,
    exit_code = VInt code ∧ 0 ≤ code
    ∧ is_aware started_at = true ∧ is_aware finished_at = true ∧ utc started_at ≤ utc finished_at
    ∧ _clean_inputs str_other inputs = Ok cleaned
    ∧ (let members := record_members python platform machine version command started finished
                        (elapsed_seconds started_at finished_at) cleaned report code error in
       _content_hash members = Ok run_id ∧ record = dict_set "runId" (VStr run_id) members).
Proof.
  unfold build_run_record. intros H. repeat inv_step. val_facts. bool_facts. subst.
  do 5 eexists. by split_and!.
Qed.

Lemma built_verifies python platform machine version command started finished duration cleaned
    report code error run_id :
  let members := record_members python platform machine version command started finished duration
                   cleaned report code error in
  _content_hash members = Ok run_id → verify_run_record (dict_set "runId" (VStr run_id) members) = Ok true.
Proof. intros members (s & Hs & ->)%content_hash_ok. apply verify_ok. by exists s. Qed.

(** The members of a built record that its callers rely on. *)
Lemma built_members str_other python platform machine version command inputs report code
    started_at finished_at error record :
  build_run_record str_other python platform machine version command inputs report (VInt code)
    started_at finished_at error = Ok record →
  verify_run_record record = Ok true ∧ dict_get "report" record = opt_dict report
  ∧ dict_get "exitCode" record = VInt code ∧ dict_get "error" record = opt_text error
  ∧ dict_get "consistent" record = VBool (match error with None => code =? 0 | Some _ => false end).
Proof.
  intros (code' & st & fi & cl & id & [= <-] & _ & _ & _ & _ & _ & Hid & ->)%record_built.
  split; [by apply built_verifies|]. by split_and!.
Qed.

Lemma clean_members_encodable str_other inputs out :
  encodable (VDict inputs) = true → encodable (VDict out) = true →
  ∃ cleaned, clean_members str_other inputs out = Ok cleaned ∧ encodable (VDict cleaned) = true.
Proof.
  assert (∀ k v d, encodable v = true → encodable (VDict d) = true → encodable (VDict (dict_set k v d)) = true) as Hset.
  { intros k v d Hv. cbn [encodable]. induction d as [|[[k'|t] w] d IH]; simpl; [by rewrite Hv|..].
    - intros Hd. apply andb_true_iff in Hd as [Hw Hd].
      destruct (k =? k')%string; simpl; [by rewrite Hv, Hd|]. by rewrite Hw, IH.
    - done. }
  revert out. induction inputs as [|[[k|t] v] inputs IH]; intros out Hi Ho; [by eexists| |done].
  cbn [encodable forallb snd] in Hi. apply andb_true_iff in Hi as [Hv Hi]. simpl in Hv.
  assert (∀ w, encodable w = true → ∃ cleaned, clean_members str_other inputs (dict_set k w out) = Ok cleaned
    ∧ encodable (VDict cleaned) = true) as Hw by (intros w Hw; apply IH; [done|by apply Hset]).
  destruct v; simpl; try (by apply IH);
    (destruct (is_secret_name k); [by apply IH|]); apply Hw; by destruct (is_url_name k).
Qed.

Lemma throws_build str_other python platform machine version command inputs report code
    started_at finished_at error :
  encodable (VDict inputs) = true → encodable (opt_dict report) = true →
  in_range (utc started_at) = true → in_range (utc finished_at) = true →
  throws [ValueError] (build_run_record str_other python platform machine version command inputs report
                         (VInt code) started_at finished_at error)
  ∧ ∀ record, build_run_record str_other python platform machine version command inputs report
                (VInt code) started_at finished_at error = Ok record → complete record.
Proof.
  intros Hi Hr Hs Hf. destruct (clean_members_encodable str_other inputs [] Hi eq_refl) as (cleaned & Hc & He).
  assert (∀ started finished duration, encodable (VDict (record_members python platform machine version
    command started finished duration cleaned report code error)) = true) as Hm.
  { intros. cbn. cbn [encodable] in He. rewrite He. destruct report; simpl in *; by rewrite ?Hr; destruct error. }
  split.
  - unfold build_run_record, utc_text, _clean_inputs. rewrite Hs, Hf, Hc.
    cbn [mbind res_bind raise_if negb as_exact_int or_raise].
    do 4 (apply throws_bind; [solve_throws|intros ? _]).
    apply throws_bind; [by apply throws_content_hash|solve_throws].
  - intros record (code' & st & fi & cl & id & [= <-] & _ & _ & _ & _ & Hcl & _ & ->)%record_built.
    unfold _clean_inputs in Hcl. rewrite Hc in Hcl. injection Hcl as <-. split.
    + specialize (Hm st fi (elapsed_seconds started_at finished_at)). revert Hm. cbn.
      rewrite !andb_true_r. done.
    + split; [by eexists|]. split; [eexists; reflexivity|].
      repeat (apply Forall_cons; split; [eexists; reflexivity|]). constructor.
Qed.

(** * Properties *)

(** What is built verifies.  A run record that is built carries a checksum
    its verifier accepts, was built from aware and ordered time stamps and an
    exit code that is no negative number, and calls the run consistent exactly
    when there was no error and the exit code is zero. *)
Theorem built_record_verifies str_other python platform machine version command inputs report
    exit_code started_at finished_at error record :
  build_run_record str_other python platform machine version command inputs report exit_code
    started_at finished_at error = Ok record →
  verify_run_record record = Ok true
  ∧ (∃ code, exit_code = VInt code ∧ 0 ≤ code
       ∧ dict_get "consistent" record = VBool (bool_decide (error = None ∧ code = 0))
       ∧ dict_get "exitCode" record = VInt code)
  ∧ is_aware started_at = true ∧ is_aware finished_at = true ∧ utc started_at ≤ utc finished_at.
Proof.
  intros (code & st & fi & cl & id & -> & Hpos & ? & ? & ? & _ & Hid & ->)%record_built.
  split; [by apply built_verifies|]. split; [|done]. exists code. split; [done|]. split; [done|].
  split; [|done]. change (dict_get "consistent" _) with
    (VBool (match error with None => code =? 0 | Some _ => false end)). f_equal.
  destruct error; symmetry.
  - apply bool_decide_eq_false_2. by intros [].
  - destruct (Z.eqb_spec code 0);
      [by apply bool_decide_eq_true_2|apply bool_decide_eq_false_2; by intros []].
Qed.

Definition sample_inputs : pydict := dict_of [
  ("rail", VStr "mock-anvil"); ("rpc_url", VStr "https://user:pw@rpc.example:8443/v2/KEY?k=1");
  ("rpc_timeout", VFloat (float_of_decimal 10 0)); ("private_key", VStr "0x11"); ("log_index", VNone)].
Definition sample_time (us : Z) : datetime := {| wall := 63871200000000000 + us; utcoffset := Some 7200000000 |}.
Definition sample_build (us : Z) : res pydict :=
  build_run_record (λ _, "?") "3.11.2" "Linux" "x86_64" "0.1" "reconcile" sample_inputs None (VInt 2)
    (sample_time 0) (sample_time us) (Some "reconciliation error").

Definition sample_record : pydict :=
  Eval vm_compute in match sample_build 1234567 with Ok r => r | Raise _ => [] end.

Lemma sample_build_ok : sample_build 1234567 = Ok sample_record.
Proof. vm_compute. reflexivity. Qed.

Lemma built_record_verifies_witness : verify_run_record sample_record = Ok true.
Proof.
  pose proof sample_build_ok as Hr. unfold sample_build in Hr.
  exact (proj1 (built_record_verifies _ _ _ _ _ _ _ _ _ _ _ _ _ Hr)).
Defined.

(** The checksum binds the record.  Two records that verify under the same
    run id have canonical texts with the same SHA-256 digest, and the texts are
    the same exactly when the records are, up to the order of members and the id
    itself: to alter a record under its id is to find a second preimage. *)
Theorem checksum_binds_record r r' :
  verify_run_record r = Ok true → verify_run_record r' = Ok true →
  dict_get "runId" r = dict_get "runId" r' →
  floats_ok (VDict (content r)) = true → floats_ok (VDict (content r')) = true →
  ∃ s t, canonical_text r = Ok s ∧ canonical_text r' = Ok t
    ∧ sha256_hex (encode_utf8 s) = sha256_hex (encode_utf8 t)
    ∧ (s = t ↔ same_value (VDict (content r)) (VDict (content r'))).
Proof.
  intros (s & Hs & Es)%verify_ok (t & Ht & Et)%verify_ok E Hf Hf'. exists s, t.
  split; [done|]. split; [done|]. split.
  { rewrite Es, Et in E. injection E as E. done. }
  assert (style_ok compact) as Hst by (split; by left).
  split.
  - intros <-. by apply (dumps_inj compact _ _ s Hst Hf Hf').
  - intros Hn. by apply (dumps_normal compact _ _ _ _ Hs Ht).
Qed.

Lemma checksum_binds_record_witness :
  ∃ s, canonical_text sample_record = Ok s
    ∧ same_value (VDict (content sample_record)) (VDict (content (rev sample_record))).
Proof.
  assert (verify_run_record sample_record = Ok true) as H1 by (vm_compute; reflexivity).
  assert (verify_run_record (rev sample_record) = Ok true) as H2 by (vm_compute; reflexivity).
  assert (floats_ok (VDict (content sample_record)) = true) as H4 by (vm_compute; reflexivity).
  assert (floats_ok (VDict (content (rev sample_record))) = true) as H5 by (vm_compute; reflexivity).
  assert (canonical_text sample_record = canonical_text (rev sample_record)) as H6
    by (vm_compute; reflexivity).
  destruct (checksum_binds_record sample_record (rev sample_record) H1 H2 eq_refl H4 H5)
    as (s & t & Hs & Ht & _ & Hiff).
  exists s. split; [exact Hs|]. apply (proj1 Hiff).
  rewrite Hs, Ht in H6. injection H6 as H6. exact H6.
Defined.




(** A directory in which the disk is full after twenty bytes. *)
Definition full_disk : log_state := {|
  files := {[ "run-old.json" := [123; 125; 10] ]}; outcomes := [Done; Done; AtMost 20; Fails] |}.
Definition empty_dir : log_state := {| files := ∅; outcomes := [] |}.


(** A sequence of writes: each returns, or fails before it reaches the journal. *)
Inductive writes : log_state → list pydict → log_state → Prop :=
  | writes_nil s : writes s [] s
  | writes_ok s rs s1 record name s2 :
      writes s rs s1 → recordable record = true → write_run_record record s1 = (Ok name, s2) →
      writes s (rs ++ [record]) s2
  | writes_failed s rs s1 record e s2 :
      writes s rs s1 → write_run_record record s1 = (Raise e, s2) →
      files s2 !! JOURNAL = files s1 !! JOURNAL → writes s rs s2.

(** The journal lists the records, in the order of their lines. *)
Definition journal_of (fs : gmap string (list Z)) (rs : list pydict) : Prop :=
  ∃ lines, bytes_of fs JOURNAL = encode_utf8 (concat_lines lines)
    ∧ (rs ≠ [] → is_Some (fs !! JOURNAL)) ∧ Forall2 (line_good fs) rs lines.

Lemma journal_of_mono fs fs' rs :
  (∀ k, k ≠ JOURNAL → is_Some (fs !! k) → fs' !! k = fs !! k) → fs' !! JOURNAL = fs !! JOURNAL →
  journal_of fs rs → journal_of fs' rs.
Proof.
  intros Hm Hj (lines & Hl & Hs & Hg). exists lines. unfold bytes_of. rewrite Hj. split; [done|].
  split; [done|]. eapply Forall2_impl; [exact Hg|]. intros r l. by apply line_good_mono.
Qed.

Lemma write_effect_others record fs fs' r :
  write_effect record fs fs' r → ∀ k, k ≠ JOURNAL → is_Some (fs !! k) → fs' !! k = fs !! k.
Proof.
  intros [e ->|e name text n line Hn Hne Ht Hfs|name started run_id q text entry line Hst Hid Hn Hname Hq Hv Ht He Hl ->] k Hk [x Hx];
    [done|..]; assert (k ≠ name) by congruence.
  - by destruct Hfs as [-> | ->]; rewrite ?lookup_insert_ne by done.
  - by rewrite !lookup_insert_ne.
Qed.

Lemma writes_journal s rs s' : writes s rs s' → files s = ∅ → journal_of (files s') rs.
Proof.
  intros H He. induction H as [s|s rs s1 record name s2 _ IH Hr Hw|s rs s1 record e s2 _ IH Hw Hj].
  - exists []. unfold bytes_of. rewrite He. done.
  - specialize (IH He). apply write_run_record_run in Hw. pose proof (write_effect_others _ _ _ _ Hw) as Ho.
    inversion Hw as [| |n' started run_id q text entry line Hst Hid Hn Hname Hq Hv Ht Hent Hl Hfs]; subst n'.
    destruct IH as (lines & Hb & _ & Hg). exists (lines ++ [line]).
    rewrite Hfs at 1 2. unfold bytes_of at 1. rewrite !lookup_insert_eq. simpl.
    split; [by rewrite Hb, concat_lines_snoc|]. split; [by eexists|].
    apply Forall2_app; [eapply Forall2_impl; [exact Hg|]; intros r l; by apply line_good_mono|].
    constructor; [|constructor]. eapply written_line_good; eauto.
    rewrite Hfs, lookup_insert_ne; [apply lookup_insert_eq|]. rewrite Hname. intros E.
    by apply (record_name_not_journal started run_id q).
  - specialize (IH He). apply write_run_record_run in Hw.
    apply (journal_of_mono (files s1)); [by eapply write_effect_others|done|done].
Qed.

(** C33: a journal of written records verifies.  In a directory that was empty,
    after any sequence of writes of well-formed records in which no attempt was
    cut short inside the journal, whatever else failed, the verifier reads the
    journal and every record it names and finds nothing wrong; and every record
    that was written is held, unchanged, by a file. *)
Theorem written_journal_verifies s rs s' :
  writes s rs s' → files s = ∅ → rs ≠ [] →
  verify_run_journal (files s') = Ok []
  ∧ ∀ record, record ∈ rs → ∃ name, holds (files s') name record.
Proof.
  intros Hw He Hne. destruct (writes_journal _ _ _ Hw He) as (lines & Hb & Hs & Hg).
  destruct (Hs Hne) as [bytes Hbytes].
  assert (Forall (λ l, ∃ r, line_good (files s') r l) lines) as Hall.
  { clear -Hg. induction Hg; constructor; eauto. }
  assert (Forall (λ l, str_all printable l = true) lines) as Hp.
  { eapply Forall_impl; [exact Hall|]. by intros l (r & ? & _). }
  split.
  - unfold verify_run_journal. rewrite Hbytes.
    unfold bytes_of in Hb. rewrite Hbytes in Hb. simpl in Hb. subst.
    rewrite read_textual by (by apply concat_lines_textual). simpl.
    rewrite splitlines_concat by done. by apply check_lines_good.
  - intros record [i Hi]%list_elem_of_lookup.
    destruct (Forall2_lookup_l _ _ _ _ _ Hg Hi) as (l & _ & _ & entry & name & id & _ & _ & _ & _ & Hh & _).
    by exists name.
Qed.

(** The same record twice: the second file gets the next free name. *)
Definition two_writes : log_state := snd (write_run_record sample_record (snd (write_run_record sample_record empty_dir))).

Lemma written_journal_verifies_witness :
  verify_run_journal (files two_writes) = Ok [] ∧ size (files two_writes) = 3%nat.
Proof.
  assert (∃ name, fst (write_run_record sample_record empty_dir) = Ok name) as [n1 H1]
    by (eexists; vm_compute; reflexivity).
  assert (∃ name, fst (write_run_record sample_record (snd (write_run_record sample_record empty_dir))) = Ok name)
    as [n2 H2] by (eexists; vm_compute; reflexivity).
  assert (recordable sample_record = true) as Hr by (vm_compute; reflexivity).
  split; [|vm_compute; reflexivity].
  refine (proj1 (written_journal_verifies empty_dir ([sample_record] ++ [sample_record]) two_writes _ eq_refl _)).
  - eapply writes_ok; [|exact Hr|].
    + eapply (writes_ok _ [] _ sample_record n1); [apply writes_nil|exact Hr|].
      rewrite <- H1. apply surjective_pairing.
    + rewrite <- H2. apply surjective_pairing.
  - intros E. discriminate E.
Defined.

(** ** What the verifier does not survive *)

(** A journal entry for the file [name]. *)
Definition entry_for (name : string) : list Z :=
  match dumps plain (VDict (dict_of [("file", VStr name)])) with
  | Ok s => line_of s | Raise _ => [] end.

(** A byte of a record that is no UTF-8 ends the verification with an exception
    instead of a finding; so does a NUL in the file name of an entry. *)
Example corrupt_byte_is_no_finding :
  verify_run_journal {[ JOURNAL := entry_for "run-1.json"; "run-1.json" := [123; 255; 125] ]}
  = raise UnicodeDecodeError "invalid start byte".
Proof. vm_compute. reflexivity. Qed.
Example nul_in_filename_is_no_finding :
  verify_run_journal {[ JOURNAL := entry_for (String "000" "") ]} = raise ValueError "embedded null byte".
Proof. vm_compute. reflexivity. Qed.

(** After a journal line was cut short, the line of the next record, which is
    written without an error, continues it: that record is not indexed. *)
Example next_line_joins_a_partial_one :
  let cut_short := {| files := ∅; outcomes := [Done; Done; Done; Done; Done; AtMost 20] |} in
  let s := snd (write_run_record sample_record cut_short) in
  is_ok (fst (write_run_record sample_record s)) = true
  ∧ verify_run_journal (files (snd (write_run_record sample_record s)))
    = Ok ["runs.jsonl:1: invalid or truncated JSON"].
Proof. vm_compute. done. Qed.
