(* ===== verification/Cli.v ===== *)
(** * The arguments of the command line ([psv/cli.py])

    The validators of the arguments, the parser and the log directory that is
    chosen.  A command line that is accepted holds only checked values, and the
    arguments are read back from their written form.  What the commands do is in
    [CliRun]. *)

From S2P Require Import Prelude PyStr PyVal PyJson PyTime PyUrl PyArgs.
Local Open Scope Z_scope.

Definition _MAX_PATH_CHARS : Z := 4096.
Definition DEFAULT_LOG_DIR : string := "psv-runs".
Definition NO_LOG_ENV : string := "PSV_NO_LOG".

(** ** Validators *)

Definition bad_argument {A} (msg : string) : res A := raise ArgumentTypeError msg.

Definition _address (value : string) : res string :=
  raise_if (negb (re_0xhex 40 value)) ArgumentTypeError "must be an exact 20-byte EVM address" ;;
  Ok value.

Definition _bytes32 (value : string) : res string :=
  raise_if (negb (re_0xhex 64 value)) ArgumentTypeError
    "must be exactly 32 bytes of 0x-prefixed hex" ;;
  Ok value.

Definition _uint256 (value : string) : res Z :=
  result ← or_raise (py_int10 value) ArgumentTypeError "must be a base-10 uint256";
  raise_if (negb (is_uint256 result)) ArgumentTypeError "must be within uint256" ;;
  Ok result.

Definition _positive_uint256 (value : string) : res Z :=
  result ← _uint256 value;
  raise_if (result =? 0) ArgumentTypeError "must be a positive uint256" ;;
  Ok result.

(** [0.1 <= f <= 120.0], false for a NaN *)
Definition timeout_in_bounds (f : spec_float) : bool :=
  SFleb (float_of_decimal 1 (-1)) f && SFleb f (float_of_decimal 120 0).

Definition _timeout (value : string) : res spec_float :=
  result ← or_raise (py_float value) ArgumentTypeError "must be a number";
  raise_if (negb (timeout_in_bounds result)) ArgumentTypeError "must be within [0.1, 120] seconds" ;;
  Ok result.

Definition NUL : ascii := "000".

Definition is_some {A} (o : option A) : bool := match o with Some _ => true | None => false end.

Definition _rpc_url (value : string) : res string :=
  raise_if ((2048 <? str_len value) || str_has NUL value) ArgumentTypeError
    "RPC URL is too long or contains NUL" ;;
  '(parsed, prt) ← try_except (parsed ← urlsplit value; prt ← port parsed; Ok (parsed, prt)) [ValueError]
                     (λ e, bad_argument ("invalid RPC URL: " +:+ exn_msg e));
  raise_if (negb ((scheme parsed =? "http") || (scheme parsed =? "https"))%string
            || match hostname parsed with Some h => (h =? "")%string | None => true end)
    ArgumentTypeError "RPC URL must use http(s) and include a host" ;;
  raise_if (negb (fragment parsed =? "")%string) ArgumentTypeError
    "RPC URL must not contain a fragment" ;;
  raise_if (is_some (username parsed) || is_some (password parsed)) ArgumentTypeError
    "RPC URL must not contain inline credentials" ;;
  raise_if (match prt with Some p => negb ((1 <=? p) && (p <=? 65535)) | None => false end)
    ArgumentTypeError "RPC port must be within [1, 65535]" ;;
  Ok value.

Definition _output_path (value : string) : res string :=
  raise_if ((value =? "")%string || (_MAX_PATH_CHARS <? str_len value) || str_has NUL value)
    ArgumentTypeError "output path is empty, too long, or contains NUL" ;;
  Ok value.

(** ** The parser *)

Notation namespace := pydict.

(** [add_argument(flag, dest=..., type=..., required=...)] *)
Definition argument (flag dest : string) (type : string → res pyval) (required : bool) : action namespace := {|
  PyArgs.flag := flag; valued := true; needed := required; group := None;
  store value ns := v ← type value; Ok (dict_set dest v ns) |}.
(** [action="store_true"] and [action="store_false"], in a required group or none *)
Definition switch (flag dest : string) (b : bool) (in_group : option nat) : action namespace := {|
  PyArgs.flag := flag; valued := false; needed := is_some in_group; group := in_group;
  store _ ns := Ok (dict_set dest (VBool b) ns) |}.

Definition text (f : string → res string) (v : string) : res pyval := VStr <$> f v.
Definition number (f : string → res Z) (v : string) : res pyval := VInt <$> f v.
Definition seconds (v : string) : res pyval := VFloat <$> _timeout v.

Definition reconcile_options : list (action namespace) := [
  argument "--rail" "rail" (text Ok) true;
  argument "--payer" "payer" (text _address) true;
  argument "--payee" "payee" (text _address) true;
  argument "--nonce" "nonce" (text _bytes32) true;
  argument "--tx-hash" "tx_hash" (text _bytes32) true;
  argument "--log-index" "log_index" (number _uint256) true;
  argument "--required-amount" "required_amount" (number _positive_uint256) true;
  argument "--payer-before" "payer_before" (number _uint256) true;
  argument "--payee-before" "payee_before" (number _uint256) true;
  switch "--sut-paid" "sut_believes_paid" true (Some O);
  switch "--sut-unpaid" "sut_believes_paid" false (Some O);
  argument "--rpc-url" "rpc_url" (text _rpc_url) false;
  argument "--rpc-timeout" "rpc_timeout" seconds false;
  argument "--json" "json_out" (text _output_path) false;
  argument "--markdown" "md_out" (text _output_path) false;
  argument "--log-dir" "log_dir" (text _output_path) false;
  switch "--no-log" "no_log" true None].

Definition drift_options : list (action namespace) := [
  argument "--rail" "rail" (text Ok) true;
  argument "--rpc-url" "rpc_url" (text _rpc_url) true;
  argument "--rpc-timeout" "rpc_timeout" seconds false].

Definition default_timeout : spec_float := float_of_decimal 10 0.
#[local] Arguments timeout_in_bounds : simpl never.
#[local] Arguments default_timeout : simpl never.

(** The defaults; a text default has passed its own validator. *)
Definition reconcile_defaults : namespace := dict_of [
  ("sut_believes_paid", VBool false); ("rpc_url", VStr "http://127.0.0.1:8545");
  ("rpc_timeout", VFloat default_timeout); ("json_out", VNone); ("md_out", VNone);
  ("log_dir", VNone); ("no_log", VBool false)].
Definition drift_defaults : namespace := dict_of [("rpc_timeout", VFloat default_timeout)].

Record reconcile_args := {
  rail : string;
  payer : string;
  payee : string;
  nonce : string;
  tx_hash : string;
  log_index : Z;
  required_amount : Z;
  payer_before : Z;
  payee_before : Z;
  sut_believes_paid : bool;
  rpc_url : string;
  rpc_timeout : spec_float;
  json_out : option string;
  md_out : option string;
  log_dir : option string;
  no_log : bool
}.

Record drift_args := { drift_rail : string; drift_rpc_url : string; drift_rpc_timeout : spec_float }.

Inductive command := Reconcile (args : reconcile_args) | RailDrift (args : drift_args).

(** [args.name] of a type the parser stored. *)
Definition attr {A} (as_type : pyval → option A) (name : string) (ns : namespace) : res A :=
  or_raise (as_type (dict_get name ns)) AttributeError name.
Definition as_path (v : pyval) : option (option string) :=
  match v with VNone => Some None | VStr s => Some (Some s) | _ => None end.
Definition as_float (v : pyval) : option spec_float :=
  match v with VFloat f => Some f | _ => None end.

Definition reconcile_of (ns : namespace) : res reconcile_args :=
  rail ← attr as_str "rail" ns;
  payer ← attr as_str "payer" ns;
  payee ← attr as_str "payee" ns;
  nonce ← attr as_str "nonce" ns;
  tx_hash ← attr as_str "tx_hash" ns;
  log_index ← attr as_exact_int "log_index" ns;
  required_amount ← attr as_exact_int "required_amount" ns;
  payer_before ← attr as_exact_int "payer_before" ns;
  payee_before ← attr as_exact_int "payee_before" ns;
  sut_believes_paid ← attr as_bool "sut_believes_paid" ns;
  rpc_url ← attr as_str "rpc_url" ns;
  rpc_timeout ← attr as_float "rpc_timeout" ns;
  json_out ← attr as_path "json_out" ns;
  md_out ← attr as_path "md_out" ns;
  log_dir ← attr as_path "log_dir" ns;
  no_log ← attr as_bool "no_log" ns;
  Ok {| rail := rail; payer := payer; payee := payee; nonce := nonce; tx_hash := tx_hash;
        log_index := log_index; required_amount := required_amount; payer_before := payer_before;
        payee_before := payee_before; sut_believes_paid := sut_believes_paid; rpc_url := rpc_url;
        rpc_timeout := rpc_timeout; json_out := json_out; md_out := md_out; log_dir := log_dir;
        no_log := no_log |}.

Definition drift_of (ns : namespace) : res drift_args :=
  rail ← attr as_str "rail" ns;
  rpc_url ← attr as_str "rpc_url" ns;
  rpc_timeout ← attr as_float "rpc_timeout" ns;
  Ok {| drift_rail := rail; drift_rpc_url := rpc_url; drift_rpc_timeout := rpc_timeout |}.

(** The subparser a command word chooses. *)
Definition subcommand (word : string) (argv : list string) : res (command * bool) :=
  if (word =? "reconcile")%string then
    '(ns, extra) ← parse_options reconcile_options argv reconcile_defaults;
    args ← reconcile_of ns; Ok (Reconcile args, extra)
  else if (word =? "rail-drift")%string then
    '(ns, extra) ← parse_options drift_options argv drift_defaults;
    args ← drift_of ns; Ok (RailDrift args, extra)
  else usage_error "argument command: invalid choice".

(** [_build_parser().parse_args(argv)] *)
Definition parse_args (argv : list string) : res command := parse_command subcommand argv.

Definition _resolve_log_dir (environ : gmap string string) (args : reconcile_args)
    : option string :=
  if no_log args then None
  else match log_dir args with
       | Some dir => Some dir
       | None => if (default "" (environ !! NO_LOG_ENV) =? "")%string then Some DEFAULT_LOG_DIR else None
       end.

(** * Lemmas *)

(** ** Validators *)

Lemma address_arg_ok v s : _address v = Ok s ↔ s = v ∧ re_0xhex 40 v = true.
Proof.
  unfold _address. destruct (re_0xhex 40 v); simpl; split; try naive_solver.
Qed.
Lemma bytes32_ok v s : _bytes32 v = Ok s ↔ s = v ∧ re_0xhex 64 v = true.
Proof. unfold _bytes32. destruct (re_0xhex 64 v); simpl; split; naive_solver. Qed.
Lemma uint256_arg_ok v n : _uint256 v = Ok n ↔ py_int10 v = Some n ∧ is_uint256 n = true.
Proof.
  unfold _uint256. split.
  - intros H. inv_res. by bool_facts.
  - intros [-> Hn]. simpl. by rewrite Hn.
Qed.
Lemma positive_uint256_ok v n :
  _positive_uint256 v = Ok n ↔ py_int10 v = Some n ∧ is_uint256 n = true ∧ n ≠ 0.
Proof.
  unfold _positive_uint256. split.
  - intros H. inv_step. apply uint256_arg_ok in H0 as [? ?]. inv_res. by bool_facts.
  - intros (Hv & Hn & H0). rewrite (proj2 (uint256_arg_ok v n)) by done. simpl.
    by rewrite (proj2 (Z.eqb_neq _ _)).
Qed.
Lemma timeout_ok v f : _timeout v = Ok f ↔ py_float v = Some f ∧ timeout_in_bounds f = true.
Proof.
  unfold _timeout. split.
  - intros (x & Hx%or_raise_ok & ([] & Hf%raise_if_ok%negb_false_iff & [= <-])%res_bind_ok)%res_bind_ok. done.
  - intros [-> Hf]. cbn [or_raise mbind res_bind]. by rewrite Hf.
Qed.

(** A URL the parser accepts. *)
Record url_ok (url : string) : Prop := {
  url_bounded : str_len url ≤ 2048;
  url_no_nul : str_has NUL url = false;
  url_parts : ∃ parts prt, urlsplit url = Ok parts ∧ port parts = Ok prt
    ∧ scheme parts ∈ ["http"; "https"] ∧ (∃ h, hostname parts = Some h ∧ h ≠ "")
    ∧ fragment parts = "" ∧ username parts = None ∧ password parts = None
    ∧ (∀ p, prt = Some p → 1 ≤ p ≤ 65535)
}.

Lemma rpc_url_ok v s : _rpc_url v = Ok s ↔ s = v ∧ url_ok v.
Proof.
  unfold _rpc_url. split.
  - intros ([] & [Hl%Z.ltb_ge Hn]%raise_if_ok%orb_false_iff & ([parts prt] & Hp & H)%res_bind_ok)%res_bind_ok.
    apply try_except_ok in Hp as [Hp|(e & _ & _ & Hp)]; [|done].
    apply res_bind_ok in Hp as (parts' & Hs & Hp). apply res_bind_ok in Hp as (prt' & Hp & [= -> ->]).
    apply res_bind_ok in H as ([] & [Hsch%negb_false_iff%orb_true_iff Hh]%raise_if_ok%orb_false_iff & H).
    apply res_bind_ok in H as ([] & Hf%raise_if_ok%negb_false_iff%String.eqb_eq & H).
    apply res_bind_ok in H as ([] & [Hu Hpw]%raise_if_ok%orb_false_iff & H).
    apply res_bind_ok in H as ([] & Hb%raise_if_ok & [= <-]).
    split; [done|]. split; [done..|]. exists parts, prt.
    split_and!; try done.
    + destruct Hsch as [E|E]; apply String.eqb_eq in E; rewrite E; set_solver.
    + destruct (hostname parts) as [h|]; [|done]. exists h. split; [done|]. by apply String.eqb_neq.
    + by destruct (username parts).
    + by destruct (password parts).
    + intros p ->. apply negb_false_iff, andb_true_iff in Hb. lia.
  - intros [-> [Hl Hn (parts & prt & Hs & Hp & Hsch & (h & Hh & Hne) & Hf & Hu & Hw & Hb)]].
    rewrite (proj2 (Z.ltb_ge _ _)), Hn, Hs by done. cbn [orb raise_if mbind res_bind].
    rewrite Hp. cbn [try_except mbind res_bind]. rewrite Hh, Hf, Hu, Hw.
    rewrite (proj2 (String.eqb_neq _ _) Hne). apply elem_of_cons in Hsch as [->| ->%list_elem_of_singleton];
      (destruct prt as [p|]; [|done]; cbn; destruct (Hb p eq_refl) as [??];
       by rewrite (proj2 (Z.leb_le _ _)), (proj2 (Z.leb_le _ _))).
Qed.

Lemma output_path_ok v s :
  _output_path v = Ok s ↔ s = v ∧ v ≠ "" ∧ str_len v ≤ _MAX_PATH_CHARS ∧ str_has NUL v = false.
Proof.
  unfold _output_path. split.
  - intros ([] & [[Hne%String.eqb_neq Hl%Z.ltb_ge]%orb_false_iff Hn]%raise_if_ok%orb_false_iff & [= <-])%res_bind_ok.
    done.
  - intros (-> & Hne & Hl & Hn). by rewrite (proj2 (String.eqb_neq _ _) Hne), (proj2 (Z.ltb_ge _ _) Hl), Hn.
Qed.

(** ** Usage errors *)

Notation argument_errors := [ArgumentTypeError; TypeError; ValueError].

Lemma throws_address_arg v : throws argument_errors (_address v).
Proof. unfold _address. solve_throws. Qed.
Lemma throws_bytes32 v : throws argument_errors (_bytes32 v).
Proof. unfold _bytes32. solve_throws. Qed.
Lemma throws_uint256 v : throws argument_errors (_uint256 v).
Proof. unfold _uint256. solve_throws. Qed.
Lemma throws_positive_uint256_arg v : throws argument_errors (_positive_uint256 v).
Proof. unfold _positive_uint256. apply throws_bind; [apply throws_uint256|intros ? _; solve_throws]. Qed.
Lemma throws_timeout v : throws argument_errors (_timeout v).
Proof. unfold _timeout. solve_throws. Qed.
Lemma throws_output_path v : throws argument_errors (_output_path v).
Proof. unfold _output_path. solve_throws. Qed.

Lemma throws_urlsplit v : throws [ValueError] (urlsplit v).
Proof. unfold urlsplit. solve_throws. Qed.
Lemma throws_port u : throws [ValueError] (port u).
Proof. unfold port. solve_throws. Qed.

Lemma throws_rpc_url v : throws argument_errors (_rpc_url v).
Proof.
  unfold _rpc_url, bad_argument. apply throws_bind; [solve_throws|intros _ _].
  apply throws_bind; [|intros [parts prt] _; solve_throws].
  apply throws_try_except; [|solve_throws].
  apply throws_bind; [apply throws_urlsplit|intros u _].
  apply throws_bind; [apply throws_port|intros ? _; solve_throws].
Qed.

Lemma argument_converts f d type r :
  (∀ v, throws argument_errors (type v)) →
  ∀ v a, throws argument_errors (store (argument f d type r) v a).
Proof. intros Ht v a. simpl. apply throws_bind; [apply Ht|intros ? _; solve_throws]. Qed.

Ltac solve_converts :=
  repeat (apply Forall_cons; split;
    [first [by intros v a e | apply argument_converts; intros v; apply throws_fmap]|]);
  [..|apply Forall_nil; exact I];
  first [apply throws_ok | apply throws_address_arg | apply throws_bytes32 | apply throws_uint256
        | apply throws_positive_uint256_arg | apply throws_rpc_url | apply throws_timeout
        | apply throws_output_path].

Lemma reconcile_converts : converts reconcile_options.
Proof. unfold converts, reconcile_options. solve_converts. Qed.
Lemma drift_converts : converts drift_options.
Proof. unfold converts, drift_options. solve_converts. Qed.

(** ** Accepted command lines *)

(** Where an option stores its value. *)
Definition dest_of (flag : string) : string :=
  match find (λ p, (p.1 =? flag)%string) [
    ("--tx-hash", "tx_hash"); ("--log-index", "log_index"); ("--required-amount", "required_amount");
    ("--payer-before", "payer_before"); ("--payee-before", "payee_before");
    ("--sut-paid", "sut_believes_paid"); ("--sut-unpaid", "sut_believes_paid");
    ("--rpc-url", "rpc_url"); ("--rpc-timeout", "rpc_timeout"); ("--json", "json_out");
    ("--markdown", "md_out"); ("--log-dir", "log_dir"); ("--no-log", "no_log")] with
  | Some p => p.2
  | None => str_drop 2 flag
  end.

(** A path argument that was given, or not. *)
Definition path_ok (path : option string) : Prop :=
  match path with
  | Some p => p ≠ "" ∧ str_len p ≤ _MAX_PATH_CHARS ∧ str_has NUL p = false
  | None => True
  end.

Definition holds {A} (as_type : pyval → option A) (P : A → Prop) (v : pyval) : Prop :=
  ∃ a, as_type v = Some a ∧ P a.

(** The values an option may store. *)
Definition field_ok (d : string) (v : pyval) : Prop :=
  match d with
  | "rail" => holds as_str (λ _, True) v
  | "payer" | "payee" => holds as_str (λ s, re_0xhex 40 s = true) v
  | "nonce" | "tx_hash" => holds as_str (λ s, re_0xhex 64 s = true) v
  | "log_index" | "payer_before" | "payee_before" => holds as_exact_int (λ n, is_uint256 n = true) v
  | "required_amount" => holds as_exact_int (λ n, is_uint256 n = true ∧ n ≠ 0) v
  | "sut_believes_paid" | "no_log" => holds as_bool (λ _, True) v
  | "rpc_url" => holds as_str url_ok v
  | "rpc_timeout" => holds as_float (λ f, timeout_in_bounds f = true) v
  | "json_out" | "md_out" | "log_dir" => holds as_path path_ok v
  | _ => False
  end.

(** The options seen and the defaults hold values of their fields. *)
Definition fields_ok (defaulted : list string) (seen : list string) (ns : namespace) : Prop :=
  ∀ d, d ∈ defaulted ∨ d ∈ dest_of <$> seen → field_ok d (dict_get d ns).

Lemma fields_stored acts defaulted :
  Forall (λ x, ∀ v ns ns', store x v ns = Ok ns' →
    ∃ w, ns' = dict_set (dest_of (flag x)) w ns ∧ field_ok (dest_of (flag x)) w) acts →
  stored_by acts (fields_ok defaulted).
Proof.
  rewrite Forall_forall. intros Hs x v seen ns ns' Hx Hns Hst d Hd.
  destruct (Hs _ Hx _ _ _ Hst) as (w & -> & Hw).
  unfold dict_get. destruct (decide (d = dest_of (flag x))) as [->|Hne].
  - by rewrite dict_lookup_set_eq.
  - rewrite dict_lookup_set_ne by done. apply Hns. csimpl in Hd. rewrite elem_of_cons in Hd. naive_solver.
Qed.

Lemma argument_stores f d type r v ns ns' :
  store (argument f d type r) v ns = Ok ns' → (∀ w, type v = Ok w → field_ok d w) →
  ∃ w, ns' = dict_set d w ns ∧ field_ok d w.
Proof. simpl. intros (w & Hw & [= <-])%res_bind_ok Hf. eauto. Qed.
Lemma text_ok f v w : text f v = Ok w → ∃ s, w = VStr s ∧ f v = Ok s.
Proof. unfold text. destruct (f v); simpl; naive_solver. Qed.
Lemma number_ok f v w : number f v = Ok w → ∃ n, w = VInt n ∧ f v = Ok n.
Proof. unfold number. destruct (f v); simpl; naive_solver. Qed.
Lemma seconds_ok v w : seconds v = Ok w → ∃ f, w = VFloat f ∧ _timeout v = Ok f.
Proof. unfold seconds. destruct (_timeout v); simpl; naive_solver. Qed.

(** An accepted value of each validator is a value of its field. *)
Ltac solve_stores :=
  intros v ns ns' H;
  lazymatch type of H with
  | store (switch _ _ _ _) _ _ = _ => injection H as <-; eexists; split; [reflexivity|by eexists]
  | store (argument _ _ _ _) _ _ = _ =>
      apply argument_stores in H; [exact H|];
      let w := fresh "w" in intros w Hw;
      first [apply text_ok in Hw as (? & -> & Hw) | apply number_ok in Hw as (? & -> & Hw)
            | apply seconds_ok in Hw as (? & -> & Hw)];
      first [apply address_arg_ok in Hw as [-> ?] | apply bytes32_ok in Hw as [-> ?]
            | apply positive_uint256_ok in Hw as (_ & ? & ?) | apply uint256_arg_ok in Hw as [_ ?]
            | apply rpc_url_ok in Hw as [-> ?] | apply timeout_ok in Hw as [_ ?]
            | apply output_path_ok in Hw as (-> & ?) | idtac];
      by eexists
  end.

Definition reconcile_defaulted : list string :=
  ["sut_believes_paid"; "rpc_url"; "rpc_timeout"; "json_out"; "md_out"; "log_dir"; "no_log"].

Lemma reconcile_stores : stored_by reconcile_options (fields_ok reconcile_defaulted).
Proof.
  apply fields_stored. unfold reconcile_options.
  repeat (apply Forall_cons; split; [solve_stores|]). by apply Forall_nil.
Qed.
Lemma drift_stores : stored_by drift_options (fields_ok ["rpc_timeout"]).
Proof.
  apply fields_stored. unfold drift_options.
  repeat (apply Forall_cons; split; [solve_stores|]). by apply Forall_nil.
Qed.

Lemma default_url_ok : url_ok "http://127.0.0.1:8545".
Proof. apply (rpc_url_ok _ "http://127.0.0.1:8545"). vm_compute. reflexivity. Qed.
Lemma default_timeout_ok : timeout_in_bounds default_timeout = true.
Proof. vm_compute. reflexivity. Qed.
#[local] Hint Resolve default_url_ok default_timeout_ok : core.

Lemma reconcile_defaults_ok : fields_ok reconcile_defaulted [] reconcile_defaults.
Proof.
  intros d [Hd|Hd]; [|by apply elem_of_nil in Hd]. unfold reconcile_defaulted in Hd.
  repeat (apply elem_of_cons in Hd as [->|Hd]; [by eexists|]). by apply elem_of_nil in Hd.
Qed.
Lemma drift_defaults_ok : fields_ok ["rpc_timeout"] [] drift_defaults.
Proof.
  intros d [->%list_elem_of_singleton|Hd]; [by eexists|by apply elem_of_nil in Hd].
Qed.

(** Arguments that passed their validators. *)
Record args_ok (args : reconcile_args) : Prop := {
  payer_ok : re_0xhex 40 (payer args) = true;
  payee_ok : re_0xhex 40 (payee args) = true;
  nonce_ok : re_0xhex 64 (nonce args) = true;
  tx_hash_ok : re_0xhex 64 (tx_hash args) = true;
  log_index_ok : 0 ≤ log_index args ≤ UINT256_MAX;
  required_amount_ok : 0 < required_amount args ≤ UINT256_MAX;
  payer_before_ok : 0 ≤ payer_before args ≤ UINT256_MAX;
  payee_before_ok : 0 ≤ payee_before args ≤ UINT256_MAX;
  rpc_url_valid : url_ok (rpc_url args);
  rpc_timeout_ok : timeout_in_bounds (rpc_timeout args) = true;
  json_out_ok : path_ok (json_out args);
  md_out_ok : path_ok (md_out args);
  log_dir_ok : path_ok (log_dir args)
}.

Lemma uint256_range n : is_uint256 n = true ↔ 0 ≤ n ≤ UINT256_MAX.
Proof. unfold is_uint256. rewrite andb_true_iff. lia. Qed.

Definition reconcile_dests : list string :=
  ["rail"; "payer"; "payee"; "nonce"; "tx_hash"; "log_index"; "required_amount"; "payer_before";
   "payee_before"] ++ reconcile_defaulted.

Lemma seen_fields (acts : list (action namespace)) defaulted seen ns ds :
  fields_ok defaulted seen ns → (∀ x, x ∈ acts → needed x = true → group x = None → flag x ∈ seen) →
  forallb (λ d, bool_decide (d ∈ defaulted) || existsb (λ x, bool_decide (d = dest_of (flag x))
                  && needed x && negb (is_some (group x))) acts) ds = true →
  ∀ d, d ∈ ds → field_ok d (dict_get d ns).
Proof.
  intros Hf Hs Hds d Hd. apply Hf. apply (forallb_elem _ _ _ Hds) in Hd.
  apply orb_true_iff in Hd as [Hd|Hd]; [left; by apply bool_decide_eq_true in Hd|right].
  apply existsb_exists in Hd as (x & Hx%list_elem_of_In & [[E Hn]%andb_true_iff Hg]%andb_true_iff).
  apply bool_decide_eq_true in E as ->. apply list_elem_of_fmap_2, Hs; try done.
  by destruct (group x).
Qed.

Lemma attr_holds {A} (as_type : pyval → option A) P d ns :
  holds as_type P (dict_get d ns) → ∃ a, attr as_type d ns = Ok a ∧ P a.
Proof. intros (a & Ha & HP). exists a. unfold attr. by rewrite Ha. Qed.

(** The attributes of a namespace, one after the other. *)
Ltac solve_fields H :=
  repeat match goal with
    | |- context [attr ?f ?d ?ns] =>
        destruct (attr_holds f _ d ns (H d ltac:(by repeat first [apply list_elem_of_here | apply list_elem_of_further]))) as (? & -> & ?);
        cbn [mbind res_bind]
    end.

Lemma reconcile_of_ok ns :
  (∀ d, d ∈ reconcile_dests → field_ok d (dict_get d ns)) →
  ∃ args, reconcile_of ns = Ok args ∧ args_ok args.
Proof.
  intros H. unfold reconcile_of. solve_fields H.
  eexists; (split; [reflexivity|]); split; simpl; rewrite <-?uint256_range; try assumption.
  rename select (_ ∧ _) into Hn. destruct Hn as [Hn ?]. apply uint256_range in Hn. lia.
Qed.

Lemma drift_of_ok ns :
  (∀ d, d ∈ ["rail"; "rpc_url"; "rpc_timeout"] → field_ok d (dict_get d ns)) →
  ∃ args, drift_of ns = Ok args ∧ url_ok (drift_rpc_url args) ∧ timeout_in_bounds (drift_rpc_timeout args) = true.
Proof.
  intros H. unfold drift_of. solve_fields H. eexists; split_and!; [reflexivity|assumption..].
Qed.

(** What every accepted command holds. *)
Definition command_ok (cmd : command) : Prop :=
  match cmd with
  | Reconcile args => args_ok args
  | RailDrift args => url_ok (drift_rpc_url args) ∧ timeout_in_bounds (drift_rpc_timeout args) = true
  end.

Lemma reconcile_parsed argv ns extra :
  parse_options reconcile_options argv reconcile_defaults = Ok (ns, extra) →
  ∃ args, reconcile_of ns = Ok args ∧ args_ok args.
Proof.
  intros H. apply reconcile_of_ok.
  destruct (parse_options_invariant _ _ _ _ _ _ reconcile_stores reconcile_defaults_ok H) as (seen & Hf & Hs).
  exact (seen_fields _ _ _ _ reconcile_dests Hf Hs eq_refl).
Qed.
Lemma drift_parsed argv ns extra :
  parse_options drift_options argv drift_defaults = Ok (ns, extra) →
  ∃ args, drift_of ns = Ok args ∧ url_ok (drift_rpc_url args) ∧ timeout_in_bounds (drift_rpc_timeout args) = true.
Proof.
  intros H. apply drift_of_ok.
  destruct (parse_options_invariant _ _ _ _ _ _ drift_stores drift_defaults_ok H) as (seen & Hf & Hs).
  exact (seen_fields _ _ _ _ ["rail"; "rpc_url"; "rpc_timeout"] Hf Hs eq_refl).
Qed.

Lemma subcommand_ok word argv cmd extra : subcommand word argv = Ok (cmd, extra) → command_ok cmd.
Proof.
  unfold subcommand. destruct (word =? "reconcile")%string; [|destruct (word =? "rail-drift")%string; [|done]];
    intros ([ns extra'] & Hp & (args & Ha & [= <- <-])%res_bind_ok)%res_bind_ok.
  - apply reconcile_parsed in Hp as (args' & Ha' & Hok). by rewrite Ha' in Ha; injection Ha as <-.
  - apply drift_parsed in Hp as (args' & Ha' & Hok). by rewrite Ha' in Ha; injection Ha as <-.
Qed.

Lemma throws_subcommand word argv : throws [CliUsageError; SystemExit] (subcommand word argv).
Proof.
  unfold subcommand. destruct (word =? "reconcile")%string; [|destruct (word =? "rail-drift")%string].
  - apply throws_bind; [apply throws_parse_options, reconcile_converts|intros [ns extra] Hp].
    apply reconcile_parsed in Hp as (args & -> & _). apply throws_ok.
  - apply throws_bind; [apply throws_parse_options, drift_converts|intros [ns extra] Hp].
    apply drift_parsed in Hp as (args & -> & _). apply throws_ok.
  - by apply throws_raise.
Qed.

(** C22: whatever the command line, parsing either raises a usage error or the exit of
    the help option and nothing else, or yields a command all of whose fields have
    passed their validators: addresses of 20 bytes, hashes of 32 bytes, unsigned
    256-bit numbers, a positive amount, a timeout within bounds, bounded paths, and a
    credential-free HTTP URL. *)
Theorem parsed_args_valid (argv : list string) :
  match parse_args argv with
  | Ok cmd => command_ok cmd
  | Raise e => exn_cls e = CliUsageError ∨ exn_cls e = SystemExit
  end.
Proof.
  unfold parse_args. destruct (parse_command subcommand argv) as [cmd|e] eqn:E.
  - by eapply parse_command_invariant, E; intros; eapply subcommand_ok.
  - pose proof (throws_parse_command subcommand argv throws_subcommand e E) as Ht.
    simpl in Ht. destruct (exn_cls e); simpl in Ht; auto; done.
Qed.

(** ** Written command lines *)

Definition option_word (acts : list (action namespace)) (name value : string)
    : list (action namespace * string) :=
  match find_action acts name with Some x => [(x, value)] | None => [] end.
Definition path_word (name : string) (path : option string) : list (action namespace * string) :=
  match path with Some p => option_word reconcile_options name p | None => [] end.

(** The options that give these arguments, the timeout as [timeout]. *)
Definition option_words (args : reconcile_args) (timeout : string) : list (action namespace * string) :=
  let word := option_word reconcile_options in
  word "--rail" (rail args) ++ word "--payer" (payer args) ++ word "--payee" (payee args)
  ++ word "--nonce" (nonce args) ++ word "--tx-hash" (tx_hash args)
  ++ word "--log-index" (to_dec (log_index args))
  ++ word "--required-amount" (to_dec (required_amount args))
  ++ word "--payer-before" (to_dec (payer_before args))
  ++ word "--payee-before" (to_dec (payee_before args))
  ++ word (if sut_believes_paid args then "--sut-paid" else "--sut-unpaid") ""
  ++ word "--rpc-url" (rpc_url args) ++ word "--rpc-timeout" timeout
  ++ path_word "--json" (json_out args) ++ path_word "--markdown" (md_out args)
  ++ path_word "--log-dir" (log_dir args) ++ (if no_log args then word "--no-log" "" else []).
Definition command_line (args : reconcile_args) (timeout : string) : list string :=
  "reconcile" :: (written <$> option_words args timeout).

Lemma uint256_written n : 0 ≤ n ≤ UINT256_MAX → _uint256 (to_dec n) = Ok n.
Proof.
  intros Hn. apply uint256_arg_ok. split; [|by apply uint256_range].
  apply py_int10_to_dec; [lia|].
  pose proof (ndigits_le 10 n 78 ltac:(lia)) as Hd. unfold UINT256_MAX in Hn.
  transitivity 78; [|done]. apply (Nat2Z.inj_le _ 78), Hd; [|lia].
  split; [lia|]. eapply Z.le_lt_trans; [apply Hn|]. vm_compute. reflexivity.
Qed.

(** A written option stores its converted value. *)
Lemma store_word name d type r value v uses seen ns :
  find_action reconcile_options name = Some (argument name d type r) → type value = Ok v →
  store_all reconcile_options (option_word reconcile_options name value ++ uses) seen ns
  = store_all reconcile_options uses (name :: seen) (dict_set d v ns).
Proof. intros Hf Hv. unfold option_word. rewrite Hf. cbn [app store_all]. unfold take_action, convert.
  cbn [argument store]. by rewrite Hv.
Qed.
Lemma store_switch name d b g uses seen ns :
  find_action reconcile_options name = Some (switch name d b g) →
  conflicts reconcile_options seen (switch name d b g) = false →
  store_all reconcile_options (option_word reconcile_options name "" ++ uses) seen ns
  = store_all reconcile_options uses (name :: seen) (dict_set d (VBool b) ns).
Proof.
  intros Hf Hc. unfold option_word. rewrite Hf. cbn [app store_all]. unfold take_action, convert.
  cbn [store switch mret mbind try_except res_bind]. by rewrite Hc.
Qed.

Lemma store_path name d path uses seen ns :
  find_action reconcile_options name = Some (argument name d (text _output_path) false) → path_ok path →
  store_all reconcile_options (path_word name path ++ uses) seen ns
  = store_all reconcile_options uses (match path with Some _ => name :: seen | None => seen end)
      (match path with Some p => dict_set d (VStr p) ns | None => ns end).
Proof.
  intros Hf Hp. destruct path as [p|]; [|done]. unfold path_word. erewrite store_word; [done|exact Hf|].
  unfold text. by rewrite (proj2 (output_path_ok p p)).
Qed.

Lemma option_word_known name value :
  (match find_action reconcile_options name with
   | Some x => valued x = false → value = ""
   | None => True end) →
  Forall (λ u, u.1 ∈ reconcile_options ∧ (valued u.1 = false → u.2 = "")) (option_word reconcile_options name value).
Proof.
  unfold option_word. destruct (find_action _ _) as [x|] eqn:E; [|intros; by apply Forall_nil].
  intros Hv. apply Forall_singleton. split; [|done]. by apply find_action_elem in E as [? _].
Qed.

Lemma option_words_known args timeout :
  Forall (λ u, u.1 ∈ reconcile_options ∧ (valued u.1 = false → u.2 = "")) (option_words args timeout).
Proof.
  unfold option_words, path_word. cbv zeta.
  destruct (sut_believes_paid args), (json_out args), (md_out args), (log_dir args), (no_log args);
    repeat (apply Forall_app_2; [by first [apply Forall_nil | apply option_word_known]|]);
    by first [apply Forall_nil | apply option_word_known].
Qed.

(** One more written option. *)
Ltac store_next name d type v Hv :=
  rewrite (store_word name d type _ _ v) by (first [reflexivity | cbv beta delta [text number seconds]; by rewrite Hv]).

Lemma option_words_stored args timeout :
  args_ok args → py_float timeout = Some (rpc_timeout args) →
  ∃ seen ns, store_all reconcile_options (option_words args timeout) [] reconcile_defaults = Ok (seen, ns)
    ∧ forallb (satisfied reconcile_options seen) reconcile_options = true
    ∧ reconcile_of ns = Ok args.
Proof.
  intros [Hp Hq Hn Hx Hi Ha Hb Hc Hu Hf Hj Hm Hl] Ht. unfold option_words. cbv zeta.
  assert (required_amount args ≠ 0) as Hne by lia.
  assert (_positive_uint256 (to_dec (required_amount args)) = Ok (required_amount args)) as Ha'
    by (unfold _positive_uint256; rewrite uint256_written by lia; simpl; by rewrite (proj2 (Z.eqb_neq _ _))).
  store_next "--rail" "rail" (text Ok) (VStr (rail args)) Ht.
  store_next "--payer" "payer" (text _address) (VStr (payer args)) (proj2 (address_arg_ok _ _) (conj eq_refl Hp)).
  store_next "--payee" "payee" (text _address) (VStr (payee args)) (proj2 (address_arg_ok _ _) (conj eq_refl Hq)).
  store_next "--nonce" "nonce" (text _bytes32) (VStr (nonce args)) (proj2 (bytes32_ok _ _) (conj eq_refl Hn)).
  store_next "--tx-hash" "tx_hash" (text _bytes32) (VStr (tx_hash args)) (proj2 (bytes32_ok _ _) (conj eq_refl Hx)).
  store_next "--log-index" "log_index" (number _uint256) (VInt (log_index args)) (uint256_written _ Hi).
  store_next "--required-amount" "required_amount" (number _positive_uint256) (VInt (required_amount args)) Ha'.
  store_next "--payer-before" "payer_before" (number _uint256) (VInt (payer_before args)) (uint256_written _ Hb).
  store_next "--payee-before" "payee_before" (number _uint256) (VInt (payee_before args)) (uint256_written _ Hc).
  rewrite (store_switch _ "sut_believes_paid" (sut_believes_paid args) (Some O))
    by by destruct (sut_believes_paid args).
  store_next "--rpc-url" "rpc_url" (text _rpc_url) (VStr (rpc_url args)) (proj2 (rpc_url_ok _ _) (conj eq_refl Hu)).
  store_next "--rpc-timeout" "rpc_timeout" seconds (VFloat (rpc_timeout args)) (proj2 (timeout_ok _ _) (conj Ht Hf)).
  rewrite (store_path "--json" "json_out"), (store_path "--markdown" "md_out"),
    (store_path "--log-dir" "log_dir") by done.
  destruct args as [? ? ? ? ? ? ? ? ? [] ? ? [] [] [] []]; (eexists _, _; split; [reflexivity|split; vm_compute; reflexivity]).
Qed.

(** The arguments of a reconciliation, written as one word per option with its
    value after an equals sign, parse back to the same arguments, whatever text
    [float] reads as the timeout is used for it; values may start with dashes or
    hold spaces and equals signs. *)
Theorem command_line_roundtrip (args : reconcile_args) (timeout : string) :
  args_ok args → py_float timeout = Some (rpc_timeout args) →
  parse_args (command_line args timeout) = Ok (Reconcile args).
Proof.
  intros Hok Ht. destruct (option_words_stored args timeout Hok Ht) as (seen & ns & Hs & Hsat & Hns).
  pose proof (option_words_known args timeout) as Hk. apply Forall_and in Hk as [Hk Hv].
  unfold parse_args, command_line. cbn [parse_command]. cbn [String.eqb].
  change (classify [] "reconcile") with (Ok (A:=token) Positional). cbn [mbind res_bind].
  unfold subcommand. change ("reconcile" =? "reconcile")%string with true. cbv iota.
  rewrite (parse_written reconcile_options _ seen _ ns) by (reflexivity || done).
  cbn [mbind res_bind]. by rewrite Hns.
Qed.

(** A reconciliation asked for on the command line. *)
Definition sample_args : reconcile_args := {|
  rail := "mock-anvil"; payer := "0x00000000000000000000000000000000000000aa";
  payee := "0x00000000000000000000000000000000000000bB";
  nonce := "0x00000000000000000000000000000000000000000000000000000000000000A1";
  tx_hash := "0x00000000000000000000000000000000000000000000000000000000000000Fe";
  log_index := 3; required_amount := 10000; payer_before := 1000000; payee_before := 0;
  sut_believes_paid := true; rpc_url := "https://node.example:8545/v1?key=a"; rpc_timeout := float_of_decimal 25 (-1);
  json_out := Some "-out/report.json"; md_out := None; log_dir := Some "audit log"; no_log := false |}.

Lemma sample_args_ok : args_ok sample_args.
Proof.
  split; try (vm_compute; reflexivity); try (split; vm_compute; congruence); try done.
  - apply (rpc_url_ok _ (rpc_url sample_args)). vm_compute. reflexivity.
Qed.

Lemma command_line_roundtrip_witness :
  py_float " 2.5e0" = Some (float_of_decimal 25 (-1))
  ∧ parse_args (command_line sample_args " 2.5e0") = Ok (Reconcile sample_args)
  ∧ last (command_line sample_args " 2.5e0") = Some "--log-dir=audit log".
Proof.
  assert (py_float " 2.5e0" = Some (float_of_decimal 25 (-1))) as Ht by (vm_compute; reflexivity).
  split_and!; [exact Ht| |vm_compute; reflexivity].
  exact (command_line_roundtrip sample_args " 2.5e0" sample_args_ok Ht).
Defined.
