(* ===== verification/CliRun.v ===== *)
(** * What the commands do ([psv/cli.py])

    The two commands as programs on everything they touch: the node, the
    run-record directory, the report files, the console and the clock, any of which
    may fail.

    The theorems: a reconciliation that returns yields a valid report of the rail it
    was asked about; an exit code other than two means that the verdict was
    reached, printed, written where it was asked for, and recorded unless recording
    is off; and only a number too long to print and a usage error that cannot be
    printed escape the documented exit codes.

    Report files lie outside the run-record directory, and a path is the text it
    was given as. *)

From S2P Require Import Prelude PyStr PyText PyVal PyJson PyTime PyUrl PyArgs.
From S2P Require Import Anvil Cli.
From S2P Require Chain Rails RailsLive Report RunRecord.
Local Open Scope Z_scope.

Definition _MAX_REPORT_BYTES : Z := 2 * 1024 * 1024.

(** ** The world of a run *)

Record world (W : Type) := {
  node : W;
  log : RunRecord.log_state;
  outputs : gmap string (list Z);        (* the report files *)
  faults : list RunRecord.outcome;       (* of the next calls on them *)
  console : list bool;                   (* whether the next prints fail *)
  stdout : list string;
  stderr : list string;
  clock : list Z                         (* the next readings *)
}.
Arguments node {W} _.
Arguments log {W} _.
Arguments outputs {W} _.
Arguments faults {W} _.
Arguments console {W} _.
Arguments stdout {W} _.
Arguments stderr {W} _.
Arguments clock {W} _.

Section commands.
Context `{Transport W}.
Notation io := (prog (world W)).

Definition set_node (n : W) (w : world W) : world W := {|
  node := n; log := log w; outputs := outputs w; faults := faults w; console := console w;
  stdout := stdout w; stderr := stderr w; clock := clock w |}.
Definition set_log (l : RunRecord.log_state) (w : world W) : world W := {|
  node := node w; log := l; outputs := outputs w; faults := faults w; console := console w;
  stdout := stdout w; stderr := stderr w; clock := clock w |}.
Definition set_outputs (fs : gmap string (list Z)) (w : world W) : world W := {|
  node := node w; log := log w; outputs := fs; faults := faults w; console := console w;
  stdout := stdout w; stderr := stderr w; clock := clock w |}.
Definition set_faults (os : list RunRecord.outcome) (w : world W) : world W := {|
  node := node w; log := log w; outputs := outputs w; faults := os; console := console w;
  stdout := stdout w; stderr := stderr w; clock := clock w |}.
Definition set_console (fails : list bool) (o e : list string) (w : world W) : world W := {|
  node := node w; log := log w; outputs := outputs w; faults := faults w; console := fails;
  stdout := o; stderr := e; clock := clock w |}.
Definition set_clock (ts : list Z) (w : world W) : world W := {|
  node := node w; log := log w; outputs := outputs w; faults := faults w; console := console w;
  stdout := stdout w; stderr := stderr w; clock := ts |}.

(** [datetime.now(UTC)]: any instant of the calendar. *)
Definition now : io datetime := λ w,
  match clock w with
  | [] => (Ok {| wall := 0; utcoffset := Some 0 |}, w)
  | t :: ts => (Ok {| wall := t mod (3652059 * US_PER_DAY); utcoffset := Some 0 |}, set_clock ts w)
  end.

(** [print(s)] and [print(s, file=sys.stderr)] *)
Definition print (s : string) : io unit := λ w,
  match console w with
  | true :: fails => (raise OSError "Broken pipe", set_console fails (stdout w) (stderr w) w)
  | fails => (Ok tt, set_console (tail fails) (stdout w ++ [s]) (stderr w) w)
  end.
Definition print_error (s : string) : io unit := λ w,
  match console w with
  | true :: fails => (raise OSError "Broken pipe", set_console fails (stdout w) (stderr w) w)
  | fails => (Ok tt, set_console (tail fails) (stdout w) (stderr w ++ [s]) w)
  end.

Definition next_fault : io RunRecord.outcome := λ w,
  match faults w with
  | [] => (Ok RunRecord.Done, w)
  | o :: os => (Ok o, set_faults os w)
  end.

(** [path.parent.mkdir(parents=True, exist_ok=True)] *)
Definition mkdir : io unit :=
  o ← next_fault;
  match o with RunRecord.Fails => lift (raise OSError "mkdir") | _ => mret tt end.

(** [path.write_bytes(data)]: the file is replaced, and may be cut short. *)
Definition write_bytes (path : string) (data : list Z) : io unit :=
  o ← next_fault;
  match o with
  | RunRecord.Fails => lift (raise OSError "open")
  | RunRecord.AtMost n =>
      modify (λ w, set_outputs (<[path := take (Z.to_nat n) data]> (outputs w)) w) ;;
      lift (raise OSError "write")
  | RunRecord.Done => modify (λ w, set_outputs (<[path := data]> (outputs w)) w)
  end.

Definition _write_report (path payload label : string) : io unit :=
  let encoded := encode_utf8 payload in
  lift (raise_if (_MAX_REPORT_BYTES <? Z.of_nat (length encoded)) OSError
          (label +:+ " report exceeds 2097152 bytes")) ;;
  mkdir ;;
  write_bytes path encoded.

(** [try: m  except cs]: the value or the exception *)
Definition attempt {A} (m : io A) (cs : list exn_class) : io (A + exn) :=
  catch (a ← m; mret (inl a)) cs (λ e, mret (inr e)).

(** A new client of the node. *)
Definition with_client {A} (m : prog (RpcClient W) A) : io A := λ w,
  match m {| _id := 0; Anvil.world := node w |} with
  | (r, c) => (r, set_node (Anvil.world c) w)
  end.

Definition live_request_of (args : reconcile_args) : RailsLive.live_request := {|
  RailsLive.rq_payer := payer args; RailsLive.rq_payee := payee args;
  RailsLive.rq_nonce := nonce args; RailsLive.rq_transaction_hash := tx_hash args;
  RailsLive.rq_log_index := log_index args; RailsLive.rq_required_amount := required_amount args;
  RailsLive.rq_payer_before := payer_before args; RailsLive.rq_payee_before := payee_before args;
  RailsLive.rq_believes_paid := sut_believes_paid args |}.

Definition run_reconcile (token : Chain.TokenView) (rail : Rails.RailConfig)
    (q : RailsLive.live_request) (generated_at : option datetime) : io Report.ReconReport :=
  result ← with_client (RailsLive.reconcile_live token rail q);
  t ← (match generated_at with Some t => mret t | None => now end);
  lift (Report.build t rail (RailsLive.rq_payer q) (RailsLive.rq_payee q) (RailsLive.rq_nonce q)
          (RailsLive.rq_believes_paid q) (RailsLive.divergence result) (RailsLive.evidence result)
          generated_at).

(** What the run record tells of the interpreter and the package. *)
Context (str_other : pyval → string) (python platform machine version : string).

Definition inputs_of (args : reconcile_args) : pydict := dict_of [
  ("rail", VStr (rail args));
  ("payer", VStr (payer args));
  ("payee", VStr (payee args));
  ("nonce", VStr (nonce args));
  ("transaction_hash", VStr (tx_hash args));
  ("log_index", VInt (log_index args));
  ("required_amount", VInt (required_amount args));
  ("payer_before", VInt (payer_before args));
  ("payee_before", VInt (payee_before args));
  ("sut_believes_paid", VBool (sut_believes_paid args));
  ("rpc_url", VStr (rpc_url args));
  ("rpc_timeout", VFloat (rpc_timeout args))].

(** The closure [write_record] of a run: whether the audit succeeded. *)
Definition write_record (directory : option string) (inputs : pydict) (started_at : datetime)
    (report : option pydict) (code : Z) (error : option string) : io bool :=
  match directory with
  | None => mret true
  | Some directory =>
      r ← attempt (
        finished_at ← now;
        record ← lift (RunRecord.build_run_record str_other python platform machine version "reconcile"
                         inputs report (VInt code) started_at finished_at error);
        zoom log set_log (RunRecord.write_run_record record)) [OSError; ValueError];
      match r with
      | inl path => print ("Run record: " +:+ directory +:+ "/" +:+ path) ;; mret true
      | inr e => print_error ("audit-record error: " +:+ exn_msg e) ;; mret false
      end
  end.

Definition if_some {A} (o : option A) (f : A → io unit) : io unit :=
  match o with Some a => f a | None => mret tt end.

(** After the report was built: render, write, print, record. *)
Definition emit_report (args : reconcile_args) (report : Report.ReconReport)
    (record : option pydict → Z → option string → io bool) : io Z :=
  markdown ← lift (Report.to_markdown report);
  json_payload ← lift (Report.to_json report);
  wrote ← attempt (
    if_some (json_out args) (λ path, _write_report path json_payload "JSON") ;;
    if_some (md_out args) (λ path, _write_report path markdown "Markdown")) [OSError];
  match wrote with
  | inr e =>
      let message := "output error: " +:+ exn_msg e in
      record (Some (Report.to_dict report)) 2 (Some message) ;;
      print_error message ;;
      mret 2
  | inl _ =>
      print markdown ;;
      if_some (json_out args) (λ path, print ("JSON report: " +:+ path)) ;;
      if_some (md_out args) (λ path, print ("Markdown report: " +:+ path)) ;;
      let code := Report.exit_code report in
      ok ← record (Some (Report.to_dict report)) code None;
      mret (if ok : bool then code else 2)
  end.

Definition _cmd_reconcile (environ : gmap string string) (args : reconcile_args) : io Z :=
  started_at ← now;
  let record := write_record (_resolve_log_dir environ args) (inputs_of args) started_at in
  found ← attempt (lift (Rails.get_rail (rail args))) [KeyError];
  match found with
  | inr e => print_error (exn_str e) ;; mret 2
  | inl rail =>
      reconciled ← attempt (
        token ← lift (RailsLive.token_for_rail rail);
        run_reconcile token rail (live_request_of args) None) [RpcError; ValueError];
      match reconciled with
      | inr e =>
          let message := "reconciliation error: " +:+ exn_msg e in
          record None 2 (Some message) ;;
          print_error message ;;
          mret 2
      | inl report => emit_report args report record
      end
  end.

Definition _cmd_rail_drift (args : drift_args) : io Z :=
  observed ← attempt (
    rail ← lift (Rails.get_rail (drift_rail args));
    with_client (RailsLive.check_rail_drift rail)) [KeyError; RpcError; ValueError];
  match observed with
  | inr e => print_error ("rail-drift error: " +:+ exn_str e) ;; mret 2
  | inl check =>
      text ← lift (dumps (pretty_sorted 2) (VDict (RailsLive.drift_as_dict check)));
      print text ;;
      mret (if RailsLive.matches check then 0 else 1)
  end.

Definition main (environ : gmap string string) (argv : list string) : io Z :=
  parsed ← attempt (lift (parse_args argv)) [CliUsageError];
  match parsed with
  | inr e => print_error ("psv: error: " +:+ exn_msg e) ;; mret 2
  | inl (Reconcile args) =>
      catch (_cmd_reconcile environ args) [OSError] (λ e,
        attempt (print_error ("output error: " +:+ exn_msg e)) [OSError] ;;
        mret 2)
  | inl (RailDrift args) => catch (_cmd_rail_drift args) [OSError] (λ _, mret 2)
  end.
End commands.

(** * A reconciliation *)

Section running.
Context `{Transport W}.
Implicit Types (w : world W).

(** What a run leaves alone unless it writes there. *)
Definition same_outputs w w' : Prop :=
  log w' = log w ∧ outputs w' = outputs w ∧ stdout w' = stdout w ∧ stderr w' = stderr w
  ∧ console w' = console w ∧ faults w' = faults w.

Lemma now_run w : ∃ t w', now w = (Ok {| wall := t; utcoffset := Some 0 |}, w')
  ∧ in_range t = true ∧ same_outputs w w' ∧ node w' = node w.
Proof.
  unfold now. destruct (clock w) as [|t ts].
  - eexists _, w. by split_and!.
  - eexists _, _. split; [reflexivity|]. split; [|by split_and!].
    unfold in_range. pose proof (Z.mod_pos_bound t (3652059 * US_PER_DAY) ltac:(done)).
    apply andb_true_iff. lia.
Qed.

(** The report speaks of this reconciliation. *)
Record reports (rail : Rails.RailConfig) (q : RailsLive.live_request) (lr : RailsLive.LiveReconciliation)
    (report : Report.ReconReport) : Prop := {
  report_validates : Report.validate report = Ok tt;
  report_rail : Report.rail_key report = Rails.key rail ∧ Report.chain_id report = Rails.rail_chain_id rail
    ∧ Report.token_address report = lower (Rails.token_address rail);
  report_parties : Report.payer report = lower (RailsLive.rq_payer q)
    ∧ Report.payee report = lower (RailsLive.rq_payee q) ∧ Report.nonce report = lower (RailsLive.rq_nonce q)
    ∧ Report.sut_believes_paid report = RailsLive.rq_believes_paid q;
  report_evidence : Report.evidence report = RailsLive.evidence lr
    ∧ RailsLive.ev_required_amount (Report.evidence report) = RailsLive.rq_required_amount q;
  report_verdict : Report.report_kind report = Divergence.kind_value (Divergence.kind (RailsLive.divergence lr))
    ∧ Report.report_is_failure report = Divergence.is_failure (RailsLive.divergence lr)
}.

Lemma payment_kind t believes required :
  Divergence.kind (Divergence.detect_payment_divergence t believes required)
  ≠ Divergence.OVER_AUTHORIZED_SETTLEMENT.
Proof.
  unfold Divergence.detect_payment_divergence.
  repeat match goal with |- context [match ?x with _ => _ end] => destruct x end; done.
Qed.

Lemma report_of_live token rail q (c c' : RpcClient W) lr t :
  RailsLive.reconcile_live token rail q c = (Ok lr, c') → in_range t = true →
  ∃ report, Report.build {| wall := t; utcoffset := Some 0 |} rail (RailsLive.rq_payer q)
      (RailsLive.rq_payee q) (RailsLive.rq_nonce q) (RailsLive.rq_believes_paid q)
      (RailsLive.divergence lr) (RailsLive.evidence lr) None = Ok report
    ∧ reports rail q lr report.
Proof.
  intros Hlr Ht. apply RailsLive.reconcile_live_ok in Hlr as (Hc & Htok & Ha & Hpos & Hrec & d & Hd).
  assert (Divergence.kind (RailsLive.divergence lr) ≠ Divergence.OVER_AUTHORIZED_SETTLEMENT) as Hk
    by (rewrite Hd; apply payment_kind).
  destruct (Report.build_succeeds {| wall := t; utcoffset := Some 0 |} rail (RailsLive.rq_payer q)
    (RailsLive.rq_payee q) (RailsLive.rq_nonce q) (RailsLive.rq_believes_paid q) (RailsLive.divergence lr)
    (RailsLive.evidence lr) None _ eq_refl (utc_text_utc t Ht) Hc Htok Hk) as [report Hb].
  exists report. split; [done|].
  pose proof (Report.report_built _ _ _ _ _ _ _ _ _ _ Hb) as
    (_ & _ & _ & _ & Hch & Hev & Hkind & Hf & Hr & Hp & Hq & Hn & Hbel).
  assert (Report.token_address report = lower (Rails.token_address rail)
          ∧ Report.rail_key report = Rails.key rail) as [Htr Hkr]
    by (unfold Report.build in Hb; inv_res; done).
  split; [|by split_and!..| |by split_and!].
  - apply Report.validate_ok. rewrite Hev, Hch. split_and!; [done|lia|lia|done].
  - rewrite Hev. by split.
Qed.

Lemma run_reconcile_run token rail q w :
  let '(lr, c) := RailsLive.reconcile_live token rail q {| _id := 0; Anvil.world := node w |} in
  let '(r, w') := run_reconcile token rail q None w in
  node w' = Anvil.world c ∧ same_outputs w w'
  ∧ match lr, r with
    | Ok lr, Ok report => reports rail q lr report
    | Raise e, Raise e' => e = e'
    | _, _ => False
    end.
Proof.
  destruct (RailsLive.reconcile_live _ _ _ _) as [lr c] eqn:Hlr.
  unfold run_reconcile. unfold mbind, prog_bind at 1. unfold with_client at 1. rewrite Hlr.
  destruct lr as [lr|e]; [|by split_and!].
  destruct (now_run (set_node (Anvil.world c) w)) as (t & w1 & Hnow & Ht & Hsame & Hnode).
  unfold prog_bind. rewrite Hnow.
  destruct (report_of_live _ _ _ _ _ _ _ Hlr Ht) as (report & Hb & Hr).
  unfold lift. rewrite Hb. by split_and!.
Qed.

(** ** What the commands keep *)

(** Printed lines stay, and the report files are as they were. *)
Definition keeps w0 w : Prop := stdout w0 `prefix_of` stdout w ∧ outputs w = outputs w0.

Lemma keeps_refl w : keeps w w.
Proof. by split. Qed.
Lemma keeps_trans w w1 w2 : keeps w w1 → keeps w1 w2 → keeps w w2.
Proof. intros [? E] [? E']. split; [by etrans|by rewrite E', E]. Qed.

Lemma preserves_attempt {A} I (m : prog (world W) A) cs : preserves I m → preserves I (attempt m cs).
Proof. intros Hm. unfold attempt. apply preserves_catch; auto with py. Qed.
Lemma preserves_if_some {A} I (o : option A) (f : A → prog (world W) unit) :
  (∀ a, preserves I (f a)) → preserves I (if_some o f).
Proof. destruct o; simpl; auto with py. Qed.

Lemma keeps_now w0 : preserves (keeps w0) now.
Proof. intros w Hw. unfold now. by destruct (clock w). Qed.
Lemma keeps_print w0 s : preserves (keeps w0) (print s).
Proof.
  intros w [Hp Ho]. unfold print. destruct (console w) as [|[] fails]; (split; [|done]); simpl; try done;
    by apply prefix_app_r.
Qed.
Lemma keeps_print_error w0 s : preserves (keeps w0) (print_error s).
Proof. intros w Hw. unfold print_error. by destruct (console w) as [|[] fails]. Qed.
Lemma keeps_zoom_log {A} w0 (m : prog RunRecord.log_state A) : preserves (keeps w0) (zoom log set_log m).
Proof. intros w Hw. unfold zoom. by destruct (m (log w)). Qed.
#[local] Hint Resolve preserves_attempt preserves_if_some keeps_now keeps_print keeps_print_error
  keeps_zoom_log : py.

Lemma elem_of_snoc (l : list string) x : x ∈ l ++ [x].
Proof. apply elem_of_app. right. by apply list_elem_of_singleton. Qed.
Lemma print_run s w w' : print s w = (Ok tt, w') → stdout w' = stdout w ++ [s] ∧ log w' = log w.
Proof. unfold print. by destruct (console w) as [|[] fails]; intros [= <-]. Qed.
Lemma preserves_log_print l s : preserves (λ w, log w = l) (print s).
Proof. intros w <-. unfold print. by destruct (console w) as [|[] fails]. Qed.
#[local] Hint Resolve preserves_log_print : py.

Lemma attempt_run {A} (m : prog (world W) A) cs w r w' :
  attempt m cs w = (r, w') →
  (∃ a, r = Ok (inl a) ∧ m w = (Ok a, w'))
  ∨ ∃ e, m w = (Raise e, w')
      ∧ if existsb (subclass (exn_cls e)) cs then r = Ok (inr e) else r = Raise e.
Proof.
  unfold attempt, catch, mbind, prog_bind. destruct (m w) as [[a|e] w1]; simpl.
  - intros [= <- <-]. left. by exists a.
  - destruct (existsb _ _) eqn:E; intros [= <- <-]; right; exists e; by rewrite E.
Qed.

(** ** Report files *)

Lemma next_fault_run w : ∃ o w', next_fault w = (Ok o, w')
  ∧ outputs w' = outputs w ∧ stdout w' = stdout w ∧ log w' = log w.
Proof. unfold next_fault. destruct (faults w) as [|o os]; eauto 10. Qed.

(** A report file that is written holds its payload. *)
Lemma write_report_run path payload label w r w' :
  _write_report path payload label w = (r, w') →
  stdout w' = stdout w ∧ log w' = log w ∧ throws [OSError] r
  ∧ (r = Ok tt → outputs w' = <[path := encode_utf8 payload]> (outputs w)
                 ∧ Z.of_nat (length (encode_utf8 payload)) ≤ _MAX_REPORT_BYTES).
Proof.
  unfold _write_report. cbv zeta. intros H0.
  apply prog_bind_run in H0 as [(e & -> & [He ->]%lift_run)|([] & s0 & [Hs ->]%lift_ok & H0)].
  { split_and!; try done. rewrite <- He. by apply throws_raise_if. }
  apply raise_if_ok, Z.ltb_ge in Hs. unfold mkdir in H0.
  destruct (next_fault_run w) as (o & w1 & Hf & Ho1 & Hs1 & Hl1).
  unfold mbind, prog_bind at 1 2 in H0. rewrite Hf in H0.
  assert (r = raise OSError "mkdir" ∧ w' = w1
    ∨ write_bytes path (encode_utf8 payload) w1 = (r, w')) as [[-> ->]|Hw]
    by (destruct o; simpl in H0; naive_solver).
  { split_and!; try done. by apply throws_raise. }
  clear H0 Hf. unfold write_bytes in Hw.
  destruct (next_fault_run w1) as (o1 & w2 & Hf & Ho2 & Hs2 & Hl2).
  unfold mbind, prog_bind in Hw. rewrite Hf in Hw.
  destruct o1; simpl in Hw; injection Hw as <- <-; simpl; rewrite ?Ho2, ?Hs2, ?Hl2, ?Ho1, ?Hs1, ?Hl1.
  - by split_and!.
  - split_and!; try done. by apply throws_raise.
  - split_and!; try done. by apply throws_raise.
Qed.

(** The two report files, in order. *)
Definition write_reports (args : reconcile_args) (json_payload markdown : string) : prog (world W) unit :=
  if_some (json_out args) (λ path, _write_report path json_payload "JSON") ;;
  if_some (md_out args) (λ path, _write_report path markdown "Markdown").

Lemma if_some_report_run o payload label w r w' :
  if_some o (λ path, _write_report path payload label) w = (r, w') →
  stdout w' = stdout w ∧ log w' = log w ∧ throws [OSError] r
  ∧ (r = Ok tt → outputs w' = match o with
                              | Some p => <[p := encode_utf8 payload]> (outputs w)
                              | None => outputs w
                              end).
Proof.
  destruct o as [p|]; simpl.
  - intros (? & ? & ? & Hr)%write_report_run. split_and!; try done. intros E. by destruct (Hr E).
  - intros [= <- <-]. by split_and!.
Qed.

Lemma write_reports_run args json_payload markdown w r w' :
  write_reports args json_payload markdown w = (r, w') →
  stdout w' = stdout w ∧ log w' = log w ∧ throws [OSError] r
  ∧ (r = Ok tt →
      (∀ p, md_out args = Some p → outputs w' !! p = Some (encode_utf8 markdown))
      ∧ (∀ p, json_out args = Some p → md_out args ≠ Some p →
           outputs w' !! p = Some (encode_utf8 json_payload))).
Proof.
  unfold write_reports. intros H0.
  apply prog_bind_run in H0 as [(e & -> & Hj)|([] & w1 & Hj & Hm)].
  { apply if_some_report_run in Hj as (? & ? & ? & _). by split_and!. }
  apply if_some_report_run in Hj as (Hs1 & Hl1 & _ & Ho1). specialize (Ho1 eq_refl).
  apply if_some_report_run in Hm as (Hs2 & Hl2 & Ht & Ho2).
  split_and!; [by rewrite Hs2|by rewrite Hl2|done|]. intros E. specialize (Ho2 E). split.
  - intros p Hp. rewrite Ho2, Hp. by rewrite lookup_insert_eq.
  - intros p Hp Hne. rewrite Ho2. destruct (md_out args) as [q|].
    + rewrite lookup_insert_ne by congruence. by rewrite Ho1, Hp, lookup_insert_eq.
    + by rewrite Ho1, Hp, lookup_insert_eq.
Qed.

(** ** Audit records *)

Context (str_other : pyval → string) (python platform machine version : string).
Notation write_record := (write_record (W:=W) str_other python platform machine version).
Notation emit_report := (emit_report (W:=W)).
Notation main := (main (W:=W) str_other python platform machine version).

Lemma keeps_write_record w0 directory inputs started report code error :
  preserves (keeps w0) (write_record directory inputs started report code error).
Proof.
  unfold CliRun.write_record. destruct directory as [d|]; [|auto with py].
  apply preserves_bind; [eauto 10 with py|intros [path|e]; eauto with py].
Qed.

(** A record of this report and exit code was created in the directory and holds a
    checksum that verifies; no other file of it was touched but the journal. *)
Definition recorded (report : option pydict) (code : Z) (error : option string)
    (fs fs' : gmap string (list Z)) : Prop :=
  ∃ record name text, RunRecord.verify_run_record record = Ok true
    ∧ dict_get "report" record = RunRecord.opt_dict report ∧ dict_get "exitCode" record = VInt code
    ∧ dict_get "consistent" record = VBool (match error with None => code =? 0 | Some _ => false end)
    ∧ dumps (pretty 2) (VDict record) = Ok text
    ∧ name ≠ RunRecord.JOURNAL ∧ fs !! name = None ∧ fs' !! name = Some (RunRecord.line_of text)
    ∧ (∀ k, k ≠ name → k ≠ RunRecord.JOURNAL → fs' !! k = fs !! k).

(** What a run that says it was audited leaves in the log directory. *)
Definition audited (directory : option string) (report : option pydict) (code : Z)
    (error : option string) w w' : Prop :=
  match directory with
  | None => log w' = log w
  | Some _ => recorded report code error (RunRecord.files (log w)) (RunRecord.files (log w'))
  end.

Lemma log_now w r w' : now w = (r, w') → log w' = log w.
Proof. unfold now. destruct (clock w); by intros [= <- <-]. Qed.

Lemma write_record_run directory inputs started report code error w w' :
  write_record directory inputs started report code error w = (Ok true, w') →
  audited directory report code error w w'.
Proof.
  unfold CliRun.write_record. destruct directory as [d|]; [|by intros [= <-]].
  intros (r & w1 & Ha & H0)%prog_bind_ok.
  apply attempt_run in Ha as [(path & [= ->] & Ha)|(e & _ & He)].
  2: { destruct (existsb _ _); [injection He as ->|done].
       by apply prog_bind_ok in H0 as (? & ? & _ & [= ->]). }
  apply prog_bind_ok in Ha as (t & w2 & Hnow & Ha). apply log_now in Hnow.
  apply prog_bind_ok in Ha as (record & w3 & [Hb ->]%lift_ok & Ha).
  apply prog_bind_ok in H0 as ([] & w4 & [_ Hl]%print_run & [_ ->]%mret_ok).
  unfold zoom in Ha. destruct (RunRecord.write_run_record record (log w2)) as [r l] eqn:Hw.
  injection Ha as -> <-. simpl in Hl. apply RunRecord.write_run_record_run in Hw.
  apply RunRecord.built_members in Hb as (Hv & Hrep & Hcode & _ & Hcons).
  rewrite Hnow in Hw. inversion Hw as [| |name st id q text entry line _ _ Hn Hname _ _ Htext _ _ Hfs].
  assert (path ≠ RunRecord.JOURNAL) as Hne by (subst; apply RunRecord.record_name_not_journal).
  exists record, path, text. rewrite Hl. simpl in Hfs. rewrite Hfs. subst name.
  split_and!; try done.
  - by rewrite lookup_insert_ne, lookup_insert_eq.
  - intros k Hk Hk'. by rewrite !lookup_insert_ne.
Qed.

(** ** Emitting *)

Lemma emit_report_run args report record w w' code :
  (∀ w0 d c e, preserves (keeps w0) (record d c e)) →
  emit_report args report record w = (Ok code, w') → code ≠ 2 →
  code = Report.exit_code report
  ∧ ∃ markdown json_payload w1,
      Report.to_markdown report = Ok markdown ∧ Report.to_json report = Ok json_payload
      ∧ markdown ∈ stdout w'
      ∧ (∀ p, md_out args = Some p → outputs w' !! p = Some (encode_utf8 markdown))
      ∧ (∀ p, json_out args = Some p → md_out args ≠ Some p →
           outputs w' !! p = Some (encode_utf8 json_payload))
      ∧ record (Some (Report.to_dict report)) code None w1 = (Ok true, w') ∧ log w1 = log w.
Proof.
  intros Hrec H0 Hcode. unfold CliRun.emit_report in H0.
  apply prog_bind_ok in H0 as (markdown & s0 & [Hm ->]%lift_ok & H0).
  apply prog_bind_ok in H0 as (json_payload & s0 & [Hj ->]%lift_ok & H0).
  apply prog_bind_ok in H0 as (wrote & w1 & Hw & H0).
  apply attempt_run in Hw as [([] & [= ->] & Hw)|(e & _ & Hw)].
  2: { destruct (existsb _ _); [injection Hw as ->|done]. exfalso. apply Hcode. cbv zeta in H0.
       apply prog_bind_ok in H0 as (? & ? & _ & H0). apply prog_bind_ok in H0 as (? & ? & _ & H0).
       by injection H0 as <-. }
  apply write_reports_run in Hw as (_ & Hl1 & _ & Ho). destruct (Ho eq_refl) as [Hmd Hjs]. clear Ho.
  apply prog_bind_ok in H0 as ([] & w2 & Hp & H0).
  pose proof (print_run _ _ _ Hp) as [Hs2 Hl2].
  pose proof (preserves_run _ _ _ _ _ (keeps_print w1 markdown) (keeps_refl w1) Hp) as [_ Ho2].
  apply prog_bind_ok in H0 as ([] & w3 & Hp3 & H0). apply prog_bind_ok in H0 as ([] & w4 & Hp4 & H0).
  assert (keeps w2 w4 ∧ log w4 = log w2) as [Hk4 Hl4].
  { split.
    - eapply preserves_run, Hp4; [auto with py|]. eapply preserves_run, Hp3; [auto with py|apply keeps_refl].
    - eapply (preserves_run (λ w, log w = log w2)), Hp4; [auto with py|].
      eapply (preserves_run (λ w, log w = log w2)), Hp3; [auto with py|done]. }
  apply prog_bind_ok in H0 as (ok & w5 & Hr & [Hc ->]%mret_ok).
  destruct ok; [subst code|by subst].
  assert (keeps w2 w5) as [[l Hst] Ho5] by (eapply preserves_run, Hr; [apply Hrec|done]).
  split; [done|]. exists markdown, json_payload, w4. split_and!; try done.
  - rewrite Hst, Hs2. apply elem_of_app. left. apply elem_of_snoc.
  - intros p Hmp. rewrite Ho5, Ho2. by apply Hmd.
  - intros p Hjp Hne. rewrite Ho5, Ho2. by apply Hjs.
  - by rewrite Hl4, Hl2.
Qed.

(** ** Commands *)

Lemma node_now w r w' : now w = (r, w') → node w' = node w.
Proof. unfold now. destruct (clock w); by intros [= <- <-]. Qed.

Lemma attempt_lift_run {A} (m : res A) cs w r w' :
  attempt (lift m) cs w = (r, w') →
  w' = w ∧ match m with
           | Ok a => r = Ok (inl a)
           | Raise e => if existsb (subclass (exn_cls e)) cs then r = Ok (inr e) else r = Raise e
           end.
Proof.
  intros [(a & -> & [-> ->]%lift_ok)|(e & [-> ->]%lift_run & Hr)]%attempt_run; by split.
Qed.

(** The verdict of a reconciliation reached everyone it was meant for: the node's
    answers of this run support it, it was printed, the requested files hold its two
    renderings, and it was recorded unless recording is off. *)
Definition delivered (environ : gmap string string) (args : reconcile_args) (code : Z) w w' : Prop :=
  ∃ rail token lr c report markdown json_payload,
    Rails.get_rail (Cli.rail args) = Ok rail ∧ RailsLive.token_for_rail rail = Ok token
    ∧ RailsLive.reconcile_live token rail (live_request_of args)
        {| _id := 0; Anvil.world := node w |} = (Ok lr, c)
    ∧ reports rail (live_request_of args) lr report
    ∧ code = (if Divergence.is_failure (RailsLive.divergence lr) then 1 else 0)
    ∧ Report.to_markdown report = Ok markdown ∧ Report.to_json report = Ok json_payload
    ∧ markdown ∈ stdout w'
    ∧ (∀ p, md_out args = Some p → outputs w' !! p = Some (encode_utf8 markdown))
    ∧ (∀ p, json_out args = Some p → md_out args ≠ Some p →
         outputs w' !! p = Some (encode_utf8 json_payload))
    ∧ audited (_resolve_log_dir environ args) (Some (Report.to_dict report)) code None w w'.

Lemma reconciled_run token rail q cs w r w' :
  attempt (token ← lift token; run_reconcile token rail q None) cs w = (r, w') →
  match r with
  | Ok (inl report) => ∃ t lr c, token = Ok t
      ∧ RailsLive.reconcile_live t rail q {| _id := 0; Anvil.world := node w |} = (Ok lr, c)
      ∧ reports rail q lr report ∧ same_outputs w w'
  | _ => True
  end.
Proof.
  intros [(report & -> & Hr)|(e & _ & Hr)]%attempt_run; [|by destruct (existsb _ _); subst].
  apply prog_bind_ok in Hr as (t & s0 & [Ht ->]%lift_ok & Hr). exists t.
  pose proof (run_reconcile_run t rail q w) as Hrun.
  destruct (RailsLive.reconcile_live _ _ _ _) as [lr c]. rewrite Hr in Hrun.
  destruct Hrun as (_ & Hsame & Hrep). destruct lr as [lr|]; [|done]. by exists lr, c.
Qed.

Lemma cmd_reconcile_run environ args w w' code :
  _cmd_reconcile str_other python platform machine version environ args w = (Ok code, w') → code ≠ 2 →
  delivered environ args code w w'.
Proof.
  intros H0 Hcode. unfold _cmd_reconcile in H0.
  apply prog_bind_ok in H0 as (started & w1 & Hnow & H0).
  pose proof (log_now _ _ _ Hnow) as Hl1. apply node_now in Hnow as Hn1.
  apply prog_bind_ok in H0 as (found & w2 & Hrail & H0). apply attempt_lift_run in Hrail as [-> Hrail].
  destruct found as [rail|e].
  2: { by apply prog_bind_ok in H0 as (? & ? & _ & [-> _]%mret_ok). }
  destruct (Rails.get_rail (Cli.rail args)) as [rail'|] eqn:Hget; [injection Hrail as ->|by destruct (existsb _ _)].
  apply prog_bind_ok in H0 as (reconciled & w3 & Hrec & H0). apply reconciled_run in Hrec.
  destruct reconciled as [report|e].
  2: { apply prog_bind_ok in H0 as (? & ? & _ & H0). by apply prog_bind_ok in H0 as (? & ? & _ & [-> _]%mret_ok). }
  destruct Hrec as (token & lr & c & Htok & Hlive & Hreports & (Hl3 & _)).
  apply emit_report_run in H0 as (-> & markdown & json & w4 & Hm & Hj & Hin & Hmd & Hjs & Haudit & Hl4);
    [|intros; apply keeps_write_record|done].
  apply write_record_run in Haudit. rewrite Hn1 in Hlive.
  exists rail', token, lr, c, report, markdown, json. split_and!; try done.
  - unfold Report.exit_code. by destruct (report_verdict _ _ _ _ Hreports) as [_ ->].
  - destruct (_resolve_log_dir environ args) as [d|]; unfold audited in *; by rewrite Hl4, Hl3, Hl1 in Haudit.
Qed.

(** The drift of a rail was observed and printed. *)
Definition observed (args : drift_args) (code : Z) w w' : Prop :=
  ∃ rail check c text,
    Rails.get_rail (drift_rail args) = Ok rail
    ∧ RailsLive.check_rail_drift rail {| _id := 0; Anvil.world := node w |} = (Ok check, c)
    ∧ dumps (pretty_sorted 2) (VDict (RailsLive.drift_as_dict check)) = Ok text
    ∧ text ∈ stdout w' ∧ code = (if RailsLive.matches check then 0 else 1)
    ∧ log w' = log w ∧ outputs w' = outputs w.

Lemma cmd_rail_drift_run args w w' code :
  _cmd_rail_drift args w = (Ok code, w') → code ≠ 2 → observed args code w w'.
Proof.
  intros H0 Hcode. unfold _cmd_rail_drift in H0.
  apply prog_bind_ok in H0 as (r & w1 & Ha & H0).
  apply attempt_run in Ha as [(check & [= ->] & Ha)|(e & _ & He)].
  2: { destruct (existsb _ _); [injection He as ->|done].
       by apply prog_bind_ok in H0 as (? & ? & _ & [-> _]%mret_ok). }
  apply prog_bind_ok in Ha as (rail & s0 & [Hr ->]%lift_ok & Ha).
  unfold with_client in Ha. destruct (RailsLive.check_rail_drift _ _) as [[check'|] c] eqn:Hc; [|done].
  injection Ha as -> <-.
  apply prog_bind_ok in H0 as (text & s0 & [Ht ->]%lift_ok & H0).
  apply prog_bind_ok in H0 as ([] & w2 & Hp & [-> ->]%mret_ok).
  pose proof (preserves_run _ _ _ _ _ (keeps_print _ text) (keeps_refl _) Hp) as [_ Ho].
  apply print_run in Hp as [Hs Hl]. exists rail, check, c, text. split_and!; try done.
  rewrite Hs. apply elem_of_snoc.
Qed.

Lemma catch_returns {A} (m : prog (world W) A) cs h w a w' :
  catch m cs h w = (Ok a, w') → m w = (Ok a, w') ∨ ∃ e w1, h e w1 = (Ok a, w').
Proof.
  unfold catch. destruct (m w) as [[b|e] w1]; [by left|]. destruct (existsb _ _); [|done].
  right. by exists e, w1.
Qed.

(** What a run that does not fail has done. *)
Definition succeeded (environ : gmap string string) (cmd : command) (code : Z) w w' : Prop :=
  match cmd with
  | Reconcile args => delivered environ args code w w'
  | RailDrift args => observed args code w w'
  end.

Lemma main_run environ argv w w' code :
  main environ argv w = (Ok code, w') → code ≠ 2 →
  ∃ cmd, parse_args argv = Ok cmd ∧ succeeded environ cmd code w w'.
Proof.
  intros H0 Hcode. unfold CliRun.main in H0.
  apply prog_bind_ok in H0 as (parsed & w1 & Hp & H0). apply attempt_lift_run in Hp as [-> Hp].
  destruct parsed as [cmd|e].
  2: { by apply prog_bind_ok in H0 as (? & ? & _ & [-> _]%mret_ok). }
  destruct (parse_args argv) as [cmd'|]; [injection Hp as ->|by destruct (existsb _ _)].
  exists cmd'. split; [done|].
  destruct cmd' as [args|args]; apply catch_returns in H0 as [H0|(e & w2 & H0)].
  - by apply cmd_reconcile_run.
  - by apply prog_bind_ok in H0 as (? & ? & _ & [-> _]%mret_ok).
  - by apply cmd_rail_drift_run.
  - by apply mret_ok in H0 as [-> _].
Qed.

Lemma succeeded_code environ cmd code w w' : succeeded environ cmd code w w' → code = 0 ∨ code = 1.
Proof.
  destruct cmd as [args|args]; simpl.
  - intros (? & ? & lr & ? & ? & ? & ? & _ & _ & _ & _ & -> & _). destruct (Divergence.is_failure _); auto.
  - intros (? & check & ? & ? & _ & _ & _ & _ & -> & _). destruct (RailsLive.matches check); auto.
Qed.

(** ** Errors *)

Lemma throws_in_catch {A} cs ds es (m : prog (world W) A) h :
  throws_in ds m → (∀ e, throws_in cs (h e)) →
  (∀ c, existsb (subclass c) ds = true → existsb (subclass c) es = true ∨ existsb (subclass c) cs = true) →
  throws_in cs (catch m es h).
Proof.
  intros Hm Hh Hsub w e. specialize (Hm w). unfold catch.
  destruct (m w) as [[a|e'] w1]; simpl in *; [done|].
  destruct (existsb (subclass (exn_cls e')) es) eqn:E; [apply Hh|]. intros [= <-].
  destruct (Hsub _ (Hm _ eq_refl)); congruence.
Qed.
Lemma throws_in_attempt {A} cs ds es (m : prog (world W) A) :
  throws_in ds m →
  (∀ c, existsb (subclass c) ds = true → existsb (subclass c) es = true ∨ existsb (subclass c) cs = true) →
  throws_in cs (attempt m es).
Proof.
  intros Hm. unfold attempt. apply throws_in_catch; [|auto with py].
  apply throws_in_bind; [done|auto with py].
Qed.

Notation os_errors := [OSError].
Notation run_errors := [OSError; ValueError].

Lemma os_run {A} (m : prog (world W) A) : throws_in os_errors m → throws_in run_errors m.
Proof. apply throws_in_subset. set_solver. Qed.

Lemma throws_in_print s : throws_in os_errors (print (W:=W) s).
Proof. intros w. unfold print. destruct (console w) as [|[] fails]; cbn [fst]; first [apply throws_ok | by apply throws_raise]. Qed.
Lemma throws_in_print_error s : throws_in os_errors (print_error (W:=W) s).
Proof. intros w. unfold print_error. destruct (console w) as [|[] fails]; cbn [fst]; first [apply throws_ok | by apply throws_raise]. Qed.
Lemma throws_in_now cs : throws_in cs (now (W:=W)).
Proof. intros w. unfold now. destruct (clock w); apply throws_ok. Qed.
Lemma throws_in_if_some {A} cs (o : option A) (f : A → prog (world W) unit) :
  (∀ a, throws_in cs (f a)) → throws_in cs (if_some o f).
Proof. destruct o; simpl; auto with py. Qed.
Lemma throws_in_zoom_log {A} cs (m : prog RunRecord.log_state A) :
  throws_in cs m → throws_in cs (zoom (S:=world W) log set_log m).
Proof. intros Hm w. specialize (Hm (log w)). unfold zoom. by destruct (m (log w)). Qed.
#[local] Hint Resolve throws_in_print throws_in_print_error throws_in_now throws_in_if_some os_run : py.

Lemma inputs_encodable args : encodable (VDict (inputs_of args)) = true.
Proof. done. Qed.
Lemma report_encodable report : encodable (VDict (Report.to_dict report)) = true.
Proof.
  cbn. destruct (RailsLive.ev_log_index _), (RailsLive.authorization_log_index _),
    (RailsLive.ev_implementation_address _), (RailsLive.ev_implementation_code_sha256 _),
    (RailsLive.event_value _); reflexivity.
Qed.
Lemma drift_encodable check : encodable (VDict (RailsLive.drift_as_dict check)) = true.
Proof.
  cbn. destruct (RailsLive.drift_expected_code_sha256 _), (RailsLive.drift_implementation_address _),
    (RailsLive.drift_implementation_code_sha256 _); reflexivity.
Qed.

Lemma throws_get_rail k : throws [KeyError] (Rails.get_rail k).
Proof.
  unfold Rails.get_rail. destruct Rails.known_rails_built as (rails & -> & _). simpl. solve_throws.
Qed.
Lemma throws_token_for_rail rail : throws [ValueError] (RailsLive.token_for_rail rail).
Proof.
  unfold RailsLive.token_for_rail, Chain.make_token.
  apply throws_bind; [apply Chain.throws_slot_addr|intros; apply throws_ok].
Qed.

(** An exception that is caught does not escape. *)
Lemma throws_in_caught {A} cs es (m : prog (world W) A) : throws_in es m → throws_in cs (attempt m es).
Proof. intros Hm. eapply throws_in_attempt; [exact Hm|auto]. Qed.

Lemma throws_in_with_client {A} cs (m : prog (RpcClient W) A) :
  throws_in cs m → throws_in cs (with_client m).
Proof.
  intros Hm w. unfold with_client. specialize (Hm {| _id := 0; Anvil.world := node w |}).
  by destruct (m _) as [r c].
Qed.

Lemma throws_run_reconcile token rail q :
  throws_in (S:=world W) rpc_errors (run_reconcile token rail q None).
Proof.
  intros w. pose proof (run_reconcile_run token rail q w) as Hr.
  pose proof (RailsLive.throws_reconcile_live token rail q {| _id := 0; Anvil.world := node w |}) as Ht.
  destruct (RailsLive.reconcile_live _ _ _ _) as [[lr|e] c], (run_reconcile _ _ _ _ w) as [[r|e'] w'];
    destruct Hr as (_ & _ & Hr); cbn [fst] in *; [apply throws_ok|done..|].
  intros x [= <-]. rewrite <- Hr. exact (Ht e eq_refl).
Qed.

Lemma value_run {A} (m : res A) : throws [ValueError] m → throws run_errors m.
Proof. apply throws_subset. set_solver. Qed.

(** The clock reads an instant of the calendar. *)
Lemma throws_in_now_bind {A} cs (f : datetime → prog (world W) A) :
  (∀ t, in_range (utc t) = true → throws_in cs (f t)) → throws_in cs (t ← now; f t).
Proof.
  intros Hf w. destruct (now_run w) as (t & w1 & Hnow & Ht & _).
  unfold mbind, prog_bind. rewrite Hnow. apply Hf. unfold utc. simpl. by rewrite Z.sub_0_r.
Qed.

Lemma throws_write_record directory args started report code error :
  match report with Some d => encodable (VDict d) = true | None => True end →
  in_range (utc started) = true →
  throws_in run_errors (write_record directory (inputs_of args) started report code error).
Proof.
  intros Hrep Hst. unfold CliRun.write_record. destruct directory as [d|]; [|auto with py].
  apply throws_in_bind.
  - apply throws_in_caught, throws_in_now_bind. intros t Ht.
    destruct (RunRecord.throws_build str_other python platform machine version "reconcile" (inputs_of args)
      report code started t error (inputs_encodable args) ltac:(by destruct report) Hst Ht) as [Hb Hc].
    destruct (RunRecord.build_run_record _ _ _ _ _ _ _ _ _ _ _ _) as [record|e'].
    + intros w. apply (throws_in_zoom_log _ _ (RunRecord.throws_in_write_run_record _ (Hc _ eq_refl))).
    + intros w x [= <-]. exact (value_run _ Hb e' eq_refl).
  - intros [path|e]; apply throws_in_bind; auto with py.
Qed.

Lemma throws_write_reports args j m : throws_in os_errors (write_reports args j m).
Proof.
  intros w. destruct (write_reports args j m w) as [r w'] eqn:E.
  by apply write_reports_run in E as (_ & _ & Ht & _).
Qed.

Lemma throws_emit_report args report record :
  (∀ d c e, match d with Some d => encodable (VDict d) = true | None => True end →
     throws_in run_errors (record d c e)) →
  throws_in run_errors (emit_report args report record).
Proof.
  intros Hrec. assert (∀ c e, throws_in run_errors (record (Some (Report.to_dict report)) c e)) as Hr
    by (intros; apply Hrec, report_encodable).
  unfold CliRun.emit_report. apply throws_in_bind; [apply throws_in_lift, value_run, Report.throws_to_markdown|].
  intros markdown. apply throws_in_bind.
  { apply throws_in_lift, value_run. unfold Report.to_json.
    apply throws_bind; [apply Report.throws_validate|intros _ _].
    apply throws_dumps_encodable, report_encodable. }
  intros json_payload. apply throws_in_bind; [apply throws_in_caught, throws_write_reports|].
  intros [[]|e]; cbv zeta.
  - repeat (apply throws_in_bind; [auto with py|intros ?]). auto with py.
  - apply throws_in_bind; [apply Hr|intros _]. apply throws_in_bind; auto with py.
Qed.

Lemma throws_cmd_reconcile environ args :
  throws_in run_errors (_cmd_reconcile (W:=W) str_other python platform machine version environ args).
Proof.
  unfold _cmd_reconcile. apply throws_in_now_bind. intros started Hst. cbv zeta.
  assert (∀ d c e, match d with Some d => encodable (VDict d) = true | None => True end →
    throws_in run_errors (write_record (_resolve_log_dir environ args) (inputs_of args) started d c e)) as Hrec
    by (intros; by apply throws_write_record).
  apply throws_in_bind; [apply throws_in_caught, throws_in_lift, throws_get_rail|].
  intros [rail|e]; [|apply throws_in_bind; auto with py].
  apply throws_in_bind.
  { apply throws_in_caught, throws_in_bind; [|intros token; apply throws_run_reconcile].
    eapply throws_in_lift, throws_subset, throws_token_for_rail. set_solver. }
  intros [report|e]; [by apply throws_emit_report|].
  apply throws_in_bind; [by apply Hrec|intros _]. apply throws_in_bind; auto with py.
Qed.

Lemma throws_cmd_rail_drift args : throws_in run_errors (_cmd_rail_drift (W:=W) args).
Proof.
  unfold _cmd_rail_drift. apply throws_in_bind.
  - apply throws_in_caught, throws_in_bind.
    + eapply throws_in_lift, throws_subset, throws_get_rail. set_solver.
    + intros rail. apply throws_in_with_client. eapply throws_in_subset, RailsLive.throws_drift. set_solver.
  - intros [check|e]; [|apply throws_in_bind; auto with py].
    apply throws_in_bind; [apply throws_in_lift, value_run, throws_dumps_encodable, drift_encodable|].
    intros text. apply throws_in_bind; auto with py.
Qed.

(** Outside its handlers a command fails only with an unprintable number. *)
Lemma throws_handled {A} (m : prog (world W) A) h :
  throws_in run_errors m → (∀ e, throws_in [ValueError] (h e)) → throws_in [ValueError] (catch m os_errors h).
Proof.
  intros Hm Hh. eapply throws_in_catch; [exact Hm|exact Hh|]. intros c. simpl.
  destruct (subclass c OSError), (subclass c ValueError); auto.
Qed.

(** * Properties *)

(** C19: a reconciliation always reports.  Run against any node, it ends with the very
    exception the live reconciliation ended with, or with a report that validates,
    names the rail, the parties and the belief it was asked about, carries the
    evidence that was read and the verdict on it; no timestamp, verdict or evidence
    makes building the report fail.  It writes nothing and prints nothing. *)
Theorem reconciliation_always_reports token rail q w :
  let '(lr, c) := RailsLive.reconcile_live token rail q {| _id := 0; Anvil.world := node w |} in
  let '(r, w') := run_reconcile token rail q None w in
  node w' = Anvil.world c ∧ same_outputs w w'
  ∧ match lr, r with
    | Ok lr, Ok report => reports rail q lr report
    | Raise e, Raise e' => e = e'
    | _, _ => False
    end.
Proof. apply run_reconcile_run. Qed.

(** C17: an exit code other than two is a verdict that was delivered.  Whatever the
    node answers, whichever file, log or console operation fails or is cut short, a
    [reconcile] run that exits with zero or one reached a verdict on a reviewed rail
    from this node's answers, zero exactly when it is healthy; its rendering is on
    the standard output, the requested report files hold exactly the two renderings,
    and unless recording is off a new file of the log directory holds a record of
    this report and exit code whose checksum verifies.  A [rail-drift] run that exits
    with zero or one printed the observation, zero exactly when it matches, and wrote
    no file. *)
Theorem exit_code_is_a_verdict environ argv w w' code :
  main environ argv w = (Ok code, w') → code ≠ 2 →
  (code = 0 ∨ code = 1) ∧ ∃ cmd, parse_args argv = Ok cmd ∧ succeeded environ cmd code w w'.
Proof.
  intros Hrun Hcode. destruct (main_run _ _ _ _ _ Hrun Hcode) as (cmd & Hp & Hs).
  split; [by eapply succeeded_code|by exists cmd].
Qed.

Lemma throws_main_errors environ argv w :
  match parse_args argv with
  | Ok _ => throws [ValueError] (main environ argv w).1
  | Raise u => (exn_cls u = CliUsageError ∧ throws os_errors (main environ argv w).1)
               ∨ (exn_cls u = SystemExit ∧ (main environ argv w) = (Raise u, w))
  end.
Proof.
  pose proof (throws_parse_command subcommand argv throws_subcommand) as Hu.
  change (parse_command subcommand argv) with (parse_args argv) in Hu.
  unfold CliRun.main, attempt, catch, mbind, prog_bind at 1, lift at 1.
  unfold mbind, prog_bind, lift.
  destruct (parse_args argv) as [[args|args]|u].
  - refine (throws_handled _ _ (throws_cmd_reconcile environ args) _ w).
    intros e. apply throws_in_bind; [|auto with py].
    apply throws_in_caught. auto with py.
  - refine (throws_handled _ _ (throws_cmd_rail_drift args) _ w). auto with py.
  - specialize (Hu u eq_refl). destruct (exn_cls u) eqn:Ec; simpl in Hu; try done; [left|right]; (split; [done|]);
      simpl; rewrite ?Ec; simpl.
    + refine (throws_in_bind os_errors _ _ _ _ w); auto with py.
    + done.
Qed.

End running.

(** ** A concrete run *)

(** A node on which the payment settled on the local rail, and a belief that it did
    not. *)
Definition mock_token : string := "0x5FbDB2315678afecb367f032d93F642f64180aa3".
Definition on_mock_token (log : pydict) : pyval := VDict (dict_set "address" (VStr mock_token) log).
Definition mock_answer (method : string) (params : list pyval) : pyval :=
  if (method =? "eth_getTransactionReceipt")%string then
    VDict (dict_set "logs" (VList [on_mock_token RailsLive.sample_auth_log; on_mock_token RailsLive.sample_transfer_log])
             RailsLive.sample_receipt)
  else if (method =? "eth_getLogs")%string then VList [on_mock_token RailsLive.sample_transfer_log]
  else RailsLive.sample_answer method params.

Definition sample_argv : list string := [
  "reconcile"; "--rail"; "mock-anvil"; "--payer"; RailsLive.hex_of "b" 40; "--payee"; RailsLive.hex_of "c" 40;
  "--nonce"; RailsLive.hex_of "3" 64; "--tx-hash"; RailsLive.hex_of "1" 64; "--log-index=1";
  "--required-amount=10"; "--payer-before=100"; "--payee-before=0"; "--sut-unpaid"; "--json"; "out.json"].
Definition sample_world : world (list string) := {|
  node := []; log := RunRecord.empty_dir; outputs := ∅; faults := []; console := [];
  stdout := []; stderr := []; clock := [63871200000000000; 63871200000500000; 63871200001000000] |}.
Notation sample_run := (main (H:=honest_node mock_answer) (λ _, "") "3.11.9" "Linux" "x86_64" "0.1.0" ∅
  sample_argv sample_world).

Lemma run_ends {A B} (run : A * B) a : run.1 = a → ∃ b, run = (a, b).
Proof. destruct run as [a' b]. simpl. intros ->. by exists b. Qed.

Lemma exit_code_is_a_verdict_witness :
  ∃ w', sample_run = (Ok 1, w')
    ∧ ∃ cmd, parse_args sample_argv = Ok cmd
        ∧ succeeded (H:=honest_node mock_answer) ∅ cmd 1 sample_world w'.
Proof.
  assert ((sample_run).1 = Ok 1) as K by (vm_compute; reflexivity).
  destruct (run_ends _ _ K) as [w' E]. exists w'. split; [exact E|].
  refine (proj2 (exit_code_is_a_verdict (H:=honest_node mock_answer) _ _ _ _ _ _ _ _ _ _ E _)).
  lia.
Defined.
