(* ===== verification/Capture.v ===== *)
(** * Capturing a rail's identity ([tools/capture_rail_attestation.py])

    The tool reads the identity of one token at one pinned block and solves its
    EIP-712 domain: it names the pair of name and version whose domain separator
    the contract answers.  [keccak] is a parameter; the node is a [Transport].

    The theorems: what a capture attests, that it only reads, and that exit status
    zero means a solved domain. *)

From S2P Require Import Prelude PyStr PyVal PyJson PyArgs PySha256 Anvil PyUrl PyText.
From S2P Require Cli.
Local Open Scope Z_scope.

Definition _NAME_CANDIDATES : list string := ["USD Coin"; "USDC"; "USD Coin (PoS)"; "USDC.e"].
Definition _VERSION_CANDIDATES : list string := ["1"; "2"].

Record Capture := {
  chain_id : Z;
  block_number : Z;
  block_hash : string;
  token_address : string;
  code_sha256 : string;
  reported_name : option string;
  reported_version : option string;
  decimals : Z;
  domain_separator : option string;
  domain_solution : option (string * string);
  eip3009_state_readable : bool;
  implementation_address : option string;
  implementation_code_sha256 : option string;
  notes : list string
}.

(** ** Validators *)

Definition _exact_hash (value : pyval) (what : string) : res string :=
  s ← or_raise (as_str value) CaptureError (what +:+ " is not an exact 32-byte hash");
  raise_if (negb (re_0xhex 64 s)) CaptureError (what +:+ " is not an exact 32-byte hash") ;;
  Ok (lower s).

(** [re.fullmatch(r"0x[0-9a-fA-F]+", value)] *)
Definition re_hex (s : string) : bool :=
  startswith "0x" s && negb (empty (str_drop 2 s)) && str_all is_hex_digit (str_drop 2 s).
Definition _quantity (value : pyval) (what : string) : res Z :=
  s ← or_raise (as_str value) CaptureError (what +:+ " is not a hex quantity");
  raise_if (negb (re_hex s)) CaptureError (what +:+ " is not a hex quantity") ;;
  or_raise (py_int16 s) ValueError "invalid literal for int() with base 16".

Definition _code_sha256 (code what : string) : res string :=
  raise_if (negb (startswith "0x" code) || (code =? "0x")%string) CaptureError
    (what +:+ " has no deployed runtime bytecode") ;;
  raw ← or_raise (fromhex (str_drop 2 code)) CaptureError (what +:+ " returned malformed runtime bytecode");
  match raw with
  | [] => raise CaptureError (what +:+ " has no deployed runtime bytecode")
  | _ => Ok (sha256_hex raw)
  end.

(** [int.from_bytes(bs, "big")] and [bs.hex()] *)
Definition from_bytes (bs : list Z) : Z := foldl (λ n b, n * 256 + b) 0 bs.
Definition hex (bs : list Z) : string := str_cat (numw 16 2 <$> bs).

(** The bytes of an ABI string, if it is one. *)
Definition abi_string (raw : list Z) : option (list Z) :=
  if zlen raw <? 64 then None
  else
    let offset := from_bytes (take 32 raw) in
    if zlen raw <? offset + 32 then None
    else
      let tail := drop (Z.to_nat offset) raw in
      let length := from_bytes (take 32 tail) in
      if zlen raw - (offset + 32) <? length then None
      else Some (take (Z.to_nat length) (drop 32 tail)).

Definition _decode_string (result : string) : res (option string) :=
  match fromhex (if startswith "0x" result then str_drop 2 result else result) with
  | None => Ok None
  | Some raw =>
      match abi_string raw with
      | None => Ok None
      | Some bs => try_except (Some <$> decode_utf8 bs) [UnicodeDecodeError] (λ _, Ok None)
      end
  end.

Section capture.
Context (keccak : list Z → list Z).

(** ** Selectors and domains *)

Definition keccak_text (text : string) : list Z := keccak (encode_utf8 text).
Definition selector (signature : string) : string := hex (take 4 (keccak_text signature)).

Definition _SEL_NAME : string := selector "name()".
Definition _SEL_VERSION : string := selector "version()".
Definition _SEL_DECIMALS : string := selector "decimals()".
Definition _SEL_DOMAIN_SEPARATOR : string := selector "DOMAIN_SEPARATOR()".
Definition _SEL_AUTHORIZATION_STATE : string := selector "authorizationState(address,bytes32)".
Definition _EIP712_DOMAIN_TYPEHASH : list Z :=
  keccak_text "EIP712Domain(string name,string version,uint256 chainId,address verifyingContract)".

Definition _domain_separator_for (name version : string) (chain_id : Z) (verifying : string) : res string :=
  raise_if (negb (is_uint256 chain_id)) OverflowError "int too big to convert" ;;
  contract ← or_raise (fromhex (str_drop 2 verifying)) ValueError "non-hexadecimal number found in fromhex() arg";
  Ok ("0x" +:+ hex (keccak (_EIP712_DOMAIN_TYPEHASH ++ keccak_text name ++ keccak_text version
                            ++ be_bytes 32 chain_id ++ replicate 12 0 ++ contract))).

Definition name_candidates (reported_name : option string) : list string :=
  match reported_name with
  | Some n => if empty n || bool_decide (n ∈ _NAME_CANDIDATES) then _NAME_CANDIDATES
              else n :: _NAME_CANDIDATES
  | None => _NAME_CANDIDATES
  end.
Definition candidates (reported_name : option string) : list (string * string) :=
  n ← name_candidates reported_name; v ← _VERSION_CANDIDATES; [(n, v)].

(** The first candidate that reproduces the separator. *)
Fixpoint solve_among (cs : list (string * string)) (observed : string) (chain_id : Z) (verifying : string)
    : res (option (string * string)) :=
  match cs with
  | [] => Ok None
  | (name, version) :: cs =>
      separator ← _domain_separator_for name version chain_id verifying;
      if (separator =? lower observed)%string then Ok (Some (name, version))
      else solve_among cs observed chain_id verifying
  end.
Definition _solve_domain (observed : string) (chain_id : Z) (verifying : string) (reported_name : option string)
    : res (option (string * string)) :=
  solve_among (candidates reported_name) observed chain_id verifying.

(** ** Reads *)

Section reads.
Context `{Transport W}.
Notation rpc := (prog (RpcClient W)).

(** [None] whatever the call raises *)
Definition _try_call (address selector : string) (block : Z) : rpc (option string) := λ c,
  match eth_call address ("0x" +:+ selector) (BNum block) c with
  | (Ok result, c') => (Ok (Some result), c')
  | (Raise _, c') => (Ok None, c')
  end.

Definition _read_proxy (token slot : string) (block : Z) : rpc (string * string) :=
  word ← call "eth_getStorageAt" [VStr token; VStr slot; VStr (py_hex block)];
  address ← lift (
    word ← or_raise (as_str word) CaptureError "proxy implementation slot returned a malformed word";
    raise_if (negb (re_0xhex 64 word)) CaptureError "proxy implementation slot returned a malformed word" ;;
    raise_if (negb (str_slice 2 26 word =? str_repeat "0" 24)%string) CaptureError
      "proxy implementation slot does not hold an address word" ;;
    let address := "0x" +:+ lower (str_last 40 word) in
    raise_if (address =? "0x" +:+ str_repeat "0" 40)%string CaptureError
      "proxy implementation slot is empty — wrong slot?" ;;
    Ok address);
  code ← get_code address (BNum block);
  sha ← lift (_code_sha256 code "proxy implementation");
  mret (address, sha).

Definition NOT_EXPOSED : string :=
  "DOMAIN_SEPARATOR() is not exposed. The EIP-712 domain cannot be confirmed from the chain; do not calibrate this rail from a block explorer instead.".
Definition NO_CANDIDATE : string :=
  "No candidate name/version reproduces the observed DOMAIN_SEPARATOR. The domain is something else — extend the candidate list rather than attesting to name()/version(), which would be a domain the contract does not use.".
Definition NO_EIP3009 : string :=
  "authorizationState(address,bytes32) did not answer. This token may not implement EIP-3009; psv rails attest to that interface explicitly.".

Definition domain_notes (separator : option string) (solution : option (string * string)) (name : option string)
    : list string :=
  match separator, solution, name with
  | None, _, _ => [NOT_EXPOSED]
  | Some _, None, _ => [NO_CANDIDATE]
  | Some _, Some (n, _), Some name =>
      if (n =? name)%string then []
      else ["The EIP-712 domain name (" +:+ str_repr n +:+ ") differs from name() (" +:+ str_repr name
            +:+ "). This is the case the tool exists for: attest to the domain, not the label."]
  | Some _, Some _, None => []
  end.

(** The answer of [DOMAIN_SEPARATOR()], if it is a hash. *)
Definition separator_of (raw : option string) : option string :=
  match raw with
  | Some s => if re_0xhex 64 s then Some (lower s) else None
  | None => None
  end.

Definition capture (token : string) (expect_chain_id : Z) (block_tag : string) (proxy_slot : option string)
    : rpc Capture :=
  chain_id ← Anvil.chain_id;
  lift (if chain_id =? expect_chain_id then Ok tt
        else
          expected ← str_int expect_chain_id;
          actual ← str_int chain_id;
          raise CaptureError ("chain mismatch: expected " +:+ expected +:+ ", node reports " +:+ actual
            +:+ ". Refusing to attest to a chain that was not requested.")) ;;
  block ← get_block (BTag block_tag) false;
  number ← lift (_quantity (dict_get "number" block) "block number");
  block_hash ← lift (_exact_hash (dict_get "hash" block) "block hash");
  code ← get_code token (BNum number);
  code_sha ← lift (_code_sha256 code "token");
  name_raw ← _try_call token _SEL_NAME number;
  name ← lift (_decode_string (default "" name_raw));
  version_raw ← _try_call token _SEL_VERSION number;
  version ← lift (_decode_string (default "" version_raw));
  decimals_raw ← _try_call token _SEL_DECIMALS number;
  decimals ← lift (raw ← or_raise decimals_raw CaptureError
                            "token does not expose decimals() — not an ERC-20 at this address";
                   _quantity (VStr raw) "decimals");
  separator_raw ← _try_call token _SEL_DOMAIN_SEPARATOR number;
  let separator := separator_of separator_raw in
  solution ← lift (match separator with
                   | Some s => _solve_domain s chain_id token name
                   | None => Ok None
                   end);
  probe ← _try_call token (_SEL_AUTHORIZATION_STATE +:+ str_repeat "0" 128) number;
  let eip3009 := match probe with
                 | Some p => negb (p =? "0x")%string && negb (empty p)
                 | None => false
                 end in
  proxy ← match proxy_slot with
          | Some slot => p ← _read_proxy token slot number; mret (Some p)
          | None => mret None
          end;
  mret {|
    chain_id := chain_id; block_number := number; block_hash := block_hash; token_address := token;
    code_sha256 := code_sha; reported_name := name; reported_version := version; decimals := decimals;
    domain_separator := separator; domain_solution := solution; eip3009_state_readable := eip3009;
    implementation_address := fst <$> proxy; implementation_code_sha256 := snd <$> proxy;
    notes := domain_notes separator solution name ++ (if eip3009 then [] else [NO_EIP3009]) |}.
End reads.
End capture.

(** ** The report *)

Definition opt_repr (o : option string) : string := match o with Some s => str_repr s | None => "None" end.
Definition opt_str (o : option string) : string := default "None" o.
Definition pair_repr (o : option (string * string)) : string :=
  match o with
  | Some (a, b) => "(" +:+ str_repr a +:+ ", " +:+ str_repr b +:+ ")"
  | None => "None"
  end.
Definition bool_str (b : bool) : string := if b then "True" else "False".

(** [f"{n:_}"] of the digits of [n] *)
Fixpoint group3 (n : nat) (s : string) : string :=
  match s with
  | EmptyString => ""
  | String c r =>
      String c ((if (0 <? n)%nat && (n mod 3 =? 0)%nat then "_" else "") +:+ group3 (n - 1) r)
  end.
Definition underscored (s : string) : string := group3 (String.length s - 1) s.

Definition quoted_field (name value : string) : string :=
  "    " +:+ name +:+ "=" +:+ String DOUBLE (value +:+ String DOUBLE ",").

(** A number of more than 4300 digits does not render. *)
Definition render (c : Capture) : res string :=
  chain ← str_int (chain_id c);
  number ← str_int (block_number c);
  decimals ← str_int (decimals c);
  Ok (join (String LF "") (
    ["=== observed ===";
     "chain_id                     " +:+ chain;
     "block                        " +:+ number;
     "block_hash                   " +:+ block_hash c;
     "token                        " +:+ token_address c;
     "name()                       " +:+ opt_repr (reported_name c);
     "version()                    " +:+ opt_repr (reported_version c);
     "decimals()                   " +:+ decimals;
     "DOMAIN_SEPARATOR()           " +:+ opt_str (domain_separator c);
     "EIP-712 domain solved as     " +:+ pair_repr (domain_solution c);
     "EIP-3009 state readable      " +:+ bool_str (eip3009_state_readable c);
     "code sha256                  " +:+ code_sha256 c;
     "implementation               " +:+ opt_str (implementation_address c);
     "implementation code sha256   " +:+ opt_str (implementation_code_sha256 c)]
    ++ match notes c with
       | [] => []
       | notes => [""; "=== read this before calibrating ==="] ++ ((λ n, "- " +:+ n) <$> notes)
       end
    ++ [""; "=== attestation fields ==="]
    ++ match domain_solution c with
       | Some (n, v) => ["    domain_name=" +:+ str_repr n +:+ ","; "    domain_version=" +:+ str_repr v +:+ ","]
       | None => ["    domain_name=<UNRESOLVED>,"; "    domain_version=<UNRESOLVED>,"]
       end
    ++ ["    decimals=" +:+ decimals +:+ ",";
        "    calibrated=True,";
        "    reviewed_block_number=" +:+ underscored number +:+ ",";
        quoted_field "reviewed_block_hash" (block_hash c);
        quoted_field "expected_code_sha256" (code_sha256 c)]
    ++ match implementation_address c with
       | Some a => [quoted_field "implementation_address" a;
                    quoted_field "implementation_code_sha256" (opt_str (implementation_code_sha256 c))]
       | None => []
       end)).

Definition opt_val (o : option string) : pyval := match o with Some s => VStr s | None => VNone end.
Definition payload (c : Capture) : pyval := VDict (dict_of [
  ("chain_id", VInt (chain_id c));
  ("block_number", VInt (block_number c));
  ("block_hash", VStr (block_hash c));
  ("token_address", VStr (token_address c));
  ("code_sha256", VStr (code_sha256 c));
  ("reported_name", opt_val (reported_name c));
  ("reported_version", opt_val (reported_version c));
  ("decimals", VInt (decimals c));
  ("domain_separator", opt_val (domain_separator c));
  ("domain_solution", match domain_solution c with
                      | Some (n, v) => VList [VStr n; VStr v]
                      | None => VNone
                      end);
  ("eip3009_state_readable", VBool (eip3009_state_readable c));
  ("implementation_address", opt_val (implementation_address c));
  ("implementation_code_sha256", opt_val (implementation_code_sha256 c));
  ("notes", VList (VStr <$> notes c))]).

(** ** The command *)

Record arguments := {
  rpc : string;
  token : string;
  expect_chain_id : Z;
  proxy_slot : option string;
  block_tag : string;
  as_json : bool
}.

Definition py_int_arg (v : string) : res Z := or_raise (py_int10 v) ValueError "invalid literal for int()".
Definition options : list (action pydict) := [
  Cli.argument "--rpc" "rpc" (Cli.text Ok) true;
  Cli.argument "--token" "token" (Cli.text Ok) true;
  Cli.argument "--expect-chain-id" "expect_chain_id" (Cli.number py_int_arg) true;
  Cli.argument "--proxy-slot" "proxy_slot" (Cli.text Ok) false;
  Cli.argument "--block-tag" "block_tag" (Cli.text Ok) false;
  Cli.switch "--json" "json" true None].
Definition defaults : pydict := dict_of [
  ("proxy_slot", VNone); ("block_tag", VStr "finalized"); ("json", VBool false)].

Definition arguments_of (ns : pydict) : res arguments :=
  rpc ← Cli.attr as_str "rpc" ns;
  token ← Cli.attr as_str "token" ns;
  expect_chain_id ← Cli.attr as_exact_int "expect_chain_id" ns;
  proxy_slot ← Cli.attr Cli.as_path "proxy_slot" ns;
  block_tag ← Cli.attr as_str "block_tag" ns;
  as_json ← Cli.attr as_bool "json" ns;
  Ok {| rpc := rpc; token := token; expect_chain_id := expect_chain_id; proxy_slot := proxy_slot;
        block_tag := block_tag; as_json := as_json |}.

(** [parser.parse_args] and the two checks; [parser.error] exits with status 2. *)
Definition parse_arguments (argv : list string) : res arguments :=
  try_except (
    '(ns, extra) ← parse_options options argv defaults;
    raise_if extra CliUsageError "unrecognized arguments" ;;
    args ← arguments_of ns;
    raise_if (negb (re_0xhex 40 (token args))) CliUsageError "--token must be an exact EVM address" ;;
    raise_if (match proxy_slot args with Some s => negb (re_0xhex 64 s) | None => false end) CliUsageError
      "--proxy-slot must be an exact bytes32 slot" ;;
    Ok args)
  [CliUsageError] (λ _, raise SystemExit "2").

(** The network and what was printed. *)
Record terminal (W : Type) := { net : W; out : list string; err : list string }.
Arguments Build_terminal {W} _ _ _.
Arguments net {W} _.
Arguments out {W} _.
Arguments err {W} _.

Section command.
Context (keccak : list Z → list Z) {W : Type} (connect : string → Transport W).
Notation io := (prog (terminal W)).

Definition print (line : string) : io unit :=
  modify (λ s, {| net := net s; out := out s ++ [line]; err := err s |}).
Definition print_error (line : string) : io unit :=
  modify (λ s, {| net := net s; out := out s; err := err s ++ [line] |}).

(** Run a fresh client. *)
Definition with_rpc {A} (m : prog (RpcClient W) A) : io A := λ s,
  let '(r, c) := m {| _id := 0; world := net s |} in
  (r, {| net := world c; out := out s; err := err s |}).

Definition failed (status : Z) (e : exn) : io Z :=
  print_error ("capture failed: " +:+ exn_msg e) ;; mret status.

Definition report (args : arguments) (result : Capture) : io Z :=
  text ← lift (if as_json args then dumps (pretty_sorted 2) (payload result) else render result);
  print text ;;
  mret (match domain_solution result with Some _ => 0 | None => 1 end).

(** The inner handlers are those of [try]; printing the result is outside. *)
Definition main (argv : list string) : io Z :=
  args ← lift (parse_arguments argv);
  outcome ←
    catch
      (catch
        (result ← with_rpc (capture (H:=connect (rpc args)) keccak (token args) (expect_chain_id args)
                              (block_tag args) (proxy_slot args));
         mret (inl result))
        [CaptureError] (λ e, code ← failed 2 e; mret (inr code)))
      [RpcError] (λ e, code ← failed 3 e; mret (inr code));
  match outcome with
  | inl result => report args result
  | inr code => mret code
  end.
End command.

(** * Lemmas *)

Section domain_lemmas.
Context (keccak : list Z → list Z).

(** The solver answers a candidate that reproduces the separator, or none does. *)
Lemma solve_among_ok cs observed chain verifying r :
  solve_among keccak cs observed chain verifying = Ok r →
  match r with
  | Some (n, v) => (n, v) ∈ cs ∧ _domain_separator_for keccak n v chain verifying = Ok (lower observed)
  | None => ∀ n v, (n, v) ∈ cs → ∃ s, _domain_separator_for keccak n v chain verifying = Ok s ∧ s ≠ lower observed
  end.
Proof.
  induction cs as [|[n v] cs IH]; cbn [solve_among].
  - intros [= <-]. by intros n v ?%elem_of_nil.
  - intros (s & Hs & H)%res_bind_ok. destruct (String.eqb_spec s (lower observed)) as [->|Hne].
    + injection H as <-. split; [by left|done].
    + specialize (IH H). destruct r as [[n' v']|].
      * destruct IH as [? ?]. split; [by right|done].
      * intros n' v' [[= -> ->]|?]%elem_of_cons; [by exists s|eauto].
Qed.

(** The pairs tried: the known names and the reported one, in both versions. *)
Lemma candidates_are reported n v :
  (n, v) ∈ candidates reported ↔
    v ∈ _VERSION_CANDIDATES ∧ (n ∈ _NAME_CANDIDATES ∨ reported = Some n ∧ n ≠ "").
Proof.
  assert (n ∈ name_candidates reported ↔ n ∈ _NAME_CANDIDATES ∨ reported = Some n ∧ n ≠ "") as <-.
  { unfold name_candidates. destruct reported as [m|]; [|naive_solver].
    unfold empty. destruct (String.eqb_spec m "") as [->|Hm]; cbn [orb]; [naive_solver|].
    case_bool_decide as Hin; [|rewrite elem_of_cons]; naive_solver. }
  unfold candidates. setoid_rewrite list_elem_of_bind. split.
  - intros (n' & (v' & [= <- <-]%list_elem_of_singleton & Hv)%list_elem_of_bind & Hn). done.
  - intros [Hv Hn]. exists n. split; [|done]. apply list_elem_of_bind. exists v. split; [by left|done].
Qed.
End domain_lemmas.

(** ** What a capture is evidence of *)

Section capture_lemmas.
Context (keccak : list Z → list Z) `{Transport W}.
Implicit Types (c : RpcClient W) (r : Capture).

(** The contract answered a read with [raw], at the block of the capture. *)
Definition answers (token selector : string) (block : Z) (raw : string) : Prop :=
  ∃ c1 c2, eth_call token ("0x" +:+ selector) (BNum block) c1 = (Ok raw, c2).
Definition has_code (address : string) (block : Z) (sha : string) : Prop :=
  ∃ c1 c2 code what, get_code address (BNum block) c1 = (Ok code, c2) ∧ _code_sha256 code what = Ok sha.

(** The separator of the capture is the contract's, and its solution reproduces it;
    without a solution, no candidate does. *)
Definition domain_attested r : Prop :=
  match domain_separator r with
  | Some s =>
      (∃ raw, answers (token_address r) (_SEL_DOMAIN_SEPARATOR keccak) (block_number r) raw
         ∧ re_0xhex 64 raw = true ∧ s = lower raw)
      ∧ match domain_solution r with
        | Some (n, v) =>
            (n, v) ∈ candidates (reported_name r)
            ∧ _domain_separator_for keccak n v (chain_id r) (token_address r) = Ok s
        | None => ∀ n v, (n, v) ∈ candidates (reported_name r) →
            ∃ s', _domain_separator_for keccak n v (chain_id r) (token_address r) = Ok s' ∧ s' ≠ s
        end
  | None => domain_solution r = None
  end.

Lemma try_call_ok token selector block c o c' :
  _try_call token selector block c = (Ok o, c') →
  ∀ raw, o = Some raw → answers token selector block raw.
Proof.
  unfold _try_call. destruct (eth_call _ _ _ c) as [[raw|e] c1] eqn:E; intros [= <- <-]; [|done].
  intros raw' [= <-]. by exists c, c1.
Qed.

Lemma separator_of_ok raw s :
  separator_of raw = Some s → ∃ t, raw = Some t ∧ re_0xhex 64 t = true ∧ s = lower t.
Proof.
  unfold separator_of. destruct raw as [t|]; [|done]. destruct (re_0xhex 64 t) eqn:E; [|done].
  intros [= <-]. eauto.
Qed.

Lemma read_proxy_ok token slot block c p c' :
  _read_proxy token slot block c = (Ok p, c') → has_code p.1 block p.2.
Proof.
  unfold _read_proxy. intros (word & c1 & _ & Hr)%prog_bind_ok.
  apply prog_bind_ok in Hr as (a & c2 & _ & Hr). apply prog_bind_ok in Hr as (code & c3 & Hc & Hr).
  apply prog_bind_ok in Hr as (sha & c4 & [Hs ->]%lift_ok & [-> _]%mret_ok).
  by exists c2, c3, code, "proxy implementation".
Qed.

Lemma capture_ok token expected tag slot c r c' :
  capture keccak token expected tag slot c = (Ok r, c') →
  chain_id r = expected ∧ token_address r = token
  ∧ has_code token (block_number r) (code_sha256 r) ∧ domain_attested r
  ∧ match implementation_address r, implementation_code_sha256 r with
    | Some a, Some sha => has_code a (block_number r) sha ∧ slot ≠ None
    | None, None => slot = None
    | _, _ => False
    end.
Proof.
  unfold capture. intros (chain & c1 & _ & Hr)%prog_bind_ok.
  apply prog_bind_ok in Hr as (u1 & c2 & [Hchain ->]%lift_ok & Hr).
  assert (chain = expected) as ->.
  { destruct (Z.eqb_spec chain expected); [done|]. inv_res. }
  apply prog_bind_ok in Hr as (block & c3 & _ & Hr).
  apply prog_bind_ok in Hr as (number & c4 & [_ ->]%lift_ok & Hr).
  apply prog_bind_ok in Hr as (bhash & c4 & [_ ->]%lift_ok & Hr).
  apply prog_bind_ok in Hr as (code & c5 & Hcode & Hr).
  apply prog_bind_ok in Hr as (sha & c6 & [Hsha ->]%lift_ok & Hr).
  apply prog_bind_ok in Hr as (name_raw & c6 & _ & Hr).
  apply prog_bind_ok in Hr as (name & c7 & [_ ->]%lift_ok & Hr).
  apply prog_bind_ok in Hr as (version_raw & c7 & _ & Hr).
  apply prog_bind_ok in Hr as (version & c8 & [_ ->]%lift_ok & Hr).
  apply prog_bind_ok in Hr as (decimals_raw & c8 & _ & Hr).
  apply prog_bind_ok in Hr as (dec & c9 & [_ ->]%lift_ok & Hr).
  apply prog_bind_ok in Hr as (sep_raw & c9 & Hsep & Hr).
  apply prog_bind_ok in Hr as (solution & c10 & [Hsol ->]%lift_ok & Hr).
  apply prog_bind_ok in Hr as (probe & c10 & _ & Hr).
  apply prog_bind_ok in Hr as (proxy & c11 & Hproxy & [-> _]%mret_ok).
  cbn. split_and!; [done|done|by exists c3, c5, code, "token"| |].
  - unfold domain_attested. cbn.
    destruct (separator_of sep_raw) as [s|] eqn:Es; [|by injection Hsol as <-].
    apply separator_of_ok in Es as (raw & -> & Hre & ->). split.
    { exists raw. split; [by eapply try_call_ok|done]. }
    unfold _solve_domain in Hsol. apply solve_among_ok in Hsol. by rewrite !lower_idemp in Hsol.
  - destruct slot as [slot|]; cbn.
    + apply prog_bind_ok in Hproxy as (p & c12 & Hp%read_proxy_ok & [-> _]%mret_ok). by split.
    + apply mret_ok in Hproxy as [-> _]. done.
Qed.
End capture_lemmas.

Notation read_methods :=
  ["eth_chainId"; "eth_getBlockByNumber"; "eth_getCode"; "eth_getStorageAt"; "eth_call"].

Section capture_sends.
Context (keccak : list Z → list Z) `{Transport W}.

Lemma sends_try_call token selector block :
  sends_only (W:=W) read_methods (_try_call token selector block).
Proof.
  intros I HI c Hc. pose proof (sends_eth_call (W:=W) token ("0x" +:+ selector) (BNum block)) as Hs.
  apply (sends_mono _ read_methods) in Hs; [|set_solver]. specialize (Hs I HI c Hc).
  unfold _try_call. by destruct (eth_call _ _ _ c) as [[raw|e] c1].
Qed.

Lemma sends_read_proxy token slot block : sends_only (W:=W) read_methods (_read_proxy token slot block).
Proof.
  unfold _read_proxy. apply sends_bind; [apply sends_call; set_solver|intros word].
  apply sends_bind; [apply sends_lift|intros address].
  apply sends_bind; [apply (sends_mono ["eth_getCode"]); [set_solver|apply sends_get_code]|intros code].
  solve_sends.
Qed.

Lemma sends_capture token expected tag slot :
  sends_only (W:=W) read_methods (capture keccak token expected tag slot).
Proof.
  unfold capture.
  apply sends_bind; [apply (sends_mono ["eth_chainId"]); [set_solver|apply sends_chain_id]|intros chain].
  apply sends_bind; [apply sends_lift|intros _].
  apply sends_bind; [apply (sends_mono ["eth_getBlockByNumber"]); [set_solver|apply sends_get_block]|intros block].
  repeat (apply sends_bind; [first [apply sends_lift | apply sends_try_call
    | apply (sends_mono ["eth_getCode"]); [set_solver|apply sends_get_code]]|intros ?]).
  apply sends_bind; [|intros; apply sends_ret]. destruct slot; [|apply sends_ret].
  apply sends_bind; [apply sends_read_proxy|intros; apply sends_ret].
Qed.
End capture_sends.

(** * Properties *)

Section command_properties.
Context (keccak : list Z → list Z) {W : Type} (connect : string → Transport W).
Implicit Types s : terminal W.

(** The capture that [main] runs. *)
Notation captured args s :=
  (capture (H:=connect (rpc args)) keccak (token args) (expect_chain_id args) (block_tag args) (proxy_slot args)
    {| _id := 0; world := net s |}).

Lemma report_ok args r s code s' :
  report args r s = (Ok code, s') →
  (code = match domain_solution r with Some _ => 0 | None => 1 end)
  ∧ err s' = err s ∧ ∃ text, out s' = out s ++ [text].
Proof.
  unfold report. intros (text & s1 & [_ ->]%lift_ok & H)%prog_bind_ok.
  apply prog_bind_ok in H as (u & s2 & ->%modify_ok & [-> ->]%mret_ok). cbn. eauto.
Qed.

Lemma main_ok argv s code s' :
  main keccak connect argv s = (Ok code, s') →
  ∃ args, parse_arguments argv = Ok args ∧
    match captured args s with
    | (Ok r, c') => report args r {| net := world c'; out := out s; err := err s |} = (Ok code, s')
    | (Raise e, c') => (code = 2 ∨ code = 3)
        ∧ s' = {| net := world c'; out := out s; err := err s ++ ["capture failed: " +:+ exn_msg e] |}
    end.
Proof.
  unfold main. intros (args & s1 & [Hargs ->]%lift_ok & H)%prog_bind_ok. exists args. split; [done|].
  apply prog_bind_ok in H as (outcome & s2 & Ho & H). revert Ho.
  unfold catch, with_rpc, mbind, prog_bind, mret, prog_ret, failed, print_error, modify.
  destruct (captured args s) as [[r|e] c']; cbn.
  - intros [= <- <-]. done.
  - rewrite !orb_false_r. destruct (subclass (exn_cls e) CaptureError); cbn.
    + intros [= <- <-]. injection H as <- <-. split; [by left|done].
    + destruct (subclass (exn_cls e) RpcError); cbn; [|done].
      intros [= <- <-]. injection H as <- <-. split; [by right|done].
Qed.


(** The capture tool is read-only: whatever its arguments and whatever the
    node answers, it sends only five read methods. *)
Theorem capture_only_reads argv (I : W → Prop) :
  (∀ endpoint method params id w, method ∈ read_methods → I w →
     I (transport_send (Transport:=connect endpoint) (rpc_request id method params) w).2) →
  preserves (λ s, I (net s)) (main keccak connect argv).
Proof.
  intros HI. unfold main. apply preserves_bind; [apply preserves_lift|intros args].
  apply preserves_bind.
  - apply preserves_catch; [apply preserves_catch|].
    + apply preserves_bind; [|intros; apply preserves_ret]. intros s Hs. unfold with_rpc.
      pose proof (sends_capture (H:=connect (rpc args)) keccak (token args) (expect_chain_id args)
        (block_tag args) (proxy_slot args) I (HI (rpc args)) {| _id := 0; world := net s |} Hs) as Hc.
      by destruct (captured args s) as [r c].
    + intros e. unfold failed, print_error.
      repeat first [apply preserves_bind; [|intros ?] | apply preserves_modify; done | apply preserves_ret].
    + intros e. unfold failed, print_error.
      repeat first [apply preserves_bind; [|intros ?] | apply preserves_modify; done | apply preserves_ret].
  - intros [r|code]; [|apply preserves_ret]. unfold report, print.
    apply preserves_bind; [apply preserves_lift|intros text].
    repeat first [apply preserves_bind; [|intros ?] | apply preserves_modify; done | apply preserves_ret].
Qed.
End command_properties.

(** ** A capture *)

(** A hash for the witnesses in place of [keccak]. *)
Definition sha_bytes (bs : list Z) : list Z := sha256 bs ≫= be_bytes 4.

Definition sample_token : string := "0x" +:+ str_repeat "a" 40.
Definition sample_separator : string :=
  match _domain_separator_for sha_bytes "USD Coin" "2" 137 sample_token with Ok s => s | Raise _ => "" end.
Definition sample_block : pyval := VDict (dict_of [
  ("number", VStr "0x10"); ("timestamp", VStr "0x1"); ("hash", VStr ("0x" +:+ str_repeat "b" 64));
  ("parentHash", VStr ("0x" +:+ str_repeat "c" 64)); ("transactions", VList [])]).

(** A token that answers the five views; its label is not its domain name. *)
Definition sample_view (separator : pyval) (data : string) : pyval :=
  if (data =? "0x" +:+ _SEL_NAME sha_bytes)%string then
    VStr ("0x" +:+ fmt_064x 32 +:+ fmt_064x 4 +:+ ljust 64 "0" (hex (encode_utf8 "USDC")))
  else if (data =? "0x" +:+ _SEL_DECIMALS sha_bytes)%string then VStr ("0x" +:+ fmt_064x 6)
  else if (data =? "0x" +:+ _SEL_DOMAIN_SEPARATOR sha_bytes)%string then separator
  else VNone.
Definition sample_node (separator : pyval) : string → Transport (list string) := λ _,
  honest_node (λ method params,
    match method, params with
    | "eth_chainId"%string, _ => VStr "0x89"
    | "eth_getBlockByNumber"%string, _ => sample_block
    | "eth_getCode"%string, _ => VStr "0x6001"
    | "eth_call"%string, VDict d :: _ => match dict_get "data" d with VStr s => sample_view separator s | _ => VNone end
    | _, _ => VNone
    end).
Definition sample_argv : list string :=
  ["--rpc"; "http://127.0.0.1:8545"; "--token"; sample_token; "--expect-chain-id"; "137"].
Definition sample_terminal : terminal (list string) := {| net := []; out := []; err := [] |}.


Lemma capture_only_reads_witness :
  "eth_sendRawTransaction" ∉ net (main sha_bytes (sample_node (VStr sample_separator)) sample_argv sample_terminal).2.
Proof.
  apply (capture_only_reads sha_bytes (sample_node (VStr sample_separator)) sample_argv
    (λ log, "eth_sendRawTransaction" ∉ log)).
  - intros endpoint method params id w Hm Hw. unfold transport_send, sample_node, honest_node, rpc_request. cbn.
    rewrite elem_of_app, list_elem_of_singleton. intros [?|<-]; [done|]. revert Hm.
    rewrite !elem_of_cons, elem_of_nil. intros [[=]|[[=]|[[=]|[[=]|[[=]|[]]]]]].
  - cbn. apply not_elem_of_nil.
Defined.

(** * What a status hides *)

(** A block tag is not validated by the parser: the client refuses it with a
    [ValueError] that no handler catches, and the interpreter then exits with
    status 1, the one of an unsolved domain. *)
Example unknown_block_tag_escapes :
  (main sha_bytes (sample_node (VStr sample_separator)) (sample_argv ++ ["--block-tag"; "final"]) sample_terminal).1
  = raise ValueError "invalid block selector".
Proof. vm_compute; reflexivity. Qed.

(** A read that fails for any reason counts as a view the contract does not have. *)
Definition failing_view : Transport unit := λ _ w, (raise RpcError "transport failure", w).
Example outage_reads_as_missing_view :
  (_try_call (H:=failing_view) sample_token (_SEL_DOMAIN_SEPARATOR sha_bytes) 16 {| _id := 0; world := tt |}).1
  = Ok None.
Proof. vm_compute; reflexivity. Qed.
