(* ===== verification/Mcp.v ===== *)
(** * The MCP server ([psv/mcp_server.py])

    The read-only tools that a coding agent calls: the list of rails, the
    reconciliation of one settlement and the drift check.  The endpoint is the
    operator's, never the caller's.

    The theorems: whatever the node, the environment and the arguments, a tool
    answers and never raises; the answer to a reconciliation is the report of a
    settlement that was proved on the configured endpoint, or one of three messages
    that do not depend on any exception of the run, so that no endpoint with its key
    reaches the caller; and without configuration nothing is sent.

    [connect] gives the node behind an endpoint: it is the transport of the client
    that the tools create.  The MCP library, which registers the tools and serves
    them, is not part of the model. *)

From S2P Require Import Prelude PyStr PyText PyVal PyJson PyTime PyArgs.
From S2P Require Import Anvil CliRun.
From S2P Require Chain Rails RailsLive Report Cli.
Local Open Scope Z_scope.

Definition TRANSPORTS : list string := ["stdio"; "sse"; "streamable-http"].
Definition DEFAULT_RPC_TIMEOUT : spec_float := float_of_decimal 10 0.

Definition NO_ENDPOINT : string :=
  "no RPC endpoint configured — set PSV_RPC_URL to the node this deployment verifies against. It is deliberately not a tool argument: a verdict is only worth as much as the chain it was read from.".

Definition _rpc_endpoint (environ : gmap string string) : res string :=
  let endpoint := strip (default "" (environ !! "PSV_RPC_URL")) in
  raise_if (endpoint =? "")%string ConfigurationError NO_ENDPOINT ;;
  Ok endpoint.

(** [float] of the default is itself. *)
Definition _rpc_timeout (environ : gmap string string) : spec_float :=
  match environ !! "PSV_RPC_TIMEOUT" with
  | None => DEFAULT_RPC_TIMEOUT
  | Some text => default DEFAULT_RPC_TIMEOUT (py_float text)
  end.

(** ** Answers *)

(** An object as [_as_dict] sees it: its methods without arguments, whether it is a
    dict, and its text. *)
Record object := {
  method : string → option (res pyval);
  mapping : option pydict;
  text_of : string
}.

(** The result of the method, if there is one and it returns a dict. *)
Definition dict_method (value : object) (name : string) : res (option pydict) :=
  match method value name with
  | Some result => v ← result; Ok (PyVal.as_dict v)
  | None => Ok None
  end.

Definition _as_dict (value : object) : res pydict :=
  by_to_dict ← dict_method value "to_dict";
  match by_to_dict with
  | Some d => Ok d
  | None =>
      by_as_dict ← dict_method value "as_dict";
      match by_as_dict with
      | Some d => Ok d
      | None =>
          decoded ← (match method value "to_json" with
                     | Some result =>
                         v ← result;
                         text ← or_raise (as_str v) TypeError "the JSON object must be str";
                         PyVal.as_dict <$> loads text
                     | None => Ok None
                     end);
          match decoded, mapping value with
          | Some d, _ | None, Some d => Ok d
          | None, None => Ok (dict_of [("result", VStr (text_of value))])
          end
      end
  end.

Definition report_object (r : Report.ReconReport) : object := {|
  method name :=
    if (name =? "to_dict")%string then Some (Ok (VDict (Report.to_dict r)))
    else if (name =? "as_dict")%string then Some (Ok (VDict (Report.as_dict r)))
    else if (name =? "to_json")%string then Some (VStr <$> Report.to_json r)
    else None;
  mapping := None; text_of := "" |}.
Definition drift_object (d : RailsLive.RailDriftCheck) : object := {|
  method name :=
    if (name =? "as_dict")%string then Some (Ok (VDict (RailsLive.drift_as_dict d))) else None;
  mapping := None; text_of := "" |}.

Definition _report_dict (report : object) : res pydict := _as_dict report.

(** [{**d, **e}] *)
Definition dict_update (d e : pydict) : pydict :=
  fold_left (λ d p, match p.1 with KStr k => dict_set k p.2 d | KOther _ => d ++ [p] end) e d.

Definition error_answer (msg : string) : pydict := dict_of [("error", VStr msg)].

(** ** The tools *)

Definition rail_entry (kr : string * Rails.RailConfig) : pyval := VDict (dict_of [
  ("key", VStr kr.1);
  ("label", VStr (Rails.label kr.2));
  ("chain_id", VInt (Rails.rail_chain_id kr.2));
  ("token_address", VStr (Rails.token_address kr.2));
  ("decimals", VInt (Rails.decimals kr.2))]).

(** Rails sort by their keys, which are distinct. *)
Definition list_rails : res pydict :=
  rails ← Rails.KNOWN_RAILS;
  Ok (dict_of [("rails", VList (rail_entry <$> sorted_by (λ a b, String.leb a.1 b.1) rails))]).

Section tools.
Context {W : Type} (connect : string → spec_float → Transport W).
Notation io := (prog (world W)).

(** [log.warning]: a line of the log *)
Definition warning (line : string) : io unit :=
  modify (λ w, set_console (console w) (stdout w) (stderr w ++ [line]) w).

(** [try: m  except Exception: h] *)
Definition catch_exception {A} (m : io A) (h : exn → io A) : io A := λ w,
  match m w with
  | (Raise e, w') => if decide (exn_cls e = SystemExit) then (Raise e, w') else h e w'
  | result => result
  end.

Definition reconcile_settlement (environ : gmap string string) (rail : string)
    (q : RailsLive.live_request) : io pydict :=
  match _rpc_endpoint environ with
  | Raise e => if subclass (exn_cls e) ConfigurationError then mret (error_answer (exn_str e))
               else lift (Raise e)
  | Ok endpoint =>
      match Rails.get_rail rail with
      | Raise e => if subclass (exn_cls e) KeyError then mret (error_answer (exn_str e))
                   else lift (Raise e)
      | Ok rail_config =>
          let client := connect endpoint (_rpc_timeout environ) in
          answer ← catch_exception
            (report ← (token ← lift (RailsLive.token_for_rail rail_config);
                       run_reconcile (H:=client) token rail_config q None);
             mret (inl report))
            (λ e, warning ("reconcile_settlement failed on rail " +:+ rail +:+ ": " +:+ exn_str e) ;;
                  mret (inr (error_answer "reconciliation could not be completed")));
          match answer with
          | inl report => lift (_report_dict (report_object report))
          | inr refusal => mret refusal
          end
      end
  end.

Definition rail_drift (environ : gmap string string) (rail : string) : io pydict :=
  match _rpc_endpoint environ with
  | Raise e => if subclass (exn_cls e) ConfigurationError then mret (error_answer (exn_str e))
               else lift (Raise e)
  | Ok endpoint =>
      match Rails.get_rail rail with
      | Raise e => if subclass (exn_cls e) KeyError then mret (error_answer (exn_str e))
                   else lift (Raise e)
      | Ok rail_config =>
          let client := connect endpoint (_rpc_timeout environ) in
          answer ← catch_exception
            (check ← with_client (RailsLive.check_rail_drift (H:=client) rail_config);
             mret (inl check))
            (λ e, warning ("rail_drift failed on rail " +:+ rail +:+ ": " +:+ exn_str e) ;;
                  mret (inr (error_answer "drift observation could not be completed")));
          match answer with
          | inl check =>
              detail ← lift (_as_dict (drift_object check));
              mret (dict_update (dict_of [("matches", VBool (RailsLive.matches check))]) detail)
          | inr refusal => mret refusal
          end
      end
  end.

(** [serve] is the server's loop. *)
Definition main (serve : string → io unit) (environ : gmap string string) : io unit :=
  let transport := default "stdio" (environ !! "PSV_MCP_TRANSPORT") in
  if bool_decide (transport ∈ TRANSPORTS) then serve transport
  else
    print_error ("unsupported PSV_MCP_TRANSPORT " +:+ transport) ;;
    lift (raise SystemExit "2").
End tools.

(** * Lemmas *)

Lemma endpoint_raises environ :
  match _rpc_endpoint environ with
  | Ok endpoint => endpoint ≠ ""
  | Raise e => e = {| exn_cls := ConfigurationError; exn_msg := NO_ENDPOINT |}
  end.
Proof.
  unfold _rpc_endpoint. set (s := strip _). unfold raise_if.
  destruct (String.eqb_spec s ""); [by subst|done].
Qed.

Lemma unknown_rail k e : Rails.get_rail k = Raise e → exn_cls e = KeyError.
Proof.
  intros H. destruct (Rails.known_rails_built) as (rails & E & _). unfold Rails.get_rail in H.
  rewrite E in H. simpl in H. destruct (od_get k rails); [done|]. by injection H as <-.
Qed.

Lemma report_answer r : _report_dict (report_object r) = Ok (Report.to_dict r).
Proof. done. Qed.
Lemma drift_answer d : _as_dict (drift_object d) = Ok (RailsLive.drift_as_dict d).
Proof. done. Qed.

Section tool_lemmas.
Context {W : Type} (connect : string → spec_float → Transport W).
Implicit Types (w : world W).

Lemma catch_exception_run {A} (m : prog (world W) A) h w :
  throws_in [RpcError; ValueError] m →
  catch_exception m h w = match m w with
                          | (Ok a, w') => (Ok a, w')
                          | (Raise e, w') => h e w'
                          end.
Proof.
  intros Hm. unfold catch_exception. specialize (Hm w). destruct (m w) as [[a|e] w']; [done|].
  specialize (Hm e eq_refl). by destruct (exn_cls e).
Qed.
End tool_lemmas.

(** * Properties *)

Section tool_properties.
Context {W : Type} (connect : string → spec_float → Transport W).
Implicit Types (w : world W).

(** What a reconciliation of the settlement on the configured endpoint finds. *)
Definition live_result (endpoint : string) (timeout : spec_float) (config : Rails.RailConfig)
    (q : RailsLive.live_request) w : res RailsLive.LiveReconciliation :=
  token ← RailsLive.token_for_rail config;
  (RailsLive.reconcile_live (H:=connect endpoint timeout) token config q
     {| _id := 0; Anvil.world := node w |}).1.

(** C20: the reconciliation tool never raises, and its answer is a proof or a fixed
    refusal.  Without an endpoint, or for a rail that is not reviewed, it refuses and
    does nothing; otherwise it answers with the report of the settlement that the live
    reconciliation on the configured endpoint proved, or, when that raised anything
    at all, with one constant message: neither the endpoint nor the text of an
    exception reaches the caller.  Nothing is printed and no file is written. *)
Theorem mcp_answers_are_proved environ rail q w :
  ∃ answer w', reconcile_settlement connect environ rail q w = (Ok answer, w')
    ∧ stdout w' = stdout w ∧ outputs w' = outputs w ∧ log w' = log w
    ∧ match _rpc_endpoint environ, Rails.get_rail rail with
      | Raise _, _ => answer = error_answer NO_ENDPOINT ∧ w' = w
      | Ok _, Raise e => answer = error_answer (exn_str e) ∧ w' = w
      | Ok endpoint, Ok config =>
          match live_result endpoint (_rpc_timeout environ) config q w with
          | Ok lr => ∃ report, reports config q lr report ∧ answer = Report.to_dict report
          | Raise _ => answer = error_answer "reconciliation could not be completed"
          end
      end.
Proof.
  unfold reconcile_settlement. pose proof (endpoint_raises environ) as He.
  destruct (_rpc_endpoint environ) as [endpoint|e]; [|subst e; by eexists _, w].
  destruct (Rails.get_rail rail) as [config|e] eqn:Hr.
  2: { apply unknown_rail in Hr. rewrite Hr. by eexists _, w. }
  unfold live_result. generalize (connect endpoint (_rpc_timeout environ)) as client. intros client. clear Hr.
  assert (throws_in (S:=world W) [RpcError; ValueError] (report ← (token ← lift (RailsLive.token_for_rail config);
            run_reconcile (H:=client) token config q None); mret (inl (B:=pydict) report))) as Ht.
  { apply throws_in_bind; [apply throws_in_bind|auto with py].
    - eapply throws_in_lift, throws_weaken, throws_token_for_rail. apply value_error_rpc_errors.
    - intros token. apply throws_run_reconcile. }
  unfold mbind at 1, prog_bind at 1. rewrite catch_exception_run by exact Ht. clear Ht.
  destruct (RailsLive.token_for_rail config) as [token|e]; [|by eexists _, _].
  pose proof (run_reconcile_run (H:=client) token config q w) as Hrun.
  unfold mbind, prog_bind, res_bind, lift.
  destruct (RailsLive.reconcile_live _ _ _ _) as [lr c], (run_reconcile _ _ _ _ w) as [r w'].
  destruct Hrun as (Hn & (Hl & Ho & Hs & _) & Hr').
  destruct lr as [lr|e], r as [report|e']; try done.
  - exists (Report.to_dict report), w'. split_and!; try done. by exists report.
  - by eexists _, _.
Qed.

(** The drift tool answers with the observation, the verdict lifted to its top, or
    with a fixed refusal. *)
Theorem mcp_drift_answers environ rail w :
  ∃ answer w', rail_drift connect environ rail w = (Ok answer, w')
    ∧ stdout w' = stdout w ∧ outputs w' = outputs w ∧ log w' = log w
    ∧ match _rpc_endpoint environ, Rails.get_rail rail with
      | Raise _, _ => answer = error_answer NO_ENDPOINT ∧ w' = w
      | Ok _, Raise e => answer = error_answer (exn_str e) ∧ w' = w
      | Ok endpoint, Ok config =>
          match (RailsLive.check_rail_drift (H:=connect endpoint (_rpc_timeout environ)) config
                   {| _id := 0; Anvil.world := node w |}).1 with
          | Ok check => dict_get "matches" answer = VBool (RailsLive.matches check)
              ∧ ∀ k, dict_get k answer = dict_get k (RailsLive.drift_as_dict check)
          | Raise _ => answer = error_answer "drift observation could not be completed"
          end
      end.
Proof.
  unfold rail_drift. pose proof (endpoint_raises environ) as He.
  destruct (_rpc_endpoint environ) as [endpoint|e]; [|subst e; by eexists _, w].
  destruct (Rails.get_rail rail) as [config|e] eqn:Hr.
  2: { apply unknown_rail in Hr. rewrite Hr. by eexists _, w. }
  generalize (connect endpoint (_rpc_timeout environ)) as client. intros client. clear Hr.
  assert (throws_in (S:=world W) [RpcError; ValueError]
    (check ← with_client (RailsLive.check_rail_drift (H:=client) config); mret (inl (B:=pydict) check))) as Ht
    by (apply throws_in_bind; [apply throws_in_with_client, RailsLive.throws_drift|auto with py]).
  unfold mbind at 1, prog_bind at 1. rewrite catch_exception_run by exact Ht. clear Ht.
  unfold mbind, prog_bind, with_client.
  destruct (RailsLive.check_rail_drift _ _) as [[check|e] c]; [|by eexists _, _].
  cbv beta iota delta [mret prog_ret]. rewrite drift_answer. unfold lift. eexists _, _. split_and!; [reflexivity|done..|].
  cbn [fst]. split; [reflexivity|]. intros k. destruct (decide (k = "matches")) as [->|Hne]; [reflexivity|].
  unfold dict_get. cbn. by rewrite (proj2 (String.eqb_neq k "matches") Hne).
Qed.
End tool_properties.

(** Every rail that is listed is one that the other tools accept, and none is left
    out. *)
Theorem listed_rails_are_known :
  ∃ entries, list_rails = Ok (dict_of [("rails", VList entries)])
    ∧ Forall (λ entry, ∃ k config, Rails.get_rail k = Ok config ∧ entry = rail_entry (k, config)) entries
    ∧ length entries = length Rails.known_keys.
Proof.
  destruct Rails.known_rails_built as (rails & E & Hkeys & Hall). unfold list_rails. rewrite E. cbn [mbind res_bind].
  eexists. split; [reflexivity|]. split.
  - apply Forall_fmap, Forall_forall. intros [k config] Hin%elem_of_sorted_by. exists k, config. split; [|done].
    unfold Rails.get_rail. rewrite E. simpl. erewrite od_get_in; [done| |exact Hin].
    rewrite Hkeys. apply (bool_decide_eq_true_1 _). reflexivity.
  - rewrite <- Hkeys, !length_fmap. apply Permutation_length, sorted_by_perm.
Qed.
