(* ===== verification/Sut.v ===== *)
(** * The adapter contract of a system under test ([psv/sut.py])

    What the harness sends to a payment system and what it accepts back: the
    strict parsers of quote, pay and status answers, the decoding of an HTTP
    response, and the HTTP adapter with its client's life cycle.  The theorems:
    quotes round-trip through the wire and everything accepted is well formed; a
    pay answer is accepted exactly when it meets the contract, for the order it
    was asked about; order ids are percent-encoded injectively into one path
    segment; and the adapter turns every transport failure into its own error.

    The HTTP library and the JSON tokenizer are parameters: [Http] is any state
    with the three operations of a client, [json] the tree of a document whose
    objects are still lists of members, duplicates included. *)

From S2P Require Import Prelude PyStr PyText PyVal PyJson.
Local Open Scope Z_scope.

Definition _UINT256_MAX : Z := 2 ^ 256 - 1.
Definition _MAX_ORDER_ID_CHARS : Z := 256.
Definition _MAX_TEXT_CHARS : Z := 16384.
Definition _MAX_RESPONSE_BYTES : Z := 1024 * 1024.
Definition SETTLEMENT_PENDING : string := "settlement_pending".

Definition is_nonzero_digit (c : ascii) : bool := between 49 57 c.

(** [[1-9][0-9]*] *)
Definition re_positive (s : string) : bool :=
  match s with
  | String c s => is_nonzero_digit c && str_all is_dec_digit s
  | EmptyString => false
  end.
Definition _AMOUNT_RE (s : string) : bool := (s =? "0")%string || re_positive s.
(** The captured group of [_NETWORK_RE]. *)
Definition _NETWORK_RE (s : string) : option string :=
  if startswith "eip155:" s && re_positive (str_drop 7 s) then Some (str_drop 7 s) else None.

(** ** The domain model *)

Record Quote := {
  order_id : string;
  amount : Z;
  pay_to : string;
  asset : string;
  network : string;
  token_name : string;
  token_version : string
}.

#[export] Instance Quote_eq_dec : EqDecision Quote.
Proof. solve_decision. Defined.

Definition chain_id (q : Quote) : res Z :=
  group ← or_raise (_NETWORK_RE (network q)) SutAdapterError "invalid CAIP-2 EVM network";
  or_raise (py_int10 group) ValueError "Exceeds the limit for integer string conversion".

Inductive PayOutcome := SETTLED | PENDING | UNSETTLED.

#[export] Instance PayOutcome_eq_dec : EqDecision PayOutcome.
Proof. solve_decision. Defined.

Record PayResult := {
  pay_order_id : string;
  pay_submitted_tx : option string;
  settled : bool;
  reason : option string
}.

Definition outcome (r : PayResult) : PayOutcome :=
  if settled r then SETTLED
  else if bool_decide (reason r = Some SETTLEMENT_PENDING)
          && bool_decide (pay_submitted_tx r ≠ None)
  then PENDING else UNSETTLED.

Record Status := {
  status_order_id : string;
  paid : bool;
  resource : option string;
  status_submitted_tx : option string
}.

(** ** Wire values *)

Definition _body_object (body : pyval) (what : string) : res pydict :=
  d ← or_raise (as_dict body) SutAdapterError
        (what +:+ ": response must be a JSON object with string keys");
  raise_if (negb (forallb (λ kv, match kv.1 with KStr _ => true | KOther _ => false end) d))
    SutAdapterError (what +:+ ": response must be a JSON object with string keys") ;;
  Ok d.

Definition _required (body : pydict) (field what : string) : res pyval :=
  or_raise (dict_lookup field body) SutAdapterError (what +:+ ": missing required field " +:+ field).

Definition _wire_string (value : pyval) (field : string) (nullable : bool) : res (option string) :=
  match value, nullable with
  | VNone, true => Ok None
  | _, _ =>
      s ← or_raise (as_str value) SutAdapterError (field +:+ ": expected string");
      raise_if ((s =? "")%string || (_MAX_TEXT_CHARS <? str_len s)) SutAdapterError
        (field +:+ ": string is empty or exceeds the size limit") ;;
      Ok (Some s)
  end.

(** [_wire_string] of a value that may not be null, with the caller's assertion. *)
Definition wire_text (value : pyval) (field : string) : res string :=
  o ← _wire_string value field false;
  or_raise o AssertionError "".

Definition _order_id (value : pyval) (field : string) : res string :=
  order_id ← wire_text value field;
  raise_if ((_MAX_ORDER_ID_CHARS <? str_len order_id) || str_any (λ c, code c <? 32) order_id)
    SutAdapterError (field +:+ ": invalid order id") ;;
  Ok order_id.

Definition _address (value : pyval) (field : string) : res string :=
  match as_str value with
  | Some s => if re_0xhex 40 s then Ok s
              else raise SutAdapterError (field +:+ ": expected exact 20-byte EVM address")
  | None => raise SutAdapterError (field +:+ ": expected exact 20-byte EVM address")
  end.

Definition _transaction_hash (value : pyval) (field : string) : res (option string) :=
  match value with
  | VNone => Ok None
  | VStr s => if re_0xhex 64 s then Ok (Some s)
              else raise SutAdapterError (field +:+ ": expected exact 32-byte transaction hash or null")
  | _ => raise SutAdapterError (field +:+ ": expected exact 32-byte transaction hash or null")
  end.

Definition _boolean (value : pyval) (field : string) : res bool :=
  or_raise (as_bool value) SutAdapterError (field +:+ ": expected boolean").

Definition _positive_uint256 (value : pyval) (field : string) : res Z :=
  s ← or_raise (as_str value) SutAdapterError (field +:+ ": expected canonical decimal uint256 string");
  raise_if (negb (_AMOUNT_RE s)) SutAdapterError
    (field +:+ ": expected canonical decimal uint256 string") ;;
  parsed ← or_raise (py_int10 s) ValueError "Exceeds the limit for integer string conversion";
  raise_if (negb ((1 <=? parsed) && (parsed <=? _UINT256_MAX))) SutAdapterError
    (field +:+ ": expected positive uint256") ;;
  Ok parsed.

Definition _network (value : pyval) : res string :=
  s ← or_raise (as_str value) SutAdapterError "network: expected CAIP-2 string";
  match _NETWORK_RE s with
  | None => raise SutAdapterError "network: expected canonical eip155:<positive uint256>"
  | Some group =>
      id ← or_raise (py_int10 group) ValueError "Exceeds the limit for integer string conversion";
      raise_if (_UINT256_MAX <? id) SutAdapterError
        "network: expected canonical eip155:<positive uint256>" ;;
      Ok s
  end.

Definition _matching_order_id (body : pydict) (what : string) (expected_order_id : option string)
    : res string :=
  value ← _required body "order_id" what;
  result ← _order_id value "order_id";
  raise_if (match expected_order_id with Some e => negb (result =? e)%string | None => false end)
    SutAdapterError (what +:+ ": response order_id does not match request") ;;
  Ok result.

(** ** The parsers *)

Definition parse_quote (body : pyval) : res Quote :=
  parsed ← _body_object body "quote";
  extra_value ← _required parsed "extra" "quote";
  extra ← _body_object extra_value "quote.extra";
  name_value ← _required extra "name" "quote.extra";
  name ← wire_text name_value "extra.name";
  version_value ← _required extra "version" "quote.extra";
  version ← wire_text version_value "extra.version";
  order_id ← _matching_order_id parsed "quote" None;
  amount_value ← _required parsed "amount" "quote";
  amount ← _positive_uint256 amount_value "amount";
  pay_to_value ← _required parsed "payTo" "quote";
  pay_to ← _address pay_to_value "payTo";
  asset_value ← _required parsed "asset" "quote";
  asset ← _address asset_value "asset";
  network_value ← _required parsed "network" "quote";
  network ← _network network_value;
  Ok {| order_id := order_id; amount := amount; pay_to := pay_to; asset := asset;
        network := network; token_name := name; token_version := version |}.

Definition parse_pay (body : pyval) (expected_order_id : option string) : res PayResult :=
  parsed ← _body_object body "pay";
  settled_value ← _required parsed "settled" "pay";
  settled ← _boolean settled_value "settled";
  reason ← _wire_string (dict_get "reason" parsed) "reason" true;
  raise_if (settled && bool_decide (reason = Some SETTLEMENT_PENDING)) SutAdapterError
    "pay: settled answer carries reason settlement_pending" ;;
  order_id ← _matching_order_id parsed "pay" expected_order_id;
  submitted_tx ← _transaction_hash (dict_get "submitted_tx" parsed) "submitted_tx";
  Ok {| pay_order_id := order_id; pay_submitted_tx := submitted_tx; settled := settled;
        reason := reason |}.

Definition parse_status (body : pyval) (expected_order_id : option string) : res Status :=
  parsed ← _body_object body "status";
  resource_value ← _required parsed "resource" "status";
  resource ← _wire_string resource_value "resource" true;
  order_id ← _matching_order_id parsed "status" expected_order_id;
  paid_value ← _required parsed "paid" "status";
  paid ← _boolean paid_value "paid";
  tx_value ← _required parsed "submitted_tx" "status";
  submitted_tx ← _transaction_hash tx_value "submitted_tx";
  Ok {| status_order_id := order_id; paid := paid; resource := resource;
        status_submitted_tx := submitted_tx |}.

(** ** HTTP responses *)

Definition _reject_duplicate_keys (pairs : list (string * pyval)) : res pydict :=
  unique_members (λ key, Exn SutAdapterError ("duplicate JSON field: " +:+ key)) pairs [].

(** An answered request: its body's size, unless reading it raises, and the
    tokenizer's verdict on the text. *)
Record response := { content : res Z; document : res json }.

Definition _decode_response (r : response) (what : string) : res pydict :=
  size ← match content r with
         | Ok n => Ok n
         | Raise e => raise SutAdapterError (what +:+ ": unable to read HTTP response: " +:+ exn_str e)
         end;
  raise_if (_MAX_RESPONSE_BYTES <? size) SutAdapterError (what +:+ ": response exceeds 1048576 bytes") ;;
  value ← match (j ← document r; of_json_with _reject_duplicate_keys j) with
          | Ok v => Ok v
          | Raise e =>
              if subclass (exn_cls e) SutAdapterError then Raise e
              else if subclass (exn_cls e) ValueError
              then raise SutAdapterError (what +:+ ": malformed JSON response: " +:+ exn_msg e)
              else Raise e
          end;
  _body_object value what.

(** ** The path of a request *)

Definition is_unreserved (c : ascii) : bool :=
  between 65 90 c || between 97 122 c || is_dec_digit c
  || (code c =? 95) || (code c =? 46) || (code c =? 45) || (code c =? 126).

Definition upper_hex_char (d : Z) : ascii :=
  if d <? 10 then ascii_of_N (Z.to_N (48 + d)) else ascii_of_N (Z.to_N (55 + d)).
Definition percent (byte : Z) : string :=
  String "%" (String (upper_hex_char (byte / 16)) (String (upper_hex_char (byte mod 16)) "")).

(** [urllib.parse.quote(s, safe="")] *)
Fixpoint quote_path_segment (s : string) : string :=
  match s with
  | EmptyString => ""
  | String c s =>
      (if is_unreserved c then String c "" else str_cat (percent <$> utf8 c))
      +:+ quote_path_segment s
  end.

(** ** The HTTP adapter *)

(** The HTTP library: opening and closing a client, and one request with the
    status check.  Each may raise anything. *)
Class Http (W : Type) := {
  http_open : string → pyval → prog W unit;
  http_request : string → string → option pyval → prog W response;
  http_close : prog W unit
}.

Record HttpSutAdapter (W : Type) := {
  base_url : string;
  timeout : pyval;
  _client : bool;
  network_state : W
}.
Arguments base_url {W} _.
Arguments timeout {W} _.
Arguments _client {W} _.
Arguments network_state {W} _.

Definition set_client {W} (b : bool) (a : HttpSutAdapter W) : HttpSutAdapter W :=
  {| base_url := base_url a; timeout := timeout a; _client := b; network_state := network_state a |}.
Definition set_network {W} (w : W) (a : HttpSutAdapter W) : HttpSutAdapter W :=
  {| base_url := base_url a; timeout := timeout a; _client := _client a; network_state := w |}.

(** [0 < timeout <= 300] for a finite number. *)
Definition timeout_in_range (v : pyval) : bool :=
  match v with
  | VInt n => (0 <? n) && (n <=? 300)
  | VFloat (S754_finite s m e) =>
      negb s && (if 0 <=? e then Zpos m * 2 ^ e <=? 300 else Zpos m <=? 300 * 2 ^ (- e))
  | _ => false
  end.

(** The constructor with [__post_init__]. *)
Definition make_adapter {W} (base_url : string) (timeout : pyval) (w : W) : res (HttpSutAdapter W) :=
  raise_if (negb (timeout_in_range timeout)) ValueError "timeout must be finite and within (0, 300]" ;;
  Ok {| base_url := base_url; timeout := timeout; _client := false; network_state := w |}.

Section adapter.
Context `{Http W}.
Notation adapter := (prog (HttpSutAdapter W)).

Definition with_network {A} (m : prog W A) : adapter A := zoom network_state set_network m.

Definition _http : adapter unit :=
  self ← get_state;
  if _client self then mret tt
  else
    with_network (http_open (base_url self) (timeout self)) ;;
    modify (set_client true).

(** [try: m  except Exception as e: f(e)] where [f] raises. *)
Definition on_exception {A} (f : exn → res A) (m : adapter A) : adapter A := λ s,
  match m s with
  | (Ok a, s') => (Ok a, s')
  | (Raise e, s') => (f e, s')
  end.

Definition close : adapter unit :=
  self ← get_state;
  modify (set_client false) ;;
  if _client self then
    on_exception (λ e, raise SutAdapterError ("unable to close HTTP client: " +:+ exn_str e))
      (with_network http_close)
  else mret tt.

Definition _request (method path : string) (body : option pyval) : adapter pydict :=
  response ← on_exception
    (λ e, if subclass (exn_cls e) SutAdapterError then Raise e
          else raise SutAdapterError (method +:+ " " +:+ path +:+ ": HTTP failure: " +:+ exn_str e))
    (_http ;; with_network (http_request method path body));
  lift (_decode_response response (method +:+ " " +:+ path)).

Definition quote : adapter Quote :=
  body ← _request "POST" "/quote" None;
  lift (parse_quote (VDict body)).

Definition pay (order_id : string) (authorization : pydict) : adapter PayResult :=
  requested ← lift (_order_id (VStr order_id) "requested order_id");
  body ← _request "POST" "/pay"
           (Some (VDict (dict_of [("order_id", VStr requested); ("authorization", VDict authorization)])));
  lift (parse_pay (VDict body) (Some requested)).

Definition status (order_id : string) : adapter Status :=
  requested ← lift (_order_id (VStr order_id) "requested order_id");
  body ← _request "GET" ("/status/" +:+ quote_path_segment requested) None;
  lift (parse_status (VDict body) (Some requested)).
End adapter.

(** * Specification *)

(** A bounded non-empty text. *)
Definition text_ok (s : string) : Prop := s ≠ "" ∧ str_len s ≤ _MAX_TEXT_CHARS.
Definition order_id_ok (s : string) : Prop :=
  text_ok s ∧ str_len s ≤ _MAX_ORDER_ID_CHARS ∧ str_any (λ c, code c <? 32) s = false.
Definition network_ok (s : string) : Prop :=
  ∃ group n, _NETWORK_RE s = Some group ∧ py_int10 group = Some n ∧ n ≤ _UINT256_MAX.

Record quote_wf (q : Quote) : Prop := {
  qwf_order_id : order_id_ok (order_id q);
  qwf_amount : 1 ≤ amount q ≤ _UINT256_MAX;
  qwf_pay_to : re_0xhex 40 (pay_to q) = true;
  qwf_asset : re_0xhex 40 (asset q) = true;
  qwf_network : network_ok (network q);
  qwf_name : text_ok (token_name q);
  qwf_version : text_ok (token_version q)
}.

(** The wire form of a quote. *)
Definition wire_quote (q : Quote) : pyval := VDict (dict_of [
  ("order_id", VStr (order_id q)); ("amount", VStr (str_of_Z (amount q)));
  ("payTo", VStr (pay_to q)); ("asset", VStr (asset q)); ("network", VStr (network q));
  ("extra", VDict (dict_of [("name", VStr (token_name q)); ("version", VStr (token_version q))]))]).

Definition string_keys (d : pydict) : Prop := Forall (λ kv, ∃ k, kv.1 = KStr k) d.
Definition opt_val (o : option string) : pyval := match o with Some s => VStr s | None => VNone end.

(** The contract of a pay answer for order [k]: an absent optional field is a
    null one. *)
Record pay_answer (k : string) (d : pydict) (r : PayResult) : Prop := {
  pa_keys : string_keys d;
  pa_order : dict_lookup "order_id" d = Some (VStr k) ∧ pay_order_id r = k ∧ order_id_ok k;
  pa_settled : dict_lookup "settled" d = Some (VBool (settled r));
  pa_reason : dict_get "reason" d = opt_val (reason r) ∧ (∀ s, reason r = Some s → text_ok s);
  pa_tx : dict_get "submitted_tx" d = opt_val (pay_submitted_tx r)
          ∧ (∀ h, pay_submitted_tx r = Some h → re_0xhex 64 h = true);
  pa_consistent : settled r = true → reason r ≠ Some SETTLEMENT_PENDING
}.

Record status_answer (k : string) (d : pydict) (r : Status) : Prop := {
  sa_keys : string_keys d;
  sa_order : dict_lookup "order_id" d = Some (VStr k) ∧ status_order_id r = k ∧ order_id_ok k;
  sa_paid : dict_lookup "paid" d = Some (VBool (paid r));
  sa_resource : dict_lookup "resource" d = Some (opt_val (resource r))
                ∧ (∀ s, resource r = Some s → text_ok s);
  sa_tx : dict_lookup "submitted_tx" d = Some (opt_val (status_submitted_tx r))
          ∧ (∀ h, status_submitted_tx r = Some h → re_0xhex 64 h = true)
}.

(** * Lemmas *)

(** ** Wire values *)

Lemma body_object_ok v what d : _body_object v what = Ok d ↔ v = VDict d ∧ string_keys d.
Proof.
  unfold _body_object, string_keys. destruct v as [| | | | | |d'|]; simpl; try (by split; [|intros [[=] _]]).
  assert (forallb (λ kv : pykey * pyval, match kv.1 with KStr _ => true | KOther _ => false end) d' = true
          ↔ Forall (λ kv, ∃ k, kv.1 = KStr k) d') as Hk.
  { rewrite forallb_forall, Forall_forall. split; intros Hd x Hx.
    - apply list_elem_of_In in Hx. specialize (Hd x Hx). destruct x as [[k|] v]; [by exists k|done].
    - apply list_elem_of_In in Hx. destruct (Hd x Hx) as [k ->]. done. }
  destruct (forallb _ d') eqn:E; simpl.
  - split; [intros [= <-]; split; [done|by apply Hk]|by intros [[= <-] _]].
  - split; [done|]. by intros [[= <-] ?%Hk].
Qed.

Lemma required_ok d k what v : _required d k what = Ok v ↔ dict_lookup k d = Some v.
Proof. apply or_raise_ok. Qed.

Lemma text_guard s :
  (s =? "")%string || (_MAX_TEXT_CHARS <? str_len s) = false ↔ text_ok s.
Proof. unfold text_ok. rewrite orb_false_iff, String.eqb_neq, Z.ltb_ge. done. Qed.

Lemma wire_text_ok v field s : wire_text v field = Ok s ↔ v = VStr s ∧ text_ok s.
Proof.
  unfold wire_text, _wire_string. split.
  - intros (o & Ho & Hs)%res_bind_ok. apply or_raise_ok in Hs as ->.
    assert (∃ t, as_str v = Some t) as [t Ht].
    { destruct v; simpl in *; try done; by eexists. }
    apply as_str_Some in Ht as ->. simpl in Ho. inv_res.
    match goal with H : _ || _ = false |- _ => by apply text_guard in H end.
  - intros [-> Hs%text_guard]. simpl. by rewrite Hs.
Qed.

Lemma wire_string_null_ok v field o :
  _wire_string v field true = Ok o ↔ v = opt_val o ∧ (∀ s, o = Some s → text_ok s).
Proof.
  unfold _wire_string. destruct v as [| | | |t| | |]; simpl;
    try (split; [done|by intros [E _]; destruct o]).
  - split; [intros [= <-]; split; [done|by intros ? [=]]|]. intros [E _]. by destruct o.
  - split.
    + intros H. inv_res. match goal with H : _ || _ = false |- _ => apply text_guard in H end.
      split; [done|]. by intros ? [= <-].
    + intros [E Hs]. destruct o as [s|]; [|done]. injection E as ->.
      by rewrite (proj2 (text_guard s) (Hs s eq_refl)).
Qed.

Lemma order_id_wire v field s : _order_id v field = Ok s ↔ v = VStr s ∧ order_id_ok s.
Proof.
  unfold _order_id, order_id_ok. split.
  - intros H. inv_res.
    match goal with H : wire_text _ _ = Ok _ |- _ => apply wire_text_ok in H as [-> ?] end.
    match goal with H : _ || _ = false |- _ => apply orb_false_iff in H as [?%Z.ltb_ge ?] end. done.
  - intros (-> & Ht & Hl & Hc). rewrite (proj2 (wire_text_ok (VStr s) field s)) by done. simpl.
    by rewrite Hc, (proj2 (Z.ltb_ge _ _)).
Qed.

Lemma address_wire v field s : _address v field = Ok s ↔ v = VStr s ∧ re_0xhex 40 s = true.
Proof.
  unfold _address. destruct v as [| | | |t| | |]; simpl; try (by split; [|intros [[=] _]]).
  destruct (re_0xhex 40 t) eqn:E; split; [intros [= <-]|intros [[= <-] _]|done|intros [[= <-] ?]]; congruence || done.
Qed.

Lemma transaction_hash_wire v field o :
  _transaction_hash v field = Ok o ↔ v = opt_val o ∧ (∀ h, o = Some h → re_0xhex 64 h = true).
Proof.
  unfold _transaction_hash. destruct v as [| | | |t| | |]; simpl;
    try (split; [done|by intros [E _]; destruct o]).
  - split; [intros [= <-]; split; [done|by intros ? [=]]|]. intros [E _]. by destruct o.
  - destruct (re_0xhex 64 t) eqn:E; split.
    + intros [= <-]. split; [done|]. by intros ? [= <-].
    + intros [Eo _]. destruct o; [|done]. by injection Eo as ->.
    + done.
    + intros [Eo Hh]. destruct o as [h|]; [|done]. injection Eo as ->. by rewrite (Hh h) in E.
Qed.

Lemma boolean_wire v field b : _boolean v field = Ok b ↔ v = VBool b.
Proof. unfold _boolean. rewrite or_raise_ok. apply as_bool_Some. Qed.

Lemma matching_order_id_ok d what k s :
  _matching_order_id d what k = Ok s ↔
    dict_lookup "order_id" d = Some (VStr s) ∧ order_id_ok s ∧ (∀ e, k = Some e → s = e).
Proof.
  unfold _matching_order_id. split.
  - intros H. inv_res. match goal with
    | H : _required _ _ _ = Ok _ |- _ => apply required_ok in H as Hl end.
    match goal with H : _order_id _ _ = Ok _ |- _ => apply order_id_wire in H as [-> ?] end.
    split; [done|]. split; [done|]. intros e ->.
    match goal with H : negb _ = false |- _ => apply negb_false_iff, String.eqb_eq in H end. done.
  - intros (Hl & Hs & Hk). rewrite (proj2 (required_ok _ _ _ _) Hl). simpl.
    rewrite (proj2 (order_id_wire (VStr s) "order_id" s)) by done. simpl.
    destruct k as [e|]; [|done]. by rewrite (Hk e), String.eqb_refl.
Qed.

Lemma re_positive_to_dec v : 0 < v → re_positive (to_dec v) = true.
Proof.
  intros (c & r & -> & Hc & Hr)%to_dec_head. unfold re_positive, is_nonzero_digit. by rewrite Hc, Hr.
Qed.

Lemma uint256_digits v : 0 ≤ v ≤ _UINT256_MAX → Z.of_nat (ndigits 10 v) ≤ INT_MAX_STR_DIGITS.
Proof.
  unfold _UINT256_MAX. intros Hv. assert (ndigits 10 v <= 78)%nat; [|unfold INT_MAX_STR_DIGITS; lia].
  apply ndigits_le; [lia| |lia]. split; [lia|].
  eapply Z.lt_le_trans with (2 ^ 256); [lia|]. by vm_compute.
Qed.

Lemma positive_uint256_wire v field n :
  _positive_uint256 v field = Ok n → 1 ≤ n ≤ _UINT256_MAX.
Proof. unfold _positive_uint256. intros H. inv_res. bool_facts. lia. Qed.

Lemma positive_uint256_str n field :
  1 ≤ n ≤ _UINT256_MAX → _positive_uint256 (VStr (str_of_Z n)) field = Ok n.
Proof.
  intros Hn. unfold _positive_uint256, str_of_Z, _AMOUNT_RE.
  rewrite (proj2 (Z.ltb_ge n 0)) by lia. cbn [as_str or_raise mbind res_bind].
  rewrite re_positive_to_dec, orb_true_r by lia. cbn [negb raise_if mbind res_bind].
  rewrite py_int10_to_dec by (lia || by apply uint256_digits; lia). cbn [or_raise mbind res_bind].
  by rewrite !(proj2 (Z.leb_le _ _)) by lia.
Qed.

Lemma network_wire v s : _network v = Ok s ↔ v = VStr s ∧ network_ok s.
Proof.
  unfold _network, network_ok. destruct v as [| | | |t| | |]; simpl; try (by split; [|intros [[=] _]]).
  destruct (_NETWORK_RE t) as [g|] eqn:E; split.
  - intros H. inv_res. bool_facts. split; [done|]. by exists g, x.
  - intros [[= <-] (g' & n & E' & Hn & Hle)]. assert (g' = g) as -> by congruence. rewrite Hn. simpl.
    by rewrite (proj2 (Z.ltb_ge _ _)).
  - done.
  - intros [[= <-] (g' & n & E' & _)]. congruence.
Qed.

(** ** Answers *)

Lemma parse_pay_ok body k r :
  parse_pay body (Some k) = Ok r ↔ ∃ d, body = VDict d ∧ pay_answer k d r.
Proof.
  unfold parse_pay. split.
  - intros Hp. inv_res.
    repeat match goal with
    | H : _body_object _ _ = Ok _ |- _ => apply body_object_ok in H as [-> ?]
    | H : _required _ _ _ = Ok _ |- _ => apply required_ok in H
    | H : _boolean _ _ = Ok _ |- _ => apply boolean_wire in H as ->
    | H : _wire_string _ _ true = Ok _ |- _ => apply wire_string_null_ok in H
    | H : _matching_order_id _ _ _ = Ok _ |- _ => apply matching_order_id_ok in H as (? & ? & Hk)
    | H : _transaction_hash _ _ = Ok _ |- _ => apply transaction_hash_wire in H
    end.
    pose proof (Hk k eq_refl) as ->. eexists. split; [done|]. split; simpl; try done.
    intros ->. simpl in *. by match goal with H : bool_decide _ = false |- _ =>
      apply bool_decide_eq_false in H end.
  - intros (d & -> & []). destruct pa_order0 as (Ho & <- & Hid).
    rewrite (proj2 (body_object_ok _ _ d)) by done. simpl.
    rewrite (proj2 (required_ok _ _ _ _) pa_settled0). simpl.
    rewrite (proj2 (wire_string_null_ok _ _ (reason r))) by done. simpl.
    assert (settled r && bool_decide (reason r = Some SETTLEMENT_PENDING) = false) as ->.
    { destruct (settled r); [|done]. by apply bool_decide_eq_false_2, pa_consistent0. }
    simpl. rewrite (proj2 (matching_order_id_ok _ _ _ (pay_order_id r))); [simpl|].
    + rewrite (proj2 (transaction_hash_wire _ _ (pay_submitted_tx r))) by done. by destruct r.
    + split; [done|]. split; [done|]. by intros ? [= ->].
Qed.

Lemma parse_status_ok body k r :
  parse_status body (Some k) = Ok r ↔ ∃ d, body = VDict d ∧ status_answer k d r.
Proof.
  unfold parse_status. split.
  - intros Hp. inv_res.
    repeat match goal with
    | H : _body_object _ _ = Ok _ |- _ => apply body_object_ok in H as [-> ?]
    | H : _required _ _ _ = Ok _ |- _ => apply required_ok in H
    | H : _boolean _ _ = Ok _ |- _ => apply boolean_wire in H as ->
    | H : _wire_string _ _ true = Ok _ |- _ => apply wire_string_null_ok in H as [-> ?]
    | H : _matching_order_id _ _ _ = Ok _ |- _ => apply matching_order_id_ok in H as (? & ? & Hk)
    | H : _transaction_hash _ _ = Ok _ |- _ => apply transaction_hash_wire in H as [-> ?]
    end.
    pose proof (Hk k eq_refl) as ->. eexists. split; [done|]. by split.
  - intros (d & -> & []). destruct sa_order0 as (Ho & <- & Hid), sa_resource0 as [Hr Hrt], sa_tx0 as [Ht Htx].
    rewrite (proj2 (body_object_ok _ _ d)) by done. simpl.
    rewrite (proj2 (required_ok _ _ _ _) Hr). simpl.
    rewrite (proj2 (wire_string_null_ok _ _ (resource r))) by done. simpl.
    rewrite (proj2 (matching_order_id_ok _ _ _ (status_order_id r))) by
      (split; [done|]; split; [done|]; by intros ? [= ->]). simpl.
    rewrite (proj2 (required_ok _ _ _ _) sa_paid0). simpl.
    rewrite (proj2 (required_ok _ _ _ _) Ht). simpl.
    rewrite (proj2 (transaction_hash_wire _ _ (status_submitted_tx r))) by done. by destruct r.
Qed.

(** ** Path segments *)

(** The decoder of a path segment. *)
Definition hex_of (c : ascii) : Z := digit_val c.
Fixpoint unquote (s : string) : string :=
  match s with
  | String "%" (String h (String l s)) =>
      let b := 16 * hex_of h + hex_of l in
      if b <? 128 then String (ascii_of_N (Z.to_N b)) (unquote s)
      else match s with
           | String "%" (String h2 (String l2 s)) =>
               let b2 := 16 * hex_of h2 + hex_of l2 in
               String (ascii_of_N (Z.to_N ((b - 192) * 64 + (b2 - 128)))) (unquote s)
           | _ => EmptyString
           end
  | String c s => String c (unquote s)
  | EmptyString => EmptyString
  end.

Lemma unquote_char c t :
  unquote ((if is_unreserved c then String c "" else str_cat (percent <$> utf8 c)) +:+ t)
  = String c (unquote t).
Proof. by destruct c as [[] [] [] [] [] [] [] []]. Qed.

Lemma unquote_quote s : unquote (quote_path_segment s) = s.
Proof. induction s as [|c s IH]; [done|]. cbn [quote_path_segment]. by rewrite unquote_char, IH. Qed.

Definition segment_char (c : ascii) : bool := is_unreserved c || (code c =? 37).

Lemma quote_char_safe c :
  str_all segment_char (if is_unreserved c then String c "" else str_cat (percent <$> utf8 c)) = true.
Proof. by destruct c as [[] [] [] [] [] [] [] []]. Qed.

Lemma quote_segment_safe s : str_all segment_char (quote_path_segment s) = true.
Proof.
  induction s as [|c s IH]; [done|]. cbn [quote_path_segment].
  by rewrite str_all_app, quote_char_safe, IH.
Qed.

(** ** Exceptions of the adapter *)

Lemma throws_body_object v what : throws [ValueError] (_body_object v what).
Proof. unfold _body_object. solve_throws. Qed.
Lemma throws_wire_string v f n : throws [ValueError] (_wire_string v f n).
Proof. unfold _wire_string. destruct v, n; solve_throws. Qed.
Lemma throws_wire_text v f : throws [ValueError] (wire_text v f).
Proof.
  intros e He. destruct v as [| | | |s| | |]; try (injection He as <-; done).
  revert He. unfold wire_text, _wire_string. simpl. destruct (_ || _); simpl; [by intros [= <-]|done].
Qed.
Lemma throws_required d k what : throws [ValueError] (_required d k what).
Proof. unfold _required. solve_throws. Qed.
Lemma throws_order_id v f : throws [ValueError] (_order_id v f).
Proof. unfold _order_id. repeat throws_step. apply throws_wire_text. Qed.
Lemma throws_address_wire v f : throws [ValueError] (_address v f).
Proof. unfold _address. solve_throws. Qed.
Lemma throws_tx_hash v f : throws [ValueError] (_transaction_hash v f).
Proof. unfold _transaction_hash. destruct v; solve_throws. Qed.
Lemma throws_boolean v f : throws [ValueError] (_boolean v f).
Proof. unfold _boolean. solve_throws. Qed.
Lemma throws_positive_uint256 v f : throws [ValueError] (_positive_uint256 v f).
Proof. unfold _positive_uint256. solve_throws. Qed.
Lemma throws_network v : throws [ValueError] (_network v).
Proof. unfold _network. solve_throws. Qed.
#[local] Hint Resolve throws_body_object throws_wire_string throws_wire_text throws_required
  throws_order_id throws_address_wire throws_tx_hash throws_boolean throws_positive_uint256
  throws_network : py.
Lemma throws_matching d what k : throws [ValueError] (_matching_order_id d what k).
Proof. unfold _matching_order_id. solve_throws. Qed.
#[local] Hint Resolve throws_matching : py.
Lemma throws_parse_quote v : throws [ValueError] (parse_quote v).
Proof. unfold parse_quote. solve_throws. Qed.
Lemma throws_parse_pay v k : throws [ValueError] (parse_pay v k).
Proof. unfold parse_pay. solve_throws. Qed.
Lemma throws_parse_status v k : throws [ValueError] (parse_status v k).
Proof. unfold parse_status. solve_throws. Qed.
#[local] Hint Resolve throws_parse_quote throws_parse_pay throws_parse_status : py.

Lemma throws_document j : throws [ValueError] (of_json_with _reject_duplicate_keys j).
Proof. apply throws_of_json_with. intros ps. by apply throws_unique_members. Qed.

(** The tokenizer fails only as [json.loads] documents: with a [ValueError]. *)
Definition tokenizer_ok (r : response) : Prop := throws [ValueError] (document r).

Lemma throws_decode_response r what :
  tokenizer_ok r → throws [ValueError] (_decode_response r what).
Proof.
  intros Hr. unfold _decode_response. apply throws_bind; [destruct (content r); solve_throws|].
  intros n _. apply throws_bind; [solve_throws|intros _ _]. apply throws_bind; [|intros; apply throws_body_object].
  assert (throws [ValueError] (j ← document r; of_json_with _reject_duplicate_keys j)) as Ht
    by (apply throws_bind; [done|intros; apply throws_document]).
  destruct (j ← document r; of_json_with _reject_duplicate_keys j) as [v|e]; [apply throws_ok|]. specialize (Ht e eq_refl).
  simpl in Ht. rewrite orb_false_r in Ht. rewrite Ht.
  destruct (subclass (exn_cls e) SutAdapterError); [|apply throws_raise; done].
  intros e' [= <-]. simpl. by rewrite Ht.
Qed.

Section adapter_lemmas.
Context `{Http W}.

(** Every answer of the HTTP library is tokenized as documented. *)
Definition documented_http : Prop :=
  ∀ method path body (w : W) r w', http_request method path body w = (Ok r, w') → tokenizer_ok r.

Lemma on_exception_raise {A} (f : exn → res A) (m : prog (HttpSutAdapter W) A) a e a' :
  on_exception f m a = (Raise e, a') → ∃ e0, f e0 = Raise e.
Proof.
  unfold on_exception. destruct (m a) as [[x|e0] a0]; [done|]. intros [= Hf _]. by exists e0.
Qed.

Lemma on_exception_ok {A} (f : exn → res A) (m : prog (HttpSutAdapter W) A) a x a' :
  (∀ e, is_ok (f e) = false) → on_exception f m a = (Ok x, a') → m a = (Ok x, a').
Proof.
  intros Hf. unfold on_exception. destruct (m a) as [[y|e0] a0]; [by intros [= -> ->]|].
  intros [= Hx _]. specialize (Hf e0). by rewrite Hx in Hf.
Qed.

Lemma throws_request method path body :
  documented_http → throws_in (S:=HttpSutAdapter W) [ValueError] (_request method path body).
Proof.
  intros Hdoc a e He. destruct (_request method path body a) as [r a'] eqn:E. simpl in He. subst r.
  unfold _request in E. apply prog_bind_raise in E as [E|(r & a1 & E & [Ed _]%lift_run)].
  - apply on_exception_raise in E as [e0 He]. revert He.
    destruct (subclass (exn_cls e0) SutAdapterError) eqn:Es; intros [= <-]; [|done].
    simpl. rewrite orb_false_r. by destruct (exn_cls e0).
  - apply on_exception_ok in E; [|intros e0; by destruct (subclass _ _)].
    apply prog_bind_ok in E as (u & a2 & _ & E).
    unfold with_network, zoom in E. destruct (http_request _ _ _ _) as [r1 w1] eqn:Eh.
    injection E as -> _. eapply throws_decode_response; [|exact Ed]. by eapply Hdoc.
Qed.
End adapter_lemmas.

(** * Properties *)

(** Quotes round-trip: a quote survives the trip through its wire form
    exactly when it is well formed, and the parser accepts well-formed quotes
    only. *)
Theorem quote_roundtrip q :
  (parse_quote (wire_quote q) = Ok q ↔ quote_wf q)
  ∧ (quote_wf q ↔ ∃ body, parse_quote body = Ok q).
Proof.
  assert (∀ body, parse_quote body = Ok q → quote_wf q) as Hwf.
  { intros body Hp. unfold parse_quote in Hp. inv_res.
    repeat match goal with
    | H : wire_text _ _ = Ok _ |- _ => apply wire_text_ok in H as [-> ?]
    | H : _matching_order_id _ _ _ = Ok _ |- _ => apply matching_order_id_ok in H as (_ & ? & _)
    | H : _positive_uint256 _ _ = Ok _ |- _ => apply positive_uint256_wire in H
    | H : _address _ _ = Ok _ |- _ => apply address_wire in H as [_ ?]
    | H : _network _ = Ok _ |- _ => apply network_wire in H as [_ ?]
    end. by split. }
  assert (quote_wf q → parse_quote (wire_quote q) = Ok q) as Hrun.
  { intros []. unfold parse_quote, wire_quote.
    cbn -[wire_text _matching_order_id _positive_uint256 _address _network].
    rewrite (proj2 (wire_text_ok (VStr (token_name q)) _ _)) by done.
    cbn -[wire_text _matching_order_id _positive_uint256 _address _network].
    rewrite (proj2 (wire_text_ok (VStr (token_version q)) _ _)) by done.
    cbn -[_matching_order_id _positive_uint256 _address _network].
    rewrite (proj2 (matching_order_id_ok _ _ None (order_id q))) by done.
    cbn -[_positive_uint256 _address _network]. rewrite positive_uint256_str by done.
    cbn -[_address _network]. rewrite (proj2 (address_wire (VStr (pay_to q)) _ _)) by done.
    cbn -[_address _network]. rewrite (proj2 (address_wire (VStr (asset q)) _ _)) by done.
    cbn -[_network]. rewrite (proj2 (network_wire (VStr (network q)) _)) by done. by destruct q. }
  split; [split; [apply Hwf|done]|]. split; [eauto|]. by intros [body ?%Hwf].
Qed.

(** A pay answer is accepted exactly when it meets the contract of the order
    it was asked about: a JSON object with that order's id, a literal boolean,
    optional texts and hashes in bounds, and no pending reason on a settled
    answer; the result is its reading. *)
Theorem parse_pay_exact body k r :
  parse_pay body (Some k) = Ok r ↔ ∃ d, body = VDict d ∧ pay_answer k d r.
Proof. apply parse_pay_ok. Qed.

(** An order id becomes one path segment of the status request: nothing in
    it is read as a separator, query or fragment, and distinct ids give distinct
    paths, because the segment decodes to the id. *)
Theorem path_segment_roundtrip s :
  str_all segment_char (quote_path_segment s) = true ∧ unquote (quote_path_segment s) = s.
Proof. split; [apply quote_segment_safe|apply unquote_quote]. Qed.


(** An HTTP library that always answers with the same document and counts. *)
Definition constant_http (doc : res json) : Http Z := {|
  http_open := λ _ _, modify (λ n, n + 1);
  http_request := λ _ _ _, mret {| content := Ok 100; document := doc |};
  http_close := lift (raise OSError "reset")
|}.


(** ** Two leaks of the error contract *)

(** A decimal string past the interpreter's digit limit is a plain [ValueError]. *)
Example long_amount_not_adapter_error :
  match _positive_uint256 (VStr (str_repeat "1" 4301)) "amount" with
  | Raise e => exn_cls e | Ok _ => OtherError
  end = ValueError.
Proof. vm_compute. reflexivity. Qed.

(** An exception of the tokenizer outside its documentation, a [RecursionError]
    for deep nesting, passes the translation. *)
Example deep_nesting_not_adapter_error :
  _decode_response {| content := Ok 4000; document := raise RuntimeError "maximum recursion depth" |}
    "POST /quote" = raise RuntimeError "maximum recursion depth".
Proof. reflexivity. Qed.
