(* ===== verification/Tasks.v ===== *)
(** * Tasks: methods that share a state and are interleaved

    A [task] is a method cut at the points where another thread may run: a
    sequence of atomic steps, each a program on the shared state.  [run_task]
    runs it alone; [turn] runs a pool of them in any order, with requests
    arriving and an environment that moves the state.  [safe] is the
    rely-guarantee proof rule: a task keeps the guarantee at each of its steps
    when it may rely on the others keeping it between them. *)

From S2P Require Import Prelude.

(** [Step m k]: run [m] in one piece, go on with [k] and its result. *)
Inductive task (S A : Type) : Type :=
  | Finished (r : res A)
  | Step {B : Type} (m : prog S B) (k : res B → task S A).
Arguments Finished {S A} _.
Arguments Step {S A B} _ _.

Fixpoint task_bind {S A B} (t : task S A) (f : A → task S B) : task S B :=
  match t with
  | Finished (Ok a) => f a
  | Finished (Raise e) => Finished (Raise e)
  | Step m k => Step m (λ r, task_bind (k r) f)
  end.

#[export] Instance task_mret {S} : MRet (task S) := λ A a, Finished (Ok a).
#[export] Instance task_mbind {S} : MBind (task S) := λ A B f t, task_bind t f.

(** One step; a computation that does not look at the state is none. *)
Definition atomic {S A} (m : prog S A) : task S A := Step m Finished.
Definition pure_task {S A} (r : res A) : task S A := Finished r.

(** [try: t  except <cs>: h] *)
Fixpoint catch_task {S A} (t : task S A) (cs : list exn_class) (h : exn → task S A) : task S A :=
  match t with
  | Finished (Ok a) => Finished (Ok a)
  | Finished (Raise e) =>
      if existsb (subclass (exn_cls e)) cs then h e else Finished (Raise e)
  | Step m k => Step m (λ r, catch_task (k r) cs h)
  end.

(** The task with no other thread between its steps. *)
Fixpoint run_task {S A} (t : task S A) : prog S A := λ s,
  match t with
  | Finished r => (r, s)
  | Step m k => let (r, s') := m s in run_task (k r) s'
  end.

(** ** Running alone *)

Section alone.
Context {S : Type}.

(** The task does alone what the program does. *)
Definition runs_as {A} (t : task S A) (m : prog S A) : Prop := ∀ s, run_task t s = m s.

Lemma run_bind {A B} (t : task S A) (f : A → task S B) :
  runs_as (t ≫= f) (run_task t ≫= λ a, run_task (f a)).
Proof.
  unfold mbind, task_mbind, prog_bind. induction t as [[a|e]|C m k IH]; intros s; [done|done|].
  simpl. destruct (m s) as [r s']. by rewrite IH.
Qed.

Lemma runs_as_bind {A B} (t : task S A) (f : A → task S B) m g :
  runs_as t m → (∀ a, runs_as (f a) (g a)) → runs_as (t ≫= f) (m ≫= g).
Proof.
  intros Ht Hf s. rewrite run_bind. unfold mbind, prog_bind. rewrite Ht.
  destruct (m s) as [[a|e] s']; [apply Hf|done].
Qed.

Lemma runs_as_catch {A} (t : task S A) cs h m g :
  runs_as t m → (∀ e, runs_as (h e) (g e)) → runs_as (catch_task t cs h) (catch m cs g).
Proof.
  intros Ht Hh s. unfold catch. rewrite <- Ht. clear Ht m. revert s.
  induction t as [[a|e]|C m k IH]; intros s; simpl; [done|destruct (existsb _ _); [apply Hh|done]|].
  destruct (m s) as [r s']. by rewrite IH.
Qed.

Lemma runs_as_ret {A} (a : A) : runs_as (mret a) (mret a).
Proof. done. Qed.
Lemma runs_as_pure {A} (r : res A) : runs_as (pure_task r) (lift r).
Proof. done. Qed.
Lemma runs_as_atomic {A} (m : prog S A) : runs_as (atomic m) m.
Proof. intros s. simpl. by destruct (m s). Qed.
End alone.

(** Follow the structure of a task and of the program it mirrors. *)
Ltac runs_as :=
  lazymatch goal with
  | |- runs_as (_ ≫= _) _ => apply runs_as_bind; [|intros ?]
  | |- runs_as (catch_task _ _ _) _ => apply runs_as_catch; [|intros ?]
  | |- runs_as (atomic _) _ => apply runs_as_atomic
  | |- runs_as (pure_task _) _ => apply runs_as_pure
  | |- runs_as (mret _) _ => apply runs_as_ret
  | |- runs_as (match ?x with _ => _ end) _ => destruct x
  end.

(** ** Pools *)

(** The shared state and the requests being served, in order of arrival. *)
Notation pool S A := (S * list (task S A))%type.

(** One turn: a request arrives; a thread runs to its next step; or something
    else, a request served in one piece or the world, moves the state. *)
Inductive turn {S A} (accepted : task S A → Prop) (moves : S → S → Prop) :
    pool S A → pool S A → Prop :=
  | turn_accept s ts t : accepted t → turn accepted moves (s, ts) (s, ts ++ [t])
  | turn_resume s ts i B (m : prog S B) k r s' :
      ts !! i = Some (Step m k) → m s = (r, s') →
      turn accepted moves (s, ts) (s', <[i := k r]> ts)
  | turn_move s ts s' : moves s s' → turn accepted moves (s, ts) (s', ts).

(** The turn of thread [i], executable. *)
Definition resume {S A} (i : nat) (p : pool S A) : pool S A :=
  let (s, ts) := p in
  match ts !! i with
  | Some (Step m k) => let (r, s') := m s in (s', <[i := k r]> ts)
  | _ => (s, ts)
  end.

(** The threads take turns as the schedule says. *)
Definition follow {S A} (schedule : list nat) (p : pool S A) : pool S A :=
  foldl (λ p i, resume i p) p schedule.

Section pools.
Context {S A : Type} (accepted : task S A → Prop) (moves : S → S → Prop).

Lemma resume_turn i (p : pool S A) : rtc (turn accepted moves) p (resume i p).
Proof.
  destruct p as [s ts]. unfold resume. destruct (ts !! i) as [[r|B m k]|] eqn:Hi; [done| |done].
  destruct (m s) as [r s'] eqn:E. apply rtc_once. by eapply turn_resume.
Qed.

Lemma follow_turns schedule (p : pool S A) : rtc (turn accepted moves) p (follow schedule p).
Proof.
  revert p. induction schedule as [|i l IH]; intros p; simpl; [done|].
  etrans; [apply resume_turn|apply IH].
Qed.

(** A thread that is alone does what its task does. *)
Lemma alone (t : task S A) s r s' :
  run_task t s = (r, s') → rtc (turn accepted moves) (s, [t]) (s', [Finished r]).
Proof.
  revert s. induction t as [r0|B m k IH]; intros s E; simpl in E; [by injection E as -> ->|].
  destruct (m s) as [r1 s1] eqn:Em. eapply rtc_l; [|by apply (IH r1)].
  apply (turn_resume accepted moves s [Step m k] 0 B m k r1 s1); done.
Qed.
End pools.

(** ** Rely and guarantee *)

Section rely_guarantee.
(** [ok]: the invariant of the shared state; [guar s s']: what a step from [s]
    to [s'] may do; [seen]: the states of the run at hand. *)
Context {S : Type} (ok seen : S → Prop) (guar : S → S → Prop) `{!PreOrder guar}.

Definition stable (P : S → Prop) : Prop := ∀ s s', guar s s' → P s → P s'.

(** Whenever the task is given the turn, at a state the others have brought
    about from [s], its step keeps the guarantee and the invariant; and what it
    returns satisfies [Q]. *)
Fixpoint safe {A} (Q : A → S → Prop) (t : task S A) (s : S) : Prop :=
  match t with
  | Finished (Ok a) => Q a s
  | Finished (Raise _) => True
  | Step m k => ∀ s1, guar s s1 → ok s1 →
      guar s1 (m s1).2 ∧ ok (m s1).2 ∧ (seen (m s1).2 → safe Q (k (m s1).1) (m s1).2)
  end.

Lemma safe_stable {A} (Q : A → S → Prop) t : (∀ a, stable (Q a)) → stable (safe Q t).
Proof.
  intros HQ s s' Hs. destruct t as [[a|e]|B m k]; simpl; [by apply HQ|done|].
  intros Ht s1 H1. apply Ht. by trans s'.
Qed.

Lemma safe_bind {A B} (P : A → S → Prop) (Q : B → S → Prop) t f s :
  safe P t s → (∀ a s', guar s s' → P a s' → safe Q (f a) s') → safe Q (t ≫= f) s.
Proof.
  unfold mbind, task_mbind. revert s.
  induction t as [[a|e]|C m k IH]; intros s Ht Hf; simpl in *; [by apply Hf|done|].
  intros s1 H1 Hok. destruct (Ht s1 H1 Hok) as (Hg & Hok' & Hk). split; [done|]. split; [done|].
  intros Hseen. apply IH; [by apply Hk|]. intros a s' H'. apply Hf. trans s1; [done|]. by etrans.
Qed.

Lemma safe_catch {A} (Q : A → S → Prop) t cs h s :
  safe Q t s → (∀ e s', guar s s' → safe Q (h e) s') → safe Q (catch_task t cs h) s.
Proof.
  revert s. induction t as [[a|e]|C m k IH]; intros s Ht Hf; simpl in *; [done| |].
  { destruct (existsb _ _); [by apply Hf|done]. }
  intros s1 H1 Hok. destruct (Ht s1 H1 Hok) as (Hg & Hok' & Hk). split; [done|]. split; [done|].
  intros Hseen. apply IH; [by apply Hk|]. intros e s' H'. apply Hf. trans s1; [done|]. by etrans.
Qed.

Lemma safe_atomic {A} (Q : A → S → Prop) m s :
  (∀ s1 r s2, guar s s1 → ok s1 → m s1 = (r, s2) →
     guar s1 s2 ∧ ok s2 ∧ (seen s2 → ∀ a, r = Ok a → Q a s2)) →
  safe Q (atomic m) s.
Proof.
  intros Hm s1 H1 Hok. destruct (m s1) as [r s2] eqn:E.
  destruct (Hm s1 r s2 H1 Hok E) as (Hg & Hok' & Hr). split; [done|]. split; [done|].
  intros Hseen. simpl. destruct r as [a|e]; [by apply Hr|done].
Qed.

Lemma safe_pure {A} (Q : A → S → Prop) r s : (∀ a, r = Ok a → Q a s) → safe Q (pure_task r) s.
Proof. destruct r as [a|e]; [by intros H; apply H|done]. Qed.

Lemma safe_ret {A} (Q : A → S → Prop) a s : Q a s → safe Q (mret a) s.
Proof. done. Qed.

Lemma safe_weaken {A} (P Q : A → S → Prop) t s :
  (∀ a s', P a s' → Q a s') → safe P t s → safe Q t s.
Proof.
  intros HPQ. revert s. induction t as [[a|e]|C m k IH]; intros s Ht; simpl in *; [by apply HPQ|done|].
  intros s1 H1 Hok. destruct (Ht s1 H1 Hok) as (? & ? & ?). auto.
Qed.
End rely_guarantee.

(** Every state of a pool of safe tasks satisfies the invariant and is reached
    within the guarantee, whatever the interleaving. *)
Lemma pool_safe {S A} (accepted : task S A → Prop) (moves : S → S → Prop) (ok : S → Prop)
    (guar : S → S → Prop) `{!PreOrder guar} (Q : A → S → Prop) s0 :
  let seen s := ∃ ts, rtc (turn accepted moves) (s0, []) (s, ts) in
  (∀ a, stable guar (Q a)) →
  (∀ t s, accepted t → ok s → safe ok seen guar Q t s) →
  (∀ s s', ok s → moves s s' → guar s s' ∧ ok s') →
  ok s0 →
  ∀ s ts, rtc (turn accepted moves) (s0, []) (s, ts) →
  guar s0 s ∧ ok s ∧ Forall (λ t, safe ok seen guar Q t s) ts.
Proof.
  intros seen HQ Hacc Hmov Hs0.
  enough (∀ p, rtc (turn accepted moves) (s0, []) p →
            guar s0 p.1 ∧ ok p.1 ∧ Forall (λ t, safe ok seen guar Q t p.1) p.2) as Hp
    by (intros s ts Hr; exact (Hp (s, ts) Hr)).
  apply (rtc_ind_r _ (s0, [])); [by split_and!|].
  intros p p' Hr Ht (Hg & Hok & Hts).
  pose proof (rtc_r _ _ _ Hr Ht) as Hr'.
  assert (∀ s' : S, guar p.1 s' → Forall (λ t, safe ok seen guar Q t s') p.2) as Hst.
  { intros s' Hs'. eapply Forall_impl; [exact Hts|]. intros t. by eapply safe_stable. }
  destruct Ht as [s ts t Ht|s ts i B m k r s' Hi E|s ts s' Hm]; simpl in *.
  - split; [done|]. split; [done|]. apply Forall_app. split; [done|]. by repeat constructor; apply Hacc.
  - destruct (Forall_lookup_1 _ _ _ _ Hts Hi s (reflexivity s) Hok) as (Hg' & Hok' & Hk).
    rewrite E in Hg', Hok', Hk. simpl in *. split; [by trans s|]. split; [done|].
    apply Forall_insert; [by apply Hst|]. apply Hk. by eexists.
  - destruct (Hmov s s' Hok Hm) as [Hg' Hok']. split; [by trans s|]. split; [done|]. by apply Hst.
Qed.
