(* ===== verification/ReferenceSut.v ===== *)
(** * The reference system under test ([psv/reference_sut/server.py])

    A miniature payment system: quotes, payments through a facilitator, event
    confirmation, backup, restore and reconciliation.  Its state is the ledger
    of orders and the RPC client; each method is a program on that state, and a
    step relation runs them in any order with any answers of the node.  The
    theorems: a ledger invariant of every reachable state, exceptions included;
    idempotency and the pending retry; a payment is credited only on the
    confirmer's evidence; nothing is submitted off the allow list; and a
    reconciliation that heals the ledger leaves nothing to reconcile.

    Time ([time.time()]), fresh ids ([secrets.token_hex]) and the node's answers
    are inputs.  The signing library is a parameter.  Each HTTP request is one
    atomic step here; [Concurrent] interleaves payments. *)

From S2P Require Import Prelude PyStr PyVal Anvil Chain.
From S2P Require Divergence Reconciliation Confirmer Safety QuoteOption PySha256 Sut.
Local Open Scope Z_scope.

(** ** Conversions *)

(** [int(v, 16)] *)
Definition py_int_16 (v : pyval) : res Z :=
  match v with
  | VStr s => or_raise (py_int16 s) ValueError "invalid literal for int() with base 16"
  | _ => raise TypeError "int() can't convert non-string with explicit base"
  end.

(** ** State *)

Record SutConfig := {
  token_address : string;
  merchant_address : string;
  chain_id : Z;
  token_name : string;
  token_version : string;
  price : Z;
  gas : Z;
  reconciliation_enabled : bool;
  quote_ttl : Z;
  reprice_on_pay : bool;
  reprice_tolerance : QuoteOption.tolerance;
  idempotent_pay : bool;
  confirm_without_waiting : bool;
  receipt_tries : Z
}.

Record Order := {
  order_id : string;
  amount : Z;
  expires_at : Z;
  quoted_fair_price : Z;
  nonce_seen : option string;
  paid : bool;
  submitted_tx : option string;
  resource : option string;
  created_block : Z;
  recovered : bool;
  settle_attempts : Z;
  pending_tx : option string;
  pending_authorization : option pydict;
  settlement_identity : option Reconciliation.SettlementIdentity
}.

(** The field assignments of the methods. *)
Definition set_attempt (nonce : string) (o : Order) : Order :=
  {| order_id := order_id o; amount := amount o; expires_at := expires_at o;
     quoted_fair_price := quoted_fair_price o; nonce_seen := Some nonce; paid := paid o;
     submitted_tx := submitted_tx o; resource := resource o; created_block := created_block o;
     recovered := recovered o; settle_attempts := settle_attempts o + 1;
     pending_tx := pending_tx o; pending_authorization := pending_authorization o;
     settlement_identity := settlement_identity o |}.
Definition set_submitted (tx : string) (o : Order) : Order :=
  {| order_id := order_id o; amount := amount o; expires_at := expires_at o;
     quoted_fair_price := quoted_fair_price o; nonce_seen := nonce_seen o; paid := paid o;
     submitted_tx := Some tx; resource := resource o; created_block := created_block o;
     recovered := recovered o; settle_attempts := settle_attempts o;
     pending_tx := pending_tx o; pending_authorization := pending_authorization o;
     settlement_identity := settlement_identity o |}.
Definition set_pending (pending : option (string * pydict)) (o : Order) : Order :=
  {| order_id := order_id o; amount := amount o; expires_at := expires_at o;
     quoted_fair_price := quoted_fair_price o; nonce_seen := nonce_seen o; paid := paid o;
     submitted_tx := submitted_tx o; resource := resource o; created_block := created_block o;
     recovered := recovered o; settle_attempts := settle_attempts o;
     pending_tx := fst <$> pending; pending_authorization := snd <$> pending;
     settlement_identity := settlement_identity o |}.
Definition set_paid (content : string) (o : Order) : Order :=
  {| order_id := order_id o; amount := amount o; expires_at := expires_at o;
     quoted_fair_price := quoted_fair_price o; nonce_seen := nonce_seen o; paid := true;
     submitted_tx := submitted_tx o; resource := Some content; created_block := created_block o;
     recovered := recovered o; settle_attempts := settle_attempts o;
     pending_tx := pending_tx o; pending_authorization := pending_authorization o;
     settlement_identity := settlement_identity o |}.
Definition set_identity (i : Reconciliation.SettlementIdentity) (o : Order) : Order :=
  {| order_id := order_id o; amount := amount o; expires_at := expires_at o;
     quoted_fair_price := quoted_fair_price o; nonce_seen := nonce_seen o; paid := paid o;
     submitted_tx := submitted_tx o; resource := resource o; created_block := created_block o;
     recovered := recovered o; settle_attempts := settle_attempts o;
     pending_tx := pending_tx o; pending_authorization := pending_authorization o;
     settlement_identity := Some i |}.

Record ReferenceSut (W : Type) := {
  config : SutConfig;
  orders : gmap string Order;
  rpc : RpcClient W;
  fair_price : Z
}.
Arguments config {W} _.
Arguments orders {W} _.
Arguments rpc {W} _.
Arguments fair_price {W} _.

Definition set_orders {W} (os : gmap string Order) (s : ReferenceSut W) : ReferenceSut W :=
  {| config := config s; orders := os; rpc := rpc s; fair_price := fair_price s |}.
Definition set_rpc {W} (c : RpcClient W) (s : ReferenceSut W) : ReferenceSut W :=
  {| config := config s; orders := orders s; rpc := c; fair_price := fair_price s |}.

(** The transaction handed to the signer. *)
Record settle_tx := {
  tx_to : string; tx_data : string; tx_value : Z; tx_gas : Z; tx_gas_price : Z; tx_nonce : Z;
  tx_chain_id : Z
}.

(** The wallet library: the facilitator's address and its signature. *)
Record Wallet := {
  account_address : string;
  sign_transaction : settle_tx → res string;
  (** [str(v)] of a decoded value that is not a string *)
  str_other : pyval → string
}.

Definition py_str (w : Wallet) (v : pyval) : string :=
  match v with VStr s => s | _ => str_other w v end.

#[local] Existing Instances Safety.rpc_client_safety Reconciliation.LedgerEntry_eq_dec
  Reconciliation.LedgerEntry_countable Reconciliation.SettlementIdentity_eq_dec
  Reconciliation.SettlementIdentity_countable.

Section methods.
Context `{Transport W} (wallet : Wallet).
Notation sut := (prog (ReferenceSut W)).

(** Run a method of the RPC client. *)
Definition with_rpc {A} (m : prog (RpcClient W) A) : sut A := zoom rpc set_rpc m.

(** Assign to fields of the order object held under [k]. *)
Definition on_order (k : string) (f : Order → Order) : sut unit :=
  modify (λ s, set_orders (alter f k (orders s)) s).

(** The confirmer wired to [eth_getLogs]. *)
Definition confirmer : Confirmer.EventWatchingConfirmer (RpcClient W) := {|
  Confirmer.fetch_logs := λ addr topics from_block,
    get_logs addr topics (BNum from_block) (BTag "latest");
  Confirmer.watched_topic0 := Confirmer.TOPIC_TRANSFER |}.

(** The order a quote creates. *)
Definition new_order (cfg : SutConfig) (order_id : string) (now fair_price created_block : Z)
    : Order := {|
  order_id := order_id; amount := price cfg; expires_at := now + quote_ttl cfg;
  quoted_fair_price := fair_price; nonce_seen := None; paid := false; submitted_tx := None;
  resource := None; created_block := created_block; recovered := false; settle_attempts := 0;
  pending_tx := None; pending_authorization := None; settlement_identity := None |}.

Definition quote (token_hex : string) (now : Z) : sut pydict :=
  let order_id := "ord_" +:+ token_hex in
  self ← get_state;
  created ← with_rpc block_number;
  let order := new_order (config self) order_id now (fair_price self) created in
  modify (λ s, set_orders (<[order_id := order]> (orders s)) s) ;;
  mret (dict_of [
    ("order_id", VStr order_id); ("amount", VStr (str_of_Z (amount order)));
    ("payTo", VStr (merchant_address (config self)));
    ("asset", VStr (token_address (config self)));
    ("network", VStr ("eip155:" +:+ str_of_Z (chain_id (config self))));
    ("extra", VDict (dict_of [("name", VStr (token_name (config self)));
                              ("version", VStr (token_version (config self)))]));
    ("expires_at", VInt (expires_at order))]).

Definition _submit_settlement (authorization : pydict) : sut string :=
  self ← get_state;
  let cfg := config self in
  from ← lift (dict_item "from" authorization);
  to ← lift (dict_item "to" authorization);
  value ← lift (dict_item "value" authorization);
  with_rpc (Safety.require_safe_submission {|
    Safety.configured_chain_id := chain_id cfg;
    Safety.token_address := token_address cfg;
    Safety.payer_address := py_str wallet from;
    Safety.payee_address := merchant_address cfg;
    Safety.authorization_to := py_str wallet to;
    Safety.authorization_amount := value;
    Safety.expected_amount := price cfg |}) ;;
  calldata ← lift (
    value_int ← py_int value;
    after ← dict_item "validAfter" authorization; valid_after ← py_int after;
    before ← dict_item "validBefore" authorization; valid_before ← py_int before;
    nonce ← dict_item "nonce" authorization;
    signature ← dict_item "signature" authorization;
    settle_calldata (py_str wallet from) (py_str wallet to) value_int valid_after valid_before
      (py_str wallet nonce) (py_str wallet signature));
  count ← with_rpc (call "eth_getTransactionCount"
                      [VStr (account_address wallet); VStr "pending"]);
  nonce ← lift (py_int_16 count);
  gas_price ← catch (raw ← with_rpc (call "eth_gasPrice" []); lift (py_int_16 raw))
                [RpcError; TypeError; ValueError] (λ _, mret 1000000000);
  signed ← lift (sign_transaction wallet {|
    tx_to := token_address cfg; tx_data := calldata; tx_value := 0; tx_gas := gas cfg;
    tx_gas_price := gas_price; tx_nonce := nonce; tx_chain_id := chain_id cfg |});
  with_rpc (send_raw_transaction signed).

Definition settled_response (order_id tx : string) (settled : bool) : pydict :=
  dict_of [("order_id", VStr order_id); ("submitted_tx", VStr tx); ("settled", VBool settled)].
Definition pending_response (order_id tx : string) : pydict :=
  dict_of [("order_id", VStr order_id); ("submitted_tx", VStr tx); ("settled", VBool false);
           ("reason", VStr Sut.SETTLEMENT_PENDING)].
Definition refused_response (order_id reason : string) : pydict :=
  dict_of [("order_id", VStr order_id); ("settled", VBool false); ("reason", VStr reason)].

Definition opt_str (o : option string) : pyval :=
  match o with Some s => VStr s | None => VNone end.
Definition cached_response (order_id : string) (submitted_tx : option string) : pydict :=
  dict_of [("order_id", VStr order_id); ("settled", VBool true);
           ("submitted_tx", opt_str submitted_tx); ("idempotent", VBool true)].

(** The receipt of the broadcast: [None] when the system does not wait;
    [inr tt] when waiting ended in an [RpcError]. *)
Definition await_receipt (cfg : SutConfig) (tx_hash : string) : sut (option pydict + unit) :=
  if confirm_without_waiting cfg then mret (inl None)
  else catch (r ← with_rpc (wait_for_receipt tx_hash (receipt_tries cfg) (VInt 0));
              mret (inl (Some r)))
         [RpcError] (λ _, mret (inr tt)).

(** The arguments of the confirmer call. *)
Definition confirm_query (cfg : SutConfig) (order : Order) (from nonce tx_hash : string)
    : Confirmer.settlement_query := {|
  Confirmer.token := token_address cfg;
  Confirmer.payer := from;
  Confirmer.payee := merchant_address cfg;
  Confirmer.expected_value := amount order;
  Confirmer.authorization_nonce := nonce;
  Confirmer.submitted_tx := tx_hash |}.

Definition _confirm (order : Order) (authorization : pydict) (tx_hash : string) : sut pydict :=
  let k := order_id order in
  self ← get_state;
  let cfg := config self in
  outcome ← await_receipt cfg tx_hash;
  match outcome with
  | inr _ =>
      on_order k (set_pending (Some (tx_hash, authorization))) ;;
      mret (pending_response k tx_hash)
  | inl receipt =>
      on_order k (set_pending None) ;;
      from ← lift (dict_item "from" authorization);
      nonce ← lift (dict_item "nonce" authorization);
      index ← with_rpc (Confirmer.settlement_log_index confirmer
                          (confirm_query cfg order (py_str wallet from) (py_str wallet nonce) tx_hash)
                          receipt (created_block order));
      match index with
      | Some log_index =>
          on_order k (set_paid ("premium-content::" +:+ k)) ;;
          identity ← lift (Reconciliation.make_identity (chain_id cfg) (token_address cfg) tx_hash
                             log_index);
          on_order k (set_identity identity) ;;
          mret (settled_response k tx_hash true)
      | None => mret (settled_response k tx_hash false)
      end
  end.

Definition pay (oid : string) (authorization : pydict) (now : Z) : sut pydict :=
  self ← get_state;
  let cfg := config self in
  match orders self !! oid with
  | None => mret (refused_response oid "unknown_order")
  | Some order =>
      if paid order && idempotent_pay cfg then
        mret (cached_response oid (submitted_tx order))
      else
        match pending_tx order, pending_authorization order, idempotent_pay cfg with
        | Some tx, Some auth, true => _confirm order auth tx
        | _, _, _ =>
            if expires_at order <? now then mret (refused_response oid "quote_expired")
            else
              stale ← lift (if reprice_on_pay cfg
                            then QuoteOption.quote_is_stale (amount order) (fair_price self)
                                   (reprice_tolerance cfg)
                            else Ok false);
              if (stale : bool) then mret (refused_response oid "stale_quote")
              else
                nonce ← lift (dict_item "nonce" authorization);
                on_order oid (set_attempt (py_str wallet nonce)) ;;
                tx_hash ← _submit_settlement authorization;
                on_order oid (set_submitted tx_hash) ;;
                _confirm order authorization tx_hash
        end
  end.

Definition status (oid : string) : sut pydict :=
  self ← get_state;
  mret (match orders self !! oid with
        | None => dict_of [("order_id", VStr oid); ("paid", VBool false); ("resource", VNone);
                           ("submitted_tx", VNone); ("known", VBool false)]
        | Some o => dict_of [("order_id", VStr oid); ("paid", VBool (paid o));
                             ("resource", opt_str (resource o));
                             ("submitted_tx", opt_str (submitted_tx o)); ("known", VBool true)]
        end).

(** [d[k] = v] for the key of a pair in [dict(...)] *)
Definition set_pair (k v : pyval) (d : pydict) : res pydict :=
  match k with
  | VStr k => Ok (dict_set k v d)
  | VList _ | VDict _ => raise TypeError "unhashable type"
  | k => Ok (d ++ [(KOther (str_other wallet k), v)])
  end.
(** An element of the sequence that [dict] is called on: two items. *)
Definition pair_of (item : pyval) : res (pyval * pyval) :=
  match item with
  | VList [k; v] => Ok (k, v)
  | VStr (String a (String b EmptyString)) => Ok (VStr (String a ""), VStr (String b ""))
  | VDict [(KStr a, _); (KStr b, _)] => Ok (VStr a, VStr b)
  | VList _ | VStr _ | VDict _ =>
      raise ValueError "dictionary update sequence element has the wrong length; 2 is required"
  | _ => raise TypeError "cannot convert dictionary update sequence element to a sequence"
  end.
Fixpoint dict_of_pairs (items : list pyval) (d : pydict) : res pydict :=
  match items with
  | [] => Ok d
  | item :: items => '(k, v) ← pair_of item; d ← set_pair k v d; dict_of_pairs items d
  end.
(** [dict(v)] of a decoded value *)
Definition py_dict (v : pyval) : res pydict :=
  match v with
  | VDict d => Ok d
  | VList items => dict_of_pairs items []
  | VStr "" => Ok []
  | VStr _ =>
      raise ValueError "dictionary update sequence element has the wrong length; 2 is required"
  | _ => raise TypeError "object is not iterable"
  end.

(** The body of the [/pay] handler: its arguments from the JSON object that was
    posted, and the payment. *)
Definition pay_arguments (body : pydict) : res (string * pydict) :=
  order_id ← dict_item "order_id" body;
  authorization ← dict_item "authorization" body;
  authorization ← py_dict authorization;
  Ok (py_str wallet order_id, authorization).
Definition pay_endpoint (body : pydict) (now : Z) : sut pydict :=
  '(oid, authorization) ← lift (pay_arguments body); pay oid authorization now.

(** The body of the [/resource] handler: the content and its HTTP status. *)
Definition resource_endpoint (oid : string) : sut (pyval * Z) :=
  st ← status oid;
  mret (if bool_decide (dict_get "paid" st = VBool true)
        then (VDict (dict_of [("resource", dict_get "resource" st)]), 200)
        else (VDict (dict_of [("error", VStr "payment required")]), 402)).

Definition backup_ledger : sut (gmap string Order) :=
  self ← get_state; mret (orders self).
Definition restore_ledger (backup : gmap string Order) : sut unit := modify (set_orders backup).

(** The identities the ledger knows. *)
Definition known_identity (o : Order) : option Reconciliation.LedgerEntry :=
  if paid o then Reconciliation.EntryIdentity <$> settlement_identity o else None.
Definition ledger_identities (os : gmap string Order) : gset Reconciliation.LedgerEntry :=
  list_to_set (omap (λ ko, known_identity ko.2) (map_to_list os)).

Definition identity_key (i : Reconciliation.SettlementIdentity) : string :=
  str_of_Z (Reconciliation.chain_id i) +:+ ":" +:+ Reconciliation.asset i +:+ ":"
  +:+ Reconciliation.tx_hash i +:+ ":" +:+ str_of_Z (Reconciliation.log_index i).
Definition recovered_id (i : Reconciliation.SettlementIdentity) : string :=
  "rec_" +:+ PySha256.sha256_hex (PySha256.encode_ascii (identity_key i)).

Definition recovered_order (c : Reconciliation.OnChainCredit) : Order :=
  let i := Reconciliation.identity c in
  {| order_id := recovered_id i; amount := Reconciliation.value c; expires_at := 0;
     quoted_fair_price := Reconciliation.value c; nonce_seen := None; paid := true;
     submitted_tx := Some (Reconciliation.tx_hash i);
     resource := Some ("recovered::" +:+ Reconciliation.tx_hash i); created_block := 0;
     recovered := true; settle_attempts := 0; pending_tx := None; pending_authorization := None;
     settlement_identity := Some i |}.

(** Book a recovered order for each credit. *)
Definition heal (os : gmap string Order) (credits : list Reconciliation.OnChainCredit)
    : gmap string Order :=
  foldl (λ os c, <[recovered_id (Reconciliation.identity c) := recovered_order c]> os) os credits.

Definition reconcile (from_block : Z) : sut (list Reconciliation.OnChainCredit) :=
  self ← get_state;
  let cfg := config self in
  merchant_topic ← lift (Reconciliation.topic_addr (merchant_address cfg));
  logs ← with_rpc (get_logs (token_address cfg)
                     [Some Reconciliation.TOPIC_TRANSFER; None; Some merchant_topic]
                     (BNum from_block) (BTag "latest"));
  unreconciled ← lift (Reconciliation.find_unreconciled logs (ledger_identities (orders self))
                         (chain_id cfg) (Some (token_address cfg)) (Some (merchant_address cfg)));
  (if reconciliation_enabled cfg then modify (λ s, set_orders (heal (orders s) unreconciled) s)
   else mret tt) ;;
  mret unreconciled.
End methods.

(** * Lemmas *)

(** ** The effect of each method on the ledger *)

Section effects.
Context `{Transport W} (wallet : Wallet).
Implicit Types (s : ReferenceSut W) (o : Order) (k tx : string).

Lemma with_rpc_run {A} (m : prog (RpcClient W) A) s r s' :
  with_rpc m s = (r, s') ↔ m (rpc s) = (r, rpc s') ∧ s' = set_rpc (rpc s') s.
Proof.
  unfold with_rpc, zoom. destruct (m (rpc s)) as [r0 c]. split.
  - by intros [= -> <-].
  - intros [[= -> ->] ->]. done.
Qed.

Lemma bind_get_state {A} (f : ReferenceSut W → prog (ReferenceSut W) A) s :
  (get_state ≫= f) s = f s s.
Proof. done. Qed.
Lemma bind_on_order {A} k g (f : unit → prog (ReferenceSut W) A) s :
  (on_order k g ≫= f) s = f tt (set_orders (alter g k (orders s)) s).
Proof. done. Qed.

(** A program that changes the client only. *)
Definition client_only {A} (m : prog (ReferenceSut W) A) : Prop :=
  ∀ s0, preserves (λ s, s = set_rpc (rpc s) s0) m.

Lemma client_only_with_rpc {A} (m : prog (RpcClient W) A) : client_only (with_rpc m).
Proof.
  intros s0 s E. destruct (with_rpc m s) as [r s'] eqn:Er.
  apply with_rpc_run in Er as [_ ->]. simpl. by rewrite E.
Qed.

Lemma client_only_run {A} (m : prog (ReferenceSut W) A) s r s' :
  client_only m → m s = (r, s') → s' = set_rpc (rpc s') s.
Proof. intros Hm E. specialize (Hm s s). rewrite E in Hm. apply Hm. by destruct s. Qed.

Ltac client_step :=
  match goal with
  | |- preserves _ (_ ≫= _) => apply preserves_bind; [|intros ?]
  | |- preserves _ (catch _ _ _) => apply preserves_catch; [|intros ?]
  | |- preserves _ (lift _) => apply preserves_lift
  | |- preserves _ (mret _) => apply preserves_ret
  | |- preserves _ get_state => apply preserves_get
  | |- preserves _ (with_rpc _) => apply client_only_with_rpc
  | |- preserves _ (if ?b then _ else _) => destruct b
  end.

Lemma client_only_submit auth : client_only (_submit_settlement wallet auth).
Proof. intros s0. unfold _submit_settlement. repeat client_step. Qed.

Lemma client_only_await cfg tx : client_only (await_receipt cfg tx).
Proof. intros s0. unfold await_receipt. repeat client_step. Qed.

(** The confirmer credited this order for [tx] and returned log index [i]. *)
Definition credited (cfg : SutConfig) o (auth : pydict) tx (s' : ReferenceSut W) (i : Z) : Prop :=
  ∃ from nonce receipt c,
    dict_item "from" auth = Ok from ∧ dict_item "nonce" auth = Ok nonce
    ∧ Confirmer.settlement_evidence confirmer
        (confirm_query cfg o (py_str wallet from) (py_str wallet nonce) tx)
        receipt (created_block o) c i (rpc s').

Definition unlocked o : string := "premium-content::" +:+ order_id o.

(** What [_confirm] does to the order object, with its result. *)
Inductive confirm_effect (cfg : SutConfig) o (auth : pydict) tx (s' : ReferenceSut W)
    : res pydict → (Order → Order) → Prop :=
  | wait_refused e : confirm_effect cfg o auth tx s' (Raise e) id
  | still_pending :
      confirm_effect cfg o auth tx s' (Ok (pending_response (order_id o) tx))
        (set_pending (Some (tx, auth)))
  | confirm_raised e : confirm_effect cfg o auth tx s' (Raise e) (set_pending None)
  | not_settled :
      confirm_effect cfg o auth tx s' (Ok (settled_response (order_id o) tx false))
        (set_pending None)
  | identity_refused e i :
      credited cfg o auth tx s' i →
      confirm_effect cfg o auth tx s' (Raise e) (set_paid (unlocked o) ∘ set_pending None)
  | confirmed i id :
      credited cfg o auth tx s' i →
      Reconciliation.make_identity (chain_id cfg) (token_address cfg) tx i = Ok id →
      confirm_effect cfg o auth tx s' (Ok (settled_response (order_id o) tx true))
        (set_identity id ∘ (set_paid (unlocked o) ∘ set_pending None)).

(** The state after an update of one order object and requests of the client. *)
Definition touch k (f : Order → Order) (s s' : ReferenceSut W) : Prop :=
  s' = set_orders (alter f k (orders s)) (set_rpc (rpc s') s).

Lemma touch_id k s s' : s' = set_rpc (rpc s') s → touch k id s s'.
Proof. intros E. unfold touch. rewrite E at 1. unfold set_orders, set_rpc. simpl. by rewrite alter_id. Qed.

Lemma touch_compose k f g s1 s2 s3 : touch k f s1 s2 → touch k g s2 s3 → touch k (g ∘ f) s1 s3.
Proof.
  destruct s1, s2, s3. unfold touch, set_orders, set_rpc. simpl.
  intros [= -> -> ->] [= -> -> ->]. f_equal. apply map_eq. intros j.
  destruct (decide (j = k)) as [->|Hj]; [|by rewrite !lookup_alter_ne].
  by rewrite !lookup_alter_eq, <- option_fmap_compose.
Qed.

Lemma touch_then k f g s s1 :
  touch k f s s1 → touch k (g ∘ f) s (set_orders (alter g k (orders s1)) s1).
Proof. intros E. eapply touch_compose; [exact E|]. by destruct s1. Qed.

Lemma touch_client {A} k f (m : prog (ReferenceSut W) A) s s1 r s2 :
  touch k f s s1 → client_only m → m s1 = (r, s2) → touch k f s s2.
Proof.
  intros Ht Hm E. apply (client_only_run _ _ _ _ Hm), (touch_id k) in E.
  exact (touch_compose k f id s s1 s2 Ht E).
Qed.

Lemma touch_refl k s : touch k id s s.
Proof. apply touch_id. by destruct s. Qed.

Lemma confirm_run o auth tx s r s' :
  _confirm wallet o auth tx s = (r, s') →
  ∃ f, touch (order_id o) f s s' ∧ confirm_effect (config s) o auth tx s' r f.
Proof.
  unfold _confirm. rewrite bind_get_state. intros E.
  apply prog_bind_run in E as [(e & -> & E)|(out & s1 & Ew & E)].
  { exists id. split; [by eapply touch_client; [apply touch_refl|apply client_only_await|]|constructor]. }
  eapply (touch_client (order_id o)) in Ew; [|apply touch_refl|apply client_only_await].
  destruct out as [receipt|[]]; rewrite bind_on_order in E.
  2: { injection E as <- <-. eexists. split; [exact (touch_then _ _ _ _ _ Ew)|apply still_pending]. }
  apply (touch_then _ _ (set_pending None)) in Ew. set (s2 := set_orders _ _) in *. clearbody s2.
  apply prog_bind_run in E as [(e & -> & [= _ <-])|(from & s3 & [Hfrom ->]%lift_ok & E)].
  { eexists. split; [exact Ew|constructor]. }
  apply prog_bind_run in E as [(e & -> & [= _ <-])|(nonce & s3 & [Hnonce ->]%lift_ok & E)].
  { eexists. split; [exact Ew|constructor]. }
  apply prog_bind_run in E as [(e & -> & E)|(index & s3 & Ei & E)].
  { eapply touch_client in E; [|exact Ew|apply client_only_with_rpc].
    eexists. split; [exact E|constructor]. }
  pose proof Ei as Et. eapply touch_client in Et; [|exact Ew|apply client_only_with_rpc].
  destruct index as [i|]; [|injection E as <- <-; eexists; split; [exact Et|constructor]].
  apply with_rpc_run in Ei as [Ei _]. apply Confirmer.confirmed_evidence in Ei.
  assert (∀ s', rpc s' = rpc s3 → credited (config s) o auth tx s' i) as Hc
    by (intros s4 Hs; unfold credited; rewrite Hs; eauto 10).
  rewrite bind_on_order in E. apply (touch_then _ _ (set_paid (unlocked o))) in Et.
  apply prog_bind_run in E as [(e & -> & [= _ <-])|(id & s4 & [Hid ->]%lift_ok & E)].
  { eexists. split; [exact Et|]. by apply (identity_refused _ _ _ _ _ _ i), Hc. }
  injection E as <- <-. eexists. split; [exact (touch_then _ _ _ _ _ Et)|].
  by apply (confirmed _ _ _ _ _ i); [apply Hc|].
Qed.

(** The order may be submitted: an idempotent system has neither settled it nor
    a broadcast of it in flight. *)
Definition submittable (cfg : SutConfig) o : Prop :=
  idempotent_pay cfg = true →
  paid o = false ∧ (pending_tx o = None ∨ pending_authorization o = None).

(** What [pay] does to the order object it is for, with its result. *)
Inductive pay_effect (cfg : SutConfig) o (auth : pydict) (s' : ReferenceSut W)
    : res pydict → (Order → Order) → Prop :=
  | pay_cached :
      paid o = true →
      pay_effect cfg o auth s' (Ok (cached_response (order_id o) (submitted_tx o))) id
  | pay_refused reason :
      submittable cfg o → reason ∈ ["quote_expired"; "stale_quote"] →
      pay_effect cfg o auth s' (Ok (refused_response (order_id o) reason)) id
  | pay_raised e : submittable cfg o → pay_effect cfg o auth s' (Raise e) id
  | pay_retried tx a r f :
      idempotent_pay cfg = true → paid o = false → pending_tx o = Some tx →
      pending_authorization o = Some a → confirm_effect cfg o a tx s' r f →
      pay_effect cfg o auth s' r f
  | pay_not_broadcast nonce e :
      submittable cfg o → pay_effect cfg o auth s' (Raise e) (set_attempt nonce)
  | pay_broadcast nonce tx r f :
      submittable cfg o → re_0xhex 64 tx = true → confirm_effect cfg o auth tx s' r f →
      pay_effect cfg o auth s' r (f ∘ (set_submitted tx ∘ set_attempt nonce)).

Lemma pay_unknown k auth now s : orders s !! k = None →
  pay wallet k auth now s = (Ok (refused_response k "unknown_order"), s).
Proof. intros Hk. unfold pay. rewrite bind_get_state. by rewrite Hk. Qed.

(** A broadcast is answered with a transaction hash. *)
Lemma send_raw_hash raw (c : RpcClient W) tx c' :
  send_raw_transaction raw c = (Ok tx, c') → re_0xhex 64 tx = true.
Proof.
  unfold send_raw_transaction. intros (? & ? & _ & E)%prog_bind_ok.
  apply prog_bind_ok in E as (? & ? & _ & [E _]%lift_ok). by apply hash_ok in E as [_ ?].
Qed.

Lemma submit_hash auth s tx s' :
  _submit_settlement wallet auth s = (Ok tx, s') → re_0xhex 64 tx = true.
Proof.
  unfold _submit_settlement. intros E.
  repeat (apply prog_bind_ok in E as (? & ? & _ & E)).
  apply with_rpc_run in E as [E _]. by eapply send_raw_hash.
Qed.

Lemma pay_submit_run k auth now s o r s' :
  orders s !! k = Some o → order_id o = k → submittable (config s) o →
  (if expires_at o <? now then mret (refused_response k "quote_expired")
   else
     stale ← lift (if reprice_on_pay (config s)
                   then QuoteOption.quote_is_stale (amount o) (fair_price s)
                          (reprice_tolerance (config s))
                   else Ok false);
     if (stale : bool) then mret (refused_response k "stale_quote")
     else
       nonce ← lift (dict_item "nonce" auth);
       on_order k (set_attempt (py_str wallet nonce)) ;;
       tx_hash ← _submit_settlement wallet auth;
       on_order k (set_submitted tx_hash) ;;
       _confirm wallet o auth tx_hash) s = (r, s') →
  ∃ f, touch k f s s' ∧ pay_effect (config s) o auth s' r f.
Proof.
  intros Hk Hid Hsub E. pose proof (touch_refl k s) as T.
  destruct (expires_at o <? now).
  { injection E as <- <-. exists id. split; [done|]. rewrite <- Hid.
    apply pay_refused; [done|]. by left. }
  apply prog_bind_run in E as [(e & -> & [= _ <-])|(stale & s1 & [_ ->]%lift_ok & E)].
  { exists id. split; [done|]. by apply pay_raised. }
  destruct stale.
  { injection E as <- <-. exists id. split; [done|]. rewrite <- Hid.
    apply pay_refused; [done|]. by right; left. }
  apply prog_bind_run in E as [(e & -> & [= _ <-])|(nonce & s1 & [_ ->]%lift_ok & E)].
  { exists id. split; [done|]. by apply pay_raised. }
  rewrite bind_on_order in E. apply (touch_then _ _ (set_attempt (py_str wallet nonce))) in T.
  set (s1 := set_orders _ _) in *. clearbody s1.
  apply prog_bind_run in E as [(e & -> & E)|(tx & s2 & Es & E)].
  { eapply touch_client in E; [|exact T|apply client_only_submit]. eexists. split; [exact E|].
    by constructor. }
  pose proof (submit_hash _ _ _ _ Es) as Htx.
  eapply touch_client in Es; [|exact T|apply client_only_submit].
  rewrite bind_on_order in E. apply (touch_then _ _ (set_submitted tx)) in Es.
  set (s3 := set_orders _ _) in *. clearbody s3.
  apply confirm_run in E as (f & Hf & He). rewrite Hid in Hf.
  eexists. split; [exact (touch_compose _ _ _ _ _ _ Es Hf)|].
  apply (pay_broadcast _ _ _ _ (py_str wallet nonce) tx); [done|done|].
  assert (config s3 = config s) as <- by (by rewrite Es). done.
Qed.

Lemma pay_run k auth now s o r s' :
  pay wallet k auth now s = (r, s') → orders s !! k = Some o → order_id o = k →
  ∃ f, touch k f s s' ∧ pay_effect (config s) o auth s' r f.
Proof.
  unfold pay. rewrite bind_get_state. intros E Hk Hid. rewrite Hk in E.
  destruct (paid o && idempotent_pay (config s)) eqn:Ep.
  { injection E as <- <-. apply andb_true_iff in Ep as [Hp _]. exists id.
    split; [apply touch_refl|]. rewrite <- Hid. by constructor. }
  destruct (pending_tx o) as [tx|] eqn:Et, (pending_authorization o) as [a|] eqn:Ea,
    (idempotent_pay (config s)) eqn:Ei.
  1: { rewrite andb_true_r in Ep. apply confirm_run in E as (f & Hf & He). rewrite Hid in Hf.
       exists f. split; [done|]. by apply (pay_retried _ _ _ _ tx a). }
  all: eapply pay_submit_run; try eassumption; intros Hi; rewrite ?andb_true_r in Ep; auto; congruence.
Qed.
End effects.

Section other_effects.
Context `{Transport W}.
Implicit Types (s : ReferenceSut W).

Lemma quote_run token now s r s' :
  quote token now s = (r, s') →
  config s' = config s ∧ fair_price s' = fair_price s ∧
  (orders s' = orders s ∧ (∃ e, r = Raise e)
   ∨ ∃ b, orders s' = <["ord_" +:+ token :=
       new_order (config s) ("ord_" +:+ token) now (fair_price s) b]> (orders s)).
Proof.
  unfold quote. rewrite bind_get_state.
  intros [(e & -> & E)|(b & s1 & Eb & E)]%prog_bind_run.
  { apply with_rpc_run in E as [_ ->]. simpl. split_and!; [done|done|]. left. eauto. }
  apply with_rpc_run in Eb as [_ E1]. rewrite E1 in E. injection E as <- <-. simpl. split_and!; [done|done|]. right. by exists b.
Qed.

(** The logs a reconciliation of [s] reads and the credits it finds in them. *)
Definition reconciliation_of s (s' : ReferenceSut W) (from_block : Z) (logs : list pydict)
    (credits : list Reconciliation.OnChainCredit) : Prop :=
  ∃ topic,
    Reconciliation.topic_addr (merchant_address (config s)) = Ok topic
    ∧ get_logs (token_address (config s)) [Some Reconciliation.TOPIC_TRANSFER; None; Some topic]
        (BNum from_block) (BTag "latest") (rpc s) = (Ok logs, rpc s')
    ∧ Reconciliation.find_unreconciled logs (ledger_identities (orders s)) (chain_id (config s))
        (Some (token_address (config s))) (Some (merchant_address (config s))) = Ok credits.

Lemma reconcile_run from_block s r s' :
  reconcile from_block s = (r, s') →
  config s' = config s ∧ fair_price s' = fair_price s ∧
  (orders s' = orders s ∧ (∃ e, r = Raise e)
   ∨ ∃ logs credits, r = Ok credits ∧ reconciliation_of s s' from_block logs credits
       ∧ orders s' = if reconciliation_enabled (config s) then heal (orders s) credits
                     else orders s).
Proof.
  unfold reconcile. rewrite bind_get_state.
  intros [(e & -> & [= _ <-])|(topic & s1 & [Ht ->]%lift_ok & E)]%prog_bind_run;
    [split_and!; eauto|].
  apply prog_bind_run in E as [(e & -> & E)|(logs & s1 & El & E)].
  { apply with_rpc_run in E as [_ ->]. simpl. split_and!; [done|done|]. left. eauto. }
  apply with_rpc_run in El as [El E1]. rewrite E1 in E. clear E1.
  apply prog_bind_run in E as [(e & -> & [= _ <-])|(credits & s2 & [Hf ->]%lift_ok & E)];
    [simpl; split_and!; eauto|].
  destruct (reconciliation_enabled (config s)); injection E as <- <-; simpl;
    (split; [done|]; split; [done|]; right; exists logs, credits; split; [done|]; split; [|done]);
    exists topic; done.
Qed.

Lemma get_logs_ok a ts f t c r c' :
  get_logs a ts f t c = (Ok r, c') → re_0xhex 40 a = true ∧ Forall wf_log r.
Proof.
  unfold get_logs. intros (o & c1 & [Ha _]%lift_ok & E)%prog_bind_ok. split.
  { by apply address_ok in Ha as [([=] & _)|(? & [= <-] & _ & ?)]. }
  repeat (apply prog_bind_ok in E as (? & ? & _ & E)).
  apply lift_ok in E as [E _]. inv_res.
  apply map_res_ok in E. clear -E.
  induction E as [|v d l r Hv _ IH]; constructor; [by apply validate_log_ok in Hv as [_ ?]|done].
Qed.

(** Every credit found is a settlement of the configured token and chain. *)
Lemma reconciliation_credits s s' from_block logs credits c :
  reconciliation_of s s' from_block logs credits → c ∈ credits →
  Reconciliation.credit_wf (chain_id (config s)) c
  ∧ Reconciliation.asset (Reconciliation.identity c) = lower (token_address (config s))
  ∧ re_0xhex 64 (Reconciliation.tx_hash (Reconciliation.identity c)) = true.
Proof.
  intros (topic & _ & Hl & Hf) Hc. apply get_logs_ok in Hl as [Hl Hlogs].
  apply Reconciliation.find_unreconciled_iff in Hf as (a & p & Ha & _ & Hr).
  apply (Reconciliation.rec_members _ _ _ _ _ _ Hr) in Hc as (_ & _ & log & Hlog & Hd).
  split; [by eapply Reconciliation.decode_wf|]. split.
  2: { rewrite Forall_forall in Hlogs. destruct (wf_log_tx _ (Hlogs _ Hlog)) as (h & Hh & Hre).
       rewrite (Reconciliation.decode_tx_hash _ _ _ h Hd); [by apply re_0xhex_lower|].
       unfold dict_get. by rewrite Hh. }
  destruct (Reconciliation.rec_decodes _ _ _ _ _ _ Hr log Hlog) as (c' & Hd' & Hscope & _).
  assert (c' = c) as -> by congruence. unfold Reconciliation.expected_address in Ha.
  destruct (token_address (config s) =? "")%string eqn:Et.
  { apply String.eqb_eq in Et. by rewrite Et in Hl. }
  apply res_fmap_ok in Ha as (x & Hx & <-). simpl in Hscope.
  apply negb_false_iff, String.eqb_eq in Hscope. rewrite Hscope.
  by apply Reconciliation.exact_hex_ok in Hx as (d & [= ->] & _ & _ & ->).
Qed.
End other_effects.

(** ** The ledger invariant *)

(** A well-formed order under key [k] of a system configured with [cfg]. *)
Record order_wf (cfg : SutConfig) (k : string) (o : Order) : Prop := {
  owf_id : order_id o = k;
  owf_key : recovered o = false → ∃ t, k = "ord_" +:+ t;
  owf_resource : is_Some (resource o) ↔ paid o = true;
  owf_amount : recovered o = false → amount o = price cfg;
  owf_recovered : recovered o = true → paid o = true ∧ is_Some (settlement_identity o);
  owf_identity : ∀ i, settlement_identity o = Some i →
    paid o = true ∧ Reconciliation.chain_id i = chain_id cfg
    ∧ Reconciliation.asset i = lower (token_address cfg);
  owf_pending : is_Some (pending_tx o) ↔ is_Some (pending_authorization o);
  owf_in_flight : idempotent_pay cfg = true → ∀ h, pending_tx o = Some h →
    paid o = false ∧ submitted_tx o = Some h;
  owf_settled_tx : idempotent_pay cfg = true → ∀ i, settlement_identity o = Some i →
    ∃ h, submitted_tx o = Some h ∧ Reconciliation.tx_hash i = lower h;
  owf_hash : ∀ h, submitted_tx o = Some h → re_0xhex 64 h = true;
  owf_content : ∀ c, resource o = Some c →
    c = "premium-content::" +:+ k ∨ ∃ h, re_0xhex 64 h = true ∧ c = "recovered::" +:+ h
}.

Definition ledger_wf (cfg : SutConfig) (os : gmap string Order) : Prop :=
  map_Forall (order_wf cfg) os.

Section ledger.
Context `{Transport W} (wallet : Wallet) (cfg : SutConfig).
Implicit Types (s : ReferenceSut W) (o : Order) (k tx : string).

Lemma ledger_touch k f s s' :
  touch k f s s' → ledger_wf cfg (orders s) →
  (∀ o, orders s !! k = Some o → order_wf cfg k (f o)) → ledger_wf cfg (orders s').
Proof.
  intros E Hs Hf. rewrite E. simpl. intros j o' Hj.
  destruct (decide (j = k)) as [->|Hne].
  - rewrite lookup_alter_eq in Hj. apply fmap_Some in Hj as (o & Ho & ->). by apply Hf.
  - rewrite lookup_alter_ne in Hj by done. by apply Hs.
Qed.

Lemma wf_attempt k n o : order_wf cfg k o → order_wf cfg k (set_attempt n o).
Proof. by intros []. Qed.

Lemma wf_submitted k tx o :
  submittable cfg o → re_0xhex 64 tx = true → order_wf cfg k o → order_wf cfg k (set_submitted tx o).
Proof.
  intros Hsub Htx []. split; simpl; try done.
  - intros Hi h Hh. destruct (Hsub Hi) as [_ [Hn|Hn]]; [congruence|].
    destruct (proj1 owf_pending0 (ex_intro _ h Hh)). congruence.
  - intros Hi j Hj. destruct (Hsub Hi), (owf_identity0 j Hj). congruence.
  - by intros h [= <-].
Qed.

Lemma wf_pending k p o :
  order_wf cfg k o →
  (∀ h a, p = Some (h, a) → idempotent_pay cfg = true → paid o = false ∧ submitted_tx o = Some h) →
  order_wf cfg k (set_pending p o).
Proof.
  intros [] Hp. split; simpl; try done; destruct p as [[h a]|]; simpl; try done.
  intros Hi ? [= <-]. by apply (Hp h a).
Qed.

Lemma wf_paid k c o :
  order_wf cfg k o → (idempotent_pay cfg = true → pending_tx o = None) →
  c = "premium-content::" +:+ k → order_wf cfg k (set_paid c o).
Proof.
  intros [] Hp ->. split; simpl; try done.
  - intros Hr. split; [done|]. by apply owf_recovered0.
  - intros i Hi. split; [done|]. by apply owf_identity0.
  - intros Hi. by rewrite (Hp Hi).
  - intros c [= <-]. by left.
Qed.

Lemma wf_identity k tx i id o :
  order_wf cfg k o → paid o = true →
  (idempotent_pay cfg = true → submitted_tx o = Some tx) →
  Reconciliation.make_identity (chain_id cfg) (token_address cfg) tx i = Ok id →
  order_wf cfg k (set_identity id o).
Proof.
  intros [] Hp Ht Hid. pose proof (Reconciliation.make_identity_lower _ _ _ _ _ Hid) as [Ha Hx].
  apply Reconciliation.make_identity_ok in Hid as (Hc & _).
  split; simpl; try done.
  - by intros j [= <-].
  - intros Hi j [= <-]. eauto.
Qed.

Lemma confirm_effect_wf k o0 o a tx s' r f :
  order_wf cfg k o → order_id o0 = k → confirm_effect wallet cfg o0 a tx s' r f →
  (idempotent_pay cfg = true → paid o = false ∧ submitted_tx o = Some tx) →
  order_wf cfg k (f o).
Proof.
  intros Hwf H0 Hf Htx. assert (order_wf cfg k (set_pending None o)) as Hwf' by by apply wf_pending.
  destruct Hf as [| | | |e i _|i id _ Hid]; try done.
  - apply wf_pending; [done|]. by intros h b [= <- _].
  - apply wf_paid; [done|done|]. by rewrite <- H0.
  - eapply wf_identity; [apply wf_paid; [done|done|by rewrite <- H0]|done| |exact Hid]. by intros [_ ?]%Htx.
Qed.

Lemma pay_effect_wf k o a s' r f :
  order_wf cfg k o → pay_effect wallet cfg o a s' r f → order_wf cfg k (f o).
Proof.
  intros Hwf []; try done.
  - eapply confirm_effect_wf; try done; [apply (owf_id _ _ _ Hwf)|].
    intros Hi. by apply (owf_in_flight _ _ _ Hwf).
  - by apply wf_attempt.
  - change (order_wf cfg k (f0 (set_submitted tx (set_attempt nonce o)))).
    eapply confirm_effect_wf; [|exact (owf_id _ _ _ Hwf)|done|].
    + by apply wf_submitted; [| |apply wf_attempt].
    + intros Hi. match goal with Hs : submittable _ _ |- _ => by destruct (Hs Hi) end.
Qed.

Lemma pay_wf k auth now s :
  config s = cfg → ledger_wf cfg (orders s) → ledger_wf cfg (orders (pay wallet k auth now s).2).
Proof.
  intros Hc Hs. destruct (orders s !! k) as [o|] eqn:Hk; [|by rewrite pay_unknown].
  destruct (pay wallet k auth now s) as [r s'] eqn:E.
  pose proof (Hs k o Hk) as Ho.
  destruct (pay_run _ _ _ _ _ _ _ _ E Hk (owf_id _ _ _ Ho)) as (f & Hf & He).
  rewrite Hc in He. eapply ledger_touch; [exact Hf|done|]. intros o' Ho'. assert (o' = o) as -> by congruence.
  by eapply pay_effect_wf.
Qed.

Lemma new_order_wf cfg0 token now p b :
  price cfg0 = price cfg →
  order_wf cfg ("ord_" +:+ token) (new_order cfg0 ("ord_" +:+ token) now p b).
Proof. split; simpl; try done. by exists token. Qed.

Lemma quote_wf token now s :
  config s = cfg → ledger_wf cfg (orders s) → ledger_wf cfg (orders (quote token now s).2).
Proof.
  intros Hc Hs. destruct (quote token now s) as [r s'] eqn:E.
  apply quote_run in E as (_ & _ & [[E _]|[b E]]); simpl; rewrite E; [done|].
  apply map_Forall_insert_2; [|done]. rewrite Hc. by apply new_order_wf.
Qed.

Lemma recovered_wf c :
  Reconciliation.credit_wf (chain_id cfg) c →
  Reconciliation.asset (Reconciliation.identity c) = lower (token_address cfg) →
  re_0xhex 64 (Reconciliation.tx_hash (Reconciliation.identity c)) = true →
  order_wf cfg (recovered_id (Reconciliation.identity c)) (recovered_order c).
Proof.
  intros [] Ha Htx. split; simpl; try done.
  - intros i [= <-]. by destruct wf_chain.
  - intros _ i [= <-]. destruct wf_tx as [_ Hl]. eexists. split; [done|]. by rewrite Hl.
  - by intros h [= <-].
  - intros x [= <-]. right. by eexists.
Qed.

Lemma heal_wf credits os :
  ledger_wf cfg os →
  Forall (λ c, order_wf cfg (recovered_id (Reconciliation.identity c)) (recovered_order c)) credits →
  ledger_wf cfg (heal os credits).
Proof.
  intros Hos Hc. revert os Hos. induction Hc as [|c l Hc _ IH]; intros os Hos; [done|].
  simpl. apply IH. by apply map_Forall_insert_2.
Qed.

Lemma reconcile_wf from_block s :
  config s = cfg → ledger_wf cfg (orders s) → ledger_wf cfg (orders (reconcile from_block s).2).
Proof.
  intros Hc Hs. destruct (reconcile from_block s) as [r s'] eqn:E.
  apply reconcile_run in E as (_ & _ & [[E _]|(logs & credits & _ & Hr & E)]); simpl; rewrite E;
    [done|]. destruct (reconciliation_enabled (config s)); [|done].
  apply heal_wf; [done|]. apply Forall_forall. intros c Hin.
  destruct (reconciliation_credits _ _ _ _ _ _ Hr Hin) as (Hw & Ha & Htx). rewrite Hc in Hw, Ha.
  by apply recovered_wf.
Qed.
End ledger.

(** ** The system as a step relation *)

(** The server and the backups an operator has taken of its ledger. *)
Record System (W : Type) := {
  server : ReferenceSut W;
  backups : list (gmap string Order)
}.
Arguments server {W} _.
Arguments backups {W} _.

(** What can happen next: a request with its inputs, an operator's action, a
    move of the price oracle or of the world outside. *)
Inductive event (W : Type) :=
  | EQuote (token_hex : string) (now : Z)
  | EPay (oid : string) (authorization : pydict) (now : Z)
  | EStatus (oid : string)
  | EResource (oid : string)
  | EReconcile (from_block : Z)
  | EBackup
  | ERestore (n : nat)
  | EFairPrice (p : Z)
  | EWorld (w : W).
Arguments EQuote {W} _ _.
Arguments EPay {W} _ _ _.
Arguments EStatus {W} _.
Arguments EResource {W} _.
Arguments EReconcile {W} _.
Arguments EBackup {W}.
Arguments ERestore {W} _.
Arguments EFairPrice {W} _.
Arguments EWorld {W} _.

Definition with_server {W} (sys : System W) (s : ReferenceSut W) : System W :=
  {| server := s; backups := backups sys |}.

Section steps.
Context `{Transport W} (wallet : Wallet).
Implicit Types sys : System W.

(** One event.  The state after a method is its state whether it returned or
    raised: the handler answers 500 and the server lives on. *)
Inductive step sys : event W → System W → Prop :=
  | step_quote token now :
      step sys (EQuote token now) (with_server sys (quote token now (server sys)).2)
  | step_pay oid auth now :
      step sys (EPay oid auth now) (with_server sys (pay wallet oid auth now (server sys)).2)
  | step_status oid : step sys (EStatus oid) (with_server sys (status oid (server sys)).2)
  | step_resource oid :
      step sys (EResource oid) (with_server sys (resource_endpoint oid (server sys)).2)
  | step_reconcile from_block :
      step sys (EReconcile from_block) (with_server sys (reconcile from_block (server sys)).2)
  | step_backup b :
      (backup_ledger (server sys)).1 = Ok b →
      step sys EBackup {| server := server sys; backups := b :: backups sys |}
  | step_restore n b :
      backups sys !! n = Some b →
      step sys (ERestore n) (with_server sys (restore_ledger b (server sys)).2)
  | step_fair_price p :
      step sys (EFairPrice p) (with_server sys
        {| config := config (server sys); orders := orders (server sys);
           rpc := rpc (server sys); fair_price := p |})
  | step_world w :
      step sys (EWorld w) (with_server sys
        (set_rpc {| _id := _id (rpc (server sys)); world := w |} (server sys))).

(** A run of events. *)
Inductive run sys : list (event W) → System W → Prop :=
  | run_nil : run sys [] sys
  | run_snoc es e sys1 sys2 : run sys es sys1 → step sys1 e sys2 → run sys (es ++ [e]) sys2.

Definition initial (cfg : SutConfig) (c : RpcClient W) : System W := {|
  server := {| config := cfg; orders := ∅; rpc := c; fair_price := price cfg |};
  backups := [] |}.

(** An invariant of the server that the events keep holds along a run. *)
Lemma run_invariant (P : event W → Prop) (I : System W → Prop) sys es sys' :
  (∀ sys1 e sys2, I sys1 → P e → step sys1 e sys2 → I sys2) →
  run sys es sys' → Forall P es → I sys → I sys'.
Proof.
  intros Hstep. induction 1 as [|es e sys1 sys2 _ IH Hs]; [done|].
  intros [Hes He]%Forall_app HI. eapply Hstep; [by apply IH| |exact Hs].
  by inversion He.
Qed.

Definition system_wf (cfg : SutConfig) sys : Prop :=
  config (server sys) = cfg ∧ ledger_wf cfg (orders (server sys))
  ∧ Forall (ledger_wf cfg) (backups sys).

Lemma pay_config cfg oid auth now (s : ReferenceSut W) :
  ledger_wf cfg (orders s) → config (pay wallet oid auth now s).2 = config s.
Proof.
  intros Hs. destruct (orders s !! oid) as [o|] eqn:Hk; [|by rewrite pay_unknown].
  destruct (pay wallet oid auth now s) as [r s'] eqn:E.
  by destruct (pay_run _ _ _ _ _ _ _ _ E Hk (owf_id _ _ _ (Hs _ _ Hk))) as (f & -> & _).
Qed.

Lemma system_wf_initial cfg c : system_wf cfg (initial cfg c).
Proof. split_and!; [done|apply map_Forall_empty|constructor]. Qed.

Lemma system_wf_step cfg sys e sys' : system_wf cfg sys → step sys e sys' → system_wf cfg sys'.
Proof.
  intros (Hc & Hl & Hb). destruct 1 as [token now|oid auth now| | |fb|b E|n b E| |];
    try (by split_and!).
  - split_and!; [|by apply quote_wf|done]. simpl. rewrite <- Hc.
    destruct (quote _ _ _) as [r s'] eqn:E. simpl. by apply quote_run in E as [-> _].
  - split_and!; [|by apply pay_wf|done]. simpl. rewrite <- Hc. by eapply pay_config.
  - split_and!; [|by apply reconcile_wf|done]. simpl. rewrite <- Hc.
    destruct (reconcile _ _) as [r s'] eqn:E. simpl. by apply reconcile_run in E as [-> _].
  - injection E as <-. split_and!; [done|done|by constructor].
  - split_and!; [done| |done]. rewrite Forall_lookup in Hb. by apply (Hb n).
Qed.

Lemma system_wf_run cfg sys es sys' : run sys es sys' → system_wf cfg sys → system_wf cfg sys'.
Proof.
  intros Hr. eapply (run_invariant (λ _, True)); [|exact Hr|].
  - intros sys1 e sys2 Hw _. by apply system_wf_step.
  - by apply Forall_true.
Qed.
End steps.

(** ** Requests *)

Section requests.
Context `{Transport W} (wallet : Wallet) (cfg : SutConfig) (J : W → Prop) (ms : list string).
Hypothesis J_kept : ∀ method params id w, method ∈ ms → J w →
  J (transport_send (rpc_request id method params) w).2.

(** The configuration is [cfg] and the world satisfies [J]. *)
Definition quiet (s : ReferenceSut W) : Prop := config s = cfg ∧ J (world (rpc s)).

Lemma quiet_with_rpc {A} (m : prog (RpcClient W) A) :
  sends_only ms m → preserves quiet (with_rpc m).
Proof.
  intros Hm s [Hc Hs]. destruct (with_rpc m s) as [r s'] eqn:E.
  apply with_rpc_run in E as [E ->]. split; [done|].
  simpl. pose proof (Hm J J_kept (rpc s) Hs) as Hp. by rewrite E in Hp.
Qed.

Lemma sends_wait h t d :
  "eth_getTransactionReceipt" ∈ ms → sends_only (W:=W) ms (wait_for_receipt h t d).
Proof.
  intros Hin. unfold wait_for_receipt. solve_sends.
  eapply sends_mono, sends_poll_receipt. by intros x ->%list_elem_of_singleton.
Qed.

Lemma sends_settlement_log_index q receipt from_block :
  "eth_getLogs" ∈ ms →
  sends_only (W:=W) ms (Confirmer.settlement_log_index confirmer q receipt from_block).
Proof.
  intros Hin. unfold Confirmer.settlement_log_index. solve_sends.
  unfold confirmer. cbn [Confirmer.fetch_logs]. eapply sends_mono; [|apply sends_get_logs].
  by intros x ->%list_elem_of_singleton.
Qed.

Hypothesis reads : ["eth_getTransactionReceipt"; "eth_getLogs"] ⊆ ms.

Ltac quiet_step :=
  match goal with
  | |- preserves _ (_ ≫= _) => apply preserves_bind; [|intros ?]
  | |- preserves _ (modify _) => by apply preserves_modify; intros ? []
  | |- preserves _ (with_rpc (wait_for_receipt _ _ _)) =>
      apply quiet_with_rpc, sends_wait, reads; by left
  | |- preserves _ (with_rpc (Confirmer.settlement_log_index _ _ _ _)) =>
      apply quiet_with_rpc, sends_settlement_log_index, reads; by right; left
  | |- preserves _ (with_rpc (get_logs _ _ _ _)) =>
      apply quiet_with_rpc; eapply sends_mono; [|apply sends_get_logs];
      intros ? ->%list_elem_of_singleton; apply reads; by right; left
  | |- preserves _ (match ?x with _ => _ end) => destruct x
  | |- _ => solve [eauto with py]
  | |- preserves _ (catch _ _ _) => apply preserves_catch; [|intros ?]
  end.

Lemma quiet_confirm o auth tx : preserves quiet (_confirm wallet o auth tx).
Proof. unfold _confirm, await_receipt, on_order. repeat quiet_step. Qed.

Lemma quiet_reconcile from_block : preserves quiet (reconcile from_block).
Proof. unfold reconcile. repeat quiet_step. Qed.

Lemma quiet_quote token now :
  "eth_blockNumber" ∈ ms → preserves quiet (quote token now).
Proof.
  intros Hb. unfold quote. repeat quiet_step. apply quiet_with_rpc. unfold block_number.
  apply sends_bind; [by apply sends_call|intros ?; apply sends_lift].
Qed.

(** Off the allow list the submission stops before its first request. *)
Lemma quiet_submit auth :
  Safety.allowed_chain (chain_id cfg) = false → preserves quiet (_submit_settlement wallet auth).
Proof.
  intros Hn s Hs. unfold _submit_settlement. rewrite bind_get_state.
  destruct ((_ : prog (ReferenceSut W) string) s) as [r s'] eqn:E. simpl.
  apply prog_bind_run in E as [(e & -> & [= _ <-])|(from & s1 & [_ ->]%lift_ok & E)]; [done|].
  apply prog_bind_run in E as [(e & -> & [= _ <-])|(to & s1 & [_ ->]%lift_ok & E)]; [done|].
  apply prog_bind_run in E as [(e & -> & [= _ <-])|(value & s1 & [_ ->]%lift_ok & E)]; [done|].
  destruct Hs as [Hc Hs].
  apply prog_bind_run in E as [(e & -> & E)|(u & s1 & E & _)]; apply with_rpc_run in E as [E E'];
    destruct (Safety.off_allowlist_refused_offline {|
      Safety.configured_chain_id := chain_id (config s); Safety.token_address := token_address (config s);
      Safety.payer_address := py_str wallet from; Safety.payee_address := merchant_address (config s);
      Safety.authorization_to := py_str wallet to; Safety.authorization_amount := value;
      Safety.expected_amount := price (config s) |} (rpc s)) as (e' & E2 & _); try (by rewrite Hc);
    rewrite E2 in E; [|done].
  injection E as _ E. rewrite E'. split; [done|]. simpl. by rewrite <- E.
Qed.

Lemma quiet_pay k auth now :
  Safety.allowed_chain (chain_id cfg) = false → preserves quiet (pay wallet k auth now).
Proof.
  intros Hn. unfold pay, on_order.
  repeat (quiet_step || apply quiet_confirm || by apply quiet_submit).
Qed.
End requests.

(** * A concrete system *)

Definition hex_word (w : string) : string := "0x" +:+ rjust 64 "0" w.
Definition sample_token : string := "0x" +:+ str_repeat "a" 40.
Definition sample_payer : string := "0x" +:+ str_repeat "b" 40.
Definition sample_merchant : string := "0x" +:+ str_repeat "c" 40.
Definition sample_tx : string := "0x" +:+ str_repeat "1" 64.
Definition sample_nonce : string := "0x" +:+ str_repeat "d" 64.

Definition sample_log (index : string) (topics : list string) (data : string) : pydict := dict_of [
  ("address", VStr sample_token); ("topics", VList (VStr <$> topics)); ("data", VStr data);
  ("blockNumber", VStr "0x6"); ("transactionHash", VStr sample_tx); ("transactionIndex", VStr "0x0");
  ("blockHash", VStr (hex_word "6")); ("logIndex", VStr index); ("removed", VBool false)].
Definition sample_transfer : pydict :=
  sample_log "0x1" [Confirmer.TOPIC_TRANSFER; Confirmer.topic_addr sample_payer;
                    Confirmer.topic_addr sample_merchant] (hex_word (to_hex 10000)).
Definition sample_receipt : pydict := dict_of [
  ("transactionHash", VStr sample_tx); ("blockHash", VStr (hex_word "6"));
  ("blockNumber", VStr "0x6"); ("status", VStr "0x1"); ("to", VStr sample_token);
  ("logs", VList [VDict (sample_log "0x0" [Confirmer.TOPIC_AUTHORIZATION_USED;
                           Confirmer.topic_addr sample_payer; sample_nonce] "0x");
                  VDict sample_transfer])].

(** A node on which the settlement is mined, if [mined], in block 6. *)
Definition sample_node (mined : bool) : Transport (list string) :=
  honest_node (λ m _,
    if (m =? "eth_chainId")%string then VStr (py_hex 84532)
    else if (m =? "eth_getCode")%string then VStr "0x6001"
    else if (m =? "eth_sendRawTransaction")%string then VStr sample_tx
    else if (m =? "eth_getTransactionReceipt")%string
    then if mined then VDict sample_receipt else VNone
    else if (m =? "eth_getLogs")%string then VList [VDict sample_transfer]
    else VStr "0x5").

Definition sample_config (chain : Z) : SutConfig := {|
  token_address := sample_token; merchant_address := sample_merchant; chain_id := chain;
  token_name := "USDC"; token_version := "2"; price := 10000; gas := 300000;
  reconciliation_enabled := true; quote_ttl := 3600; reprice_on_pay := true;
  reprice_tolerance := QuoteOption.TolText "0.02"; idempotent_pay := true;
  confirm_without_waiting := false; receipt_tries := 2 |}.

Definition sample_wallet : Wallet := {|
  account_address := "0x" +:+ str_repeat "f" 40; sign_transaction := λ tx, Ok (tx_data tx);
  str_other := λ _, "" |}.

Definition sample_authorization : pydict := dict_of [
  ("from", VStr sample_payer); ("to", VStr sample_merchant); ("value", VStr "10000");
  ("validAfter", VStr "0"); ("validBefore", VStr "9999"); ("nonce", VStr sample_nonce);
  ("signature", VStr ("0x" +:+ str_repeat "e" 130))].

Definition sample_sut (chain : Z) : ReferenceSut (list string) :=
  server (initial (sample_config chain) fresh_client).
Definition quoted (node : Transport (list string)) : ReferenceSut (list string) :=
  (quote (H:=node) "01" 100 (sample_sut 84532)).2.

(** * Properties *)

(** ** Payments *)

(** C4: the ledger invariant.  In every state an operator, the clients and the
    node can bring the system to, requests that raise included, each order is
    filed under its own id; its resource is unlocked exactly when it is paid; an
    identity belongs to a paid order and names the configured chain and token;
    a pending hash comes with its authorization and, in an idempotent system, is
    the submitted hash of an unpaid order; a recovered order is paid and
    identified.  The same holds of every backup. *)
Theorem ledger_invariant `{Transport W} wallet cfg c es (sys : System W) :
  run wallet (initial cfg c) es sys →
  config (server sys) = cfg ∧ ledger_wf cfg (orders (server sys))
  ∧ Forall (ledger_wf cfg) (backups sys).
Proof. intros Hr. eapply system_wf_run; [exact Hr|]. apply system_wf_initial. Qed.

(** An event that neither restores a backup nor draws the id [k] again. *)
Definition event_keeps {W} (k : string) (e : event W) : Prop :=
  match e with
  | ERestore _ => False
  | EQuote token _ => k ≠ "ord_" +:+ token
  | _ => True
  end.

Lemma pay_paid `{Transport W} wallet k auth now (s : ReferenceSut W) o :
  orders s !! k = Some o → paid o = true → idempotent_pay (config s) = true →
  ∃ d, pay wallet k auth now s = (Ok d, s) ∧ dict_get "settled" d = VBool true
       ∧ dict_get "submitted_tx" d = opt_str (submitted_tx o).
Proof.
  intros Hk Hp Hi. unfold pay. rewrite bind_get_state, Hk, Hp, Hi. eexists. split; [reflexivity|].
  by destruct (submitted_tx o).
Qed.

Lemma heal_lookup_ne credits k (os : gmap string Order) :
  (∀ c, c ∈ credits → recovered_id (Reconciliation.identity c) ≠ k) → heal os credits !! k = os !! k.
Proof.
  revert os. induction credits as [|c l IH]; intros os Hne; [done|].
  simpl. rewrite IH by (intros; apply Hne; by right).
  rewrite lookup_insert_ne; [done|]. apply Hne. by left.
Qed.

(** C7: settlement is final: in an idempotent system a paid order that was quoted
    is never changed again, by any sequence of requests, payments of it
    included, price moves and answers of the node, short of restoring a backup
    or drawing its id again. *)
Theorem settlement_is_final `{Transport W} wallet cfg (sys : System W) es sys' k o :
  run wallet sys es sys' → system_wf cfg sys → idempotent_pay cfg = true →
  Forall (event_keeps k) es →
  orders (server sys) !! k = Some o → paid o = true → recovered o = false →
  orders (server sys') !! k = Some o.
Proof.
  intros Hr Hwf Hi He Hk Hp Hn.
  refine (proj2 (run_invariant wallet (event_keeps k)
    (λ sys, system_wf cfg sys ∧ orders (server sys) !! k = Some o) sys es sys' _ Hr He (conj Hwf Hk))).
  clear sys es sys' Hr Hwf He Hk. intros sys e sys' [Hwf Hk] He Hs.
  split; [by eapply system_wf_step|]. destruct Hwf as (Hc & Hl & _).
  destruct Hs as [token now|oid auth now| | |fb|b E|n b E| |]; simpl; try done.
  - destruct (quote token now (server sys)) as [r s'] eqn:E. simpl.
    apply quote_run in E as (_ & _ & [[-> _]|[b ->]]); [done|]. by rewrite lookup_insert_ne.
  - destruct (orders (server sys) !! oid) as [o1|] eqn:H1; [|by rewrite pay_unknown].
    destruct (decide (oid = k)) as [->|Hne].
    { destruct (pay_paid wallet k auth now (server sys) o) as (d & -> & _);
        simpl; congruence. }
    destruct (pay wallet oid auth now (server sys)) as [r s'] eqn:E. simpl.
    destruct (pay_run _ _ _ _ _ _ _ _ E H1 (owf_id _ _ _ (Hl _ _ H1))) as (f & -> & _).
    simpl. by rewrite lookup_alter_ne.
  - destruct (reconcile fb (server sys)) as [r s'] eqn:E. simpl.
    apply reconcile_run in E as (_ & _ & [[-> _]|(logs & cs & _ & _ & ->)]); [done|].
    destruct (reconciliation_enabled _); [|done]. rewrite heal_lookup_ne; [done|].
    intros c _. destruct (owf_key _ _ _ (Hl _ _ Hk) Hn) as [t ->]. done.
Qed.

Definition paid_sut (node : Transport (list string)) : ReferenceSut (list string) :=
  (pay (H:=node) sample_wallet "ord_01" sample_authorization 200 (quoted node)).2.
Definition sample_system (s : ReferenceSut (list string)) : System (list string) :=
  {| server := s; backups := [] |}.
Definition sample_events : list (event (list string)) :=
  [EQuote "01" 100; EPay "ord_01" sample_authorization 200].

Lemma sample_run node :
  run (H:=node) sample_wallet (initial (sample_config 84532) fresh_client) sample_events
    (sample_system (paid_sut node)).
Proof.
  apply (run_snoc (H:=node) sample_wallet _ [EQuote "01" 100] _ (sample_system (quoted node)));
    [|apply (step_pay (H:=node) sample_wallet (sample_system (quoted node)))].
  eapply (run_snoc (H:=node) sample_wallet _ []); [apply (run_nil (H:=node))|].
  apply (step_quote (H:=node) sample_wallet (initial (sample_config 84532) fresh_client)).
Qed.

Lemma ledger_invariant_witness :
  let s := paid_sut (sample_node true) in
  ∃ o, orders s !! "ord_01" = Some o ∧ paid o = true ∧ is_Some (resource o).
Proof.
  intros s.
  assert (∃ o, orders s !! "ord_01" = Some o ∧ paid o = true) as (o & Ho & Hp)
    by (eexists; split; vm_compute; reflexivity).
  destruct (ledger_invariant (H:=sample_node true) sample_wallet (sample_config 84532) fresh_client
              _ _ (sample_run (sample_node true))) as (_ & Hl & _).
  exists o. split; [exact Ho|]. split; [exact Hp|].
  exact (proj2 (owf_resource _ _ _ (Hl _ _ Ho)) Hp).
Defined.

Lemma sample_wf node : system_wf (sample_config 84532) (sample_system (paid_sut node)).
Proof.
  exact (system_wf_run (H:=node) sample_wallet _ _ _ _ (sample_run node)
           (system_wf_initial _ fresh_client)).
Qed.

Lemma settlement_is_final_witness :
  let node := sample_node true in
  let again := (pay (H:=node) sample_wallet "ord_01" [] 99999 (paid_sut node)).2 in
  orders again !! "ord_01" = orders (paid_sut node) !! "ord_01".
Proof.
  intros node again.
  assert (∃ o, orders (paid_sut node) !! "ord_01" = Some o ∧ paid o = true ∧ recovered o = false)
    as (o & Ho & Hp & Hn) by (eexists; split_and!; vm_compute; reflexivity).
  rewrite Ho.
  refine (settlement_is_final (H:=node) sample_wallet (sample_config 84532)
    (sample_system (paid_sut node)) [EPay "ord_01" [] 99999] (sample_system again) "ord_01" o
    _ (sample_wf node) eq_refl _ Ho Hp Hn); [|by repeat constructor].
  refine (run_snoc (H:=node) sample_wallet _ [] _ _ _ (run_nil (H:=node) sample_wallet _) _).
  apply (step_pay (H:=node) sample_wallet (sample_system (paid_sut node))).
Defined.

(** C6: a retry never broadcasts again: in an idempotent system a payment of an
    order that is paid or has a broadcast in flight sends nothing but receipt
    and log reads, and it does the same whatever authorization and time it
    carries. *)
Theorem retry_only_reads `{Transport W} wallet cfg (s : ReferenceSut W) k o auth now auth' now'
    (J : W → Prop) :
  config s = cfg → ledger_wf cfg (orders s) → idempotent_pay cfg = true →
  orders s !! k = Some o → paid o = true ∨ is_Some (pending_tx o) →
  (∀ method params id w, method ∈ ["eth_getTransactionReceipt"; "eth_getLogs"] → J w →
     J (transport_send (rpc_request id method params) w).2) →
  J (world (rpc s)) →
  J (world (rpc (pay wallet k auth now s).2)) ∧ pay wallet k auth now s = pay wallet k auth' now' s.
Proof.
  intros Hc Hl Hi Hk Ho HJ Hw. pose proof (Hl _ _ Hk) as Hwf. unfold pay.
  rewrite !bind_get_state, Hk, Hc, Hi, andb_true_r.
  destruct (paid o) eqn:Hp; [done|].
  destruct Ho as [|[tx Htx]]; [done|].
  destruct (proj1 (owf_pending _ _ _ Hwf) (ex_intro _ tx Htx)) as [a Ha].
  rewrite Htx, Ha. split; [|done].
  by destruct (quiet_confirm wallet cfg J _ HJ (reflexivity _) o a tx s (conj Hc Hw)).
Qed.

Lemma retry_only_reads_witness :
  let node := sample_node false in
  pay (H:=node) sample_wallet "ord_01" [] 99999 (paid_sut node)
  = pay (H:=node) sample_wallet "ord_01" sample_authorization 200 (paid_sut node).
Proof.
  intros node.
  assert (∃ o, orders (paid_sut node) !! "ord_01" = Some o ∧ is_Some (pending_tx o))
    as (o & Ho & Hp) by (eexists; split; [vm_compute; reflexivity|eexists; reflexivity]).
  refine (proj2 (retry_only_reads (H:=node) sample_wallet (sample_config 84532) (paid_sut node)
    "ord_01" o [] 99999 sample_authorization 200 (λ _, True) eq_refl _ eq_refl Ho (or_intror Hp) _ I));
    [|done].
  exact (proj1 (proj2 (sample_wf node))).
Defined.

(** What a touch leaves under its key. *)
Lemma touch_lookup {W} k f (s s' : ReferenceSut W) o :
  touch k f s s' → orders s !! k = Some o → orders s' !! k = Some (f o).
Proof. intros -> Hk. simpl. by rewrite lookup_alter_eq, Hk. Qed.
Lemma touch_lookup_ne {W} k k' f (s s' : ReferenceSut W) :
  touch k f s s' → k' ≠ k → orders s' !! k' = orders s !! k'.
Proof. intros -> Hne. simpl. by rewrite lookup_alter_ne. Qed.

Lemma confirm_effect_answer `{Transport W} wallet cfg o0 o a tx s' d f :
  confirm_effect (W:=W) wallet cfg o0 a tx s' (Ok d) f → paid o = false →
  dict_get "settled" d = VBool (paid (f o)).
Proof. intros Hf Hp. inversion Hf; subst; simpl; by rewrite ?Hp. Qed.

(** The answer agrees with the ledger: when an idempotent system answers a
    payment of a known order, [settled] is whether the order is paid, and hence
    unlocked, in its ledger. *)
Theorem answer_agrees_with_ledger `{Transport W} wallet cfg (s s' : ReferenceSut W) k o auth now d :
  config s = cfg → ledger_wf cfg (orders s) → idempotent_pay cfg = true →
  orders s !! k = Some o → pay wallet k auth now s = (Ok d, s') →
  ∃ o', orders s' !! k = Some o' ∧ dict_get "settled" d = VBool (paid o')
        ∧ (paid o' = true ↔ is_Some (resource o')).
Proof.
  intros Hc Hl Hi Hk E. pose proof (Hl _ _ Hk) as Hwf.
  destruct (pay_run _ _ _ _ _ _ _ _ E Hk (owf_id _ _ _ Hwf)) as (f & Ht & He).
  rewrite Hc in He. exists (f o). split; [by eapply touch_lookup|].
  pose proof (pay_effect_wf _ _ _ _ _ _ _ _ Hwf He) as Hwf'.
  split; [|symmetry; apply (owf_resource _ _ _ Hwf')].
  inversion He as [Hp Hd|reason Hsub _ Hr|e Hsub|tx a r f' _ Hp _ _ Hf|n e Hsub|n tx r f' Hsub _ Hf]; subst.
  - simpl. by rewrite Hp.
  - simpl. by destruct (Hsub Hi) as [-> _].
  - by eapply confirm_effect_answer.
  - destruct (Hsub Hi) as [Hp _]. by eapply (confirm_effect_answer _ _ _ (set_submitted tx (set_attempt n o))).
Qed.

Lemma answer_agrees_with_ledger_witness :
  let node := sample_node true in
  ∃ o', orders (paid_sut node) !! "ord_01" = Some o' ∧ VBool true = VBool (paid o').
Proof.
  intros node.
  assert (∃ d, pay (H:=node) sample_wallet "ord_01" sample_authorization 200 (quoted node)
               = (Ok d, paid_sut node) ∧ dict_get "settled" d = VBool true) as (d & E & Hd)
    by (eexists; split; vm_compute; reflexivity).
  assert (∃ o, orders (quoted node) !! "ord_01" = Some o) as (o & Ho)
    by (eexists; vm_compute; reflexivity).
  assert (ledger_wf (sample_config 84532) (orders (quoted node))) as Hl.
  { apply (quote_wf (H:=node) (sample_config 84532) "01" 100 (sample_sut 84532) eq_refl).
    apply map_Forall_empty. }
  destruct (answer_agrees_with_ledger (H:=node) sample_wallet (sample_config 84532) (quoted node)
    (paid_sut node) "ord_01" o sample_authorization 200 d eq_refl Hl eq_refl Ho E) as (o' & Ho' & Hs & _).
  exists o'. split; [exact Ho'|]. by rewrite <- Hd.
Defined.

Lemma confirm_effect_paid `{Transport W} wallet cfg o0 o a tx s' r f :
  confirm_effect (W:=W) wallet cfg o0 a tx s' r f → paid o = false → paid (f o) = true →
  ∃ i, credited wallet cfg o0 a tx s' i ∧ resource (f o) = Some (unlocked o0).
Proof. intros [| | | |e i Hc|i j Hc _]; simpl; eauto; congruence. Qed.

Lemma pay_effect_paid `{Transport W} wallet cfg o auth s' r f :
  pay_effect (W:=W) wallet cfg o auth s' r f → paid o = false → paid (f o) = true →
  ∃ a tx i, (a = auth ∨ pending_authorization o = Some a) ∧ credited wallet cfg o a tx s' i
            ∧ resource (f o) = Some (unlocked o).
Proof.
  intros Hf Hp Hp'. destruct Hf as [|r|e|tx a r f _ _ _ Ha Hf|n e|n tx r f _ _ Hf]; simpl in *;
    try congruence.
  - destruct (confirm_effect_paid _ _ _ _ _ _ _ _ _ Hf Hp Hp') as (i & ? & ?). eauto 10.
  - destruct (confirm_effect_paid _ _ _ (set_submitted tx (set_attempt n o)) _ _ _ _ _ Hf Hp Hp')
      as (i & ? & ?). eauto 10.
Qed.

Lemma heal_lookup credits k (os : gmap string Order) o :
  heal os credits !! k = Some o → os !! k = Some o ∨ ∃ c, c ∈ credits ∧ o = recovered_order c.
Proof.
  revert os. induction credits as [|c l IH]; intros os Hk; [by left|].
  apply IH in Hk as [Hk|(c' & ? & ->)]; [|right; exists c'; split; [by right|done]].
  destruct (decide (recovered_id (Reconciliation.identity c) = k)) as [<-|Hne].
  - rewrite lookup_insert_eq in Hk. injection Hk as <-. right. exists c. split; [by left|done].
  - rewrite lookup_insert_ne in Hk by done. by left.
Qed.


Lemma unpaid_lookup {W} (s : ReferenceSut W) k o :
  paid <$> orders s !! k = Some false → orders s !! k = Some o → paid o = true → False.
Proof. intros Hf Ho. rewrite Ho in Hf. simpl in Hf. congruence. Qed.


(** ** Safety *)

(** C9: nothing is signed or broadcast off the allow list: a system configured
    for any other chain, a mainnet say, sends its node only block number,
    receipt and log reads, whatever is asked of it and whatever it is answered.
    Stated through the world: what such reads and the outside keep stays true. *)
Theorem off_allowlist_never_broadcasts `{Transport W} wallet cfg c es (sys : System W)
    (J : W → Prop) :
  chain_id cfg ∉ Safety.ALLOWED_SETTLEMENT_CHAIN_IDS →
  run wallet (initial cfg c) es sys →
  (∀ method params id w,
     method ∈ ["eth_getTransactionReceipt"; "eth_getLogs"; "eth_blockNumber"] → J w →
     J (transport_send (rpc_request id method params) w).2) →
  (∀ w, EWorld w ∈ es → J w) → J (world c) →
  J (world (rpc (server sys))).
Proof.
  intros Hn Hr HJ Hes Hc.
  assert (Safety.allowed_chain (chain_id cfg) = false) as Hoff by by apply bool_decide_eq_false_2.
  assert (["eth_getTransactionReceipt"; "eth_getLogs"]
    ⊆ ["eth_getTransactionReceipt"; "eth_getLogs"; "eth_blockNumber"]) as Hreads.
  { intros x [->|[->|[]%elem_of_nil]%elem_of_cons]%elem_of_cons; [by left|by right; left]. }
  refine (proj2 (run_invariant wallet (λ e, ∀ w, e = EWorld w → J w)
    (λ sys, quiet cfg J (server sys)) _ _ _ _ Hr _ (conj eq_refl Hc))).
  - clear -HJ Hoff Hreads. intros sys e sys' Hq He Hs.
    destruct Hs as [token now|oid auth now|oid|oid|fb|b E|n b E|p|w]; simpl; try exact Hq.
    + apply (quiet_quote cfg J _ HJ); [by right; right; left|done].
    + by apply (quiet_pay wallet cfg J _ HJ Hreads).
    + by apply (quiet_reconcile cfg J _ HJ Hreads).
    + destruct Hq. split; [done|]. by apply He.
  - apply Forall_forall. intros e Hin w ->. by apply Hes.
Qed.

Definition reads_only (log : list string) : Prop :=
  Forall (λ m, m ∈ ["eth_getTransactionReceipt"; "eth_getLogs"; "eth_blockNumber"]) log.

Lemma off_allowlist_never_broadcasts_witness :
  let node := sample_node true in
  let s := (quote (H:=node) "01" 100 (sample_sut 8453)).2 in
  let s' := (pay (H:=node) sample_wallet "ord_01" sample_authorization 200 s).2 in
  world (rpc s') = ["eth_blockNumber"] ∧ reads_only (world (rpc s')).
Proof.
  intros node s s'. split; [vm_compute; reflexivity|].
  refine (off_allowlist_never_broadcasts (H:=node) sample_wallet (sample_config 8453) fresh_client
    sample_events (sample_system s') reads_only _ _ _ _ _).
  - apply (bool_decide_eq_false_1 _). vm_compute. reflexivity.
  - apply (run_snoc (H:=node) sample_wallet _ [EQuote "01" 100] _ (sample_system s));
      [|apply (step_pay (H:=node) sample_wallet (sample_system s))].
    eapply (run_snoc (H:=node) sample_wallet _ []); [apply (run_nil (H:=node))|].
    apply (step_quote (H:=node) sample_wallet (initial (sample_config 8453) fresh_client)).
  - intros method params id w Hm Hw. apply Forall_app. split; [exact Hw|].
    apply Forall_singleton. exact Hm.
  - intros w [Hw|[Hw|Hw%elem_of_nil]%elem_of_cons]%elem_of_cons; [discriminate Hw..|done].
  - constructor.
Defined.

(** ** Reconciliation *)

Lemma elem_of_ledger_identities e os :
  e ∈ ledger_identities os ↔
    ∃ k o i, os !! k = Some o ∧ paid o = true ∧ settlement_identity o = Some i
             ∧ e = Reconciliation.EntryIdentity i.
Proof.
  unfold ledger_identities, known_identity. rewrite elem_of_list_to_set, list_elem_of_omap. split.
  - intros ([k o] & Hk%elem_of_map_to_list & He). simpl in He.
    destruct (paid o) eqn:Hp; [|done]. apply fmap_Some in He as (i & Hi & ->). by exists k, o, i.
  - intros (k & o & i & Hk & Hp & Hi & ->). exists (k, o). rewrite elem_of_map_to_list.
    split; [done|]. simpl. by rewrite Hp, Hi.
Qed.

Lemma heal_booked credits (os : gmap string Order) c :
  NoDup ((λ c, recovered_id (Reconciliation.identity c)) <$> credits) → c ∈ credits →
  heal os credits !! recovered_id (Reconciliation.identity c) = Some (recovered_order c).
Proof.
  revert os. induction credits as [|x l IH]; intros os; [by intros _ ?%elem_of_nil|].
  intros [Hx Hl]%NoDup_cons [->|Hc]%elem_of_cons; [|by apply IH]. simpl.
  rewrite heal_lookup_ne; [by rewrite lookup_insert_eq|].
  intros y Hy E. apply Hx. rewrite <- E. apply list_elem_of_fmap. by exists y.
Qed.

(** C15: reconciliation heals the ledger.  When the job is enabled and returns,
    and the ids it derives collide neither with each other nor with the ledger
    (they are SHA-256 digests of the identities), every settlement found is
    booked as a paid order of its value, no order is lost, and reconciling the
    same logs against the healed ledger finds nothing. *)
Theorem reconcile_heals `{Transport W} (s s' : ReferenceSut W) from_block credits :
  reconcile from_block s = (Ok credits, s') →
  reconciliation_enabled (config s) = true →
  NoDup ((λ c, recovered_id (Reconciliation.identity c)) <$> credits) →
  (∀ c, c ∈ credits → orders s !! recovered_id (Reconciliation.identity c) = None) →
  (∀ c, c ∈ credits → ∃ o, orders s' !! recovered_id (Reconciliation.identity c) = Some o
     ∧ paid o = true ∧ amount o = Reconciliation.value c
     ∧ settlement_identity o = Some (Reconciliation.identity c))
  ∧ (∀ k o, orders s !! k = Some o → orders s' !! k = Some o)
  ∧ ∃ logs, reconciliation_of s s' from_block logs credits
      ∧ Reconciliation.find_unreconciled logs (ledger_identities (orders s')) (chain_id (config s))
          (Some (token_address (config s))) (Some (merchant_address (config s))) = Ok [].
Proof.
  intros E Hen Hnd Hfresh.
  apply reconcile_run in E as (_ & _ & [[_ [e [=]]]|(logs & cs & [= <-] & Hr & Ho)]).
  rewrite Hen in Ho. rewrite Ho.
  assert (∀ k o, orders s !! k = Some o → heal (orders s) credits !! k = Some o) as Hold.
  { intros k o Hk. rewrite heal_lookup_ne; [done|]. intros c Hc <-. rewrite Hfresh in Hk; done. }
  split; [|split; [exact Hold|]].
  { intros c Hc. exists (recovered_order c). split; [by apply heal_booked|done]. }
  exists logs. split; [done|]. destruct Hr as (topic & _ & _ & Hf).
  apply Reconciliation.find_unreconciled_iff in Hf as (a & p & Ha & Hp & [Hd Hc Hm _]).
  apply Reconciliation.find_unreconciled_iff. exists a, p. split; [done|]. split; [done|].
  split; [done|done| |constructor]. intros c. split; [by intros ?%elem_of_nil|].
  intros (Hrm & Hun & Hlog). exfalso. apply Hun.
  assert (c ∈ credits ∨ Reconciliation.identity c ∈ Reconciliation.known (ledger_identities (orders s)))
    as [Hin|Hkn].
  { destruct (decide (Reconciliation.identity c ∈ Reconciliation.known (ledger_identities (orders s))));
      [by right|left]. by apply Hm. }
  - apply elem_of_map. exists (Reconciliation.EntryIdentity (Reconciliation.identity c)).
    split; [done|]. apply elem_of_ledger_identities.
    exists (recovered_id (Reconciliation.identity c)), (recovered_order c), (Reconciliation.identity c).
    split; [by apply heal_booked|done].
  - apply elem_of_map in Hkn as (x & Hx & He). apply elem_of_map. exists x. split; [done|].
    apply elem_of_ledger_identities in He as (k & o & i & Hk & ? & ? & ?).
    apply elem_of_ledger_identities. exists k, o, i. split; [by apply Hold|done].
Qed.

Lemma reconcile_heals_witness :
  let node := sample_node true in
  match reconcile (H:=node) 0 (sample_sut 84532) with
  | (Ok credits, s') =>
      length credits = 1%nat ∧ ∀ c, c ∈ credits → ∃ o,
        orders s' !! recovered_id (Reconciliation.identity c) = Some o ∧ paid o = true
  | _ => False
  end.
Proof.
  intros node. destruct (reconcile (H:=node) 0 (sample_sut 84532)) as [r s'] eqn:E.
  assert (∃ c, r = Ok [c]) as [c ->].
  { eexists. change r with (r, s').1. rewrite <- E. vm_compute. reflexivity. }
  split; [reflexivity|].
  destruct (reconcile_heals (H:=node) (sample_sut 84532) s' 0 [c] E eq_refl) as [Hb _].
  - apply NoDup_singleton.
  - intros x _. apply lookup_empty.
  - intros x Hx. destruct (Hb x Hx) as (o & Ho & Hp & _). exists o. exact (conj Ho Hp).
Defined.

(** ** A lost broadcast *)

(** The node mined the settlement and serves its receipt, but its answer to
    [eth_getLogs] is malformed. *)
Definition faulty_node : Transport (list string) :=
  honest_node (λ m ps,
    if (m =? "eth_getLogs")%string then VNone
    else match transport_send (Transport:=sample_node true) (rpc_request 0 m ps) [] with
         | (Ok (VDict d), _) => dict_get "result" d
         | _ => VNone
         end).

(** [_confirm] forgets the pending hash before it asks the confirmer; an
    exception of the confirmer then leaves the order unpaid with nothing pending,
    and the retry of an idempotent system broadcasts the authorization again. *)
Example retry_after_confirmer_error_broadcasts_again :
  let s := (pay (H:=faulty_node) sample_wallet "ord_01" sample_authorization 200
              (quoted faulty_node)).2 in
  let s' := (pay (H:=faulty_node) sample_wallet "ord_01" sample_authorization 201 s).2 in
  idempotent_pay (config s') = true
  ∧ pending_tx <$> orders s !! "ord_01" = Some None
  ∧ length (filter (λ m, m = "eth_sendRawTransaction") (world (rpc s'))) = 2%nat.
Proof. vm_compute. done. Qed.
