(* ===== verification/Concurrent.v ===== *)
(** * Concurrent payments of the reference system ([psv/reference_sut/server.py])

    [create_app] registers [pay] as a plain function, so the web framework runs
    each request in a thread of its own and nothing in [ReferenceSut] takes a
    lock.  Here a payment is a [task]: the statements of [ReferenceSut], cut
    where it talks to the node and where it assigns to the order.  Between two
    cuts a thread reads or writes the ledger without waiting; at a cut any
    other request may run.  A quote, a status and a resource request touch the
    ledger once and are served in one piece.

    Shown: a payment that is alone is [ReferenceSut.pay]; and whatever the
    interleaving, the ledger stays well formed, orders keep their terms, paid
    orders stay paid, an order is paid only on the confirmer's evidence, and a
    client told [settled] was told the truth.  What a system that serves one
    request at a time promises beyond that is lost: an idempotent system
    broadcasts the settlement of one order twice. *)

From S2P Require Import Prelude PyStr PyVal Anvil Chain Tasks ReferenceSut.
From S2P Require Reconciliation Confirmer Safety QuoteOption Sut.
Local Open Scope Z_scope.

#[local] Existing Instance Safety.rpc_client_safety.

(** ** Payments as tasks *)

Section tasks.
Context `{Transport W} (wallet : Wallet).
Notation req := (task (ReferenceSut W)).

(** One call of the RPC client; one group of assignments to an order. *)
Definition rpc_step {A} (m : prog (RpcClient W) A) : req A := atomic (with_rpc m).
Definition order_step (k : string) (f : Order → Order) : req unit := atomic (on_order k f).
Definition read_self : req (ReferenceSut W) := atomic get_state.

Definition submit_task (authorization : pydict) : req string :=
  self ← read_self;
  let cfg := config self in
  from ← pure_task (dict_item "from" authorization);
  to ← pure_task (dict_item "to" authorization);
  value ← pure_task (dict_item "value" authorization);
  rpc_step (Safety.require_safe_submission {|
    Safety.configured_chain_id := chain_id cfg;
    Safety.token_address := token_address cfg;
    Safety.payer_address := py_str wallet from;
    Safety.payee_address := merchant_address cfg;
    Safety.authorization_to := py_str wallet to;
    Safety.authorization_amount := value;
    Safety.expected_amount := price cfg |}) ;;
  calldata ← pure_task (
    value_int ← py_int value;
    after ← dict_item "validAfter" authorization; valid_after ← py_int after;
    before ← dict_item "validBefore" authorization; valid_before ← py_int before;
    nonce ← dict_item "nonce" authorization;
    signature ← dict_item "signature" authorization;
    settle_calldata (py_str wallet from) (py_str wallet to) value_int valid_after valid_before
      (py_str wallet nonce) (py_str wallet signature));
  count ← rpc_step (call "eth_getTransactionCount"
                      [VStr (account_address wallet); VStr "pending"]);
  nonce ← pure_task (py_int_16 count);
  gas_price ← catch_task (raw ← rpc_step (call "eth_gasPrice" []); pure_task (py_int_16 raw))
                [RpcError; TypeError; ValueError] (λ _, mret 1000000000);
  signed ← pure_task (sign_transaction wallet {|
    tx_to := token_address cfg; tx_data := calldata; tx_value := 0; tx_gas := gas cfg;
    tx_gas_price := gas_price; tx_nonce := nonce; tx_chain_id := chain_id cfg |});
  rpc_step (send_raw_transaction signed).

Definition await_task (cfg : SutConfig) (tx_hash : string) : req (option pydict + unit) :=
  if confirm_without_waiting cfg then mret (inl None)
  else catch_task (r ← rpc_step (wait_for_receipt tx_hash (receipt_tries cfg) (VInt 0));
                   mret (inl (Some r)))
         [RpcError] (λ _, mret (inr tt)).

Definition confirm_task (order : Order) (authorization : pydict) (tx_hash : string)
    : req pydict :=
  let k := order_id order in
  self ← read_self;
  let cfg := config self in
  outcome ← await_task cfg tx_hash;
  match outcome with
  | inr _ =>
      order_step k (set_pending (Some (tx_hash, authorization))) ;;
      mret (pending_response k tx_hash)
  | inl receipt =>
      order_step k (set_pending None) ;;
      from ← pure_task (dict_item "from" authorization);
      nonce ← pure_task (dict_item "nonce" authorization);
      index ← rpc_step (Confirmer.settlement_log_index confirmer
                          (confirm_query cfg order (py_str wallet from) (py_str wallet nonce) tx_hash)
                          receipt (created_block order));
      match index with
      | Some log_index =>
          order_step k (set_paid ("premium-content::" +:+ k)) ;;
          identity ← pure_task (Reconciliation.make_identity (chain_id cfg) (token_address cfg)
                                  tx_hash log_index);
          order_step k (set_identity identity) ;;
          mret (settled_response k tx_hash true)
      | None => mret (settled_response k tx_hash false)
      end
  end.

(** The guards read the order at one moment; what they let pass is not looked
    at again. *)
Definition pay_task (oid : string) (authorization : pydict) (now : Z) : req pydict :=
  self ← read_self;
  let cfg := config self in
  match orders self !! oid with
  | None => mret (refused_response oid "unknown_order")
  | Some order =>
      if paid order && idempotent_pay cfg then
        mret (cached_response oid (submitted_tx order))
      else
        match pending_tx order, pending_authorization order, idempotent_pay cfg with
        | Some tx, Some auth, true => confirm_task order auth tx
        | _, _, _ =>
            if expires_at order <? now then mret (refused_response oid "quote_expired")
            else
              stale ← pure_task (if reprice_on_pay cfg
                                 then QuoteOption.quote_is_stale (amount order) (fair_price self)
                                        (reprice_tolerance cfg)
                                 else Ok false);
              if (stale : bool) then mret (refused_response oid "stale_quote")
              else
                nonce ← pure_task (dict_item "nonce" authorization);
                order_step oid (set_attempt (py_str wallet nonce)) ;;
                tx_hash ← submit_task authorization;
                order_step oid (set_submitted tx_hash) ;;
                confirm_task order authorization tx_hash
        end
  end.

(** The [/pay] handler *)
Definition pay_handler (body : pydict) (now : Z) : req pydict :=
  '(oid, authorization) ← pure_task (pay_arguments wallet body); pay_task oid authorization now.
End tasks.

(** ** A payment that is alone *)

Section alone.
Context `{Transport W} (wallet : Wallet).

Lemma submit_task_alone auth :
  runs_as (submit_task (W:=W) wallet auth) (_submit_settlement wallet auth).
Proof. unfold submit_task, _submit_settlement, rpc_step, read_self. repeat runs_as. Qed.

Lemma await_task_alone cfg tx : runs_as (await_task (W:=W) cfg tx) (await_receipt cfg tx).
Proof. unfold await_task, await_receipt, rpc_step. repeat runs_as. Qed.

Lemma confirm_task_alone o auth tx :
  runs_as (confirm_task (W:=W) wallet o auth tx) (_confirm wallet o auth tx).
Proof. unfold confirm_task, _confirm, rpc_step, order_step, read_self.
  repeat (apply await_task_alone || runs_as). Qed.

Lemma pay_task_alone k auth now :
  runs_as (pay_task (W:=W) wallet k auth now) (pay wallet k auth now).
Proof.
  unfold pay_task, pay, order_step, read_self. repeat (apply confirm_task_alone || apply submit_task_alone || runs_as).
Qed.

Lemma pay_handler_alone body now :
  runs_as (pay_handler (W:=W) wallet body now) (pay_endpoint wallet body now).
Proof. unfold pay_handler, pay_endpoint. repeat (apply pay_task_alone || runs_as). Qed.
End alone.

(** ** What the threads promise one another *)

(** The ledger invariant without its two clauses on an idempotent system, which
    interleaving breaks. *)
Definition without_idempotency (cfg : SutConfig) : SutConfig := {|
  token_address := token_address cfg; merchant_address := merchant_address cfg;
  chain_id := chain_id cfg; token_name := token_name cfg; token_version := token_version cfg;
  price := price cfg; gas := gas cfg; reconciliation_enabled := reconciliation_enabled cfg;
  quote_ttl := quote_ttl cfg; reprice_on_pay := reprice_on_pay cfg;
  reprice_tolerance := reprice_tolerance cfg; idempotent_pay := false;
  confirm_without_waiting := confirm_without_waiting cfg; receipt_tries := receipt_tries cfg |}.

Section promise.
Context `{Transport W} (wallet : Wallet) (cfg : SutConfig) (seen : ReferenceSut W → Prop).
Implicit Types (s : ReferenceSut W) (o : Order) (k tx : string).

(** In some state of the run the confirmer credited the order. *)
Definition evidence o : Prop := ∃ auth tx i s, seen s ∧ credited wallet cfg o auth tx s i.

(** What may become of an order: the terms of its quote stay, it stays paid, and
    it becomes paid on evidence only. *)
Record evolved o o' : Prop := {
  ev_id : order_id o' = order_id o;
  ev_amount : amount o' = amount o;
  ev_expires : expires_at o' = expires_at o;
  ev_price : quoted_fair_price o' = quoted_fair_price o;
  ev_block : created_block o' = created_block o;
  ev_recovered : recovered o' = recovered o;
  ev_attempts : settle_attempts o ≤ settle_attempts o';
  ev_paid : paid o = true → paid o' = true;
  ev_evidence : paid o' = true → paid o = true ∨ evidence o'
}.

Definition grown (before after : option Order) : Prop :=
  match before, after with
  | Some o, Some o' => evolved o o'
  | Some _, None => False
  | None, Some o' => paid o' = true → evidence o'
  | None, None => True
  end.

(** The ledger only grows, and its orders only evolve. *)
Definition ledger_grows s s' : Prop :=
  config s' = config s ∧ ∀ k, grown (orders s !! k) (orders s' !! k).

Definition sound s : Prop :=
  config s = cfg ∧ ledger_wf (without_idempotency cfg) (orders s).

Lemma evidence_terms o o' :
  amount o' = amount o → created_block o' = created_block o → evidence o → evidence o'.
Proof.
  intros Ha Hb (auth & tx & i & s & Hs & Hc). exists auth, tx, i, s. split; [done|].
  unfold credited, confirm_query in *. by rewrite Ha, Hb.
Qed.

Lemma evolved_refl o : evolved o o.
Proof. split; try done. by left. Qed.

Lemma evolved_trans o1 o2 o3 : evolved o1 o2 → evolved o2 o3 → evolved o1 o3.
Proof.
  intros H12 H23. split; try (etrans; [apply H23|apply H12]); try (etrans; [apply H12|apply H23]).
  - intros Hp. by apply H23, H12.
  - intros [Hp|He]%(ev_evidence _ _ H23); [|by right].
    apply (ev_evidence _ _ H12) in Hp as [Hp|He]; [by left|right].
    eapply evidence_terms; [apply H23|apply H23|exact He].
Qed.

Lemma grown_trans m1 m2 m3 : grown m1 m2 → grown m2 m3 → grown m1 m3.
Proof.
  destruct m1 as [o1|], m2 as [o2|], m3 as [o3|]; simpl; try done; [apply evolved_trans|].
  intros H2 H23 [Hp|He]%(ev_evidence _ _ H23); [|done].
  eapply evidence_terms; [apply H23|apply H23|by apply H2].
Qed.

#[global] Instance ledger_grows_preorder : PreOrder ledger_grows.
Proof.
  split.
  - intros s. split; [done|]. intros k. destruct (orders s !! k); [apply evolved_refl|done].
  - intros s1 s2 s3 [Hc1 H12] [Hc2 H23]. split; [by rewrite Hc2|].
    intros k. by eapply grown_trans.
Qed.

(** A step that leaves the ledger alone; a step that assigns to one order. *)
Lemma grows_client s c : ledger_grows s (set_rpc c s).
Proof. split; [done|]. apply (reflexivity (R:=ledger_grows) s). Qed.

Lemma grows_alter s k f :
  (∀ o, orders s !! k = Some o → evolved o (f o)) →
  ledger_grows s (set_orders (alter f k (orders s)) s).
Proof.
  intros Hf. split; [done|]. intros j. simpl. destruct (decide (j = k)) as [->|Hne].
  - rewrite lookup_alter_eq. destruct (orders s !! k); [by apply Hf|done].
  - rewrite lookup_alter_ne by done. apply (reflexivity (R:=ledger_grows) s).
Qed.

Lemma sound_alter s k f :
  sound s →
  (∀ o, orders s !! k = Some o → order_wf (without_idempotency cfg) k (f o)) →
  sound (set_orders (alter f k (orders s)) s).
Proof.
  intros [Hc Hl] Hf. split; [done|]. eapply ledger_touch; [|exact Hl|exact Hf].
  by destruct s.
Qed.

(** The order a thread read is still there, evolved. *)
Definition held o s : Prop := ∃ o', orders s !! order_id o = Some o' ∧ evolved o o'.
Definition paid_in k s : Prop := ∃ o, orders s !! k = Some o ∧ paid o = true.

Lemma held_stable o : stable ledger_grows (held o).
Proof.
  intros s s' [_ Hg] (o1 & Ho1 & He). specialize (Hg (order_id o)). rewrite Ho1 in Hg.
  destruct (orders s' !! order_id o) as [o2|] eqn:Ho2; [|done].
  exists o2. split; [done|]. by eapply evolved_trans.
Qed.

Lemma paid_in_stable k : stable ledger_grows (paid_in k).
Proof.
  intros s s' [_ Hg] (o1 & Ho1 & He). specialize (Hg k). rewrite Ho1 in Hg.
  destruct (orders s' !! k) as [o2|] eqn:Ho2; [|done].
  exists o2. split; [done|]. by apply (ev_paid _ _ Hg).
Qed.

(** What an answer claims is so: [settled] means that the ledger has the order
    paid. *)
Definition truthful (d : pydict) s : Prop :=
  dict_get "settled" d = VBool true → ∃ k, dict_get "order_id" d = VStr k ∧ paid_in k s.

Lemma truthful_stable d : stable ledger_grows (truthful d).
Proof.
  intros s s' Hg Ht Hd. destruct (Ht Hd) as (k & Hk & Hp). exists k. split; [done|].
  by eapply paid_in_stable.
Qed.
End promise.

(** ** Every payment keeps the promise *)

Section keeps.
Context `{Transport W} (wallet : Wallet) (cfg : SutConfig) (seen : ReferenceSut W → Prop).
Implicit Types (s : ReferenceSut W) (o : Order) (k tx : string).
Notation grows := (ledger_grows wallet cfg seen).
Notation safe := (Tasks.safe (sound cfg) seen grows).
Notation stays := (evolved wallet cfg seen).
Notation bind := (safe_bind (sound cfg) seen grows).
Notation catching := (safe_catch (sound cfg) seen grows).

Lemma safe_read (Q : ReferenceSut W → ReferenceSut W → Prop) s :
  (∀ s1, grows s s1 → sound cfg s1 → Q s1 s1) → safe Q read_self s.
Proof.
  intros HQ. apply safe_atomic. intros s1 r s2 Hg Hs [= <- <-].
  split; [done|]. split; [done|]. intros _ a [= <-]. by apply HQ.
Qed.

Lemma safe_rpc {A} (m : prog (RpcClient W) A) (Q : A → ReferenceSut W → Prop) s :
  (∀ s1 a s2, m (rpc s1) = (Ok a, rpc s2) → seen s2 → Q a s2) → safe Q (rpc_step m) s.
Proof.
  intros HQ. apply safe_atomic. intros s1 r s2 _ [Hc Hl] [E E2]%with_rpc_run.
  rewrite E2. split; [apply grows_client|]. split; [done|]. rewrite <- E2.
  intros Hs a ->. by eapply HQ.
Qed.

Lemma safe_client {A} (m : prog (RpcClient W) A) s : safe (λ _ _, True) (rpc_step m) s.
Proof. by apply safe_rpc. Qed.

Lemma safe_order k f (Q : unit → ReferenceSut W → Prop) s :
  (∀ s1 o, grows s s1 → orders s1 !! k = Some o → order_wf (without_idempotency cfg) k o →
     stays o (f o) ∧ order_wf (without_idempotency cfg) k (f o)) →
  (∀ s1 s2, grows s s1 → grows s1 s2 → orders s2 !! k = f <$> orders s1 !! k → Q tt s2) →
  safe Q (order_step k f) s.
Proof.
  intros Hf HQ. apply safe_atomic. intros s1 r s2 Hg Hs [= <- <-].
  assert (∀ o, orders s1 !! k = Some o →
    stays o (f o) ∧ order_wf (without_idempotency cfg) k (f o)) as Hk
    by (intros o Ho; apply (Hf s1); [done|done|]; by apply Hs).
  assert (grows s1 (set_orders (alter f k (orders s1)) s1)) as Hg2
    by (apply grows_alter; intros o Ho; by apply Hk).
  split; [done|]. split; [by apply sound_alter; [|intros o Ho; apply Hk]|].
  intros _ [] _. apply (HQ s1); [done|done|]. simpl. by rewrite lookup_alter_eq.
Qed.

(** An assignment that touches neither the terms nor the payment. *)
Lemma safe_assign k f s :
  (∀ o, stays o (f o)) →
  (∀ o, order_wf (without_idempotency cfg) k o → order_wf (without_idempotency cfg) k (f o)) →
  safe (λ _ _, True) (order_step k f) s.
Proof. intros He Hw. apply safe_order; [|done]. intros s1 o _ _ Ho. split; [done|]. by apply Hw. Qed.

Lemma stays_attempt n o : stays o (set_attempt n o).
Proof. split; simpl; try done; [lia|by left]. Qed.
Lemma stays_submitted tx o : stays o (set_submitted tx o).
Proof. split; simpl; try done. by left. Qed.
Lemma stays_pending p o : stays o (set_pending p o).
Proof. split; simpl; try done. by left. Qed.
Lemma stays_identity i o : stays o (set_identity i o).
Proof. split; simpl; try done. by left. Qed.
Lemma stays_paid c o : evidence wallet cfg seen o → stays o (set_paid c o).
Proof. intros He. split; simpl; try done. intros _. right. by eapply evidence_terms. Qed.

(** A step of which nothing is used but that it is safe. *)
Ltac any_step :=
  apply (bind (λ _ _, True));
  [first [apply safe_client | by apply safe_read | by apply safe_pure]|intros ? ? _ _].

Lemma safe_await tx s : safe (λ _ _, True) (await_task cfg tx) s.
Proof.
  unfold await_task. destruct (confirm_without_waiting cfg); [done|].
  apply catching; [any_step|intros]; by apply safe_ret.
Qed.

Lemma safe_submit auth s :
  safe (λ tx _, re_0xhex 64 tx = true) (submit_task wallet auth) s.
Proof.
  unfold submit_task. do 8 any_step.
  apply (bind (λ _ _, True)).
  { apply catching; [any_step; by apply safe_pure|intros; by apply safe_ret]. }
  intros gas_price s1 _ _. any_step. apply safe_rpc.
  intros s2 tx s3 E _. by apply send_raw_hash in E.
Qed.

(** The answer of a payment that is not settled claims nothing. *)
Lemma truthful_unsettled d s : dict_get "settled" d = VBool false → truthful d s.
Proof. intros Hd Ht. congruence. Qed.

Lemma truthful_settled k tx s : paid_in k s → truthful (settled_response k tx true) s.
Proof. intros Hp _. by exists k. Qed.

(** The confirmer's step: an index comes with evidence for the order. *)
Lemma safe_index o auth from nonce tx receipt s :
  dict_item "from" auth = Ok from → dict_item "nonce" auth = Ok nonce →
  safe (λ index _, ∀ i, index = Some i → evidence wallet cfg seen o)
    (rpc_step (Confirmer.settlement_log_index confirmer
       (confirm_query cfg o (py_str wallet from) (py_str wallet nonce) tx) receipt (created_block o))) s.
Proof.
  intros Hf Hn. apply safe_rpc. intros s1 index s2 E Hs i ->.
  apply Confirmer.confirmed_evidence in E. exists auth, tx, i, s2. split; [done|].
  by exists from, nonce, receipt, s1.(rpc).
Qed.

(** The order paid, then identified: the last steps of a confirmation. *)
Lemma safe_settle o tx i s :
  held wallet cfg seen o s → evidence wallet cfg seen o →
  let k := order_id o in
  safe (truthful (W:=W))
    (order_step k (set_paid ("premium-content::" +:+ k)) ;;
     identity ← pure_task (Reconciliation.make_identity (chain_id cfg) (token_address cfg) tx i);
     order_step k (set_identity identity) ;;
     mret (settled_response k tx true)) s.
Proof.
  intros Hh He. cbv zeta. apply (bind (λ _, paid_in (order_id o))).
  { apply safe_order.
    - intros s1 o1 Hg Ho1 Hw. pose proof (held_stable _ _ _ _ _ _ Hg Hh) as (o2 & Ho2 & Hev).
      assert (o2 = o1) as -> by congruence. split; [|by apply wf_paid].
      apply stays_paid. by eapply evidence_terms; [apply Hev|apply Hev|].
    - intros s1 s2 Hg _ Ho2. pose proof (held_stable _ _ _ _ _ _ Hg Hh) as (o1 & Ho1 & _).
      rewrite Ho1 in Ho2. by eexists. }
  intros _ s1 _ Hp. apply (bind (λ id s2, paid_in (order_id o) s2 ∧
    Reconciliation.make_identity (chain_id cfg) (token_address cfg) tx i = Ok id)).
  { apply safe_pure. by intros id ->. }
  intros id s2 _ [Hp2 Hid]. apply (bind (λ _, paid_in (order_id o))).
  { apply safe_order.
    - intros s3 o3 Hg Ho3 Hw. split; [apply stays_identity|].
      apply (paid_in_stable _ _ _ _ _ _ Hg) in Hp2 as (o4 & Ho4 & Hp4).
      assert (o4 = o3) as -> by congruence. by eapply wf_identity.
    - intros s3 s4 Hg Hg4 _. by eapply paid_in_stable; [|eapply paid_in_stable]. }
  intros _ s3 _ Hp3. by apply safe_ret, truthful_settled.
Qed.

Lemma safe_confirm o auth tx s :
  held wallet cfg seen o s → safe (truthful (W:=W)) (confirm_task wallet o auth tx) s.
Proof.
  intros Hh. unfold confirm_task.
  apply (bind (λ self _, config self = cfg)); [by apply safe_read; intros ? _ []|].
  intros self s1 Hg1 ->. apply (bind (λ _ _, True)); [apply safe_await|].
  intros outcome s2 Hg2 _.
  assert (∀ p s, safe (λ _ _, True) (order_step (order_id o) (set_pending p)) s) as Hpend
    by (intros; apply safe_assign; [apply stays_pending|by intros; apply wf_pending]).
  destruct outcome as [receipt|[]]; (apply (bind (λ _ _, True)); [apply Hpend|]); intros _ s3 Hg3 _.
  2: { by apply safe_ret, truthful_unsettled. }
  apply (bind (λ from _, dict_item "from" auth = Ok from)); [by apply safe_pure|].
  intros from s4 Hg4 Hfrom.
  apply (bind (λ nonce _, dict_item "nonce" auth = Ok nonce)); [by apply safe_pure|].
  intros nonce s5 Hg5 Hnonce. eapply bind; [by eapply safe_index|].
  intros [i|] s6 Hg6 He; [|by apply safe_ret, truthful_unsettled].
  apply safe_settle; [|by apply (He i)].
  eapply held_stable; [|exact Hh]. by repeat (etrans; [eassumption|]).
Qed.

(** The terms of an order in a sound ledger are those of its key. *)
Lemma held_lookup s k o :
  sound cfg s → orders s !! k = Some o → order_id o = k ∧ held wallet cfg seen o s.
Proof.
  intros [_ Hl] Ho. pose proof (owf_id _ _ _ (Hl _ _ Ho)) as Hk. split; [done|].
  exists o. rewrite Hk. split; [done|apply evolved_refl].
Qed.

Lemma safe_submitted o k auth nonce s :
  order_id o = k → held wallet cfg seen o s →
  safe (truthful (W:=W))
    (order_step k (set_attempt nonce) ;;
     tx_hash ← submit_task wallet auth;
     order_step k (set_submitted tx_hash) ;;
     confirm_task wallet o auth tx_hash) s.
Proof.
  intros Hk Hh. apply (bind (λ _ _, True)).
  { apply safe_assign; [apply stays_attempt|apply wf_attempt]. }
  intros _ s1 Hg1 _. eapply bind; [apply safe_submit|]. intros tx s2 Hg2 Htx.
  apply (bind (λ _ _, True)).
  { apply safe_assign; [apply stays_submitted|]. intros o1. by apply wf_submitted. }
  intros _ s3 Hg3 _. apply safe_confirm.
  eapply held_stable; [|exact Hh]. by repeat (etrans; [eassumption|]).
Qed.

Lemma safe_pay k auth now s : safe (truthful (W:=W)) (pay_task wallet k auth now) s.
Proof.
  unfold pay_task. eapply (bind (λ self s1, self = s1 ∧ sound cfg s1)); [by apply safe_read|].
  intros self s1 _ [-> Hs].
  destruct (orders s1 !! k) as [o|] eqn:Ho; [|by apply safe_ret, truthful_unsettled].
  destruct (held_lookup _ _ _ Hs Ho) as [Hk Hh].
  destruct (paid o && idempotent_pay (config s1)) eqn:Hp.
  { apply safe_ret. intros _. exists k. split; [done|]. exists o. by apply andb_true_iff in Hp as []. }
  set (fresh := if expires_at o <? now then _ else _).
  assert (safe (truthful (W:=W)) fresh s1) as Hfresh; [|].
  2: { by destruct (pending_tx o), (pending_authorization o), (idempotent_pay (config s1));
         try apply Hfresh; apply safe_confirm. }
  unfold fresh. destruct (expires_at o <? now); [by apply safe_ret, truthful_unsettled|].
  apply (bind (λ _ _, True)); [by apply safe_pure|]. intros [] s2 Hg2 _;
    [by apply safe_ret, truthful_unsettled|].
  apply (bind (λ _ _, True)); [by apply safe_pure|]. intros nonce s3 Hg3 _.
  apply safe_submitted; [done|]. eapply held_stable; [|exact Hh]. by etrans.
Qed.

Lemma safe_handler body now s : safe (truthful (W:=W)) (pay_handler wallet body now) s.
Proof. unfold pay_handler. any_step. case_match. apply safe_pay. Qed.
End keeps.

(** ** The server *)

(** A payment arrives. *)
Inductive paying `{Transport W} (wallet : Wallet) : task (ReferenceSut W) pydict → Prop :=
  | paying_order body now : paying wallet (pay_handler wallet body now).

(** What happens between the steps of the payments: a quote under an id that is
    not taken, a status or resource request, a move of the price oracle, a move
    of the world. *)
Inductive between `{Transport W} (s : ReferenceSut W) : ReferenceSut W → Prop :=
  | between_quote token now :
      orders s !! ("ord_" +:+ token) = None → between s (quote token now s).2
  | between_status oid : between s (status oid s).2
  | between_resource oid : between s (resource_endpoint oid s).2
  | between_fair_price p :
      between s {| config := config s; orders := orders s; rpc := rpc s; fair_price := p |}
  | between_world w : between s (set_rpc {| _id := _id (rpc s); world := w |} s).

(** Requests in flight, served in any interleaving. *)
Definition serves `{Transport W} (wallet : Wallet) :
    relation (pool (ReferenceSut W) pydict) :=
  rtc (turn (paying wallet) between).

(** The states of the runs that start at [s0] with no request in flight. *)
Definition visited `{Transport W} (wallet : Wallet) (s0 s : ReferenceSut W) : Prop :=
  ∃ ts, serves wallet (s0, []) (s, ts).

Lemma between_grows `{Transport W} wallet cfg seen (s s' : ReferenceSut W) :
  sound cfg s → between s s' → ledger_grows wallet cfg seen s s' ∧ sound cfg s'.
Proof.
  intros [Hc Hl] Hb.
  assert (∀ s' : ReferenceSut W, config s' = config s → orders s' = orders s →
    ledger_grows wallet cfg seen s s' ∧ sound cfg s') as Hsame.
  { intros s1 E1 E2. split; [split; [done|]|split; [by rewrite E1|by rewrite E2]].
    rewrite E2. apply (reflexivity (R:=ledger_grows wallet cfg seen) s). }
  destruct Hb as [token now Hn|oid|oid|p|w]; try by apply Hsame.
  destruct (quote token now s) as [r s'] eqn:E.
  apply quote_run in E as (E1 & _ & [[E2 _]|[b E2]]); [by apply Hsame|].
  split; [split; [done|]|split; [by rewrite <- Hc|]]; simpl; rewrite E2.
  - intros k. destruct (decide (k = "ord_" +:+ token)) as [->|Hne].
    + by rewrite Hn, lookup_insert_eq.
    + rewrite lookup_insert_ne by done. apply (reflexivity (R:=ledger_grows wallet cfg seen) s).
  - apply map_Forall_insert_2; [|done]. apply new_order_wf. by rewrite Hc.
Qed.

Lemma serving_safe `{Transport W} wallet cfg (s0 s : ReferenceSut W) ts :
  sound cfg s0 → serves wallet (s0, []) (s, ts) →
  let seen := visited wallet s0 in
  let grows := ledger_grows wallet cfg seen in
  grows s0 s ∧ sound cfg s ∧ Forall (λ t, safe (sound cfg) seen grows truthful t s) ts.
Proof.
  intros Hs Hr. apply (pool_safe (paying wallet) between (sound cfg)
    (ledger_grows wallet cfg (visited wallet s0)) truthful s0); [| | |done|done].
  - intros d. apply truthful_stable.
  - intros t s1 [body now] _. apply safe_handler.
  - intros s1 s2. apply between_grows.
Qed.

(** * Properties *)


Definition sample_body : pydict := dict_of [
  ("order_id", VStr "ord_01"); ("authorization", VDict sample_authorization)].

(** Two payments of one order, the second past its guards before the first is
    served to the end. *)
Notation sample_race node :=
  (follow ([1%nat] ++ replicate 20 0%nat ++ replicate 20 1%nat)
     (quoted node, [pay_handler (H:=node) sample_wallet sample_body 200;
                    pay_handler (H:=node) sample_wallet sample_body 200])).

Lemma sample_race_serves (node : Transport (list string)) :
  serves (H:=node) sample_wallet (quoted node, []) (sample_race node).
Proof.
  unfold serves. eapply rtc_l; [apply turn_accept, (paying_order (H:=node))|].
  eapply rtc_l; [apply turn_accept, (paying_order (H:=node))|]. apply follow_turns.
Qed.

Lemma sample_quoted_sound (node : Transport (list string)) :
  ledger_wf (without_idempotency (sample_config 84532)) (orders (quoted node)).
Proof.
  destruct (between_grows (H:=node) sample_wallet (sample_config 84532) (λ _, True)
              (sample_sut 84532) (quoted node)) as [_ [_ Hl]]; [|by apply between_quote|exact Hl].
  split; [done|apply map_Forall_empty].
Qed.


(** A payment that is served alone does what [ReferenceSut.pay_endpoint] does, and
    its thread ends. *)
Theorem payment_alone `{Transport W} wallet body now (s : ReferenceSut W) r s' :
  pay_endpoint wallet body now s = (r, s') →
  rtc (turn (paying wallet) between) (s, [pay_handler wallet body now]) (s', [Finished r]).
Proof. intros E. apply alone. by rewrite pay_handler_alone. Qed.

(** ** What concurrency breaks *)

(** How many settlements the node was sent. *)
Definition broadcasts (s : ReferenceSut (list string)) : nat :=
  length (filter (λ m, m = "eth_sendRawTransaction") (world (rpc s))).

(** In an idempotent system the second payment, past its guards, broadcasts the
    settlement of an order that is paid and whose first client was told so; one
    request after the other, the second only reads ([retry_only_reads]). *)
Example paid_order_is_broadcast_again :
  let node := sample_node true in
  let start := (quoted node, [pay_handler (H:=node) sample_wallet sample_body 200;
                              pay_handler (H:=node) sample_wallet sample_body 200]) in
  let first := follow ([1] ++ replicate 20 0)%nat start in
  let both := follow (replicate 20 1)%nat first in
  idempotent_pay (config (quoted node)) = true
  ∧ paid <$> orders first.1 !! "ord_01" = Some true ∧ broadcasts first.1 = 1%nat
  ∧ broadcasts both.1 = 2%nat ∧ settle_attempts <$> orders both.1 !! "ord_01" = Some 2
  ∧ both.2 !! 0%nat = Some (Finished (Ok (settled_response "ord_01" sample_tx true)))
  ∧ both.2 !! 1%nat = Some (Finished (Ok (settled_response "ord_01" sample_tx true))).
Proof. vm_compute. done. Qed.
