(* ===== verification/Contract.v ===== *)
(** * The reference system meets the adapter contract

    [psv/reference_sut/server.py] promises the harness what [psv/sut.py] parses.
    The theorems compose the two: every answer of a well-formed reference system
    is accepted by the strict parsers, for the order that was asked about, and
    what the adapter then believes (quote, outcome, status) is what the ledger
    holds.

    [SutSystem] and [SutContract] are the interface: a client of the adapter may rely on it for
    any system, and the reference system is an instance. *)

From S2P Require Import Prelude PyStr PyVal Anvil.
From S2P Require Sut ReferenceSut.
Local Open Scope Z_scope.

(** ** The interface *)

(** The ledger of a system as the harness can know it: for an order, whether it
    is paid, its resource, the transaction it names and whether that is still in
    flight. *)
Record order_view := {
  view_paid : bool;
  view_resource : option string;
  view_tx : option string;
  view_in_flight : bool
}.

(** A system with states [S], invariant [I], ledger [view] and the two
    operations that answer about an order; a payment takes inputs [X]. *)
Class SutSystem (S X : Type) := {
  sys_inv : S → Prop;
  sys_view : S → string → option order_view;
  sys_pay : string → X → prog S pydict;
  sys_status : string → prog S pydict
}.

(** The adapter's belief in a pay answer is the ledger's view of the order. *)
Definition belief_agrees (r : Sut.PayResult) (v : order_view) : Prop :=
  (Sut.outcome r = Sut.SETTLED ↔ view_paid v = true)
  ∧ (Sut.outcome r = Sut.PENDING ↔ view_in_flight v = true)
  ∧ (Sut.outcome r ≠ Sut.UNSETTLED → Sut.pay_submitted_tx r = view_tx v).

(** What the harness relies on: the invariant is kept, every answer parses for
    its order, and the parsed belief is the ledger's. *)
Class SutContract (S X : Type) `{SutSystem S X} := {
  contract_pay : ∀ k x (s s' : S) d,
    sys_inv s → Sut.order_id_ok k → sys_pay k x s = (Ok d, s') →
    sys_inv s' ∧ ∃ r, Sut.parse_pay (VDict d) (Some k) = Ok r
      ∧ match sys_view s' k with
        | Some v => belief_agrees r v
        | None => Sut.outcome r = Sut.UNSETTLED
        end;
  contract_status : ∀ k (s s' : S) d,
    sys_inv s → Sut.order_id_ok k → sys_status k s = (Ok d, s') →
    s' = s ∧ ∃ r, Sut.parse_status (VDict d) (Some k) = Ok r
      ∧ match sys_view s k with
        | Some v => Sut.paid r = view_paid v ∧ Sut.resource r = view_resource v
                    ∧ Sut.status_submitted_tx r = view_tx v
        | None => Sut.paid r = false ∧ Sut.resource r = None
        end
}.

(** A harness run against any system: pay, then ask for the status. *)
Section harness.
Context {S X : Type} `{SutContract S X}.

Definition pay_then_status (k : string) (x : X) : prog S (Sut.PayResult * Sut.Status) :=
  d ← sys_pay k x;
  result ← lift (Sut.parse_pay (VDict d) (Some k));
  e ← sys_status k;
  st ← lift (Sut.parse_status (VDict e) (Some k));
  mret (result, st).
End harness.

(** ** The reference system is an instance *)

Definition view_of (o : ReferenceSut.Order) : order_view := {|
  view_paid := ReferenceSut.paid o;
  view_resource := ReferenceSut.resource o;
  view_tx := ReferenceSut.submitted_tx o;
  view_in_flight := bool_decide (is_Some (ReferenceSut.pending_tx o)) |}.

Section instance.
Context `{Transport W} (wallet : ReferenceSut.Wallet).
Notation sut := (ReferenceSut.ReferenceSut W).

(** Idempotent and well formed. *)
Definition reference_inv (s : sut) : Prop :=
  ReferenceSut.idempotent_pay (ReferenceSut.config s) = true
  ∧ ReferenceSut.ledger_wf (ReferenceSut.config s) (ReferenceSut.orders s).

#[local] Instance reference_system : SutSystem sut (pydict * Z) := {
  sys_inv := reference_inv;
  sys_view s k := view_of <$> ReferenceSut.orders s !! k;
  sys_pay k x := ReferenceSut.pay wallet k x.1 x.2;
  sys_status := ReferenceSut.status
}.

(** The reading of an answer. *)
Definition answer k tx b reason : Sut.PayResult := {|
  Sut.pay_order_id := k; Sut.pay_submitted_tx := tx; Sut.settled := b; Sut.reason := reason |}.

Lemma refused_unsettled k reason : Sut.outcome (answer k None false (Some reason)) = Sut.UNSETTLED.
Proof.
  unfold Sut.outcome. simpl. by destruct (bool_decide (Some reason = _)).
Qed.

Lemma text_ok_short s : s ≠ "" → str_len s ≤ 1000 → Sut.text_ok s.
Proof. unfold Sut.text_ok, Sut._MAX_TEXT_CHARS. intros. split; [done|lia]. Qed.

Lemma settled_parses k tx b :
  Sut.order_id_ok k → re_0xhex 64 tx = true →
  Sut.parse_pay (VDict (ReferenceSut.settled_response k tx b)) (Some k) = Ok (answer k (Some tx) b None).
Proof.
  intros Hk Ht. apply Sut.parse_pay_ok. eexists. split; [done|]. split; simpl; try done.
  - repeat constructor; by eexists.
  - split; [done|]. by intros h [= <-].
Qed.

Lemma pending_parses k tx :
  Sut.order_id_ok k → re_0xhex 64 tx = true →
  Sut.parse_pay (VDict (ReferenceSut.pending_response k tx)) (Some k)
  = Ok (answer k (Some tx) false (Some Sut.SETTLEMENT_PENDING)).
Proof.
  intros Hk Ht. apply Sut.parse_pay_ok. eexists. split; [done|]. split; simpl; try done.
  - repeat constructor; by eexists.
  - split; [done|]. intros s [= <-]. by apply text_ok_short.
  - split; [done|]. by intros h [= <-].
Qed.

Lemma refused_parses k reason :
  Sut.order_id_ok k → Sut.text_ok reason →
  Sut.parse_pay (VDict (ReferenceSut.refused_response k reason)) (Some k)
  = Ok (answer k None false (Some reason)).
Proof.
  intros Hk Hr. apply Sut.parse_pay_ok. eexists. split; [done|]. split; simpl; try done.
  - repeat constructor; by eexists.
  - split; [done|]. by intros s [= <-].
Qed.

Lemma cached_parses k tx :
  Sut.order_id_ok k → (∀ h, tx = Some h → re_0xhex 64 h = true) →
  Sut.parse_pay (VDict (ReferenceSut.cached_response k tx)) (Some k) = Ok (answer k tx true None).
Proof.
  intros Hk Ht. apply Sut.parse_pay_ok. eexists. split; [done|]. split; simpl; try done.
  repeat constructor; by eexists.
Qed.

Lemma confirm_answer cfg k o0 o a tx s' d f :
  ReferenceSut.confirm_effect (W:=W) wallet cfg o0 a tx s' (Ok d) f →
  ReferenceSut.order_id o0 = k → Sut.order_id_ok k → re_0xhex 64 tx = true →
  ReferenceSut.paid o = false → ReferenceSut.submitted_tx o = Some tx →
  ∃ r, Sut.parse_pay (VDict d) (Some k) = Ok r ∧ belief_agrees r (view_of (f o)).
Proof.
  intros Hf <- Hk Ht Hp Hs. inversion Hf; subst.
  - eexists. split; [by apply pending_parses|]. unfold belief_agrees. simpl. by rewrite Hp, Hs.
  - eexists. split; [by apply settled_parses|]. unfold belief_agrees. simpl. by rewrite Hp.
  - eexists. split; [by apply settled_parses|]. unfold belief_agrees. simpl. by rewrite Hs.
Qed.

Lemma pay_answer cfg k o a s' d f :
  ReferenceSut.pay_effect (W:=W) wallet cfg o a s' (Ok d) f →
  ReferenceSut.idempotent_pay cfg = true → ReferenceSut.order_wf cfg k o → Sut.order_id_ok k →
  ∃ r, Sut.parse_pay (VDict d) (Some k) = Ok r ∧ belief_agrees r (view_of (f o)).
Proof.
  intros Hf Hi Hwf Hk. pose proof (ReferenceSut.owf_id _ _ _ Hwf) as Hid.
  inversion Hf as [Hp|reason Hsub Hr|e|tx b r f' _ Hp Ht Ha Hc|n e|n tx r f' Hsub Ht Hc]; subst.
  - eexists. split; [apply cached_parses; [done|apply (ReferenceSut.owf_hash _ _ _ Hwf)]|].
    unfold belief_agrees. simpl. rewrite Hp.
    destruct (ReferenceSut.pending_tx o) as [h|] eqn:E; [|done].
    destruct (ReferenceSut.owf_in_flight _ _ _ Hwf Hi h E). congruence.
  - eexists. split; [apply refused_parses; [done|]|].
    { destruct (proj1 (elem_of_cons _ _ _) Hr) as [->|Hr'%list_elem_of_singleton]; subst; by apply text_ok_short. }
    destruct (Hsub Hi) as [Hp Hn].
    assert (ReferenceSut.pending_tx o = None) as Hpn.
    { destruct (ReferenceSut.pending_tx o) eqn:E; [|done]. destruct Hn as [|Hn]; [done|].
      destruct (proj1 (ReferenceSut.owf_pending _ _ _ Hwf)) as [? ?]; [by rewrite E|congruence]. }
    unfold belief_agrees. rewrite refused_unsettled. simpl. by rewrite Hp, Hpn.
  - destruct (ReferenceSut.owf_in_flight _ _ _ Hwf Hi _ Ht) as [_ Hs].
    eapply confirm_answer; try done. by apply (ReferenceSut.owf_hash _ _ _ Hwf).
  - destruct (Hsub Hi) as [Hp _].
    by apply (confirm_answer cfg (ReferenceSut.order_id o) o
      (ReferenceSut.set_submitted tx (ReferenceSut.set_attempt n o)) a tx s').
Qed.

Lemma reference_pay k x s s' d :
  reference_inv s → Sut.order_id_ok k → ReferenceSut.pay wallet k x.1 x.2 s = (Ok d, s') →
  reference_inv s' ∧ ∃ r, Sut.parse_pay (VDict d) (Some k) = Ok r
    ∧ match view_of <$> ReferenceSut.orders s' !! k with
      | Some v => belief_agrees r v
      | None => Sut.outcome r = Sut.UNSETTLED
      end.
Proof.
  intros [Hi Hl] Hk E. split.
  { pose proof (ReferenceSut.pay_config wallet _ k x.1 x.2 s Hl) as Hc.
    pose proof (ReferenceSut.pay_wf wallet _ k x.1 x.2 s eq_refl Hl) as Hl'.
    rewrite E in Hc, Hl'. simpl in *. unfold reference_inv. by rewrite Hc. }
  destruct (ReferenceSut.orders s !! k) as [o|] eqn:Ho.
  - pose proof (Hl _ _ Ho) as Hwf.
    destruct (ReferenceSut.pay_run _ _ _ _ _ _ _ _ E Ho (ReferenceSut.owf_id _ _ _ Hwf)) as (f & Ht & He).
    destruct (pay_answer _ k _ _ _ _ _ He Hi Hwf Hk) as (r & Hr & Hb).
    exists r. split; [done|]. by rewrite (ReferenceSut.touch_lookup _ _ _ _ _ Ht Ho).
  - rewrite ReferenceSut.pay_unknown in E by done. injection E as <- <-.
    eexists. split; [apply refused_parses; [done|]; by apply text_ok_short|]. rewrite Ho.
    apply refused_unsettled.
Qed.

Lemma content_text k o cfg c :
  ReferenceSut.order_wf cfg k o → Sut.order_id_ok k → ReferenceSut.resource o = Some c → Sut.text_ok c.
Proof.
  intros Hwf (_ & Hlen & _) Hc. unfold Sut._MAX_ORDER_ID_CHARS in Hlen.
  destruct (ReferenceSut.owf_content _ _ _ Hwf c Hc) as [->|(h & Hh & ->)]; apply text_ok_short; try done.
  - unfold str_len in *. rewrite str_length_app. simpl. lia.
  - apply re_0xhex_spec in Hh as (d & -> & Hd & _). unfold str_len. rewrite !str_length_app, Hd. simpl. lia.
Qed.

Lemma reference_status k s s' d :
  reference_inv s → Sut.order_id_ok k → ReferenceSut.status k s = (Ok d, s') →
  s' = s ∧ ∃ r, Sut.parse_status (VDict d) (Some k) = Ok r
    ∧ match view_of <$> ReferenceSut.orders s !! k with
      | Some v => Sut.paid r = view_paid v ∧ Sut.resource r = view_resource v
                  ∧ Sut.status_submitted_tx r = view_tx v
      | None => Sut.paid r = false ∧ Sut.resource r = None
      end.
Proof.
  intros [Hi Hl] Hk E. unfold ReferenceSut.status in E. rewrite ReferenceSut.bind_get_state in E.
  injection E as <- <-. split; [done|].
  destruct (ReferenceSut.orders s !! k) as [o|] eqn:Ho.
  - pose proof (Hl _ _ Ho) as Hwf.
    exists {| Sut.status_order_id := k; Sut.paid := ReferenceSut.paid o;
              Sut.resource := ReferenceSut.resource o;
              Sut.status_submitted_tx := ReferenceSut.submitted_tx o |}.
    split; [|done]. apply Sut.parse_status_ok. eexists. split; [done|]. split; simpl; try done.
    + repeat constructor; by eexists.
    + split; [by destruct (ReferenceSut.resource o)|]. intros c. by eapply content_text.
    + split; [by destruct (ReferenceSut.submitted_tx o)|]. apply (ReferenceSut.owf_hash _ _ _ Hwf).
  - exists {| Sut.status_order_id := k; Sut.paid := false; Sut.resource := None;
              Sut.status_submitted_tx := None |}.
    split; [|done]. apply Sut.parse_status_ok. eexists. split; [done|]. split; simpl; try done.
    repeat constructor; by eexists.
Qed.

#[local] Instance reference_contract : SutContract sut (pydict * Z).
Proof. split; [apply reference_pay|apply reference_status]. Qed.
End instance.


(** * Properties *)

(** What a payer is told is what an auditor reads.  Against any system that
    meets the contract: when a payment and the status request after it return,
    the parsed outcome is SETTLED exactly when the parsed status says paid, and
    unless the outcome is UNSETTLED both name the same transaction. *)
Theorem told_as_recorded {S X : Type} `{SutContract S X} k (x : X) (s s' : S) result st :
  sys_inv s → Sut.order_id_ok k → pay_then_status k x s = (Ok (result, st), s') →
  sys_inv s'
  ∧ (Sut.outcome result = Sut.SETTLED ↔ Sut.paid st = true)
  ∧ (Sut.outcome result ≠ Sut.UNSETTLED →
     Sut.pay_submitted_tx result = Sut.status_submitted_tx st).
Proof.
  unfold pay_then_status.
  intros Hs Hk (d & s1 & Ep & (r & s2 & [Er ->]%lift_ok &
    (e & s3 & Es & (t & s4 & [Et ->]%lift_ok & [[= -> ->] ->]%mret_ok)%prog_bind_ok)%prog_bind_ok)%prog_bind_ok)%prog_bind_ok.
  destruct (contract_pay _ _ _ _ _ Hs Hk Ep) as (Hs1 & r' & Er' & Hb).
  destruct (contract_status _ _ _ _ Hs1 Hk Es) as (-> & t' & Et' & Hv).
  rewrite Er in Er'. rewrite Et in Et'. injection Er' as <-. injection Et' as <-.
  split; [done|]. destruct (sys_view s1 k) as [v|].
  - destruct Hv as (-> & _ & ->). by destruct Hb as (? & _ & ?).
  - destruct Hv as [-> _]. rewrite Hb. by split.
Qed.


Lemma sample_quoted_inv node : reference_inv (ReferenceSut.quoted node).
Proof.
  assert (ReferenceSut.config (ReferenceSut.quoted node) = ReferenceSut.sample_config 84532) as Hc.
  { unfold ReferenceSut.quoted.
    destruct (ReferenceSut.quote (H:=node) "01" 100 (ReferenceSut.sample_sut 84532)) as [r s'] eqn:E.
    simpl. by apply ReferenceSut.quote_run in E as [-> _]. }
  unfold reference_inv. rewrite Hc. split; [done|].
  apply (ReferenceSut.quote_wf (H:=node) (ReferenceSut.sample_config 84532) "01" 100); [done|].
  apply map_Forall_empty.
Qed.

Lemma sample_order_id : Sut.order_id_ok "ord_01".
Proof. by repeat split. Qed.

Definition sample_inputs : pydict * Z := (ReferenceSut.sample_authorization, 200).

(** The harness pays the sample order and reads its status. *)
Definition sample_harness (node : Transport (list string)) :=
  pay_then_status (H:=reference_system (H:=node) ReferenceSut.sample_wallet) "ord_01" sample_inputs
    (ReferenceSut.quoted node).

Lemma told_as_recorded_witness :
  ∃ r st, fst (sample_harness (ReferenceSut.sample_node true)) = Ok (r, st)
    ∧ Sut.outcome r = Sut.SETTLED ∧ Sut.paid st = true.
Proof.
  destruct (sample_harness (ReferenceSut.sample_node true)) as [[[r st]|e] s'] eqn:E.
  - exists r, st. split; [reflexivity|].
    assert (Sut.outcome r = Sut.SETTLED) as Hr.
    { assert (Sut.outcome <$> (fst <$> fst (sample_harness (ReferenceSut.sample_node true)))
              = Ok Sut.SETTLED) as Ho by (vm_compute; reflexivity).
      rewrite E in Ho. injection Ho as Ho. exact Ho. }
    split; [exact Hr|].
    exact (proj1 (proj1 (proj2 (told_as_recorded
      (H:=reference_system (H:=ReferenceSut.sample_node true) ReferenceSut.sample_wallet)
      (H0:=reference_contract (H:=ReferenceSut.sample_node true) ReferenceSut.sample_wallet)
      "ord_01" sample_inputs _ s' r st (sample_quoted_inv _) sample_order_id E))) Hr).
  - exfalso.
    assert (is_ok (fst (sample_harness (ReferenceSut.sample_node true))) = true) as Ho
      by (vm_compute; reflexivity).
    rewrite E in Ho. discriminate Ho.
Defined.

