(* ===== verification/Script.v ===== *)
(** * Scripts of the repository ([src/tools/])

    The checks that run in continuous integration print lines and return an exit
    status; what a script has printed is its state. *)

From S2P Require Import Prelude.

(** The lines printed so far. *)
Notation script := (prog (list string)).
Definition print (line : string) : script unit := modify (λ out, out ++ [line]).
Fixpoint print_all (lines : list string) : script unit :=
  match lines with [] => mret tt | line :: lines => print line ;; print_all lines end.

Lemma print_all_run lines out : print_all lines out = (Ok tt, out ++ lines).
Proof.
  revert out. induction lines as [|line lines IH]; intros out; simpl; [by rewrite app_nil_r|].
  unfold mbind, prog_bind, print, modify. by rewrite IH, <- app_assoc.
Qed.
