(* ===== verification/SupportMatrix.v ===== *)
(** * The support matrix ([src/tools/validate_support_matrix.py])

    The registry of scenarios and the tests it names.  A registry passes exactly
    when it is [well_formed]; the script exits with 0 exactly then and otherwise
    lists the errors.

    The files of the repository and Python's own parser are parameters. *)

From S2P Require Import Prelude PyStr PyText PyVal PyJson Script.
Local Open Scope Z_scope.

Definition REQUIRED_FIELDS : list string :=
  ["id"; "phase"; "severity"; "test"; "environment"; "status"].
Definition STATUSES : list string := ["implemented"; "passive"; "planned"; "out-of-scope"].
Definition shipped : list string := ["implemented"; "passive"].

(** [repr] of a decoded value *)
Definition float_text (f : spec_float) : string :=
  match f with
  | S754_nan => "nan"
  | S754_infinity s => if s then "-inf" else "inf"
  | _ => float_repr f
  end.
Fixpoint py_repr (v : pyval) : string :=
  match v with
  | VNone => "None"
  | VBool b => if b then "True" else "False"
  | VInt n => str_of_Z n
  | VFloat f => float_text f
  | VStr s => str_repr s
  | VList l => "[" +:+ join ", " (py_repr <$> l) +:+ "]"
  | VDict d =>
      "{" +:+ join ", " ((λ kv, match kv.1 with KStr k => str_repr k | KOther t => t end
                                +:+ ": " +:+ py_repr kv.2) <$> d) +:+ "}"
  | VOther t => t
  end.
(** [str] of it, as an f-string shows it *)
Definition py_show (v : pyval) : string := match v with VStr s => s | _ => py_repr v end.

(** [set] membership hashes the value first. *)
Definition member (v : pyval) (names : list string) : res bool :=
  match v with
  | VStr s => Ok (bool_decide (s ∈ names))
  | VList _ => raise TypeError "unhashable type: 'list'"
  | VDict _ => raise TypeError "unhashable type: 'dict'"
  | _ => Ok false
  end.

(** [s.split(sep, maxsplit=1)] as a pair, if there are two parts *)
Fixpoint split_once (sep s : string) : option (string * string) :=
  if startswith sep s then Some ("", str_drop (String.length sep) s)
  else match s with
       | EmptyString => None
       | String c r => '(a, b) ← split_once sep r; Some (String c a, b)
       end.

(** The statements of a module body, as far as they are looked at. *)
Inductive stmt :=
  | FunctionDef (name : string)
  | AsyncFunctionDef (name : string)
  | OtherStmt.
Definition defines (function : string) (s : stmt) : bool :=
  match s with
  | FunctionDef name | AsyncFunctionDef name => (name =? function)%string
  | OtherStmt => false
  end.

Section registry.
(** Files under the root of the repository, by their relative paths; Python's
    parser, on a source text. *)
Context (is_file : string → bool) (read_text : string → res string)
  (parse : string → res (list stmt)).

Definition _test_exists (selector : string) : res bool :=
  match split_once "::" selector with
  | None => Ok false
  | Some (relative, function) =>
      if negb (startswith "tests/" relative) || negb (is_file relative)
         || negb (startswith "test_" function)
      then Ok false
      else
        text ← read_text relative;
        tree ← parse text;
        Ok (existsb (defines function) tree)
  end.

Definition scenario_error (index : Z) (what : string) : string :=
  "scenario " +:+ str_of_Z index +:+ " " +:+ what.

(** One id: the error it gives and the ids seen after it. *)
Definition check_id (index : Z) (scenario_id : pyval) (seen : list string)
    : list string * list string :=
  match scenario_id with
  | VStr s =>
      if (s =? "")%string then ([scenario_error index "has invalid id"], seen)
      else if bool_decide (s ∈ seen) then (["duplicate scenario id: " +:+ s], seen)
      else ([], s :: seen)
  | _ => ([scenario_error index "has invalid id"], seen)
  end.

Definition check_test (scenario_id status selector : pyval) : res (list string) :=
  is_shipped ← member status shipped;
  if (is_shipped : bool) then
    exists_ ← match selector with VStr s => _test_exists s | _ => Ok false end;
    Ok (if exists_ : bool then []
        else [py_show scenario_id +:+ ": registered test does not exist: " +:+ py_repr selector])
  else Ok (match selector with
           | VNone => []
           | _ => [py_show scenario_id +:+ ": non-shipped scenarios must use a null test"]
           end).

(** The body of the loop: the errors of one scenario and the ids seen after it. *)
Definition check_scenario (index : Z) (raw : pyval) (seen : list string)
    : res (list string * list string) :=
  match raw with
  | VDict d =>
      let missing := filter (λ f, dict_has f d = false) REQUIRED_FIELDS in
      match missing with
      | _ :: _ =>
          Ok ([scenario_error index ("is missing "
                 +:+ py_repr (VList (VStr <$> sorted_by String.leb missing)))], seen)
      | [] =>
          scenario_id ← dict_item "id" d;
          let '(id_errors, seen) := check_id index scenario_id seen in
          status ← dict_item "status" d;
          known ← member status STATUSES;
          selector ← dict_item "test" d;
          test_errors ← check_test scenario_id status selector;
          Ok (id_errors
              ++ (if known : bool then []
                  else [py_show scenario_id +:+ ": unsupported status " +:+ py_repr status])
              ++ test_errors, seen)
      end
  | _ => Ok ([scenario_error index "must be an object"], seen)
  end.

Fixpoint check_scenarios (index : Z) (raws : list pyval) (seen : list string)
    : res (list string) :=
  match raws with
  | [] => Ok []
  | raw :: raws =>
      '(errors, seen) ← check_scenario index raw seen;
      rest ← check_scenarios (index + 1) raws seen;
      Ok (errors ++ rest)
  end.

Definition validate_registry (registry : pydict) : res (list string) :=
  let errors := if py_eq (dict_get "schemaVersion" registry) (VStr "1.0") then []
                else ["unsupported schemaVersion"] in
  match dict_get "scenarios" registry with
  | VList scenarios => rest ← check_scenarios 0 scenarios []; Ok (errors ++ rest)
  | _ => Ok (errors ++ ["scenarios must be a list"])
  end.

(** [registry_file] is the checked-in registry as it is read. *)
Definition main (registry_file : res string) : script Z :=
  content ← lift registry_file;
  decoded ← lift (loads content);
  registry ← lift (or_raise (as_dict decoded) AttributeError "object has no attribute 'get'");
  errors ← lift (validate_registry registry);
  match errors with
  | [] => print "Support-matrix validation passed." ;; mret 0
  | _ =>
      print "Support-matrix validation failed:" ;;
      print_all ((λ e, "- " +:+ e) <$> errors) ;;
      mret 1
  end.

(** ** Specification *)

(** A scenario that is shipped names a test that exists; any other names none. *)
Record scenario_ok (d : pydict) (scenario_id : string) : Prop := {
  so_fields f : f ∈ REQUIRED_FIELDS → dict_has f d = true;
  so_id : dict_lookup "id" d = Some (VStr scenario_id) ∧ scenario_id ≠ "";
  so_status : ∃ status, dict_lookup "status" d = Some (VStr status) ∧ status ∈ STATUSES
    ∧ (status ∈ shipped → ∃ selector, dict_lookup "test" d = Some (VStr selector)
                                      ∧ _test_exists selector = Ok true)
    ∧ (status ∉ shipped → dict_lookup "test" d = Some VNone)
}.
Definition scenario_of (raw : pyval) (scenario_id : string) : Prop :=
  ∃ d, raw = VDict d ∧ scenario_ok d scenario_id.

Definition well_formed (registry : pydict) : Prop :=
  dict_get "schemaVersion" registry = VStr "1.0"
  ∧ ∃ scenarios ids, dict_get "scenarios" registry = VList scenarios
      ∧ Forall2 scenario_of scenarios ids ∧ NoDup ids.

(** ** Lemmas *)

Lemma member_str v names b :
  member v names = Ok b → b = true ↔ ∃ s, v = VStr s ∧ s ∈ names.
Proof.
  destruct v; intros [= <-]; try (split; [done|by intros (? & [=] & _)]).
  rewrite bool_decide_eq_true. split; [intros Hin; by eexists|by intros (? & [= ->] & ?)].
Qed.

Lemma check_id_ok index v seen seen' :
  check_id index v seen = ([], seen') ↔
    ∃ s, v = VStr s ∧ s ≠ "" ∧ s ∉ seen ∧ seen' = s :: seen.
Proof.
  unfold check_id. destruct v; try (split; [done|by intros (? & [=] & _)]).
  destruct (String.eqb_spec s "") as [->|Hs]; [split; [done|by intros (? & [= <-] & ? & _)]|].
  case_bool_decide; (split; [try done|intros (? & [= <-] & _ & ? & ->); try done]).
  intros [= <-]. by exists s.
Qed.

Lemma check_test_ok id status selector :
  check_test id (VStr status) selector = Ok [] ↔
    (status ∈ shipped → ∃ s, selector = VStr s ∧ _test_exists s = Ok true)
    ∧ (status ∉ shipped → selector = VNone).
Proof.
  unfold check_test. simpl. case_bool_decide as Hs; cbn [mbind res_bind].
  - destruct selector as [| | | |s| | |];
      try (split; [done|by intros [Hx _]; destruct (Hx Hs) as (? & [=] & _)]).
    destruct (_test_exists s) as [[]|e] eqn:E; cbn [mbind res_bind].
    + split; [intros _; split; [by exists s|done]|done].
    + split; [done|]. intros [Hx _]. destruct (Hx Hs) as (? & [= <-] & ?). congruence.
    + split; [done|]. intros [Hx _]. destruct (Hx Hs) as (? & [= <-] & ?). congruence.
  - destruct selector; (split; [try done|intros [_ Hn]; by specialize (Hn Hs)]).
Qed.

Lemma no_missing_field d :
  filter (λ f, dict_has f d = false) REQUIRED_FIELDS = [] ↔
    ∀ f, f ∈ REQUIRED_FIELDS → dict_has f d = true.
Proof.
  split.
  - intros Hn f Hf. destruct (dict_has f d) eqn:E; [done|].
    assert (f ∈ filter (λ f, dict_has f d = false) REQUIRED_FIELDS) as Hin
      by by apply list_elem_of_filter.
    rewrite Hn in Hin. by apply elem_of_nil in Hin.
  - intros Hall. destruct (filter _ _) as [|f l] eqn:E; [done|].
    assert (f ∈ filter (λ f, dict_has f d = false) REQUIRED_FIELDS) as [Hf Hin]%list_elem_of_filter
      by (rewrite E; by left).
    by rewrite Hall in Hf.
Qed.

Lemma check_scenario_ok index raw seen seen' :
  check_scenario index raw seen = Ok ([], seen') ↔
    ∃ id, scenario_of raw id ∧ id ∉ seen ∧ seen' = id :: seen.
Proof.
  unfold check_scenario. destruct raw as [| | | | | |d|];
    try (split; [done|by intros (? & (? & [=] & _) & _)]).
  pose proof (no_missing_field d) as Hm. destruct (filter _ REQUIRED_FIELDS) as [|f l].
  2: { split; [done|]. intros (id & (? & [= <-] & Hok) & _).
       discriminate (proj2 Hm (so_fields _ _ Hok)). }
  pose proof (proj1 Hm eq_refl) as Hf. clear Hm.
  assert (∀ k, k ∈ REQUIRED_FIELDS → ∃ v, dict_lookup k d = Some v) as Hlook.
  { intros k Hk. specialize (Hf k Hk). unfold dict_has in Hf. destruct (dict_lookup k d); [by eexists|done]. }
  destruct (Hlook "id") as [id Hid]; [set_solver|].
  destruct (Hlook "status") as [status Hstatus]; [set_solver|].
  destruct (Hlook "test") as [selector Htest]; [set_solver|].
  unfold dict_item. rewrite Hid, Hstatus, Htest. cbn [or_raise mbind res_bind].
  pose proof (check_id_ok index id seen) as Hcheck. destruct (check_id index id seen) as [id_errors seen1].
  split.
  - intros E. destruct (member status STATUSES) as [known|] eqn:Hk; [|done]. cbn [mbind res_bind] in E.
    destruct (check_test id status selector) as [errs|] eqn:Ht; [|done].
    injection E as [-> [Ek ->]%app_nil]%app_nil <-. destruct known; [|done].
    destruct (proj1 (member_str _ _ _ Hk) eq_refl) as (t & -> & Hin). apply check_test_ok in Ht as [Hs Hn].
    destruct (proj1 (Hcheck seen1) eq_refl) as (s & -> & Hne & Hnew & ->).
    exists s. split; [|done]. exists d. split; [done|]. split; [done|done|]. exists t. rewrite Htest.
    split; [done|]. split; [done|]. split.
    + intros (x & -> & Hx)%Hs. by exists x.
    + by intros ->%Hn.
  - intros (s & (d' & [= <-] & [_ [Hs Hne] (t & Ht & Hin & Hyes & Hno)]) & Hnew & ->).
    rewrite Hid in Hs. injection Hs as ->. rewrite Hstatus in Ht. injection Ht as ->.
    rewrite Htest in Hyes, Hno. cbn [member]. rewrite (bool_decide_eq_true_2 _ Hin). cbn [mbind res_bind].
    rewrite (proj2 (check_test_ok _ _ _)); [cbn [mbind res_bind]|].
    + assert ((id_errors, seen1) = ([], s :: seen)) as [= -> ->] by (apply Hcheck; by exists s). done.
    + split; [intros (x & [= ->] & Hx)%Hyes; by exists x|by intros [= ->]%Hno].
Qed.

Lemma check_scenarios_ok index raws seen :
  check_scenarios index raws seen = Ok [] ↔
    ∃ ids, Forall2 scenario_of raws ids ∧ NoDup ids ∧ ∀ id, id ∈ ids → id ∉ seen.
Proof.
  revert index seen. induction raws as [|raw raws IH]; intros index seen; cbn [check_scenarios].
  { split; [|done]. intros _. exists []. split; [done|]. split; [constructor|].
    by intros id ?%elem_of_nil. }
  split.
  - intros E. destruct (check_scenario index raw seen) as [[errors seen1]|e] eqn:Hraw; [|done].
    cbn [mbind res_bind] in E.
    destruct (check_scenarios _ raws seen1) as [rest|e] eqn:Hrest; [|done].
    injection E as [-> ->]%app_nil. apply check_scenario_ok in Hraw as (id & Hid & Hnew & ->).
    apply IH in Hrest as (ids & Hids & Hnd & Hfresh). exists (id :: ids).
    split; [by constructor|]. split.
    + constructor; [|done]. intros Hin. destruct (Hfresh id Hin). by left.
    + intros x [->|Hx]%elem_of_cons; [done|]. intros Hs. destruct (Hfresh x Hx). by right.
  - intros (ids & Hall & Hnd & Hfresh).
    apply Forall2_cons_inv_l in Hall as (id & ids' & Hid & Hids & ->).
    apply NoDup_cons in Hnd as [Hin Hnd].
    rewrite (proj2 (check_scenario_ok index raw seen (id :: seen))).
    2: { exists id. split; [done|]. split; [|done]. apply Hfresh. by left. }
    cbn [mbind res_bind]. rewrite (proj2 (IH (index + 1) (id :: seen))); [done|].
    exists ids'. split; [done|]. split; [done|]. intros x Hx [->|Hs]%elem_of_cons; [done|].
    apply (Hfresh x); [by right|done].
Qed.

Lemma version_ok v : py_eq v (VStr "1.0") = true ↔ v = VStr "1.0".
Proof.
  destruct v as [| | |f|s| | |]; try (split; [by vm_compute|done]); [by destruct f|].
  change ((s =? "1.0")%string = true ↔ VStr s = VStr "1.0"). rewrite String.eqb_eq. naive_solver.
Qed.

(** A registry passes exactly when it is well formed: its version is the known
    one, its scenarios are objects with all the fields, distinct ids, known
    statuses, and a test that exists exactly where one is shipped. *)
Lemma registry_passes_iff registry :
  validate_registry registry = Ok [] ↔ well_formed registry.
Proof.
  unfold validate_registry, well_formed. pose proof (version_ok (dict_get "schemaVersion" registry)) as Hv.
  destruct (dict_get "scenarios" registry) as [| | | | |l| |] eqn:El;
    try (split; [by destruct (py_eq _ _)|by intros (_ & ? & ? & [=] & _)]).
  split.
  - intros E. destruct (check_scenarios 0 l []) as [rest|] eqn:Hl; [|done].
    cbn [mbind res_bind] in E. injection E as [E ->]%app_nil.
    destruct (py_eq _ _); [|done]. split; [by apply Hv|].
    apply check_scenarios_ok in Hl as (ids & Hids & Hnd & _). by exists l, ids.
  - intros (E & l' & ids & [= <-] & Hids & Hnd). rewrite (proj2 Hv E).
    rewrite (proj2 (check_scenarios_ok 0 l [])); [done|].
    exists ids. split_and!; [done|done|]. by intros id _ ?%elem_of_nil.
Qed.

(** C27: the validator is exact.  The script ends with status 0 exactly when the file
    decodes to a well-formed registry: of the known version, with distinct ids, all
    the fields, known statuses, and a test that exists in the repository exactly
    where one is shipped.  It then says so; with status 1 it lists the errors. *)
Theorem matrix_exit_status registry_file out code out' :
  main registry_file out = (Ok code, out') →
  ∃ content registry errors, registry_file = Ok content ∧ loads content = Ok (VDict registry)
    ∧ validate_registry registry = Ok errors
    ∧ ((code = 0 ∧ well_formed registry ∧ out' = out ++ ["Support-matrix validation passed."])
       ∨ (code = 1 ∧ ¬ well_formed registry
          ∧ out' = out ++ "Support-matrix validation failed:" :: ((λ e, "- " +:+ e) <$> errors))).
Proof.
  unfold main. intros E.
  apply prog_bind_ok in E as (content & out1 & [-> ->]%lift_ok & E).
  apply prog_bind_ok in E as (v & out1 & [Hv ->]%lift_ok & E).
  apply prog_bind_ok in E as (d & out1 & [Hd ->]%lift_ok & E).
  apply prog_bind_ok in E as (errors & out1 & [He ->]%lift_ok & E).
  destruct v as [| | | | | |d'|]; try done. injection Hd as ->.
  exists content, d, errors. split_and!; [done|done|done|].
  pose proof (registry_passes_iff d) as Hw. rewrite He in Hw. destruct errors as [|e errors].
  - left. injection E as <- <-. split; [done|]. split; [by apply Hw|done].
  - right. rewrite <- Hw.
    unfold mbind, prog_bind in E. cbv beta iota delta [print modify] in E.
    rewrite print_all_run in E. injection E as <- <-. split_and!; [done|done|]. by rewrite <- app_assoc.
Qed.
End registry.

(** ** Examples *)

Definition sample_scenario (status : pyval) : pyval := VDict (dict_of [
  ("id", VStr "PSV-1"); ("phase", VStr "phase-1"); ("severity", VStr "P0");
  ("test", VStr "tests/test_a.py::test_pays"); ("environment", VStr "offline"); ("status", status)]).
Definition sample_registry (scenarios : list pyval) : pydict := dict_of [
  ("schemaVersion", VStr "1.0"); ("scenarios", VList scenarios)].
(** A repository with one test module. *)
Notation validate := (validate_registry (λ path, bool_decide (path = "tests/test_a.py")) Ok
                        (λ _, Ok [OtherStmt; FunctionDef "test_pays"])).

Example shipped_scenario_passes :
  validate (sample_registry [sample_scenario (VStr "implemented")]) = Ok [].
Proof. vm_compute. done. Qed.

Example errors_are_listed :
  validate (sample_registry [sample_scenario (VStr "implemented"); VNone;
                             sample_scenario (VStr "planned"); VDict (dict_of [("id", VNone)])])
  = Ok ["scenario 1 must be an object"; "duplicate scenario id: PSV-1";
        "PSV-1: non-shipped scenarios must use a null test";
        "scenario 3 is missing ['environment', 'phase', 'severity', 'status', 'test']"].
Proof. vm_compute. done. Qed.

Definition sample_text : string :=
  match dumps plain (VDict (sample_registry [sample_scenario (VStr "implemented")])) with
  | Ok text => text
  | Raise _ => ""
  end.
Notation run_main := (main (λ path, bool_decide (path = "tests/test_a.py")) Ok
                        (λ _, Ok [OtherStmt; FunctionDef "test_pays"]) (Ok sample_text) []).

Lemma matrix_exit_status_witness :
  ∃ registry, loads sample_text = Ok (VDict registry)
    ∧ well_formed (λ path, bool_decide (path = "tests/test_a.py")) Ok
        (λ _, Ok [OtherStmt; FunctionDef "test_pays"]) registry.
Proof.
  assert (run_main.1 = Ok 0) as E by (vm_compute; reflexivity).
  destruct run_main as [r out'] eqn:Erun. simpl in E. subst r.
  destruct (matrix_exit_status _ _ _ _ _ _ _ Erun)
    as (content & registry & errors & Hc & Hl & _ & [(_ & Hw & _)|([=] & _)]).
  injection Hc as <-. exists registry. exact (conj Hl Hw).
Defined.

(** A status that is a list is not reported: hashing it raises. *)
Example list_status_escapes :
  validate (sample_registry [sample_scenario (VList [])]) = raise TypeError "unhashable type: 'list'".
Proof. vm_compute. done. Qed.
