(* ===== verification/PublicRepo.v ===== *)
(** * What must not be published ([src/tools/check_public_repo.py])

    The files that git lists are searched, line by line, for patterns of local
    paths and internal names.  The script finds exactly the lines that hold one.

    The output of git and the files are parameters. *)

From S2P Require Import Prelude PyStr PyText PyRe Script.
From S2P Require RunRecord.
Local Open Scope Z_scope.

Definition slash : re := Char "/".
Definition user_path_re : re :=
  Seq (Class (λ c, between 97 122 (lower_char c))) (Seq (Char ":")
    (Seq (Class (λ c, Ascii.eqb c "092" || Ascii.eqb c "/")) (Seq (text_i "users")
       (Class (λ c, Ascii.eqb c "092" || Ascii.eqb c "/"))))).
Definition FORBIDDEN : list (string * re) := [
  ("Windows user path", user_path_re);
  ("Unix user path",
     Seq slash (Seq (Alt (text "home") (text "users"))
       (Seq slash (Seq (Plus (λ c, negb (Ascii.eqb c "/") && negb (str_space c))) slash))));
  ("WSL mount path",
     Seq (text_i "/mnt/") (Seq (Class (λ c, between 97 122 (lower_char c))) slash));
  ("portfolio workspace name", text_i "cryptodominance");
  ("internal instruction reference",
     Seq Boundary (Seq (Alt (text "CLAUDE") (text "AGENTS")) (Seq (text ".md") Boundary)));
  ("personal attribution outside public handle",
     Seq Boundary (Seq (text "Mario") (Seq (opt (text "'s")) Boundary)))].
Definition SCAN_EXCLUSIONS : list string := [".gitignore"; "tools/check_public_repo.py"].

Section scan.
(** What [git ls-files] prints, if it succeeds; which paths are files, and their
    bytes, under the root of the repository. *)
Context (git_ls_files : res (list Z)) (is_file : string → bool) (read_bytes : string → res (list Z)).

(** [output.split(b"\0")] *)
Fixpoint split_nul (bytes : list Z) : list (list Z) :=
  match bytes with
  | [] => [[]]
  | b :: bytes =>
      if b =? 0 then [] :: split_nul bytes
      else match split_nul bytes with x :: l => (b :: x) :: l | [] => [[b]] end
  end.

(** The paths, relative to the root; a name is decoded unless it is empty. *)
Definition tracked_files : res (list string) :=
  output ← git_ls_files;
  names ← map_res (λ item, s ← decode_utf8 item; Ok (str_replace (String "092" "") "/" s))
            (filter (λ item, item ≠ []) (split_nul output));
  Ok (filter (λ relative, relative ∉ SCAN_EXCLUSIONS) names).

Definition finding (path : string) (line_number : Z) (label : string) : string :=
  path +:+ ":" +:+ str_of_Z line_number +:+ ": " +:+ label.

Fixpoint scan_lines (path : string) (line_number : Z) (lines : list string) : list string :=
  match lines with
  | [] => []
  | line :: lines =>
      ((λ f, finding path line_number f.1) <$> filter (λ f, search f.2 line = true) FORBIDDEN)
      ++ scan_lines path (line_number + 1) lines
  end.

Definition file_text (path : string) : res string :=
  bytes ← read_bytes path; RunRecord.read_text bytes.

(** Text that cannot be read is not searched. *)
Definition scan_file (path : string) : res (list string) :=
  if negb (is_file path) then Ok []
  else
    text ← try_except (Some <$> file_text path) [OSError; UnicodeDecodeError] (λ _, Ok None);
    Ok (match text with
        | Some text => scan_lines path 1 (RunRecord.splitlines text)
        | None => []
        end).

Definition main : script Z :=
  paths ← lift tracked_files;
  found ← lift (map_res scan_file paths);
  let findings := mjoin found in
  match findings with
  | [] => print "Public-repository sanitation passed." ;; mret 0
  | _ =>
      print "Public-repository sanitation failed:" ;;
      print_all ((λ f, "- " +:+ f) <$> findings) ;;
      mret 1
  end.

(** ** Lemmas *)

Lemma elem_of_scan_lines f path n lines :
  f ∈ scan_lines path n lines ↔
    ∃ i line label r, lines !! i = Some line ∧ (label, r) ∈ FORBIDDEN ∧ search r line = true
      ∧ f = finding path (n + Z.of_nat i) label.
Proof.
  revert n. induction lines as [|line lines IH]; intros n; cbn [scan_lines].
  { split; [by intros ?%elem_of_nil|by intros ([] & ? & ? & ? & [=] & _)]. }
  rewrite elem_of_app, list_elem_of_fmap, IH. split.
  - intros [([label r] & -> & [Hr Hin]%list_elem_of_filter)|(i & l & label & r & Hi & Hin & Hr & ->)].
    + exists 0%nat, line, label, r. split_and!; try done. f_equal. lia.
    + exists (S i), l, label, r. split_and!; try done. f_equal. lia.
  - intros ([|i] & l & label & r & Hi & Hin & Hr & ->).
    + injection Hi as ->. left. exists (label, r). split; [f_equal; lia|]. by apply list_elem_of_filter.
    + right. exists i, l, label, r. split_and!; try done. f_equal. lia.
Qed.

(** The text of a file that is searched: one that is there and can be read. *)
Definition searched (path text : string) : Prop :=
  is_file path = true ∧ file_text path = Ok text.

(** A line of a searched file that matches a forbidden pattern. *)
Definition leak (path : string) (line_number : Z) (label : string) : Prop :=
  ∃ text i line r, searched path text ∧ RunRecord.splitlines text !! i = Some line
    ∧ line_number = 1 + Z.of_nat i ∧ (label, r) ∈ FORBIDDEN ∧ search r line = true.

Lemma scan_file_ok path findings :
  scan_file path = Ok findings →
  ∀ f, f ∈ findings ↔ ∃ n label, f = finding path n label ∧ leak path n label.
Proof.
  unfold scan_file, leak, searched. destruct (is_file path); cbn [negb].
  2: { intros [= <-] f. split; [by intros ?%elem_of_nil|by intros (? & ? & _ & ? & ? & ? & ? & [[=] _] & _)]. }
  destruct (file_text path) as [text|e]; unfold try_except; cbn [fmap res_fmap mbind res_bind].
  - intros [= <-] f. rewrite elem_of_scan_lines. split.
    + intros (i & line & label & r & Hi & Hin & Hr & ->). eexists _, label. split; [done|].
      by exists text, i, line, r.
    + intros (n & label & -> & t & i & line & r & [_ [= <-]] & Hi & -> & Hin & Hr). by exists i, line, label, r.
  - destruct (existsb _ _); [|done]. intros [= <-] f.
    split; [by intros ?%elem_of_nil|by intros (? & ? & _ & ? & ? & ? & ? & [_ [=]] & _)].
Qed.

(** The script finds exactly the leaks of the files that git lists, names each by
    file, line and pattern, and exits with 0 exactly when there is none. *)
Theorem sanitation_finds_every_leak out code out' :
  main out = (Ok code, out') →
  ∃ paths findings, tracked_files = Ok paths
    ∧ (∀ f, f ∈ findings ↔ ∃ path n label, path ∈ paths ∧ f = finding path n label ∧ leak path n label)
    ∧ ((code = 0 ∧ findings = [] ∧ out' = out ++ ["Public-repository sanitation passed."])
       ∨ (code = 1 ∧ findings ≠ []
          ∧ out' = out ++ "Public-repository sanitation failed:" :: ((λ f, "- " +:+ f) <$> findings))).
Proof.
  unfold main. intros E.
  apply prog_bind_ok in E as (paths & out1 & [Hp ->]%lift_ok & E).
  apply prog_bind_ok in E as (found & out1 & [Hf ->]%lift_ok & E).
  exists paths, (mjoin found). split; [done|]. split.
  - apply map_res_ok in Hf. intros f.
    rewrite list_elem_of_join. split.
    + intros (fs & Hin & [i Hi]%list_elem_of_lookup).
      destruct (Forall2_lookup_r _ _ _ _ _ Hf Hi) as (path & Hpath & Hfs).
      apply (scan_file_ok _ _ Hfs) in Hin as (n & label & -> & Hleak).
      exists path, n, label. split; [|done]. by eapply list_elem_of_lookup_2.
    + intros (path & n & label & [i Hi]%list_elem_of_lookup & -> & Hleak).
      destruct (Forall2_lookup_l _ _ _ _ _ Hf Hi) as (fs & Hfs & Hscan).
      exists fs. split; [|by eapply list_elem_of_lookup_2].
      apply (scan_file_ok _ _ Hscan). by exists n, label.
  - destruct (mjoin found) as [|f0 findings]; [left|right].
    + by injection E as <- <-.
    + unfold mbind, prog_bind in E. cbv beta iota delta [print modify] in E.
      rewrite print_all_run in E. injection E as <- <-. split_and!; [done|done|]. by rewrite <- app_assoc.
Qed.
End scan.

(** ** Examples *)

Definition scan (line : string) : list string := scan_lines "a.md" 1 [line].

Example local_paths_are_found :
  scan "see C:\Users\me\notes" = ["a.md:1: Windows user path"]
  ∧ scan "cd /home/me/psv" = ["a.md:1: Unix user path"]
  ∧ scan "cd /home/" = [] ∧ scan "read AGENTS.md." = ["a.md:1: internal instruction reference"]
  ∧ scan "read AGENTS.mdx" = [].
Proof. vm_compute. done. Qed.

(** The pattern for a user's directory has no [IGNORECASE]: the home directories
    of macOS are not found. *)
Example mac_home_is_missed : scan "cd /Users/me/psv" = [].
Proof. vm_compute. done. Qed.
