(* ===== verification/FunctionDocs.v ===== *)
(** * Docstrings of functions ([src/tools/check_function_docs.py])

    Every function of the scanned files, nested ones and methods included, needs a
    docstring: the script finds nothing exactly when all have one, for its walk
    meets every node of a tree once.

    The files, Python's parser and its reading of a docstring are parameters: a
    tree comes with the docstring that [ast.get_docstring] gives. *)

From S2P Require Import Prelude PyStr PyText PyVal PyJson Script.
From S2P Require RunRecord.
Local Open Scope Z_scope.

(** A function as the script reads it: [lineno], [name] and
    [ast.get_docstring(node, clean=True)]. *)
Record function := { lineno : Z; name : string; docstring : option string }.
(** A node of a syntax tree: the function it defines, if it is one, and
    [ast.iter_child_nodes]. *)
Inductive node := Node (defines : option function) (children : list node).

Record MissingFunctionDoc := { path : list string; line : Z; missing_name : string }.

(** [ast.walk]: breadth first, from a queue *)
Fixpoint walk (fuel : nat) (todo : list node) : list (option function) :=
  match fuel, todo with
  | S fuel, Node f children :: todo => f :: walk fuel (todo ++ children)
  | _, _ => []
  end.
(** The nodes of a tree in reading order. *)
Fixpoint nodes (tree : node) : list (option function) :=
  match tree with Node f children => f :: (children ≫= nodes) end.
Definition ast_walk (tree : node) : list (option function) := walk (length (nodes tree)) [tree].

(** The first line of the docstring holds something. *)
Definition documented (f : function) : bool :=
  match docstring f with
  | Some doc => match RunRecord.splitlines doc with
                | first :: _ => negb (strip first =? "")%string
                | [] => false
                end
  | None => false
  end.

(** The order of the findings of one file, and of paths by their parts. *)
Definition doc_le (a b : MissingFunctionDoc) : bool :=
  if line a =? line b then String.leb (missing_name a) (missing_name b) else line a <? line b.
Fixpoint path_le (a b : list string) : bool :=
  match a, b with
  | [], _ => true
  | _ :: _, [] => false
  | x :: a, y :: b => if (x =? y)%string then path_le a b else String.leb x y
  end.

Section check.
(** The Python files under the scanned roots, in the order the file system lists
    them, and the tree of each. *)
Context (rglob : list (list string)) (parse_file : list string → res node).

Definition python_files : list (list string) := sorted_by path_le rglob.

Definition missing_function_docs (path : list string) : res (list MissingFunctionDoc) :=
  tree ← parse_file path;
  Ok (sorted_by doc_le
        ((λ f, {| path := path; line := lineno f; missing_name := name f |})
         <$> filter (λ f, documented f = false) (omap id (ast_walk tree)))).

Definition check_function_docs : res (list MissingFunctionDoc) :=
  found ← map_res missing_function_docs python_files;
  Ok (mjoin (found : list (list MissingFunctionDoc))).

Definition function_count : res Z :=
  counts ← map_res (λ path, tree ← parse_file path;
                            Ok (Z.of_nat (length (omap id (ast_walk tree))))) python_files;
  Ok (foldr Z.add 0 counts).

Definition main : script Z :=
  findings ← lift check_function_docs;
  match findings with
  | [] =>
      count ← lift function_count;
      print ("Function documentation check passed (" +:+ str_of_Z count +:+ " functions).") ;;
      mret 0
  | _ =>
      print "Function documentation check failed:" ;;
      print_all ((λ f, "- " +:+ join "/" (path f) +:+ ":" +:+ str_of_Z (line f) +:+ ": "
                       +:+ missing_name f) <$> findings) ;;
      mret 1
  end.

(** ** Lemmas *)

Lemma walk_nodes fuel todo :
  fuel = length (todo ≫= nodes) → walk fuel todo ≡ₚ todo ≫= nodes.
Proof.
  revert todo. induction fuel as [|fuel IH]; intros [|[f children] todo]; try done.
  change ((Node f children :: todo) ≫= nodes) with (f :: (children ≫= nodes) ++ (todo ≫= nodes)).
  simpl length. intros [= Hn]. cbn [walk]. constructor. rewrite length_app in Hn.
  rewrite IH; rewrite bind_app; [by rewrite Permutation_app_comm|]. rewrite length_app. lia.
Qed.

(** The walk meets every node of the tree, once. *)
Lemma ast_walk_nodes tree : ast_walk tree ≡ₚ nodes tree.
Proof.
  unfold ast_walk. rewrite walk_nodes; simpl; by rewrite app_nil_r.
Qed.

Lemma missing_none p fs :
  missing_function_docs p = Ok fs →
  fs = [] ↔ ∀ tree f, parse_file p = Ok tree → Some f ∈ nodes tree → documented f = true.
Proof.
  unfold missing_function_docs. destruct (parse_file p) as [tree|] eqn:Ep; [|done]. intros [= <-].
  set (found := filter _ _).
  transitivity (found = []).
  { split; [|by intros ->]. intros E. eapply fmap_nil_inv, Permutation_nil_r.
    rewrite <- E. by rewrite sorted_by_perm. }
  split.
  - intros E tree' f [= <-] Hf. destruct (documented f) eqn:Hd; [done|].
    assert (f ∈ found) as Hin; [|rewrite E in Hin; by apply elem_of_nil in Hin].
    apply list_elem_of_filter. split; [done|]. apply list_elem_of_omap. exists (Some f).
    split; [|done]. by rewrite ast_walk_nodes.
  - intros Hall. destruct found as [|f l] eqn:E; [done|].
    assert (f ∈ found) as Hin by (rewrite E; by left).
    apply list_elem_of_filter in Hin as [Hd ([f'|] & Hin & [= ->])%list_elem_of_omap].
    rewrite ast_walk_nodes in Hin. by rewrite (Hall tree f) in Hd.
Qed.

(** Every function of a scanned file, nested ones and methods included, has a
    docstring whose first line is not blank, exactly when nothing is found. *)
Theorem docs_complete_iff findings :
  check_function_docs = Ok findings →
  findings = [] ↔
    ∀ path tree f, path ∈ rglob → parse_file path = Ok tree → Some f ∈ nodes tree →
      documented f = true.
Proof.
  unfold check_function_docs. intros E. destruct (map_res _ _) as [found|] eqn:Ef; [|done].
  injection E as <-. apply map_res_ok in Ef. rewrite join_nil, Forall_forall. split.
  - intros Hnil p tree f [i Hi]%(elem_of_sorted_by path_le)%list_elem_of_lookup Ht Hf.
    destruct (Forall2_lookup_l _ _ _ _ _ Ef Hi) as (fs & Hfs & Hp).
    apply (proj1 (missing_none p fs Hp)) with tree; [|done|done].
    apply Hnil. by eapply list_elem_of_lookup_2.
  - intros Hall fs [i Hi]%list_elem_of_lookup.
    destruct (Forall2_lookup_r _ _ _ _ _ Ef Hi) as (p & Hp & Hfs).
    apply (missing_none p fs Hfs). intros tree f. apply Hall.
    apply (elem_of_sorted_by path_le). by eapply list_elem_of_lookup_2.
Qed.
End check.
